(* ===== verification/_CoqProject ===== *)
-Q . S2P
Prelude.v
Go.v
Prog.v
Net.v
Sdk.v
Types.v
Cloud.v
Ledger.v
Scope.v
Client.v
Vpc.v
Vpcgw.v
SecurityGroup.v
LoadBalancer.v
Instance.v
Secret.v
ClusterController.v
MachineController.v
ClusterWebhook.v
MachineWebhook.v
Simulation.v
NoDuplicates.v
ClusterValidation.v
MachineValidation.v
Bringup.v
Teardown.v
ControlPlane.v
Firewall.v
ClusterTeardown.v
Controllers.v
NoLeak.v
Lifecycle.v
Networks.v
MachinePass.v
MachineLifecycle.v
Convergence.v
Progress.v
MachineProgress.v
Effort.v
Interleaving.v
Frame.v
Replay.v
SettledGroups.v
SettledNetwork.v
SettledBalancer.v
Settling.v
MachineConvergence.v
MachineReplay.v
MachineSettling.v
Neighbours.v
Steady.v
Main.v
Heap.v
DeepCopy.v
