(* ===== verification/Prelude.v ===== *)
(** * Verification of cluster-api-provider-scaleway

    The repository is a Cluster API infrastructure provider: a Kubernetes operator that
    keeps the Scaleway resources of a cluster (Private Network, Public Gateway, load
    balancer, security groups) and of its machines (servers with their flexible IPs,
    private NICs and volumes) as the objects [ScalewayCluster] and [ScalewayMachine]
    describe.  This development models its Go code, function by function, and proves what
    its passes do against any behaviour of the APIs they call.

    ** How the program is modelled

    A pass of a controller is a Go function that calls remote APIs (the Scaleway SDK, the
    Kubernetes API), mutates an object in memory and returns an error.  It is a value of
    [GoC S A] ([Prog], [Cloud]): a tree of calls that threads the object [S] and ends with
    a result, an error or a panic ([Go.outcome]).  The remote side is an oracle, a function
    from the history of the calls to the next answer; a theorem that quantifies over all
    oracles holds whatever the APIs answer, errors included, and the theorems that need
    more say which answers they rely on as a predicate ([rely]) on single answers, that a
    concrete oracle of the witnesses satisfies.  [wpM R G m h s Q] is the program logic:
    from the history [h] and the object [s], under the rely [R], every call that [m] makes
    satisfies the guarantee [G] (which may look at the history so far) and [m] ends in
    [Q].  A loop of the sources is a recursion on the list it ranges over, without fuel, and
    [Effort.pass_ends] bounds the calls of a pass.  The only fuel is in [Net], in the
    library function that parses an IPv6 address (8: a turn reads two of the sixteen
    bytes, and the loop stops at sixteen) and in the printing of a group (4 digits).

    ** Files and the code they model

    - [Prelude]: notations, hint databases, lemmas on lists and strings, tactics.
    - [Go]: errors and [errors.Is]/[As], results and panics, [uint32]/[uint64], [Atoi],
      [strings], slices of pointers; [Net]: [netip.ParseAddr], [net.ParseCIDR], [IP.String], [IPNet.String].
    - [Prog]: trees of calls, oracles, the program logic; [Cloud]: one constructor per
      remote call; [Sdk]: the data and the pure functions of the libraries ([ScwSDK],
      [K8sLib] and its laws [K8sLaws]), as type classes.
    - [Types]: [api/v1beta1/scalewaycluster_types.go], [scalewaymachine_types.go].
    - [ClusterWebhook], [MachineWebhook]: [api/v1beta1/*_webhook.go].
    - [Scope]: [internal/scope/cluster.go], [machine.go].
    - [Client]: [internal/service/scaleway/client]; each lookup is an instance of the
      class [Finder], through which the services are proved.
    - [Vpc], [Vpcgw], [SecurityGroup], [LoadBalancer], [Instance]: the packages of the same
      names under [internal/service/scaleway].
    - [Secret], [ClusterController], [MachineController]: [internal/controller].
    - [Main]: [cmd/main.go], with [SetupWithManager] and [SetupWebhookWithManager].
    - [Heap], [DeepCopy]: [api/v1beta1/zz_generated.deepcopy.go], the template types and
      their registration, over Go memory.

    In these files every definition translates the lines PROJECT.json maps it to: guards,
    early returns, wrapping of errors, nil dereferences (as [Panic]) and the order of the
    calls are the code's.  A method on a pointer to a scope is a computation over the
    scope; [defer] is [with_deferred], which runs after panics too.

    ** What the theorems show

    - [Ledger], [NoDuplicates], [NoLeak]: the abstract project (the resources whose
      creation succeeded and no deletion since).  Over any sequence of passes of both
      controllers nothing is ever created twice; when a deletion ends, whatever calls failed
      before, nothing of the cluster is left but parts that go with their parent.
    - [Bringup], [Teardown], [MachinePass]: order of the calls and outcome of the passes
      over a machine, on the load balancer of its cluster and nowhere else; the server
      created is the one the spec describes.
    - [ControlPlane], [Firewall], [Networks], [ClusterTeardown]: the same for the services
      of a cluster; the comparison of rules against a declarative one.
    - [Controllers]: finalizer before any mutation, object written back as a pass ends
      with it, however it ends; readiness only with an endpoint.
    - [ClusterValidation], [MachineValidation]: what the webhooks accept, as declarative
      descriptions; what accepted updates keep.
    - [Lifecycle], [MachineLifecycle]: the stored objects as transition systems of users,
      webhook, API server and controller; invariants of the reachable objects; refinement
      of an abstract life cycle.
    - [Convergence], [Frame], [Replay], [Settled*], [Settling]: when a project is
      [settled], that is as the spec of the cluster asks; a pass over a settled project
      leaves it so, and a pass that succeeds settles the project it started from, service
      by service.  The passes are not silent: [ensureACL] compares new pointers with old
      ones ([Sdk.match_differs]), so that each access control list is written again as it
      is ([restates]) in every pass, which the theorems allow and nothing else.
    - [MachineConvergence], [MachineReplay], [MachineSettling]: the same for a machine that
      is up.  [Frame] is the interface of both: a state that histories change in parts.
    - [Progress], [MachineProgress], [Effort]: in a cooperating environment every pass
      reaches its goal or waits for a named reason; every pass ends after a bounded number
      of calls.
    - [Interleaving]: passes that run at the same time; [Neighbours]: what the passes over a
      machine leave alone; [Steady]: the whole manager, whose calls spare the others or
      restate their lists ([peaceful]), keeps a settled cluster and a machine that is up.
    - [Main]: the process starts the manager with everything set up, or exits.
    - [DeepCopy]: the generated copies share no memory with the original.  [Heap] has the
      class [Copier] through which the copies of nested types are composed.
    - [Simulation]: a concrete project on which the witnesses evaluate the passes.

    ** Assumptions

    The relies are: [read_your_writes] (a listing shows the live resources it asks for),
    [servers_in_zone], [exact_listings] (for [NoLeak]: under their identifiers and nothing
    else), [shows], [observes], [machine_shows], [sees], [faithful] and [machine_faithful] (for convergence:
    listings show the project, as the calls made it; the addresses that IPAM has for a NIC
    do not change during a pass), [available], [deletable], [machine_available], [machine_deletable] (for
    progress: calls succeed and what the user named exists), [identified], [stored],
    [stored_cluster] and [manager_rely] (for [Steady]: an identifier or an address is of one
    machine for good, and the API server shows the objects of the cluster and the machine;
    [unique_acls]: the identifier of an access control list is of one list), [no_address], and [holds] and
    [serves] (the API server returns the stored object, for the life cycles).  The classes
    of [Sdk] stand for third-party code: [text/template], whose parsing and execution may
    fail, [uuid], the parsing and region
    tables of the SDK, the finalizer and owner helpers of controller-runtime; [K8sLaws]
    states the documented behaviour of the latter.  A user of a stored cluster leaves the
    endpoint to the provider.

    Abstractions: error texts are constants (what [errors.Is] and [As] see is kept);
    the bad value of a field error is dropped; logging is left out; [int] has 64 bits; a
    map that the code only ranges over ([server.Volumes]) is the list in the order of the
    visit; [Get] leaves the zero object when it fails; the sub-resources of a load
    balancer are identified by the identifier of their parent; the constant fields of a
    request are left out of the calls; a patch helper is the object it was created for.

    ** Not modelled

    The tests and the manifests of [config].  Aliasing is modelled in [Heap] and [DeepCopy],
    and where addresses are compared ([Go.Equal_StringSlicePtr]): elsewhere an object is a
    value, which the generated copies justify for what the API machinery keeps.

    ** What is left

    The ownership of the secret along passes.
*)

From stdpp Require Export base tactics list strings gmap pretty.
From Stdlib Require Export ZArith Lia.
From Stdlib Require Export Ascii.

#[global] Open Scope Z_scope.
#[global] Set Warnings "-clear-no-such-hyp".

(** ** Notations

    [caps_scope] holds the notations of the development; each file that
    uses them opens it locally. *)
Declare Scope caps_scope.
Delimit Scope caps_scope with caps.

(** String equality as a boolean, the way [==] on Go strings is used. *)
Notation "s =?s t" := (String.eqb s t) (at level 70, no associativity) : caps_scope.

#[local] Open Scope caps_scope.

(** ** Hint databases *)

(** [caps]: facts about lists, options and strings that close side goals. *)
Create HintDb caps discriminated.
(** [caps_wp]: the specifications of the modelled operations, applied by the
    program-logic tactics of [Prog]. *)
Create HintDb caps_wp.
(** [caps_rw]: rewriting rules for strings and conversions. *)
Create Rewrite HintDb caps_rw.

(** ** Strings *)

Lemma String_eqb_refl (s : string) : (s =?s s) = true.
Proof. apply String.eqb_refl. Qed.

Lemma String_eqb_true (s t : string) : (s =?s t) = true <-> s = t.
Proof. apply String.eqb_eq. Qed.

Lemma String_eqb_false (s t : string) : (s =?s t) = false <-> s <> t.
Proof. apply String.eqb_neq. Qed.

Lemma append_inj_l (p s t : string) : p +:+ s = p +:+ t -> s = t.
Proof. apply (inj _). Qed.

Lemma append_cons (c : ascii) (s t : string) :
  String c s +:+ t = String c (s +:+ t).
Proof. reflexivity. Qed.

Lemma append_char (c : ascii) (s : string) : String c EmptyString +:+ s = String c s.
Proof. reflexivity. Qed.

Lemma append_assoc (a b c : string) : (a +:+ b) +:+ c = a +:+ (b +:+ c).
Proof.
  induction a as [|x a IH]; [done|]. rewrite !append_cons. by rewrite IH.
Qed.

Lemma append_nil_r (s : string) : s +:+ EmptyString = s.
Proof. induction s as [|c s IH]; [done|]. rewrite append_cons. by rewrite IH. Qed.

#[export] Hint Resolve String_eqb_refl append_inj_l : caps.
#[export] Hint Rewrite String_eqb_refl append_nil_r append_assoc : caps_rw.

(** ** Lists searched by a loop

    [for _, x := range xs { if p(x) { return x } }] is [List.find p xs]. *)

Lemma find_Some_iff {A} (p : A -> bool) (l : list A) x :
  List.find p l = Some x -> x ∈ l /\ p x = true.
Proof.
  intros H. apply List.find_some in H as [Hin Hp].
  split; [by apply list_elem_of_In | done].
Qed.

Lemma find_None_iff {A} (p : A -> bool) (l : list A) :
  List.find p l = None <-> forall x, x ∈ l -> p x = false.
Proof.
  split.
  - intros H x Hx. apply List.find_none with (x := x) in H; [done|].
    by apply list_elem_of_In.
  - intros H. destruct (List.find p l) eqn:E; [|done].
    apply find_Some_iff in E as [Hin Hp]. rewrite (H _ Hin) in Hp. done.
Qed.

Lemma find_is_Some {A} (p : A -> bool) (l : list A) x :
  x ∈ l -> p x = true -> is_Some (List.find p l).
Proof.
  intros Hin Hp. destruct (List.find p l) eqn:E; [eauto|].
  rewrite find_None_iff in E. rewrite (E _ Hin) in Hp. done.
Qed.

Lemma existsb_elem_of {A} (p : A -> bool) (l : list A) :
  List.existsb p l = true <-> exists x, x ∈ l /\ p x = true.
Proof.
  rewrite List.existsb_exists.
  split; intros (x & Hx & Hp); exists x; split; auto; by apply list_elem_of_In.
Qed.

Lemma existsb_not_elem_of {A} (p : A -> bool) (l : list A) :
  List.existsb p l = false <-> forall x, x ∈ l -> p x = false.
Proof.
  rewrite <- not_true_iff_false, existsb_elem_of. split.
  - intros H x Hx. apply not_true_iff_false. intros Hp. apply H. eauto.
  - intros H (x & Hx & Hp). rewrite (H _ Hx) in Hp. done.
Qed.

Lemma names_differ {A} (name : A -> string) (n : string) (l : list A) :
  (forall x, x ∈ l -> (name x =?s n) = false) -> forall x, x ∈ l -> name x <> n.
Proof. intros H x Hx. by apply String_eqb_false, H. Qed.

(** Position of the first element satisfying [p]: [slices.IndexFunc], with
    [None] for -1. *)
Fixpoint IndexFunc {A} (p : A -> bool) (l : list A) : option nat :=
  match l with
  | [] => None
  | x :: l' => if p x then Some 0%nat else S <$> IndexFunc p l'
  end.

Lemma IndexFunc_find {A} (p : A -> bool) (l : list A) :
  (IndexFunc p l ≫= fun i => l !! i) = List.find p l.
Proof.
  induction l as [|x l IH]; simpl; [done|].
  destruct (p x); simpl; [done|].
  rewrite <- IH. by destruct (IndexFunc p l).
Qed.

Lemma IndexFunc_None {A} (p : A -> bool) (l : list A) :
  IndexFunc p l = None <-> List.find p l = None.
Proof.
  induction l as [|x l IH]; simpl; [done|].
  destruct (p x); simpl; [done|].
  rewrite <- IH. by destruct (IndexFunc p l).
Qed.

(** ** Options *)

Definition opt_default {A} (d : A) (o : option A) : A :=
  match o with Some x => x | None => d end.

Definition is_none {A} (o : option A) : bool :=
  match o with Some _ => false | None => true end.

Definition is_some {A} (o : option A) : bool := negb (is_none o).

(** ** Tactics *)

(** Destructs the discriminee of every [match]/[if] of the goal or of the
    hypotheses, remembering the equation. *)
Ltac break_match :=
  match goal with
  | |- context [match ?x with _ => _ end] => destruct x eqn:?
  | H : context [match ?x with _ => _ end] |- _ => destruct x eqn:?
  end.

(** Turns boolean tests on strings and integers into propositions. *)
Ltac to_prop :=
  repeat match goal with
  | H : (_ =?s _) = true |- _ => apply String_eqb_true in H
  | H : (_ =?s _) = false |- _ => apply String_eqb_false in H
  | H : andb _ _ = true |- _ => apply andb_true_iff in H as [? ?]
  | H : orb _ _ = false |- _ => apply orb_false_iff in H as [? ?]
  | H : negb _ = true |- _ => apply negb_true_iff in H
  | H : negb _ = false |- _ => apply negb_false_iff in H
  | H : (_ <? _)%Z = true |- _ => apply Z.ltb_lt in H
  | H : (_ <? _)%Z = false |- _ => apply Z.ltb_ge in H
  | H : (_ <=? _)%Z = true |- _ => apply Z.leb_le in H
  | H : (_ <=? _)%Z = false |- _ => apply Z.leb_gt in H
  | H : (_ =? _)%Z = true |- _ => apply Z.eqb_eq in H
  | H : (_ =? _)%Z = false |- _ => apply Z.eqb_neq in H
  end.
