(* ===== verification/Go.v ===== *)
(** * The fragment of Go used by the sources

    Errors and error chains ([errors.Is], [errors.As], [fmt.Errorf] with
    [%w]), results of functions returning [(T, error)] together with panics,
    conversions to fixed-width integers, and the functions of [strconv] and
    [strings] the sources call.  Nothing in this file is specific to the
    program; the other files are written with these definitions. *)

From S2P Require Import Prelude.
#[local] Open Scope caps_scope.

(** ** Errors *)

(** An error produced outside the repository (the Scaleway SDK, the Kubernetes
    client).  The sources distinguish two classes of them, through
    [errors.As(err, *scw.PreconditionFailedError)] and [apierrors.IsNotFound]. *)
Inductive api_error :=
| PreconditionFailedError (msg : string)
| NotFoundError (msg : string)
| OtherError (msg : string).

(** The sentinel error variables declared by the packages of the repository. *)
Inductive sentinel :=
| ErrNoItemFound
| ErrTooManyItemsFound
| ErrPrivateIPNotFound
| errMachineHasNoIP
| ErrLoadBalancerNotReady
| ErrBootstrapDataNotReady.

#[export] Instance sentinel_eq_dec : EqDecision sentinel.
Proof. solve_decision. Defined.

(** [field.Error] of the webhooks: type, path, and detail. *)
Inductive path_elem :=
| PName (name : string)
| PIndex (i : nat).

Inductive field_error_type := ErrorTypeInvalid | ErrorTypeDuplicate.

Record field_error := {
  fe_Type : field_error_type;
  fe_Path : list path_elem;
  fe_Detail : string;
}.

Definition field_Invalid (path : list path_elem) (detail : string) : field_error :=
  {| fe_Type := ErrorTypeInvalid; fe_Path := path; fe_Detail := detail |}.

Definition field_Duplicate (path : list path_elem) : field_error :=
  {| fe_Type := ErrorTypeDuplicate; fe_Path := path; fe_Detail := EmptyString |}.

(** Values of type [error]: a sentinel, an external error, [errors.New] at the
    point of use, [apierrors.NewInvalid], or [fmt.Errorf] wrapping a cause. *)
Inductive error :=
| Sentinel (s : sentinel)
| External (e : api_error)
| ErrorsNew (msg : string)
| NewInvalid (kind name : string) (errs : list field_error)
| Errorf (ctx : string) (cause : error).

(** [errors.Is(err, s)] for a sentinel [s]: searches the chain of wrapped errors. *)
Fixpoint errors_Is (err : error) (s : sentinel) : bool :=
  match err with
  | Sentinel s' => bool_decide (s' = s)
  | Errorf _ cause => errors_Is cause s
  | _ => false
  end.

(** [errors.As(err, &pfe)] with [pfe : *scw.PreconditionFailedError]. *)
Fixpoint errors_As_PreconditionFailed (err : error) : bool :=
  match err with
  | External (PreconditionFailedError _) => true
  | Errorf _ cause => errors_As_PreconditionFailed cause
  | _ => false
  end.

(** [apierrors.IsNotFound] on the error returned by the Kubernetes client. *)
Definition IsNotFound (e : api_error) : bool :=
  match e with NotFoundError _ => true | _ => false end.

Definition sentinel_text (s : sentinel) : string :=
  match s with
  | ErrNoItemFound => "no item found"
  | ErrTooManyItemsFound => "expected to find only one item"
  | ErrPrivateIPNotFound => "private IP not found in IPAM"
  | errMachineHasNoIP => "machine has no IP"
  | ErrLoadBalancerNotReady => "loadbalancer is not ready"
  | ErrBootstrapDataNotReady =>
      "error retrieving bootstrap data: linked Machine's bootstrap.dataSecretName is nil"
  end%string.

(** [err.Error()]. *)
Fixpoint error_Error (err : error) : string :=
  match err with
  | Sentinel s => sentinel_text s
  | External (PreconditionFailedError m) | External (NotFoundError m)
  | External (OtherError m) => m
  | ErrorsNew m => m
  | NewInvalid kind name _ => kind +:+ " " +:+ name +:+ " is invalid"
  | Errorf ctx cause => ctx +:+ ": " +:+ error_Error cause
  end%string.

(** ** Outcomes

    A Go function with result [(T, error)] returns a value, returns an error,
    or panics (here: a nil pointer dereference). *)
Inductive outcome (A : Type) :=
| Ok (a : A)
| Err (e : error)
| Panic.
Arguments Ok {A} a.
Arguments Err {A} e.
Arguments Panic {A}.

#[export] Instance outcome_ret : MRet outcome := fun A a => Ok a.
#[export] Instance outcome_bind : MBind outcome := fun A B f m =>
  match m with Ok a => f a | Err e => Err e | Panic => Panic end.
#[export] Instance outcome_fmap : FMap outcome := fun A B f m =>
  match m with Ok a => Ok (f a) | Err e => Err e | Panic => Panic end.

Definition is_Ok {A} (o : outcome A) : bool :=
  match o with Ok _ => true | _ => false end.

Definition is_Panic {A} (o : outcome A) : bool :=
  match o with Panic => true | _ => false end.

(** Pointer dereference [*p]. *)
Definition deref {A} (p : option A) : outcome A :=
  match p with Some a => Ok a | None => Panic end.

(** [fmt.Errorf(ctx + ": %w", err)] applied to the error of an outcome. *)
Definition outcome_wrap {A} (ctx : string) (o : outcome A) : outcome A :=
  match o with Err e => Err (Errorf ctx e) | _ => o end.

Lemma outcome_bind_Ok {A B} (m : outcome A) (f : A -> outcome B) b :
  (m ≫= f) = Ok b <-> exists a, m = Ok a /\ f a = Ok b.
Proof.
  destruct m as [a| |]; split; try (by intros (? & ? & ?)); try done.
  - intros H. by exists a.
  - by intros (? & [= ->] & ?).
Qed.

Lemma errors_Is_Errorf ctx e s : errors_Is (Errorf ctx e) s = errors_Is e s.
Proof. reflexivity. Qed.

Lemma errors_Is_External e s : errors_Is (External e) s = false.
Proof. reflexivity. Qed.

Lemma errors_Is_Sentinel s : errors_Is (Sentinel s) s = true.
Proof. simpl. by rewrite bool_decide_true. Qed.

#[export] Hint Rewrite errors_Is_Errorf errors_Is_External errors_Is_Sentinel : caps_rw.

(** ** Machine integers

    [int] is 64 bits wide on the platforms the manager is built for. *)
Definition max_int64 : Z := 2 ^ 63 - 1.
Definition min_int64 : Z := - 2 ^ 63.

(** Conversions [uint32(n)] and [uint64(n)]: the value modulo 2^w. *)
Definition uint32 (n : Z) : Z := n mod 2 ^ 32.
Definition uint64 (n : Z) : Z := n mod 2 ^ 64.

Lemma uint32_id n : 0 <= n < 2 ^ 32 -> uint32 n = n.
Proof. apply Z.mod_small. Qed.

Lemma uint64_id n : 0 <= n < 2 ^ 64 -> uint64 n = n.
Proof. apply Z.mod_small. Qed.

Lemma uint32_bounds n : 0 <= uint32 n < 2 ^ 32.
Proof. apply Z.mod_pos_bound. lia. Qed.

Lemma uint64_bounds n : 0 <= uint64 n < 2 ^ 64.
Proof. apply Z.mod_pos_bound. lia. Qed.

#[export] Hint Resolve uint32_bounds uint64_bounds : caps.

(** ** [strings.Split] *)

(** [strings.Split(s, sep)] for a one-byte separator. *)
Fixpoint strings_Split (s : string) (sep : ascii) : list string :=
  match s with
  | EmptyString => [EmptyString]
  | String c s' =>
      if Ascii.eqb c sep then EmptyString :: strings_Split s' sep
      else match strings_Split s' sep with
           | [] => [String c EmptyString]
           | w :: ws => String c w :: ws
           end
  end.

(** The bytes of a string. *)
Fixpoint string_chars (s : string) : list ascii :=
  match s with EmptyString => [] | String c s' => c :: string_chars s' end.

Definition has_char (c : ascii) (s : string) : bool :=
  List.existsb (Ascii.eqb c) (string_chars s).

Lemma strings_Split_none s sep :
  has_char sep s = false -> strings_Split s sep = [s].
Proof.
  unfold has_char. induction s as [|c s IH]; simpl; [done|].
  rewrite orb_false_iff. intros [Hc Hs].
  rewrite Ascii.eqb_sym, Hc, IH; done.
Qed.

Lemma strings_Split_app s t sep :
  has_char sep s = false ->
  strings_Split (s +:+ String sep t) sep = s :: strings_Split t sep.
Proof.
  unfold has_char. induction s as [|c s IH].
  - intros _. change (EmptyString +:+ String sep t) with (String sep t).
    simpl. by rewrite Ascii.eqb_refl.
  - rewrite append_cons. simpl. rewrite orb_false_iff. intros [Hc Hs].
    rewrite Ascii.eqb_sym, Hc, IH; done.
Qed.

Lemma strings_Split_nonnil s sep : strings_Split s sep <> [].
Proof. destruct s; simpl; [done|]. by repeat break_match. Qed.

Lemma strings_Split_single s sep a : strings_Split s sep = [a] -> a = s.
Proof.
  revert a. induction s as [|c s IH]; simpl; intros a; [by intros [= <-]|].
  destruct (Ascii.eqb c sep); [by intros [= _ H%strings_Split_nonnil]|].
  destruct (strings_Split s sep) as [|w ws] eqn:E; [by apply strings_Split_nonnil in E|].
  intros [= <- ->]. f_equal. by apply IH.
Qed.

(** No part contains the separator. *)
Lemma strings_Split_elem s sep w : w ∈ strings_Split s sep -> has_char sep w = false.
Proof.
  unfold has_char. revert w. induction s as [|c s IH]; simpl; intros w.
  - rewrite list_elem_of_singleton. by intros ->.
  - destruct (Ascii.eqb_spec c sep) as [->|Hc].
    + rewrite elem_of_cons. intros [->|Hw]; [done|]. auto.
    + assert (Ascii.eqb sep c = false) as Hc' by (by apply Ascii.eqb_neq).
      destruct (strings_Split s sep) as [|w0 ws].
      * rewrite list_elem_of_singleton. intros ->. simpl. by rewrite Hc'.
      * rewrite elem_of_cons. intros [->|Hw]; [|apply IH; set_solver].
        simpl. rewrite Hc'. apply IH. set_solver.
Qed.

(** ** [strconv] *)

Definition digit_val (c : ascii) : Z := Z.of_N (N_of_ascii c) - 48.

Definition is_digit (c : ascii) : bool :=
  (48 <=? Z.of_N (N_of_ascii c)) && (Z.of_N (N_of_ascii c) <=? 57).

(** The value of a string of decimal digits, [acc] being the value read so far. *)
Fixpoint digits_val (acc : Z) (s : string) : option Z :=
  match s with
  | EmptyString => Some acc
  | String c s' =>
      if is_digit c then digits_val (10 * acc + digit_val c) s' else None
  end.

Definition strconv_syntax : error := ErrorsNew "strconv.Atoi: invalid syntax".
Definition strconv_range : error := ErrorsNew "strconv.Atoi: value out of range".

(** [strconv.Atoi]: an optional sign, at least one decimal digit, and a value
    that fits in an [int]. *)
Definition Atoi (s : string) : outcome Z :=
  let '(neg, d) :=
    match s with
    | String c s' =>
        if Ascii.eqb c "-" then (true, s')
        else if Ascii.eqb c "+" then (false, s')
        else (false, s)
    | EmptyString => (false, s)
    end in
  match d with
  | EmptyString => Err strconv_syntax
  | _ =>
      match digits_val 0 d with
      | None => Err strconv_syntax
      | Some n =>
          let v := if neg : bool then - n else n in
          if (min_int64 <=? v) && (v <=? max_int64) then Ok v else Err strconv_range
      end
  end.

(** [strconv.Itoa] on the values the sources print (all nonnegative). *)
Definition Itoa (n : N) : string := pretty n.

Lemma pretty_N_char_digit (x : N) :
  (x < 10)%N ->
  is_digit (pretty_N_char x) = true /\ digit_val (pretty_N_char x) = Z.of_N x.
Proof.
  intros Hx.
  assert (x = 0 \/ x = 1 \/ x = 2 \/ x = 3 \/ x = 4 \/ x = 5 \/ x = 6 \/ x = 7
    \/ x = 8 \/ x = 9)%N as Hcase by lia.
  repeat destruct Hcase as [->|Hcase]; try subst x; vm_compute; auto.
Qed.

Lemma digits_val_pretty_go (x : N) (acc : Z) (s : string) :
  0 <= acc ->
  exists k, 0 < k /\
    digits_val acc (pretty_N_go x s) = digits_val (acc * k + Z.of_N x) s.
Proof.
  revert acc s. induction (N.lt_wf_0 x) as [x _ IH]. intros acc s Hacc.
  destruct (decide (x = 0)%N) as [->|Hx].
  - rewrite pretty_N_go_0. exists 1. split; [lia|]. f_equal. lia.
  - rewrite pretty_N_go_step by lia.
    destruct (IH (x `div` 10)%N ltac:(apply N.div_lt; lia) acc
      (String (pretty_N_char (x `mod` 10)) s) Hacc) as (k & Hk & ->).
    pose proof (N.mod_lt x 10 ltac:(lia)) as Hm.
    destruct (pretty_N_char_digit (x `mod` 10) Hm) as [Hd Hv].
    exists (10 * k). split; [lia|]. simpl. rewrite Hd, Hv. f_equal.
    pose proof (N.div_mod x 10 ltac:(lia)). lia.
Qed.

Lemma digits_val_Itoa (n : N) : digits_val 0 (Itoa n) = Some (Z.of_N n).
Proof.
  unfold Itoa, pretty, pretty_N. destruct (decide _) as [->|Hn]; [done|].
  destruct (digits_val_pretty_go n 0 EmptyString ltac:(lia)) as (k & _ & ->).
  done.
Qed.

Lemma digits_val_all_digits s acc v :
  digits_val acc s = Some v -> Forall (fun c => is_digit c = true) (string_chars s).
Proof.
  revert acc. induction s as [|c s IH]; simpl; intros acc H; constructor;
    destruct (is_digit c) eqn:E; try done; eauto.
Qed.

Lemma Itoa_digits (n : N) :
  Forall (fun c => is_digit c = true) (string_chars (Itoa n)).
Proof. eapply digits_val_all_digits, digits_val_Itoa. Qed.

Lemma Itoa_nonempty (n : N) : Itoa n <> EmptyString.
Proof.
  intros H. destruct n as [|p]; [done|].
  pose proof (digits_val_Itoa (N.pos p)) as Hd. rewrite H in Hd.
  simpl in Hd. by simplify_eq.
Qed.

Lemma Itoa_no_char (c : ascii) (n : N) :
  is_digit c = false -> has_char c (Itoa n) = false.
Proof.
  intros Hc. unfold has_char. pose proof (Itoa_digits n) as H.
  induction H as [|d l Hd _ IH]; simpl; [done|].
  rewrite IH, orb_false_r. destruct (Ascii.eqb_spec c d); [congruence|done].
Qed.

Lemma Atoi_Itoa (n : N) : Z.of_N n <= max_int64 -> Atoi (Itoa n) = Ok (Z.of_N n).
Proof.
  intros Hn. unfold Atoi.
  pose proof (digits_val_Itoa n) as Hv. pose proof (Itoa_digits n) as Hd.
  destruct (Itoa n) as [|c s] eqn:E; [by apply Itoa_nonempty in E|].
  inversion Hd as [|?? Hc Hs]; subst.
  assert (Ascii.eqb c "-" = false) as ->
    by (destruct (Ascii.eqb_spec c "-"); [by subst|done]).
  assert (Ascii.eqb c "+" = false) as ->
    by (destruct (Ascii.eqb_spec c "+"); [by subst|done]).
  rewrite Hv.
  assert ((min_int64 <=? Z.of_N n) = true) as -> by (apply Z.leb_le; unfold min_int64; lia).
  by assert ((Z.of_N n <=? max_int64) = true) as -> by (by apply Z.leb_le).
Qed.

(** Text without a minus sign never denotes a negative number. *)
Lemma digits_val_nonneg s acc v : 0 <= acc -> digits_val acc s = Some v -> 0 <= v.
Proof.
  revert acc. induction s as [|c s IH]; simpl; intros acc Hacc; [by intros [= <-]|].
  destruct (is_digit c) eqn:E; [|done]. apply IH.
  unfold is_digit in E. to_prop. unfold digit_val. lia.
Qed.

Lemma Atoi_nonneg s v : has_char "-" s = false -> Atoi s = Ok v -> 0 <= v.
Proof.
  unfold Atoi, has_char. intros Hs H.
  destruct s as [|c s]; [done|].
  cbn [string_chars existsb] in Hs. apply orb_false_iff in Hs as [Hc Hs].
  rewrite Ascii.eqb_sym in Hc. rewrite Hc in H.
  repeat (break_match; try done); simplify_eq;
    (eapply digits_val_nonneg; [|eassumption]; lia).
Qed.

Lemma Atoi_bounds s v : Atoi s = Ok v -> min_int64 <= v <= max_int64.
Proof.
  unfold Atoi. intros H. repeat (break_match; try done);
  simplify_eq; to_prop; lia.
Qed.

Example Atoi_ex :
  (Atoi "6443", Atoi "+80", Atoi "-1", is_Ok (Atoi "80a"), is_Ok (Atoi ""),
   is_Ok (Atoi "9223372036854775808"))
  = (Ok 6443, Ok 80, Ok (-1), false, false, false).
Proof. reflexivity. Qed.

(** ** Slices of pointers

    A pointer is an address in a memory of strings; allocation takes the next address. *)

Definition memory := list string.

(** [scw.StringSlicePtr]: a pointer to a new variable for each string. *)
Definition StringSlicePtr (ss : list string) (mem : memory) : list nat * memory :=
  (seq (length mem) (length ss), mem ++ ss).

(** [slices.Equal]: the elements are compared with [==], which on pointers compares the
    addresses. *)
Definition slices_Equal {A} `{EqDecision A} (xs ys : list A) : bool := bool_decide (xs = ys).

(** New pointers differ from all that were there. *)
Lemma new_pointers_differ ss (mem : memory) (ps : list nat) :
  (forall p, p ∈ ps -> (p < length mem)%nat) ->
  slices_Equal (StringSlicePtr ss mem).1 ps = bool_decide (ss = [] /\ ps = []).
Proof.
  intros Hps. apply bool_decide_ext. destruct ss as [|s ss], ps as [|p ps]; simpl; try naive_solver.
  split; [|by intros [? _]]. intros [= <- _]. specialize (Hps _ (list_elem_of_here _ _)). lia.
Qed.

(** [slices.Equal(scw.StringSlicePtr(ss), decoded)]: the pointers [decoded] to the strings
    [ts] were allocated when the answer was decoded. *)
Definition Equal_StringSlicePtr (ss ts : list string) : bool :=
  let '(decoded, mem) := StringSlicePtr ts [] in
  let '(ps, _) := StringSlicePtr ss mem in
  slices_Equal ps decoded.

(** Whatever the strings are, the comparison fails unless both slices are empty. *)
Lemma Equal_StringSlicePtr_spec ss ts : Equal_StringSlicePtr ss ts = bool_decide (ss = [] /\ ts = []).
Proof.
  unfold Equal_StringSlicePtr. cbn.
  change (seq (length ts) (length ss)) with ((StringSlicePtr ss ts).1).
  rewrite new_pointers_differ.
  - apply bool_decide_ext. destruct ts; simpl; naive_solver.
  - intros p Hp%elem_of_seq. lia.
Qed.
