(* ===== verification/Prog.v ===== *)
(** * Programs that call an API

    A reconciler is a Go function that calls a remote API, reads the answers
    and mutates objects in memory.  It is modelled as a tree of calls ([prog]),
    threaded with the object it mutates and with Go's results ([GoM]).

    - [run] executes a program against an [oracle], an arbitrary function that
      chooses the answer of every call from the history of the calls made so
      far: no assumption is made on the remote side.
    - [wp R G Q] is a rely/guarantee logic over these programs: whatever answers
      the environment gives within [R], every call the program makes satisfies
      [G] in the history where it is made, and the final state satisfies [Q].
      [wp_sound] relates it to [run]. *)

From S2P Require Import Prelude Go.
#[local] Open Scope caps_scope.

(** ** Signatures, replies, events *)

(** The calls of an API with the type of the value a successful call returns. *)
Record sig := { call : Type; val : call -> Type }.

(** The answer to a call: a value or an external error. *)
Inductive reply (A : Type) :=
| ROk (a : A)
| RErr (e : api_error).
Arguments ROk {A} a.
Arguments RErr {A} e.

Definition resp (Sg : sig) (c : call Sg) : Type := reply (val Sg c).

(** A call that was made and its answer. *)
Inductive event (Sg : sig) : Type :=
| Ev (c : call Sg) (r : resp Sg c).
Arguments Ev {Sg} c r.

(** The calls made so far, oldest first. *)
Abbreviation history Sg := (list (event Sg)).

Definition ev_call {Sg} (e : event Sg) : call Sg := match e with Ev c _ => c end.

Definition oracle (Sg : sig) : Type := history Sg -> forall c, resp Sg c.

(** ** Programs *)

Inductive prog (Sg : sig) (A : Type) : Type :=
| Ret (a : A)
| Call (c : call Sg) (k : resp Sg c -> prog Sg A).
Arguments Ret {Sg A} a.
Arguments Call {Sg A} c k.

Fixpoint pbind {Sg A B} (f : A -> prog Sg B) (p : prog Sg A) : prog Sg B :=
  match p with
  | Ret a => f a
  | Call c k => Call c (fun r => pbind f (k r))
  end.

Fixpoint run {Sg A} (o : oracle Sg) (h : history Sg) (p : prog Sg A) : history Sg * A :=
  match p with
  | Ret a => (h, a)
  | Call c k => run o (h ++ [Ev c (o h c)]) (k (o h c))
  end.

Lemma run_pbind {Sg A B} (o : oracle Sg) h (p : prog Sg A) (f : A -> prog Sg B) :
  run o h (pbind f p) = let '(h', a) := run o h p in run o h' (f a).
Proof. revert h. induction p as [a|c k IH]; simpl; auto. Qed.

(** Every event of a run is a call with the answer of the oracle. *)
Definition answered {Sg} (o : oracle Sg) (e : event Sg) : Prop :=
  match e with Ev c r => exists h, r = o h c end.

Lemma run_answered {Sg A} (o : oracle Sg) h (p : prog Sg A) :
  Forall (answered o) h -> Forall (answered o) (run o h p).1.
Proof.
  revert h. induction p as [a|c k IH]; simpl; intros h Hh; [done|].
  apply IH, Forall_app. split; [done|]. constructor; [by exists h|constructor].
Qed.

(** The answer to each call is the one the oracle gives in the history of the call. *)
Lemma run_answers {Sg A} (o : oracle Sg) h (p : prog Sg A) :
  exists t, (run o h p).1 = h ++ t /\
    forall t1 e t2, t = t1 ++ e :: t2 -> match e with Ev c r => r = o (h ++ t1) c end.
Proof.
  revert h. induction p as [a|c k IH]; intros h; simpl.
  - exists []. rewrite app_nil_r. split; [done|]. by intros [].
  - destruct (IH (o h c) (h ++ [Ev c (o h c)])) as (t & -> & Ht).
    exists (Ev c (o h c) :: t). rewrite <- app_assoc. split; [done|].
    intros [|e t1] e' t2 E; simpl in E; injection E as <- E.
    + by rewrite app_nil_r.
    + rewrite cons_middle, app_assoc. by apply (Ht t1 e' t2).
Qed.

(** ** The rely/guarantee logic *)

Section wp.
Context {Sg : sig}.
(** What the environment may answer, and which calls are allowed. *)
Context (R : history Sg -> forall c, resp Sg c -> Prop).
Context (G : history Sg -> call Sg -> Prop).

Fixpoint wp {A} (Q : history Sg -> A -> Prop) (h : history Sg) (p : prog Sg A) : Prop :=
  match p with
  | Ret a => Q h a
  | Call c k => G h c /\ forall r, R h c r -> wp Q (h ++ [Ev c r]) (k r)
  end.

Lemma wp_mono {A} (Q Q' : history Sg -> A -> Prop) h p :
  wp Q h p -> (forall h' a, Q h' a -> Q' h' a) -> wp Q' h p.
Proof.
  intros H HQ. revert h H. induction p as [a|c k IH]; simpl; intros h; [eauto|].
  intros [HG Hk]. split; [done|]. auto.
Qed.

Lemma wp_pbind {A B} (Q : history Sg -> B -> Prop) h (p : prog Sg A) (f : A -> prog Sg B) :
  wp Q h (pbind f p) <-> wp (fun h' a => wp Q h' (f a)) h p.
Proof.
  revert h. induction p as [a|c k IH]; simpl; intros h; [done|].
  split; intros [HG Hk]; (split; [done|]); intros r Hr; apply IH; auto.
Qed.

(** An oracle whose answers stay within the rely. *)
Definition admissible (o : oracle Sg) : Prop := forall h c, R h c (o h c).

(** Every call of [t], made after [h], satisfies the guarantee. *)
Definition obeys (h t : history Sg) : Prop :=
  forall t1 c r t2, t = t1 ++ Ev c r :: t2 -> G (h ++ t1) c.

Lemma obeys_nil h : obeys h [].
Proof. intros t1 c r t2 H. by destruct t1. Qed.

Lemma obeys_cons h c r t : G h c -> obeys (h ++ [Ev c r]) t -> obeys h (Ev c r :: t).
Proof.
  intros HG Ht t1 c' r' t2 H. destruct t1 as [|e t1]; simpl in H.
  - apply (f_equal (fun l => match l with e :: _ => Some (ev_call e) | [] => None end)) in H.
    simpl in H. injection H as <-. by rewrite app_nil_r.
  - injection H as <- H. rewrite cons_middle, app_assoc. eauto.
Qed.

Lemma obeys_app h t t' : obeys h t -> obeys (h ++ t) t' -> obeys h (t ++ t').
Proof.
  revert h. induction t as [|[c r] t IH]; intros h Ht Ht'; simpl.
  - by rewrite app_nil_r in Ht'.
  - apply obeys_cons.
    + rewrite <- (app_nil_r h). by apply (Ht [] c r t).
    + apply IH.
      * intros t1 c' r' t2 E. rewrite <- app_assoc. apply (Ht (Ev c r :: t1) c' r' t2).
        by rewrite E.
      * by rewrite <- app_assoc.
Qed.

(** Soundness: against an admissible oracle the run extends the history with
    calls that satisfy [G], and ends in [Q]. *)
Theorem wp_sound {A} (o : oracle Sg) (Q : history Sg -> A -> Prop) h p :
  admissible o -> wp Q h p ->
  exists t, (run o h p).1 = h ++ t /\ obeys h t /\ Q (run o h p).1 (run o h p).2.
Proof.
  intros Ho. revert h. induction p as [a|c k IH]; simpl; intros h.
  - intros HQ. exists []. rewrite app_nil_r. auto using obeys_nil.
  - intros [HG Hk].
    destruct (IH (o h c) _ (Hk _ (Ho h c))) as (t & -> & Hob & HQ).
    exists (Ev c (o h c) :: t). rewrite <- app_assoc. split; [done|].
    split; [by apply obeys_cons | by rewrite <- app_assoc in HQ].
Qed.
End wp.

(** The environment that answers as the oracle does. *)
Definition replies {Sg} (o : oracle Sg) : history Sg -> forall c, resp Sg c -> Prop :=
  fun h c r => r = o h c.

(** Completeness against one oracle: it is enough to look at the run. *)
Lemma wp_run {Sg A} (o : oracle Sg) (Q : history Sg -> A -> Prop) h (p : prog Sg A) :
  Q (run o h p).1 (run o h p).2 -> wp (replies o) (fun _ _ => True) Q h p.
Proof.
  revert h. induction p as [a|c k IH]; simpl; intros h HQ; [done|].
  split; [done|]. intros r ->. by apply IH.
Qed.

#[export] Hint Resolve obeys_nil : caps.

Lemma wp_weaken {Sg A} (R R' : history Sg -> forall c, resp Sg c -> Prop)
    (G G' : history Sg -> call Sg -> Prop) (Q : history Sg -> A -> Prop) h p :
  (forall h c r, R' h c r -> R h c r) -> (forall h c, G h c -> G' h c) ->
  wp R G Q h p -> wp R' G' Q h p.
Proof.
  intros HR HG. revert h. induction p as [a|c k IH]; simpl; intros h; [done|].
  intros [? ?]. split; auto.
Qed.

Lemma wp_conj {Sg A} (R : history Sg -> forall c, resp Sg c -> Prop)
    (G1 G2 : history Sg -> call Sg -> Prop) (Q1 Q2 : history Sg -> A -> Prop) h p :
  wp R G1 Q1 h p -> wp R G2 Q2 h p ->
  wp R (fun h c => G1 h c /\ G2 h c) (fun h a => Q1 h a /\ Q2 h a) h p.
Proof.
  revert h. induction p as [a|c k IH]; simpl; intros h; [done|].
  intros [? ?] [? ?]. auto 6.
Qed.

(** The environment that may answer anything, and the guarantee that forbids nothing. *)
Definition any_resp {Sg} : history Sg -> forall c, resp Sg c -> Prop := fun _ _ _ => True.
Definition any_call {Sg} : history Sg -> call Sg -> Prop := fun _ _ => True.

Lemma admissible_any {Sg} (o : oracle Sg) : admissible any_resp o.
Proof. by intros h c. Qed.

(** ** The monad of reconcilers

    A computation over the in-memory object [S], which Go code mutates through
    a pointer: the mutations survive errors and panics. *)
Definition GoM (Sg : sig) (S A : Type) : Type := S -> prog Sg (outcome A * S).

#[export] Instance GoM_ret {Sg S} : MRet (GoM Sg S) := fun A a s => Ret (Ok a, s).

#[export] Instance GoM_bind {Sg S} : MBind (GoM Sg S) := fun A B f m s =>
  pbind (fun '(oa, s') =>
    match oa with
    | Ok a => f a s'
    | Err e => Ret (Err e, s')
    | Panic => Ret (Panic, s')
    end) (m s).

Section GoM.
Context {Sg : sig} {S : Type}.

(** A Go result computed without calls. *)
Definition lift {A} (oa : outcome A) : GoM Sg S A := fun s => Ret (oa, s).
Definition fail {A} (e : error) : GoM Sg S A := lift (Err e).
Definition panic {A} : GoM Sg S A := lift Panic.

Definition get_state : GoM Sg S S := fun s => Ret (Ok s, s).
Definition gets {A} (f : S -> A) : GoM Sg S A := fun s => Ret (Ok (f s), s).
Definition modify (f : S -> S) : GoM Sg S unit := fun s => Ret (Ok tt, f s).

(** The call [x, err := api.C(..)] followed by [if err != nil { return err }]. *)
Definition api (c : call Sg) : GoM Sg S (val Sg c) := fun s =>
  Call c (fun r => match r with
                   | ROk a => Ret (Ok a, s)
                   | RErr e => Ret (Err (External e), s)
                   end).

(** [if err != nil { return fmt.Errorf(ctx + ": %w", err) }]. *)
Definition wrapf {A} (ctx : string) (m : GoM Sg S A) : GoM Sg S A := fun s =>
  pbind (fun '(oa, s') => Ret (outcome_wrap ctx oa, s')) (m s).

(** [x, err := m]: the error is handed to the code that follows. *)
Definition attempt {A} (m : GoM Sg S A) : GoM Sg S (error + A) := fun s =>
  pbind (fun '(oa, s') =>
    match oa with
    | Ok a => Ret (Ok (inr a), s')
    | Err e => Ret (Ok (inl e), s')
    | Panic => Ret (Panic, s')
    end) (m s).

(** The idiom
    [x, err := find(..); if err != nil && !errors.Is(err, s) { return err }]:
    [None] is the nil pointer left in [x] when the error is [s]. *)
Definition unless_Is {A} (s : sentinel) (m : GoM Sg S A) : GoM Sg S (option A) :=
  r ← attempt m;
  match r with
  | inr a => mret (Some a)
  | inl e => if errors_Is e s then mret None else fail e
  end.

(** [for _, x := range xs { body }]. *)
Fixpoint for_each {X} (xs : list X) (body : X -> GoM Sg S unit) : GoM Sg S unit :=
  match xs with
  | [] => mret tt
  | x :: xs' => _ ← body x; for_each xs' body
  end.

(** A [range] loop that also updates a local variable. *)
Fixpoint for_fold {X A} (xs : list X) (acc : A) (body : A -> X -> GoM Sg S A) : GoM Sg S A :=
  match xs with
  | [] => mret acc
  | x :: xs' => acc' ← body acc x; for_fold xs' acc' body
  end.
End GoM.

(** [defer func() { if err := close(); err != nil && retErr == nil { retErr = err } }()]
    around [m]: [close] runs however [m] ends, panics included. *)
Definition deferred_outcome {A} (oa : outcome A) (oc : outcome unit) : outcome A :=
  match oa, oc with
  | Ok _, Err e => Err e
  | Ok _, Panic => Panic
  | _, _ => oa
  end.

Definition with_deferred {Sg S A} (close : GoM Sg S unit) (m : GoM Sg S A) : GoM Sg S A := fun s =>
  pbind (fun '(oa, s1) =>
    pbind (fun '(oc, s2) => Ret (deferred_outcome oa oc, s2)) (close s1)) (m s).

(** Runs [m] on an object of its own; the caller's object is not involved. *)
Definition in_scope {Sg S S' A} (s : S) (m : GoM Sg S A) : GoM Sg S' A := fun s' =>
  pbind (fun '(oa, _) => Ret (oa, s')) (m s).

(** The execution of a computation: history, Go result, final object. *)
Definition runM {Sg S A} (o : oracle Sg) (h : history Sg) (m : GoM Sg S A) (s : S)
  : history Sg * (outcome A * S) := run o h (m s).

(** ** The logic on computations *)

Section wpM.
Context {Sg : sig} {S : Type}.
Context (R : history Sg -> forall c, resp Sg c -> Prop).
Context (G : history Sg -> call Sg -> Prop).

Definition wpM {A} (m : GoM Sg S A) (h : history Sg) (s : S)
    (Q : outcome A -> S -> history Sg -> Prop) : Prop :=
  wp R G (fun h' '(oa, s') => Q oa s' h') h (m s).

Lemma wpM_mono {A} (m : GoM Sg S A) h s (Q Q' : outcome A -> S -> history Sg -> Prop) :
  wpM m h s Q -> (forall oa s' h', Q oa s' h' -> Q' oa s' h') -> wpM m h s Q'.
Proof. intros H HQ. eapply wp_mono; [exact H|]. intros h' [oa s']. apply HQ. Qed.

Lemma wpM_ret {A} (a : A) h s Q : Q (Ok a) s h -> wpM (mret a) h s Q.
Proof. done. Qed.

Lemma wpM_lift {A} (oa : outcome A) h s Q : Q oa s h -> wpM (lift oa) h s Q.
Proof. done. Qed.

Lemma wpM_fail {A} e h s Q : Q (Err e) s h -> wpM (fail (A := A) e) h s Q.
Proof. done. Qed.

Lemma wpM_panic {A} h s Q : Q Panic s h -> wpM (panic (A := A)) h s Q.
Proof. done. Qed.

Lemma wpM_get_state h s Q : Q (Ok s) s h -> wpM get_state h s Q.
Proof. done. Qed.

Lemma wpM_gets {A} (f : S -> A) h s Q : Q (Ok (f s)) s h -> wpM (gets f) h s Q.
Proof. done. Qed.

Lemma wpM_modify f h s (Q : outcome unit -> S -> history Sg -> Prop) :
  Q (Ok tt) (f s) h -> wpM (modify f) h s Q.
Proof. done. Qed.

Lemma wpM_api c h s Q :
  G h c ->
  (forall a, R h c (ROk a) -> Q (Ok a) s (h ++ [Ev c (ROk a)])) ->
  (forall e, R h c (RErr e) -> Q (Err (External e)) s (h ++ [Ev c (RErr e)])) ->
  wpM (api c) h s Q.
Proof. intros HG Hok Herr. split; [done|]. intros [a|e] Hr; simpl; auto. Qed.

Lemma wpM_bind {A B} (m : GoM Sg S A) (f : A -> GoM Sg S B) h s Q :
  wpM m h s (fun oa s' h' =>
    match oa with
    | Ok a => wpM (f a) h' s' Q
    | Err e => Q (Err e) s' h'
    | Panic => Q Panic s' h'
    end) ->
  wpM (m ≫= f) h s Q.
Proof.
  intros H. unfold wpM, mbind, GoM_bind. apply wp_pbind.
  eapply wp_mono; [exact H|]. intros h' [[a|e|] s']; simpl; auto.
Qed.

Lemma wpM_wrapf {A} ctx (m : GoM Sg S A) h s Q :
  wpM m h s (fun oa s' h' => Q (outcome_wrap ctx oa) s' h') ->
  wpM (wrapf ctx m) h s Q.
Proof.
  intros H. unfold wpM, wrapf. apply wp_pbind.
  eapply wp_mono; [exact H|]. by intros h' [oa s'].
Qed.

Lemma wpM_attempt {A} (m : GoM Sg S A) h s Q :
  wpM m h s (fun oa s' h' =>
    match oa with
    | Ok a => Q (Ok (inr a)) s' h'
    | Err e => Q (Ok (inl e)) s' h'
    | Panic => Q Panic s' h'
    end) ->
  wpM (attempt m) h s Q.
Proof.
  intros H. unfold wpM, attempt. apply wp_pbind.
  eapply wp_mono; [exact H|]. by intros h' [[a|e|] s'].
Qed.

Lemma wpM_unless_Is {A} st (m : GoM Sg S A) h s Q :
  wpM m h s (fun oa s' h' =>
    match oa with
    | Ok a => Q (Ok (Some a)) s' h'
    | Err e => Q (if errors_Is e st then Ok None else Err e) s' h'
    | Panic => Q Panic s' h'
    end) ->
  wpM (unless_Is st m) h s Q.
Proof.
  intros H. apply wpM_bind, wpM_attempt.
  eapply wpM_mono; [exact H|]. intros [a|e|] s' h'; simpl; intros HQ.
  - by apply wpM_ret.
  - destruct (errors_Is e st); [by apply wpM_ret | by apply wpM_fail].
  - done.
Qed.

(** Loop rule: [I] holds of the suffix still to be processed. *)
Lemma wpM_for_each {X} (xs : list X) (body : X -> GoM Sg S unit) h s
    (I : list X -> S -> history Sg -> Prop)
    (Q : outcome unit -> S -> history Sg -> Prop) :
  I xs s h ->
  (forall s' h', I [] s' h' -> Q (Ok tt) s' h') ->
  (forall x xs' s' h', I (x :: xs') s' h' -> x ∈ xs ->
    wpM (body x) h' s' (fun oa s'' h'' =>
      match oa with
      | Ok _ => I xs' s'' h''
      | Err e => Q (Err e) s'' h''
      | Panic => Q Panic s'' h''
      end)) ->
  wpM (for_each xs body) h s Q.
Proof.
  intros HI HQ. revert h s HI.
  enough (forall ys h s, ys ⊆ xs -> I ys s h ->
    (forall x xs' s' h', I (x :: xs') s' h' -> x ∈ xs ->
      wpM (body x) h' s' (fun oa s'' h'' =>
        match oa with
        | Ok _ => I xs' s'' h''
        | Err e => Q (Err e) s'' h''
        | Panic => Q Panic s'' h''
        end)) ->
    wpM (for_each ys body) h s Q) as H by (intros; eapply H; eauto).
  induction ys as [|y ys IH]; intros h s Hsub HI Hbody; simpl.
  - apply wpM_ret. auto.
  - apply wpM_bind. eapply wpM_mono; [apply Hbody; [exact HI | set_solver]|].
    intros [[]|e|] s' h'; simpl; auto. intros HI'. apply IH; auto. set_solver.
Qed.

Lemma wpM_for_fold {X A} (xs : list X) (acc : A) (body : A -> X -> GoM Sg S A) h s
    (I : list X -> A -> S -> history Sg -> Prop)
    (Q : outcome A -> S -> history Sg -> Prop) :
  I xs acc s h ->
  (forall a s' h', I [] a s' h' -> Q (Ok a) s' h') ->
  (forall a x xs' s' h', I (x :: xs') a s' h' -> x ∈ xs ->
    wpM (body a x) h' s' (fun oa s'' h'' =>
      match oa with
      | Ok a' => I xs' a' s'' h''
      | Err e => Q (Err e) s'' h''
      | Panic => Q Panic s'' h''
      end)) ->
  wpM (for_fold xs acc body) h s Q.
Proof.
  intros HI HQ. revert acc h s HI.
  enough (forall ys acc h s, ys ⊆ xs -> I ys acc s h ->
    (forall a x xs' s' h', I (x :: xs') a s' h' -> x ∈ xs ->
      wpM (body a x) h' s' (fun oa s'' h'' =>
        match oa with
        | Ok a' => I xs' a' s'' h''
        | Err e => Q (Err e) s'' h''
        | Panic => Q Panic s'' h''
        end)) ->
    wpM (for_fold ys acc body) h s Q) as H by (intros; eapply H; eauto).
  induction ys as [|y ys IH]; intros acc h s Hsub HI Hbody; simpl.
  - apply wpM_ret. auto.
  - apply wpM_bind. eapply wpM_mono; [apply Hbody; [exact HI | set_solver]|].
    intros [a|e|] s' h'; simpl; auto. intros HI'. apply IH; auto. set_solver.
Qed.

Lemma wpM_with_deferred {A} close (m : GoM Sg S A) h s Q :
  wpM m h s (fun oa s1 h1 => wpM close h1 s1 (fun oc s2 h2 =>
    Q (deferred_outcome oa oc) s2 h2)) ->
  wpM (with_deferred close m) h s Q.
Proof.
  intros H. unfold wpM, with_deferred. apply wp_pbind.
  eapply wp_mono; [exact H|]. intros h1 [oa s1] H1. apply wp_pbind.
  eapply wp_mono; [exact H1|]. intros h2 [oc s2] HQ. exact HQ.
Qed.

Theorem wpM_sound {A} (o : oracle Sg) (m : GoM Sg S A) h s Q :
  admissible R o -> wpM m h s Q ->
  exists t, (runM o h m s).1 = h ++ t /\ obeys G h t /\
    Q (runM o h m s).2.1 (runM o h m s).2.2 (runM o h m s).1.
Proof.
  intros Ho H. destruct (wp_sound _ _ _ _ _ _ Ho H) as (t & Ht & Hob & HQ).
  unfold runM. exists t. destruct (run o h (m s)) as [h' [oa s']]. auto.
Qed.
End wpM.

Lemma wpM_in_scope {Sg S S' A} R G (s : S) (m : GoM Sg S A) h (s' : S')
    (Q : outcome A -> S' -> history Sg -> Prop) :
  wpM R G m h s (fun oa _ h' => Q oa s' h') ->
  wpM R G (in_scope s m) h s' Q.
Proof.
  intros H. unfold wpM, in_scope. apply wp_pbind.
  eapply wp_mono; [exact H|]. intros h' [oa s1] HQ. exact HQ.
Qed.

(** A computation only extends the history. *)
Lemma wpM_prefix {Sg S A} R G (m : GoM Sg S A) h s (Q : outcome A -> S -> history Sg -> Prop) :
  wpM R G m h s Q -> wpM R G m h s (fun oa s' h' => h `prefix_of` h' /\ Q oa s' h').
Proof.
  unfold wpM. generalize (m s) as p. intros p. revert h.
  induction p as [[oa s']|c k IH]; intros h; simpl; [done|].
  intros [HG Hk]. split; [done|]. intros r Hr. eapply wp_mono; [by apply IH, Hk|].
  intros h' [oa s'] [Hp HQ]. split; [|done]. etransitivity; [|exact Hp]. by eexists.
Qed.

(** What holds of a history and of its extensions holds at every call. *)
Lemma wpM_always {Sg S A} R (P : history Sg -> Prop) (m : GoM Sg S A) h s :
  (forall h ev, P h -> P (h ++ [ev])) -> P h ->
  wpM R (fun h' _ => P h') m h s (fun _ _ h' => P h').
Proof.
  intros HP. unfold wpM. generalize (m s) as p. intros p. revert h.
  induction p as [[oa s']|c k IH]; intros h Hh; simpl; [done|]. split; auto.
Qed.

Lemma wpM_weaken {Sg S A} R (G G' : history Sg -> call Sg -> Prop) (m : GoM Sg S A) h s
    (Q Q' : outcome A -> S -> history Sg -> Prop) :
  wpM R G m h s Q -> (forall h c, G h c -> G' h c) ->
  (forall oa s' h', Q oa s' h' -> Q' oa s' h') -> wpM R G' m h s Q'.
Proof.
  intros H HG HQ. eapply wpM_mono; [|exact HQ]. unfold wpM in *.
  eapply (wp_weaken R R G G'); eauto.
Qed.

(** What holds in any environment holds in a given one. *)
Lemma wpM_any {Sg S A} R G (m : GoM Sg S A) h s (Q : outcome A -> S -> history Sg -> Prop) :
  wpM any_resp G m h s Q -> wpM R G m h s Q.
Proof. unfold wpM. intros H. eapply (wp_weaken any_resp R G G); [done|done|exact H]. Qed.

Lemma wpM_rely {Sg S A} (R R' : history Sg -> forall c, resp Sg c -> Prop) G (m : GoM Sg S A) h s
    (Q : outcome A -> S -> history Sg -> Prop) :
  wpM R G m h s Q -> (forall h c r, R' h c r -> R h c r) -> wpM R' G m h s Q.
Proof. unfold wpM. intros H HR. by eapply (wp_weaken R R' G G). Qed.

(** Two specifications of the same computation. *)
Lemma wpM_conj {Sg S A} R G G' (m : GoM Sg S A) h s
    (Q1 Q2 : outcome A -> S -> history Sg -> Prop) :
  wpM R G m h s Q1 -> wpM R G' m h s Q2 ->
  wpM R G m h s (fun oa s' h' => Q1 oa s' h' /\ Q2 oa s' h').
Proof.
  intros H1 H2. unfold wpM in *.
  eapply (wp_weaken R R (fun h c => G h c /\ G' h c) G); [done| |].
  - intros h' c [H _]. exact H.
  - eapply wp_mono; [exact (wp_conj R G G' _ _ _ _ H1 H2)|]. by intros h' [oa s'].
Qed.

(** Applies a specification and continues, knowing that the history was extended. *)
Lemma wpM_use {Sg S A} R G (m : GoM Sg S A) h s (Q Q' : outcome A -> S -> history Sg -> Prop) :
  wpM R G m h s Q ->
  (forall oa s' h', h `prefix_of` h' -> Q oa s' h' -> Q' oa s' h') ->
  wpM R G m h s Q'.
Proof. intros H%wpM_prefix HQ. eapply wpM_mono; [exact H|]. intros oa s' h' [? ?]. auto. Qed.

Lemma elem_of_prefix {A} (x : A) (h h' : list A) : h `prefix_of` h' -> x ∈ h -> x ∈ h'.
Proof. intros [t ->] Hx. apply elem_of_app. by left. Qed.

(** One step of the program logic, driven by the head of the computation. *)
Ltac wp_step :=
  lazymatch goal with
  | |- wpM _ _ (mret _) _ _ _ => apply wpM_ret
  | |- wpM _ _ (lift _) _ _ _ => apply wpM_lift
  | |- wpM _ _ (fail _) _ _ _ => apply wpM_fail
  | |- wpM _ _ panic _ _ _ => apply wpM_panic
  | |- wpM _ _ get_state _ _ _ => apply wpM_get_state
  | |- wpM _ _ (gets _) _ _ _ => apply wpM_gets
  | |- wpM _ _ (modify _) _ _ _ => apply wpM_modify
  | |- wpM _ _ (mbind _ _) _ _ _ => apply wpM_bind
  | |- wpM _ _ (wrapf _ _) _ _ _ => apply wpM_wrapf
  | |- wpM _ _ (attempt _) _ _ _ => apply wpM_attempt
  | |- wpM _ _ (unless_Is _ _) _ _ _ => apply wpM_unless_Is
  | |- wpM _ _ (with_deferred _ _) _ _ _ => apply wpM_with_deferred
  | |- wpM _ _ (in_scope _ _) _ _ _ => apply wpM_in_scope
  | |- wpM _ _ (api _) _ _ _ => apply wpM_api; [| intros ? ? | intros ? ?]
  | |- wpM _ _ (match ?x with _ => _ end) _ _ _ => destruct x eqn:?
  end; cbn beta iota.

(** ** Safe computations

    [safe R G I m]: started in an object satisfying [I], from any history, [m] only
    makes calls [G] allows and leaves the object in [I].  Safety is compositional,
    so that the hints of [caps_wp] prove it for composed operations. *)
Section safe.
Context {Sg : sig} {S : Type}.
Context (R : history Sg -> forall c, resp Sg c -> Prop).
Context (G : history Sg -> call Sg -> Prop) (I : S -> Prop).

Definition safe {A} (m : GoM Sg S A) : Prop :=
  forall h s, I s -> wpM R G m h s (fun _ s' _ => I s').

Lemma safe_wpM {A} (m : GoM Sg S A) h s (Q : outcome A -> S -> history Sg -> Prop) :
  safe m -> I s -> (forall oa s' h', I s' -> Q oa s' h') -> wpM R G m h s Q.
Proof. intros Hm Hs HQ. eapply wpM_mono; [by apply Hm|]. auto. Qed.

Lemma safe_ret {A} (a : A) : safe (mret a).
Proof. intros h s Hs. by apply wpM_ret. Qed.

Lemma safe_lift {A} (oa : outcome A) : safe (lift oa).
Proof. intros h s Hs. by apply wpM_lift. Qed.

Lemma safe_fail {A} e : safe (fail (A := A) e).
Proof. apply safe_lift. Qed.

Lemma safe_get_state : safe get_state.
Proof. intros h s Hs. by apply wpM_get_state. Qed.

Lemma safe_modify f : (forall s, I s -> I (f s)) -> safe (modify f).
Proof. intros Hf h s Hs. apply wpM_modify. auto. Qed.

Lemma safe_bind {A B} (m : GoM Sg S A) (f : A -> GoM Sg S B) :
  safe m -> (forall a, safe (f a)) -> safe (m ≫= f).
Proof.
  intros Hm Hf h s Hs. apply wpM_bind. eapply safe_wpM; [done..|].
  intros [a|e|] s' h' Hs'; simpl; auto. by apply Hf.
Qed.

(** The continuation may rely on the object it reads. *)
Lemma safe_bind_get_state {B} (f : S -> GoM Sg S B) :
  (forall c, I c -> safe (f c)) -> safe (get_state ≫= f).
Proof. intros Hf h s Hs. apply wpM_bind, wpM_get_state. by apply Hf. Qed.

Lemma safe_wrapf {A} ctx (m : GoM Sg S A) : safe m -> safe (wrapf ctx m).
Proof. intros Hm h s Hs. apply wpM_wrapf. eapply safe_wpM; eauto. Qed.

Lemma safe_attempt {A} (m : GoM Sg S A) : safe m -> safe (attempt m).
Proof. intros Hm h s Hs. apply wpM_attempt. eapply safe_wpM; [done..|]. by intros []. Qed.

Lemma safe_unless_Is {A} st (m : GoM Sg S A) : safe m -> safe (unless_Is st m).
Proof.
  intros Hm h s Hs. apply wpM_unless_Is. eapply safe_wpM; [done..|]. by intros [].
Qed.

Lemma safe_for_each {X} (xs : list X) (body : X -> GoM Sg S unit) :
  (forall x, x ∈ xs -> safe (body x)) -> safe (for_each xs body).
Proof.
  induction xs as [|x xs IH]; intros Hb; simpl; [apply safe_ret|].
  apply safe_bind; [apply Hb; set_solver|]. intros _. apply IH. set_solver.
Qed.

Lemma safe_for_fold {X A} (xs : list X) (acc : A) (body : A -> X -> GoM Sg S A) :
  (forall a x, x ∈ xs -> safe (body a x)) -> safe (for_fold xs acc body).
Proof.
  revert acc. induction xs as [|x xs IH]; intros acc Hb; simpl; [apply safe_ret|].
  apply safe_bind; [apply Hb; set_solver|]. intros a. apply IH. set_solver.
Qed.
End safe.

#[export] Hint Resolve safe_ret safe_lift safe_fail safe_get_state : caps_wp.
#[export] Hint Resolve safe_wrapf safe_attempt safe_unless_Is : caps_wp.

(** Decomposes a goal [safe _ _ _ m] along the structure of [m] and closes the
    leaves with the hints. *)
Ltac safe_auto :=
  repeat (cbn beta iota; intros; first
    [ done
    | solve [auto with caps_wp]
    | lazymatch goal with
      | |- safe _ _ _ (get_state ≫= _) => apply safe_bind_get_state
      | |- safe _ _ _ (mbind _ _) => apply safe_bind
      | |- safe _ _ _ (wrapf _ _) => apply safe_wrapf
      | |- safe _ _ _ (attempt _) => apply safe_attempt
      | |- safe _ _ _ (unless_Is _ _) => apply safe_unless_Is
      | |- safe _ _ _ (for_each _ _) => apply safe_for_each
      | |- safe _ _ _ (for_fold _ _ _) => apply safe_for_fold
      | |- safe _ _ _ (match ?x with _ => _ end) => destruct x eqn:?
      end ]).

Lemma safe_with_deferred {Sg S A} R G (I : S -> Prop) close (m : GoM Sg S A) :
  safe R G I close -> safe R G I m -> safe R G I (with_deferred close m).
Proof.
  intros Hc Hm h s Hs. apply wpM_with_deferred. eapply safe_wpM; [done..|].
  intros oa s' h' Hs'. eapply safe_wpM; eauto.
Qed.

Lemma safe_in_scope {Sg S S' A} R G (I : S -> Prop) (I' : S' -> Prop) s (m : GoM Sg S A) :
  safe R G I m -> I s -> safe R G I' (in_scope s m).
Proof. intros Hm Hs h s' Hs'. apply wpM_in_scope. eapply safe_wpM; eauto. Qed.

(** ** Sequences of passes *)

(** The history after running the programs of [ps] one after the other. *)
Fixpoint run_all {Sg A} (o : oracle Sg) (h : history Sg) (ps : list (prog Sg A)) : history Sg :=
  match ps with
  | [] => h
  | p :: ps' => run_all o (run o h p).1 ps'
  end.

(** If every pass obeys the guarantee from every history, so does the sequence. *)
Lemma run_all_obeys {Sg A} R G (o : oracle Sg) (ps : list (prog Sg A)) h :
  admissible R o ->
  (forall p h', p ∈ ps -> wp R G (fun _ _ => True) h' p) ->
  exists t, run_all o h ps = h ++ t /\ obeys G h t.
Proof.
  intros Ho. revert h. induction ps as [|p ps IH]; intros h Hps; simpl.
  - exists []. rewrite app_nil_r. auto with caps.
  - destruct (wp_sound R G o (fun _ _ => True) h p Ho) as (t & -> & Hob & _);
      [apply Hps; set_solver|].
    destruct (IH (h ++ t)) as (t' & -> & Hob'); [intros; apply Hps; set_solver|].
    exists (t ++ t'). rewrite app_assoc. split; [done|]. by apply obeys_app.
Qed.
