(* ===== verification/Net.v ===== *)
(** * The fragment of Go's [net] and [net/netip] used by the sources

    [netip.ParseAddr] and [Addr.Is4] (control-plane endpoint of the load
    balancer), [net.ParseCIDR] (subnets and IP ranges of security group rules),
    [IPNet.String] and [IP.String] (comparison of rules, node addresses).
    Bytes are integers in [0, 256). *)

From S2P Require Import Prelude Go.
#[local] Open Scope caps_scope.

(** ** Parsing addresses *)

(** [netip.Addr]: an IPv4 address, or an IPv6 address with its zone. *)
Inductive Addr :=
| Addr4 (bytes : list Z)
| Addr6 (bytes : list Z) (zone : string).

(** One decimal field of a dotted quad: no leading zero, at most 255. *)
Definition parseIPv4Field (s : string) : option Z :=
  match s with
  | EmptyString => None
  | String c s' =>
      if Ascii.eqb c "0" && negb (s' =?s EmptyString) then None
      else match digits_val 0 s with
           | Some v => if v <=? 255 then Some v else None
           | None => None
           end
  end.

(** The four fields of an IPv4 address. *)
Definition parseIPv4Fields (s : string) : option (list Z) :=
  match strings_Split s "." with
  | [a; b; c; d] =>
      a' ← parseIPv4Field a; b' ← parseIPv4Field b;
      c' ← parseIPv4Field c; d' ← parseIPv4Field d;
      Some [a'; b'; c'; d']
  | _ => None
  end.

Definition hex_val (c : ascii) : option Z :=
  let n := Z.of_N (N_of_ascii c) in
  if (48 <=? n) && (n <=? 57) then Some (n - 48)
  else if (97 <=? n) && (n <=? 102) then Some (n - 87)
  else if (65 <=? n) && (n <=? 70) then Some (n - 55)
  else None.

(** The hexadecimal digits at the front of [s]: value, number of digits, rest.
    More than four digits fail. *)
Fixpoint hex_group (off : nat) (acc : Z) (s : string) : option (Z * nat * string) :=
  match s with
  | EmptyString => Some (acc, off, s)
  | String c s' =>
      match hex_val c with
      | None => Some (acc, off, s)
      | Some v => if (3 <? off)%nat then None else hex_group (S off) (acc * 16 + v) s'
      end
  end.

(** The loop of [parseIPv6]; [ip] holds the bytes read, [ell] the position of
    the ellipsis.  Every iteration adds two bytes, so eight iterations suffice. *)
Fixpoint parseIPv6_loop (fuel : nat) (s : string) (ip : list Z) (ell : option nat)
  : option (list Z * option nat * string) :=
  match fuel with
  | O => Some (ip, ell, s)
  | S fuel' =>
      match hex_group 0 0 s with
      | None => None
      | Some (_, O, _) => None
      | Some (acc, _, rest) =>
          match rest with
          | EmptyString => Some (ip ++ [acc / 256; acc mod 256], ell, EmptyString)
          | String c rest1 =>
              if Ascii.eqb c "." then
                if is_none ell && negb (length ip =? 12)%nat then None
                else if (16 <? length ip + 4)%nat then None
                else f ← parseIPv4Fields s; Some (ip ++ f, ell, EmptyString)
              else if negb (Ascii.eqb c ":") then None
              else
                let ip' := ip ++ [acc / 256; acc mod 256] in
                match rest1 with
                | EmptyString => None
                | String c2 rest2 =>
                    if Ascii.eqb c2 ":" then
                      if is_some ell then None
                      else match rest2 with
                           | EmptyString => Some (ip', Some (length ip'), EmptyString)
                           | _ => parseIPv6_loop fuel' rest2 ip' (Some (length ip'))
                           end
                    else parseIPv6_loop fuel' rest1 ip' ell
                end
          end
      end
  end.

(** What follows the loop: nothing may be left of the text, and an ellipsis is
    expanded to at least one group of zeros. *)
Definition parseIPv6_end (r : list Z * option nat * string) : option (list Z) :=
  match r with
  | (ip, ell, EmptyString) =>
      if (length ip <? 16)%nat then
        match ell with
        | None => None
        | Some e => Some (take e ip ++ replicate (16 - length ip) 0 ++ drop e ip)
        end
      else match ell with None => Some ip | Some _ => None end
  | _ => None
  end.

(** The address part of [parseIPv6], the zone removed. *)
Definition parseIPv6_addr (s : string) : option (list Z) :=
  match s with
  | String ":" (String ":" EmptyString) => Some (replicate 16 0)
  | String ":" (String ":" rest) =>
      parseIPv6_loop 8 rest [] (Some 0%nat) ≫= parseIPv6_end
  | _ => parseIPv6_loop 8 s [] None ≫= parseIPv6_end
  end.

(** The text before and after the first occurrence of [c]. *)
Fixpoint cut_at (c : ascii) (s : string) : option (string * string) :=
  match s with
  | EmptyString => None
  | String d s' =>
      if Ascii.eqb d c then Some (EmptyString, s')
      else '(a, b) ← cut_at c s'; Some (String d a, b)
  end.

Definition parseIPv6 (s : string) : option Addr :=
  match cut_at "%" s with
  | Some (_, EmptyString) => None
  | Some (a, zone) => (fun b => Addr6 b zone) <$> parseIPv6_addr a
  | None => (fun b => Addr6 b EmptyString) <$> parseIPv6_addr s
  end.

(** [netip.ParseAddr]: the first of [.], [:], [%] decides the family. *)
Fixpoint addr_family (s : string) : option ascii :=
  match s with
  | EmptyString => None
  | String c s' =>
      if Ascii.eqb c "." || Ascii.eqb c ":" || Ascii.eqb c "%" then Some c
      else addr_family s'
  end.

Definition netip_ParseAddr_opt (s : string) : option Addr :=
  match addr_family s with
  | Some "."%char => Addr4 <$> parseIPv4Fields s
  | Some ":"%char => parseIPv6 s
  | _ => None
  end.

Definition netip_ParseAddr (s : string) : outcome Addr :=
  match netip_ParseAddr_opt s with
  | Some a => Ok a
  | None => Err (ErrorsNew "netip.ParseAddr: unable to parse IP")
  end.

(** [Addr.Is4]. *)
Definition Is4 (a : Addr) : bool := match a with Addr4 _ => true | Addr6 _ _ => false end.

(** ** Networks *)

(** [net.IPNet]: network number and mask. *)
Record IPNet := { IPNet_IP : list Z; IPNet_Mask : list Z }.

#[export] Instance IPNet_eq_dec : EqDecision IPNet.
Proof. solve_decision. Defined.

(** Bits of a byte, most significant first, and back. *)
Definition byte_bits (v : Z) : list bool :=
  (fun i => Z.testbit v i) <$> [7; 6; 5; 4; 3; 2; 1; 0].

Definition mask_byte (n : nat) : Z := 256 - 2 ^ (8 - Z.of_nat n).

(** [net.CIDRMask(n, 8 * len)]. *)
Fixpoint CIDRMask (n len : nat) : list Z :=
  match len with
  | O => []
  | S len' => mask_byte (Nat.min n 8) :: CIDRMask (n - 8) len'
  end.

(** [IP.Mask] for an address and a mask of the same length. *)
Definition mask_IP (ip mask : list Z) : list Z := zip_with Z.land ip mask.

(** [net.ParseCIDR], the network it returns. *)
Definition ParseCIDR_opt (s : string) : option IPNet :=
  '(addr, mask) ← cut_at "/" s;
  match netip_ParseAddr_opt addr with
  | Some (Addr4 b) =>
      match mask, digits_val 0 mask with
      | EmptyString, _ | _, None => None
      | _, Some n =>
          if n <=? 32
          then let m := CIDRMask (Z.to_nat n) 4 in
               Some {| IPNet_IP := mask_IP b m; IPNet_Mask := m |}
          else None
      end
  | Some (Addr6 b EmptyString) =>
      match mask, digits_val 0 mask with
      | EmptyString, _ | _, None => None
      | _, Some n =>
          if n <=? 128
          then let m := CIDRMask (Z.to_nat n) 16 in
               Some {| IPNet_IP := mask_IP b m; IPNet_Mask := m |}
          else None
      end
  | _ => None
  end.

Definition ParseCIDR (s : string) : outcome IPNet :=
  match ParseCIDR_opt s with
  | Some n => Ok n
  | None => Err (ErrorsNew "invalid CIDR address")
  end.

(** ** Printing *)

Definition print4 (b : list Z) : string :=
  match b with
  | [x; y; z; t] =>
      Itoa (Z.to_N x) +:+ "." +:+ Itoa (Z.to_N y) +:+ "." +:+
      Itoa (Z.to_N z) +:+ "." +:+ Itoa (Z.to_N t)
  | _ => EmptyString
  end%string.

Definition hex_digit (v : Z) : ascii :=
  ascii_of_N (Z.to_N (if v <? 10 then v + 48 else v + 87)).

Fixpoint print_hex_aux (fuel : nat) (v : Z) (acc : string) : string :=
  match fuel with
  | O => acc
  | S fuel' =>
      let acc' := String (hex_digit (v mod 16)) acc in
      if v / 16 =? 0 then acc' else print_hex_aux fuel' (v / 16) acc'
  end.

(** A 16-bit group without leading zeros: at most four digits. *)
Definition print_hex (v : Z) : string := print_hex_aux 4 v EmptyString.

Fixpoint groups (b : list Z) : list Z :=
  match b with
  | x :: y :: b' => (256 * x + y) :: groups b'
  | _ => []
  end.

Fixpoint zero_run (l : list Z) : nat :=
  match l with
  | 0 :: l' => S (zero_run l')
  | _ => O
  end.

(** The longest run of at least two zero groups, the first one on a tie:
    (start, end). *)
Fixpoint best_run (i : nat) (l : list Z) (best : option (nat * nat)) : option (nat * nat) :=
  match l with
  | [] => best
  | _ :: l' =>
      let n := zero_run l in
      let len := match best with Some (a, b) => b - a | None => 0 end%nat in
      best_run (S i) l'
        (if ((2 <=? n) && (len <? n))%nat then Some (i, (i + n)%nat) else best)
  end.

Fixpoint print_groups (l : list Z) : string :=
  match l with
  | [] => EmptyString
  | [v] => print_hex v
  | v :: l' => print_hex v +:+ ":" +:+ print_groups l'
  end%string.

(** The text of an IPv6 address (RFC 5952). *)
Definition print6 (b : list Z) : string :=
  let g := groups b in
  match best_run 0 g None with
  | Some (s, e) => print_groups (take s g) +:+ "::" +:+ print_groups (drop e g)
  | None => print_groups g
  end%string.

Definition v4InV6Prefix : list Z := [0; 0; 0; 0; 0; 0; 0; 0; 0; 0; 255; 255].

(** [IP.To4]. *)
Definition To4 (ip : list Z) : option (list Z) :=
  if (length ip =? 4)%nat then Some ip
  else if (length ip =? 16)%nat && bool_decide (take 12 ip = v4InV6Prefix)
  then Some (drop 12 ip) else None.

Fixpoint hexString (b : list Z) : string :=
  match b with
  | [] => EmptyString
  | v :: b' => String (hex_digit (v / 16)) (String (hex_digit (v mod 16)) (hexString b'))
  end.

(** [IP.String]. *)
Definition IP_String (ip : list Z) : string :=
  if (length ip =? 0)%nat then "<nil>"
  else match To4 ip with
       | Some p4 => print4 p4
       | None => if (length ip =? 16)%nat then print6 ip else "?" +:+ hexString ip
       end%string.

Fixpoint leading_ones (l : list bool) : nat :=
  match l with true :: l' => S (leading_ones l') | _ => O end.

(** [simpleMaskLength]: the number of leading ones, if only zeros follow. *)
Definition simpleMaskLength (m : list Z) : option nat :=
  let bits := m ≫= byte_bits in
  let n := leading_ones bits in
  if forallb negb (drop n bits) then Some n else None.

(** [networkNumberAndMask]. *)
Definition networkNumberAndMask (n : IPNet) : option (list Z * list Z) :=
  ip ← match To4 (IPNet_IP n) with
       | Some ip => Some ip
       | None => if (length (IPNet_IP n) =? 16)%nat then Some (IPNet_IP n) else None
       end;
  let m := IPNet_Mask n in
  if (length m =? 4)%nat then
    if (length ip =? 4)%nat then Some (ip, m) else None
  else if (length m =? 16)%nat then
    Some (ip, if (length ip =? 4)%nat then drop 12 m else m)
  else None.

(** [IPNet.String]. *)
Definition IPNet_String (n : IPNet) : string :=
  match networkNumberAndMask n with
  | None => "<nil>"
  | Some (ip, m) =>
      match simpleMaskLength m with
      | None => IP_String ip +:+ "/" +:+ hexString m
      | Some l => IP_String ip +:+ "/" +:+ Itoa (N.of_nat l)
      end
  end%string.

(** A range in the form [IPNet.String] prints it. *)
Definition canonicalCIDR (s : string) : bool :=
  match ParseCIDR_opt s with
  | Some n => IPNet_String n =?s s
  | None => false
  end.

Example Net_ex :
  (IPNet_String <$> ParseCIDR "10.1.2.3/8", IPNet_String <$> ParseCIDR "0.0.0.0/0",
   IPNet_String <$> ParseCIDR "2001:DB8:0:0:1::7/64", IPNet_String <$> ParseCIDR "::/0",
   IPNet_String <$> ParseCIDR "::ffff:10.0.0.9/120",
   is_Ok (ParseCIDR "10.0.0.0/33"), is_Ok (ParseCIDR "10.0.0.1"), is_Ok (ParseCIDR "fe80::1%eth0/64"),
   is_Ok (netip_ParseAddr "01.2.3.4"), Is4 <$> netip_ParseAddr "1.2.3.4",
   Is4 <$> netip_ParseAddr "2001:db8::1", is_Ok (netip_ParseAddr "1::2::3"),
   is_Ok (netip_ParseAddr "1:2:3:4:5:6:7:8:9"))
  = (Ok "10.0.0.0/8", Ok "0.0.0.0/0", Ok "2001:db8::/64", Ok "::/0", Ok "10.0.0.0/24",
     false, false, false, false, Ok true, Ok false, false, false)%string.
Proof. vm_compute. reflexivity. Qed.

(** ** The IPv4 round trip *)

Definition byte (v : Z) : Prop := 0 <= v < 256.

Lemma Itoa_no_leading_zero (n : N) s : Itoa n = String "0" s -> s = EmptyString.
Proof.
  unfold Itoa, pretty, pretty_N. destruct (decide _) as [->|Hn]; [by intros [= <-]|].
  assert (forall x s' t, (0 < x)%N -> pretty_N_go x s' = String "0" t -> False) as H.
  { intros x. induction (N.lt_wf_0 x) as [x _ IH]. intros s' t Hx E.
    rewrite pretty_N_go_step in E by done.
    destruct (decide (x `div` 10 = 0)%N) as [Hz|Hz].
    - rewrite Hz, pretty_N_go_0 in E. injection E as E _.
      pose proof (N.div_mod x 10 ltac:(lia)) as Hdm. rewrite Hz in Hdm.
      pose proof (N.mod_lt x 10 ltac:(lia)).
      destruct (pretty_N_char_digit (x `mod` 10)) as [_ Hv]; [done|].
      rewrite E in Hv. change (digit_val "0") with 0 in Hv. lia.
    - eapply (IH (x `div` 10)%N); [apply N.div_lt; lia | by apply N.neq_0_lt_0 | exact E]. }
  intros E. exfalso. eapply H; [|exact E]. lia.
Qed.

Lemma parseIPv4Field_Itoa v : byte v -> parseIPv4Field (Itoa (Z.to_N v)) = Some v.
Proof.
  intros [H0 H1]. unfold parseIPv4Field.
  destruct (Itoa (Z.to_N v)) as [|c s] eqn:E; [by apply Itoa_nonempty in E|].
  rewrite <- E, digits_val_Itoa, Z2N.id by done.
  assert ((v <=? 255) = true) as -> by (apply Z.leb_le; lia).
  destruct (Ascii.eqb_spec c "0") as [->|]; [|done].
  by rewrite (Itoa_no_leading_zero _ _ E).
Qed.

Lemma parseIPv4Fields_print4 a b c d :
  byte a -> byte b -> byte c -> byte d ->
  parseIPv4Fields (print4 [a; b; c; d]) = Some [a; b; c; d].
Proof.
  intros Ha Hb Hc Hd. unfold parseIPv4Fields, print4.
  rewrite !append_char.
  rewrite !strings_Split_app by (by apply Itoa_no_char).
  rewrite strings_Split_none by (by apply Itoa_no_char).
  by rewrite !parseIPv4Field_Itoa by done.
Qed.

Lemma addr_family_digits s t :
  Forall (fun c => is_digit c = true) (string_chars s) ->
  addr_family (s +:+ t) = addr_family t.
Proof.
  induction s as [|c s IH]; [done|]. simpl. intros H. inversion H as [|?? Hc Hs]; subst.
  rewrite IH by done.
  destruct (Ascii.eqb_spec c "."); [by subst|].
  destruct (Ascii.eqb_spec c ":"); [by subst|].
  by destruct (Ascii.eqb_spec c "%"); [subst|].
Qed.

Lemma cut_at_app c s t :
  has_char c s = false -> cut_at c (s +:+ String c t) = Some (s, t).
Proof.
  unfold has_char. induction s as [|d s IH].
  - intros _. change (EmptyString +:+ String c t) with (String c t). simpl.
    by rewrite Ascii.eqb_refl.
  - rewrite append_cons. simpl. rewrite orb_false_iff. intros [Hd Hs].
    rewrite Ascii.eqb_sym, Hd, IH; done.
Qed.

Lemma has_char_app c s t : has_char c (s +:+ t) = has_char c s || has_char c t.
Proof.
  unfold has_char. induction s as [|d s IH]; [done|].
  rewrite append_cons. simpl. by rewrite IH, orb_assoc.
Qed.

Lemma print4_no_slash a b c d : has_char "/" (print4 [a; b; c; d]) = false.
Proof.
  unfold print4. rewrite !has_char_app, !Itoa_no_char by done. done.
Qed.

Lemma netip_ParseAddr_print4 a b c d :
  byte a -> byte b -> byte c -> byte d ->
  netip_ParseAddr_opt (print4 [a; b; c; d]) = Some (Addr4 [a; b; c; d]).
Proof.
  intros. unfold netip_ParseAddr_opt.
  assert (addr_family (print4 [a; b; c; d]) = Some "."%char) as ->
    by (unfold print4; rewrite addr_family_digits by apply Itoa_digits; done).
  by rewrite parseIPv4Fields_print4 by done.
Qed.

Lemma simpleMaskLength_CIDRMask4 n :
  (n <= 32)%nat -> simpleMaskLength (CIDRMask n 4) = Some n.
Proof.
  intros Hn.
  assert (forallb (fun n => bool_decide (simpleMaskLength (CIDRMask n 4) = Some n)) (seq 0 33)
    = true) as H by (vm_compute; reflexivity).
  rewrite forallb_forall in H. specialize (H n ltac:(apply in_seq; lia)).
  by apply bool_decide_eq_true in H.
Qed.

Lemma land_byte x y : byte x -> 0 <= y -> byte (Z.land x y).
Proof.
  intros [H0 H1] Hy. split; [by apply Z.land_nonneg; left|].
  destruct (decide (Z.land x y = 0)) as [->|Hnz]; [lia|].
  assert (0 < Z.land x y) by (pose proof (proj2 (Z.land_nonneg x y) (or_introl H0)); lia).
  apply (Z.log2_lt_cancel _ 256). change (Z.log2 256) with 8.
  pose proof (Z.log2_land x y H0 Hy).
  destruct (decide (x = 0)) as [->|]; [by rewrite Z.land_0_l in Hnz|].
  assert (Z.log2 x < 8) by (apply Z.log2_lt_pow2; lia). lia.
Qed.

(** [net.ParseCIDR] on the text of an IPv4 range, and the text printed back:
    the host bits are cleared. *)
Lemma ParseCIDR_v4 a b c d n :
  byte a -> byte b -> byte c -> byte d -> (n <= 32)%nat ->
  let m := CIDRMask n 4 in
  ParseCIDR_opt (print4 [a; b; c; d] +:+ "/" +:+ Itoa (N.of_nat n)) =
    Some {| IPNet_IP := mask_IP [a; b; c; d] m; IPNet_Mask := m |} /\
  IPNet_String {| IPNet_IP := mask_IP [a; b; c; d] m; IPNet_Mask := m |} =
    print4 (mask_IP [a; b; c; d] m) +:+ "/" +:+ Itoa (N.of_nat n).
Proof.
  intros Ha Hb Hc Hd Hn m. split.
  - unfold ParseCIDR_opt.
    rewrite append_char, cut_at_app by apply print4_no_slash. cbn [mbind option_bind].
    rewrite netip_ParseAddr_print4 by done.
    pose proof (digits_val_Itoa (N.of_nat n)) as Hv.
    destruct (Itoa (N.of_nat n)) eqn:E; [by apply Itoa_nonempty in E|].
    rewrite Hv.
    assert ((Z.of_N (N.of_nat n) <=? 32) = true) as -> by (apply Z.leb_le; lia).
    by replace (Z.to_nat (Z.of_N (N.of_nat n))) with n by lia.
  - unfold IPNet_String.
    assert (networkNumberAndMask {| IPNet_IP := mask_IP [a; b; c; d] m; IPNet_Mask := m |}
      = Some (mask_IP [a; b; c; d] m, m)) as -> by reflexivity.
    cbv beta iota. unfold m. rewrite simpleMaskLength_CIDRMask4 by done.
    reflexivity.
Qed.
