(* ===== verification/Sdk.v ===== *)
(** * Data of the Scaleway SDK and of the Kubernetes libraries

    Only the types and fields the sources use.  String-valued enumerations of
    the SDK are inductive types whose constructors are the constants the
    sources name, with a last constructor for any other value. *)

From S2P Require Import Prelude Go Net.

(** [scw.Zone], [scw.Region] and the identifiers are strings in the SDK. *)
Abbreviation Zone := string.
Abbreviation Region := string.
Abbreviation ID := string.

(** [scw.ZoneFrPar1], the zone given to listings that span several zones. *)
Definition ZoneFrPar1 : Zone := "fr-par-1"%string.

(** ** Package [instance] *)

Inductive SecurityGroupRuleProtocol :=
| SecurityGroupRuleProtocolANY
| SecurityGroupRuleProtocolTCP
| SecurityGroupRuleProtocolUDP
| SecurityGroupRuleProtocolICMP
| SecurityGroupRuleProtocolOther (s : string).

Inductive InstanceSGPolicy :=
| SecurityGroupPolicyAccept
| SecurityGroupPolicyDrop
| SecurityGroupPolicyOther (s : string).

Inductive SecurityGroupRuleAction :=
| SecurityGroupRuleActionAccept
| SecurityGroupRuleActionDrop
| SecurityGroupRuleActionOther (s : string).

Inductive SecurityGroupRuleDirection :=
| SecurityGroupRuleDirectionInbound
| SecurityGroupRuleDirectionOutbound
| SecurityGroupRuleDirectionOther (s : string).

Inductive VolumeVolumeType :=
| VolumeVolumeTypeLSSD
| VolumeVolumeTypeBSSD
| VolumeVolumeTypeOther (s : string).

Inductive ServerState :=
| ServerStateStopped
| ServerStateOther (s : string).

Inductive ServerActionKind :=
| ServerActionPoweron
| ServerActionTerminate.

#[export] Instance SecurityGroupRuleProtocol_eq_dec : EqDecision SecurityGroupRuleProtocol.
Proof. solve_decision. Defined.
#[export] Instance InstanceSGPolicy_eq_dec : EqDecision InstanceSGPolicy.
Proof. solve_decision. Defined.
#[export] Instance SecurityGroupRuleAction_eq_dec : EqDecision SecurityGroupRuleAction.
Proof. solve_decision. Defined.
#[export] Instance SecurityGroupRuleDirection_eq_dec : EqDecision SecurityGroupRuleDirection.
Proof. solve_decision. Defined.
#[export] Instance ServerState_eq_dec : EqDecision ServerState.
Proof. solve_decision. Defined.
#[export] Instance ServerActionKind_eq_dec : EqDecision ServerActionKind.
Proof. solve_decision. Defined.

(** [instance.IP] (a flexible IP). *)
Record InstanceIP := { iip_ID : ID; iip_Tags : list string }.

(** [instance.ServerIP], the public IP of a server. *)
Record ServerIP := { sip_ID : ID; sip_Address : list Z; sip_Dynamic : bool }.

(** [instance.VolumeServer]. *)
Record Volume := { vol_ID : ID; vol_Boot : bool }.

(** [instance.Server].  [srv_Volumes] is the map of volumes in the order in
    which the [range] statement visits it. *)
Record Server := {
  srv_ID : ID;
  srv_Name : string;
  srv_Zone : Zone;
  srv_State : ServerState;
  srv_PublicIP : option ServerIP;
  srv_Volumes : list (string * Volume);
}.

(** [instance.PrivateNIC]. *)
Record PrivateNIC := { nic_ID : ID; nic_PrivateNetworkID : ID }.

(** [instance.SecurityGroup]. *)
Record InstanceSecurityGroup := {
  isg_ID : ID;
  isg_Name : string;
  isg_Zone : Zone;
  isg_InboundDefaultPolicy : InstanceSGPolicy;
  isg_OutboundDefaultPolicy : InstanceSGPolicy;
  isg_EnableDefaultSecurity : bool;
}.

(** [instance.SecurityGroupRule], as listed by the API. *)
Record InstanceSecurityGroupRule := {
  isr_Protocol : SecurityGroupRuleProtocol;
  isr_Direction : SecurityGroupRuleDirection;
  isr_Action : SecurityGroupRuleAction;
  isr_IPRange : IPNet;
  isr_DestPortFrom : option Z;
  isr_DestPortTo : option Z;
}.

(** [instance.SetSecurityGroupRulesRequestRule]. *)
Record SetSecurityGroupRulesRequestRule := {
  srr_Action : SecurityGroupRuleAction;
  srr_Protocol : SecurityGroupRuleProtocol;
  srr_Direction : SecurityGroupRuleDirection;
  srr_IPRange : IPNet;
  srr_DestPortFrom : option Z;
  srr_DestPortTo : option Z;
  srr_Position : Z;
}.

(** [instance.CreateSecurityGroupRequest]. *)
Record CreateSecurityGroupRequest := {
  csg_Zone : Zone;
  csg_Name : string;
  csg_Tags : list string;
  csg_InboundDefaultPolicy : InstanceSGPolicy;
  csg_OutboundDefaultPolicy : InstanceSGPolicy;
  csg_EnableDefaultSecurity : option bool;
  csg_Stateful : bool;
}.

(** [instance.UpdateSecurityGroupRequest]. *)
Record UpdateSecurityGroupRequest := {
  usg_Zone : Zone;
  usg_SecurityGroupID : ID;
  usg_InboundDefaultPolicy : InstanceSGPolicy;
  usg_OutboundDefaultPolicy : InstanceSGPolicy;
  usg_EnableDefaultSecurity : option bool;
}.

(** [instance.VolumeServerTemplate]; sizes are unsigned 64-bit byte counts. *)
Record VolumeServerTemplate := {
  vst_Size : Z;
  vst_VolumeType : VolumeVolumeType;
  vst_Boot : option bool;
}.

(** [instance.CreateServerRequest]. *)
Record CreateServerRequest := {
  csr_Zone : Zone;
  csr_Name : string;
  csr_CommercialType : string;
  csr_DynamicIPRequired : option bool;
  csr_RoutedIPEnabled : option bool;
  csr_Image : ID;
  csr_SecurityGroup : option ID;
  csr_Volumes : list (string * VolumeServerTemplate);
  csr_PublicIP : option ID;
}.

(** ** Package [lb] *)

Inductive LBStatus :=
| LBStatusReady
| LBStatusOther (s : string).

#[export] Instance LBStatus_eq_dec : EqDecision LBStatus.
Proof. solve_decision. Defined.

(** [lb.IP]. *)
Record LBIP := { lbip_ID : ID; lbip_IPAddress : string }.

(** [lb.LB]. *)
Record LB := {
  lb_ID : ID;
  lb_Name : string;
  lb_Zone : Zone;
  lb_Status : LBStatus;
  lb_IP : list LBIP;
}.

(** [lb.Backend]; [be_Pool] holds the addresses of its servers. *)
Record Backend := { be_ID : ID; be_Name : string; be_Pool : list string }.

(** [lb.Frontend]. *)
Record Frontend := { fe_ID : ID; fe_Name : string; fe_InboundPort : Z }.

Inductive ACLActionType := ACLActionTypeAllow | ACLActionTypeDeny | ACLActionTypeRedirect.

#[export] Instance ACLActionType_eq_dec : EqDecision ACLActionType.
Proof. solve_decision. Defined.

(** [lb.ACL]: [acl_Match] has the strings that the pointers of [Match.IPSubnet] point to,
    if there is a match; [acl_Action] is the type of the action, if there is one. *)
Record ACL := {
  acl_ID : ID;
  acl_Name : string;
  acl_Match : option (list string);
  acl_Action : option ACLActionType;
  acl_Index : Z;
}.

(** [acl.Match == nil || !slices.Equal(scw.StringSlicePtr(ips), acl.Match.IPSubnet)]. *)
Definition match_differs (ips : list string) (acl : ACL) : bool :=
  match acl_Match acl with
  | None => true
  | Some subnet => negb (Equal_StringSlicePtr ips subnet)
  end.

(** The pointers are compared, so the answer does not depend on the subnets. *)
Lemma match_differs_true ips acl : ips <> [] -> match_differs ips acl = true.
Proof.
  intros Hips. unfold match_differs. destruct (acl_Match acl); [|done].
  rewrite Equal_StringSlicePtr_spec, bool_decide_eq_false_2; [done|]. by intros [? _].
Qed.

(** What an access control list does. *)
Definition acl_is (ips : list string) (action : ACLActionType) (index : Z) (acl : ACL) : Prop :=
  acl_Match acl = Some ips /\ acl_Action acl = Some action /\ acl_Index acl = index.

(** [lb.ZonedAPICreateACLRequest]. *)
Record CreateACLRequest := {
  cacl_Zone : Zone;
  cacl_FrontendID : ID;
  cacl_Name : string;
  cacl_Action : ACLActionType;
  cacl_Match : list string;
  cacl_Index : Z;
}.

(** [lb.ZonedAPIUpdateACLRequest]. *)
Record UpdateACLRequest := {
  uacl_Zone : Zone;
  uacl_ACLID : ID;
  uacl_Name : string;
  uacl_Action : ACLActionType;
  uacl_Match : list string;
  uacl_Index : Z;
}.

(** ** Packages [vpc] and [vpcgw] *)

(** [vpc.PrivateNetwork]. *)
Record PrivateNetwork := { pn_ID : ID; pn_Name : string; pn_DHCPEnabled : bool }.

(** [vpcgw.IP]. *)
Record GatewayIP := { gip_ID : ID; gip_Address : list Z }.

(** [vpcgw.Gateway]. *)
Record Gateway := { gw_ID : ID; gw_Name : string; gw_IP : option GatewayIP }.

(** ** Kubernetes and Cluster API *)

(** The fields of [metav1.OwnerReference] and [metav1.ObjectMeta] in use;
    [om_DeletionTimestamp] is the Unix time, if set. *)
Record OwnerReference := { or_UID : string }.

Record ObjectMeta := {
  om_Name : string;
  om_Namespace : string;
  om_UID : string;
  om_Labels : gmap string string;
  om_Annotations : gmap string string;
  om_Finalizers : list string;
  om_OwnerReferences : list OwnerReference;
  om_DeletionTimestamp : option Z;
}.

(** [clusterv1.APIEndpoint]. *)
Record APIEndpoint := { ep_Host : string; ep_Port : Z }.

(** [clusterv1.FailureDomainSpec]. *)
Record FailureDomainSpec := { fd_ControlPlane : bool }.

(** [clusterv1.MachineAddress]. *)
Inductive MachineAddressType := MachineExternalIP | MachineInternalIP.

Record MachineAddress := { ma_Type : MachineAddressType; ma_Address : string }.

(** [clusterv1.Cluster]: [cl_InfrastructureRef] is the name in the reference. *)
Record CapiCluster := {
  cl_ObjectMeta : ObjectMeta;
  cl_Paused : bool;
  cl_InfrastructureRef : option string;
  cl_InfrastructureReady : bool;
}.

(** [clusterv1.Machine]. *)
Record CapiMachine := {
  m_ObjectMeta : ObjectMeta;
  m_DataSecretName : option string;
  m_FailureDomain : option string;
}.

(** [corev1.Secret]. *)
Record Secret := {
  sec_ObjectMeta : ObjectMeta;
  sec_Data : gmap string string;
}.

(** [types.NamespacedName]. *)
Record NamespacedName := { nn_Namespace : string; nn_Name : string }.

(** ** Functions of the libraries

    The functions below are not part of the repository: they are the operations
    of two classes, on which every definition that uses them depends. *)

(** Pure functions of [scaleway-sdk-go] and of [google/uuid]; parsers return
    the error text on the left. *)
Class ScwSDK := {
  scw_ParseRegion : string -> string + Region;
  scw_ParseZone : string -> string + Zone;
  Zone_Region : Zone -> string + Region;
  Region_GetZones : Region -> list Zone;
  scw_GB : Z;
  Instance_Zones : list Zone;
  VPCGW_Zones : list Zone;
  uuid_Parse_ok : string -> bool;
  (** [scw.NewClient] with the access key, secret key, project ID and API URL
      it is given: an error, or the default project ID of the client, if any. *)
  scw_NewClient : string -> string -> string -> option string -> api_error + option string;
  (** [template.New(..).Delims("[[[", "]]]").Parse] followed by [Execute] with
      the fields [NodeIP] and [ProviderID]. *)
  template_Parse : string -> api_error + (string -> string -> api_error + string);
}.

(** Pure functions of [controller-runtime], [apimachinery] and [cluster-api]. *)
Class K8sLib := {
  AddFinalizer : ObjectMeta -> string -> ObjectMeta * bool;
  RemoveFinalizer : ObjectMeta -> string -> ObjectMeta * bool;
  Time_IsZero : option Z -> bool;
  IsPaused : CapiCluster -> ObjectMeta -> bool;
  IsControlPlaneMachine : CapiMachine -> bool;
  IsControlledBy : ObjectMeta -> ObjectMeta -> bool;
  SetOwnerReference : ObjectMeta -> ObjectMeta -> api_error + ObjectMeta;
}.

(** Documented behaviour of the finalizer helpers (the finalizer is present, resp.
    absent, afterwards, the flag tells whether the object changed, and the name and the
    deletion timestamp are kept) and of [Time.IsZero] on the nil time. *)
Class K8sLaws `{K8sLib} := {
  AddFinalizer_in : forall m f, f ∈ om_Finalizers (AddFinalizer m f).1;
  AddFinalizer_changed : forall m f, (AddFinalizer m f).2 = false -> (AddFinalizer m f).1 = m;
  AddFinalizer_name : forall m f, om_Name (AddFinalizer m f).1 = om_Name m;
  AddFinalizer_deletion : forall m f,
    om_DeletionTimestamp (AddFinalizer m f).1 = om_DeletionTimestamp m;
  RemoveFinalizer_deletion : forall m f,
    om_DeletionTimestamp (RemoveFinalizer m f).1 = om_DeletionTimestamp m;
  RemoveFinalizer_out : forall m f, f ∉ om_Finalizers (RemoveFinalizer m f).1;
  RemoveFinalizer_name : forall m f, om_Name (RemoveFinalizer m f).1 = om_Name m;
  Time_IsZero_nil : Time_IsZero None = true;
}.
