(* ===== verification/Types.v ===== *)
(** * The API types of the provider ([api/v1beta1/*_types.go])

    [ScalewayCluster], [ScalewayMachine] and their specs, with the conversions
    the types offer: [PortOrPortRange.ToRange], the conversions of protocols and
    actions to the SDK's, and the root volume type. *)

From S2P Require Import Prelude Go Net Sdk.
#[local] Open Scope caps_scope.

(** ** Constants *)

Definition ClusterFinalizer : string := "scalewaycluster.infrastructure.cluster.x-k8s.io".
Definition MachineFinalizer : string := "scalewaymachine.infrastructure.cluster.x-k8s.io".

(** ** Security groups *)

(** [SecurityGroupProtocol] and [SecurityGroupAction] are strings. *)
Definition SecurityGroupProtocolANY : string := "ANY".
Definition SecurityGroupProtocolTCP : string := "TCP".
Definition SecurityGroupProtocolUDP : string := "UDP".
Definition SecurityGroupProtocolICMP : string := "ICMP".
Definition SecurityGroupActionDrop : string := "Drop".
Definition SecurityGroupActionAccept : string := "Accept".

Record SecurityGroupRule := {
  sgr_Action : string;
  sgr_Protocol : option string;
  sgr_Ports : option string;
  sgr_IPRange : option string;
}.

Record SecurityGroupPolicy := {
  sgp_Default : option string;
  sgp_Rules : list SecurityGroupRule;
}.

Record SecurityGroup := {
  sg_Name : string;
  sg_Inbound : option SecurityGroupPolicy;
  sg_Outbound : option SecurityGroupPolicy;
}.

(** ** Network *)

Record PrivateNetworkSpec := {
  pns_Enabled : bool;
  pns_ID : option string;
  pns_Subnet : option string;
}.

Record PublicGatewaySpec := {
  pgs_Enabled : bool;
  pgs_ID : option string;
  pgs_Type : option string;
  pgs_IP : option string;
  pgs_Zone : option string;
}.

Record LoadBalancerSpec := {
  lbs_Zone : option string;
  lbs_Type : option string;
  lbs_IP : option string;
  lbs_AllowedRanges : list string;
}.

Record NetworkSpec := {
  ns_PrivateNetwork : option PrivateNetworkSpec;
  ns_PublicGateway : option PublicGatewaySpec;
  ns_SecurityGroups : list SecurityGroup;
}.

#[export] Instance PrivateNetworkSpec_eq_dec : EqDecision PrivateNetworkSpec.
Proof. solve_decision. Defined.
#[export] Instance PublicGatewaySpec_eq_dec : EqDecision PublicGatewaySpec.
Proof. solve_decision. Defined.

(** ** ScalewayCluster *)

Record ScalewayClusterSpec := {
  scs_ControlPlaneEndpoint : APIEndpoint;
  scs_FailureDomains : list string;
  scs_Region : string;
  scs_Network : option NetworkSpec;
  scs_ControlPlaneLoadBalancer : option LoadBalancerSpec;
  scs_ScalewaySecretName : string;
}.

Record NetworkStatus := {
  nst_PrivateNetworkID : option string;
  nst_PublicGatewayID : option string;
}.

Record ScalewayClusterStatus := {
  scst_Ready : bool;
  scst_FailureDomains : gmap string FailureDomainSpec;
  scst_Network : option NetworkStatus;
}.

Record ScalewayCluster := {
  sc_ObjectMeta : ObjectMeta;
  sc_Spec : ScalewayClusterSpec;
  sc_Status : ScalewayClusterStatus;
}.

(** ** ScalewayMachine *)

Record ScalewayMachineSpec := {
  sms_ProviderID : option string;
  sms_Image : string;
  sms_Type : string;
  sms_RootVolumeSize : option Z;
  sms_RootVolumeType : option string;
  sms_PublicIP : option bool;
  sms_SecurityGroupName : option string;
}.

Record ScalewayMachineStatus := {
  smst_Ready : bool;
  smst_Addresses : list MachineAddress;
}.

Record ScalewayMachine := {
  sm_ObjectMeta : ObjectMeta;
  sm_Spec : ScalewayMachineSpec;
  sm_Status : ScalewayMachineStatus;
}.

(** ** Conversions *)

(** [(p *PortOrPortRange) ToRange()]: [None] for a nil pointer. *)
Definition ToRange (p : option string) : outcome (option Z * option Z) :=
  match p with
  | None => Ok (None, None)
  | Some p =>
      match strings_Split p "-" with
      | [s0] =>
          n ← outcome_wrap "port is not a valid number" (Atoi s0);
          Ok (Some (uint32 n), None)
      | [s0; s1] =>
          from ← outcome_wrap "'from' port is not a valid number" (Atoi s0);
          to ← outcome_wrap "'to' port is not a valid number" (Atoi s1);
          if to <? from
          then Err (ErrorsNew "invalid port range: 'from' is higher than 'to'")
          else Ok (Some (uint32 from), Some (uint32 to))
      | _ => Err (ErrorsNew "port or port range is not correctly formatted")
      end
  end.

(** [(s *SecurityGroupProtocol) ToInstance()]. *)
Definition ToInstance (s : option string) : outcome SecurityGroupRuleProtocol :=
  match s with
  | None => Ok SecurityGroupRuleProtocolANY
  | Some s =>
      if s =?s SecurityGroupProtocolANY then Ok SecurityGroupRuleProtocolANY
      else if s =?s SecurityGroupProtocolTCP then Ok SecurityGroupRuleProtocolTCP
      else if s =?s SecurityGroupProtocolUDP then Ok SecurityGroupRuleProtocolUDP
      else if s =?s SecurityGroupProtocolICMP then Ok SecurityGroupRuleProtocolICMP
      else Err (ErrorsNew ("unknown security group protocol: " +:+ s))
  end.

(** [(s *SecurityGroupAction) ToInstancePolicy()]. *)
Definition ToInstancePolicy (s : option string) : outcome InstanceSGPolicy :=
  match s with
  | None => Ok SecurityGroupPolicyAccept
  | Some s =>
      if s =?s SecurityGroupActionAccept then Ok SecurityGroupPolicyAccept
      else if s =?s SecurityGroupActionDrop then Ok SecurityGroupPolicyDrop
      else Err (ErrorsNew ("unknown action: " +:+ s))
  end.

(** [(s *SecurityGroupAction) ToInstanceAction()]. *)
Definition ToInstanceAction (s : option string) : outcome SecurityGroupRuleAction :=
  match s with
  | None => Ok SecurityGroupRuleActionAccept
  | Some s =>
      if s =?s SecurityGroupActionAccept then Ok SecurityGroupRuleActionAccept
      else if s =?s SecurityGroupActionDrop then Ok SecurityGroupRuleActionDrop
      else Err (ErrorsNew ("unknown action: " +:+ s))
  end.

(** [(s *ScalewayMachineSpec) ScalewayRootVolumeType()]. *)
Definition ScalewayRootVolumeType (s : ScalewayMachineSpec) : outcome VolumeVolumeType :=
  match sms_RootVolumeType s with
  | None => Ok VolumeVolumeTypeBSSD
  | Some t =>
      if t =?s "local" then Ok VolumeVolumeTypeLSSD
      else if t =?s "block" then Ok VolumeVolumeTypeBSSD
      else Err (ErrorsNew ("unsupported root volume type: " +:+ t))
  end.

Lemma ScalewayRootVolumeType_Panic s : ScalewayRootVolumeType s <> Panic.
Proof. unfold ScalewayRootVolumeType. by repeat break_match. Qed.

(** ** Setters for the fields the reconcilers mutate *)

Definition set_sc_ObjectMeta (m : ObjectMeta) (c : ScalewayCluster) : ScalewayCluster :=
  {| sc_ObjectMeta := m; sc_Spec := sc_Spec c; sc_Status := sc_Status c |}.

Definition set_sc_Status (st : ScalewayClusterStatus) (c : ScalewayCluster) : ScalewayCluster :=
  {| sc_ObjectMeta := sc_ObjectMeta c; sc_Spec := sc_Spec c; sc_Status := st |}.

Definition set_sc_ControlPlaneEndpoint (e : APIEndpoint) (c : ScalewayCluster) : ScalewayCluster :=
  {| sc_ObjectMeta := sc_ObjectMeta c;
     sc_Spec :=
       {| scs_ControlPlaneEndpoint := e;
          scs_FailureDomains := scs_FailureDomains (sc_Spec c);
          scs_Region := scs_Region (sc_Spec c);
          scs_Network := scs_Network (sc_Spec c);
          scs_ControlPlaneLoadBalancer := scs_ControlPlaneLoadBalancer (sc_Spec c);
          scs_ScalewaySecretName := scs_ScalewaySecretName (sc_Spec c) |};
     sc_Status := sc_Status c |}.

Definition set_scst_Ready (b : bool) (st : ScalewayClusterStatus) : ScalewayClusterStatus :=
  {| scst_Ready := b; scst_FailureDomains := scst_FailureDomains st;
     scst_Network := scst_Network st |}.

Definition set_scst_FailureDomains (fd : gmap string FailureDomainSpec)
    (st : ScalewayClusterStatus) : ScalewayClusterStatus :=
  {| scst_Ready := scst_Ready st; scst_FailureDomains := fd; scst_Network := scst_Network st |}.

Definition set_scst_Network (n : option NetworkStatus) (st : ScalewayClusterStatus)
  : ScalewayClusterStatus :=
  {| scst_Ready := scst_Ready st; scst_FailureDomains := scst_FailureDomains st;
     scst_Network := n |}.

Definition set_sm_ObjectMeta (m : ObjectMeta) (x : ScalewayMachine) : ScalewayMachine :=
  {| sm_ObjectMeta := m; sm_Spec := sm_Spec x; sm_Status := sm_Status x |}.

Definition set_sm_Status (st : ScalewayMachineStatus) (x : ScalewayMachine) : ScalewayMachine :=
  {| sm_ObjectMeta := sm_ObjectMeta x; sm_Spec := sm_Spec x; sm_Status := st |}.

Definition set_sm_ProviderID (p : option string) (x : ScalewayMachine) : ScalewayMachine :=
  {| sm_ObjectMeta := sm_ObjectMeta x;
     sm_Spec :=
       {| sms_ProviderID := p;
          sms_Image := sms_Image (sm_Spec x);
          sms_Type := sms_Type (sm_Spec x);
          sms_RootVolumeSize := sms_RootVolumeSize (sm_Spec x);
          sms_RootVolumeType := sms_RootVolumeType (sm_Spec x);
          sms_PublicIP := sms_PublicIP (sm_Spec x);
          sms_SecurityGroupName := sms_SecurityGroupName (sm_Spec x) |};
     sm_Status := sm_Status x |}.

(** ** Ports *)

(** The text of a port ([to = None]) or of a range of ports. *)
Definition print_ports (from : N) (to : option N) : string :=
  match to with
  | None => Itoa from
  | Some t => Itoa from +:+ String "-" (Itoa t)
  end.

Definition valid_ports (from : N) (to : option N) : Prop :=
  Z.of_N from < 2 ^ 32 /\
  match to with None => True | Some t => (from <= t)%N /\ Z.of_N t < 2 ^ 32 end.

(** C40.  The text of a port, or of a range of ports in order, below 2^32 is read back by
    [ToRange] as the same numbers. *)
Theorem ToRange_print_ports (from : N) (to : option N) :
  valid_ports from to ->
  ToRange (Some (print_ports from to)) = Ok (Some (Z.of_N from), Z.of_N <$> to).
Proof.
  intros [Hf Ht]. unfold ToRange, print_ports.
  assert (Z.of_N from <= max_int64) by (unfold max_int64; lia).
  destruct to as [t|].
  - destruct Ht as [Hle Ht].
    assert (Z.of_N t <= max_int64) by (unfold max_int64; lia).
    rewrite strings_Split_app, strings_Split_none by (by apply Itoa_no_char).
    rewrite !Atoi_Itoa by done. simpl.
    assert ((Z.of_N t <? Z.of_N from) = false) as -> by (apply Z.ltb_ge; lia).
    by rewrite !uint32_id by lia.
  - rewrite strings_Split_none by (by apply Itoa_no_char).
    rewrite Atoi_Itoa by done. simpl. by rewrite uint32_id by lia.
Qed.

(** C39.  What [ToRange] accepts, and its bounds: one decimal number, or two in increasing
    order; the result is each number modulo 2^32, so that it always fits in 32 bits, and
    the range is in order when its upper bound does not wrap around. *)
Theorem ToRange_bounds (p : string) (from to : option Z) :
  ToRange (Some p) = Ok (from, to) ->
  exists f vf, from = Some f /\ f = uint32 vf /\ 0 <= f < 2 ^ 32 /\
    match to with
    | None => strings_Split p "-" = [p] /\ Atoi p = Ok vf
    | Some t => exists a b vt, strings_Split p "-" = [a; b] /\
        Atoi a = Ok vf /\ Atoi b = Ok vt /\ t = uint32 vt /\
        0 <= t < 2 ^ 32 /\ 0 <= vf <= vt /\ (vt < 2 ^ 32 -> f <= t)
    end.
Proof.
  unfold ToRange. intros H.
  pose proof (fun w => strings_Split_elem p "-" w) as Hsep.
  destruct (strings_Split p "-") as [|a [|b [|? ?]]] eqn:E; try done.
  - destruct (Atoi a) as [vf| |] eqn:Ea; simpl in H; try done. simplify_eq.
    apply strings_Split_single in E as ->.
    exists (uint32 vf), vf. split_and!; auto; apply uint32_bounds.
  - destruct (Atoi a) as [vf| |] eqn:Ea; simpl in H; try done.
    destruct (Atoi b) as [vt| |] eqn:Eb; simpl in H; try done.
    destruct (vt <? vf) eqn:Hlt; try done. simplify_eq. to_prop.
    pose proof (Atoi_nonneg a vf ltac:(apply Hsep; set_solver) Ea).
    exists (uint32 vf), vf. split_and!; auto with caps; try apply uint32_bounds.
    exists a, b, vt. split_and!; auto; try apply uint32_bounds.
    intros Hvt. rewrite !uint32_id; lia.
Qed.

Lemma ToRange_print_ports_witness :
  valid_ports 80 (Some 443%N) /\ ToRange (Some "80-443"%string) = Ok (Some 80, Some 443).
Proof.
  assert (valid_ports 80 (Some 443%N)) as H by (split; [done|split; [lia|done]]).
  split; [exact H|]. exact (ToRange_print_ports 80 (Some 443%N) H).
Defined.

(** The bound that wraps around: the range 1-2^32 is read as 1-0. *)
Lemma ToRange_bounds_witness :
  ToRange (Some "1-4294967296"%string) = Ok (Some 1, Some 0) /\
  exists f vf, Some 1 = Some f /\ f = uint32 vf /\ 0 <= f < 2 ^ 32 /\
    exists a b vt, strings_Split "1-4294967296" "-" = [a; b] /\
      Atoi a = Ok vf /\ Atoi b = Ok vt /\ 0 = uint32 vt /\
      0 <= 0 < 2 ^ 32 /\ 0 <= vf <= vt /\ (vt < 2 ^ 32 -> f <= 0).
Proof.
  assert (ToRange (Some "1-4294967296"%string) = Ok (Some 1, Some 0)) as H by by vm_compute.
  split; [exact H|]. exact (ToRange_bounds "1-4294967296" (Some 1) (Some 0) H).
Defined.
