(* ===== verification/Cloud.v ===== *)
(** * The remote calls of the program

    One constructor per SDK or Kubernetes operation the sources call, with the
    fields of the request, and the type of the value each returns.  What the
    remote side answers is not modelled: it is the oracle of [Prog]. *)

From S2P Require Import Prelude Go Net Prog Sdk Types.

(** The objects a patch helper works on. *)
Inductive k8s_object :=
| OCluster (c : ScalewayCluster)
| OMachine (m : ScalewayMachine).

Inductive cloud_call :=
(** [instance.API] *)
| ListServers (zone : Zone) (name : option string)
| InstanceListIPs (zone : Zone) (tags : list string)
| ListPrivateNICs (zone : Zone) (serverID : ID)
| ListSecurityGroups (zone : Zone) (name : option string) (tags : list string) (zones : list Zone)
| InstanceCreateIP (zone : Zone) (tags : list string)
| CreateServer (req : CreateServerRequest)
| CreatePrivateNIC (zone : Zone) (serverID pnID : ID)
| GetAllServerUserData (zone : Zone) (serverID : ID)
| SetServerUserData (zone : Zone) (serverID : ID) (key content : string)
| ServerAction (zone : Zone) (serverID : ID) (action : ServerActionKind)
| InstanceDeleteIP (zone : Zone) (ip : ID)
| DetachVolume (zone : Zone) (volumeID : ID)
| DeleteVolume (zone : Zone) (volumeID : ID)
| DeleteServer (zone : Zone) (serverID : ID)
| CreateSecurityGroup (req : CreateSecurityGroupRequest)
| UpdateSecurityGroup (req : UpdateSecurityGroupRequest)
| DeleteSecurityGroup (zone : Zone) (sgID : ID)
| ListSecurityGroupRules (zone : Zone) (sgID : ID)
| SetSecurityGroupRules (zone : Zone) (sgID : ID) (rules : list SetSecurityGroupRulesRequestRule)
(** [marketplace.API] and [ipam.API] *)
| GetLocalImageByLabel (commercialType : string) (zone : Zone) (label : string)
| IPAMListIPs (region : Region) (projectID : ID) (resourceID : ID)
(** [lb.ZonedAPI] *)
| ListLBs (zone : Zone) (name : option string)
| CreateLB (zone : Zone) (name type : string) (ipID : option ID)
| DeleteLB (zone : Zone) (lbID : ID) (releaseIP : bool)
| ListLBPrivateNetworks (zone : Zone) (lbID : ID)
| AttachPrivateNetwork (zone : Zone) (lbID pnID : ID)
| ListBackends (zone : Zone) (lbID : ID) (name : option string)
| CreateBackend (zone : Zone) (lbID : ID) (name : string) (port healthCheckPort maxRetries : Z)
| DeleteBackend (zone : Zone) (backendID : ID)
| AddBackendServers (zone : Zone) (backendID : ID) (serverIP : list string)
| RemoveBackendServers (zone : Zone) (backendID : ID) (serverIP : list string)
| ListFrontends (zone : Zone) (lbID : ID) (name : option string)
| CreateFrontend (zone : Zone) (lbID : ID) (name : string) (inboundPort : Z) (backendID : ID)
| DeleteFrontend (zone : Zone) (frontendID : ID)
| LBListIPs (zone : Zone) (ip : string) (projectID : ID)
| ListACLs (zone : Zone) (frontendID : ID) (name : option string)
| CreateACL (req : CreateACLRequest)
| UpdateACL (req : UpdateACLRequest)
| DeleteACL (zone : Zone) (aclID : ID)
(** [vpc.API] *)
| ListPrivateNetworks (region : Region) (name : option string) (projectID : ID)
| CreatePrivateNetwork (region : Region) (name : string) (subnets : list IPNet)
| DeletePrivateNetwork (region : Region) (pnID : ID)
(** [vpcgw.API] *)
| ListGatewaysByName (zone : Zone) (name : string) (projectID : ID)
| ListGatewaysByPN (zone : Zone) (pnID : ID) (zones : list Zone)
| GatewayListFreeIPs (zone : Zone) (projectID : ID)
| GatewayListIPsByTags (zone : Zone) (tags : list string) (projectID : ID)
| GatewayCreateIP (zone : Zone) (tags : list string)
| CreateGateway (zone : Zone) (name : string) (ipID : ID) (type : string)
| ListGatewayNetworks (zone : Zone) (gatewayID pnID : ID)
| CreateGatewayNetwork (zone : Zone) (gatewayID pnID : ID) (enableDHCP : option bool)
    (enableMasquerade pushDefaultRoute : bool)
| DeleteGateway (zone : Zone) (gatewayID : ID)
| GatewayDeleteIP (zone : Zone) (ipID : ID)
(** The Kubernetes client, [cluster-api/util] and [cluster-api/util/patch] *)
| GetScalewayCluster (key : NamespacedName)
| GetScalewayMachine (key : NamespacedName)
| GetSecret (key : NamespacedName)
| UpdateSecret (s : Secret)
| GetOwnerCluster (meta : ObjectMeta)
| GetOwnerMachine (meta : ObjectMeta)
| GetClusterFromMetadata (meta : ObjectMeta)
| NewPatchHelper (obj : k8s_object)
| Patch (before after : k8s_object).

(** The value of a successful call. *)
Definition cloud_val (c : cloud_call) : Type :=
  match c with
  | ListServers _ _ => list Server
  | InstanceListIPs _ _ => list InstanceIP
  | ListPrivateNICs _ _ => list PrivateNIC
  | ListSecurityGroups _ _ _ _ => list InstanceSecurityGroup
  | InstanceCreateIP _ _ => InstanceIP
  | CreateServer _ => Server
  | CreatePrivateNIC _ _ _ => PrivateNIC
  | GetAllServerUserData _ _ => gmap string string
  | CreateSecurityGroup _ => InstanceSecurityGroup
  | ListSecurityGroupRules _ _ => list InstanceSecurityGroupRule
  | GetLocalImageByLabel _ _ _ => ID
  | IPAMListIPs _ _ _ => list IPNet
  | ListLBs _ _ => list LB
  | CreateLB _ _ _ _ => LB
  | ListLBPrivateNetworks _ _ => list ID
  | ListBackends _ _ _ => list Backend
  | CreateBackend _ _ _ _ _ _ => Backend
  | ListFrontends _ _ _ => list Frontend
  | CreateFrontend _ _ _ _ _ => Frontend
  | LBListIPs _ _ _ => list LBIP
  | ListACLs _ _ _ => list ACL
  | CreateACL _ => ACL
  | ListPrivateNetworks _ _ _ => list PrivateNetwork
  | CreatePrivateNetwork _ _ _ => PrivateNetwork
  | ListGatewaysByName _ _ _ | ListGatewaysByPN _ _ _ => list Gateway
  | GatewayListFreeIPs _ _ | GatewayListIPsByTags _ _ _ => list GatewayIP
  | GatewayCreateIP _ _ => GatewayIP
  | CreateGateway _ _ _ _ => Gateway
  | ListGatewayNetworks _ _ _ => Z
  | GetScalewayCluster _ => ScalewayCluster
  | GetScalewayMachine _ => ScalewayMachine
  | GetSecret _ => Secret
  | GetOwnerCluster _ => option CapiCluster
  | GetOwnerMachine _ => option CapiMachine
  | GetClusterFromMetadata _ => CapiCluster
  | _ => unit
  end.

Definition cloud : sig := {| call := cloud_call; val := cloud_val |}.

Abbreviation trace := (history cloud).
Abbreviation GoC := (GoM cloud).
Abbreviation CEv := (@Ev cloud).

(** A remote call of the program. *)
Definition remote {S} (c : cloud_call) : GoC S (cloud_val c) := api (Sg := cloud) c.

(** ** Classes of calls *)

(** Calls that change the state of the Scaleway project. *)
Definition mutates (c : cloud_call) : bool :=
  match c with
  | InstanceCreateIP _ _ | CreateServer _ | CreatePrivateNIC _ _ _
  | SetServerUserData _ _ _ _ | ServerAction _ _ _ | InstanceDeleteIP _ _
  | DetachVolume _ _ | DeleteVolume _ _ | DeleteServer _ _
  | CreateSecurityGroup _ | UpdateSecurityGroup _ | DeleteSecurityGroup _ _
  | SetSecurityGroupRules _ _ _
  | CreateLB _ _ _ _ | DeleteLB _ _ _ | AttachPrivateNetwork _ _ _
  | CreateBackend _ _ _ _ _ _ | DeleteBackend _ _ | AddBackendServers _ _ _
  | RemoveBackendServers _ _ _ | CreateFrontend _ _ _ _ _ | DeleteFrontend _ _
  | CreateACL _ | UpdateACL _ | DeleteACL _ _
  | CreatePrivateNetwork _ _ _ | DeletePrivateNetwork _ _
  | GatewayCreateIP _ _ | CreateGateway _ _ _ _ | CreateGatewayNetwork _ _ _ _ _ _
  | DeleteGateway _ _ | GatewayDeleteIP _ _ => true
  | _ => false
  end.

(** The calls that take something away. *)
Definition removes (c : cloud_call) : bool :=
  match c with
  | ServerAction _ _ ServerActionTerminate
  | InstanceDeleteIP _ _ | DetachVolume _ _ | DeleteVolume _ _ | DeleteServer _ _
  | DeleteSecurityGroup _ _ | DeleteLB _ _ _ | DeleteBackend _ _ | RemoveBackendServers _ _ _
  | DeleteFrontend _ _ | DeleteACL _ _ | DeletePrivateNetwork _ _
  | DeleteGateway _ _ | GatewayDeleteIP _ _ => true
  | _ => false
  end.

(** ** The program logic at this signature *)

(** A call with its answer, in a trace. *)
Definition ok_ev (c : cloud_call) (a : cloud_val c) : event cloud := CEv c (ROk a).
Definition err_ev (c : cloud_call) (e : api_error) : event cloud := CEv c (RErr e).

Definition rely : Type := trace -> forall c : cloud_call, resp cloud c -> Prop.
Definition guarantee : Type := trace -> cloud_call -> Prop.

Lemma wpM_remote {S} (R : rely) (G : guarantee) (c : cloud_call) h (s : S) Q :
  G h c ->
  (forall a : cloud_val c, R h c (ROk a) -> Q (Ok a) s (h ++ [ok_ev c a])) ->
  (forall e, R h c (RErr e) -> Q (Err (External e)) s (h ++ [err_ev c e])) ->
  wpM R G (remote c) h s Q.
Proof. intros HG Hok Herr. split; [done|]. intros [a|e] Hr; simpl; [by apply Hok | by apply Herr]. Qed.

Lemma safe_remote {S} (R : rely) (G : guarantee) (I : S -> Prop) (c : cloud_call) :
  (forall h, G h c) -> safe R G I (remote c).
Proof. intros HG h s Hs. by apply wpM_remote. Qed.

(** One step of the program logic, remote calls included.  [go_step] stops at
    calls of named operations, whose specifications are applied with [go_use]. *)
Ltac go_step :=
  lazymatch goal with
  | |- wpM _ _ (remote _) _ _ _ => apply wpM_remote; [| intros ? ? | intros ? ?]
  | |- match ?x with _ => _ end => destruct x eqn:?
  | _ => wp_step
  end; cbn beta iota delta [outcome_wrap].

(** Applies a specification [H] of the computation at hand and continues from its
    postcondition. *)
Ltac go_use H := eapply wpM_mono; [apply H | cbn beta].

(** ** Events of a trace *)

Lemma elem_of_snoc_here (h : trace) e : e ∈ h ++ [e].
Proof. apply elem_of_app. right. by apply list_elem_of_singleton. Qed.

Lemma elem_of_snoc_left (h : trace) e e' : e ∈ h -> e ∈ h ++ [e'].
Proof. intros H. apply elem_of_app. by left. Qed.

Lemma prefix_snoc (h h' : trace) e : h `prefix_of` h' -> h `prefix_of` h' ++ [e].
Proof. intros H. by apply prefix_app_r. Qed.

#[export] Hint Resolve elem_of_snoc_here elem_of_snoc_left prefix_snoc : caps.
#[export] Hint Extern 1 (?h `prefix_of` ?h) => reflexivity : caps.

(** Finds an event in a trace built by symbolic execution. *)
Ltac in_trace :=
  first [ apply elem_of_snoc_here | apply elem_of_snoc_left; in_trace | assumption
        | eapply elem_of_prefix; eassumption ].

(** The answers of calls that return nothing. *)
Ltac kill_units :=
  repeat match goal with
  | a : cloud_val ?c |- _ => let T := eval hnf in (cloud_val c) in unify T unit; destruct a
  | a : unit |- _ => destruct a
  end.
