(* ===== verification/Ledger.v ===== *)
(** * The ledger: which resources the calls of a trace have created

    An abstract view of the Scaleway project.  A [resource] is what the provider
    identifies an object by (zone and name, zone and tags, parent and name); the
    [ledger] of a trace lists the resources whose creation succeeded and of which
    no deletion succeeded since, with the identifier they were given.

    Two notions are built on it: the rely [read_your_writes] (a listing shows the
    live resources it covers) and the guarantee [no_duplicate] (nothing is created
    that is live).  The services are proved to stay within the second under the
    first; [ledger_NoDup] is what this means for a whole trace. *)

From S2P Require Import Prelude Go Net Prog Sdk Types Cloud.
#[local] Open Scope caps_scope.

(** ** Resources *)

Inductive resource :=
| RServer (zone : Zone) (name : string)
| RInstanceIP (zone : Zone) (tags : list string)
| RPrivateNIC (zone : Zone) (serverID pnID : ID)
| RSecurityGroup (zone : Zone) (name : string) (tags : list string)
| RLoadBalancer (zone : Zone) (name : string)
| RLBPrivateNetwork (zone : Zone) (lbID pnID : ID)
| RBackend (zone : Zone) (lbID : ID) (name : string)
| RFrontend (zone : Zone) (lbID : ID) (name : string)
| RACL (zone : Zone) (frontendID : ID) (name : string)
| RPrivateNetwork (region : Region) (name : string)
| RGateway (zone : Zone) (name : string)
| RGatewayIP (zone : Zone) (tags : list string)
| RGatewayNetwork (zone : Zone) (gatewayID pnID : ID).

#[export] Instance resource_eq_dec : EqDecision resource.
Proof. solve_decision. Defined.

Inductive kind :=
| KServer | KInstanceIP | KPrivateNIC | KSecurityGroup | KLoadBalancer | KLBPrivateNetwork
| KBackend | KFrontend | KACL | KPrivateNetwork | KGateway | KGatewayIP | KGatewayNetwork.

#[export] Instance kind_eq_dec : EqDecision kind.
Proof. solve_decision. Defined.

Definition kind_of (res : resource) : kind :=
  match res with
  | RServer _ _ => KServer
  | RInstanceIP _ _ => KInstanceIP
  | RPrivateNIC _ _ _ => KPrivateNIC
  | RSecurityGroup _ _ _ => KSecurityGroup
  | RLoadBalancer _ _ => KLoadBalancer
  | RLBPrivateNetwork _ _ _ => KLBPrivateNetwork
  | RBackend _ _ _ => KBackend
  | RFrontend _ _ _ => KFrontend
  | RACL _ _ _ => KACL
  | RPrivateNetwork _ _ => KPrivateNetwork
  | RGateway _ _ => KGateway
  | RGatewayIP _ _ => KGatewayIP
  | RGatewayNetwork _ _ _ => KGatewayNetwork
  end.

(** The resource a call creates. *)
Definition creates (c : cloud_call) : option resource :=
  match c with
  | InstanceCreateIP zone tags => Some (RInstanceIP zone tags)
  | CreateServer req => Some (RServer (csr_Zone req) (csr_Name req))
  | CreatePrivateNIC zone serverID pnID => Some (RPrivateNIC zone serverID pnID)
  | CreateSecurityGroup req => Some (RSecurityGroup (csg_Zone req) (csg_Name req) (csg_Tags req))
  | CreateLB zone name _ _ => Some (RLoadBalancer zone name)
  | AttachPrivateNetwork zone lbID pnID => Some (RLBPrivateNetwork zone lbID pnID)
  | CreateBackend zone lbID name _ _ _ => Some (RBackend zone lbID name)
  | CreateFrontend zone lbID name _ _ => Some (RFrontend zone lbID name)
  | CreateACL req => Some (RACL (cacl_Zone req) (cacl_FrontendID req) (cacl_Name req))
  | CreatePrivateNetwork region name _ => Some (RPrivateNetwork region name)
  | GatewayCreateIP zone tags => Some (RGatewayIP zone tags)
  | CreateGateway zone name _ _ => Some (RGateway zone name)
  | CreateGatewayNetwork zone gatewayID pnID _ _ _ => Some (RGatewayNetwork zone gatewayID pnID)
  | _ => None
  end.

(** The identifier in the answer to a creation (attachments have none). *)
Definition created_id (c : cloud_call) : cloud_val c -> ID :=
  match c return cloud_val c -> ID with
  | InstanceCreateIP _ _ => iip_ID
  | CreateServer _ => srv_ID
  | CreatePrivateNIC _ _ _ => nic_ID
  | CreateSecurityGroup _ => isg_ID
  | CreateLB _ _ _ _ => lb_ID
  | CreateBackend _ _ _ _ _ _ => be_ID
  | CreateFrontend _ _ _ _ _ => fe_ID
  | CreateACL _ => acl_ID
  | CreatePrivateNetwork _ _ _ => pn_ID
  | GatewayCreateIP _ _ => gip_ID
  | CreateGateway _ _ _ _ => gw_ID
  | _ => fun _ => EmptyString
  end.

(** What a call deletes when it succeeds. *)
Definition deletes (c : cloud_call) : option (kind * ID) :=
  match c with
  | InstanceDeleteIP _ id => Some (KInstanceIP, id)
  | DeleteServer _ id | ServerAction _ id ServerActionTerminate => Some (KServer, id)
  | DeleteSecurityGroup _ id => Some (KSecurityGroup, id)
  | DeleteLB _ id _ => Some (KLoadBalancer, id)
  | DeleteBackend _ id => Some (KBackend, id)
  | DeleteFrontend _ id => Some (KFrontend, id)
  | DeleteACL _ id => Some (KACL, id)
  | DeletePrivateNetwork _ id => Some (KPrivateNetwork, id)
  | DeleteGateway _ id => Some (KGateway, id)
  | GatewayDeleteIP _ id => Some (KGatewayIP, id)
  | _ => None
  end.

(** ** The ledger of a trace *)

Definition survives (d : option (kind * ID)) (e : resource * ID) : Prop :=
  d <> Some (kind_of e.1, e.2).

#[export] Instance survives_dec d e : Decision (survives d e).
Proof. unfold survives. apply _. Defined.

Definition ledger_step (l : list (resource * ID)) (ev : event cloud) : list (resource * ID) :=
  match ev with
  | Ev c r =>
      match r with
      | ROk a =>
          let l' := filter (survives (deletes c)) l in
          match creates c with Some res => (res, created_id c a) :: l' | None => l' end
      | RErr _ => l
      end
  end.

Definition ledger (h : trace) : list (resource * ID) := foldl ledger_step [] h.

Definition live (h : trace) (res : resource) : Prop := res ∈ (ledger h).*1.

#[export] Instance live_dec h res : Decision (live h res).
Proof. unfold live. apply _. Defined.

Lemma ledger_snoc h ev : ledger (h ++ [ev]) = ledger_step (ledger h) ev.
Proof. unfold ledger. by rewrite foldl_snoc. Qed.

(** Only its creation makes a resource live. *)
Lemma live_snoc h c r res :
  live (h ++ [CEv c r]) res -> creates c <> Some res -> live h res.
Proof.
  unfold live. rewrite ledger_snoc. simpl. intros Hl Hc. destruct r as [a|e]; [|done].
  assert (res ∈ (filter (survives (deletes c)) (ledger h)).*1) as Hf.
  { destruct (creates c) as [res'|] eqn:E; [|done].
    simpl in Hl. apply elem_of_cons in Hl as [->|Hl]; [done|exact Hl]. }
  apply list_elem_of_fmap in Hf as (e & -> & He). apply list_elem_of_filter in He as [_ He].
  apply list_elem_of_fmap. eauto.
Qed.

Lemma not_live_snoc h c r res :
  ~ live h res -> creates c <> Some res -> ~ live (h ++ [CEv c r]) res.
Proof. intros Hn Hc Hl. by apply Hn, (live_snoc h c r). Qed.

(** ** The rely: a listing shows the live resources it covers *)

(** [c] lists, among others, the resource [res]. *)
Definition covers (c : cloud_call) (res : resource) : Prop :=
  match c, res with
  | ListServers zone (Some name), RServer zone' name' => zone = zone' /\ name = name'
  | InstanceListIPs zone tags, RInstanceIP zone' tags' => zone = zone' /\ tags = tags'
  | ListPrivateNICs zone serverID, RPrivateNIC zone' serverID' _ =>
      zone = zone' /\ serverID = serverID'
  | ListSecurityGroups _ None tags zones, RSecurityGroup zone' _ tags' =>
      tags = tags' /\ zone' ∈ zones
  | ListLBs zone (Some name), RLoadBalancer zone' name' => zone = zone' /\ name = name'
  | ListLBPrivateNetworks zone lbID, RLBPrivateNetwork zone' lbID' _ =>
      zone = zone' /\ lbID = lbID'
  | ListBackends zone lbID None, RBackend zone' lbID' _ => zone = zone' /\ lbID = lbID'
  | ListFrontends zone lbID None, RFrontend zone' lbID' _ => zone = zone' /\ lbID = lbID'
  | ListACLs zone frontendID (Some name), RACL zone' frontendID' name' =>
      zone = zone' /\ frontendID = frontendID' /\ name = name'
  | ListPrivateNetworks region (Some name) _, RPrivateNetwork region' name' =>
      region = region' /\ name = name'
  | ListGatewaysByName zone name _, RGateway zone' name' => zone = zone' /\ name = name'
  | GatewayListIPsByTags zone tags _, RGatewayIP zone' tags' => zone = zone' /\ tags = tags'
  | ListGatewayNetworks zone gatewayID pnID, RGatewayNetwork zone' gatewayID' pnID' =>
      zone = zone' /\ gatewayID = gatewayID' /\ pnID = pnID'
  | _, _ => False
  end.

(** The answer [xs] to [c] shows [res]. *)
Definition listed (c : cloud_call) (xs : cloud_val c) (res : resource) : Prop :=
  match c return cloud_val c -> Prop with
  | ListServers _ _ => fun xs => exists x, x ∈ xs /\ match res with
      RServer _ name => srv_Name x = name | _ => False end
  | InstanceListIPs _ _ => fun xs => xs <> []
  | ListPrivateNICs _ _ => fun xs => exists x, x ∈ xs /\ match res with
      RPrivateNIC _ _ pnID => nic_PrivateNetworkID x = pnID | _ => False end
  | ListSecurityGroups _ _ _ _ => fun xs => exists x, x ∈ xs /\ match res with
      RSecurityGroup zone name _ => isg_Zone x = zone /\ isg_Name x = name | _ => False end
  | ListLBs _ _ => fun xs => exists x, x ∈ xs /\ match res with
      RLoadBalancer _ name => lb_Name x = name | _ => False end
  | ListLBPrivateNetworks _ _ => fun xs => match res with
      RLBPrivateNetwork _ _ pnID => pnID ∈ xs | _ => False end
  | ListBackends _ _ _ => fun xs => exists x, x ∈ xs /\ match res with
      RBackend _ _ name => be_Name x = name | _ => False end
  | ListFrontends _ _ _ => fun xs => exists x, x ∈ xs /\ match res with
      RFrontend _ _ name => fe_Name x = name | _ => False end
  | ListACLs _ _ _ => fun xs => exists x, x ∈ xs /\ match res with
      RACL _ _ name => acl_Name x = name | _ => False end
  | ListPrivateNetworks _ _ _ => fun xs => exists x, x ∈ xs /\ match res with
      RPrivateNetwork _ name => pn_Name x = name | _ => False end
  | ListGatewaysByName _ _ _ => fun xs => exists x, x ∈ xs /\ match res with
      RGateway _ name => gw_Name x = name | _ => False end
  | GatewayListIPsByTags _ _ _ => fun xs => xs <> []
  | ListGatewayNetworks _ _ _ => fun n => n <> 0
  | _ => fun _ => False
  end xs.

(** Documented behaviour of the API: a successful listing shows every resource it
    covers that was created and not deleted since; a call that fails has no effect.
    Nothing is assumed of the listings that fail, nor of what else a listing shows. *)
Definition read_your_writes : rely := fun h c r =>
  match r with
  | ROk xs => forall res, covers c res -> live h res -> listed c xs res
  | RErr _ => True
  end.

(** ** The guarantee: nothing live is created *)

Definition no_duplicate : guarantee := fun h c =>
  forall res, creates c = Some res -> ~ live h res.

Lemma no_duplicate_None h c : creates c = None -> no_duplicate h c.
Proof. intros E res E'. congruence. Qed.

Lemma no_duplicate_Some h c res : creates c = Some res -> ~ live h res -> no_duplicate h c.
Proof. intros E Hn res' E'. by rewrite E in E'; simplify_eq. Qed.

(** What an answered listing that does not show a resource tells. *)
Lemma not_listed_not_live h c xs res :
  read_your_writes h c (ROk xs) -> covers c res -> creates c = None ->
  ~ listed c xs res -> ~ live (h ++ [ok_ev c xs]) res.
Proof.
  intros HR Hcov Hcr Hno. apply not_live_snoc; [|congruence].
  intros Hl. by apply Hno, HR.
Qed.

(** The ledger of a trace of allowed calls has no resource twice. *)
Theorem ledger_NoDup (t : trace) : obeys no_duplicate [] t -> NoDup (ledger t).*1.
Proof.
  induction t as [|[c r] t IH] using rev_ind; intros Hob; [apply NoDup_nil_2|].
  rewrite ledger_snoc. simpl.
  assert (NoDup (ledger t).*1) as H.
  { apply IH. intros t1 c' r' t2 ->. apply (Hob t1 c' r' (t2 ++ [CEv c r])).
    by rewrite <- app_assoc. }
  destruct r as [a|e]; [|done].
  assert (NoDup (filter (survives (deletes c)) (ledger t)).*1) as Hnd
    by (eapply sublist_NoDup; [exact H|]; apply fmap_sublist, sublist_filter).
  destruct (creates c) as [res|] eqn:E; [|done].
  simpl. apply NoDup_cons. split; [|done].
  intros Hin. apply (Hob t c (ROk a) [] eq_refl res E). unfold live.
  apply list_elem_of_fmap in Hin as (e & Ee & He). apply list_elem_of_filter in He as [_ He].
  apply list_elem_of_fmap. eauto.
Qed.

#[export] Hint Resolve no_duplicate_None : caps.
