(* ===== verification/Scope.v ===== *)
(** * Cluster and machine scopes ([internal/scope])

    A scope gathers the objects one reconcile pass works on and the functions
    that derive names, zones, tags and options from them.  A scope is the
    in-memory state of a pass: the services mutate the [ScalewayCluster]
    (resp. [ScalewayMachine]) it points to. *)

From S2P Require Import Prelude Go Net Prog Sdk Types Cloud.
#[local] Open Scope caps_scope.

Definition DefaultLoadBalancerType : string := "LB-S".

(** [scope.Cluster].  The Scaleway client is represented by its project ID, the
    patch helper by the object it was created for. *)
Record ClusterScope := {
  cs_ProjectID : ID;
  cs_ScalewayCluster : ScalewayCluster;
  cs_Cluster : CapiCluster;
  cs_patchHelper : k8s_object;
}.

(** [scope.Machine], which embeds a cluster scope. *)
Record MachineScope := {
  ms_Cluster : ClusterScope;
  ms_ScalewayMachine : ScalewayMachine;
  ms_Machine : CapiMachine;
}.

Definition set_cs_ScalewayCluster (c : ScalewayCluster) (s : ClusterScope) : ClusterScope :=
  {| cs_ProjectID := cs_ProjectID s; cs_ScalewayCluster := c;
     cs_Cluster := cs_Cluster s; cs_patchHelper := cs_patchHelper s |}.

Definition set_cs_patchHelper (b : k8s_object) (s : ClusterScope) : ClusterScope :=
  {| cs_ProjectID := cs_ProjectID s; cs_ScalewayCluster := cs_ScalewayCluster s;
     cs_Cluster := cs_Cluster s; cs_patchHelper := b |}.

Definition set_ms_ScalewayMachine (m : ScalewayMachine) (s : MachineScope) : MachineScope :=
  {| ms_Cluster := ms_Cluster s; ms_ScalewayMachine := m; ms_Machine := ms_Machine s |}.

(** The spec, which most functions of the scope read. *)
Abbreviation cs_Spec c := (sc_Spec (cs_ScalewayCluster c)).

(** ** Construction and persistence *)

(** [NewCluster]: the patch helper remembers the object as it is now. *)
Definition NewCluster {S} (projectID : ID) (sc : ScalewayCluster) (cl : CapiCluster)
  : GoC S ClusterScope :=
  _ ← wrapf "failed to init patch helper" (remote (NewPatchHelper (OCluster sc)));
  mret {| cs_ProjectID := projectID; cs_ScalewayCluster := sc; cs_Cluster := cl;
          cs_patchHelper := OCluster sc |}.

Definition Cluster_PatchObject : GoC ClusterScope unit :=
  c ← get_state;
  remote (Patch (cs_patchHelper c) (OCluster (cs_ScalewayCluster c))).

Definition Cluster_Close : GoC ClusterScope unit := Cluster_PatchObject.

(** [NewMachine]: the helper of the embedded cluster scope is replaced by one for
    the [ScalewayMachine]. *)
Definition NewMachine {S} (projectID : ID) (sc : ScalewayCluster) (cl : CapiCluster)
    (sm : ScalewayMachine) (m : CapiMachine) : GoC S MachineScope :=
  clusterScope ← NewCluster projectID sc cl;
  _ ← wrapf "failed to init patch helper" (remote (NewPatchHelper (OMachine sm)));
  mret {| ms_Cluster := set_cs_patchHelper (OMachine sm) clusterScope;
          ms_ScalewayMachine := sm; ms_Machine := m |}.

Definition Machine_PatchObject : GoC MachineScope unit :=
  m ← get_state;
  remote (Patch (cs_patchHelper (ms_Cluster m)) (OMachine (ms_ScalewayMachine m))).

Definition Machine_Close : GoC MachineScope unit := Machine_PatchObject.

(** ** Cluster scope *)

Section cluster.
Context `{SDK : ScwSDK}.
Implicit Types c : ClusterScope.

Definition Cluster_Region c : Region := scs_Region (cs_Spec c).

Definition DefaultZone c : Zone := scs_Region (cs_Spec c) +:+ "-1".

Definition Zones c (compatible : list Zone) : list Zone :=
  let zones :=
    List.filter (fun z => List.existsb (String.eqb z) compatible
                          || (length compatible =? 0)%nat)
      (Region_GetZones (Cluster_Region c)) in
  if (length zones =? 0)%nat then zones ++ [DefaultZone c] else zones.

Definition FailureDomains c : gmap string FailureDomainSpec :=
  let fds := scs_FailureDomains (cs_Spec c) in
  foldl (fun m zone =>
    if (0 <? length fds)%nat then
      foldl (fun m fd =>
        if fd =?s zone then <[zone := {| fd_ControlPlane := true |}]> m else m) m fds
    else <[zone := {| fd_ControlPlane := true |}]> m)
    ∅ (Zones c []).

Definition LoadBalancerZone c : Zone :=
  match scs_ControlPlaneLoadBalancer (cs_Spec c) with
  | Some {| lbs_Zone := Some z |} => z
  | _ => match scs_FailureDomains (cs_Spec c) with
         | fd :: _ => fd
         | [] => DefaultZone c
         end
  end.

Definition PublicGatewayZone c : Zone :=
  match scs_Network (cs_Spec c) with
  | Some {| ns_PublicGateway := Some {| pgs_Zone := Some z |} |} => z
  | _ => match scs_FailureDomains (cs_Spec c) with
         | fd :: _ => fd
         | [] => DefaultZone c
         end
  end.

Definition LoadBalancerType c : string :=
  match scs_ControlPlaneLoadBalancer (cs_Spec c) with
  | Some {| lbs_Type := Some t |} => t
  | _ => DefaultLoadBalancerType
  end.

Definition HasPrivateNetwork c : bool :=
  match scs_Network (cs_Spec c) with
  | Some {| ns_PrivateNetwork := Some pn |} => pns_Enabled pn
  | _ => false
  end.

Definition ShouldManagePrivateNetwork c : bool :=
  HasPrivateNetwork c &&
  match scs_Network (cs_Spec c) with
  | Some {| ns_PrivateNetwork := Some pn |} => is_none (pns_ID pn)
  | _ => false
  end.

Definition HasPublicGateway c : bool :=
  match scs_Network (cs_Spec c) with
  | Some {| ns_PublicGateway := Some pg |} => pgs_Enabled pg
  | _ => false
  end.

Definition Cluster_Name c : string :=
  "caps-" +:+ om_Name (sc_ObjectMeta (cs_ScalewayCluster c)).

(** [Status.Network] is dereferenced without a test. *)
Definition PrivateNetworkID c : outcome string :=
  if negb (HasPrivateNetwork c) then Err (ErrorsNew "cluster has no Private Network")
  else
    network ← deref (scst_Network (sc_Status (cs_ScalewayCluster c)));
    match nst_PrivateNetworkID network with
    | None => Err (ErrorsNew "PrivateNetworkID not found in ScalewayCluster status")
    | Some id => Ok id
    end.

Definition SetStatusPrivateNetworkID (pnID : string) : GoC ClusterScope unit :=
  modify (fun c =>
    let sc := cs_ScalewayCluster c in
    let network :=
      match scst_Network (sc_Status sc) with
      | None => {| nst_PrivateNetworkID := Some pnID; nst_PublicGatewayID := None |}
      | Some n => {| nst_PrivateNetworkID := Some pnID;
                     nst_PublicGatewayID := nst_PublicGatewayID n |}
      end in
    set_cs_ScalewayCluster
      (set_sc_Status (set_scst_Network (Some network) (sc_Status sc)) sc) c).

Definition Cluster_Tags c : list string := ["caps-cluster=" +:+ Cluster_Name c].

Definition SecurityGroupName c (name : string) : string :=
  Cluster_Name c +:+ "-" +:+ name.
End cluster.

(** ** Machine scope *)

Section machine.
Implicit Types m : MachineScope.

Definition GetRawBootstrapData : GoC MachineScope string :=
  m ← get_state;
  match m_DataSecretName (ms_Machine m) with
  | None => fail (Sentinel ErrBootstrapDataNotReady)
  | Some name =>
      secret ← remote (GetSecret
        {| nn_Namespace := om_Namespace (m_ObjectMeta (ms_Machine m)); nn_Name := name |});
      match sec_Data secret !! "value"%string with
      | None => fail (ErrorsNew
          "error retrieving bootstrap data: secret value key is missing")
      | Some value => mret value
      end
  end.

Definition NeedsPublicIP m : bool :=
  match sms_PublicIP (sm_Spec (ms_ScalewayMachine m)) with
  | Some b => b
  | None => false
  end.

Definition Machine_Tags m : list string :=
  ["caps-cluster=" +:+ om_Name (sc_ObjectMeta (cs_ScalewayCluster (ms_Cluster m)));
   "caps-node=" +:+ om_Name (sm_ObjectMeta (ms_ScalewayMachine m))].

Definition Machine_Zone m : Zone :=
  match m_FailureDomain (ms_Machine m) with
  | None => Cluster_Region (ms_Cluster m) +:+ "-1"
  | Some fd => fd
  end.

Definition Machine_Name m : string :=
  "caps-" +:+ om_Name (sm_ObjectMeta (ms_ScalewayMachine m)).

Definition ProviderID m (serverID : string) : string :=
  "scaleway://instance/" +:+ Machine_Zone m +:+ "/" +:+ serverID.
End machine.

(** ** Theorems *)

Section cluster_theorems.
Context `{SDK : ScwSDK}.
Implicit Types c : ClusterScope.

(** The zones the cluster may use among [compatible]. *)
Definition candidate_zone c (compatible : list Zone) (z : Zone) : Prop :=
  z ∈ Region_GetZones (Cluster_Region c) /\ (compatible = [] \/ z ∈ compatible).

Lemma elem_of_filter_zones c compatible z :
  z ∈ List.filter (fun z => List.existsb (String.eqb z) compatible
                            || (length compatible =? 0)%nat)
        (Region_GetZones (Cluster_Region c))
  <-> candidate_zone c compatible z.
Proof.
  unfold candidate_zone. rewrite !list_elem_of_In, filter_In, <- list_elem_of_In.
  rewrite orb_true_iff, existsb_elem_of, Nat.eqb_eq, length_zero_iff_nil.
  split; intros [Hz Hc]; (split; [done|]).
  - destruct Hc as [(x & Hx & E)|Hc]; [|by left].
    apply String_eqb_true in E. subst. right. by apply list_elem_of_In.
  - destruct Hc as [Hc|Hc]; [by right|left]. exists z. rewrite String_eqb_refl.
    split; [by apply list_elem_of_In|done].
Qed.

(** [Zones] returns the candidate zones, or the default zone when there is
    none, so that the list is never empty. *)
Theorem Zones_correct c compatible :
  Zones c compatible <> [] /\
  forall z, z ∈ Zones c compatible <->
    candidate_zone c compatible z \/
    ((forall z', ~ candidate_zone c compatible z') /\ z = DefaultZone c).
Proof.
  unfold Zones.
  pose proof (elem_of_filter_zones c compatible) as Hf.
  set (l := List.filter _ _) in *. destruct l as [|z0 l0] eqn:E; simpl.
  - split; [done|]. intros z. rewrite list_elem_of_singleton. split.
    + intros ->. right. split; [|done]. intros z' Hz'. apply Hf in Hz'.
      by apply not_elem_of_nil in Hz'.
    + intros [Hz|[_ ->]]; [|done]. apply Hf in Hz. by apply not_elem_of_nil in Hz.
  - split; [done|]. intros z. rewrite Hf. split; [by left|].
    intros [Hz|[Hno _]]; [done|]. exfalso. apply (Hno z0), Hf, elem_of_cons. by left.
Qed.

Lemma fold_fds_lookup zone fds (m : gmap string FailureDomainSpec) z :
  foldl (fun m fd =>
    if fd =?s zone then <[zone := {| fd_ControlPlane := true |}]> m else m) m fds !! z =
  if decide (zone ∈ fds /\ z = zone) then Some {| fd_ControlPlane := true |} else m !! z.
Proof.
  revert m. induction fds as [|fd fds IH]; intros m; cbn [foldl].
  - rewrite decide_False; [done|]. by intros [?%not_elem_of_nil _].
  - rewrite IH. destruct (fd =?s zone) eqn:E; to_prop; subst.
    + destruct (decide (z = zone)) as [->|Hne].
      * rewrite lookup_insert_eq. repeat case_decide; rewrite ?elem_of_cons in *; naive_solver.
      * rewrite lookup_insert_ne by done. repeat case_decide; rewrite ?elem_of_cons in *; naive_solver.
    + repeat case_decide; rewrite ?elem_of_cons in *; naive_solver.
Qed.

(** The failure domains are the zones of the region, restricted to the ones the
    spec lists when it lists some, and all host control-plane nodes. *)
Theorem FailureDomains_lookup c z :
  FailureDomains c !! z =
    if decide (z ∈ Zones c [] /\
               (scs_FailureDomains (cs_Spec c) = [] \/ z ∈ scs_FailureDomains (cs_Spec c)))
    then Some {| fd_ControlPlane := true |} else None.
Proof.
  unfold FailureDomains. set (fds := scs_FailureDomains (cs_Spec c)).
  enough (forall zs (m : gmap string FailureDomainSpec),
    foldl (fun m zone =>
      if (0 <? length fds)%nat then
        foldl (fun m fd =>
          if fd =?s zone then <[zone := {| fd_ControlPlane := true |}]> m else m) m fds
      else <[zone := {| fd_ControlPlane := true |}]> m) m zs !! z =
    if decide (z ∈ zs /\ (fds = [] \/ z ∈ fds))
    then Some {| fd_ControlPlane := true |} else m !! z) as Hfold
    by (rewrite Hfold, lookup_empty; done).
  induction zs as [|zone zs IH]; intros m; cbn [foldl].
  - rewrite decide_False; [done|]. by intros [?%not_elem_of_nil _].
  - rewrite IH. destruct fds as [|fd fds'] eqn:Efds; cbn [length Nat.ltb Nat.leb].
    + destruct (decide (z = zone)) as [->|Hne].
      * rewrite lookup_insert_eq. repeat case_decide; rewrite ?elem_of_cons in *; naive_solver.
      * rewrite lookup_insert_ne by done. repeat case_decide; rewrite ?elem_of_cons in *; naive_solver.
    + rewrite fold_fds_lookup. repeat case_decide; rewrite ?elem_of_cons in *; naive_solver.
Qed.

(** Within a cluster, distinct security groups have distinct resource names. *)
Lemma SecurityGroupName_inj c n1 n2 :
  SecurityGroupName c n1 = SecurityGroupName c n2 -> n1 = n2.
Proof. unfold SecurityGroupName. intros E%append_inj_l%append_inj_l. done. Qed.

(** [PrivateNetworkID] panics exactly for a cluster with a Private Network whose
    status has no network. *)
Lemma PrivateNetworkID_Panic c :
  PrivateNetworkID c = Panic <->
  HasPrivateNetwork c = true /\ scst_Network (sc_Status (cs_ScalewayCluster c)) = None.
Proof.
  unfold PrivateNetworkID. destruct (HasPrivateNetwork c); simpl; [|naive_solver].
  destruct (scst_Network _) as [n|]; simpl; [|naive_solver].
  destruct (nst_PrivateNetworkID n); naive_solver.
Qed.
End cluster_theorems.

(** The provider ID determines the zone and the server: it splits back into them. *)
Lemma ProviderID_Split (m : MachineScope) serverID :
  has_char "/" (Machine_Zone m) = false -> has_char "/" serverID = false ->
  strings_Split (ProviderID m serverID) "/" =
    ["scaleway:"; ""; "instance"; Machine_Zone m; serverID]%string.
Proof.
  intros Hz Hs. unfold ProviderID.
  change ("scaleway://instance/" +:+ Machine_Zone m +:+ "/" +:+ serverID)%string with
    ("scaleway:" +:+ String "/" ("" +:+ String "/" ("instance" +:+ String "/"
      (Machine_Zone m +:+ String "/" serverID))))%string.
  by rewrite !strings_Split_app, strings_Split_none by done.
Qed.

(** *** Construction of the scopes *)

Section construction.
Context {S : Type} (R : rely) (G : guarantee).

Lemma wp_NewCluster projectID sc cl h (s : S) Q :
  G h (NewPatchHelper (OCluster sc)) ->
  Q (Ok {| cs_ProjectID := projectID; cs_ScalewayCluster := sc; cs_Cluster := cl;
           cs_patchHelper := OCluster sc |}) s (h ++ [ok_ev (NewPatchHelper (OCluster sc)) tt]) ->
  (forall e e', Q (Err e) s (h ++ [err_ev (NewPatchHelper (OCluster sc)) e'])) ->
  wpM R G (NewCluster projectID sc cl) h s Q.
Proof. intros HG Hok He. unfold NewCluster. repeat go_step; auto. by destruct a. Qed.

Lemma wp_NewMachine projectID sc cl sm m h (s : S) Q :
  (forall h b, G h (NewPatchHelper b)) ->
  Q (Ok {| ms_Cluster := {| cs_ProjectID := projectID; cs_ScalewayCluster := sc;
                            cs_Cluster := cl; cs_patchHelper := OMachine sm |};
           ms_ScalewayMachine := sm; ms_Machine := m |}) s
    ((h ++ [ok_ev (NewPatchHelper (OCluster sc)) tt]) ++ [ok_ev (NewPatchHelper (OMachine sm)) tt]) ->
  (forall e e', Q (Err e) s (h ++ [err_ev (NewPatchHelper (OCluster sc)) e'])) ->
  (forall e e', Q (Err e) s ((h ++ [ok_ev (NewPatchHelper (OCluster sc)) tt]) ++
                             [err_ev (NewPatchHelper (OMachine sm)) e'])) ->
  wpM R G (NewMachine projectID sc cl sm m) h s Q.
Proof.
  intros HG Hok He He'. unfold NewMachine. go_step. apply wp_NewCluster; [done| |done].
  repeat go_step; auto. by destruct a.
Qed.

Lemma safe_NewCluster {A} I projectID sc cl (k : ClusterScope -> GoC S A) :
  (forall h, G h (NewPatchHelper (OCluster sc))) ->
  safe R G I (k {| cs_ProjectID := projectID; cs_ScalewayCluster := sc; cs_Cluster := cl;
                   cs_patchHelper := OCluster sc |}) ->
  safe R G I (NewCluster projectID sc cl ≫= k).
Proof. intros HG Hk h s Hs. go_step. apply wp_NewCluster; [done| |done]. by apply Hk. Qed.

Lemma safe_NewMachine {A} I projectID sc cl sm m (k : MachineScope -> GoC S A) :
  (forall h b, G h (NewPatchHelper b)) ->
  safe R G I (k {| ms_Cluster := {| cs_ProjectID := projectID; cs_ScalewayCluster := sc;
                                    cs_Cluster := cl; cs_patchHelper := OMachine sm |};
                   ms_ScalewayMachine := sm; ms_Machine := m |}) ->
  safe R G I (NewMachine projectID sc cl sm m ≫= k).
Proof. intros HG Hk h s Hs. go_step. apply wp_NewMachine; [done| |done..]. by apply Hk. Qed.
End construction.
