(* ===== verification/Client.v ===== *)
(** * Lookups in the Scaleway project ([internal/service/scaleway/client])

    Every lookup lists resources and returns the first one that matches, or
    [ErrNoItemFound].  The lookups only read. *)

From S2P Require Import Prelude Go Net Prog Sdk Types Cloud.
#[local] Open Scope caps_scope.

(** [scwClient.New]: panics when the SDK client has no default project. *)
Definition client_New (defaultProjectID : option ID) : outcome ID := deref defaultProjectID.

Section client.
Context {S : Type}.

(** The loop that ends every lookup. *)
Definition first_match {A} (p : A -> bool) (xs : list A) : GoC S A :=
  match List.find p xs with
  | Some x => mret x
  | None => fail (Sentinel ErrNoItemFound)
  end.

(** Exactly one item is expected. *)
Definition single_item {A} (xs : list A) : GoC S A :=
  match xs with
  | [] => fail (Sentinel ErrNoItemFound)
  | [x] => mret x
  | _ => fail (Errorf "found IPs" (Sentinel ErrTooManyItemsFound))
  end.

(** *** instance.go *)

Definition FindInstanceByName (zone : Zone) (name : string) : GoC S Server :=
  servers ← wrapf "failed to list servers" (remote (ListServers zone (Some name)));
  first_match (fun server => srv_Name server =?s name) servers.

Definition FindIPByTags (zone : Zone) (tags : list string) : GoC S InstanceIP :=
  ips ← wrapf "failed to list IPs" (remote (InstanceListIPs zone tags));
  single_item ips.

Definition FindPrivateNICByPNID (server : Server) (pnID : ID) : GoC S PrivateNIC :=
  pnics ← remote (ListPrivateNICs (srv_Zone server) (srv_ID server));
  first_match (fun p => nic_PrivateNetworkID p =?s pnID) pnics.

Definition FindSecurityGroupByName (zone : Zone) (name : string) : GoC S InstanceSecurityGroup :=
  sgs ← remote (ListSecurityGroups zone (Some name) [] []);
  first_match (fun sg => isg_Name sg =?s name) sgs.

(** *** ipam.go *)

Definition FindIPv4ByInstancePrivateNICID (projectID : ID) (region : Region) (pnicID : ID)
  : GoC S IPNet :=
  ips ← remote (IPAMListIPs region projectID pnicID);
  match ips with
  | ip :: _ => mret ip
  | [] => fail (Sentinel ErrNoItemFound)
  end.

(** *** loadbalancer.go *)

Definition FindLoadBalancerByName (zone : Zone) (name : string) : GoC S LB :=
  lbs ← remote (ListLBs zone (Some name));
  first_match (fun lb => lb_Name lb =?s name) lbs.

Definition FindLoadBalancerBackendByNames (zone : Zone) (lbName backendName : string)
  : GoC S Backend :=
  loadbalancer ← FindLoadBalancerByName zone lbName;
  backends ← remote (ListBackends zone (lb_ID loadbalancer) (Some backendName));
  first_match (fun backend => be_Name backend =?s backendName) backends.

Definition FindLoadBalancerFrontendByNames (zone : Zone) (lbName frontendName : string)
  : GoC S Frontend :=
  loadbalancer ← FindLoadBalancerByName zone lbName;
  frontends ← remote (ListFrontends zone (lb_ID loadbalancer) (Some frontendName));
  first_match (fun frontend => fe_Name frontend =?s frontendName) frontends.

Definition FindLoadBalancerIP (projectID : ID) (zone : Zone) (ip : string) : GoC S LBIP :=
  ips ← wrapf "failed to list loadbalancer IPs" (remote (LBListIPs zone ip projectID));
  first_match (fun lbIP => lbip_IPAddress lbIP =?s ip) ips.

Definition FindLoadBalancerACLByName (zone : Zone) (frontendID : ID) (name : string)
  : GoC S ACL :=
  acls ← wrapf "failed to list ACLs" (remote (ListACLs zone frontendID (Some name)));
  first_match (fun acl => acl_Name acl =?s name) acls.

(** *** vpc.go *)

Definition FindPrivateNetworkByName (projectID : ID) (region : Region) (name : string)
  : GoC S PrivateNetwork :=
  pns ← remote (ListPrivateNetworks region (Some name) projectID);
  first_match (fun pn => pn_Name pn =?s name) pns.

(** *** vpcgw.go *)

Definition FindGatewayByName (projectID : ID) (zone : Zone) (name : string) : GoC S Gateway :=
  gws ← wrapf "failed to list Public Gateways" (remote (ListGatewaysByName zone name projectID));
  first_match (fun gw => gw_Name gw =?s name) gws.

Definition FindGatewayIP (projectID : ID) (zone : Zone) (ip : string) : GoC S GatewayIP :=
  ips ← wrapf "failed to list vpcgw IPs" (remote (GatewayListFreeIPs zone projectID));
  first_match (fun vpcgwIP => IP_String (gip_Address vpcgwIP) =?s ip) ips.

Definition FindGatewayIPByTags (projectID : ID) (zone : Zone) (tags : list string)
  : GoC S GatewayIP :=
  ips ← wrapf "failed to list IPs" (remote (GatewayListIPsByTags zone tags projectID));
  single_item ips.

Definition FindGatewaysByPrivateNetworkID (zones : list Zone) (privateNetworkID : ID)
  : GoC S (list Gateway) :=
  wrapf "failed to list public gateways by private network ID"
    (remote (ListGatewaysByPN ZoneFrPar1 privateNetworkID zones)).
End client.

(** ** Specifications

    A lookup makes one listing call; its result is determined by the answer. *)

(** What a lookup over a listing returns: the first match of the list that was
    answered, [ErrNoItemFound] when there is none. *)
Definition found {A} (p : A -> bool) (xs : list A) (oa : outcome A) : Prop :=
  match oa with
  | Ok x => x ∈ xs /\ p x = true
  | Err e => e = Sentinel ErrNoItemFound /\ forall x, x ∈ xs -> p x = false
  | Panic => False
  end.

(** Same with the requirement of a single item. *)
Definition found_single {A} (xs : list A) (oa : outcome A) : Prop :=
  match oa with
  | Ok x => xs = [x]
  | Err e => (e = Sentinel ErrNoItemFound /\ xs = []) \/
             ((forall st, st <> ErrTooManyItemsFound -> errors_Is e st = false) /\ (2 <= length xs)%nat)
  | Panic => False
  end.

(** *** The contract of a lookup

    [Finder m c ans]: [m] makes the single call [c], leaves the object alone, and
    returns an outcome related by [ans] to the list answered; when the call fails,
    it returns an error that wraps no sentinel.  The services are verified against
    this contract; the instances below discharge it. *)
Class Finder {S A} (m : GoC S A) (c : cloud_call) (ans : cloud_val c -> outcome A -> Prop) :=
  finder_wp : forall (R : rely) (G : guarantee) h (s : S) Q,
    G h c ->
    (forall xs oa, R h c (ROk xs) -> ans xs oa -> Q oa s (h ++ [ok_ev c xs])) ->
    (forall e e', R h c (RErr e) -> (forall st, errors_Is e' st = false) ->
      Q (Err e') s (h ++ [err_ev c e])) ->
    wpM R G m h s Q.

Section specs.
Context {S : Type}.

Lemma wp_first_match {A} R G (p : A -> bool) (xs : list A) h (s : S) Q :
  (forall oa, found p xs oa -> Q oa s h) ->
  wpM (Sg := cloud) R G (first_match p xs) h s Q.
Proof.
  intros HQ. unfold first_match. destruct (List.find p xs) eqn:E; go_step; apply HQ.
  - by apply find_Some_iff in E.
  - split; [done|]. by apply find_None_iff.
Qed.

Lemma wp_single_item {A} R G (xs : list A) h (s : S) Q :
  (forall oa, found_single xs oa -> Q oa s h) ->
  wpM (Sg := cloud) R G (single_item xs) h s Q.
Proof.
  intros HQ. unfold single_item.
  destruct xs as [|x [|y xs]]; go_step; apply HQ; simpl; [by left|done|right].
  split; [by intros []|lia].
Qed.

Tactic Notation "solve_finder" reference(f) :=
  intros R G h s Q HG Hok Herr; unfold f; repeat go_step; simpl;
  first [ done
        | eapply Herr; [eassumption|done]
        | apply wp_first_match; eauto
        | apply wp_single_item; eauto ].

#[export] Instance FindInstanceByName_finder zone name :
  Finder (S := S) (FindInstanceByName zone name) (ListServers zone (Some name))
    (found (fun x => srv_Name x =?s name)).
Proof. solve_finder FindInstanceByName. Qed.

#[export] Instance FindIPByTags_finder zone tags :
  Finder (S := S) (FindIPByTags zone tags) (InstanceListIPs zone tags) found_single.
Proof. solve_finder FindIPByTags. Qed.

#[export] Instance FindPrivateNICByPNID_finder server pnID :
  Finder (S := S) (FindPrivateNICByPNID server pnID)
    (ListPrivateNICs (srv_Zone server) (srv_ID server))
    (found (fun p => nic_PrivateNetworkID p =?s pnID)).
Proof. solve_finder FindPrivateNICByPNID. Qed.

#[export] Instance FindSecurityGroupByName_finder zone name :
  Finder (S := S) (FindSecurityGroupByName zone name)
    (ListSecurityGroups zone (Some name) [] []) (found (fun sg => isg_Name sg =?s name)).
Proof. solve_finder FindSecurityGroupByName. Qed.

#[export] Instance FindIPv4_finder projectID region pnicID :
  Finder (S := S) (FindIPv4ByInstancePrivateNICID projectID region pnicID)
    (IPAMListIPs region projectID pnicID) (found (fun _ => true)).
Proof.
  intros R G h s Q HG Hok Herr. unfold FindIPv4ByInstancePrivateNICID.
  repeat go_step; simpl;
    [done | apply Hok; [done|] | apply Hok; [done|] | by eapply Herr].
  - split; [done|]. intros x Hx. by apply not_elem_of_nil in Hx.
  - split; [left|done].
Qed.

#[export] Instance FindLoadBalancerByName_finder zone name :
  Finder (S := S) (FindLoadBalancerByName zone name) (ListLBs zone (Some name))
    (found (fun lb => lb_Name lb =?s name)).
Proof. solve_finder FindLoadBalancerByName. Qed.

#[export] Instance FindLoadBalancerIP_finder projectID zone ip :
  Finder (S := S) (FindLoadBalancerIP projectID zone ip) (LBListIPs zone ip projectID)
    (found (fun lbIP => lbip_IPAddress lbIP =?s ip)).
Proof. solve_finder FindLoadBalancerIP. Qed.

#[export] Instance FindLoadBalancerACLByName_finder zone frontendID name :
  Finder (S := S) (FindLoadBalancerACLByName zone frontendID name)
    (ListACLs zone frontendID (Some name)) (found (fun acl => acl_Name acl =?s name)).
Proof. solve_finder FindLoadBalancerACLByName. Qed.

#[export] Instance FindPrivateNetworkByName_finder projectID region name :
  Finder (S := S) (FindPrivateNetworkByName projectID region name)
    (ListPrivateNetworks region (Some name) projectID)
    (found (fun pn => pn_Name pn =?s name)).
Proof. solve_finder FindPrivateNetworkByName. Qed.

#[export] Instance FindGatewayByName_finder projectID zone name :
  Finder (S := S) (FindGatewayByName projectID zone name)
    (ListGatewaysByName zone name projectID) (found (fun gw => gw_Name gw =?s name)).
Proof. solve_finder FindGatewayByName. Qed.

#[export] Instance FindGatewayIP_finder projectID zone ip :
  Finder (S := S) (FindGatewayIP projectID zone ip) (GatewayListFreeIPs zone projectID)
    (found (fun x => IP_String (gip_Address x) =?s ip)).
Proof. solve_finder FindGatewayIP. Qed.

#[export] Instance FindGatewayIPByTags_finder projectID zone tags :
  Finder (S := S) (FindGatewayIPByTags projectID zone tags)
    (GatewayListIPsByTags zone tags projectID) found_single.
Proof. solve_finder FindGatewayIPByTags. Qed.

(** A lookup is safe when its listing is allowed. *)
Lemma finder_safe {A} (m : GoC S A) c ans (R : rely) (G : guarantee) (I : S -> Prop) :
  Finder m c ans -> (forall h, G h c) -> safe R G I m.
Proof. intros Hm HG h s Hs. by apply Hm. Qed.

Lemma first_match_safe {A} R G (I : S -> Prop) (p : A -> bool) xs :
  safe (Sg := cloud) R G I (first_match p xs).
Proof. intros h s Hs. by apply wp_first_match. Qed.

(** The idiom [unless_Is ErrNoItemFound] around a lookup. *)
Lemma finder_unless_Is {A} (m : GoC S A) c ans p (f : cloud_val c -> list A)
    (R : rely) (G : guarantee) h (s : S) Q :
  Finder m c ans -> (forall xs oa, ans xs oa -> found p (f xs) oa) -> G h c ->
  (forall xs x, R h c (ROk xs) -> x ∈ f xs -> p x = true ->
    Q (Ok (Some x)) s (h ++ [ok_ev c xs])) ->
  (forall xs, R h c (ROk xs) -> (forall x, x ∈ f xs -> p x = false) ->
    Q (Ok None) s (h ++ [ok_ev c xs])) ->
  (forall e e', R h c (RErr e) -> (forall st, errors_Is e' st = false) ->
    Q (Err e') s (h ++ [err_ev c e])) ->
  wpM R G (unless_Is ErrNoItemFound m) h s Q.
Proof.
  intros Hm Ha HG Hs Hn He. go_step. apply Hm; [done| |].
  - intros xs [x|e|] Hr Hf; apply Ha in Hf; simpl in Hf;
      [destruct Hf; by eapply Hs | destruct Hf as [-> Hf]; by apply Hn | done].
  - intros e e' Hr Hno. rewrite Hno. auto.
Qed.

Lemma finder_unless_Is_single {A} (m : GoC S A) c ans (f : cloud_val c -> list A)
    (R : rely) (G : guarantee) h (s : S) Q :
  Finder m c ans -> (forall xs oa, ans xs oa -> found_single (f xs) oa) -> G h c ->
  (forall xs x, R h c (ROk xs) -> f xs = [x] -> Q (Ok (Some x)) s (h ++ [ok_ev c xs])) ->
  (forall xs, R h c (ROk xs) -> f xs = [] -> Q (Ok None) s (h ++ [ok_ev c xs])) ->
  (forall r e', R h c r -> (forall st, st <> ErrTooManyItemsFound -> errors_Is e' st = false) ->
    Q (Err e') s (h ++ [CEv c r])) ->
  wpM R G (unless_Is ErrNoItemFound m) h s Q.
Proof.
  intros Hm Ha HG Hs Hn He. go_step. apply Hm; [done| |].
  - intros xs [x|e|] Hr Hf; apply Ha in Hf; simpl in Hf; [by apply Hs| |done].
    destruct Hf as [[-> Hf]|[Hf _]]; simpl; [by apply Hn|]. rewrite (Hf ErrNoItemFound) by done.
    by apply (He (ROk xs)).
  - intros e e' Hr Hno. rewrite Hno. by apply (He (RErr e)).
Qed.
End specs.

(** Symbolic execution through lookups: [solve_G] discharges the guarantee of the
    calls that a step makes. *)
Ltac exec_step solve_G :=
  lazymatch goal with
  | |- wpM _ _ (unless_Is ErrNoItemFound _) _ _ _ =>
      first
        [ eapply finder_unless_Is;
          [ apply _ | intros ? ? HH; exact HH | solve_G
          | intros ? ? _ ? ? | intros ? _ ? | intros ? ? _ ? ]
        | eapply finder_unless_Is_single;
          [ apply _ | intros ? ? HH; exact HH | solve_G
          | intros ? ? _ ? | intros ? _ ? | intros ? ? _ ? ]
        | go_step ]
  | |- wpM _ _ (remote _) _ _ _ =>
      apply wpM_remote; [solve_G | intros ? ? | intros ? ?]
  | |- wpM _ _ (first_match _ _) _ _ _ => apply wp_first_match; intros [?|?|] ?
  | _ =>
      first
        [ go_step
        | eapply finder_wp; [solve_G | intros ? [?|?|] _ ? | intros ? ? _ ?] ]
  end; cbn beta iota delta [outcome_wrap found found_single] in *.

#[export] Hint Resolve first_match_safe : caps_wp.

(** The leaves of [safe_auto]: calls and lookups the guarantee allows by
    computation, or by a hint of [caps]. *)
#[export] Hint Extern 2 (safe _ _ _ (remote _)) =>
  apply safe_remote; intros ?; solve [done | auto with caps] : caps_wp.
#[export] Hint Extern 3 (safe _ _ _ _) =>
  eapply finder_safe; [apply _ | intros ?; solve [done | auto with caps]] : caps_wp.
#[export] Hint Extern 1 (safe _ _ _ (FindLoadBalancerBackendByNames _ _ _)) =>
  unfold FindLoadBalancerBackendByNames; safe_auto : caps_wp.
#[export] Hint Extern 1 (safe _ _ _ (FindLoadBalancerFrontendByNames _ _ _)) =>
  unfold FindLoadBalancerFrontendByNames; safe_auto : caps_wp.
#[export] Hint Extern 1 (safe _ _ _ (FindGatewaysByPrivateNetworkID _ _)) =>
  unfold FindGatewaysByPrivateNetworkID; safe_auto : caps_wp.
#[export] Hint Extern 2 (safe _ _ _ (modify _)) =>
  apply safe_modify; intros ?; solve [done | auto with caps] : caps_wp.

(** A computation whose remaining calls the guarantee leaves free. *)
Ltac free_auto := safe_auto;
  try (apply safe_remote; intros ?; exact I);
  try (eapply finder_safe; [apply _ | intros ?; exact I]);
  try (apply safe_modify; intros ? ?; assumption).
