(* ===== verification/Vpc.v ===== *)
(** * The Private Network service ([internal/service/scaleway/vpc]) *)

From S2P Require Import Prelude Go Net Prog Sdk Types Cloud Scope Client.
#[local] Open Scope caps_scope.

(** [getOrCreatePN]. *)
Definition getOrCreatePN : GoC ClusterScope PrivateNetwork :=
  c ← get_state;
  let region := Cluster_Region c in
  existing ← unless_Is ErrNoItemFound
    (FindPrivateNetworkByName (cs_ProjectID c) region (Cluster_Name c));
  pn ← match existing with
       | Some pn => mret pn
       | None =>
           network ← lift (deref (scs_Network (cs_Spec c)));
           privateNetwork ← lift (deref (ns_PrivateNetwork network));
           subnets ← match pns_Subnet privateNetwork with
                     | None => mret []
                     | Some subnet =>
                         ipNet ← wrapf "failed to parse PrivateNetwork subnet"
                           (lift (ParseCIDR subnet));
                         mret [ipNet]
                     end;
           remote (CreatePrivateNetwork region (Cluster_Name c) subnets)
       end;
  if negb (pn_DHCPEnabled pn)
  then fail (ErrorsNew "DHCP is not enabled in the specified Private Network")
  else mret pn.

(** [(s *Service) Reconcile]. *)
Definition Reconcile : GoC ClusterScope unit :=
  c ← get_state;
  if negb (ShouldManagePrivateNetwork c) then mret tt
  else
    pn ← wrapf "failed to get or create Private Network" getOrCreatePN;
    SetStatusPrivateNetworkID (pn_ID pn).

(** [(s *Service) Delete]. *)
Definition Delete : GoC ClusterScope unit :=
  c ← get_state;
  if negb (ShouldManagePrivateNetwork c) then mret tt
  else
    let region := Cluster_Region c in
    existing ← unless_Is ErrNoItemFound
      (FindPrivateNetworkByName (cs_ProjectID c) region (Cluster_Name c));
    match existing with
    | None => mret tt
    | Some pn => remote (DeletePrivateNetwork region (pn_ID pn))
    end.
