(* ===== verification/Vpcgw.v ===== *)
(** * The Public Gateway service ([internal/service/scaleway/vpcgw]) *)

From S2P Require Import Prelude Go Net Prog Sdk Types Cloud Scope Client.
#[local] Open Scope caps_scope.

Definition defaultVPCGWType : string := "VPC-GW-S".

(** [s.ClusterScope.ScalewayCluster.Spec.Network.PublicGateway], dereferenced. *)
Definition PublicGateway (c : ClusterScope) : outcome PublicGatewaySpec :=
  network ← deref (scs_Network (cs_Spec c)); deref (ns_PublicGateway network).

(** [getOrCreateIP]. *)
Definition getOrCreateIP (zone : Zone) (existingIP : option string)
  : GoC ClusterScope GatewayIP :=
  c ← get_state;
  match existingIP with
  | Some _ =>
      gateway ← lift (PublicGateway c);
      ip ← lift (deref (pgs_IP gateway));
      wrapf "failed to find IP" (FindGatewayIP (cs_ProjectID c) zone ip)
  | None =>
      existing ← unless_Is ErrNoItemFound
        (FindGatewayIPByTags (cs_ProjectID c) zone (Cluster_Tags c));
      match existing with
      | Some ip => mret ip
      | None => remote (GatewayCreateIP zone (Cluster_Tags c))
      end
  end.

(** [getOrCreateGateway]. *)
Definition getOrCreateGateway (zone : Zone) : GoC ClusterScope Gateway :=
  c ← get_state;
  existing ← wrapf "failed to find Public Gateway by name"
    (unless_Is ErrNoItemFound (FindGatewayByName (cs_ProjectID c) zone (Cluster_Name c)));
  match existing with
  | Some gw => mret gw
  | None =>
      gateway ← lift (PublicGateway c);
      ip ← getOrCreateIP zone (pgs_IP gateway);
      let vpcgwType := match pgs_Type gateway with Some t => t | None => defaultVPCGWType end in
      wrapf "failed to create Public Gateway"
        (remote (CreateGateway zone (Cluster_Name c) (gip_ID ip) vpcgwType))
  end.

(** [(s *Service) Reconcile]. *)
Definition Reconcile : GoC ClusterScope unit :=
  c ← get_state;
  if negb (HasPrivateNetwork c) || negb (HasPublicGateway c) then mret tt
  else
    let zone := PublicGatewayZone c in
    gateway ← lift (PublicGateway c);
    gatewayID ← match pgs_ID gateway with
                | Some id => mret id
                | None => gw ← getOrCreateGateway zone; mret (gw_ID gw)
                end;
    pnID ← lift (PrivateNetworkID c);
    totalCount ← remote (ListGatewayNetworks zone gatewayID pnID);
    if totalCount =? 0 then
      remote (CreateGatewayNetwork zone gatewayID pnID (Some true) true true)
    else mret tt.

(** [(s *Service) Delete]. *)
Definition Delete : GoC ClusterScope unit :=
  c ← get_state;
  if negb (HasPrivateNetwork c) || negb (HasPublicGateway c) then mret tt
  else
    gateway ← lift (PublicGateway c);
    match pgs_ID gateway with
    | Some _ => mret tt
    | None =>
        let zone := PublicGatewayZone c in
        existing ← wrapf "failed to find PublicGateway"
          (unless_Is ErrNoItemFound (FindGatewayByName (cs_ProjectID c) zone (Cluster_Name c)));
        _ ← match existing with
            | Some gw => wrapf "failed to delete PublicGateway"
                (remote (DeleteGateway zone (gw_ID gw)))
            | None => mret tt
            end;
        match pgs_IP gateway with
        | Some _ => mret tt
        | None =>
            existingIP ← wrapf "failed to find Public Gateway IP"
              (unless_Is ErrNoItemFound
                (FindGatewayIPByTags (cs_ProjectID c) zone (Cluster_Tags c)));
            match existingIP with
            | Some ip => wrapf "failed to delete Public Gateway IP"
                (remote (GatewayDeleteIP zone (gip_ID ip)))
            | None => mret tt
            end
        end
    end.
