(* ===== verification/SecurityGroup.v ===== *)
(** * The security group service ([internal/service/scaleway/securitygroup]) *)

From S2P Require Import Prelude Go Net Prog Sdk Types Cloud Scope Client.
#[local] Open Scope caps_scope.

(** ** Conversions and comparison of rules *)

(** [defaultPolicy]. *)
Definition defaultPolicy (securityGroupPolicy : option SecurityGroupPolicy)
  : outcome InstanceSGPolicy :=
  match securityGroupPolicy with
  | None => Ok SecurityGroupPolicyAccept
  | Some p => match sgp_Default p with
              | None => Ok SecurityGroupPolicyAccept
              | Some d => ToInstancePolicy (Some d)
              end
  end.

(** The range of a rule, ["0.0.0.0/0"] when it has none. *)
Definition rule_IPRange (rule : SecurityGroupRule) : string :=
  match sgr_IPRange rule with None => "0.0.0.0/0" | Some r => r end.

(** [compareRules]: the loop runs over the indexes of lists of equal length. *)
Fixpoint compareRules_loop (a : list SecurityGroupRule) (b : list InstanceSecurityGroupRule)
  : outcome bool :=
  match a, b with
  | ra :: a', rb :: b' =>
      expectedProtocol ← ToInstance (sgr_Protocol ra);
      if negb (bool_decide (expectedProtocol = isr_Protocol rb)) then Ok false
      else
        expectedAction ← ToInstanceAction (Some (sgr_Action ra));
        if negb (bool_decide (expectedAction = isr_Action rb)) then Ok false
        else if negb (rule_IPRange ra =?s IPNet_String (isr_IPRange rb)) then Ok false
        else
          '(from, to) ← ToRange (sgr_Ports ra);
          if negb (bool_decide (from = isr_DestPortFrom rb)) then Ok false
          else if negb (bool_decide (to = isr_DestPortTo rb)) then Ok false
          else compareRules_loop a' b'
  | _, _ => Ok true
  end.

Definition compareRules (a : list SecurityGroupRule) (b : list InstanceSecurityGroupRule)
  : outcome bool :=
  if negb (length a =? length b)%nat then Ok false else compareRules_loop a b.

(** [toInstanceRequestRule]. *)
Definition toInstanceRequestRule (position : Z) (rule : SecurityGroupRule)
    (direction : SecurityGroupRuleDirection) : outcome SetSecurityGroupRulesRequestRule :=
  action ← ToInstanceAction (Some (sgr_Action rule));
  protocol ← ToInstance (sgr_Protocol rule);
  '(from, to) ← ToRange (sgr_Ports rule);
  ipNet ← ParseCIDR (rule_IPRange rule);
  Ok {| srr_Action := action; srr_Protocol := protocol; srr_Direction := direction;
        srr_IPRange := ipNet; srr_DestPortFrom := from; srr_DestPortTo := to;
        srr_Position := position |}.

(** The loops of [ensureSecurityGroups] that build the request:
    [newRules = append(newRules, toInstanceRequestRule(uint32(i+1), rule, direction))]. *)
Fixpoint toInstanceRequestRules (i : Z) (rules : list SecurityGroupRule)
    (direction : SecurityGroupRuleDirection) : outcome (list SetSecurityGroupRulesRequestRule) :=
  match rules with
  | [] => Ok []
  | rule :: rules' =>
      newRule ← toInstanceRequestRule (uint32 (i + 1)) rule direction;
      newRules ← toInstanceRequestRules (i + 1) rules' direction;
      Ok (newRule :: newRules)
  end.

(** The rules of a policy, none when the policy is nil. *)
Definition policy_rules (p : option SecurityGroupPolicy) : list SecurityGroupRule :=
  match p with None => [] | Some p => sgp_Rules p end.

(** ** ensureSecurityGroups *)

Section service.
Context `{SDK : ScwSDK}.

(** Deletes the listed groups whose name is not the name of a group of the spec. *)
Definition deleteExtraSecurityGroups (c : ClusterScope) (securityGroups : list SecurityGroup)
    (existingSGs : list InstanceSecurityGroup) : GoC ClusterScope unit :=
  for_each existingSGs (fun existingSG =>
    if negb (List.existsb (fun sg => SecurityGroupName c (sg_Name sg) =?s isg_Name existingSG)
               securityGroups)
    then wrapf "failed to delete existing security group"
           (remote (DeleteSecurityGroup (isg_Zone existingSG) (isg_ID existingSG)))
    else mret tt).

(** The group of [sg] in [zone]: created, or updated when its policies differ. *)
Definition ensureInstanceSG (c : ClusterScope) (existingSGs : list InstanceSecurityGroup)
    (sg : SecurityGroup) (zone : Zone) : GoC ClusterScope InstanceSecurityGroup :=
  inboundDefaultPolicy ← lift (defaultPolicy (sg_Inbound sg));
  outboundDefaultPolicy ← lift (defaultPolicy (sg_Outbound sg));
  match List.find (fun existingSG =>
          (isg_Name existingSG =?s SecurityGroupName c (sg_Name sg))
          && (isg_Zone existingSG =?s zone)) existingSGs with
  | None =>
      wrapf "failed to create security group"
        (remote (CreateSecurityGroup
          {| csg_Zone := zone;
             csg_Name := SecurityGroupName c (sg_Name sg);
             csg_Tags := Cluster_Tags c;
             csg_InboundDefaultPolicy := inboundDefaultPolicy;
             csg_OutboundDefaultPolicy := outboundDefaultPolicy;
             csg_EnableDefaultSecurity := Some false;
             csg_Stateful := true |}))
  | Some instanceSG =>
      _ ← if negb (bool_decide (isg_InboundDefaultPolicy instanceSG = inboundDefaultPolicy))
             || negb (bool_decide (isg_OutboundDefaultPolicy instanceSG = outboundDefaultPolicy))
             || isg_EnableDefaultSecurity instanceSG
          then wrapf "failed to update security group"
            (remote (UpdateSecurityGroup
              {| usg_Zone := zone;
                 usg_SecurityGroupID := isg_ID instanceSG;
                 usg_InboundDefaultPolicy := inboundDefaultPolicy;
                 usg_OutboundDefaultPolicy := outboundDefaultPolicy;
                 usg_EnableDefaultSecurity := Some false |}))
          else mret tt;
      mret instanceSG
  end.

(** The rules of [sg] in the group [instanceSG]: replaced when they differ. *)
Definition ensureSGRules (sg : SecurityGroup) (zone : Zone) (instanceSG : InstanceSecurityGroup)
  : GoC ClusterScope unit :=
  rules ← wrapf "failed to list security group rules"
    (remote (ListSecurityGroupRules (isg_Zone instanceSG) (isg_ID instanceSG)));
  let instanceInboundRules := List.filter (fun rule =>
    bool_decide (isr_Direction rule = SecurityGroupRuleDirectionInbound)) rules in
  let instanceOutboundRules := List.filter (fun rule =>
    bool_decide (isr_Direction rule = SecurityGroupRuleDirectionOutbound)) rules in
  let inboundRules := policy_rules (sg_Inbound sg) in
  let outboundRules := policy_rules (sg_Outbound sg) in
  compareInbound ←
    wrapf "failed to compare inbound rules with instance inbound rules"
      (lift (compareRules inboundRules instanceInboundRules));
  compareOutbound ←
    wrapf "failed to compare outbound rules with instance outbound rules"
      (lift (compareRules outboundRules instanceOutboundRules));
  if negb compareInbound || negb compareOutbound then
    newInbound ← lift (toInstanceRequestRules 0 inboundRules SecurityGroupRuleDirectionInbound);
    newOutbound ← lift (toInstanceRequestRules 0 outboundRules SecurityGroupRuleDirectionOutbound);
    wrapf "failed to set security group rules"
      (remote (SetSecurityGroupRules zone (isg_ID instanceSG) (newInbound ++ newOutbound)))
  else mret tt.

(** [ensureSecurityGroups]. *)
Definition ensureSecurityGroups (securityGroups : list SecurityGroup) : GoC ClusterScope unit :=
  c ← get_state;
  existingSGs ← wrapf "failed to list security groups"
    (remote (ListSecurityGroups ZoneFrPar1 None (Cluster_Tags c) (Zones c Instance_Zones)));
  _ ← deleteExtraSecurityGroups c securityGroups existingSGs;
  for_each securityGroups (fun sg =>
    for_each (Zones c Instance_Zones) (fun zone =>
      instanceSG ← ensureInstanceSG c existingSGs sg zone;
      ensureSGRules sg zone instanceSG)).

(** [(s *Service) Reconcile] and [Delete]. *)
Definition Reconcile : GoC ClusterScope unit :=
  c ← get_state;
  ensureSecurityGroups
    (match scs_Network (cs_Spec c) with
     | Some network => ns_SecurityGroups network
     | None => []
     end).

Definition Delete : GoC ClusterScope unit := ensureSecurityGroups [].
End service.
