(* ===== verification/LoadBalancer.v ===== *)
(** * The load balancer service ([internal/service/scaleway/loadbalancer]) *)

From S2P Require Import Prelude Go Net Prog Sdk Types Cloud Scope Client.
#[local] Open Scope caps_scope.

Definition ControlPlaneBackendName : string := "control-plane".
Definition ControlPlaneFrontendName : string := "control-plane".
Definition BackendControlPlanePort : Z := 6443.
Definition DefaultFrontendControlPlanePort : Z := 6443.

(** [s.ScalewayCluster.Spec.ControlPlaneLoadBalancer.IP] when both are set. *)
Definition spec_IP (c : ClusterScope) : option string :=
  lbspec ← scs_ControlPlaneLoadBalancer (cs_Spec c); lbs_IP lbspec.

(** [getOrCreateLB]. *)
Definition getOrCreateLB (zone : Zone) : GoC ClusterScope LB :=
  c ← get_state;
  existing ← unless_Is ErrNoItemFound (FindLoadBalancerByName zone (Cluster_Name c));
  match existing with
  | Some loadbalancer => mret loadbalancer
  | None =>
      ipID ← match spec_IP c with
             | Some ip =>
                 lbip ← wrapf "failed to find IP" (FindLoadBalancerIP (cs_ProjectID c) zone ip);
                 mret (Some (lbip_ID lbip))
             | None => mret None
             end;
      remote (CreateLB zone (Cluster_Name c) (LoadBalancerType c) ipID)
  end.

(** [ensurePrivateNetwork]. *)
Definition ensurePrivateNetwork (loadbalancer : LB) (pnID : option ID) : GoC ClusterScope unit :=
  match pnID with
  | None => mret tt
  | Some pnID =>
      lbPNs ← remote (ListLBPrivateNetworks (lb_Zone loadbalancer) (lb_ID loadbalancer));
      if negb (List.existsb (fun lbPN => lbPN =?s pnID) lbPNs) then
        remote (AttachPrivateNetwork (lb_Zone loadbalancer) (lb_ID loadbalancer) pnID)
      else mret tt
  end.

(** [ensureBackend]: the loop keeps the last backend with the expected name and
    deletes the others. *)
Definition ensureBackend (loadbalancer : LB) : GoC ClusterScope Backend :=
  backends ← remote (ListBackends (lb_Zone loadbalancer) (lb_ID loadbalancer) None);
  backend ← for_fold backends None (fun backend backendCandidate =>
    if be_Name backendCandidate =?s ControlPlaneBackendName
    then mret (Some backendCandidate)
    else _ ← remote (DeleteBackend (lb_Zone loadbalancer) (be_ID backendCandidate));
         mret backend);
  match backend with
  | Some backend => mret backend
  | None => remote (CreateBackend (lb_Zone loadbalancer) (lb_ID loadbalancer)
              ControlPlaneBackendName BackendControlPlanePort BackendControlPlanePort 5)
  end.

(** [ensureFrontend]. *)
Definition ensureFrontend (loadbalancer : LB) (backend : Backend) : GoC ClusterScope Frontend :=
  frontends ← remote (ListFrontends (lb_Zone loadbalancer) (lb_ID loadbalancer) None);
  frontend ← for_fold frontends None (fun frontend frontendCandidate =>
    if fe_Name frontendCandidate =?s ControlPlaneFrontendName
    then mret (Some frontendCandidate)
    else _ ← remote (DeleteFrontend (lb_Zone loadbalancer) (fe_ID frontendCandidate));
         mret frontend);
  match frontend with
  | Some frontend => mret frontend
  | None => remote (CreateFrontend (lb_Zone loadbalancer) (lb_ID loadbalancer)
              ControlPlaneFrontendName DefaultFrontendControlPlanePort (be_ID backend))
  end.

Section service.
Context `{SDK : ScwSDK}.

(** [ensureACL]. *)
Definition ensureACL (frontendID : ID) (name : string) (ips : list string) (deny : bool)
    (index : Z) : GoC ClusterScope unit :=
  c ← get_state;
  acl ← unless_Is ErrNoItemFound
    (FindLoadBalancerACLByName (LoadBalancerZone c) frontendID name);
  match ips with
  | [] => match acl with
          | Some acl => remote (DeleteACL (LoadBalancerZone c) (acl_ID acl))
          | None => mret tt
          end
  | _ =>
      let action := if deny then ACLActionTypeDeny else ACLActionTypeAllow in
      match acl with
      | None =>
          _ ← remote (CreateACL
            {| cacl_Zone := LoadBalancerZone c; cacl_FrontendID := frontendID;
               cacl_Name := name; cacl_Action := action; cacl_Match := ips;
               cacl_Index := index |});
          mret tt
      | Some acl =>
          if match_differs ips acl then
            remote (UpdateACL
              {| uacl_Zone := LoadBalancerZone c; uacl_ACLID := acl_ID acl;
                 uacl_Name := name; uacl_Action := action; uacl_Match := ips;
                 uacl_Index := index |})
          else mret tt
      end
  end.

(** [Spec.ControlPlaneLoadBalancer.AllowedRanges], empty when there is no spec. *)
Definition spec_AllowedRanges (c : ClusterScope) : list string :=
  match scs_ControlPlaneLoadBalancer (cs_Spec c) with
  | Some lbspec => lbs_AllowedRanges lbspec
  | None => []
  end.

(** The addresses of the gateways that have one. *)
Definition gateway_ips (gws : list Gateway) : list string :=
  omap (fun gw => (fun ip => IP_String (gip_Address ip)) <$> gw_IP gw) gws.

(** [ensureACLs]. *)
Definition ensureACLs (frontend : Frontend) (pnID : option ID) : GoC ClusterScope unit :=
  c ← get_state;
  let allowedRanges := spec_AllowedRanges c in
  let denyAll := match allowedRanges with
                 | [] => []
                 | _ => ["0.0.0.0/0"; "::/0"]%string
                 end in
  _ ← wrapf "failed to set allowed-ranges ACL"
    (ensureACL (fe_ID frontend) "allowed-ranges" allowedRanges false 1);
  _ ← match pnID with
      | Some pnID =>
          if HasPrivateNetwork c then
            gws ← FindGatewaysByPrivateNetworkID (Zones c VPCGW_Zones) pnID;
            ensureACL (fe_ID frontend) "public-gateway" (gateway_ips gws) false 2
          else mret tt
      | None => mret tt
      end;
  ensureACL (fe_ID frontend) "deny-all" denyAll true 4.

(** The loop of [Reconcile] over the addresses of the load balancer: the first
    IPv4 address, every address before it being parsed. *)
Fixpoint first_IPv4 (ips : list LBIP) : outcome (option LBIP) :=
  match ips with
  | [] => Ok None
  | lbIP :: ips' =>
      ip ← outcome_wrap "failed to parse loadbalancer IP"
             (netip_ParseAddr (lbip_IPAddress lbIP));
      if Is4 ip then Ok (Some lbIP) else first_IPv4 ips'
  end.

Definition SetControlPlaneEndpoint (host : string) (port : Z) : GoC ClusterScope unit :=
  modify (fun c => set_cs_ScalewayCluster
    (set_sc_ControlPlaneEndpoint {| ep_Host := host; ep_Port := port |}
      (cs_ScalewayCluster c)) c).

(** [(s *Service) Reconcile]. *)
Definition Reconcile : GoC ClusterScope unit :=
  c ← get_state;
  loadbalancer ← getOrCreateLB (LoadBalancerZone c);
  if negb (bool_decide (lb_Status loadbalancer = LBStatusReady))
  then fail (Sentinel ErrLoadBalancerNotReady)
  else
    pnID ← (if HasPrivateNetwork c
            then id ← lift (PrivateNetworkID c); mret (Some id)
            else mret None);
    _ ← ensurePrivateNetwork loadbalancer pnID;
    backend ← wrapf "failed to ensure LoadBalancer backend" (ensureBackend loadbalancer);
    frontend ← wrapf "failed to ensure LoadBalancer frontend"
      (ensureFrontend loadbalancer backend);
    _ ← wrapf "failed to ensure LoadBalancer ACLs" (ensureACLs frontend pnID);
    ip ← lift (first_IPv4 (lb_IP loadbalancer));
    match ip with
    | Some lbIP => SetControlPlaneEndpoint (lbip_IPAddress lbIP) (fe_InboundPort frontend)
    | None => fail (ErrorsNew "loadbalancer has no IPs")
    end.

(** [(s *Service) Delete]. *)
Definition Delete : GoC ClusterScope unit :=
  c ← get_state;
  existing ← unless_Is ErrNoItemFound
    (FindLoadBalancerByName (LoadBalancerZone c) (Cluster_Name c));
  match existing with
  | None => mret tt
  | Some loadbalancer =>
      let releaseIP := is_none (spec_IP c) in
      wrapf "failed to delete load balancer"
        (remote (DeleteLB (lb_Zone loadbalancer) (lb_ID loadbalancer) releaseIP))
  end.
End service.

(** ** The loops over backends and frontends

    Both keep the last item with the expected name and delete the others. *)

Definition last_match {A} (p : A -> bool) (acc : option A) (xs : list A) : option A :=
  foldl (fun acc x => if p x then Some x else acc) acc xs.

Lemma last_match_None {A} (p : A -> bool) acc xs :
  last_match p acc xs = None -> acc = None /\ forall x, x ∈ xs -> p x = false.
Proof.
  revert acc. induction xs as [|y xs IH]; intros acc; simpl.
  - intros ->. split; [done|]. by intros x ?%not_elem_of_nil.
  - intros [E Hxs]%IH. destruct (p y) eqn:Ep; [done|]. split; [done|].
    by intros x [->|Hx]%elem_of_cons; auto.
Qed.

Lemma last_match_Some {A} (p : A -> bool) acc xs x :
  last_match p acc xs = Some x -> acc = Some x \/ (x ∈ xs /\ p x = true).
Proof.
  revert acc. induction xs as [|y xs IH]; intros acc; simpl; [by left|].
  intros [E|[Hx Hp]]%IH.
  - destruct (p y) eqn:Ep; [simplify_eq|by left]. right. split; [left|done].
  - right. split; [by right|done].
Qed.

(** The loop returns the last match; [J] is what its deletions preserve. *)
Lemma wp_keep_last {S A} (R : rely) (G : guarantee) (J : trace -> Prop) (p : A -> bool)
    (delete : A -> cloud_call) (xs : list A) acc h (s : S) Q :
  J h ->
  (forall h x, J h -> p x = false -> x ∈ xs -> G h (delete x)) ->
  (forall h x r, J h -> J (h ++ [CEv (delete x) r])) ->
  (forall h', J h' -> Q (Ok (last_match p acc xs)) s h') ->
  (forall h' e, J h' -> Q (Err (External e)) s h') ->
  wpM R G (for_fold xs acc (fun acc x =>
    if p x then mret (Some x) else _ ← remote (delete x); mret acc)) h s Q.
Proof.
  intros HJ HG Hstep HQ He.
  eapply (wpM_for_fold _ _ _ _ _ _ _ (fun ys a s' h' =>
    s' = s /\ J h' /\ last_match p acc xs = last_match p a ys)); [done| |].
  - intros a s' h' (-> & HJ' & E). simpl in E. subst a. auto.
  - intros a x ys s' h' (-> & HJ' & E) Hx. cbn beta. simpl in E.
    destruct (p x) eqn:Ep; go_step; [done|]. go_step; [auto| |apply He; by apply Hstep].
    go_step. split; [done|]. split; [by apply Hstep|done].
Qed.
