(* ===== verification/Instance.v ===== *)
(** * The instance service ([internal/service/scaleway/instance])

    Creates the server of a [ScalewayMachine] with its flexible IP and private
    NIC, registers control-plane nodes in the load balancer, installs the
    cloud-init data and powers the server on; and takes all this down. *)

From S2P Require Import Prelude Go Net Prog Sdk Types Cloud Scope Client.
From S2P Require Import LoadBalancer.
#[local] Open Scope caps_scope.

(** [machineIPs]. *)
Record machineIPs := { mip_Internal : option string; mip_External : option string }.

(** [NodeIP]: panics when there is no IP. *)
Definition NodeIP (m : machineIPs) : outcome string :=
  match mip_Internal m with
  | Some ip => Ok ip
  | None => deref (mip_External m)
  end.

(** [slices.Contains] on strings. *)
Definition slices_Contains (xs : list string) (x : string) : bool :=
  List.existsb (fun y => y =?s x) xs.

Section service.
Context `{SDK : ScwSDK} `{K8S : K8sLib}.

(** [getOrCreateIP]. *)
Definition getOrCreateIP : GoC MachineScope (option InstanceIP) :=
  m ← get_state;
  if negb (NeedsPublicIP m) then mret None
  else
    existing ← unless_Is ErrNoItemFound (FindIPByTags (Machine_Zone m) (Machine_Tags m));
    match existing with
    | Some ip => mret (Some ip)
    | None =>
        ip ← wrapf "failed to create Instance IP"
          (remote (InstanceCreateIP (Machine_Zone m) (Machine_Tags m)));
        mret (Some ip)
    end.

(** The size in bytes of the root volume: [scw.Size] is a [uint64]. *)
Definition rootSize (spec : ScalewayMachineSpec) : Z :=
  match sms_RootVolumeSize spec with
  | None => 20 * scw_GB
  | Some n => uint64 (uint64 n * scw_GB)
  end.

(** [getOrCreateServer]. *)
Definition getOrCreateServer (ip : option InstanceIP) : GoC MachineScope Server :=
  m ← get_state;
  let spec := sm_Spec (ms_ScalewayMachine m) in
  existing ← unless_Is ErrNoItemFound (FindInstanceByName (Machine_Zone m) (Machine_Name m));
  match existing with
  | Some server => mret server
  | None =>
      imageID ← (if negb (uuid_Parse_ok (sms_Image spec))
                 then wrapf "failed to find image with label"
                   (remote (GetLocalImageByLabel (sms_Type spec) (Machine_Zone m)
                              (sms_Image spec)))
                 else mret (sms_Image spec));
      sgID ← match sms_SecurityGroupName spec with
             | Some name =>
                 let sgName := SecurityGroupName (ms_Cluster m) name in
                 sg ← wrapf "failed to find security group"
                   (FindSecurityGroupByName (Machine_Zone m) sgName);
                 mret (Some (isg_ID sg))
             | None => mret None
             end;
      volType ← lift (ScalewayRootVolumeType spec);
      wrapf "failed to create server"
        (remote (CreateServer
          {| csr_Zone := Machine_Zone m;
             csr_Name := Machine_Name m;
             csr_CommercialType := sms_Type spec;
             csr_DynamicIPRequired := Some false;
             csr_RoutedIPEnabled := Some true;
             csr_Image := imageID;
             csr_SecurityGroup := sgID;
             csr_Volumes := [("0"%string,
               {| vst_Size := rootSize spec; vst_VolumeType := volType;
                  vst_Boot := Some true |})];
             csr_PublicIP := iip_ID <$> ip |}))
  end.

(** [getOrCreatePrivateNIC]. *)
Definition getOrCreatePrivateNIC (server : Server) : GoC MachineScope (option PrivateNIC) :=
  m ← get_state;
  if negb (HasPrivateNetwork (ms_Cluster m)) then mret None
  else
    pnID ← lift (PrivateNetworkID (ms_Cluster m));
    existing ← unless_Is ErrNoItemFound (FindPrivateNICByPNID server pnID);
    match existing with
    | Some pnic => mret (Some pnic)
    | None =>
        pnic ← wrapf "failed to create private NIC"
          (remote (CreatePrivateNIC (Machine_Zone m) (srv_ID server) pnID));
        mret (Some pnic)
    end.

(** [getMachineIPs]. *)
Definition getMachineIPs (server : Server) (pnic : option PrivateNIC)
  : GoC MachineScope machineIPs :=
  m ← get_state;
  internal ← match pnic with
    | None => mret None
    | Some pnic =>
        r ← attempt (FindIPv4ByInstancePrivateNICID (cs_ProjectID (ms_Cluster m))
                       (Cluster_Region (ms_Cluster m)) (nic_ID pnic));
        match r with
        | inr privateIP => mret (Some (IP_String (IPNet_IP privateIP)))
        | inl err => if errors_Is err ErrNoItemFound
                     then fail (Sentinel ErrPrivateIPNotFound) else fail err
        end
    end;
  let external := (fun ip => IP_String (sip_Address ip)) <$> srv_PublicIP server in
  if is_none external && is_none internal then fail (Sentinel errMachineHasNoIP)
  else mret {| mip_Internal := internal; mip_External := external |}.

(** [patchBootstrapData]. *)
Definition patchBootstrapData (data : string) (nodeIP providerID : string) : outcome string :=
  match template_Parse data with
  | inl e => Err (Errorf "unable to parse bootstrap data template" (External e))
  | inr tmpl =>
      match tmpl nodeIP providerID with
      | inl e => Err (Errorf "failed to execute bootstrap data template" (External e))
      | inr render => Ok render
      end
  end.

(** [ensureCloudInit]. *)
Definition ensureCloudInit (server : Server) (ips : machineIPs) : GoC MachineScope unit :=
  m ← get_state;
  if negb (bool_decide (srv_State server = ServerStateStopped)) then mret tt
  else
    userdata ← remote (GetAllServerUserData (srv_Zone server) (srv_ID server));
    match userdata !! "cloud-init"%string with
    | Some _ => mret tt
    | None =>
        bootstrapData ← GetRawBootstrapData;
        nodeIP ← lift (NodeIP ips);
        bootstrapData ← lift (patchBootstrapData bootstrapData nodeIP
                                (ProviderID m (srv_ID server)));
        remote (SetServerUserData (srv_Zone server) (srv_ID server) "cloud-init" bootstrapData)
    end.

(** [ensureServerStarted]. *)
Definition ensureServerStarted (server : Server) : GoC MachineScope unit :=
  if negb (bool_decide (srv_State server = ServerStateStopped)) then mret tt
  else remote (ServerAction (srv_Zone server) (srv_ID server) ServerActionPoweron).

(** [ensureLoadBalancerACL]. *)
Definition ensureLoadBalancerACL (publicIP : option string) : GoC MachineScope unit :=
  m ← get_state;
  let zone := LoadBalancerZone (ms_Cluster m) in
  frontend ← wrapf "failed to find load balancer frontend"
    (FindLoadBalancerFrontendByNames zone (Cluster_Name (ms_Cluster m))
       ControlPlaneFrontendName);
  acl ← wrapf "failed to find load balancer ACL"
    (unless_Is ErrNoItemFound
      (FindLoadBalancerACLByName zone (fe_ID frontend) (Machine_Name m)));
  match publicIP with
  | None =>
      match acl with
      | Some acl => wrapf "failed to delete load balancer ACL"
          (remote (DeleteACL zone (acl_ID acl)))
      | None => mret tt
      end
  | Some publicIP =>
      match acl with
      | None =>
          _ ← remote (CreateACL
            {| cacl_Zone := zone; cacl_FrontendID := fe_ID frontend;
               cacl_Name := Machine_Name m; cacl_Action := ACLActionTypeAllow;
               cacl_Match := [publicIP]; cacl_Index := 3 |});
          mret tt
      | Some acl =>
          if match_differs [publicIP] acl then
            remote (UpdateACL
              {| uacl_Zone := zone; uacl_ACLID := acl_ID acl;
                 uacl_Name := Machine_Name m; uacl_Action := ACLActionTypeAllow;
                 uacl_Match := [publicIP]; uacl_Index := 3 |})
          else mret tt
      end
  end.

(** [ensureControlPlaneLoadBalancer]. *)
Definition ensureControlPlaneLoadBalancer (ips : machineIPs) (deletion : bool)
  : GoC MachineScope unit :=
  m ← get_state;
  if negb (IsControlPlaneMachine (ms_Machine m)) then mret tt
  else
    let zone := LoadBalancerZone (ms_Cluster m) in
    backend ← wrapf "failed to find load balancer backend"
      (FindLoadBalancerBackendByNames zone (Cluster_Name (ms_Cluster m))
         ControlPlaneBackendName);
    nodeIP ← lift (NodeIP ips);
    if deletion && slices_Contains (be_Pool backend) nodeIP then
      remote (RemoveBackendServers zone (be_ID backend) [nodeIP])
    else if negb deletion && negb (slices_Contains (be_Pool backend) nodeIP) then
      remote (AddBackendServers zone (be_ID backend) [nodeIP])
    else mret tt.

(** The addresses written to the status. *)
Definition machineAddresses (ips : machineIPs) : list MachineAddress :=
  match mip_External ips with
  | Some a => [{| ma_Type := MachineExternalIP; ma_Address := a |}]
  | None => []
  end ++
  match mip_Internal ips with
  | Some a => [{| ma_Type := MachineInternalIP; ma_Address := a |}]
  | None => []
  end.

(** The end of [Reconcile]: provider ID and addresses of the machine. *)
Definition setMachine (server : Server) (ips : machineIPs) : GoC MachineScope unit :=
  modify (fun m =>
    let sm := set_sm_ProviderID (Some (ProviderID m (srv_ID server))) (ms_ScalewayMachine m) in
    set_ms_ScalewayMachine
      (set_sm_Status {| smst_Ready := smst_Ready (sm_Status sm);
                        smst_Addresses := machineAddresses ips |} sm) m).

(** [(s *Service) Reconcile]. *)
Definition Reconcile : GoC MachineScope unit :=
  ip ← getOrCreateIP;
  server ← getOrCreateServer ip;
  pnic ← getOrCreatePrivateNIC server;
  ips ← getMachineIPs server pnic;
  _ ← ensureControlPlaneLoadBalancer ips false;
  _ ← ensureLoadBalancerACL (mip_External ips);
  _ ← ensureCloudInit server ips;
  _ ← ensureServerStarted server;
  setMachine server ips.

(** *** Deletion *)

(** Removes a control-plane machine from the load balancer. *)
Definition deregisterControlPlane (server : Server) : GoC MachineScope unit :=
  m ← get_state;
  if negb (IsControlPlaneMachine (ms_Machine m)) then mret tt
  else
    pnic ← (if HasPrivateNetwork (ms_Cluster m) then
              pnID ← lift (PrivateNetworkID (ms_Cluster m));
              pnic ← wrapf "failed to find PrivateNIC by PNID"
                (FindPrivateNICByPNID server pnID);
              mret (Some pnic)
            else mret None);
    ips ← wrapf "failed to get machine IPs for control-plane machine"
      (unless_Is errMachineHasNoIP (getMachineIPs server pnic));
    match ips with
    | None => mret tt
    | Some ips =>
        _ ← unless_Is ErrNoItemFound (ensureControlPlaneLoadBalancer ips true);
        mret tt
    end.

(** The volume ["0"] of the server, if it is a boot volume. *)
Definition bootVolume (server : Server) : option Volume :=
  match List.find (fun kv => kv.1 =?s "0") (srv_Volumes server) with
  | Some (_, v) => if vol_Boot v then Some v else None
  | None => None
  end.

(** [(s *Service) Delete]. *)
Definition Delete : GoC MachineScope unit :=
  m ← get_state;
  existing ← unless_Is ErrNoItemFound (FindInstanceByName (Machine_Zone m) (Machine_Name m));
  match existing with
  | None => mret tt
  | Some server =>
      _ ← unless_Is ErrNoItemFound (ensureLoadBalancerACL None);
      _ ← deregisterControlPlane server;
      _ ← match srv_PublicIP server with
          | Some ip => if negb (sip_Dynamic ip)
                       then remote (InstanceDeleteIP (srv_Zone server) (sip_ID ip))
                       else mret tt
          | None => mret tt
          end;
      _ ← for_each (srv_Volumes server) (fun '(_, vol) =>
            if vol_Boot vol then mret tt
            else wrapf "failed to detach volume"
              (remote (DetachVolume (srv_Zone server) (vol_ID vol))));
      if bool_decide (srv_State server = ServerStateStopped) then
        _ ← match bootVolume server with
            | Some v =>
                _ ← wrapf "failed to detach boot volume"
                  (remote (DetachVolume (srv_Zone server) (vol_ID v)));
                wrapf "failed to delete instance volume"
                  (remote (DeleteVolume (srv_Zone server) (vol_ID v)))
            | None => mret tt
            end;
        wrapf "failed to delete instance"
          (remote (DeleteServer (srv_Zone server) (srv_ID server)))
      else
        wrapf "failed to terminate server"
          (remote (ServerAction (srv_Zone server) (srv_ID server) ServerActionTerminate))
  end.
End service.
