(* ===== verification/Secret.v ===== *)
(** * The Scaleway client of a cluster ([internal/controller/secret.go])

    The credentials are read from the secret the cluster names; the cluster
    becomes an owner of the secret. *)

From S2P Require Import Prelude Go Net Prog Sdk Types Cloud Scope Client.
#[local] Open Scope caps_scope.

Definition set_sec_ObjectMeta (m : ObjectMeta) (s : Secret) : Secret :=
  {| sec_ObjectMeta := m; sec_Data := sec_Data s |}.

(** [string(secret.Data[key])]: empty when the key is missing. *)
Definition secret_string (s : Secret) (key : string) : string :=
  opt_default EmptyString (sec_Data s !! key).

Section secret.
Context `{SDK : ScwSDK} `{K8S : K8sLib}.

(** Takes ownership of the secret unless the cluster owns it already. *)
Definition takeOwnership {S} (scalewayCluster : ScalewayCluster) (secret : Secret) : GoC S unit :=
  let meta := sc_ObjectMeta scalewayCluster in
  if negb (IsControlledBy (sec_ObjectMeta secret) meta) then
    if negb (List.existsb (fun o => or_UID o =?s om_UID meta)
               (om_OwnerReferences (sec_ObjectMeta secret))) then
      match SetOwnerReference meta (sec_ObjectMeta secret) with
      | inl e => fail (Errorf "failed to set owner reference for secret" (External e))
      | inr meta' => wrapf "failed to update secret"
          (remote (UpdateSecret (set_sec_ObjectMeta meta' secret)))
      end
    else mret tt
  else mret tt.

(** [clientFromSecret]: the client is represented by its default project ID. *)
Definition clientFromSecret {S} (scalewayCluster : ScalewayCluster) : GoC S (option ID) :=
  secret ← remote (GetSecret
    {| nn_Namespace := om_Namespace (sc_ObjectMeta scalewayCluster);
       nn_Name := scs_ScalewaySecretName (sc_Spec scalewayCluster) |});
  _ ← takeOwnership scalewayCluster secret;
  let apiURL := secret_string secret "apiURL" in
  match scw_NewClient (secret_string secret "accessKey") (secret_string secret "secretKey")
          (secret_string secret "projectID")
          (if negb (apiURL =?s "") then Some apiURL else None) with
  | inl e => fail (External e)
  | inr projectID => mret projectID
  end.
End secret.
