(* ===== verification/ClusterController.v ===== *)
(** * The ScalewayCluster controller ([internal/controller/scalewaycluster_controller.go]) *)

From S2P Require Import Prelude Go Net Prog Sdk Types Cloud Scope Client.
From S2P Require Import Secret.
From S2P Require Vpc Vpcgw SecurityGroup LoadBalancer.
#[local] Open Scope caps_scope.

(** [ctrl.Result]: the delay before the next pass in seconds, 0 for none. *)
Record Result := { RequeueAfter : Z }.
Definition no_requeue : Result := {| RequeueAfter := 0 |}.
Definition requeue_2s : Result := {| RequeueAfter := 2 |}.

(** The object [&infrastructurev1beta1.ScalewayCluster{}]. *)
Definition zero_ObjectMeta : ObjectMeta :=
  {| om_Name := ""; om_Namespace := ""; om_UID := ""; om_Labels := ∅; om_Annotations := ∅;
     om_Finalizers := []; om_OwnerReferences := []; om_DeletionTimestamp := None |}.

Definition zero_ScalewayCluster : ScalewayCluster :=
  {| sc_ObjectMeta := zero_ObjectMeta;
     sc_Spec := {| scs_ControlPlaneEndpoint := {| ep_Host := ""; ep_Port := 0 |};
                   scs_FailureDomains := []; scs_Region := ""; scs_Network := None;
                   scs_ControlPlaneLoadBalancer := None; scs_ScalewaySecretName := "" |};
     sc_Status := {| scst_Ready := false; scst_FailureDomains := ∅; scst_Network := None |} |}.

Definition set_cs_ObjectMeta (meta : ObjectMeta) (c : ClusterScope) : ClusterScope :=
  set_cs_ScalewayCluster (set_sc_ObjectMeta meta (cs_ScalewayCluster c)) c.

Definition set_cs_Status (f : ScalewayClusterStatus -> ScalewayClusterStatus)
    (c : ClusterScope) : ClusterScope :=
  let sc := cs_ScalewayCluster c in
  set_cs_ScalewayCluster (set_sc_Status (f (sc_Status sc)) sc) c.

Section controller.
Context `{SDK : ScwSDK} `{K8S : K8sLib}.

(** [reconcileNormal]. *)
Definition reconcileNormal : GoC ClusterScope Result :=
  c ← get_state;
  let '(meta, added) := AddFinalizer (sc_ObjectMeta (cs_ScalewayCluster c)) ClusterFinalizer in
  _ ← modify (set_cs_ObjectMeta meta);
  _ ← (if added : bool then Cluster_PatchObject else mret tt);
  _ ← modify (fun c => set_cs_Status (set_scst_FailureDomains (FailureDomains c)) c);
  _ ← SecurityGroup.Reconcile;
  _ ← wrapf "failed to reconcile vpc" Vpc.Reconcile;
  _ ← wrapf "failed to reconcile vpcgw" Vpcgw.Reconcile;
  r ← attempt LoadBalancer.Reconcile;
  match r with
  | inl err =>
      if errors_Is err ErrLoadBalancerNotReady then mret requeue_2s
      else fail (Errorf "failed to reconcile loadbalancer" err)
  | inr _ =>
      _ ← modify (set_cs_Status (set_scst_Ready true));
      mret no_requeue
  end.

(** [reconcileDelete]. *)
Definition reconcileDelete : GoC ClusterScope Result :=
  _ ← LoadBalancer.Delete;
  _ ← Vpcgw.Delete;
  r ← attempt Vpc.Delete;
  match r with
  | inl err =>
      if errors_As_PreconditionFailed err then mret requeue_2s else fail err
  | inr _ =>
      _ ← SecurityGroup.Delete;
      _ ← modify (fun c => set_cs_ObjectMeta
            (RemoveFinalizer (sc_ObjectMeta (cs_ScalewayCluster c)) ClusterFinalizer).1 c);
      mret no_requeue
  end.

(** [Reconcile] once the [ScalewayCluster] was read. *)
Definition reconcileObject (scalewayCluster : ScalewayCluster) : GoC unit Result :=
  cluster ← wrapf "failed to get owner cluster"
    (remote (GetOwnerCluster (sc_ObjectMeta scalewayCluster)));
  match cluster with
  | None => mret requeue_2s
  | Some cluster =>
      if IsPaused cluster (sc_ObjectMeta scalewayCluster) then mret no_requeue
      else
        c ← clientFromSecret scalewayCluster;
        projectID ← lift (client_New c);
        clusterScope ← NewCluster projectID scalewayCluster cluster;
        in_scope clusterScope
          (with_deferred Cluster_Close
            (if negb (Time_IsZero (om_DeletionTimestamp (sc_ObjectMeta scalewayCluster)))
             then reconcileDelete else reconcileNormal))
  end.

(** [Reconcile]: an error of [Get] other than "not found" is not returned. *)
Definition Reconcile (key : NamespacedName) : GoC unit Result :=
  r ← attempt (remote (GetScalewayCluster key));
  match r with
  | inl (External e) =>
      if IsNotFound e then mret no_requeue else reconcileObject zero_ScalewayCluster
  | inl _ => reconcileObject zero_ScalewayCluster
  | inr scalewayCluster => reconcileObject scalewayCluster
  end.
End controller.
