(* ===== verification/MachineController.v ===== *)
(** * The ScalewayMachine controller ([internal/controller/scalewaymachine_controller.go]) *)

From S2P Require Import Prelude Go Net Prog Sdk Types Cloud Scope Client.
From S2P Require Import Secret.
From S2P Require Import ClusterController.
From S2P Require Instance.
#[local] Open Scope caps_scope.

Definition set_ms_ObjectMeta (meta : ObjectMeta) (m : MachineScope) : MachineScope :=
  set_ms_ScalewayMachine (set_sm_ObjectMeta meta (ms_ScalewayMachine m)) m.

Definition set_ms_Ready (m : MachineScope) : MachineScope :=
  let sm := ms_ScalewayMachine m in
  set_ms_ScalewayMachine
    (set_sm_Status {| smst_Ready := true; smst_Addresses := smst_Addresses (sm_Status sm) |} sm) m.

Section controller.
Context `{SDK : ScwSDK} `{K8S : K8sLib}.

(** [reconcileNormal]. *)
Definition reconcileNormal : GoC MachineScope Result :=
  m ← get_state;
  let '(meta, added) :=
    AddFinalizer (sm_ObjectMeta (ms_ScalewayMachine m)) MachineFinalizer in
  _ ← modify (set_ms_ObjectMeta meta);
  _ ← (if added : bool then Machine_PatchObject else mret tt);
  if negb (cl_InfrastructureReady (cs_Cluster (ms_Cluster m))) then mret requeue_2s
  else
    r ← attempt Instance.Reconcile;
    match r with
    | inl err =>
        if errors_Is err ErrPrivateIPNotFound then mret requeue_2s
        else if errors_Is err ErrBootstrapDataNotReady then mret requeue_2s
        else fail err
    | inr _ => _ ← modify set_ms_Ready; mret no_requeue
    end.

(** [reconcileDelete]. *)
Definition reconcileDelete : GoC MachineScope Result :=
  _ ← Instance.Delete;
  _ ← modify (fun m => set_ms_ObjectMeta
        (RemoveFinalizer (sm_ObjectMeta (ms_ScalewayMachine m)) MachineFinalizer).1 m);
  mret no_requeue.

(** [Reconcile]. *)
Definition Reconcile (key : NamespacedName) : GoC unit Result :=
  r ← attempt (remote (GetScalewayMachine key));
  match r with
  | inl (External e) => if IsNotFound e then mret no_requeue else fail (External e)
  | inl e => fail e
  | inr scalewayMachine =>
      machine ← remote (GetOwnerMachine (sm_ObjectMeta scalewayMachine));
      match machine with
      | None => mret no_requeue
      | Some machine =>
          r ← attempt (remote (GetClusterFromMetadata (m_ObjectMeta machine)));
          match r with
          | inl _ => mret no_requeue
          | inr cluster =>
              if IsPaused cluster (sm_ObjectMeta scalewayMachine) then mret no_requeue
              else
                infrastructureRef ← lift (deref (cl_InfrastructureRef cluster));
                scalewayCluster ← remote (GetScalewayCluster
                  {| nn_Namespace := om_Namespace (cl_ObjectMeta cluster);
                     nn_Name := infrastructureRef |});
                c ← clientFromSecret scalewayCluster;
                projectID ← lift (client_New c);
                machineScope ← NewMachine projectID scalewayCluster cluster
                  scalewayMachine machine;
                in_scope machineScope
                  (with_deferred Machine_Close
                    (if negb (Time_IsZero (om_DeletionTimestamp
                                (sm_ObjectMeta scalewayMachine)))
                     then reconcileDelete else reconcileNormal))
          end
      end
  end.
End controller.
