(* ===== verification/ClusterWebhook.v ===== *)
(** * The validating webhook of ScalewayCluster ([api/v1beta1/scalewaycluster_webhook.go])

    The checks made when an object is created or updated.  [ClusterValidation] says which
    objects pass. *)

From S2P Require Import Prelude Go Net Sdk Types.
#[local] Open Scope caps_scope.

(** [field.NewPath], [path.Child] and [path.Index]. *)
Definition NewPath (names : list string) : list path_elem := PName <$> names.
Definition path_Child (path : list path_elem) (name : string) : list path_elem :=
  path ++ [PName name].
Definition path_Index (path : list path_elem) (i : nat) : list path_elem :=
  path ++ [PIndex i].

(** A nil [*field.Error] is [None]; [e ?: k] is [if err := e; err != nil { return err }]
    followed by [k]. *)
Definition or_else (e k : option field_error) : option field_error :=
  match e with Some err => Some err | None => k end.
Notation "e ?: k" := (or_else e k) (at level 60, right associativity) : caps_scope.

Section webhook.
Context `{SDK : ScwSDK}.
Implicit Types r old : ScalewayCluster.

(** [validateRegion]. *)
Definition validateRegion r : field_error + Region :=
  match scw_ParseRegion (scs_Region (sc_Spec r)) with
  | inl err => inl (field_Invalid (NewPath ["spec"; "region"]) err)
  | inr region => inr region
  end%string.

(** The zone checks: the zone parses and belongs to [region]. *)
Definition validateZone (f : list path_elem) (text : string) (region : Region) (msg : string)
  : option field_error :=
  match scw_ParseZone text with
  | inl err => Some (field_Invalid f err)
  | inr zone =>
      match Zone_Region zone with
      | inl err => Some (field_Invalid f err)
      | inr zoneRegion =>
          if negb (region =?s zoneRegion) then Some (field_Invalid f msg) else None
      end
  end.

(** The loop of [validateFailureDomains]; [dupeMap] holds the zones seen. *)
Fixpoint validateFailureDomains_loop (region : Region) (i : nat) (fds : list string)
    (dupeMap : gset Zone) : option field_error :=
  match fds with
  | [] => None
  | fd :: fds' =>
      let f := path_Index (NewPath ["spec"; "failureDomains"]%string) i in
      validateZone f fd region "failureDomain must be in the cluster region" ?:
      match scw_ParseZone fd with
      | inl _ => None
      | inr zone =>
          if decide (zone ∈ dupeMap) then Some (field_Duplicate f)
          else validateFailureDomains_loop region (S i) fds' ({[zone]} ∪ dupeMap)
      end
  end.

Definition validateFailureDomains r (region : Region) : option field_error :=
  validateFailureDomains_loop region 0 (scs_FailureDomains (sc_Spec r)) ∅.

(** [validateLoadBalancerSpec]. *)
Definition validateLoadBalancerSpec r (region : Region) : option field_error :=
  match scs_ControlPlaneLoadBalancer (sc_Spec r) with
  | Some {| lbs_Zone := Some z |} =>
      validateZone (NewPath ["spec"; "controlPlaneLoadBalancer"; "zone"]%string) z region
        "loadbalancer zone must be in the cluster region"
  | _ => None
  end.

(** The part of [validateNetworkSpec] about the Public Gateway.  When the ID is
    set and the zone is not, the error is built from the nil zone: a panic. *)
Definition validatePublicGatewaySpec (pg : PublicGatewaySpec) (region : Region)
  : outcome (option field_error) :=
  let path name := NewPath ["spec"; "network"; "publicGateway"; name]%string in
  let zoneErr :=
    match pgs_Zone pg with
    | Some z => validateZone (path "zone") z region "public gateway must be in the cluster region"
    | None => None
    end in
  match zoneErr with
  | Some err => Ok (Some err)
  | None =>
      match pgs_ID pg with
      | None => Ok None
      | Some _ =>
          match pgs_Type pg, pgs_IP pg with
          | Some _, _ => Ok (Some (field_Invalid (path "type")
              "type should not be specified because id is set"))
          | None, Some _ => Ok (Some (field_Invalid (path "ip")
              "ip should not be specified because id is set"))
          | None, None =>
              match pgs_Zone pg with
              | None => _ ← deref (pgs_Zone pg);
                        Ok (Some (field_Invalid (path "zone") "zone is needed"))
              | Some _ => Ok None
              end
          end
      end
  end.

(** The subnet check of [validateNetworkSpec]. *)
Definition validateSubnet (pn : option PrivateNetworkSpec) : option field_error :=
  match pn with
  | Some {| pns_Subnet := Some _; pns_ID := Some _ |} =>
      Some (field_Invalid (NewPath ["spec"; "network"; "privateNetwork"; "subnet"]%string)
        "not compatible with an existing PrivateNetwork")
  | _ => None
  end.

(** The loop of [validateSecurityGroupPolicy] over the rules. *)
Fixpoint validateRules (path : list path_elem) (i : nat) (rules : list SecurityGroupRule)
  : option field_error :=
  match rules with
  | [] => None
  | rule :: rules' =>
      let innerPath := path_Index (path_Child path "rules") i in
      match ToInstanceAction (Some (sgr_Action rule)) with
      | Err err => Some (field_Invalid (path_Child innerPath "action") (error_Error err))
      | _ =>
          match ToInstance (sgr_Protocol rule) with
          | Err err => Some (field_Invalid (path_Child innerPath "protocol") (error_Error err))
          | Panic => None
          | Ok proto =>
              match ToRange (sgr_Ports rule) with
              | Err err => Some (field_Invalid (path_Child innerPath "ports") (error_Error err))
              | _ =>
                  if (bool_decide (proto = SecurityGroupRuleProtocolANY)
                      || bool_decide (proto = SecurityGroupRuleProtocolICMP))
                     && is_some (sgr_Ports rule)
                  then Some (field_Invalid (path_Child innerPath "ports")
                         "ports must not be set when using ANY or ICMP protocols")
                  else
                    match sgr_IPRange rule with
                    | Some range =>
                        match ParseCIDR range with
                        | Err err =>
                            Some (field_Invalid (path_Child innerPath "ipRange") (error_Error err))
                        | _ => validateRules path (S i) rules'
                        end
                    | None => validateRules path (S i) rules'
                    end
              end
          end
      end
  end.

(** [validateSecurityGroupPolicy]. *)
Definition validateSecurityGroupPolicy (sgp : option SecurityGroupPolicy) (path : list path_elem)
  : option field_error :=
  match sgp with
  | None => None
  | Some sgp =>
      match ToInstancePolicy (sgp_Default sgp) with
      | Err err => Some (field_Invalid (path_Child path "default") (error_Error err))
      | _ => validateRules path 0 (sgp_Rules sgp)
      end
  end.

(** The loop of [validateNetworkSpec] over the security groups. *)
Fixpoint validateSecurityGroups (i : nat) (sgs : list SecurityGroup)
    (uniqueNames : gset string) : option field_error :=
  match sgs with
  | [] => None
  | sg :: sgs' =>
      let path := path_Index (NewPath ["spec"; "network"; "securityGroups"]%string) i in
      if decide (sg_Name sg ∈ uniqueNames) then Some (field_Invalid path "duplicate name")
      else
        validateSecurityGroupPolicy (sg_Inbound sg) (path_Child path "inbound") ?:
        validateSecurityGroupPolicy (sg_Outbound sg) (path_Child path "outbound") ?:
        validateSecurityGroups (S i) sgs' ({[sg_Name sg]} ∪ uniqueNames)
  end.

(** [validateNetworkSpec]. *)
Definition validateNetworkSpec r (region : Region) : outcome (option field_error) :=
  match scs_Network (sc_Spec r) with
  | None => Ok None
  | Some network =>
      err ← match ns_PublicGateway network with
            | None => Ok None
            | Some pg =>
                err ← validatePublicGatewaySpec pg region;
                Ok (err ?: validateSubnet (ns_PrivateNetwork network))
            end;
      Ok (err ?: validateSecurityGroups 0 (ns_SecurityGroups network) ∅)
  end.

Definition invalid_cluster r (errs : list field_error) : error :=
  NewInvalid "ScalewayCluster" (om_Name (sc_ObjectMeta r)) errs.

(** [allErrs == nil], or the error that holds them all. *)
Definition all_errors r (errs : list (option field_error)) : outcome unit :=
  match omap id errs with
  | [] => Ok tt
  | allErrs => Err (invalid_cluster r allErrs)
  end.

(** [validate]. *)
Definition validate r : outcome unit :=
  match validateRegion r with
  | inl err => Err (invalid_cluster r [err])
  | inr region =>
      networkErr ← validateNetworkSpec r region;
      all_errors r [validateFailureDomains r region; validateLoadBalancerSpec r region;
                    networkErr]
  end.

(** *** Updates *)

Definition empty_NetworkSpec : NetworkSpec :=
  {| ns_PrivateNetwork := None; ns_PublicGateway := None; ns_SecurityGroups := [] |}.
Definition empty_LoadBalancerSpec : LoadBalancerSpec :=
  {| lbs_Zone := None; lbs_Type := None; lbs_IP := None; lbs_AllowedRanges := [] |}.

(** [enforceImmutability] replaces nil structures of both objects by empty ones. *)
Definition fill_nil (c : ScalewayCluster) : ScalewayCluster :=
  {| sc_ObjectMeta := sc_ObjectMeta c;
     sc_Spec :=
       {| scs_ControlPlaneEndpoint := scs_ControlPlaneEndpoint (sc_Spec c);
          scs_FailureDomains := scs_FailureDomains (sc_Spec c);
          scs_Region := scs_Region (sc_Spec c);
          scs_Network := Some (opt_default empty_NetworkSpec (scs_Network (sc_Spec c)));
          scs_ControlPlaneLoadBalancer := Some
            (opt_default empty_LoadBalancerSpec (scs_ControlPlaneLoadBalancer (sc_Spec c)));
          scs_ScalewaySecretName := scs_ScalewaySecretName (sc_Spec c) |};
     sc_Status := sc_Status c |}.

Definition network_of (c : ScalewayCluster) : NetworkSpec :=
  opt_default empty_NetworkSpec (scs_Network (sc_Spec c)).
Definition loadbalancer_of (c : ScalewayCluster) : LoadBalancerSpec :=
  opt_default empty_LoadBalancerSpec (scs_ControlPlaneLoadBalancer (sc_Spec c)).

(** One immutability check: an error when the values differ. *)
Definition immutable (same : bool) (path : list string) : option field_error :=
  if same then None else Some (field_Invalid (NewPath path) "field is immutable").

(** [enforceImmutability]: the result and the object [r] as it leaves it. *)
Definition enforceImmutability r old : outcome unit * ScalewayCluster :=
  (all_errors r
    [immutable (scs_Region (sc_Spec r) =?s scs_Region (sc_Spec old)) ["spec"; "region"];
     immutable (scs_ScalewaySecretName (sc_Spec r) =?s scs_ScalewaySecretName (sc_Spec old))
       ["spec"; "scalewaySecretName"];
     immutable (bool_decide (ns_PrivateNetwork (network_of r) = ns_PrivateNetwork (network_of old)))
       ["spec"; "network"; "privateNetwork"];
     immutable (bool_decide (ns_PublicGateway (network_of r) = ns_PublicGateway (network_of old)))
       ["spec"; "network"; "publicGateway"];
     immutable (bool_decide (lbs_Zone (loadbalancer_of old) = lbs_Zone (loadbalancer_of r)))
       ["spec"; "controlPlaneLoadBalancer"; "zone"];
     immutable (bool_decide (lbs_IP (loadbalancer_of old) = lbs_IP (loadbalancer_of r)))
       ["spec"; "controlPlaneLoadBalancer"; "ip"]]%string,
   fill_nil r).

(** [ValidateCreate], [ValidateUpdate], [ValidateDelete]. *)
Definition ValidateCreate r : outcome unit := validate r.

Definition ValidateUpdate r old : outcome unit :=
  let '(res, r') := enforceImmutability r old in
  _ ← res; validate r'.

Definition ValidateDelete r : outcome unit := Ok tt.
End webhook.
