(* ===== verification/MachineWebhook.v ===== *)
(** * The validating webhook of ScalewayMachine ([api/v1beta1/scalewaymachine_webhook.go]) *)

From S2P Require Import Prelude Go Net Sdk Types.
From S2P Require Import ClusterWebhook.
#[local] Open Scope caps_scope.

Section webhook.
Implicit Types r old : ScalewayMachine.

(** [allErrs == nil], or the error that holds them all; [kind] is the kind the
    error names. *)
Definition all_errors (kind : string) r (errs : list (option field_error)) : outcome unit :=
  match omap id errs with
  | [] => Ok tt
  | allErrs => Err (NewInvalid kind (om_Name (sm_ObjectMeta r)) allErrs)
  end.

(** [validate]. *)
Definition validate r : outcome unit :=
  all_errors "ScalewayMachine" r
    [match sms_RootVolumeSize (sm_Spec r) with
     | Some n => if n <? 5
                 then Some (field_Invalid (NewPath ["spec"; "rootVolumeSize"]%string)
                        "must be at least 5 GB")
                 else None
     | None => None
     end].

(** [enforceImmutability]. *)
Definition enforceImmutability r old : outcome unit :=
  let n := sm_Spec r in
  let o := sm_Spec old in
  all_errors "ScalewayCluster" r
    [immutable (is_none (sms_ProviderID o)
                || bool_decide (sms_ProviderID n = sms_ProviderID o)) ["spec"; "providerID"];
     immutable (sms_Image n =?s sms_Image o) ["spec"; "image"];
     immutable (sms_Type n =?s sms_Type o) ["spec"; "type"];
     immutable (bool_decide (sms_RootVolumeSize o = sms_RootVolumeSize n))
       ["spec"; "rootVolumeSize"];
     immutable (bool_decide (sms_RootVolumeType o = sms_RootVolumeType n))
       ["spec"; "rootVolumeType"];
     immutable (is_none (sms_PublicIP o)
                || bool_decide (sms_PublicIP o = sms_PublicIP n)) ["spec"; "publicIP"];
     (if is_none (sms_PublicIP o) && bool_decide (sms_PublicIP n = Some true)
      then Some (field_Invalid (NewPath ["spec"; "publicIP"]) "field can only be set to false")
      else None);
     immutable (bool_decide (sms_SecurityGroupName o = sms_SecurityGroupName n))
       ["spec"; "securityGroupName"]]%string.

Definition ValidateCreate r : outcome unit := validate r.

Definition ValidateUpdate r old : outcome unit :=
  _ ← enforceImmutability r old; validate r.

Definition ValidateDelete r : outcome unit := Ok tt.
End webhook.
