(* ===== verification/Simulation.v ===== *)
(** * A simulated Scaleway project and Kubernetes API

    Concrete libraries, objects and answers on which the theorems are instantiated.
    [sim] is an oracle: it answers listings from the ledger of the history and
    creations with fresh identifiers, so that whole passes of the controllers can be
    evaluated; [sim_read_your_writes] states that it keeps the rely of the ledger. *)

From S2P Require Import Prelude Go Net Prog Sdk Types Cloud Ledger.
#[local] Open Scope caps_scope.

(** ** Concrete libraries

    Regions with their zones, identifiers accepted as UUIDs when they start with ["id-"],
    and templates with the two values of the bootstrap data. *)

Definition sim_regions : list (string * list string) :=
  [("fr-par", ["fr-par-1"; "fr-par-2"]); ("nl-ams", ["nl-ams-1"])]%string.

Definition sim_region_of (zone : string) : option string :=
  fst <$> List.find (fun kv => List.existsb (String.eqb zone) kv.2) sim_regions.

(** Templates: text with actions for the two values; anything else
    between the delimiters does not parse.  [skip] is the rest of the action being read. *)
Inductive template_part := TChar (a : ascii) | TNodeIP | TProviderID.

Fixpoint sim_parse (skip : nat) (text : string) : option (list template_part) :=
  match text with
  | EmptyString => Some []
  | String a rest =>
      match skip with
      | S skip => sim_parse skip rest
      | O =>
          if String.prefix "[[[.NodeIP]]]" text then cons TNodeIP <$> sim_parse 12 rest
          else if String.prefix "[[[.ProviderID]]]" text then cons TProviderID <$> sim_parse 16 rest
          else if String.prefix "[[[" text then None
          else cons (TChar a) <$> sim_parse 0 rest
      end
  end.

Definition sim_render (parts : list template_part) (nodeIP providerID : string) : string :=
  foldr (fun part text => match part with
    | TChar a => String a text
    | TNodeIP => nodeIP +:+ text
    | TProviderID => providerID +:+ text
    end) EmptyString parts.

#[local] Instance sim_sdk : ScwSDK := {|
  scw_ParseRegion r :=
    if List.existsb (fun kv => kv.1 =?s r) sim_regions then inr r else inl "bad region"%string;
  scw_ParseZone z := if is_some (sim_region_of z) then inr z else inl "bad zone"%string;
  Zone_Region z := match sim_region_of z with Some r => inr r | None => inl "bad zone"%string end;
  Region_GetZones r :=
    match List.find (fun kv => kv.1 =?s r) sim_regions with Some kv => kv.2 | None => [] end;
  scw_GB := 1000000000;
  Instance_Zones := ["fr-par-1"; "fr-par-2"; "nl-ams-1"]%string;
  VPCGW_Zones := ["fr-par-1"; "nl-ams-1"]%string;
  uuid_Parse_ok s := String.prefix "id-" s;
  scw_NewClient _ _ projectID _ := inr (Some projectID);
  template_Parse text :=
    match sim_parse 0 text with
    | Some parts => inr (fun nodeIP providerID => inr (sim_render parts nodeIP providerID))
    | None => inl (OtherError "bad template")
    end;
|}.

Definition sim_set_finalizers (m : ObjectMeta) (fs : list string) : ObjectMeta :=
  {| om_Name := om_Name m; om_Namespace := om_Namespace m; om_UID := om_UID m;
     om_Labels := om_Labels m; om_Annotations := om_Annotations m; om_Finalizers := fs;
     om_OwnerReferences := om_OwnerReferences m; om_DeletionTimestamp := om_DeletionTimestamp m |}.

#[local] Instance sim_k8s : K8sLib := {|
  AddFinalizer m f :=
    if decide (f ∈ om_Finalizers m) then (m, false)
    else (sim_set_finalizers m (om_Finalizers m ++ [f]), true);
  RemoveFinalizer m f :=
    (sim_set_finalizers m (filter (fun g => g <> f) (om_Finalizers m)),
     bool_decide (f ∈ om_Finalizers m));
  Time_IsZero t := is_none t;
  IsPaused cl m := cl_Paused cl;
  IsControlPlaneMachine m :=
    is_some (om_Labels (m_ObjectMeta m) !! "cluster.x-k8s.io/control-plane"%string);
  IsControlledBy m owner := false;
  SetOwnerReference owner m := inr m;
|}.

#[local] Instance sim_k8s_laws : K8sLaws.
Proof.
  split; [..|done]; intros m f; simpl; try (case_decide; simpl); try done.
  - set_solver.
  - intros [H _]%list_elem_of_filter. done.
Qed.

Lemma sim_zones_NoDup region : NoDup (Region_GetZones region).
Proof.
  unfold Region_GetZones; cbn [sim_sdk]. destruct (List.find _ _) as [kv|] eqn:E.
  - apply List.find_some in E as [[<-|[<-|[]]] _]; apply (bool_decide_unpack _); by vm_compute.
  - apply NoDup_nil_2.
Qed.

(** ** Answers *)

(** The Kubernetes objects the simulation starts from. *)
Record world := {
  w_ScalewayCluster : ScalewayCluster;
  w_ScalewayMachine : ScalewayMachine;
  w_Cluster : CapiCluster;
  w_Machine : CapiMachine;
  w_Secret : Secret;
}.

(** The live resources that [f] selects, with their identifiers. *)
Definition sim_list {A} (h : trace) (f : resource -> ID -> option A) : list A :=
  omap (fun e => f e.1 e.2) (ledger h).

Lemma sim_list_live {A} h (f : resource -> ID -> option A) res (g : ID -> A) :
  live h res -> (forall id, f res id = Some (g id)) -> exists id, g id ∈ sim_list h f.
Proof.
  intros ((res', id) & -> & He)%list_elem_of_fmap Hf. exists id.
  apply list_elem_of_omap. exists (res', id). split; [done|]. apply Hf.
Qed.

(** The last call that [f] selects. *)
Definition sim_calls (h : trace) : list cloud_call := (fun e => ev_call e) <$> h.
Definition sim_last {A} (h : trace) (f : cloud_call -> option A) : option A :=
  head (omap f (rev (sim_calls h))).

Definition sim_fresh (h : trace) : ID := "id-" +:+ Itoa (N.of_nat (length h)).

Definition sim_state (h : trace) (id : ID) : ServerState :=
  opt_default ServerStateStopped (sim_last h (fun c =>
    match c with
    | ServerAction _ id' ServerActionPoweron =>
        if id =?s id' then Some (ServerStateOther "running") else None
    | _ => None
    end)).

Definition sim_server (h : trace) (zone : Zone) (name : string) (id : ID) : Server :=
  {| srv_ID := id; srv_Name := name; srv_Zone := zone; srv_State := sim_state h id;
     srv_PublicIP := Some {| sip_ID := id; sip_Address := [51; 15; 0; 2]; sip_Dynamic := false |};
     srv_Volumes := [("0"%string, {| vol_ID := id +:+ "-vol"; vol_Boot := true |})] |}.

Definition sim_lb (zone : Zone) (name : string) (id : ID) : LB :=
  {| lb_ID := id; lb_Name := name; lb_Zone := zone; lb_Status := LBStatusReady;
     lb_IP := [{| lbip_ID := id; lbip_IPAddress := "51.15.0.1" |}] |}.

Definition sim_backend (h : trace) (name : string) (id : ID) : Backend :=
  {| be_ID := id; be_Name := name;
     be_Pool := concat (omap (fun c => match c with
       | AddBackendServers _ id' ips => if id =?s id' then Some ips else None
       | _ => None end) (sim_calls h)) |}.

Definition sim_frontend (name : string) (id : ID) : Frontend :=
  {| fe_ID := id; fe_Name := name; fe_InboundPort := 6443 |}.

(** An ACL as it was created. *)
Definition acl_of_request (id : ID) (req : CreateACLRequest) : ACL :=
  {| acl_ID := id; acl_Name := cacl_Name req; acl_Match := Some (cacl_Match req);
     acl_Action := Some (cacl_Action req); acl_Index := cacl_Index req |}.

Definition sim_acl (h : trace) (frontendID : ID) (name : string) (id : ID) : ACL :=
  let created := sim_last h (fun c => match c with
    | CreateACL req =>
        if (cacl_FrontendID req =?s frontendID) && (cacl_Name req =?s name) then Some req else None
    | _ => None end) in
  {| acl_ID := id; acl_Name := name; acl_Match := cacl_Match <$> created;
     acl_Action := cacl_Action <$> created; acl_Index := opt_default 0 (cacl_Index <$> created) |}.

Definition sim_sg (zone : Zone) (name : string) (id : ID) : InstanceSecurityGroup :=
  {| isg_ID := id; isg_Name := name; isg_Zone := zone;
     isg_InboundDefaultPolicy := SecurityGroupPolicyAccept;
     isg_OutboundDefaultPolicy := SecurityGroupPolicyAccept;
     isg_EnableDefaultSecurity := false |}.

Definition sim_rule (r : SetSecurityGroupRulesRequestRule) : InstanceSecurityGroupRule :=
  {| isr_Protocol := srr_Protocol r; isr_Direction := srr_Direction r;
     isr_Action := srr_Action r; isr_IPRange := srr_IPRange r;
     isr_DestPortFrom := srr_DestPortFrom r; isr_DestPortTo := srr_DestPortTo r |}.

Definition sim_rules (h : trace) (id : ID) : list InstanceSecurityGroupRule :=
  opt_default [] (sim_last h (fun c => match c with
    | SetSecurityGroupRules _ id' rules => if id =?s id' then Some (sim_rule <$> rules) else None
    | _ => None end)).

Definition sim_pn (name : string) (id : ID) : PrivateNetwork :=
  {| pn_ID := id; pn_Name := name; pn_DHCPEnabled := true |}.
Definition sim_gateway_ip (id : ID) : GatewayIP := {| gip_ID := id; gip_Address := [51; 15; 0; 9] |}.
Definition sim_gateway (name : string) (id : ID) : Gateway :=
  {| gw_ID := id; gw_Name := name; gw_IP := Some (sim_gateway_ip id) |}.

Definition sim_userdata (h : trace) (id : ID) : gmap string string :=
  foldl (fun m c => match c with
    | SetServerUserData _ id' key content => if id =?s id' then <[key := content]> m else m
    | _ => m end) ∅ (sim_calls h).

(** The objects as they were last patched; the spec of the cluster, the endpoint
    apart, is the user's. *)
Definition sim_cluster (w : world) (h : trace) : ScalewayCluster :=
  match sim_last h (fun c => match c with Patch _ (OCluster sc) => Some sc | _ => None end) with
  | Some sc =>
      set_sc_ControlPlaneEndpoint (scs_ControlPlaneEndpoint (sc_Spec sc))
        {| sc_ObjectMeta := sc_ObjectMeta sc; sc_Spec := sc_Spec (w_ScalewayCluster w);
           sc_Status := sc_Status sc |}
  | None => w_ScalewayCluster w
  end.

Definition sim_machine (w : world) (h : trace) : ScalewayMachine :=
  opt_default (w_ScalewayMachine w) (sim_last h (fun c =>
    match c with Patch _ (OMachine m) => Some m | _ => None end)).

Definition guard_some {A} (b : bool) (x : A) : option A := if b then Some x else None.

(** The oracle. *)
Definition sim (w : world) : oracle cloud := fun h c =>
  match c return resp cloud c with
  | ListServers zone name => ROk (sim_list h (fun res id =>
      match res with RServer z n => guard_some (z =?s zone) (sim_server h z n id) | _ => None end))
  | InstanceListIPs zone tags => ROk (sim_list h (fun res id =>
      match res with
      | RInstanceIP z t => guard_some ((z =?s zone) && bool_decide (t = tags))
          {| iip_ID := id; iip_Tags := t |}
      | _ => None end))
  | ListPrivateNICs zone serverID => ROk (sim_list h (fun res id =>
      match res with
      | RPrivateNIC z s pn => guard_some ((z =?s zone) && (s =?s serverID))
          {| nic_ID := id; nic_PrivateNetworkID := pn |}
      | _ => None end))
  | ListSecurityGroups zone None tags zones => ROk (sim_list h (fun res id =>
      match res with
      | RSecurityGroup z n t => guard_some (bool_decide (t = tags) && bool_decide (z ∈ zones))
          (sim_sg z n id)
      | _ => None end))
  | ListSecurityGroups zone (Some name) _ _ => ROk (sim_list h (fun res id =>
      match res with
      | RSecurityGroup z n t => guard_some ((z =?s zone) && (n =?s name)) (sim_sg z n id)
      | _ => None end))
  | ListSecurityGroupRules _ id => ROk (sim_rules h id)
  | GetAllServerUserData _ id => ROk (sim_userdata h id)
  | GetLocalImageByLabel _ _ label => ROk ("id-image-" +:+ label)
  | IPAMListIPs _ _ _ => ROk [{| IPNet_IP := [10; 0; 0; 5]; IPNet_Mask := [255; 255; 255; 0] |}]
  | ListLBs zone name => ROk (sim_list h (fun res id =>
      match res with RLoadBalancer z n => guard_some (z =?s zone) (sim_lb z n id) | _ => None end))
  | ListLBPrivateNetworks zone lbID => ROk (sim_list h (fun res id =>
      match res with
      | RLBPrivateNetwork z l pn => guard_some ((z =?s zone) && (l =?s lbID)) pn
      | _ => None end))
  | ListBackends zone lbID _ => ROk (sim_list h (fun res id =>
      match res with
      | RBackend z l n => guard_some ((z =?s zone) && (l =?s lbID)) (sim_backend h n id)
      | _ => None end))
  | ListFrontends zone lbID _ => ROk (sim_list h (fun res id =>
      match res with
      | RFrontend z l n => guard_some ((z =?s zone) && (l =?s lbID)) (sim_frontend n id)
      | _ => None end))
  | LBListIPs _ _ _ => ROk []
  | ListACLs zone frontendID name => ROk (sim_list h (fun res id =>
      match res with
      | RACL z f n => guard_some ((z =?s zone) && (f =?s frontendID)) (sim_acl h f n id)
      | _ => None end))
  | ListPrivateNetworks region name _ => ROk (sim_list h (fun res id =>
      match res with
      | RPrivateNetwork r n => guard_some (r =?s region) (sim_pn n id)
      | _ => None end))
  | ListGatewaysByName zone name _ => ROk (sim_list h (fun res id =>
      match res with RGateway z n => guard_some (z =?s zone) (sim_gateway n id) | _ => None end))
  | ListGatewaysByPN _ pnID _ => ROk (sim_list h (fun res id =>
      match res with
      | RGatewayNetwork _ g pn => guard_some (pn =?s pnID) (sim_gateway "" g)
      | _ => None end))
  | GatewayListFreeIPs _ _ => ROk []
  | GatewayListIPsByTags zone tags _ => ROk (sim_list h (fun res id =>
      match res with
      | RGatewayIP z t => guard_some ((z =?s zone) && bool_decide (t = tags)) (sim_gateway_ip id)
      | _ => None end))
  | ListGatewayNetworks zone gatewayID pnID =>
      ROk (Z.of_nat (length (sim_list h (fun res id =>
        match res with
        | RGatewayNetwork z g pn =>
            guard_some ((z =?s zone) && (g =?s gatewayID) && (pn =?s pnID)) tt
        | _ => None end))))
  | InstanceCreateIP _ tags => ROk {| iip_ID := sim_fresh h; iip_Tags := tags |}
  | CreateServer req => ROk (sim_server h (csr_Zone req) (csr_Name req) (sim_fresh h))
  | CreatePrivateNIC _ _ pnID => ROk {| nic_ID := sim_fresh h; nic_PrivateNetworkID := pnID |}
  | CreateSecurityGroup req => ROk (sim_sg (csg_Zone req) (csg_Name req) (sim_fresh h))
  | CreateLB zone name _ _ => ROk (sim_lb zone name (sim_fresh h))
  | CreateBackend _ _ name _ _ _ => ROk (sim_backend h name (sim_fresh h))
  | CreateFrontend _ _ name _ _ => ROk (sim_frontend name (sim_fresh h))
  | CreateACL req => ROk (acl_of_request (sim_fresh h) req)
  | CreatePrivateNetwork _ name _ => ROk (sim_pn name (sim_fresh h))
  | GatewayCreateIP _ _ => ROk (sim_gateway_ip (sim_fresh h))
  | CreateGateway _ name _ _ => ROk (sim_gateway name (sim_fresh h))
  | GetScalewayCluster _ => ROk (sim_cluster w h)
  | GetScalewayMachine _ => ROk (sim_machine w h)
  | GetSecret _ => ROk (w_Secret w)
  | GetOwnerCluster _ => ROk (Some (w_Cluster w))
  | GetOwnerMachine _ => ROk (Some (w_Machine w))
  | GetClusterFromMetadata _ => ROk (w_Cluster w)
  | _ => ROk tt
  end.

(** The simulation keeps the rely of the ledger. *)
Lemma sim_read_your_writes w : admissible read_your_writes (sim w).
Proof.
  intros h c. destruct c; try done; simpl;
    repeat match goal with
    | |- context [match ?x with Some _ => _ | None => _ end] => is_var x; destruct x
    end;
    intros res Hcov Hlive; destruct res; simpl in Hcov; try done; destruct_and?; subst;
    match goal with |- context [sim_list h ?f] =>
      eapply (sim_list_live h f) in Hlive as [id Hid];
      [|intros id; cbn; rewrite ?String_eqb_refl, ?bool_decide_eq_true_2 by done; reflexivity]
    end; simpl; eauto.
  all: intros E; match type of Hid with _ ∈ ?l => destruct l eqn:El end;
    [by apply not_elem_of_nil in Hid|]; by rewrite ?El in E.
Qed.

(** ** A sample project *)

Definition demo_meta (name uid : string) (labels : gmap string string) : ObjectMeta :=
  {| om_Name := name; om_Namespace := "default"; om_UID := uid; om_Labels := labels;
     om_Annotations := ∅; om_Finalizers := []; om_OwnerReferences := [];
     om_DeletionTimestamp := None |}.

Definition demo_rule (ports : string) : SecurityGroupRule :=
  {| sgr_Action := "Accept"; sgr_Protocol := Some "TCP"%string; sgr_Ports := Some ports;
     sgr_IPRange := Some "10.0.0.0/8"%string |}.

Definition demo_network : NetworkSpec :=
  {| ns_PrivateNetwork := Some {| pns_Enabled := true; pns_ID := None;
                                  pns_Subnet := Some "10.0.0.0/24"%string |};
     ns_PublicGateway := Some {| pgs_Enabled := true; pgs_ID := None; pgs_Type := None;
                                 pgs_IP := None; pgs_Zone := None |};
     ns_SecurityGroups :=
       [{| sg_Name := "web";
           sg_Inbound := Some {| sgp_Default := None; sgp_Rules := [demo_rule "80-443"] |};
           sg_Outbound := None |}] |}.

Definition demo_cluster : ScalewayCluster :=
  {| sc_ObjectMeta := demo_meta "demo" "uid-sc" ∅;
     sc_Spec := {| scs_ControlPlaneEndpoint := {| ep_Host := ""; ep_Port := 0 |};
                   scs_FailureDomains := ["fr-par-1"%string]; scs_Region := "fr-par";
                   scs_Network := Some demo_network;
                   scs_ControlPlaneLoadBalancer := Some
                     {| lbs_Zone := None; lbs_Type := None; lbs_IP := None;
                        lbs_AllowedRanges := ["192.0.2.0/24"%string] |};
                   scs_ScalewaySecretName := "secret" |};
     sc_Status := {| scst_Ready := false; scst_FailureDomains := ∅; scst_Network := None |} |}.

Definition demo_machine : ScalewayMachine :=
  {| sm_ObjectMeta := demo_meta "node" "uid-sm" ∅;
     sm_Spec := {| sms_ProviderID := None; sms_Image := "ubuntu"; sms_Type := "PRO2-S";
                   sms_RootVolumeSize := Some 40; sms_RootVolumeType := None;
                   sms_PublicIP := Some true; sms_SecurityGroupName := Some "web"%string |};
     sm_Status := {| smst_Ready := false; smst_Addresses := [] |} |}.

Definition demo_world : world :=
  {| w_ScalewayCluster := demo_cluster;
     w_ScalewayMachine := demo_machine;
     w_Cluster := {| cl_ObjectMeta := demo_meta "demo" "uid-c" ∅; cl_Paused := false;
                     cl_InfrastructureRef := Some "demo"%string; cl_InfrastructureReady := true |};
     w_Machine := {| m_ObjectMeta := demo_meta "node" "uid-m"
                       {["cluster.x-k8s.io/control-plane"%string := ""%string]};
                     m_DataSecretName := Some "bootstrap"%string; m_FailureDomain := None |};
     w_Secret := {| sec_ObjectMeta := demo_meta "secret" "uid-s" ∅;
                    sec_Data := {["value"%string := "ip: [[[.NodeIP]]], id: [[[.ProviderID]]]"%string]} |} |}.

Definition demo_key : NamespacedName := {| nn_Namespace := "default"; nn_Name := "demo" |}.
