(* ===== verification/NoDuplicates.v ===== *)
(** * No reconcile pass creates a resource that exists

    Every creation of the services follows a lookup that showed the resource
    missing.  [Locates] is what a lookup promises to the code that creates:
    under [read_your_writes], a lookup that finds nothing proves the resource is
    not live.  The services are safe against that interface, and so are whole
    passes of the two controllers, in any order and number. *)

From S2P Require Import Prelude Go Net Prog Sdk Types Cloud Ledger Scope Client.
From S2P Require Vpc Vpcgw SecurityGroup LoadBalancer Instance.
From S2P Require Import Secret.
From S2P Require ClusterController MachineController.
From S2P Require Import Simulation.
#[local] Open Scope caps_scope.

(** ** The environment

    What the theorems assume of the answers: listings show what is live, a server
    is in the zone it was listed or created in, and the Kubernetes API only holds
    clusters whose security groups have distinct names, which the webhooks check
    ([ClusterValidation]). *)

Definition servers_in_zone (c : cloud_call) (r : resp cloud c) : Prop :=
  match r with
  | ROk a =>
      match c return cloud_val c -> Prop with
      | ListServers zone _ => fun servers => forall x, x ∈ servers -> srv_Zone x = zone
      | CreateServer req => fun server => srv_Zone server = csr_Zone req
      | _ => fun _ => True
      end a
  | RErr _ => True
  end.

Definition spec_SecurityGroups (spec : ScalewayClusterSpec) : list SecurityGroup :=
  match scs_Network spec with
  | Some network => ns_SecurityGroups network
  | None => []
  end.

Definition distinct_names (spec : ScalewayClusterSpec) : Prop :=
  NoDup (sg_Name <$> spec_SecurityGroups spec).

Definition admitted (c : cloud_call) (r : resp cloud c) : Prop :=
  match r with
  | ROk a =>
      match c return cloud_val c -> Prop with
      | GetScalewayCluster _ => fun sc => distinct_names (sc_Spec sc)
      | _ => fun _ => True
      end a
  | RErr _ => True
  end.

Definition environment : rely := fun h c r =>
  read_your_writes h c r /\ servers_in_zone c r /\ admitted c r.

(** ** Resources in focus

    The passes are proved safe for any set of resources: it is enough that the listings
    show those of the set, which is what is left of the rely when something else works on
    the other resources at the same time ([Interleaving]). *)

Class Focus := in_focus : resource -> Prop.

Section focus.
Context `{F : Focus}.

(** [res] is live and in focus. *)
Definition present (h : trace) (res : resource) : Prop := live h res /\ in_focus res.

Definition shown : rely := fun h c r =>
  match r with
  | ROk xs => forall res, covers c res -> present h res -> listed c xs res
  | RErr _ => True
  end.

Definition environment_in : rely := fun h c r =>
  shown h c r /\ servers_in_zone c r /\ admitted c r.

Definition no_clash : guarantee := fun h c =>
  forall res, creates c = Some res -> ~ present h res.

Lemma present_snoc h c r res :
  present (h ++ [CEv c r]) res -> creates c <> Some res -> present h res.
Proof. intros [Hl Hf] Hc. split; [by eapply live_snoc|done]. Qed.

Lemma not_present_snoc h c r res :
  ~ present h res -> creates c <> Some res -> ~ present (h ++ [CEv c r]) res.
Proof. intros Hn Hc Hl. by apply Hn, (present_snoc h c r). Qed.

Lemma no_clash_None h c : creates c = None -> no_clash h c.
Proof. intros E res E'. congruence. Qed.

Lemma no_clash_Some h c res : creates c = Some res -> ~ present h res -> no_clash h c.
Proof. intros E Hn res' E'. by rewrite E in E'; simplify_eq. Qed.

Lemma not_listed_not_present h c xs res :
  shown h c (ROk xs) -> covers c res -> creates c = None ->
  ~ listed c xs res -> ~ present (h ++ [ok_ev c xs]) res.
Proof.
  intros HR Hcov Hcr Hno. apply not_present_snoc; [|congruence].
  intros Hl. by apply Hno, HR.
Qed.
End focus.

#[export] Hint Resolve no_clash_None : caps.

Abbreviation nodup_wp := (wpM environment_in no_clash).
Abbreviation nodup_safe := (safe environment_in no_clash).

(** ** Traces that create nothing *)

(** Nothing is present after [h'] that was not after [h]. *)
Definition quiet `{F : Focus} (h h' : trace) : Prop := forall res, present h' res -> present h res.

#[export] Instance quiet_preorder `{F : Focus} : PreOrder quiet.
Proof. split; unfold quiet; [by intros h res | intros h1 h2 h3 H1 H2 res H; auto]. Qed.

Lemma quiet_snoc `{F : Focus} h h' c r : quiet h h' -> creates c = None -> quiet h (h' ++ [CEv c r]).
Proof. intros Hq Hc res Hl. apply Hq. eapply present_snoc; [exact Hl|congruence]. Qed.

Lemma quiet_ok `{F : Focus} h h' c (a : cloud_val c) :
  quiet h h' -> creates c = None -> quiet h (h' ++ [ok_ev c a]).
Proof. apply quiet_snoc. Qed.

Lemma quiet_err `{F : Focus} h h' c e : quiet h h' -> quiet h (h' ++ [err_ev c e]).
Proof.
  intros Hq res [Hl Hf]. apply Hq. split; [|done]. unfold live in *. by rewrite ledger_snoc in Hl.
Qed.

Lemma quiet_not_live `{F : Focus} h h' res : quiet h h' -> ~ present h res -> ~ present h' res.
Proof. unfold quiet. auto. Qed.

Lemma not_live_ok `{F : Focus} h c (a : cloud_val c) res :
  ~ present h res -> creates c <> Some res -> ~ present (h ++ [ok_ev c a]) res.
Proof. apply not_present_snoc. Qed.

#[export] Hint Resolve quiet_snoc quiet_ok quiet_err not_live_ok : caps.
#[export] Hint Extern 1 (creates _ <> Some _) => discriminate : caps.
#[export] Hint Extern 1 (quiet ?h ?h) => reflexivity : caps.

(** ** Lookups that locate a resource *)

Class Locates `{F : Focus} {S A} (m : GoC S A) (res : resource) :=
  locates : forall h (s : S) Q,
    (forall h' x, quiet h h' -> Q (Ok (Some x)) s h') ->
    (forall h', quiet h h' -> ~ present h' res -> Q (Ok None) s h') ->
    (forall h' e, quiet h h' -> Q (Err e) s h') ->
    nodup_wp (unless_Is ErrNoItemFound m) h s Q.

Section locates.
Context `{F : Focus}.
Context {S : Type}.

Lemma locates_found {A} (m : GoC S A) c ans p (f : cloud_val c -> list A) res :
  Finder m c ans -> (forall xs oa, ans xs oa -> found p (f xs) oa) ->
  creates c = None -> covers c res ->
  (forall xs, listed c xs res -> exists x, x ∈ f xs /\ p x = true) ->
  Locates m res.
Proof.
  intros Hm Ha Hc Hcov Hl h s Q Hs Hn He.
  eapply (finder_unless_Is m c ans p f); auto with caps.
  intros xs [Hr _] Hno. apply Hn; [auto with caps|]. eapply not_listed_not_present; eauto.
  intros (x & Hx & Hp)%Hl. by rewrite (Hno x Hx) in Hp.
Qed.

Lemma locates_single {A} (m : GoC S A) c ans (f : cloud_val c -> list A) res :
  Finder m c ans -> (forall xs oa, ans xs oa -> found_single (f xs) oa) ->
  creates c = None -> covers c res ->
  (forall xs, listed c xs res -> f xs <> []) ->
  Locates m res.
Proof.
  intros Hm Ha Hc Hcov Hl h s Q Hs Hn He.
  eapply (finder_unless_Is_single m c ans f); auto with caps.
  intros xs [Hr _] Hno. apply Hn; [auto with caps|]. eapply not_listed_not_present; eauto.
  intros Hx. by apply (Hl xs).
Qed.

Ltac solve_locates :=
  first
    [ eapply locates_found; [apply _ | intros xs oa H; exact H | ..]
    | eapply locates_single; [apply _ | intros xs oa H; exact H | ..] ];
  [ reflexivity | done
  | simpl; first
      [ intros xs (x & Hx & <-); exists x; split; [done|]; by rewrite String_eqb_refl
      | done ] ].

#[export] Instance locates_server zone name :
  Locates (S := S) (FindInstanceByName zone name) (RServer zone name).
Proof. solve_locates. Qed.

#[export] Instance locates_ip zone tags :
  Locates (S := S) (FindIPByTags zone tags) (RInstanceIP zone tags).
Proof. solve_locates. Qed.

#[export] Instance locates_nic server pnID :
  Locates (S := S) (FindPrivateNICByPNID server pnID)
    (RPrivateNIC (srv_Zone server) (srv_ID server) pnID).
Proof. solve_locates. Qed.

#[export] Instance locates_lb zone name :
  Locates (S := S) (FindLoadBalancerByName zone name) (RLoadBalancer zone name).
Proof. solve_locates. Qed.

#[export] Instance locates_acl zone frontendID name :
  Locates (S := S) (FindLoadBalancerACLByName zone frontendID name) (RACL zone frontendID name).
Proof. solve_locates. Qed.

#[export] Instance locates_pn projectID region name :
  Locates (S := S) (FindPrivateNetworkByName projectID region name)
    (RPrivateNetwork region name).
Proof. solve_locates. Qed.

#[export] Instance locates_gateway projectID zone name :
  Locates (S := S) (FindGatewayByName projectID zone name) (RGateway zone name).
Proof. solve_locates. Qed.

#[export] Instance locates_gateway_ip projectID zone tags :
  Locates (S := S) (FindGatewayIPByTags projectID zone tags) (RGatewayIP zone tags).
Proof. solve_locates. Qed.
End locates.

(** ** The services *)

(** Symbolic execution under [environment_in]: a lookup that locates a resource is
    used through its contract, a creation is allowed when a hypothesis tells that
    the resource is not present. *)
Ltac nodup_call :=
  first
    [ apply no_clash_None; first [reflexivity | assumption]
    | eapply no_clash_Some; [reflexivity|]; eauto 6 using quiet_not_live with caps ].

Ltac nodup_step :=
  lazymatch goal with
  | |- wpM _ _ (unless_Is ErrNoItemFound ?m) _ _ _ =>
      eapply (locates (m := m)); [intros ? ? ?|intros ? ? ?|intros ? ? ?]
  | |- wpM _ _ (remote _) _ _ _ =>
      apply wpM_remote; [nodup_call | intros ? ? | intros ? ?]
  | _ =>
      first [ go_step
            | eapply finder_wp; [nodup_call | intros ? ? ? ? | intros ? ? ? ?]
            | eapply (safe_wpM _ _ (eq _)); [solve [safe_auto] | reflexivity | intros ? ? ? <-] ]
  end; cbn beta iota delta [outcome_wrap].

Ltac nodup_auto := repeat first [done | nodup_step].

(** A goal [safe] proved by symbolic execution. *)
Ltac nodup_exec f := intros h s Hs; unfold f; nodup_auto.

(** [Vpc] *)

Lemma getOrCreatePN_nodup `{F : Focus} I : nodup_safe I Vpc.getOrCreatePN.
Proof. nodup_exec Vpc.getOrCreatePN. Qed.

(** [Vpcgw] *)

Lemma gw_getOrCreateIP_nodup `{F : Focus} I zone ip : nodup_safe I (Vpcgw.getOrCreateIP zone ip).
Proof.
  unfold Vpcgw.getOrCreateIP. apply safe_bind_get_state. intros c Hc.
  destruct ip; [safe_auto|]. nodup_exec Vpcgw.getOrCreateIP.
Qed.

Lemma getOrCreateGateway_nodup `{F : Focus} I zone : nodup_safe I (Vpcgw.getOrCreateGateway zone).
Proof. intros h s Hs. unfold Vpcgw.getOrCreateGateway, Vpcgw.getOrCreateIP. nodup_auto. Qed.

(** An answered listing that does not show a resource. *)
Lemma environment_not_live `{F : Focus} h c xs res :
  environment_in h c (ROk xs) -> covers c res -> creates c = None ->
  ~ listed c xs res -> ~ present (h ++ [ok_ev c xs]) res.
Proof. intros [HR _]. by apply not_listed_not_present. Qed.

Lemma ensureGatewayNetwork_nodup `{F : Focus} (I : ClusterScope -> Prop) zone gatewayID pnID :
  nodup_safe I (totalCount ← remote (ListGatewayNetworks zone gatewayID pnID);
    if totalCount =? 0 then
      remote (CreateGatewayNetwork zone gatewayID pnID (Some true) true true)
    else mret tt).
Proof.
  intros h s Hs. nodup_step. nodup_step; [|done]. nodup_step; to_prop; [|by nodup_auto].
  apply wpM_remote; [|done..]. eapply no_clash_Some; [reflexivity|].
  eapply environment_not_live; [done..|]. simpl. auto.
Qed.

#[export] Hint Resolve getOrCreatePN_nodup getOrCreateGateway_nodup : caps_wp.
#[export] Hint Extern 1 (safe _ _ _ (remote (ListGatewayNetworks _ _ _) ≫= _)) =>
  apply ensureGatewayNetwork_nodup : caps_wp.

Lemma vpc_Reconcile_nodup `{F : Focus} (I : ClusterScope -> Prop) :
  (forall c pnID, I c -> nodup_safe I (SetStatusPrivateNetworkID pnID)) ->
  nodup_safe I Vpc.Reconcile.
Proof. intros HI. unfold Vpc.Reconcile. safe_auto. eauto. Qed.

Lemma gw_Reconcile_nodup `{F : Focus} I : nodup_safe I Vpcgw.Reconcile.
Proof. unfold Vpcgw.Reconcile. safe_auto. Qed.

Lemma vpc_Delete_nodup `{F : Focus} I : nodup_safe I Vpc.Delete.
Proof. unfold Vpc.Delete. safe_auto. Qed.

Lemma gw_Delete_nodup `{F : Focus} I : nodup_safe I Vpcgw.Delete.
Proof. unfold Vpcgw.Delete. safe_auto. Qed.

#[export] Hint Resolve gw_Reconcile_nodup vpc_Delete_nodup gw_Delete_nodup : caps_wp.

(** [LoadBalancer] *)

Lemma getOrCreateLB_nodup `{F : Focus} I zone : nodup_safe I (LoadBalancer.getOrCreateLB zone).
Proof. nodup_exec LoadBalancer.getOrCreateLB. Qed.

Lemma ensurePrivateNetwork_nodup `{F : Focus} I loadbalancer pnID :
  nodup_safe I (LoadBalancer.ensurePrivateNetwork loadbalancer pnID).
Proof.
  destruct pnID as [pnID|]; [|apply safe_ret]. intros h s Hs. simpl.
  do 2 nodup_step; [|done]. nodup_step; [|by nodup_auto].
  apply wpM_remote; [|done..]. eapply no_clash_Some; [reflexivity|].
  eapply environment_not_live; [done..|]. simpl. intros Hin.
  apply negb_true_iff in Heqb. rewrite existsb_not_elem_of in Heqb.
  apply Heqb in Hin. by rewrite String_eqb_refl in Hin.
Qed.

(** A resource that the listing of all its siblings did not show is still not present
    after the others were deleted. *)
Lemma keep_last_nodup `{F : Focus} {S A B} (I : S -> Prop) (c : cloud_call) (f : cloud_val c -> list A)
    (name : A -> string) n (delete : A -> cloud_call) res (k : option A -> GoC S B) :
  creates c = None -> covers c res ->
  (forall xs, listed c xs res -> exists x, x ∈ f xs /\ name x = n) ->
  (forall x, creates (delete x) = None) ->
  (forall x, nodup_safe I (k (Some x))) ->
  (forall h s, I s -> ~ present h res -> nodup_wp (k None) h s (fun _ s' _ => I s')) ->
  nodup_safe I (xs ← remote c;
    r ← for_fold (f xs) None (fun acc x =>
      if name x =?s n then mret (Some x) else _ ← remote (delete x); mret acc);
    k r).
Proof.
  intros Hc Hcov Hl Hdel Hsome Hnone h s Hs. nodup_step. nodup_step; [|done]. nodup_step.
  apply LoadBalancer.wp_keep_last with (J := quiet (h ++ [ok_ev c a])).
  - done.
  - intros. by apply no_clash_None.
  - intros h' x r Hq. etransitivity; [exact Hq|]. auto with caps.
  - intros h' Hq. destruct (LoadBalancer.last_match _ _ _) as [x|] eqn:E; [by apply Hsome|].
    apply Hnone; [done|]. eapply quiet_not_live; [exact Hq|].
    eapply environment_not_live; [done..|]. intros (x & Hx & En)%Hl.
    apply LoadBalancer.last_match_None in E as [_ E]. apply E in Hx. to_prop. congruence.
  - done.
Qed.

Lemma ensureBackend_nodup `{F : Focus} I loadbalancer : nodup_safe I (LoadBalancer.ensureBackend loadbalancer).
Proof.
  apply (keep_last_nodup I (ListBackends _ _ None) (fun xs => xs) be_Name _
    (fun x => DeleteBackend _ (be_ID x))
    (RBackend (lb_Zone loadbalancer) (lb_ID loadbalancer) LoadBalancer.ControlPlaneBackendName));
    [done..| |].
  - intros x. safe_auto.
  - intros h s Hs Hn. nodup_auto.
Qed.

Lemma ensureFrontend_nodup `{F : Focus} I loadbalancer backend :
  nodup_safe I (LoadBalancer.ensureFrontend loadbalancer backend).
Proof.
  apply (keep_last_nodup I (ListFrontends _ _ None) (fun xs => xs) fe_Name _
    (fun x => DeleteFrontend _ (fe_ID x))
    (RFrontend (lb_Zone loadbalancer) (lb_ID loadbalancer) LoadBalancer.ControlPlaneFrontendName));
    [done..| |].
  - intros x. safe_auto.
  - intros h s Hs Hn. nodup_auto.
Qed.

Lemma ensureACL_nodup `{F : Focus} `{SDK : ScwSDK} I frontendID name ips deny index :
  nodup_safe I (LoadBalancer.ensureACL frontendID name ips deny index).
Proof. nodup_exec @LoadBalancer.ensureACL. Qed.

#[export] Hint Resolve getOrCreateLB_nodup ensurePrivateNetwork_nodup ensureBackend_nodup
  ensureFrontend_nodup ensureACL_nodup : caps_wp.

Lemma ensureACLs_nodup `{F : Focus} `{SDK : ScwSDK} I frontend pnID :
  nodup_safe I (LoadBalancer.ensureACLs frontend pnID).
Proof. unfold LoadBalancer.ensureACLs. safe_auto. Qed.

#[export] Hint Resolve ensureACLs_nodup : caps_wp.

Lemma lb_Reconcile_nodup `{F : Focus} `{SDK : ScwSDK} (I : ClusterScope -> Prop) :
  (forall c host port, I c -> nodup_safe I (LoadBalancer.SetControlPlaneEndpoint host port)) ->
  nodup_safe I LoadBalancer.Reconcile.
Proof. intros HI. unfold LoadBalancer.Reconcile. safe_auto; eauto. Qed.

Lemma lb_Delete_nodup `{F : Focus} `{SDK : ScwSDK} I : nodup_safe I LoadBalancer.Delete.
Proof. unfold LoadBalancer.Delete. safe_auto. Qed.

(** [Instance] *)

Lemma inst_getOrCreateIP_nodup `{F : Focus} I : nodup_safe I Instance.getOrCreateIP.
Proof. nodup_exec Instance.getOrCreateIP. Qed.

(** The server found or created is in the zone of the machine. *)
Lemma find_server_nodup `{F : Focus} h m (Q : outcome (option Server) -> MachineScope -> trace -> Prop) :
  (forall h' x, srv_Zone x = Machine_Zone m -> Q (Ok (Some x)) m h') ->
  (forall h', ~ present h' (RServer (Machine_Zone m) (Machine_Name m)) -> Q (Ok None) m h') ->
  (forall h' e, Q (Err e) m h') ->
  nodup_wp (unless_Is ErrNoItemFound (FindInstanceByName (Machine_Zone m) (Machine_Name m)))
    h m Q.
Proof.
  intros Hs Hn He.
  eapply finder_unless_Is; [apply _ | intros xs oa H; exact H | ..];
    auto with caps.
  - intros xs x (_ & Hz & _) Hx _. apply Hs. by apply Hz.
  - intros xs HR Hno. apply Hn. eapply environment_not_live; [done..|].
    simpl. intros (x & Hx & En). apply Hno in Hx. to_prop. congruence.
Qed.

Lemma getOrCreateServer_nodup `{F : Focus} `{SDK : ScwSDK} ip h m
    (Q : outcome Server -> MachineScope -> trace -> Prop) :
  (forall h' server, srv_Zone server = Machine_Zone m -> Q (Ok server) m h') ->
  (forall h' oa, (forall server, oa <> Ok server) -> Q oa m h') ->
  nodup_wp (Instance.getOrCreateServer ip) h m Q.
Proof.
  intros Hok He. unfold Instance.getOrCreateServer. go_step. go_step. go_step.
  apply find_server_nodup.
  - intros h' x Hx. go_step. by apply Hok.
  - intros h' Hn. repeat nodup_step; try by apply He.
    all: apply Hok; match goal with
         | H : environment_in _ (CreateServer _) _ |- _ => by destruct H as (_ & Hz & _)
         end.
  - intros h' e. by apply He.
Qed.

Lemma getOrCreatePrivateNIC_nodup `{F : Focus} zone server :
  srv_Zone server = zone ->
  nodup_safe (fun m => Machine_Zone m = zone) (Instance.getOrCreatePrivateNIC server).
Proof.
  intros <- h m Hm. unfold Instance.getOrCreatePrivateNIC. do 2 nodup_step.
  rewrite Hm. nodup_auto.
Qed.

Section instance.
Context `{F : Focus}.
Context `{SDK : ScwSDK} `{K8S : K8sLib}.

Lemma getMachineIPs_nodup I server pnic : nodup_safe I (Instance.getMachineIPs server pnic).
Proof. unfold Instance.getMachineIPs. safe_auto. Qed.

Lemma ensureLoadBalancerACL_nodup I publicIP :
  nodup_safe I (Instance.ensureLoadBalancerACL publicIP).
Proof. nodup_exec @Instance.ensureLoadBalancerACL. Qed.

Lemma ensureControlPlaneLoadBalancer_nodup I ips deletion :
  nodup_safe I (Instance.ensureControlPlaneLoadBalancer ips deletion).
Proof. unfold Instance.ensureControlPlaneLoadBalancer. safe_auto. Qed.

Lemma ensureCloudInit_nodup I server ips : nodup_safe I (Instance.ensureCloudInit server ips).
Proof. unfold Instance.ensureCloudInit, GetRawBootstrapData. safe_auto. Qed.
End instance.

#[export] Hint Resolve inst_getOrCreateIP_nodup getOrCreatePrivateNIC_nodup getMachineIPs_nodup
  ensureLoadBalancerACL_nodup ensureControlPlaneLoadBalancer_nodup ensureCloudInit_nodup : caps_wp.

Section instance.
Context `{F : Focus}.
Context `{SDK : ScwSDK} `{K8S : K8sLib}.

Lemma inst_Reconcile_nodup : nodup_safe (fun _ => True) Instance.Reconcile.
Proof.
  intros h m _. set (I := fun m' => Machine_Zone m' = Machine_Zone m).
  enough (nodup_wp Instance.Reconcile h m (fun _ s' _ => I s')) as H
    by (eapply wpM_mono; [exact H | done]).
  unfold Instance.Reconcile. go_step.
  eapply (safe_wpM _ _ (eq m)); [auto with caps_wp | done |].
  intros [ip|e|] s' h' <-; try done. go_step.
  apply getOrCreateServer_nodup; [|by intros h'' [a|e|] Hoa; [destruct (Hoa a)|..]].
  intros h'' server Hz. unfold Instance.ensureServerStarted, Instance.setMachine.
  eapply safe_wpM with (I := I); [| done | done]. subst I. safe_auto.
Qed.

Lemma inst_Delete_nodup I : nodup_safe I Instance.Delete.
Proof. unfold Instance.Delete, Instance.deregisterControlPlane. safe_auto. Qed.
End instance.

#[export] Hint Resolve inst_Reconcile_nodup inst_Delete_nodup lb_Delete_nodup : caps_wp.

(** [SecurityGroup]: the listing made first covers the groups of all zones; a
    creation makes one of them present and leaves the others to be created. *)

Section securitygroup.
Context `{F : Focus}.
Context `{SDK : ScwSDK}.
Implicit Types c : ClusterScope.

Lemma Zones_NoDup c compatible :
  NoDup (Region_GetZones (Cluster_Region c)) -> NoDup (Zones c compatible).
Proof.
  intros Hnd. unfold Zones. set (zs := List.filter _ _). break_match.
  - destruct zs; [|done]. apply NoDup_singleton.
  - apply NoDup_ListNoDup, List.NoDup_filter. by apply NoDup_ListNoDup.
Qed.

Definition sg_resource c (sg : SecurityGroup) (zone : Zone) : resource :=
  RSecurityGroup zone (SecurityGroupName c (sg_Name sg)) (Cluster_Tags c).

Lemma sg_resource_inj c sg sg' zone zone' :
  sg_resource c sg zone = sg_resource c sg' zone' -> sg_Name sg = sg_Name sg'.
Proof.
  intros E. apply (SecurityGroupName_inj c).
  exact (f_equal (fun r => match r with RSecurityGroup _ n _ => n | _ => EmptyString end) E).
Qed.

(** The test that decides whether the group of [sg] in [zone] is created. *)
Definition sg_missing c (existing : list InstanceSecurityGroup) (sg : SecurityGroup)
    (zone : Zone) : Prop :=
  List.find (fun existingSG =>
    (isg_Name existingSG =?s SecurityGroupName c (sg_Name sg))
    && (isg_Zone existingSG =?s zone)) existing = None.

Definition sg_absent c existing h sg zone : Prop :=
  sg_missing c existing sg zone -> ~ present h (sg_resource c sg zone).

Lemma listing_sg_absent c zones h existing sg zone :
  environment_in h (ListSecurityGroups ZoneFrPar1 None (Cluster_Tags c) zones) (ROk existing) ->
  zone ∈ zones ->
  sg_absent c existing
    (h ++ [ok_ev (ListSecurityGroups ZoneFrPar1 None (Cluster_Tags c) zones) existing]) sg zone.
Proof.
  intros HR Hz Hno. eapply environment_not_live; [exact HR|split; done|done|].
  simpl. intros (x & Hx & Ez & En). unfold sg_missing in Hno. rewrite find_None_iff in Hno.
  apply Hno in Hx.
  rewrite En, Ez, !String_eqb_refl in Hx. done.
Qed.

Lemma ensureSGRules_quiet sg zone instanceSG h c (Q : _ -> _ -> _ -> Prop) :
  (forall h' oa, quiet h h' -> Q oa c h') ->
  nodup_wp (SecurityGroup.ensureSGRules sg zone instanceSG) h c Q.
Proof.
  intros HQ. unfold SecurityGroup.ensureSGRules. repeat nodup_step; apply HQ; auto with caps;
    etransitivity; auto with caps.
Qed.

(** Only [res] may have become present. *)
Definition only res (h h' : trace) : Prop :=
  forall res', res' <> res -> present h' res' -> present h res'.

Lemma quiet_only res h h' : quiet h h' -> only res h h'.
Proof. unfold quiet, only. auto. Qed.

Lemma only_quiet res h1 h2 h3 : only res h1 h2 -> quiet h2 h3 -> only res h1 h3.
Proof. unfold quiet, only. auto. Qed.

Lemma create_only h (k : cloud_call) (a : cloud_val k) res :
  creates k = Some res -> only res h (h ++ [ok_ev k a]).
Proof. intros Hc res' Hne Hl. eapply present_snoc; [exact Hl|congruence]. Qed.

Lemma ensureInstanceSG_nodup existing sg zone h c (Q : _ -> _ -> _ -> Prop) :
  sg_absent c existing h sg zone ->
  (forall h' oa, only (sg_resource c sg zone) h h' -> Q oa c h') ->
  nodup_wp (SecurityGroup.ensureInstanceSG c existing sg zone) h c Q.
Proof.
  intros Habs HQ. unfold SecurityGroup.ensureInstanceSG.
  destruct (SecurityGroup.defaultPolicy (sg_Inbound sg)) as [pin|e|];
    [|apply HQ, quiet_only; reflexivity..].
  destruct (SecurityGroup.defaultPolicy (sg_Outbound sg)) as [pout|e|];
    [|apply HQ, quiet_only; reflexivity..].
  do 4 go_step. destruct (List.find _ _) eqn:E.
  - repeat nodup_step; apply HQ, quiet_only; auto with caps.
  - specialize (Habs E). nodup_step. nodup_step; apply HQ; [by apply create_only|].
    apply quiet_only. auto with caps.
Qed.

(** One turn of the loops: only the group at hand may become present. *)
Lemma ensureSG_nodup existing sg zone h c (Q : _ -> _ -> _ -> Prop) :
  sg_absent c existing h sg zone ->
  (forall h' oa, only (sg_resource c sg zone) h h' -> Q oa c h') ->
  nodup_wp (instanceSG ← SecurityGroup.ensureInstanceSG c existing sg zone;
            SecurityGroup.ensureSGRules sg zone instanceSG) h c Q.
Proof.
  intros Habs HQ. go_step. apply ensureInstanceSG_nodup; [done|].
  intros h' [instanceSG|e|] Hq; [|by apply HQ..].
  apply ensureSGRules_quiet. intros h'' oa Hq'. apply HQ. by eapply only_quiet.
Qed.

Lemma deleteExtra_nodup existing sgs h c (Q : _ -> _ -> _ -> Prop) :
  (forall h' oa, quiet h h' -> Q oa c h') ->
  nodup_wp (SecurityGroup.deleteExtraSecurityGroups c sgs existing) h c Q.
Proof.
  intros HQ. unfold SecurityGroup.deleteExtraSecurityGroups.
  eapply (wpM_for_each _ _ _ _ _ _ (fun _ s' h' => s' = c /\ quiet h h')); [done| |].
  - intros s' h' [-> Hq]. auto.
  - intros x xs' s' h' [-> Hq] _. repeat nodup_step; auto with caps.
Qed.

(** The loop over the zones for one group of the spec. *)
Lemma ensureZones_nodup existing sg zones h c (Q : _ -> _ -> _ -> Prop) :
  NoDup zones ->
  (forall zone, zone ∈ zones -> sg_absent c existing h sg zone) ->
  (forall h' oa,
    (forall res, (forall zone, res <> sg_resource c sg zone) -> present h' res -> present h res) ->
    Q oa c h') ->
  nodup_wp (for_each zones (fun zone =>
    instanceSG ← SecurityGroup.ensureInstanceSG c existing sg zone;
    SecurityGroup.ensureSGRules sg zone instanceSG)) h c Q.
Proof.
  intros Hnd Habs HQ.
  eapply (wpM_for_each _ _ _ _ _ _ (fun zs s' h' => s' = c /\ NoDup zs /\
    (forall zone, zone ∈ zs -> sg_absent c existing h' sg zone) /\
    (forall res, (forall zone, res <> sg_resource c sg zone) -> present h' res -> present h res)));
    [done| |].
  - intros s' h' (-> & _ & _ & Hl). auto.
  - intros zone zs s' h' (-> & [Hni Hnd']%NoDup_cons & Ha & Hl) _.
    apply ensureSG_nodup; [apply Ha; left|].
    intros h'' oa Hq.
    assert (forall res, (forall zone, res <> sg_resource c sg zone) -> present h'' res -> present h res)
      as Hl' by auto.
    destruct oa as [[]|e|]; auto. split_and!; [done|done| |done].
    intros zone' Hz' Hm Hlive. apply (Ha zone'); [by right|done|].
    apply Hq; [|done]. unfold sg_resource. intros [= ->]. done.
Qed.

Lemma ensureSecurityGroups_nodup sgs h c (Q : _ -> _ -> _ -> Prop) :
  NoDup (sg_Name <$> sgs) -> NoDup (Region_GetZones (Cluster_Region c)) ->
  (forall h' oa, Q oa c h') ->
  nodup_wp (SecurityGroup.ensureSecurityGroups sgs) h c Q.
Proof.
  intros Hnames Hzones HQ. unfold SecurityGroup.ensureSecurityGroups.
  set (zones := Zones c Instance_Zones).
  do 5 nodup_step; [nodup_step|auto].
  apply deleteExtra_nodup. intros h' [[]|e|] Hq; auto.
  eapply (wpM_for_each _ _ _ _ _ _ (fun sgs' s' h' => s' = c /\ NoDup (sg_Name <$> sgs') /\
    forall sg zone, sg ∈ sgs' -> zone ∈ zones -> sg_absent c a h' sg zone)).
  - split; [done|]. split; [done|]. intros sg zone _ Hz Hm. eapply quiet_not_live; [exact Hq|].
    by apply listing_sg_absent.
  - intros s' h'' [-> _]. auto.
  - intros sg sgs' s' h'' (-> & Hnd & Ha) _. rewrite fmap_cons in Hnd.
    apply NoDup_cons in Hnd as [Hni Hnd].
    apply ensureZones_nodup; [by apply Zones_NoDup | intros zone Hz; apply Ha; [left|done] |].
    intros h3 [[]|e|] Hl; auto. split; [done|]. split; [done|].
    intros sg' zone' Hsg' Hz' Hm Hlive. apply (Ha sg' zone'); [by right|done..|].
    apply Hl; [|done]. intros zone En%sg_resource_inj.
    apply Hni, list_elem_of_fmap. eauto.
Qed.
End securitygroup.

(** ** The passes of the controllers *)

Section passes.
Context `{F : Focus}.
Context `{SDK : ScwSDK} `{K8S : K8sLib}.
(** Documented behaviour of the SDK: the zones of a region are listed once. *)
Context (zones_NoDup : forall region, NoDup (Region_GetZones region)).

Lemma sg_Reconcile_nodup h c (Q : _ -> _ -> _ -> Prop) :
  distinct_names (cs_Spec c) -> (forall h' oa, Q oa c h') ->
  nodup_wp SecurityGroup.Reconcile h c Q.
Proof.
  intros Hd HQ. unfold SecurityGroup.Reconcile. do 2 go_step.
  apply ensureSecurityGroups_nodup; auto.
Qed.

Lemma sg_Delete_nodup I : nodup_safe I SecurityGroup.Delete.
Proof.
  intros h c Hc. apply ensureSecurityGroups_nodup; [apply NoDup_nil_2|auto|done].
Qed.

Lemma Cluster_PatchObject_nodup I : nodup_safe I Cluster_PatchObject.
Proof. unfold Cluster_PatchObject. safe_auto. Qed.

Lemma Machine_PatchObject_nodup I : nodup_safe I Machine_PatchObject.
Proof. unfold Machine_PatchObject. safe_auto. Qed.

Lemma clientFromSecret_nodup {S} (I : S -> Prop) sc : nodup_safe I (clientFromSecret sc).
Proof. unfold clientFromSecret, takeOwnership. safe_auto. Qed.

Definition names_ok (c : ClusterScope) : Prop := distinct_names (cs_Spec c).

Lemma sg_Reconcile_nodup' : nodup_safe names_ok SecurityGroup.Reconcile.
Proof. intros h c Hc. by apply sg_Reconcile_nodup. Qed.

Lemma vpc_Reconcile_nodup' : nodup_safe names_ok Vpc.Reconcile.
Proof. apply vpc_Reconcile_nodup. intros c pnID _. unfold SetStatusPrivateNetworkID. safe_auto. Qed.

Lemma lb_Reconcile_nodup' : nodup_safe names_ok LoadBalancer.Reconcile.
Proof.
  apply lb_Reconcile_nodup. intros c host port _. unfold LoadBalancer.SetControlPlaneEndpoint.
  safe_auto.
Qed.

#[local] Hint Resolve sg_Reconcile_nodup' vpc_Reconcile_nodup' lb_Reconcile_nodup'
  sg_Delete_nodup Cluster_PatchObject_nodup Machine_PatchObject_nodup
  clientFromSecret_nodup : caps_wp.

Lemma cluster_reconcileNormal_nodup : nodup_safe names_ok ClusterController.reconcileNormal.
Proof. unfold ClusterController.reconcileNormal. safe_auto. Qed.

Lemma cluster_reconcileDelete_nodup : nodup_safe names_ok ClusterController.reconcileDelete.
Proof. unfold ClusterController.reconcileDelete. safe_auto. Qed.

Lemma machine_reconcileNormal_nodup :
  nodup_safe (fun _ => True) MachineController.reconcileNormal.
Proof. unfold MachineController.reconcileNormal. safe_auto. Qed.

Lemma machine_reconcileDelete_nodup :
  nodup_safe (fun _ => True) MachineController.reconcileDelete.
Proof. unfold MachineController.reconcileDelete. safe_auto. Qed.

Lemma reconcileObject_nodup I sc :
  distinct_names (sc_Spec sc) -> nodup_safe I (ClusterController.reconcileObject sc).
Proof.
  intros Hd. unfold ClusterController.reconcileObject.
  apply safe_bind; [safe_auto|]. intros [cl|]; [|safe_auto].
  destruct (IsPaused _ _); [safe_auto|]. do 2 (apply safe_bind; [safe_auto|intros ?]).
  apply safe_NewCluster; [intros; nodup_call|].
  eapply (safe_in_scope _ _ names_ok); [|exact Hd].
  apply safe_with_deferred; [apply Cluster_PatchObject_nodup|].
  destruct (negb _); auto using cluster_reconcileNormal_nodup, cluster_reconcileDelete_nodup.
Qed.

Lemma cluster_pass_nodup I key : nodup_safe I (ClusterController.Reconcile key).
Proof.
  intros h s Hs. unfold ClusterController.Reconcile.
  assert (distinct_names (sc_Spec ClusterController.zero_ScalewayCluster)) as Hz
    by apply NoDup_nil_2.
  do 3 nodup_step.
  - eapply safe_wpM; [apply reconcileObject_nodup | exact Hs | done]. by destruct H as (_ & _ & Hd).
  - destruct (IsNotFound e); [by nodup_auto|].
    eapply safe_wpM; [by apply reconcileObject_nodup | exact Hs | done].
Qed.

Lemma machine_pass_nodup I key : nodup_safe I (MachineController.Reconcile key).
Proof.
  unfold MachineController.Reconcile. apply safe_bind; [safe_auto|].
  intros [e|sm]; [safe_auto|]. apply safe_bind; [safe_auto|]. intros [m|]; [|safe_auto].
  apply safe_bind; [safe_auto|]. intros [e|cl]; [safe_auto|].
  destruct (IsPaused _ _); [safe_auto|]. do 4 (apply safe_bind; [safe_auto|intros ?]).
  apply safe_NewMachine; [intros; nodup_call|].
  eapply (safe_in_scope _ _ (fun _ => True)); [|done].
  apply safe_with_deferred; [apply Machine_PatchObject_nodup|].
  destruct (negb _); auto using machine_reconcileNormal_nodup, machine_reconcileDelete_nodup.
Qed.
End passes.

(** ** Any number of passes, in any order *)

(** A request taken from the work queue of one of the controllers. *)
Inductive request :=
| ClusterRequest (key : NamespacedName)
| MachineRequest (key : NamespacedName).

Section main.
Context `{SDK : ScwSDK} `{K8S : K8sLib}.

Definition pass (req : request) : prog cloud (outcome ClusterController.Result * unit) :=
  match req with
  | ClusterRequest key => ClusterController.Reconcile key tt
  | MachineRequest key => MachineController.Reconcile key tt
  end.

Definition passes_trace (o : oracle cloud) (reqs : list request) : trace :=
  run_all o [] (pass <$> reqs).

(** A pass creates no resource in focus that exists. *)
Lemma pass_no_clash `{F : Focus} req h :
  (forall region, NoDup (Region_GetZones region)) ->
  wp environment_in no_clash (fun _ _ => True) h (pass req).
Proof.
  intros Hz. destruct req as [key|key].
  - eapply wp_mono; [by apply (cluster_pass_nodup Hz (fun _ => True) key h tt)|done].
  - eapply wp_mono; [by apply (machine_pass_nodup (fun _ => True) key h tt)|done].
Qed.

(** C1.  Whatever requests the two controllers process, in whatever order and
    however often, and whatever the remote side answers (errors at any call
    included) as long as its listings show what exists, every creation call is
    made for a resource that does not exist at that moment, so that the project
    never holds the same resource twice. *)
Theorem no_duplicate_resources (o : oracle cloud) (reqs : list request) :
  (forall region, NoDup (Region_GetZones region)) ->
  admissible environment o ->
  NoDup (ledger (passes_trace o reqs)).*1 /\
  forall t1 c r t2 res, passes_trace o reqs = t1 ++ CEv c r :: t2 ->
    creates c = Some res -> ~ live t1 res.
Proof.
  intros Hz Ho.
  destruct (run_all_obeys environment no_duplicate o (pass <$> reqs) [] Ho) as (t & Et & Hob).
  - intros p h (req & -> & _)%list_elem_of_fmap. set (F := (fun _ => True) : Focus).
    eapply wp_weaken; [| |by apply (pass_no_clash (F := F))].
    + intros h' c r (HR & ?). split; [|done]. destruct r as [xs|e]; [|done].
      intros res Hcov [Hl _]. by apply HR.
    + intros h' c Hn res Hc Hl. by apply (Hn res Hc).
  - unfold passes_trace. rewrite Et. simpl. split; [by apply ledger_NoDup|].
    intros t1 c r t2 res E Hc. by apply (Hob t1 c r t2 E res).
Qed.
End main.

(** *** The simulated project *)

#[local] Existing Instances sim_sdk sim_k8s.

Lemma sim_environment w :
  distinct_names (sc_Spec (w_ScalewayCluster w)) -> admissible environment (sim w).
Proof.
  intros Hd h c. split; [apply sim_read_your_writes|]. split.
  - destruct c; try done; simpl; [|by repeat match goal with |- context [match ?x with _ => _ end] =>
      destruct x end].
    intros x (e & _ & Hx)%list_elem_of_omap. destruct e as [[] id]; simpl in Hx; try done.
    unfold guard_some in Hx. destruct (_ =?s _) eqn:E; [|done]. simplify_eq. by to_prop.
  - destruct c; try done; simpl; [by repeat match goal with |- context [match ?x with _ => _ end] =>
      destruct x end|].
    unfold sim_cluster. by destruct (sim_last _ _).
Qed.

Lemma demo_environment : admissible environment (sim demo_world).
Proof. apply sim_environment, (bool_decide_unpack _). by vm_compute. Qed.

Definition demo_requests : list request :=
  [ClusterRequest demo_key; MachineRequest demo_key; ClusterRequest demo_key;
   MachineRequest demo_key].

(** In the simulated project, the four passes leave 17 resources. *)
Lemma no_duplicate_resources_witness :
  length (ledger (passes_trace (sim demo_world) demo_requests)) = 17%nat /\
  NoDup (ledger (passes_trace (sim demo_world) demo_requests)).*1.
Proof.
  split; [by vm_compute|].
  apply (no_duplicate_resources (sim demo_world) demo_requests sim_zones_NoDup demo_environment).
Defined.

(** The project after the first pass over the cluster, and the scopes of later passes. *)
Definition demo_history : trace := passes_trace (sim demo_world) [ClusterRequest demo_key].

Definition demo_oracle : oracle cloud := fun h => sim demo_world (demo_history ++ h).

Definition demo_cluster_scope : ClusterScope :=
  let sc := sim_cluster demo_world demo_history in
  {| cs_ProjectID := "id-project"; cs_ScalewayCluster := sc; cs_Cluster := w_Cluster demo_world;
     cs_patchHelper := OCluster sc |}.

Definition demo_machine_scope : MachineScope :=
  {| ms_Cluster := demo_cluster_scope; ms_ScalewayMachine := demo_machine;
     ms_Machine := w_Machine demo_world |}.
