(* ===== verification/ClusterValidation.v ===== *)
(** * What the ScalewayCluster webhook accepts

    A declarative description of the accepted objects ([valid_cluster]) and its
    equivalence with [validate]; the invariants that accepted updates maintain. *)

From S2P Require Import Prelude Go Net Prog Sdk Types.
From S2P Require Import ClusterWebhook.
From S2P Require Import Cloud Scope Simulation NoDuplicates.
#[local] Open Scope caps_scope.

(** ** Accepted objects *)

Section valid.
Context `{SDK : ScwSDK}.

Definition zone_in (region : Region) (text : string) : Prop :=
  exists zone, scw_ParseZone text = inr zone /\ Zone_Region zone = inr region.

Definition valid_action (a : string) : Prop :=
  a = SecurityGroupActionAccept \/ a = SecurityGroupActionDrop.

Definition valid_protocol (p : option string) : Prop :=
  match p with
  | None => True
  | Some p => p = SecurityGroupProtocolANY \/ p = SecurityGroupProtocolTCP \/
              p = SecurityGroupProtocolUDP \/ p = SecurityGroupProtocolICMP
  end.

Definition valid_rule (rule : SecurityGroupRule) : Prop :=
  valid_action (sgr_Action rule) /\ valid_protocol (sgr_Protocol rule) /\
  is_Ok (ToRange (sgr_Ports rule)) /\
  (sgr_Ports rule <> None ->
    sgr_Protocol rule = Some SecurityGroupProtocolTCP \/
    sgr_Protocol rule = Some SecurityGroupProtocolUDP) /\
  (forall range, sgr_IPRange rule = Some range -> ParseCIDR_opt range <> None).

Definition valid_policy (sgp : option SecurityGroupPolicy) : Prop :=
  forall p, sgp = Some p ->
    (forall d, sgp_Default p = Some d -> valid_action d) /\ Forall valid_rule (sgp_Rules p).

Definition valid_security_group (sg : SecurityGroup) : Prop :=
  valid_policy (sg_Inbound sg) /\ valid_policy (sg_Outbound sg).

Definition valid_gateway (region : Region) (pg : PublicGatewaySpec) : Prop :=
  (forall z, pgs_Zone pg = Some z -> zone_in region z) /\
  (pgs_ID pg <> None -> pgs_Type pg = None /\ pgs_IP pg = None /\ pgs_Zone pg <> None).

(** The check on the subnet is only made when there is a Public Gateway. *)
Definition valid_network (region : Region) (n : NetworkSpec) : Prop :=
  (forall pg, ns_PublicGateway n = Some pg -> valid_gateway region pg /\
    forall pn, ns_PrivateNetwork n = Some pn -> pns_Subnet pn = None \/ pns_ID pn = None) /\
  NoDup (sg_Name <$> ns_SecurityGroups n) /\ Forall valid_security_group (ns_SecurityGroups n).

Definition valid_cluster (r : ScalewayCluster) : Prop :=
  exists region,
    scw_ParseRegion (scs_Region (sc_Spec r)) = inr region /\
    Forall (zone_in region) (scs_FailureDomains (sc_Spec r)) /\
    NoDup (scw_ParseZone <$> scs_FailureDomains (sc_Spec r)) /\
    (forall lb z, scs_ControlPlaneLoadBalancer (sc_Spec r) = Some lb -> lbs_Zone lb = Some z ->
      zone_in region z) /\
    (forall n, scs_Network (sc_Spec r) = Some n -> valid_network region n).

(** ** Lemmas on each check *)

Lemma or_else_None e k : (e ?: k) = None <-> e = None /\ k = None.
Proof. destruct e; simpl; naive_solver. Qed.

Lemma validateZone_None f text region msg :
  validateZone f text region msg = None <-> zone_in region text.
Proof.
  unfold validateZone, zone_in.
  destruct (scw_ParseZone text) as [e|zone]; [by split; [|intros (? & ? & ?)]|].
  destruct (Zone_Region zone) as [e|zr] eqn:Ez; [split; [done|]; intros (? & ? & ?); congruence|].
  destruct (region =?s zr) eqn:E; to_prop; cbn [negb]; split; try done.
  - intros _. exists zone. by subst.
  - intros (? & ? & ?). congruence.
Qed.

Lemma validateFailureDomains_loop_None region i fds (seen : gset Zone) :
  validateFailureDomains_loop region i fds seen = None <->
  Forall (zone_in region) fds /\ NoDup (scw_ParseZone <$> fds) /\
  (forall fd zone, fd ∈ fds -> scw_ParseZone fd = inr zone -> zone ∉ seen).
Proof.
  revert i seen. induction fds as [|fd fds IH]; intros i seen; cbn [validateFailureDomains_loop].
  - split; [|done]. intros _. split_and!; [done | apply NoDup_nil_2 |].
    by intros fd z ?%not_elem_of_nil.
  - rewrite or_else_None, validateZone_None, Forall_cons, fmap_cons, NoDup_cons.
    split.
    + intros [(zone & E & Hr) Hk]. rewrite E in Hk. case_decide as Hin; [done|].
      apply IH in Hk as (Hz & Hnd & Hseen). split_and!; auto.
      * by exists zone.
      * intros (fd' & E' & Hfd')%list_elem_of_fmap. rewrite E in E'.
        apply (Hseen fd' zone Hfd'); [done|set_solver].
      * intros fd' zone' [->|Hfd']%elem_of_cons E'; [congruence|].
        specialize (Hseen _ _ Hfd' E'). set_solver.
    + intros ([(zone & E & Hr) Hz] & [Hni Hnd] & Hseen). split; [by exists zone|].
      rewrite E. case_decide as Hin; [exfalso; by apply (Hseen fd zone); [left|..]|].
      apply IH. split_and!; auto. intros fd' zone' Hfd' E'.
      assert (zone' ∉ seen) by (eapply Hseen; [by right|done]).
      assert (zone' <> zone); [|set_solver].
      intros ->. apply Hni, list_elem_of_fmap. exists fd'. by rewrite E.
Qed.

Lemma ToInstanceAction_valid a : is_Ok (ToInstanceAction (Some a)) <-> valid_action a.
Proof.
  unfold ToInstanceAction, valid_action. repeat break_match; to_prop; naive_solver.
Qed.

Lemma ToInstancePolicy_valid d :
  is_Ok (ToInstancePolicy d) <-> forall a, d = Some a -> valid_action a.
Proof.
  unfold ToInstancePolicy, valid_action. repeat break_match; to_prop; naive_solver.
Qed.

Lemma ToInstance_valid p : (exists proto, ToInstance p = Ok proto) <-> valid_protocol p.
Proof.
  unfold ToInstance, valid_protocol. destruct p as [p|]; [|naive_solver].
  repeat break_match; to_prop; naive_solver.
Qed.

(** Ports make sense for TCP and UDP only. *)
Lemma ToInstance_ports p proto :
  ToInstance p = Ok proto ->
  (bool_decide (proto = SecurityGroupRuleProtocolANY)
   || bool_decide (proto = SecurityGroupRuleProtocolICMP)) = false <->
  p = Some SecurityGroupProtocolTCP \/ p = Some SecurityGroupProtocolUDP.
Proof.
  unfold ToInstance. destruct p as [p|]; [|intros [= <-]; naive_solver].
  repeat break_match; intros; to_prop; simplify_eq; simpl; naive_solver.
Qed.

Lemma ParseCIDR_not_Err range :
  (forall e, ParseCIDR range <> Err e) <-> ParseCIDR_opt range <> None.
Proof. unfold ParseCIDR. destruct (ParseCIDR_opt range); naive_solver. Qed.

Lemma ToInstanceAction_Panic a : ToInstanceAction a <> Panic.
Proof. unfold ToInstanceAction. by repeat break_match. Qed.

Lemma ToInstance_Panic p : ToInstance p <> Panic.
Proof. unfold ToInstance. by repeat break_match. Qed.

Lemma Atoi_Panic s : Atoi s <> Panic.
Proof. unfold Atoi. by repeat break_match. Qed.

Lemma ToRange_Panic p : ToRange p <> Panic.
Proof.
  unfold ToRange. destruct p as [p|]; [|done].
  destruct (strings_Split p "-") as [|a [|b [|]]]; try done.
  - pose proof (Atoi_Panic a). by destruct (Atoi a).
  - pose proof (Atoi_Panic a). pose proof (Atoi_Panic b).
    destruct (Atoi a); try done. destruct (Atoi b); try done. simpl. by break_match.
Qed.

Lemma validateRules_cons path i rule rules :
  validateRules path i (rule :: rules) = None <->
  valid_rule rule /\ validateRules path (S i) rules = None.
Proof.
  cbn [validateRules]. unfold valid_rule.
  rewrite <- (ToInstanceAction_valid (sgr_Action rule)), <- (ToInstance_valid (sgr_Protocol rule)).
  pose proof (ToInstanceAction_Panic (Some (sgr_Action rule))) as HA.
  destruct (ToInstanceAction _) as [a|e|]; [|naive_solver|done].
  pose proof (ToInstance_Panic (sgr_Protocol rule)) as HP.
  destruct (ToInstance _) as [proto|e|] eqn:Ep; [|naive_solver|done].
  pose proof (ToRange_Panic (sgr_Ports rule)) as HR.
  destruct (ToRange _) as [range|e|]; [|naive_solver|done].
  pose proof (ToInstance_ports _ _ Ep) as Hports.
  assert ((forall r, sgr_IPRange rule = Some r -> ParseCIDR_opt r <> None) <->
          match sgr_IPRange rule with Some r => ParseCIDR_opt r <> None | None => True end)
    as -> by (destruct (sgr_IPRange rule); naive_solver).
  assert (match sgr_IPRange rule with
          | Some r => match ParseCIDR r with
                      | Err err => Some (field_Invalid
                          (path_Child (path_Index (path_Child path "rules") i) "ipRange")
                          (error_Error err))
                      | _ => validateRules path (S i) rules end
          | None => validateRules path (S i) rules end = None <->
          match sgr_IPRange rule with Some r => ParseCIDR_opt r <> None | None => True end /\
          validateRules path (S i) rules = None) as Hrange.
  { destruct (sgr_IPRange rule) as [r|]; [|naive_solver].
    unfold ParseCIDR. destruct (ParseCIDR_opt r); naive_solver. }
  destruct (_ || _) eqn:Eor; cbn [andb].
  - destruct (sgr_Ports rule) as [ports|]; cbn [is_some is_none negb].
    + split; [done|]. intros ((_ & _ & _ & Hp & _) & _).
      enough (true = false) by done. by apply Hports, Hp.
    + rewrite Hrange. naive_solver.
  - rewrite Hrange. naive_solver.
Qed.

Lemma validateRules_None path i rules :
  validateRules path i rules = None <-> Forall valid_rule rules.
Proof.
  revert i. induction rules as [|rule rules IH]; intros i; [split; [constructor|done]|].
  by rewrite validateRules_cons, Forall_cons, IH.
Qed.

Lemma ToInstancePolicy_Panic d : ToInstancePolicy d <> Panic.
Proof. unfold ToInstancePolicy. by repeat break_match. Qed.

Lemma validateSecurityGroupPolicy_None sgp path :
  validateSecurityGroupPolicy sgp path = None <-> valid_policy sgp.
Proof.
  unfold validateSecurityGroupPolicy, valid_policy. destruct sgp as [p|]; [|naive_solver].
  pose proof (ToInstancePolicy_valid (sgp_Default p)) as Hd.
  pose proof (ToInstancePolicy_Panic (sgp_Default p)) as HP.
  destruct (ToInstancePolicy _) as [d|e|]; [|naive_solver|done].
  rewrite validateRules_None. naive_solver.
Qed.

Lemma validateSecurityGroups_None i sgs (seen : gset string) :
  validateSecurityGroups i sgs seen = None <->
  NoDup (sg_Name <$> sgs) /\ Forall valid_security_group sgs /\
  (forall sg, sg ∈ sgs -> sg_Name sg ∉ seen).
Proof.
  revert i seen. induction sgs as [|sg sgs IH]; intros i seen; cbn [validateSecurityGroups].
  - split; [|done]. intros _. split_and!; [apply NoDup_nil_2 | done |].
    by intros sg ?%not_elem_of_nil.
  - rewrite fmap_cons, NoDup_cons, Forall_cons, list_elem_of_fmap.
    case_decide as Hin.
    + split; [done|]. intros (_ & _ & Hseen). by destruct (Hseen sg (list_elem_of_here _ _)).
    + rewrite !or_else_None, !validateSecurityGroupPolicy_None, IH. unfold valid_security_group.
      setoid_rewrite elem_of_union. setoid_rewrite elem_of_singleton.
      setoid_rewrite elem_of_cons. naive_solver.
Qed.

(** The gateway has an ID and no zone, type or IP: the error about the missing
    zone is built from the nil zone. *)
Definition gateway_panics (pg : PublicGatewaySpec) : Prop :=
  pgs_ID pg <> None /\ pgs_Zone pg = None /\ pgs_Type pg = None /\ pgs_IP pg = None.

Lemma validatePublicGatewaySpec_spec pg region :
  match validatePublicGatewaySpec pg region with
  | Ok None => valid_gateway region pg
  | Ok (Some _) => ~ valid_gateway region pg /\ ~ gateway_panics pg
  | Err _ => False
  | Panic => gateway_panics pg
  end.
Proof.
  unfold validatePublicGatewaySpec, valid_gateway, gateway_panics.
  destruct (pgs_Zone pg) as [z|].
  - pose proof (validateZone_None (NewPath ["spec"; "network"; "publicGateway"; "zone"]%string) z
      region "public gateway must be in the cluster region") as Hz.
    destruct (validateZone _ _ _ _) as [err|].
    + split; [|naive_solver]. intros [Hv _]. enough (Some err = None) by done. by apply Hz, Hv.
    + assert (zone_in region z) by by apply Hz. clear Hz.
      destruct (pgs_ID pg), (pgs_Type pg), (pgs_IP pg); simpl; split_and?;
        first [naive_solver | by intros [_ H']; destruct (H' ltac:(done)) as (? & ? & ?)].
  - destruct (pgs_ID pg), (pgs_Type pg), (pgs_IP pg); simpl; split_and?;
      first [naive_solver | by intros [_ H']; destruct (H' ltac:(done)) as (? & ? & ?)].
Qed.

Lemma validateSubnet_None pn :
  validateSubnet pn = None <->
  forall p, pn = Some p -> pns_Subnet p = None \/ pns_ID p = None.
Proof. destruct pn as [[e [i|] [s|]]|]; simpl; naive_solver. Qed.

Lemma validateNetworkSpec_spec r region :
  match validateNetworkSpec r region with
  | Ok None => forall n, scs_Network (sc_Spec r) = Some n -> valid_network region n
  | Ok (Some _) => exists n, scs_Network (sc_Spec r) = Some n /\ ~ valid_network region n /\
      forall pg, ns_PublicGateway n = Some pg -> ~ gateway_panics pg
  | Err _ => False
  | Panic => exists n pg, scs_Network (sc_Spec r) = Some n /\ ns_PublicGateway n = Some pg /\
      gateway_panics pg
  end.
Proof.
  unfold validateNetworkSpec. destruct (scs_Network _) as [n|]; [|naive_solver].
  assert (validateSecurityGroups 0 (ns_SecurityGroups n) ∅ = None <->
          NoDup (sg_Name <$> ns_SecurityGroups n) /\
          Forall valid_security_group (ns_SecurityGroups n)) as Hsg
    by (rewrite validateSecurityGroups_None; set_solver).
  unfold valid_network.
  destruct (ns_PublicGateway n) as [pg|] eqn:Epg; simpl.
  - pose proof (validatePublicGatewaySpec_spec pg region) as Hpg.
    destruct (validatePublicGatewaySpec pg region) as [[err|]|e|]; simpl; [|..|naive_solver].
    + naive_solver.
    + pose proof (validateSubnet_None (ns_PrivateNetwork n)) as Hsub.
      assert (~ gateway_panics pg) by (unfold gateway_panics, valid_gateway in *; naive_solver).
      destruct (validateSubnet _); simpl; [naive_solver|].
      destruct (validateSecurityGroups _ _ _); naive_solver.
    + done.
  - destruct (validateSecurityGroups _ _ _); naive_solver.
Qed.

Lemma all_errors_Ok r errs : all_errors r errs = Ok tt <-> Forall (fun e => e = None) errs.
Proof.
  unfold all_errors. induction errs as [|[e|] errs IH]; simpl.
  - split; [constructor|done].
  - rewrite Forall_cons. naive_solver.
  - rewrite Forall_cons. rewrite IH. naive_solver.
Qed.

Lemma all_errors_not_Panic r errs : all_errors r errs <> Panic.
Proof. unfold all_errors. by destruct (omap id errs). Qed.

Lemma gateway_panics_invalid region pg : gateway_panics pg -> ~ valid_gateway region pg.
Proof. intros (Hid & Hz & _) [_ H]. by destruct (H Hid) as (_ & _ & ?). Qed.

Lemma validateNetworkSpec_None r region :
  validateNetworkSpec r region = Ok None <->
  forall n, scs_Network (sc_Spec r) = Some n -> valid_network region n.
Proof.
  pose proof (validateNetworkSpec_spec r region) as H.
  destruct (validateNetworkSpec r region) as [[err|]|e|]; split; try done; intros Hv.
  - destruct H as (n & En & Hno & _). by destruct (Hno (Hv n En)).
  - destruct H as (n & pg & En & Epg & Hp). destruct (Hv n En) as [Hpg _].
    destruct (Hpg pg Epg) as [Hg _]. by destruct (gateway_panics_invalid region pg Hp).
Qed.

Lemma validateNetworkSpec_Panic r region :
  validateNetworkSpec r region = Panic <->
  exists n pg, scs_Network (sc_Spec r) = Some n /\ ns_PublicGateway n = Some pg /\
    gateway_panics pg.
Proof.
  pose proof (validateNetworkSpec_spec r region) as H.
  destruct (validateNetworkSpec r region) as [[err|]|e|]; split; try done;
    intros (n & pg & En & Epg & Hp).
  - destruct H as (n' & En' & _ & Hno). rewrite En in En'. simplify_eq. by destruct (Hno pg Epg).
  - destruct (H n En) as [Hpg _]. destruct (Hpg pg Epg) as [Hg _].
    by destruct (gateway_panics_invalid region pg Hp).
Qed.

(** The region is valid and the Public Gateway has an ID but no zone, type or IP. *)
Definition cluster_panics r : Prop :=
  (exists region, scw_ParseRegion (scs_Region (sc_Spec r)) = inr region) /\
  exists n pg, scs_Network (sc_Spec r) = Some n /\ ns_PublicGateway n = Some pg /\
    gateway_panics pg.

Lemma validate_iff r :
  (validate r = Ok tt <-> valid_cluster r) /\ (validate r = Panic <-> cluster_panics r).
Proof.
  unfold validate, validateRegion, valid_cluster, cluster_panics.
  destruct (scw_ParseRegion _) as [e|region]; [split; split; naive_solver|].
  rewrite <- (validateNetworkSpec_Panic r region).
  assert (validateFailureDomains r region = None <->
          Forall (zone_in region) (scs_FailureDomains (sc_Spec r)) /\
          NoDup (scw_ParseZone <$> scs_FailureDomains (sc_Spec r))) as Hfd.
  { unfold validateFailureDomains. rewrite validateFailureDomains_loop_None. set_solver. }
  assert (validateLoadBalancerSpec r region = None <->
          forall lb z, scs_ControlPlaneLoadBalancer (sc_Spec r) = Some lb -> lbs_Zone lb = Some z ->
            zone_in region z) as Hlb.
  { unfold validateLoadBalancerSpec.
    destruct (scs_ControlPlaneLoadBalancer _) as [[[z|] ? ? ?]|]; simpl; [|naive_solver..].
    rewrite validateZone_None. naive_solver. }
  split.
  - pose proof (validateNetworkSpec_None r region) as Hn. split.
    + intros H. exists region. split; [done|].
      destruct (validateNetworkSpec r region) as [err|e|]; simpl in H; [|done..].
      rewrite all_errors_Ok, !Forall_cons in H. destruct H as (Hf & Hl & -> & _).
      apply Hfd in Hf as [? ?]. rewrite Hlb in Hl. split_and!; auto. by apply Hn.
    + intros (? & [= <-] & H1 & H2 & H3 & H4). apply Hn in H4. rewrite H4. simpl.
      apply all_errors_Ok. repeat constructor; [by apply Hfd|by apply Hlb].
  - pose proof (all_errors_not_Panic r) as Hp.
    destruct (validateNetworkSpec r region) as [err|e|]; simpl; [|naive_solver..].
    split; [|naive_solver]. intros H. by apply Hp in H.
Qed.

(** C28.  [validate] accepts exactly the objects described by [valid_cluster], and
    panics exactly when the region is valid and the Public Gateway has an ID but no
    zone, type or IP (the error that should be reported dereferences the zone); every
    other object is refused with an error. *)
Theorem validate_correct r :
  match validate r with
  | Ok _ => valid_cluster r
  | Err _ => ~ valid_cluster r /\ ~ cluster_panics r
  | Panic => cluster_panics r /\ ~ valid_cluster r
  end.
Proof.
  destruct (validate_iff r) as [Hv Hp]. destruct (validate r) as [[]|e|]; naive_solver.
Qed.
End valid.

(** ** Updates *)

Section updates.
Context `{SDK : ScwSDK}.
Implicit Types r old : ScalewayCluster.

(** The fields that an update must leave alone; a missing structure counts as
    an empty one. *)
Definition same_immutable old r : Prop :=
  scs_Region (sc_Spec r) = scs_Region (sc_Spec old) /\
  scs_ScalewaySecretName (sc_Spec r) = scs_ScalewaySecretName (sc_Spec old) /\
  ns_PrivateNetwork (network_of r) = ns_PrivateNetwork (network_of old) /\
  ns_PublicGateway (network_of r) = ns_PublicGateway (network_of old) /\
  lbs_Zone (loadbalancer_of r) = lbs_Zone (loadbalancer_of old) /\
  lbs_IP (loadbalancer_of r) = lbs_IP (loadbalancer_of old).

#[export] Instance same_immutable_equivalence : Equivalence same_immutable.
Proof.
  split.
  - by intros r; repeat split.
  - intros r r' (? & ? & ? & ? & ? & ?). by repeat split.
  - intros r1 r2 r3 (? & ? & ? & ? & ? & ?) (? & ? & ? & ? & ? & ?).
    repeat split; congruence.
Qed.

Lemma immutable_None b path : immutable b path = None <-> b = true.
Proof. by destruct b. Qed.

Lemma enforceImmutability_Ok r old :
  (enforceImmutability r old).1 = Ok tt <-> same_immutable old r.
Proof.
  unfold enforceImmutability, same_immutable. cbn [fst].
  rewrite all_errors_Ok, !Forall_cons, Forall_nil, !immutable_None, !String_eqb_true,
    !bool_decide_eq_true. naive_solver.
Qed.

(** Replacing missing structures by empty ones does not change the validity. *)
Lemma valid_cluster_fill_nil r : valid_cluster (fill_nil r) <-> valid_cluster r.
Proof.
  unfold valid_cluster, fill_nil. cbn.
  assert (forall region, (forall lb z,
      Some (opt_default empty_LoadBalancerSpec (scs_ControlPlaneLoadBalancer (sc_Spec r))) = Some lb ->
      lbs_Zone lb = Some z -> zone_in region z) <->
    (forall lb z, scs_ControlPlaneLoadBalancer (sc_Spec r) = Some lb -> lbs_Zone lb = Some z ->
      zone_in region z)) as Hlb.
  { intros region. destruct (scs_ControlPlaneLoadBalancer _); simpl; naive_solver. }
  assert (forall region, (forall n,
      Some (opt_default empty_NetworkSpec (scs_Network (sc_Spec r))) = Some n ->
      valid_network region n) <->
    (forall n, scs_Network (sc_Spec r) = Some n -> valid_network region n)) as Hn.
  { intros region. destruct (scs_Network _); simpl; [done|]. split; [done|].
    intros _ n [= <-]. split; [done|]. split; [apply NoDup_nil_2 | constructor]. }
  setoid_rewrite Hlb. by setoid_rewrite Hn.
Qed.

Lemma ValidateUpdate_iff r old :
  ValidateUpdate r old = Ok tt <-> same_immutable old r /\ valid_cluster r.
Proof.
  unfold ValidateUpdate. pose proof (enforceImmutability_Ok r old) as Him.
  rewrite <- valid_cluster_fill_nil, <- (proj1 (validate_iff (fill_nil r))).
  unfold enforceImmutability in *. cbn [fst] in Him.
  destruct (all_errors r _) as [[]|e|]; simpl; naive_solver.
Qed.

(** C29.  An update is accepted exactly when the region, the secret, the Private Network,
    the Public Gateway, and the zone and the IP of the load balancer are unchanged and
    the new object is one that [ValidateCreate] accepts. *)
Theorem ValidateUpdate_correct r old :
  ValidateUpdate r old = Ok tt <-> same_immutable old r /\ ValidateCreate r = Ok tt.
Proof. rewrite ValidateUpdate_iff. unfold ValidateCreate. by rewrite (proj1 (validate_iff r)). Qed.

(** *** Chains of accepted updates *)

Definition accepted_update old r : Prop := ValidateUpdate r old = Ok tt.

Lemma accepted_updates_same old r : rtc accepted_update old r -> same_immutable old r.
Proof.
  induction 1 as [r|r1 r2 r3 [H _]%ValidateUpdate_iff _ IH]; [reflexivity|].
  by transitivity r2.
Qed.

(** C30.  Whatever sequence of updates the webhook accepts, what the scopes derive
    from the immutable fields is the same at the end: the region and the zones, the
    default zone, whether there is a Private Network or a Public Gateway, and whether
    the provider manages the network; and the object is still valid. *)
Theorem accepted_updates_scope (c c' : ClusterScope) :
  rtc accepted_update (cs_ScalewayCluster c) (cs_ScalewayCluster c') ->
  valid_cluster (cs_ScalewayCluster c) ->
  Cluster_Region c' = Cluster_Region c /\ DefaultZone c' = DefaultZone c /\
  (forall zs, Zones c' zs = Zones c zs) /\
  HasPrivateNetwork c' = HasPrivateNetwork c /\
  ShouldManagePrivateNetwork c' = ShouldManagePrivateNetwork c /\
  HasPublicGateway c' = HasPublicGateway c /\
  valid_cluster (cs_ScalewayCluster c').
Proof.
  intros Hrtc Hv.
  assert (valid_cluster (cs_ScalewayCluster c')) as Hv'.
  { destruct (rtc_inv_r _ _ Hrtc) as [<-|(r & _ & Hr)]; [done|].
    by apply ValidateUpdate_iff in Hr as [_ Hr]. }
  apply accepted_updates_same in Hrtc as (Hr & _ & Hpn & Hpg & _).
  unfold network_of in *.
  assert (forall c : ClusterScope, HasPrivateNetwork c =
    match ns_PrivateNetwork (opt_default empty_NetworkSpec (scs_Network (cs_Spec c))) with
    | Some pn => pns_Enabled pn | None => false end) as Ehas.
  { intros x. unfold HasPrivateNetwork. by destruct (scs_Network (cs_Spec x)) as [[[] ? ?]|]. }
  assert (forall c : ClusterScope, ShouldManagePrivateNetwork c = HasPrivateNetwork c &&
    match ns_PrivateNetwork (opt_default empty_NetworkSpec (scs_Network (cs_Spec c))) with
    | Some pn => is_none (pns_ID pn) | None => false end) as Emanage.
  { intros x. unfold ShouldManagePrivateNetwork. by destruct (scs_Network (cs_Spec x)) as [[[] ? ?]|]. }
  assert (forall c : ClusterScope, HasPublicGateway c =
    match ns_PublicGateway (opt_default empty_NetworkSpec (scs_Network (cs_Spec c))) with
    | Some pg => pgs_Enabled pg | None => false end) as Egw.
  { intros x. unfold HasPublicGateway. by destruct (scs_Network (cs_Spec x)) as [[? [] ?]|]. }
  rewrite !Emanage, !Ehas, !Egw, Hpn, Hpg.
  unfold Zones, DefaultZone, Cluster_Region. rewrite Hr. by split_and!.
Qed.
End updates.

(** The names the flagship theorem of [NoDuplicates] assumes distinct are. *)
Lemma valid_cluster_distinct_names `{SDK : ScwSDK} r :
  valid_cluster r -> distinct_names (sc_Spec r).
Proof.
  intros (region & _ & _ & _ & _ & Hn). unfold distinct_names, spec_SecurityGroups.
  destruct (scs_Network _) as [n|]; [|apply NoDup_nil_2]. apply (Hn n eq_refl).
Qed.

(** *** Sample updates *)

#[local] Existing Instance sim_sdk.

Definition set_FailureDomains (fds : list string) (r : ScalewayCluster) : ScalewayCluster :=
  {| sc_ObjectMeta := sc_ObjectMeta r;
     sc_Spec := {| scs_ControlPlaneEndpoint := scs_ControlPlaneEndpoint (sc_Spec r);
                   scs_FailureDomains := fds; scs_Region := scs_Region (sc_Spec r);
                   scs_Network := scs_Network (sc_Spec r);
                   scs_ControlPlaneLoadBalancer := scs_ControlPlaneLoadBalancer (sc_Spec r);
                   scs_ScalewaySecretName := scs_ScalewaySecretName (sc_Spec r) |};
     sc_Status := sc_Status r |}.

Definition demo_scope (r : ScalewayCluster) : ClusterScope :=
  {| cs_ProjectID := "id-project"; cs_ScalewayCluster := r; cs_Cluster := w_Cluster demo_world;
     cs_patchHelper := OCluster r |}.

Definition demo_moved : ScalewayCluster := set_FailureDomains ["fr-par-2"%string] demo_cluster.

Lemma demo_updates : rtc accepted_update demo_cluster demo_moved.
Proof.
  apply rtc_l with (set_FailureDomains ["fr-par-1"; "fr-par-2"]%string demo_cluster);
    [by vm_compute|]. apply rtc_once. by vm_compute.
Qed.

Lemma demo_valid : valid_cluster demo_cluster.
Proof. apply validate_iff. by vm_compute. Qed.

Lemma accepted_updates_scope_witness :
  Cluster_Region (demo_scope demo_moved) = "fr-par"%string /\
  HasPublicGateway (demo_scope demo_moved) = true /\ valid_cluster demo_moved.
Proof.
  pose proof (accepted_updates_scope (demo_scope demo_cluster) (demo_scope demo_moved)
    demo_updates demo_valid) as H.
  destruct H as (H1 & _ & _ & _ & _ & H6 & H7). split; [exact H1|]. split; [exact H6|exact H7].
Defined.

(** The zone of the load balancer is not pinned by the webhook: an accepted update
    of the failure domains moves it when the spec names no zone, so that the next pass
    looks for the load balancer of the cluster in another zone. *)
Theorem LoadBalancerZone_not_pinned :
  ValidateUpdate demo_moved demo_cluster = Ok tt /\
  LoadBalancerZone (demo_scope demo_cluster) = "fr-par-1"%string /\
  LoadBalancerZone (demo_scope demo_moved) = "fr-par-2"%string.
Proof. by vm_compute. Qed.
