(* ===== verification/MachineValidation.v ===== *)
(** * What the ScalewayMachine webhook accepts

    The immutable fields of a machine, the invariants along accepted updates, and
    the size of the root volume that an accepted spec leads to. *)

From S2P Require Import Prelude Go Net Prog Sdk Types.
From S2P Require Import ClusterWebhook MachineWebhook Cloud Scope Client Simulation.
From S2P Require Import ClusterValidation.
From S2P Require Instance.
#[local] Open Scope caps_scope.

(** ** Updates *)

(** What an update of the spec may change: the provider ID and the public IP flag
    when they are not set, the flag to [false] only. *)
Definition may_update (o n : ScalewayMachineSpec) : Prop :=
  sms_Image n = sms_Image o /\ sms_Type n = sms_Type o /\
  sms_RootVolumeSize n = sms_RootVolumeSize o /\
  sms_RootVolumeType n = sms_RootVolumeType o /\
  sms_SecurityGroupName n = sms_SecurityGroupName o /\
  (sms_ProviderID o <> None -> sms_ProviderID n = sms_ProviderID o) /\
  (sms_PublicIP n = sms_PublicIP o \/ sms_PublicIP o = None /\ sms_PublicIP n = Some false).

Definition valid_RootVolumeSize (spec : ScalewayMachineSpec) : Prop :=
  forall n, sms_RootVolumeSize spec = Some n -> 5 <= n.

Lemma machine_all_errors_Ok kind r errs :
  MachineWebhook.all_errors kind r errs = Ok tt <-> Forall (fun e => e = None) errs.
Proof.
  unfold MachineWebhook.all_errors. induction errs as [|[e|] errs IH]; simpl.
  - split; [constructor|done].
  - rewrite Forall_cons. naive_solver.
  - rewrite Forall_cons. rewrite IH. naive_solver.
Qed.

Lemma machine_validate_Ok r :
  MachineWebhook.validate r = Ok tt <-> valid_RootVolumeSize (sm_Spec r).
Proof.
  unfold MachineWebhook.validate, valid_RootVolumeSize.
  rewrite machine_all_errors_Ok, Forall_cons, Forall_nil.
  destruct (sms_RootVolumeSize _) as [n|]; [|naive_solver].
  destruct (n <? 5) eqn:E; to_prop; [|naive_solver lia].
  split; [naive_solver|]. intros H. specialize (H n eq_refl). lia.
Qed.

Lemma may_be_set {A} `{EqDecision A} (o n : option A) :
  is_none o || bool_decide (n = o) = true <-> (o <> None -> n = o).
Proof. destruct o; simpl; [rewrite bool_decide_eq_true|]; naive_solver. Qed.

Lemma machine_enforceImmutability_Ok r old :
  MachineWebhook.enforceImmutability r old = Ok tt <-> may_update (sm_Spec old) (sm_Spec r).
Proof.
  unfold MachineWebhook.enforceImmutability, may_update.
  rewrite machine_all_errors_Ok, !Forall_cons, Forall_nil.
  rewrite !immutable_None, !String_eqb_true, !bool_decide_eq_true, may_be_set.
  assert ((is_none (sms_PublicIP (sm_Spec old))
           || bool_decide (sms_PublicIP (sm_Spec old) = sms_PublicIP (sm_Spec r)) = true /\
           (if is_none (sms_PublicIP (sm_Spec old))
               && bool_decide (sms_PublicIP (sm_Spec r) = Some true)
            then Some (field_Invalid (NewPath ["spec"; "publicIP"]%string)
                   "field can only be set to false")
            else None) = None) <->
          sms_PublicIP (sm_Spec r) = sms_PublicIP (sm_Spec old) \/
          sms_PublicIP (sm_Spec old) = None /\ sms_PublicIP (sm_Spec r) = Some false) as Hip.
  { destruct (sms_PublicIP (sm_Spec old)) as [b|], (sms_PublicIP (sm_Spec r)) as [[|]|]; simpl;
      rewrite ?bool_decide_eq_true; naive_solver. }
  rewrite <- Hip. naive_solver.
Qed.

Lemma machine_ValidateUpdate_iff r old :
  MachineWebhook.ValidateUpdate r old = Ok tt <->
  may_update (sm_Spec old) (sm_Spec r) /\ valid_RootVolumeSize (sm_Spec r).
Proof.
  unfold MachineWebhook.ValidateUpdate.
  rewrite <- machine_validate_Ok, <- machine_enforceImmutability_Ok.
  destruct (MachineWebhook.enforceImmutability r old) as [[]|e|]; simpl; naive_solver.
Qed.

Lemma machine_all_errors_Panic kind r errs : MachineWebhook.all_errors kind r errs <> Panic.
Proof. unfold MachineWebhook.all_errors. by destruct (omap id errs). Qed.

(** C33.  A machine is created exactly when the size of its root volume, if any, is at
    least 5; an update is accepted exactly when moreover it only changes what
    [may_update] allows; and the webhook never panics. *)
Theorem machine_webhook_correct r old :
  (MachineWebhook.ValidateCreate r = Ok tt <-> valid_RootVolumeSize (sm_Spec r)) /\
  (MachineWebhook.ValidateUpdate r old = Ok tt <->
    may_update (sm_Spec old) (sm_Spec r) /\ MachineWebhook.ValidateCreate r = Ok tt) /\
  MachineWebhook.ValidateCreate r <> Panic /\ MachineWebhook.ValidateUpdate r old <> Panic.
Proof.
  unfold MachineWebhook.ValidateCreate. split_and!.
  - apply machine_validate_Ok.
  - by rewrite machine_ValidateUpdate_iff, machine_validate_Ok.
  - apply machine_all_errors_Panic.
  - unfold MachineWebhook.ValidateUpdate.
    destruct (MachineWebhook.enforceImmutability r old) as [[]|e|] eqn:E; simpl.
    + apply machine_all_errors_Panic.
    + done.
    + by apply machine_all_errors_Panic in E.
Qed.

(** *** Chains of accepted updates *)

Definition accepted_machine_update old r : Prop := MachineWebhook.ValidateUpdate r old = Ok tt.

#[export] Instance may_update_preorder : PreOrder may_update.
Proof.
  split.
  - intros o. unfold may_update. naive_solver.
  - intros o1 o2 o3 (? & ? & ? & ? & ? & Hid1 & Hip1) (? & ? & ? & ? & ? & Hid2 & Hip2).
    split_and!; try congruence.
    + intros Ho. rewrite Hid2; [by apply Hid1|]. by rewrite Hid1.
    + naive_solver congruence.
Qed.

Lemma accepted_machine_updates_may_update old r :
  rtc accepted_machine_update old r -> may_update (sm_Spec old) (sm_Spec r).
Proof.
  induction 1 as [r|r1 r2 r3 [H _]%machine_ValidateUpdate_iff _ IH]; [reflexivity|].
  by etransitivity.
Qed.

(** Whatever sequence of updates is accepted, a machine keeps its image, its type,
    the size of its root volume and its security group; a provider ID is never changed
    once set; and it needs a public IP at the end exactly when it did at the start, so
    that no pass creates or drops a flexible IP halfway. *)
Theorem accepted_machine_updates_keep `{SDK : ScwSDK} (m m' : MachineScope) :
  rtc accepted_machine_update (ms_ScalewayMachine m) (ms_ScalewayMachine m') ->
  let o := sm_Spec (ms_ScalewayMachine m) in
  let n := sm_Spec (ms_ScalewayMachine m') in
  NeedsPublicIP m' = NeedsPublicIP m /\
  sms_Image n = sms_Image o /\ sms_Type n = sms_Type o /\
  sms_SecurityGroupName n = sms_SecurityGroupName o /\
  Instance.rootSize n = Instance.rootSize o /\
  ScalewayRootVolumeType n = ScalewayRootVolumeType o /\
  (forall id, sms_ProviderID o = Some id -> sms_ProviderID n = Some id).
Proof.
  intros (Hi & Ht & Hs & Hv & Hg & Hid & Hip)%accepted_machine_updates_may_update o n.
  unfold NeedsPublicIP, Instance.rootSize, ScalewayRootVolumeType.
  subst o n. rewrite Hs, Hv. split_and!; auto.
  - by destruct Hip as [->|[-> ->]].
  - intros id E. rewrite <- E. apply Hid. by rewrite E.
Qed.

(** ** The size of the root volume *)

(** The size that the spec asks for, in bytes; 20 GB when it names none. *)
Definition requested_size `{SDK : ScwSDK} (spec : ScalewayMachineSpec) : Z :=
  opt_default 20 (sms_RootVolumeSize spec) * scw_GB.

(** The root volume of a machine the webhook accepts has exactly the requested
    size, and at least 5 GB, as long as this size fits in the 64 bits of [scw.Size]. *)
Theorem rootSize_accepted `{SDK : ScwSDK} (r : ScalewayMachine) :
  scw_GB = 10 ^ 9 ->
  MachineWebhook.ValidateCreate r = Ok tt ->
  requested_size (sm_Spec r) < 2 ^ 64 ->
  Instance.rootSize (sm_Spec r) = requested_size (sm_Spec r) /\
  5 * 10 ^ 9 <= Instance.rootSize (sm_Spec r).
Proof.
  unfold requested_size. intros HGB Hv%machine_validate_Ok Hfit. unfold Instance.rootSize.
  rewrite HGB in *. destruct (sms_RootVolumeSize _) as [n|] eqn:E; simpl opt_default in *; [|lia].
  specialize (Hv n E). rewrite (uint64_id n), uint64_id by lia. lia.
Qed.

#[local] Existing Instance sim_sdk.

Definition set_RootVolumeSize (n : option Z) (r : ScalewayMachine) : ScalewayMachine :=
  {| sm_ObjectMeta := sm_ObjectMeta r;
     sm_Spec := {| sms_ProviderID := sms_ProviderID (sm_Spec r); sms_Image := sms_Image (sm_Spec r);
                   sms_Type := sms_Type (sm_Spec r); sms_RootVolumeSize := n;
                   sms_RootVolumeType := sms_RootVolumeType (sm_Spec r);
                   sms_PublicIP := sms_PublicIP (sm_Spec r);
                   sms_SecurityGroupName := sms_SecurityGroupName (sm_Spec r) |};
     sm_Status := sm_Status r |}.

Lemma rootSize_accepted_witness :
  Instance.rootSize (sm_Spec demo_machine) = 40 * scw_GB /\
  5 * 10 ^ 9 <= Instance.rootSize (sm_Spec demo_machine).
Proof.
  apply (rootSize_accepted demo_machine);
    [reflexivity | by vm_compute | by vm_compute].
Defined.

(** The webhook sets no upper bound: an accepted size of 2^55 GB wraps around to a
    request for a volume of 0 bytes. *)
Theorem rootSize_wraps :
  MachineWebhook.ValidateCreate (set_RootVolumeSize (Some (2 ^ 55)) demo_machine) = Ok tt /\
  2 ^ 55 <= max_int64 /\
  Instance.rootSize (sm_Spec (set_RootVolumeSize (Some (2 ^ 55)) demo_machine)) = 0.
Proof. by vm_compute. Qed.

(** *** A sample chain of updates *)

Definition demo_updated_scope (r : ScalewayMachine) : MachineScope :=
  {| ms_Cluster := demo_scope demo_cluster; ms_ScalewayMachine := r;
     ms_Machine := w_Machine demo_world |}.

Lemma accepted_machine_updates_keep_witness :
  sms_ProviderID (sm_Spec (set_sm_ProviderID (Some "a"%string) demo_machine)) = Some "a"%string /\
  NeedsPublicIP (demo_updated_scope (set_sm_ProviderID (Some "a"%string) demo_machine)) = true.
Proof.
  pose proof (accepted_machine_updates_keep (demo_updated_scope demo_machine)
    (demo_updated_scope (set_sm_ProviderID (Some "a"%string) demo_machine))
    (rtc_once _ _ (eq_refl : accepted_machine_update demo_machine
      (set_sm_ProviderID (Some "a"%string) demo_machine)))) as H.
  split; [reflexivity|]. destruct H as (H & _). exact H.
Defined.
