(* ===== verification/Bringup.v ===== *)
(** * How a machine is brought up

    The order in which [Instance.Reconcile] calls the APIs: whatever the answers, a
    server is powered on only once its bootstrap data is installed and, for a
    control-plane node, once it is registered in the load balancer of the cluster;
    nothing is taken away but the access control list of a machine that has no public
    address; and the object is only changed by a pass that succeeds. *)

From S2P Require Import Prelude Go Net Prog Sdk Types Cloud Scope Client.
From S2P Require Import LoadBalancer Instance Simulation NoDuplicates.
#[local] Open Scope caps_scope.

(** ** Evidence in a trace *)

Section evidence.
Context `{SDK : ScwSDK} `{K8S : K8sLib}.
Implicit Types (h : trace) (m : MachineScope).

(** The API told about the server, by listing or creating it. *)
Definition reported h m (server : Server) : Prop :=
  (exists servers, ok_ev (ListServers (Machine_Zone m) (Some (Machine_Name m))) servers ∈ h /\
     server ∈ servers /\ srv_Name server = Machine_Name m) \/
  (exists req, ok_ev (CreateServer req) server ∈ h /\
     csr_Zone req = Machine_Zone m /\ csr_Name req = Machine_Name m).

(** The addresses of the server: the public one it was reported with, and the one
    that IPAM lists for its NIC when the cluster has a Private Network. *)
Definition machine_ips h m server (ips : machineIPs) : Prop :=
  mip_External ips = (fun ip => IP_String (sip_Address ip)) <$> srv_PublicIP server /\
  match mip_Internal ips with
  | Some a =>
      HasPrivateNetwork (ms_Cluster m) = true /\
      exists nicID ipNets ipNet,
        ok_ev (IPAMListIPs (Cluster_Region (ms_Cluster m)) (cs_ProjectID (ms_Cluster m)) nicID)
          ipNets ∈ h /\ ipNet ∈ ipNets /\ a = IP_String (IPNet_IP ipNet)
  | None => HasPrivateNetwork (ms_Cluster m) = false /\ mip_External ips <> None
  end.

(** The bootstrap data of the machine, as its secret holds it. *)
Definition bootstrap_secret h m (raw : string) : Prop :=
  exists name secret, m_DataSecretName (ms_Machine m) = Some name /\
    ok_ev (GetSecret {| nn_Namespace := om_Namespace (m_ObjectMeta (ms_Machine m));
                        nn_Name := name |}) secret ∈ h /\
    sec_Data secret !! "value"%string = Some raw.

(** The server has cloud-init data. *)
Definition bootstrapped h (server : Server) : Prop :=
  (exists ud, ok_ev (GetAllServerUserData (srv_Zone server) (srv_ID server)) ud ∈ h /\
     is_Some (ud !! "cloud-init"%string)) \/
  (exists content,
     ok_ev (SetServerUserData (srv_Zone server) (srv_ID server) "cloud-init" content) tt ∈ h).

(** The control-plane backend and frontend of the load balancer of the cluster. *)
Definition listed_lb h m (loadbalancer : LB) : Prop :=
  exists lbs, ok_ev (ListLBs (LoadBalancerZone (ms_Cluster m))
                       (Some (Cluster_Name (ms_Cluster m)))) lbs ∈ h /\
    loadbalancer ∈ lbs /\ lb_Name loadbalancer = Cluster_Name (ms_Cluster m).

Definition listed_backend h m (backend : Backend) : Prop :=
  exists loadbalancer backends, listed_lb h m loadbalancer /\
    ok_ev (ListBackends (LoadBalancerZone (ms_Cluster m)) (lb_ID loadbalancer)
             (Some ControlPlaneBackendName)) backends ∈ h /\
    backend ∈ backends /\ be_Name backend = ControlPlaneBackendName.

Definition listed_frontend h m (frontend : Frontend) : Prop :=
  exists loadbalancer frontends, listed_lb h m loadbalancer /\
    ok_ev (ListFrontends (LoadBalancerZone (ms_Cluster m)) (lb_ID loadbalancer)
             (Some ControlPlaneFrontendName)) frontends ∈ h /\
    frontend ∈ frontends /\ fe_Name frontend = ControlPlaneFrontendName.

(** The access control list of the machine on that frontend. *)
Definition listed_acl h m (acl : ACL) : Prop :=
  exists frontend acls, listed_frontend h m frontend /\
    ok_ev (ListACLs (LoadBalancerZone (ms_Cluster m)) (fe_ID frontend) (Some (Machine_Name m)))
      acls ∈ h /\
    acl ∈ acls /\ acl_Name acl = Machine_Name m.

(** The node is in the pool of the control-plane backend. *)
Definition registered h m (ips : machineIPs) : Prop :=
  IsControlPlaneMachine (ms_Machine m) = true ->
  exists backend ip, listed_backend h m backend /\ NodeIP ips = Ok ip /\
    (ip ∈ be_Pool backend \/
     ok_ev (AddBackendServers (LoadBalancerZone (ms_Cluster m)) (be_ID backend) [ip]) tt ∈ h).

(** The requests that allow an address. *)
Definition create_allow m (frontend : Frontend) (address : string) : CreateACLRequest :=
  {| cacl_Zone := LoadBalancerZone (ms_Cluster m); cacl_FrontendID := fe_ID frontend;
     cacl_Name := Machine_Name m; cacl_Action := ACLActionTypeAllow;
     cacl_Match := [address]; cacl_Index := 3 |}.

Definition update_allow m (acl : ACL) (address : string) : UpdateACLRequest :=
  {| uacl_Zone := LoadBalancerZone (ms_Cluster m); uacl_ACLID := acl_ID acl;
     uacl_Name := Machine_Name m; uacl_Action := ACLActionTypeAllow;
     uacl_Match := [address]; uacl_Index := 3 |}.

(** The address of the node is allowed by an ACL of the control-plane frontend, written in
    this pass. *)
Definition allowed h m (address : string) : Prop :=
  (exists frontend acl, listed_frontend h m frontend /\
     ok_ev (CreateACL (create_allow m frontend address)) acl ∈ h) \/
  (exists acl, listed_acl h m acl /\ ok_ev (UpdateACL (update_allow m acl address)) tt ∈ h).

(** The public address that the server was reported with. *)
Definition external_address h m (address : option string) : Prop :=
  exists server, reported h m server /\
    address = (fun ip => IP_String (sip_Address ip)) <$> srv_PublicIP server.

(** What [Instance.Reconcile] may call. *)
Definition bringup m : guarantee := fun h c =>
  match c with
  | ServerAction zone id ServerActionPoweron =>
      exists server ips, zone = srv_Zone server /\ id = srv_ID server /\
        srv_State server = ServerStateStopped /\ reported h m server /\
        machine_ips h m server ips /\ bootstrapped h server /\ registered h m ips /\
        (forall a, mip_External ips = Some a -> allowed h m a)
  | SetServerUserData zone id key content =>
      key = "cloud-init"%string /\
      exists server ips raw nodeIP, zone = srv_Zone server /\ id = srv_ID server /\
        srv_State server = ServerStateStopped /\ reported h m server /\
        machine_ips h m server ips /\ bootstrap_secret h m raw /\ NodeIP ips = Ok nodeIP /\
        patchBootstrapData raw nodeIP (ProviderID m id) = Ok content
  | AddBackendServers zone id pool =>
      IsControlPlaneMachine (ms_Machine m) = true /\ zone = LoadBalancerZone (ms_Cluster m) /\
      exists server ips backend ip, reported h m server /\ machine_ips h m server ips /\
        NodeIP ips = Ok ip /\ pool = [ip] /\ listed_backend h m backend /\ id = be_ID backend
  | CreateACL req => exists frontend address, external_address h m (Some address) /\
      listed_frontend h m frontend /\ req = create_allow m frontend address
  | UpdateACL req => exists acl address, external_address h m (Some address) /\
      listed_acl h m acl /\ req = update_allow m acl address
  | DeleteACL zone id => exists acl, external_address h m None /\ listed_acl h m acl /\
      zone = LoadBalancerZone (ms_Cluster m) /\ id = acl_ID acl
  | _ => removes c = false
  end.

(** Evidence is kept when the trace grows. *)
Section monotone.
Context (h h' : trace) (m : MachineScope) (Hpre : h `prefix_of` h').

Let elem (e : event cloud) : e ∈ h -> e ∈ h' := elem_of_prefix e h h' Hpre.

Lemma reported_mono server : reported h m server -> reported h' m server.
Proof. unfold reported. naive_solver. Qed.

Lemma machine_ips_mono server ips : machine_ips h m server ips -> machine_ips h' m server ips.
Proof. unfold machine_ips. destruct (mip_Internal ips); naive_solver. Qed.

Lemma listed_lb_mono lb : listed_lb h m lb -> listed_lb h' m lb.
Proof. unfold listed_lb. naive_solver. Qed.

Lemma listed_backend_mono b : listed_backend h m b -> listed_backend h' m b.
Proof. intros (lb & bs & Hlb & ?). exists lb, bs. split; [by apply listed_lb_mono|naive_solver]. Qed.

Lemma listed_frontend_mono f : listed_frontend h m f -> listed_frontend h' m f.
Proof. intros (lb & fs & Hlb & ?). exists lb, fs. split; [by apply listed_lb_mono|naive_solver]. Qed.

Lemma listed_acl_mono acl : listed_acl h m acl -> listed_acl h' m acl.
Proof. intros (f & acls & Hf & ?). exists f, acls. split; [by apply listed_frontend_mono|naive_solver]. Qed.

Lemma registered_mono ips : registered h m ips -> registered h' m ips.
Proof.
  intros H Hcp. destruct (H Hcp) as (b & ip & Hb & ?). exists b, ip.
  split; [by apply listed_backend_mono|naive_solver].
Qed.

Lemma allowed_mono a : allowed h m a -> allowed h' m a.
Proof.
  intros [(f & acl & Hf & ?)|(acl & Ha & ?)]; [left; exists f, acl|right; exists acl].
  - split; [by apply listed_frontend_mono|auto].
  - split; [by apply listed_acl_mono|auto].
Qed.

Lemma external_address_mono a : external_address h m a -> external_address h' m a.
Proof. intros (server & Hr & ->). exists server. split; [by apply reported_mono|done]. Qed.

Lemma bootstrapped_mono server : bootstrapped h server -> bootstrapped h' server.
Proof. unfold bootstrapped. naive_solver. Qed.
End monotone.
End evidence.

#[export] Hint Resolve reported_mono machine_ips_mono registered_mono allowed_mono
  bootstrapped_mono listed_backend_mono listed_frontend_mono listed_acl_mono
  external_address_mono : caps.

(** ** The operations *)

(** The cluster has a Private Network that was never recorded in its status: the
    dereferences of [PrivateNetworkID] panic. *)
Definition pn_status_missing (c : ClusterScope) : Prop :=
  HasPrivateNetwork c = true /\ scst_Network (sc_Status (cs_ScalewayCluster c)) = None.

Section operations.
Context `{SDK : ScwSDK} `{K8S : K8sLib}.
Context (m : MachineScope).

Abbreviation bringup_wp := (wpM any_resp (bringup m)).

(** The operations leave the object alone; [P] holds of the result and the trace. *)
Definition post {A} (P : A -> trace -> Prop) : outcome A -> MachineScope -> trace -> Prop :=
  fun oa m' h' => m' = m /\
    match oa with
    | Ok a => P a h'
    | Err _ => True
    | Panic => pn_status_missing (ms_Cluster m)
    end.

Lemma inst_getOrCreateIP_bringup h :
  bringup_wp Instance.getOrCreateIP h m (post (fun _ _ => True)).
Proof. unfold Instance.getOrCreateIP. repeat exec_step ltac:(done). all: done. Qed.

Lemma reported_listed h servers server :
  server ∈ servers -> (srv_Name server =?s Machine_Name m) = true ->
  reported (h ++ [ok_ev (ListServers (Machine_Zone m) (Some (Machine_Name m))) servers]) m server.
Proof. intros Hin Hn. left. exists servers. to_prop. auto with caps. Qed.

Lemma reported_created h req server :
  csr_Zone req = Machine_Zone m -> csr_Name req = Machine_Name m ->
  reported (h ++ [ok_ev (CreateServer req) server]) m server.
Proof. intros Hz Hn. right. exists req. auto with caps. Qed.

Lemma getOrCreateServer_bringup ip h :
  bringup_wp (Instance.getOrCreateServer ip) h m (post (fun server h' => reported h' m server)).
Proof.
  unfold Instance.getOrCreateServer. repeat exec_step ltac:(done).
  all: split; try done.
  all: first [ by apply reported_listed | by apply reported_created
             | by edestruct ScalewayRootVolumeType_Panic ].
Qed.

Lemma PrivateNetworkID_has c id : PrivateNetworkID c = Ok id -> HasPrivateNetwork c = true.
Proof. unfold PrivateNetworkID. by destruct (HasPrivateNetwork c). Qed.

Lemma getOrCreatePrivateNIC_bringup server h :
  bringup_wp (Instance.getOrCreatePrivateNIC server) h m
    (post (fun pnic _ => is_some pnic = HasPrivateNetwork (ms_Cluster m))).
Proof.
  unfold Instance.getOrCreatePrivateNIC. repeat exec_step ltac:(done).
  all: split; try done; to_prop; cbn; try congruence. by apply PrivateNetworkID_Panic.
Qed.

Lemma getMachineIPs_spec (G : guarantee) server pnic h :
  (forall h region projectID nicID, G h (IPAMListIPs region projectID nicID)) ->
  is_some pnic = HasPrivateNetwork (ms_Cluster m) ->
  wpM any_resp G (Instance.getMachineIPs server pnic) h m (fun oa m' h' => m' = m /\
    match oa with
    | Ok ips => machine_ips h' m server ips
    | Err e => errors_Is e errMachineHasNoIP = true ->
        srv_PublicIP server = None /\ HasPrivateNetwork (ms_Cluster m) = false
    | Panic => False
    end).
Proof.
  intros HG Hp. unfold Instance.getMachineIPs. repeat exec_step ltac:(apply HG).
  all: split; try done.
  all: try (match goal with H : _ = Sentinel _ /\ _ |- _ => destruct H as [-> _] end; done).
  all: try (intros _; to_prop; destruct (srv_PublicIP server); done).
  all: try (match goal with H : forall st, errors_Is _ st = false |- _ => rewrite H end; done).
  all: unfold machine_ips; simpl; split; try done.
  - split; [done|]. do 3 eexists. split; [apply elem_of_snoc_here|]. by split; [apply H|].
  - split; [done|]. intros E. by rewrite E in Heqb.
Qed.

Lemma getMachineIPs_bringup server pnic h :
  is_some pnic = HasPrivateNetwork (ms_Cluster m) ->
  bringup_wp (Instance.getMachineIPs server pnic) h m
    (post (fun ips h' => machine_ips h' m server ips)).
Proof.
  intros Hp. eapply wpM_mono; [by apply getMachineIPs_spec|].
  intros [ips|e|] m' h' [-> H]; split; done.
Qed.

Lemma machine_ips_NodeIP h server ips : machine_ips h m server ips -> exists ip, NodeIP ips = Ok ip.
Proof.
  unfold machine_ips, NodeIP. intros [_ H]. destruct (mip_Internal ips) as [ip|]; [eauto|].
  destruct H as [_ H]. destruct (mip_External ips); [eauto|done].
Qed.

(** What the lookups of the load balancer find. *)
Lemma listed_backend_intro h lbs lb backends backend :
  lb ∈ lbs -> (lb_Name lb =?s Cluster_Name (ms_Cluster m)) = true ->
  backend ∈ backends -> (be_Name backend =?s ControlPlaneBackendName) = true ->
  listed_backend ((h ++ [ok_ev (ListLBs (LoadBalancerZone (ms_Cluster m))
      (Some (Cluster_Name (ms_Cluster m)))) lbs]) ++
    [ok_ev (ListBackends (LoadBalancerZone (ms_Cluster m)) (lb_ID lb)
      (Some ControlPlaneBackendName)) backends]) m backend.
Proof.
  intros. to_prop. exists lb, backends. split; [exists lbs; by repeat split; [in_trace|..]|].
  by repeat split; [in_trace|..].
Qed.

Lemma listed_frontend_intro h lbs lb frontends frontend :
  lb ∈ lbs -> (lb_Name lb =?s Cluster_Name (ms_Cluster m)) = true ->
  frontend ∈ frontends -> (fe_Name frontend =?s ControlPlaneFrontendName) = true ->
  listed_frontend ((h ++ [ok_ev (ListLBs (LoadBalancerZone (ms_Cluster m))
      (Some (Cluster_Name (ms_Cluster m)))) lbs]) ++
    [ok_ev (ListFrontends (LoadBalancerZone (ms_Cluster m)) (lb_ID lb)
      (Some ControlPlaneFrontendName)) frontends]) m frontend.
Proof.
  intros. to_prop. exists lb, frontends. split; [exists lbs; by repeat split; [in_trace|..]|].
  by repeat split; [in_trace|..].
Qed.

Lemma listed_acl_intro h frontend acls acl :
  listed_frontend h m frontend -> acl ∈ acls -> (acl_Name acl =?s Machine_Name m) = true ->
  listed_acl (h ++ [ok_ev (ListACLs (LoadBalancerZone (ms_Cluster m)) (fe_ID frontend)
    (Some (Machine_Name m))) acls]) m acl.
Proof.
  intros. to_prop. exists frontend, acls.
  split; [eapply listed_frontend_mono; [|done]; auto with caps|].
  by repeat split; [in_trace|..].
Qed.

Lemma ensureControlPlaneLoadBalancer_bringup server ips h :
  reported h m server -> machine_ips h m server ips ->
  bringup_wp (Instance.ensureControlPlaneLoadBalancer ips false) h m
    (post (fun _ h' => registered h' m ips)).
Proof.
  intros Hrep Hips. destruct (machine_ips_NodeIP _ _ _ Hips) as (ip & Eip).
  unfold Instance.ensureControlPlaneLoadBalancer, FindLoadBalancerBackendByNames.
  rewrite Eip. cbn [andb negb]. repeat exec_step ltac:(first [done|idtac]).
  all: try done; kill_units; repeat case_match; destruct_and?; try done.
  - split; [done|]. intros Hcp. to_prop. congruence.
  - assert (listed_backend ((h ++ [ok_ev (ListLBs (LoadBalancerZone (ms_Cluster m))
        (Some (Cluster_Name (ms_Cluster m)))) xs]) ++
      [ok_ev (ListBackends (LoadBalancerZone (ms_Cluster m)) (lb_ID a)
        (Some ControlPlaneBackendName)) a0]) m a1) as Hb by eauto using listed_backend_intro.
    split; [by apply negb_false_iff|]. split; [done|]. exists server, ips, a1, ip.
    split_and!; eauto 10 with caps.
  - split; [done|]. intros _. exists a1, ip. split_and!; [|done|right; in_trace].
    eauto 10 using listed_backend_intro with caps.
  - split; [done|]. intros _. exists a1, ip. split_and!; [by eauto using listed_backend_intro|done|left].
    unfold slices_Contains in *. to_prop. match goal with H : List.existsb _ _ = true |- _ =>
      apply existsb_elem_of in H as (x & Hx & Ex) end. to_prop. by subst.
Qed.

Lemma ensureLoadBalancerACL_bringup external h :
  external_address h m external ->
  bringup_wp (Instance.ensureLoadBalancerACL external) h m
    (post (fun _ h' => forall a, external = Some a -> allowed h' m a)).
Proof.
  intros Hext. unfold Instance.ensureLoadBalancerACL, FindLoadBalancerFrontendByNames.
  repeat exec_step ltac:(first [done|idtac]).
  all: try done; kill_units; destruct_and?.
  all: match goal with f : Frontend |- context [?h ++ [ok_ev (ListFrontends _ _ _) ?fs]] =>
    assert (listed_frontend (h ++ [ok_ev (ListFrontends (LoadBalancerZone (ms_Cluster m)) _
      (Some ControlPlaneFrontendName)) fs]) m f) as Hf by eauto using listed_frontend_intro end.
  - eexists x, s. split_and!; eauto 10 using listed_acl_intro with caps.
  - split; [done|]. intros a' [= <-]. right. exists x.
    split; [eapply listed_acl_mono; [|by eapply listed_acl_intro]; auto with caps|in_trace].
  - by rewrite match_differs_true in *.
  - exists x. split_and!; eauto 10 using listed_acl_intro with caps.
  - eexists _, s. split_and!; eauto 10 with caps.
  - split; [done|]. intros a' [= <-]. left. do 2 eexists. split; [|in_trace].
    eauto 10 with caps.
Qed.

Lemma patchBootstrapData_Panic data nodeIP providerID :
  patchBootstrapData data nodeIP providerID <> Panic.
Proof. unfold patchBootstrapData. by repeat break_match. Qed.

Lemma ensureCloudInit_bringup server ips h :
  reported h m server -> machine_ips h m server ips ->
  bringup_wp (Instance.ensureCloudInit server ips) h m
    (post (fun _ h' => srv_State server = ServerStateStopped -> bootstrapped h' server)).
Proof.
  intros Hrep Hips. destruct (machine_ips_NodeIP _ _ _ Hips) as (ip & Eip).
  unfold Instance.ensureCloudInit, GetRawBootstrapData. rewrite Eip.
  repeat exec_step ltac:(idtac).
  all: try done; kill_units; to_prop; rewrite ?bool_decide_eq_true, ?bool_decide_eq_false in *.
  - by split.
  - split; [done|]. intros _. left. eexists. split; [in_trace|]. eauto.
  - split; [done|]. exists server, ips. do 2 eexists. split_and!; try done.
    + eapply reported_mono; [|eassumption]. auto with caps.
    + eapply machine_ips_mono; [|eassumption]. auto with caps.
    + do 2 eexists. split_and!; [eassumption | in_trace | eassumption].
  - split; [done|]. intros _. right. eexists. in_trace.
  - by edestruct patchBootstrapData_Panic.
Qed.

Lemma ensureServerStarted_bringup server ips h :
  reported h m server -> machine_ips h m server ips -> registered h m ips ->
  (srv_State server = ServerStateStopped -> bootstrapped h server) ->
  (forall a, mip_External ips = Some a -> allowed h m a) ->
  bringup_wp (Instance.ensureServerStarted server) h m
    (post (fun _ h' => srv_State server = ServerStateStopped ->
      ok_ev (ServerAction (srv_Zone server) (srv_ID server) ServerActionPoweron) tt ∈ h')).
Proof.
  intros Hrep Hips Hreg Hboot Hall. unfold Instance.ensureServerStarted.
  repeat exec_step ltac:(idtac); kill_units; to_prop;
    rewrite ?bool_decide_eq_true, ?bool_decide_eq_false in *.
  - by split.
  - exists server, ips. by split_and!; auto.
  - split; [done|]. intros _. in_trace.
  - done.
Qed.

(** The object after a successful pass. *)
Definition brought_up (server : Server) (ips : machineIPs) : MachineScope :=
  set_ms_ScalewayMachine
    (set_sm_Status
      {| smst_Ready := smst_Ready (sm_Status (ms_ScalewayMachine m));
         smst_Addresses := machineAddresses ips |}
      (set_sm_ProviderID (Some (ProviderID m (srv_ID server))) (ms_ScalewayMachine m))) m.

Lemma Reconcile_bringup h :
  bringup_wp Instance.Reconcile h m (fun oa m' h' =>
    match oa with
    | Ok _ => exists server ips, reported h' m server /\ machine_ips h' m server ips /\
        m' = brought_up server ips /\
        (srv_State server = ServerStateStopped ->
          ok_ev (ServerAction (srv_Zone server) (srv_ID server) ServerActionPoweron) tt ∈ h')
    | Err _ => m' = m
    | Panic => m' = m /\ pn_status_missing (ms_Cluster m)
    end).
Proof.
  unfold Instance.Reconcile.
  go_step. eapply wpM_use; [apply inst_getOrCreateIP_bringup|].
  intros [ip|e|] ? h1 P1 [-> H1]; try done.
  go_step. eapply wpM_use; [apply getOrCreateServer_bringup|].
  intros [server|e|] ? h2 P2 [-> Hrep]; try done.
  go_step. eapply wpM_use; [apply getOrCreatePrivateNIC_bringup|].
  intros [pnic|e|] ? h3 P3 [-> Hpnic]; try done.
  go_step. eapply wpM_use; [by apply getMachineIPs_bringup|].
  intros [ips|e|] ? h4 P4 [-> Hips]; try done.
  go_step. eapply wpM_use; [eapply (ensureControlPlaneLoadBalancer_bringup server); [|done]|].
  { eapply reported_mono; [|exact Hrep]. by transitivity h3. }
  intros [[]|e|] ? h5 P5 [-> Hreg]; try done.
  go_step. eapply wpM_use; [apply ensureLoadBalancerACL_bringup|].
  { exists server. split; [|apply Hips]. eapply reported_mono; [|exact Hrep].
    do 2 (etransitivity; [eassumption|]). done. }
  intros [[]|e|] ? h6 P6 [-> Hall]; try done.
  go_step. eapply wpM_use; [apply (ensureCloudInit_bringup server ips)|].
  { eapply reported_mono; [|exact Hrep]. do 3 (etransitivity; [eassumption|]). done. }
  { eapply machine_ips_mono; [|exact Hips]. by transitivity h5. }
  intros [[]|e|] ? h7 P7 [-> Hboot]; try done.
  assert (h4 `prefix_of` h7) as P47 by (etransitivity; [exact P5|]; by transitivity h6).
  assert (h2 `prefix_of` h7) as P27 by (etransitivity; [exact P3|]; by transitivity h4).
  assert (reported h7 m server) as Hrep7 by (by eapply reported_mono; [exact P27|]).
  assert (machine_ips h7 m server ips) as Hips7 by (by eapply machine_ips_mono; [exact P47|]).
  assert (registered h7 m ips) as Hreg7
    by (eapply registered_mono; [|exact Hreg]; by transitivity h6).
  assert (forall a, mip_External ips = Some a -> allowed h7 m a) as Hall7
    by (intros a Ea; eapply allowed_mono; [exact P7|auto]).
  go_step. eapply wpM_use; [by apply (ensureServerStarted_bringup server ips)|].
  intros [[]|e|] ? h8 P8 [-> Hon]; try done. unfold setMachine. go_step.
  exists server, ips. split_and!; try done; [by eapply reported_mono; [exact P8|] | by eapply machine_ips_mono; [exact P8|]].
Qed.
End operations.

Section main.
Context `{SDK : ScwSDK} `{K8S : K8sLib}.

(** C8.  Whatever the APIs answer, when a pass over a machine powers on a server, the
    API had reported this very server under the name of the machine and stopped; its
    cloud-init data was found or installed; the node of a control plane is in the pool
    of the control-plane backend of the load balancer of the cluster; and if the server
    has a public address, an ACL of the machine on the control-plane frontend of that
    load balancer was created or rewritten in this pass to allow it.  All that the pass writes
    to the load balancer is the address of this node and the ACL of this machine.  It takes
    nothing away (no server, volume, address, pool entry) but this ACL, and the ACL only
    when the server was reported without a public address. *)
Theorem poweron_prepared (o : oracle cloud) (m : MachineScope) t1 c r t2 :
  (runM o [] Instance.Reconcile m).1 = t1 ++ CEv c r :: t2 -> bringup m t1 c.
Proof.
  intros E. destruct (wpM_sound _ _ o _ _ _ _ (admissible_any o) (Reconcile_bringup m []))
    as (t & Et & Hob & _). rewrite Et in E. apply (Hob t1 c r t2 E).
Qed.

(** A pass over a machine changes the object only when it succeeds.  It then
    records the provider ID of a server that the API reported and the addresses of this
    server, at least one, the public address first; and if the server was stopped, it
    was powered on.  It panics only for a cluster whose Private Network was never
    recorded. *)
Theorem instance_Reconcile_result (o : oracle cloud) (m : MachineScope) :
  let '(t, (oa, m')) := runM o [] Instance.Reconcile m in
  match oa with
  | Ok _ => exists server ips, reported t m server /\ machine_ips t m server ips /\
      m' = brought_up m server ips /\
      smst_Addresses (sm_Status (ms_ScalewayMachine m')) <> [] /\
      (srv_State server = ServerStateStopped ->
        ok_ev (ServerAction (srv_Zone server) (srv_ID server) ServerActionPoweron) tt ∈ t)
  | Err _ => m' = m
  | Panic => m' = m /\ pn_status_missing (ms_Cluster m)
  end.
Proof.
  destruct (wpM_sound _ _ o _ _ _ _ (admissible_any o) (Reconcile_bringup m []))
    as (t & Et & _ & HQ).
  destruct (runM o [] Instance.Reconcile m) as [t' [[[]|e|] m']]; simpl in *; try done.
  destruct HQ as (server & ips & ? & Hips & -> & ?). exists server, ips.
  split_and!; try done. cbn. unfold machineAddresses. destruct Hips as [_ Hips].
  destruct (mip_External ips), (mip_Internal ips); try done. by destruct Hips.
Qed.
End main.

(** ** The sample machine *)

#[local] Existing Instances sim_sdk sim_k8s.

Definition demo_bringup : trace := (runM demo_oracle [] Instance.Reconcile demo_machine_scope).1.

(** The last call of the pass powers on the server it created. *)
Lemma demo_bringup_poweron :
  (runM demo_oracle [] Instance.Reconcile demo_machine_scope).1 = removelast demo_bringup ++
    CEv (ServerAction "fr-par-1" "id-42" ServerActionPoweron) (ROk tt) :: [].
Proof. by vm_compute. Qed.

Lemma poweron_prepared_witness :
  bringup demo_machine_scope (removelast demo_bringup)
    (ServerAction "fr-par-1" "id-42" ServerActionPoweron).
Proof. eapply poweron_prepared. exact demo_bringup_poweron. Defined.
