(* ===== verification/Teardown.v ===== *)
(** * How a machine is taken down

    The order in which [Instance.Delete] calls the APIs: a server is deleted or
    terminated only after the node was unregistered from the load balancer, its
    address was released and every volume but the boot volume was detached; only boot
    volumes are deleted. *)

From S2P Require Import Prelude Go Net Prog Sdk Types Cloud Ledger Scope Client.
From S2P Require Import LoadBalancer Instance Bringup Simulation NoDuplicates.
#[local] Open Scope caps_scope.

(** ** Evidence *)

Section evidence.
Context `{SDK : ScwSDK} `{K8S : K8sLib}.
Implicit Types (h : trace) (m : MachineScope).

(** The API listed the server under the name of the machine. *)
Definition found_server h m (server : Server) : Prop :=
  exists servers, ok_ev (ListServers (Machine_Zone m) (Some (Machine_Name m))) servers ∈ h /\
    server ∈ servers /\ srv_Name server = Machine_Name m.

(** The API told that no server has the name of the machine. *)
Definition no_server h m : Prop :=
  exists servers, ok_ev (ListServers (Machine_Zone m) (Some (Machine_Name m))) servers ∈ h /\
    forall server, server ∈ servers -> srv_Name server <> Machine_Name m.

(** The load balancer of the cluster, its backend or its frontend does not exist. *)
Definition no_loadbalancer h m : Prop :=
  exists lbs, ok_ev (ListLBs (LoadBalancerZone (ms_Cluster m))
                       (Some (Cluster_Name (ms_Cluster m)))) lbs ∈ h /\
    forall lb, lb ∈ lbs -> lb_Name lb <> Cluster_Name (ms_Cluster m).

Definition no_backend h m : Prop :=
  exists lbID backends, ok_ev (ListBackends (LoadBalancerZone (ms_Cluster m)) lbID
                                 (Some ControlPlaneBackendName)) backends ∈ h /\
    forall b, b ∈ backends -> be_Name b <> ControlPlaneBackendName.

Definition no_frontend h m : Prop :=
  exists lbID frontends, ok_ev (ListFrontends (LoadBalancerZone (ms_Cluster m)) lbID
                                  (Some ControlPlaneFrontendName)) frontends ∈ h /\
    forall f, f ∈ frontends -> fe_Name f <> ControlPlaneFrontendName.

(** A control-plane node is not (any more) in the pool of the backend. *)
Definition unregistered h m (server : Server) : Prop :=
  IsControlPlaneMachine (ms_Machine m) = true ->
  (srv_PublicIP server = None /\ HasPrivateNetwork (ms_Cluster m) = false) \/
  no_loadbalancer h m \/ no_backend h m \/
  exists lbID backends backend ips ip,
    ok_ev (ListBackends (LoadBalancerZone (ms_Cluster m)) lbID (Some ControlPlaneBackendName))
      backends ∈ h /\
    backend ∈ backends /\ be_Name backend = ControlPlaneBackendName /\
    machine_ips h m server ips /\ NodeIP ips = Ok ip /\
    (ip ∉ be_Pool backend \/
     ok_ev (RemoveBackendServers (LoadBalancerZone (ms_Cluster m)) (be_ID backend) [ip]) tt ∈ h).

(** The ACL of the machine is not (any more) in the load balancer. *)
Definition disallowed h m : Prop :=
  no_loadbalancer h m \/ no_frontend h m \/
  exists frontendID acls,
    ok_ev (ListACLs (LoadBalancerZone (ms_Cluster m)) frontendID (Some (Machine_Name m)))
      acls ∈ h /\
    ((forall acl, acl ∈ acls -> acl_Name acl <> Machine_Name m) \/
     exists acl, acl ∈ acls /\ acl_Name acl = Machine_Name m /\
       ok_ev (DeleteACL (LoadBalancerZone (ms_Cluster m)) (acl_ID acl)) tt ∈ h).

Definition released h (server : Server) : Prop :=
  forall ip, srv_PublicIP server = Some ip -> sip_Dynamic ip = false ->
    ok_ev (InstanceDeleteIP (srv_Zone server) (sip_ID ip)) tt ∈ h.

Definition detached h (server : Server) (vol : Volume) : Prop :=
  ok_ev (DetachVolume (srv_Zone server) (vol_ID vol)) tt ∈ h.

Definition data_detached h (server : Server) : Prop :=
  forall key vol, (key, vol) ∈ srv_Volumes server -> vol_Boot vol = false ->
    detached h server vol.

(** What must have happened before the server disappears. *)
Definition disconnected h m (server : Server) : Prop :=
  found_server h m server /\ disallowed h m /\ unregistered h m server /\
  released h server /\ data_detached h server.

(** What [Instance.Delete] may call. *)
Definition teardown m : guarantee := fun h c =>
  match c with
  | DeleteServer zone id =>
      exists server, zone = srv_Zone server /\ id = srv_ID server /\
        disconnected h m server /\ srv_State server = ServerStateStopped /\
        forall vol, bootVolume server = Some vol ->
          detached h server vol /\ ok_ev (DeleteVolume zone (vol_ID vol)) tt ∈ h
  | ServerAction zone id ServerActionTerminate =>
      exists server, zone = srv_Zone server /\ id = srv_ID server /\
        disconnected h m server /\ srv_State server <> ServerStateStopped
  | DeleteVolume zone id =>
      exists server key vol, zone = srv_Zone server /\ id = vol_ID vol /\
        found_server h m server /\ (key, vol) ∈ srv_Volumes server /\ vol_Boot vol = true /\
        detached h server vol
  | InstanceDeleteIP zone id =>
      exists server ip, zone = srv_Zone server /\ id = sip_ID ip /\ found_server h m server /\
        srv_PublicIP server = Some ip /\ sip_Dynamic ip = false
  | ServerAction _ _ ServerActionPoweron => False
  | c => creates c = None
  end.

Section monotone.
Context (h h' : trace) (m : MachineScope) (Hpre : h `prefix_of` h').

Let elem (e : event cloud) : e ∈ h -> e ∈ h' := elem_of_prefix e h h' Hpre.

Lemma found_server_mono server : found_server h m server -> found_server h' m server.
Proof. unfold found_server. naive_solver. Qed.
Lemma no_loadbalancer_mono : no_loadbalancer h m -> no_loadbalancer h' m.
Proof. unfold no_loadbalancer. naive_solver. Qed.
Lemma unregistered_mono server : unregistered h m server -> unregistered h' m server.
Proof.
  intros H Hcp. destruct (H Hcp) as [?|[?|[(l & b & ? & ?)|(l & bs & b & ips & ip & ? & ? & ? & Hi & ? & Hr)]]].
  - by left.
  - right; left. by apply no_loadbalancer_mono.
  - right; right; left. exists l, b. auto.
  - right; right; right. exists l, bs, b, ips, ip.
    pose proof (machine_ips_mono h h' m Hpre server ips Hi). naive_solver.
Qed.
Lemma disallowed_mono : disallowed h m -> disallowed h' m.
Proof.
  intros [H|[(l & f & ? & ?)|(f & acls & ? & H)]].
  - left. by apply no_loadbalancer_mono.
  - right; left. exists l, f. auto.
  - right; right. exists f, acls. naive_solver.
Qed.
Lemma released_mono server : released h server -> released h' server.
Proof. unfold released. auto. Qed.
Lemma data_detached_mono server : data_detached h server -> data_detached h' server.
Proof. unfold data_detached, detached. eauto. Qed.
End monotone.
End evidence.

(** ** The operations *)

Section operations.
Context `{SDK : ScwSDK} `{K8S : K8sLib}.
Context (m : MachineScope).

Abbreviation teardown_wp := (wpM any_resp (teardown m)).

(** [P] holds of the trace when the operation succeeds, and also when it fails
    because something does not exist. *)
Definition post_or_missing (P : trace -> Prop) : outcome unit -> MachineScope -> trace -> Prop :=
  fun oa m' h' => m' = m /\
    match oa with
    | Ok _ => P h'
    | Err e => errors_Is e ErrNoItemFound = true -> P h'
    | Panic => pn_status_missing (ms_Cluster m)
    end.

(** Closes the branches where an error that wraps no sentinel should. *)
Ltac no_sentinel :=
  try match goal with
  | H : forall st, errors_Is _ st = false |- errors_Is _ _ = true -> _ =>
      cbn; rewrite H; discriminate
  end.

Lemma ensureLoadBalancerACL_teardown h :
  teardown_wp (Instance.ensureLoadBalancerACL None) h m (post_or_missing (fun h' => disallowed h' m)).
Proof.
  unfold Instance.ensureLoadBalancerACL, FindLoadBalancerFrontendByNames.
  repeat exec_step ltac:(done).
  all: split; try done; no_sentinel; kill_units; intros; unfold disallowed; destruct_and?; to_prop.
  - right; right. do 2 eexists. split; [in_trace|]. right. eexists. split_and!; [eassumption|done|].
    in_trace.
  - right; right. do 2 eexists. split; [in_trace|]. left. by apply names_differ.
  - right; left. do 2 eexists. split; [in_trace|]. by apply names_differ.
  - left. eexists. split; [in_trace|]. by apply names_differ.
Qed.

Lemma ensureControlPlaneLoadBalancer_teardown server ips h :
  machine_ips h m server ips ->
  teardown_wp (Instance.ensureControlPlaneLoadBalancer ips true) h m
    (post_or_missing (fun h' => unregistered h' m server)).
Proof.
  intros Hips. destruct (machine_ips_NodeIP _ _ _ _ Hips) as (ip & Eip).
  unfold Instance.ensureControlPlaneLoadBalancer, FindLoadBalancerBackendByNames.
  rewrite Eip. cbn [andb negb]. repeat exec_step ltac:(done).
  all: split; try done; no_sentinel; kill_units; intros; intros Hcp; destruct_and?; to_prop;
    try congruence; right.
  - right; right. do 3 eexists. exists ips, ip. split; [in_trace|]. split_and!; try done.
    + eapply machine_ips_mono; [|exact Hips]. auto with caps.
    + right. in_trace.
  - right; right. do 3 eexists. exists ips, ip. split; [in_trace|]. split_and!; try done.
    + eapply machine_ips_mono; [|exact Hips]. auto with caps.
    + left. intros Hin. match goal with H : slices_Contains _ _ = false |- _ =>
        unfold slices_Contains in H; rewrite existsb_not_elem_of in H; apply H in Hin end.
      by rewrite String_eqb_refl in Hin.
  - right; left. do 2 eexists. split; [in_trace|]. by apply names_differ.
  - left. eexists. split; [in_trace|]. by apply names_differ.
Qed.

(** A missing load balancer, frontend or backend is not an error of [Delete]. *)
Lemma unless_missing (P : trace -> Prop) op h :
  teardown_wp op h m (post_or_missing P) ->
  teardown_wp (unless_Is ErrNoItemFound op) h m (fun oa m' h' => m' = m /\
    match oa with
    | Ok _ => P h'
    | Err _ => True
    | Panic => pn_status_missing (ms_Cluster m)
    end).
Proof.
  intros H. apply wpM_unless_Is. eapply wpM_mono; [exact H|].
  intros [[]|e|] m' h' [-> HP]; try done. destruct (errors_Is e ErrNoItemFound); split; auto.
Qed.

Lemma deregisterControlPlane_teardown server h :
  teardown_wp (Instance.deregisterControlPlane server) h m
    (fun oa m' h' => m' = m /\
      match oa with
      | Ok _ => unregistered h' m server
      | Err _ => True
      | Panic => pn_status_missing (ms_Cluster m)
      end).
Proof.
  unfold Instance.deregisterControlPlane. do 3 go_step.
  - go_step. split; [done|]. intros Hcp. to_prop. congruence.
  - go_step.
    assert (teardown_wp (if HasPrivateNetwork (ms_Cluster m) then
              pnID ← lift (PrivateNetworkID (ms_Cluster m));
              pnic ← wrapf "failed to find PrivateNIC by PNID" (FindPrivateNICByPNID server pnID);
              mret (Some pnic) else mret None) h m
        (fun oa m' h' => m' = m /\ match oa with
           | Ok pnic => is_some pnic = HasPrivateNetwork (ms_Cluster m)
           | Err _ => True | Panic => pn_status_missing (ms_Cluster m) end)) as Hnic.
    { repeat exec_step ltac:(done). all: split; try done. by apply PrivateNetworkID_Panic. }
    eapply wpM_use; [exact Hnic|]. intros [pnic|e|] ? h1 P1 [-> H1]; [|by split..].
    go_step. apply wpM_wrapf, wpM_unless_Is.
    eapply wpM_use; [by apply (getMachineIPs_spec m (teardown m))|].
    intros [ips|e|] ? h2 P2 [-> H2]; [..|done]; cbn [outcome_wrap].
    + go_step. eapply wpM_use; [by eapply unless_missing, ensureControlPlaneLoadBalancer_teardown|].
      intros [x|e|] ? h3 P3 [-> H3]; [by go_step|by split..].
    + destruct (errors_Is e errMachineHasNoIP); cbn; [|done]. split; [done|]. intros _. auto.
Qed.

Lemma detachVolumes_teardown server h (Q : outcome unit -> MachineScope -> trace -> Prop) :
  (forall h', h `prefix_of` h' -> data_detached h' server -> Q (Ok tt) m h') ->
  (forall h' e, Q (Err e) m h') ->
  teardown_wp (for_each (srv_Volumes server) (fun '(_, vol) =>
    if vol_Boot vol then mret tt
    else wrapf "failed to detach volume"
      (remote (DetachVolume (srv_Zone server) (vol_ID vol))))) h m Q.
Proof.
  intros Hok He.
  eapply (wpM_for_each _ _ _ _ _ _ (fun vols m' h' => m' = m /\ h `prefix_of` h' /\
    forall key vol, (key, vol) ∈ srv_Volumes server -> vol_Boot vol = false ->
      (key, vol) ∈ vols \/ detached h' server vol)).
  - split; [done|]. split; [done|]. by left.
  - intros m' h' (-> & Hp & H). apply Hok; [done|]. intros key vol Hin Hb.
    by destruct (H key vol Hin Hb) as [?%not_elem_of_nil|].
  - intros [key vol] vols m' h' (-> & Hp & H) _. repeat exec_step ltac:(done); [..|by apply He].
    + split; [done|]. split; [done|]. intros key' vol' Hin Hb.
      destruct (H key' vol' Hin Hb) as [[[= -> ->]|?]%elem_of_cons|]; [congruence|by left|by right].
    + kill_units. split; [done|]. split; [by apply prefix_snoc|]. intros key' vol' Hin Hb.
      destruct (H key' vol' Hin Hb) as [[[= -> ->]|?]%elem_of_cons|]; [right|by left|right];
        unfold detached; in_trace.
Qed.

Lemma releaseIP_teardown server h (Q : outcome unit -> MachineScope -> trace -> Prop) :
  found_server h m server ->
  (forall h', h `prefix_of` h' -> released h' server -> Q (Ok tt) m h') ->
  (forall h' e, Q (Err e) m h') ->
  teardown_wp (match srv_PublicIP server with
    | Some ip => if negb (sip_Dynamic ip)
                 then remote (InstanceDeleteIP (srv_Zone server) (sip_ID ip))
                 else mret tt
    | None => mret tt
    end) h m Q.
Proof.
  intros Hf Hok He. destruct (srv_PublicIP server) as [ip|] eqn:Eip.
  - repeat exec_step ltac:(idtac); to_prop; kill_units.
    + by exists server, ip.
    + apply Hok; [by apply prefix_snoc|]. intros ip' E _. rewrite Eip in E. simplify_eq. in_trace.
    + apply He.
    + apply Hok; [done|]. intros ip' E Hd. rewrite Eip in E. simplify_eq. congruence.
  - go_step. apply Hok; [done|]. intros ip' E. by rewrite Eip in E.
Qed.

Lemma bootVolume_in server vol :
  bootVolume server = Some vol ->
  vol_Boot vol = true /\ exists key, (key, vol) ∈ srv_Volumes server.
Proof.
  unfold bootVolume. destruct (List.find _ _) as [[key v]|] eqn:E; [|done].
  apply find_Some_iff in E as [Hin _]. destruct (vol_Boot v) eqn:Eb; [|done].
  intros [= <-]. eauto.
Qed.

(** The end of [Delete]: the server goes. *)
Lemma removeServer_teardown server h :
  disconnected h m server ->
  teardown_wp
    (if bool_decide (srv_State server = ServerStateStopped) then
       _ ← match bootVolume server with
           | Some v =>
               _ ← wrapf "failed to detach boot volume"
                 (remote (DetachVolume (srv_Zone server) (vol_ID v)));
               wrapf "failed to delete instance volume"
                 (remote (DeleteVolume (srv_Zone server) (vol_ID v)))
           | None => mret tt
           end;
       wrapf "failed to delete instance"
         (remote (DeleteServer (srv_Zone server) (srv_ID server)))
     else
       wrapf "failed to terminate server"
         (remote (ServerAction (srv_Zone server) (srv_ID server) ServerActionTerminate))) h m
    (fun oa m' h' => m' = m /\
      match oa with
      | Ok _ => ok_ev (DeleteServer (srv_Zone server) (srv_ID server)) tt ∈ h' \/
          ok_ev (ServerAction (srv_Zone server) (srv_ID server) ServerActionTerminate) tt ∈ h'
      | Err _ => True
      | Panic => False
      end).
Proof.
  intros Hd.
  assert (forall h', h `prefix_of` h' -> disconnected h' m server) as Hmono.
  { intros h' Hp. destruct Hd as (? & ? & ? & ? & ?).
    split_and!; [by eapply found_server_mono | by eapply disallowed_mono
      | by eapply unregistered_mono | by eapply released_mono | by eapply data_detached_mono]. }
  destruct (bool_decide _) eqn:Est; rewrite ?bool_decide_eq_true, ?bool_decide_eq_false in Est.
  - destruct (bootVolume server) as [vol|] eqn:Eb.
    + destruct (bootVolume_in _ _ Eb) as (Hb & key & Hin).
      repeat exec_step ltac:(idtac); kill_units; try done.
      * exists server, key, vol. split_and!; try done; [|unfold detached; in_trace].
        apply (Hmono (h ++ _)). auto with caps.
      * exists server. split_and!; try done; [apply Hmono; auto with caps|].
        intros vol' E. rewrite Eb in E. simplify_eq. split; [unfold detached|]; in_trace.
      * split; [done|]. left. in_trace.
    + repeat exec_step ltac:(idtac); kill_units; try done.
      * exists server. split_and!; try done. intros vol' E. by rewrite Eb in E.
      * split; [done|]. left. in_trace.
  - repeat exec_step ltac:(idtac); kill_units; try done.
    + exists server. by split_and!.
    + split; [done|]. right. in_trace.
Qed.

Lemma Delete_teardown h :
  teardown_wp Instance.Delete h m (fun oa m' h' => m' = m /\
    match oa with
    | Ok _ => no_server h' m \/ exists server, found_server h' m server /\
        (ok_ev (DeleteServer (srv_Zone server) (srv_ID server)) tt ∈ h' \/
         ok_ev (ServerAction (srv_Zone server) (srv_ID server) ServerActionTerminate) tt ∈ h')
    | Err _ => True
    | Panic => pn_status_missing (ms_Cluster m)
    end).
Proof.
  unfold Instance.Delete. do 3 go_step.
  eapply finder_unless_Is; [apply _ | intros ? ? H; exact H | done
    | intros servers server _ Hin Hn | intros servers _ Hno | by intros]; cbn beta iota.
  2: { go_step. split; [done|]. left. exists servers. split; [in_trace|]. by apply names_differ. }
  set (h0 := h ++ _). assert (found_server h0 m server) as Hf
    by (exists servers; cbn beta in Hn; to_prop; split_and!; [subst h0; in_trace|done..]).
  go_step. eapply wpM_use; [apply unless_missing, ensureLoadBalancerACL_teardown|].
  intros [x|e|] ? h1 P1 [-> Hdis]; [|by split..].
  go_step. eapply wpM_use; [apply deregisterControlPlane_teardown|].
  intros [[]|e|] ? h2 P2 [-> Hun]; [|by split..].
  assert (h0 `prefix_of` h2) as P02 by by transitivity h1.
  go_step. apply releaseIP_teardown; [by eapply found_server_mono| |by split].
  intros h3 P3 Hrel. go_step. apply detachVolumes_teardown; [|by split].
  intros h4 P4 Hdet. assert (h2 `prefix_of` h4) as P24 by by transitivity h3.
  assert (found_server h4 m server) as Hf4
    by (eapply found_server_mono; [|exact Hf]; by transitivity h2).
  eapply wpM_use; [apply removeServer_teardown|].
  - split_and!; [done | | by eapply unregistered_mono; [exact P24|]
      | by eapply released_mono; [exact P4|] | done].
    eapply disallowed_mono; [|exact Hdis]. by transitivity h2.
  - intros [[]|e|] ? h5 P5 [-> H5]; [|by split..|done]. split; [done|]. right. exists server.
    split; [by eapply found_server_mono; [exact P5|]|done].
Qed.
End operations.

Section main.
Context `{SDK : ScwSDK} `{K8S : K8sLib}.

(** C13.  Whatever the APIs answer, a deletion pass deletes or terminates only a server
    listed under the name of the machine, and only after its ACL was removed from the
    load balancer, a control-plane node left the pool of the backend, its flexible IP
    was released and each of its volumes but the boot volumes was detached, so that no
    data volume goes with it; a stopped server is deleted after its boot volume, a
    running one is terminated.  Only boot volumes are ever deleted, only the flexible IP
    of the server is released, and nothing is created or powered on. *)
Theorem teardown_order (o : oracle cloud) (m : MachineScope) t1 c r t2 :
  (runM o [] Instance.Delete m).1 = t1 ++ CEv c r :: t2 -> teardown m t1 c.
Proof.
  intros E. destruct (wpM_sound _ _ o _ _ _ _ (admissible_any o) (Delete_teardown m []))
    as (t & Et & Hob & _). rewrite Et in E. apply (Hob t1 c r t2 E).
Qed.

(** A deletion pass succeeds only when the API listed no server with the name of
    the machine, or accepted to delete or terminate the one it listed.  It never changes
    the object, and panics only for a cluster whose Private Network was never recorded. *)
Theorem instance_Delete_result (o : oracle cloud) (m : MachineScope) :
  let '(t, (oa, m')) := runM o [] Instance.Delete m in
  m' = m /\
  match oa with
  | Ok _ => no_server t m \/ exists server, found_server t m server /\
      (ok_ev (DeleteServer (srv_Zone server) (srv_ID server)) tt ∈ t \/
       ok_ev (ServerAction (srv_Zone server) (srv_ID server) ServerActionTerminate) tt ∈ t)
  | Err _ => True
  | Panic => pn_status_missing (ms_Cluster m)
  end.
Proof.
  destruct (wpM_sound _ _ o _ _ _ _ (admissible_any o) (Delete_teardown m []))
    as (t & Et & _ & HQ).
  by destruct (runM o [] Instance.Delete m) as [t' [oa m']].
Qed.
End main.

(** ** The sample machine *)

#[local] Existing Instances sim_sdk sim_k8s.

Definition demo_history2 : trace :=
  passes_trace (sim demo_world) [ClusterRequest demo_key; MachineRequest demo_key].

Definition demo_oracle2 : oracle cloud := fun h => sim demo_world (demo_history2 ++ h).

Definition demo_teardown : trace := (runM demo_oracle2 [] Instance.Delete demo_machine_scope).1.

Lemma demo_teardown_terminate :
  (runM demo_oracle2 [] Instance.Delete demo_machine_scope).1 = removelast demo_teardown ++
    CEv (ServerAction "fr-par-1" "id-51" ServerActionTerminate) (ROk tt) :: [].
Proof. by vm_compute. Qed.

Lemma teardown_order_witness :
  teardown demo_machine_scope (removelast demo_teardown)
    (ServerAction "fr-par-1" "id-51" ServerActionTerminate).
Proof. eapply teardown_order. exact demo_teardown_terminate. Defined.
