(* ===== verification/ControlPlane.v ===== *)
(** * The control-plane load balancer

    What a pass of [LoadBalancer.Reconcile] achieves and in which order: the endpoint it
    publishes, the ACLs it leaves behind, what it does while the load balancer is not
    ready, and what it never does. *)

From S2P Require Import Prelude Go Net Prog Sdk Types Cloud Ledger Scope Client.
From S2P Require Import LoadBalancer Bringup Simulation NoDuplicates.
#[local] Open Scope caps_scope.

(** ** Evidence *)

Section evidence.
Context `{SDK : ScwSDK}.
Implicit Types (h : trace) (c : ClusterScope).

(** The load balancer of the cluster, as listed or created. *)
Definition reported_lb h c (loadbalancer : LB) : Prop :=
  (exists lbs, ok_ev (ListLBs (LoadBalancerZone c) (Some (Cluster_Name c))) lbs ∈ h /\
     loadbalancer ∈ lbs /\ lb_Name loadbalancer = Cluster_Name c) \/
  (exists ipID, ok_ev (CreateLB (LoadBalancerZone c) (Cluster_Name c) (LoadBalancerType c) ipID)
     loadbalancer ∈ h).

(** The control-plane backend and frontend of a load balancer, as listed or created. *)
Definition reported_backend h (loadbalancer : LB) (backend : Backend) : Prop :=
  (exists backends, ok_ev (ListBackends (lb_Zone loadbalancer) (lb_ID loadbalancer) None)
       backends ∈ h /\
     backend ∈ backends /\ be_Name backend = ControlPlaneBackendName) \/
  ok_ev (CreateBackend (lb_Zone loadbalancer) (lb_ID loadbalancer) ControlPlaneBackendName
           BackendControlPlanePort BackendControlPlanePort 5) backend ∈ h.

Definition reported_frontend h (loadbalancer : LB) (frontend : Frontend) : Prop :=
  (exists frontends, ok_ev (ListFrontends (lb_Zone loadbalancer) (lb_ID loadbalancer) None)
       frontends ∈ h /\
     frontend ∈ frontends /\ fe_Name frontend = ControlPlaneFrontendName) \/
  (exists backend, reported_backend h loadbalancer backend /\
     ok_ev (CreateFrontend (lb_Zone loadbalancer) (lb_ID loadbalancer) ControlPlaneFrontendName
              DefaultFrontendControlPlanePort (be_ID backend)) frontend ∈ h).

(** The ACLs of a frontend under a name. *)
Definition listed_rule h c (frontendID : ID) (name : string) (acl : ACL) : Prop :=
  exists acls, ok_ev (ListACLs (LoadBalancerZone c) frontendID (Some name)) acls ∈ h /\
    acl ∈ acls /\ acl_Name acl = name.

(** The requests that write an ACL. *)
Definition create_rule c (frontendID : ID) (name : string) (ips : list string) (deny : bool)
    (index : Z) : CreateACLRequest :=
  {| cacl_Zone := LoadBalancerZone c; cacl_FrontendID := frontendID; cacl_Name := name;
     cacl_Action := if deny then ACLActionTypeDeny else ACLActionTypeAllow;
     cacl_Match := ips; cacl_Index := index |}.

Definition update_rule c (acl : ACL) (name : string) (ips : list string) (deny : bool)
    (index : Z) : UpdateACLRequest :=
  {| uacl_Zone := LoadBalancerZone c; uacl_ACLID := acl_ID acl; uacl_Name := name;
     uacl_Action := if deny then ACLActionTypeDeny else ACLActionTypeAllow;
     uacl_Match := ips; uacl_Index := index |}.

(** The ACL [name] of a frontend is as wanted: absent or deleted when there is nothing to
    match, otherwise created or rewritten. *)
Definition acl_ensured h c (frontendID : ID) (name : string) (ips : list string) (deny : bool)
    (index : Z) : Prop :=
  (ips = [] /\
    ((exists acls, ok_ev (ListACLs (LoadBalancerZone c) frontendID (Some name)) acls ∈ h /\
        forall acl, acl ∈ acls -> acl_Name acl <> name) \/
     (exists acl, listed_rule h c frontendID name acl /\
        ok_ev (DeleteACL (LoadBalancerZone c) (acl_ID acl)) tt ∈ h))) \/
  (ips <> [] /\
    ((exists acl, listed_rule h c frontendID name acl /\
        ok_ev (UpdateACL (update_rule c acl name ips deny index)) tt ∈ h) \/
     (exists acl, ok_ev (CreateACL (create_rule c frontendID name ips deny index)) acl ∈ h))).

(** The addresses that the spec or the gateways of the network allow are allowed. *)
Definition allow_rules_ensured h c (frontendID : ID) : Prop :=
  acl_ensured h c frontendID "allowed-ranges" (spec_AllowedRanges c) false 1 /\
  (HasPrivateNetwork c = true -> exists pnID gws,
     PrivateNetworkID c = Ok pnID /\
     ok_ev (ListGatewaysByPN ZoneFrPar1 pnID (Zones c VPCGW_Zones)) gws ∈ h /\
     acl_ensured h c frontendID "public-gateway" (gateway_ips gws) false 2).

Definition deny_all : list string := ["0.0.0.0/0"; "::/0"]%string.

(** The addresses that the ACL [deny-all] is for. *)
Definition denied c : list string := if decide (spec_AllowedRanges c = []) then [] else deny_all.

(** The rules of a pass: name, addresses, whether they are denied, and index. *)
Inductive wanted h c : string -> list string -> bool -> Z -> Prop :=
| wanted_ranges : wanted h c "allowed-ranges" (spec_AllowedRanges c) false 1
| wanted_gateways pnID gws :
    HasPrivateNetwork c = true -> PrivateNetworkID c = Ok pnID ->
    ok_ev (ListGatewaysByPN ZoneFrPar1 pnID (Zones c VPCGW_Zones)) gws ∈ h ->
    wanted h c "public-gateway" (gateway_ips gws) false 2
| wanted_deny : wanted h c "deny-all" (denied c) true 4.

(** [call] writes the rule: its ACL is created or rewritten, or deleted when the rule is
    empty. *)
Definition writes_rule h c (call : cloud_call) (frontendID : ID) (name : string)
    (ips : list string) (deny : bool) (index : Z) : Prop :=
  match call with
  | CreateACL req => ips <> [] /\ req = create_rule c frontendID name ips deny index
  | UpdateACL req => ips <> [] /\ exists acl, listed_rule h c frontendID name acl /\
      req = update_rule c acl name ips deny index
  | DeleteACL zone id => ips = [] /\ exists acl, listed_rule h c frontendID name acl /\
      zone = LoadBalancerZone c /\ id = acl_ID acl
  | _ => False
  end.

(** What [LoadBalancer.Reconcile] may call. *)
Definition lb_calls c : guarantee := fun h call =>
  (mutates call = true ->
     (exists ipID, call = CreateLB (LoadBalancerZone c) (Cluster_Name c) (LoadBalancerType c) ipID)
     \/ exists loadbalancer, reported_lb h c loadbalancer /\
          lb_Status loadbalancer = LBStatusReady) /\
  match call with
  | CreateACL _ | UpdateACL _ | DeleteACL _ _ =>
      exists loadbalancer frontend name ips deny index,
        reported_lb h c loadbalancer /\ reported_frontend h loadbalancer frontend /\
        wanted h c name ips deny index /\
        writes_rule h c call (fe_ID frontend) name ips deny index /\
        (deny = true -> ips <> [] -> allow_rules_ensured h c (fe_ID frontend))
  | DeleteBackend zone id => exists loadbalancer backends backend,
      reported_lb h c loadbalancer /\ zone = lb_Zone loadbalancer /\
      ok_ev (ListBackends zone (lb_ID loadbalancer) None) backends ∈ h /\ backend ∈ backends /\
      id = be_ID backend /\ be_Name backend <> ControlPlaneBackendName
  | DeleteFrontend zone id => exists loadbalancer frontends frontend,
      reported_lb h c loadbalancer /\ zone = lb_Zone loadbalancer /\
      ok_ev (ListFrontends zone (lb_ID loadbalancer) None) frontends ∈ h /\ frontend ∈ frontends /\
      id = fe_ID frontend /\ fe_Name frontend <> ControlPlaneFrontendName
  | _ => removes call = false
  end.

Section monotone.
Context (h h' : trace) (c : ClusterScope) (Hpre : h `prefix_of` h').

Let elem (e : event cloud) : e ∈ h -> e ∈ h' := elem_of_prefix e h h' Hpre.

Lemma reported_lb_mono lb : reported_lb h c lb -> reported_lb h' c lb.
Proof. unfold reported_lb. naive_solver. Qed.
Lemma reported_backend_mono lb b : reported_backend h lb b -> reported_backend h' lb b.
Proof. unfold reported_backend. naive_solver. Qed.
Lemma reported_frontend_mono lb f : reported_frontend h lb f -> reported_frontend h' lb f.
Proof.
  intros [(fs & ? & ? & ?)|(b & Hb & ?)]; [left; exists fs; auto|].
  right. exists b. split; [by apply reported_backend_mono|auto].
Qed.
Lemma listed_rule_mono f n acl : listed_rule h c f n acl -> listed_rule h' c f n acl.
Proof. unfold listed_rule. naive_solver. Qed.
Lemma acl_ensured_mono f n ips d i : acl_ensured h c f n ips d i -> acl_ensured h' c f n ips d i.
Proof. unfold acl_ensured. pose proof (listed_rule_mono f n). naive_solver. Qed.
Lemma allow_rules_ensured_mono f : allow_rules_ensured h c f -> allow_rules_ensured h' c f.
Proof.
  intros [Ha Hg]. split; [by apply acl_ensured_mono|]. intros (pnID & gws & ? & ? & ?)%Hg.
  exists pnID, gws. split; [done|]. split; [auto|by apply acl_ensured_mono].
Qed.
Lemma wanted_mono n ips d i : wanted h c n ips d i -> wanted h' c n ips d i.
Proof. intros [|pnID gws Hh Hp Hg|]; econstructor; eauto. Qed.
End monotone.
End evidence.

(** ** The operations *)

Section operations.
Context `{SDK : ScwSDK}.
Context (c : ClusterScope).

Abbreviation lb_wp := (wpM any_resp (lb_calls c)).

(** Errors other than the one that makes the controller wait. *)
Definition not_waiting (e : error) : Prop := errors_Is e ErrLoadBalancerNotReady = false.

Definition lb_post {A} (P : A -> trace -> Prop) : outcome A -> ClusterScope -> trace -> Prop :=
  fun oa c' h' => c' = c /\
    match oa with
    | Ok a => P a h'
    | Err e => not_waiting e
    | Panic => False
    end.

(** Calls that the load balancer does not have to be ready for. *)
Lemma lb_calls_read h call : mutates call = false -> lb_calls c h call.
Proof. intros Hm. split; [congruence|]. by destruct call. Qed.

Ltac lb_read := apply lb_calls_read; reflexivity.

(** The calls since [h] only read, or create the load balancer. *)
Definition only_creates_lb (h h' : trace) : Prop :=
  forall call r, CEv call r ∈ h' -> mutates call = true -> CEv call r ∈ h \/
    exists ipID, call = CreateLB (LoadBalancerZone c) (Cluster_Name c) (LoadBalancerType c) ipID.

Lemma only_creates_lb_refl h : only_creates_lb h h.
Proof. intros call r He _. by left. Qed.

Lemma only_creates_lb_snoc h h' call r :
  only_creates_lb h h' ->
  (mutates call = true -> exists ipID, call = CreateLB (LoadBalancerZone c) (Cluster_Name c)
                                                (LoadBalancerType c) ipID) ->
  only_creates_lb h (h' ++ [CEv call r]).
Proof.
  intros H Hc call' r' [He|E%list_elem_of_singleton]%elem_of_app Hm; [by eapply H|].
  apply (f_equal (fun e : event cloud => ev_call e)) in E. simpl in E. subst. right. by apply Hc.
Qed.

Ltac solve_only := repeat (apply only_creates_lb_snoc; [|by eauto]); apply only_creates_lb_refl.

Lemma lb_calls_create h ipID :
  lb_calls c h (CreateLB (LoadBalancerZone c) (Cluster_Name c) (LoadBalancerType c) ipID).
Proof. by split; [eauto|]. Qed.

Ltac lb_call := first [ lb_read | apply lb_calls_create ].

(** Errors of lookups and calls do not make the controller wait. *)
Ltac not_waiting_auto :=
  split; [done|]; unfold not_waiting; cbn;
  first [ done
        | match goal with H : forall st, errors_Is _ st = false |- _ => apply H end
        | match goal with H : _ = Sentinel _ /\ _ |- _ => by destruct H as [-> _] end ].

Lemma getOrCreateLB_spec h :
  lb_wp (LoadBalancer.getOrCreateLB (LoadBalancerZone c)) h c
    (lb_post (fun loadbalancer h' => reported_lb h' c loadbalancer /\ only_creates_lb h h')).
Proof.
  unfold LoadBalancer.getOrCreateLB. repeat exec_step ltac:(lb_call).
  all: try not_waiting_auto.
  all: split; [done|]; split; [|solve_only].
  - left. eexists. split; [in_trace|]. by to_prop.
  - right. eexists. in_trace.
  - right. eexists. in_trace.
Qed.

(** *** Once the load balancer is ready *)

Context (loadbalancer : LB).

Definition ready h : Prop := reported_lb h c loadbalancer /\ lb_Status loadbalancer = LBStatusReady.

Lemma ready_mono h h' : h `prefix_of` h' -> ready h -> ready h'.
Proof. intros Hp [H ?]. split; [by eapply reported_lb_mono|done]. Qed.

Lemma ready_snoc h call r : ready h -> ready (h ++ [CEv call r]).
Proof. apply ready_mono. auto with caps. Qed.

Lemma ready_ok h call (a : cloud_val call) : ready h -> ready (h ++ [ok_ev call a]).
Proof. apply ready_snoc. Qed.

Hint Resolve ready_ok : caps.

(** A mutation that writes no ACL and takes nothing away. *)
Lemma lb_calls_ready h call :
  ready h -> removes call = false ->
  match call with CreateACL _ | UpdateACL _ => False | _ => True end ->
  lb_calls c h call.
Proof.
  intros [Hr Hs] Hd Hc. split; [intros _; right; by exists loadbalancer|].
  by destruct call.
Qed.

Ltac lb_ready := first [ lb_read | apply lb_calls_ready; [solve [auto 10 with caps]|reflexivity|exact I] ].

Lemma ensurePrivateNetwork_spec pnID h :
  ready h ->
  lb_wp (LoadBalancer.ensurePrivateNetwork loadbalancer pnID) h c (lb_post (fun _ _ => True)).
Proof.
  intros Hr. unfold LoadBalancer.ensurePrivateNetwork.
  repeat exec_step ltac:(lb_ready). all: first [by split | not_waiting_auto].
Qed.

Lemma ensureBackend_spec h :
  ready h ->
  lb_wp (LoadBalancer.ensureBackend loadbalancer) h c
    (lb_post (fun backend h' => reported_backend h' loadbalancer backend)).
Proof.
  intros Hr. unfold LoadBalancer.ensureBackend. do 2 exec_step ltac:(lb_read); [|not_waiting_auto].
  set (h1 := h ++ _). go_step.
  apply wp_keep_last with (J := fun h' => h1 `prefix_of` h').
  - done.
  - intros h' x Hp Hn Hin. cbn beta in *. to_prop. split; [intros _; right; exists loadbalancer|].
    + eapply (ready_mono h1 h'); [done|]. by apply ready_ok.
    + do 3 eexists. split_and!; [|done| |exact Hin|done|done].
      * eapply (ready_mono h1 h'); [done|]. by apply ready_ok.
      * eapply elem_of_prefix; [exact Hp|]. subst h1. in_trace.
  - intros h' x r Hp. auto with caps.
  - intros h' Hp. assert (ready h') by (eapply (ready_mono h1 h'); [done|]; by apply ready_ok).
    destruct (last_match _ _ _) as [backend|] eqn:E; repeat exec_step ltac:(lb_ready);
      try not_waiting_auto.
    + apply last_match_Some in E as [E|[Hin Hn]]; [done|]. cbn beta in Hn. to_prop.
      split; [done|]. left. eexists. split_and!; [|exact Hin|done].
      eapply elem_of_prefix; [exact Hp|]. subst h1. in_trace.
    + split; [done|]. right. in_trace.
  - intros h' e _. not_waiting_auto.
Qed.

Lemma ensureFrontend_spec backend h :
  ready h -> reported_backend h loadbalancer backend ->
  lb_wp (LoadBalancer.ensureFrontend loadbalancer backend) h c
    (lb_post (fun frontend h' => reported_frontend h' loadbalancer frontend)).
Proof.
  intros Hr Hb. unfold LoadBalancer.ensureFrontend. do 2 exec_step ltac:(lb_read); [|not_waiting_auto].
  set (h1 := h ++ _). go_step.
  apply wp_keep_last with (J := fun h' => h1 `prefix_of` h').
  - done.
  - intros h' x Hp Hn Hin. cbn beta in *. to_prop. split; [intros _; right; exists loadbalancer|].
    + eapply (ready_mono h1 h'); [done|]. by apply ready_ok.
    + do 3 eexists. split_and!; [|done| |exact Hin|done|done].
      * eapply (ready_mono h1 h'); [done|]. by apply ready_ok.
      * eapply elem_of_prefix; [exact Hp|]. subst h1. in_trace.
  - intros h' x r Hp. auto with caps.
  - intros h' Hp. assert (ready h') by (eapply (ready_mono h1 h'); [done|]; by apply ready_ok).
    destruct (last_match _ _ _) as [frontend|] eqn:E; repeat exec_step ltac:(lb_ready);
      try not_waiting_auto.
    + apply last_match_Some in E as [E|[Hin Hn]]; [done|]. cbn beta in Hn. to_prop.
      split; [done|]. left. eexists. split_and!; [|exact Hin|done].
      eapply elem_of_prefix; [exact Hp|]. subst h1. in_trace.
    + split; [done|]. right. exists backend. split; [|in_trace].
      eapply reported_backend_mono; [|exact Hb]. apply prefix_snoc. etransitivity; [|exact Hp].
      subst h1. auto with caps.
  - intros h' e _. not_waiting_auto.
Qed.

(** *** The rules of a frontend *)

Context (frontend : Frontend).

Definition on_frontend h : Prop := ready h /\ reported_frontend h loadbalancer frontend.

Lemma on_frontend_mono h h' : h `prefix_of` h' -> on_frontend h -> on_frontend h'.
Proof. intros Hp [Hr Hf]. split; [by eapply ready_mono|by eapply reported_frontend_mono]. Qed.

(** The rule may be written from [h] on. *)
Definition due h name ips deny index : Prop :=
  on_frontend h /\ wanted h c name ips deny index /\
  (deny = true -> ips <> [] -> allow_rules_ensured h c (fe_ID frontend)).

Lemma lb_calls_rule h h' call name ips deny index :
  due h name ips deny index -> h `prefix_of` h' ->
  writes_rule h' c call (fe_ID frontend) name ips deny index -> lb_calls c h' call.
Proof.
  intros (Hf & Hw & Hd) Hp Hc. destruct (on_frontend_mono h h' Hp Hf) as [[Hlb Hs] Hf'].
  split; [intros _; right; by exists loadbalancer|].
  assert (exists loadbalancer frontend name ips deny index,
    reported_lb h' c loadbalancer /\ reported_frontend h' loadbalancer frontend /\
    wanted h' c name ips deny index /\
    writes_rule h' c call (fe_ID frontend) name ips deny index /\
    (deny = true -> ips <> [] -> allow_rules_ensured h' c (fe_ID frontend))) as H.
  { exists loadbalancer, frontend, name, ips, deny, index. split_and!; try done.
    - by eapply wanted_mono.
    - intros E Hne. eapply allow_rules_ensured_mono; [exact Hp|auto]. }
  by destruct call.
Qed.

Lemma listed_rule_intro h frontendID acls acl name :
  acl ∈ acls -> (acl_Name acl =?s name) = true ->
  listed_rule (h ++ [ok_ev (ListACLs (LoadBalancerZone c) frontendID (Some name)) acls])
    c frontendID name acl.
Proof. intros. to_prop. exists acls. by repeat split; [in_trace|..]. Qed.

Lemma ensureACL_spec name ips (deny : bool) index h :
  due h name ips deny index ->
  lb_wp (LoadBalancer.ensureACL (fe_ID frontend) name ips deny index) h c
    (lb_post (fun _ h' => acl_ensured h' c (fe_ID frontend) name ips deny index)).
Proof.
  intros Hdue. unfold LoadBalancer.ensureACL.
  repeat exec_step ltac:(first [lb_read | eapply lb_calls_rule; [exact Hdue|auto with caps|]]).
  all: try not_waiting_auto. all: kill_units.
  - split; [done|]. exists x. split_and!; [by apply listed_rule_intro|done..].
  - split; [done|]. left. split; [done|]. right. exists x. split; [|in_trace].
    eapply listed_rule_mono; [|by apply listed_rule_intro]. auto with caps.
  - split; [done|]. exists x. split; [by apply listed_rule_intro|done].
  - split; [done|]. right. split; [done|]. left. exists x. split; [|in_trace].
    eapply listed_rule_mono; [|by apply listed_rule_intro]. auto with caps.
  - by rewrite match_differs_true in *.
  - split; [done|]. left. split; [done|]. left. eexists. split; [in_trace|]. by apply names_differ.
  - split; [done|]. right. split; [done|]. right. eexists. in_trace.
Qed.

Lemma ensureACLs_spec pnID h :
  on_frontend h ->
  (HasPrivateNetwork c = true -> exists id, pnID = Some id /\ PrivateNetworkID c = Ok id) ->
  lb_wp (LoadBalancer.ensureACLs frontend pnID) h c
    (lb_post (fun _ h' => allow_rules_ensured h' c (fe_ID frontend) /\
      acl_ensured h' c (fe_ID frontend) "deny-all" (denied c) true 4)).
Proof.
  intros Hf Hpn. unfold LoadBalancer.ensureACLs. do 4 go_step.
  eapply wpM_use; [apply ensureACL_spec; split_and!; [done|constructor|done]|].
  intros [[]|e|] ? h1 P1 [-> H1]; [|by split..].
  assert (on_frontend h1) as Hf1 by by eapply on_frontend_mono.
  cbn [outcome_wrap]. go_step.
  assert (lb_wp (match pnID with
    | Some pnID =>
        if HasPrivateNetwork c then
          gws ← FindGatewaysByPrivateNetworkID (Zones c VPCGW_Zones) pnID;
          LoadBalancer.ensureACL (fe_ID frontend) "public-gateway" (gateway_ips gws) false 2
        else mret tt
    | None => mret tt
    end) h1 c (lb_post (fun _ h' => HasPrivateNetwork c = true -> exists pnID gws,
       PrivateNetworkID c = Ok pnID /\
       ok_ev (ListGatewaysByPN ZoneFrPar1 pnID (Zones c VPCGW_Zones)) gws ∈ h' /\
       acl_ensured h' c (fe_ID frontend) "public-gateway" (gateway_ips gws) false 2))) as Hgw.
  { destruct (HasPrivateNetwork c) eqn:Ehas.
    - destruct (Hpn eq_refl) as (id & -> & Eid). unfold FindGatewaysByPrivateNetworkID.
      do 3 exec_step ltac:(lb_ready); [|not_waiting_auto].
      eapply wpM_use; [apply ensureACL_spec; split_and!; [| |done]|].
      + eapply on_frontend_mono; [|exact Hf1]. auto with caps.
      + eapply wanted_gateways; [done|done|in_trace].
      + intros [[]|e|] ? h2 P2 [-> H2]; [|by split..]. split; [done|]. intros _.
        exists id. eexists. split; [done|]. split; [|exact H2].
        eapply elem_of_prefix; [exact P2|]. in_trace.
    - destruct pnID; go_step; by split. }
  eapply wpM_use; [exact Hgw|]. intros [[]|e|] ? h2 P2 [-> H2]; [|by split..].
  assert (allow_rules_ensured h2 c (fe_ID frontend)) as Hrules
    by (split; [by eapply acl_ensured_mono|done]).
  replace (match spec_AllowedRanges c with [] => [] | _ => ["0.0.0.0/0"; "::/0"]%string end)
    with (denied c) by (unfold denied; by destruct (spec_AllowedRanges c)).
  eapply wpM_use; [apply ensureACL_spec; split_and!; [by eapply on_frontend_mono|constructor|done]|].
  intros [[]|e|] ? h3 P3 [-> H3]; [|by split..].
  split; [done|]. split; [by eapply allow_rules_ensured_mono|done].
Qed.
End operations.

(** ** The pass *)

Lemma first_IPv4_spec ips :
  match first_IPv4 ips with
  | Ok (Some lbIP) => lbIP ∈ ips /\
      exists b, netip_ParseAddr_opt (lbip_IPAddress lbIP) = Some (Addr4 b)
  | Ok None => forall lbIP, lbIP ∈ ips ->
      exists b z, netip_ParseAddr_opt (lbip_IPAddress lbIP) = Some (Addr6 b z)
  | Err e => errors_Is e ErrLoadBalancerNotReady = false
  | Panic => False
  end.
Proof.
  induction ips as [|lbIP ips IH]; cbn [first_IPv4]; [by intros lbIP ?%not_elem_of_nil|].
  unfold netip_ParseAddr. destruct (netip_ParseAddr_opt _) as [[b|b z]|] eqn:E; simpl; [| |done].
  - split; [left|eauto].
  - destruct (first_IPv4 ips) as [[x|]|e|]; try done.
    + destruct IH as [? ?]. split; [by right|done].
    + intros x [->|Hx]%elem_of_cons; eauto.
Qed.

Section main.
Context `{SDK : ScwSDK}.

(** The object after a successful pass: the endpoint is an IPv4 address of the load
    balancer with the port of the frontend. *)
Definition published h (c : ClusterScope) (c' : ClusterScope) : Prop :=
  exists loadbalancer frontend lbIP b,
    reported_lb h c loadbalancer /\ lb_Status loadbalancer = LBStatusReady /\
    reported_frontend h loadbalancer frontend /\
    lbIP ∈ lb_IP loadbalancer /\
    netip_ParseAddr_opt (lbip_IPAddress lbIP) = Some (Addr4 b) /\
    allow_rules_ensured h c (fe_ID frontend) /\
    acl_ensured h c (fe_ID frontend) "deny-all" (denied c) true 4 /\
    c' = set_cs_ScalewayCluster
           (set_sc_ControlPlaneEndpoint
             {| ep_Host := lbip_IPAddress lbIP; ep_Port := fe_InboundPort frontend |}
             (cs_ScalewayCluster c)) c.

Lemma lb_Reconcile_spec c h :
  wpM any_resp (lb_calls c) LoadBalancer.Reconcile h c (fun oa c' h' =>
    match oa with
    | Ok _ => published h' c c'
    | Err e => c' = c /\
        (errors_Is e ErrLoadBalancerNotReady = true -> only_creates_lb c h h' /\
          exists loadbalancer, reported_lb h' c loadbalancer /\
            lb_Status loadbalancer <> LBStatusReady)
    | Panic => c' = c /\ pn_status_missing c
    end).
Proof.
  assert (forall e, not_waiting e -> errors_Is e ErrLoadBalancerNotReady = true -> False) as Hnw
    by (unfold not_waiting; congruence).
  unfold LoadBalancer.Reconcile. do 3 go_step.
  eapply wpM_use; [apply getOrCreateLB_spec|].
  intros [lb|e|] ? h1 P1 [-> H1]; [|split; [done|]; by intros ?%Hnw|done].
  destruct H1 as [Hrep Honly]. cbn beta iota. go_step.
  { apply negb_true_iff, bool_decide_eq_false in Heqb. go_step. split; [done|].
    intros _. split; [done|]. by exists lb. }
  apply negb_false_iff, bool_decide_eq_true in Heqb. assert (ready c lb h1) as Hr by by split.
  assert (wpM any_resp (lb_calls c)
    (if HasPrivateNetwork c then id ← lift (PrivateNetworkID c); mret (Some id) else mret None) h1 c
    (fun oa c' h' => c' = c /\ h' = h1 /\ match oa with
       | Ok pnID => HasPrivateNetwork c = true -> exists id, pnID = Some id /\ PrivateNetworkID c = Ok id
       | Err e => not_waiting e | Panic => pn_status_missing c end)) as Hpn.
  { repeat exec_step ltac:(idtac); split_and!; try done; try by eauto.
    - unfold PrivateNetworkID, not_waiting in *. rewrite Heqb0 in *. simpl in *.
      destruct (scst_Network _) as [n|]; simpl in *; [|done].
      destruct (nst_PrivateNetworkID n); by simplify_eq.
    - by apply PrivateNetworkID_Panic. }
  go_step. eapply wpM_mono; [exact Hpn|]. clear Hpn.
  intros [pnID|e|] ? ? (-> & -> & Hpn); [|split; [done|]; by intros ?%Hnw|by split].
  go_step. eapply wpM_use; [by apply (ensurePrivateNetwork_spec c lb)|].
  intros [[]|e|] ? h2 P2 [-> _H2]; [|split; [done|]; by intros ?%Hnw|done].
  go_step. go_step. eapply wpM_use; [apply (ensureBackend_spec c lb); by eapply ready_mono|].
  intros [backend|e|] ? h3 P3 [-> Hb]; [|split; [done|]; by intros ?%Hnw|done].
  assert (ready c lb h3) as Hr3 by (eapply ready_mono; [|exact Hr]; by transitivity h2).
  cbn [outcome_wrap]. go_step. go_step. eapply wpM_use; [by apply (ensureFrontend_spec c lb)|].
  intros [frontend|e|] ? h4 P4 [-> Hf]; [|split; [done|]; by intros ?%Hnw|done].
  cbn [outcome_wrap]. go_step. go_step.
  eapply wpM_use; [apply (ensureACLs_spec c lb frontend); [split; [by eapply ready_mono; [exact P4|]|done]|done]|].
  intros [[]|e|] ? h5 P5 [-> Hacl]; [|split; [done|]; by intros ?%Hnw|done].
  destruct Hacl as [Hallow Hdeny].
  cbn [outcome_wrap]. go_step. go_step.
  pose proof (first_IPv4_spec (lb_IP lb)) as Hip.
  destruct (first_IPv4 (lb_IP lb)) as [[lbIP|]|e|]; [|..|done].
  - unfold SetControlPlaneEndpoint. go_step. destruct Hip as (Hin & b & Eb).
    exists lb, frontend, lbIP, b. split_and!; try done.
    + eapply reported_lb_mono; [|exact Hrep]. do 3 (etransitivity; [eassumption|]). done.
    + by eapply reported_frontend_mono.
  - go_step. by split.
  - split; [done|]. congruence.
Qed.

(** C15.  Whatever the APIs answer, a pass over the load balancer writes to it only the
    ACLs [allowed-ranges], [public-gateway] and [deny-all], with the addresses of the spec,
    of the gateways that were listed and all addresses, on the control-plane frontend of
    the load balancer of the cluster: it creates the ACL, rewrites the one listed under
    that name on that frontend, or deletes it when there is no address to match.  [deny-all]
    is written only when the spec lists allowed ranges, and after the rules that let these
    ranges, and the Public Gateways of the network, in were created or rewritten
    on the same frontend in the same pass, so that it never locks the control plane out.
    The pass changes nothing but the creation of the load balancer before the latter was
    reported ready; and all it takes away besides those ACLs are the backends and
    frontends listed on the load balancer that are not the control plane's. *)
Theorem loadbalancer_calls (o : oracle cloud) (c : ClusterScope) t1 call r t2 :
  (runM o [] LoadBalancer.Reconcile c).1 = t1 ++ CEv call r :: t2 -> lb_calls c t1 call.
Proof.
  intros E. destruct (wpM_sound _ _ o _ _ _ _ (admissible_any o) (lb_Reconcile_spec c []))
    as (t & Et & Hob & _). rewrite Et in E. apply (Hob t1 call r t2 E).
Qed.

(** A pass over the load balancer succeeds only by publishing, as the endpoint of
    the cluster, an IPv4 address of the load balancer reported ready and the port of its
    control-plane frontend, with the ACLs the spec asks for in place.  Otherwise the
    object is unchanged; the error that makes the controller wait is returned only when
    the load balancer is not ready, and then nothing else was created or modified.  It
    panics only for a cluster whose Private Network was never recorded. *)
Theorem loadbalancer_Reconcile_result (o : oracle cloud) (c : ClusterScope) :
  let '(t, (oa, c')) := runM o [] LoadBalancer.Reconcile c in
  match oa with
  | Ok _ => published t c c'
  | Err e => c' = c /\
      (errors_Is e ErrLoadBalancerNotReady = true ->
        (forall call r, CEv call r ∈ t -> mutates call = true ->
          exists ipID, call = CreateLB (LoadBalancerZone c) (Cluster_Name c) (LoadBalancerType c) ipID) /\
        exists loadbalancer, reported_lb t c loadbalancer /\
          lb_Status loadbalancer <> LBStatusReady)
  | Panic => c' = c /\ pn_status_missing c
  end.
Proof.
  destruct (wpM_sound _ _ o _ _ _ _ (admissible_any o) (lb_Reconcile_spec c []))
    as (t & Et & _ & HQ).
  destruct (runM o [] LoadBalancer.Reconcile c) as [t' [[x|e|] c']]; simpl in *; try done.
  destruct HQ as [-> HQ]. split; [done|]. intros [Ho ?]%HQ. split; [|done].
  intros call r Hin Hm. by destruct (Ho call r Hin Hm) as [?%not_elem_of_nil|].
Qed.

(** The list of allowed ranges is written in every pass that succeeds, even when it already
    is as it should be: the comparison that is to avoid it compares pointers. *)
Theorem acls_always_written (o : oracle cloud) (c : ClusterScope) :
  let '(t, (oa, _)) := runM o [] LoadBalancer.Reconcile c in
  oa = Ok tt -> spec_AllowedRanges c <> [] ->
  exists frontendID,
    (exists acl, listed_rule t c frontendID "allowed-ranges" acl /\
      ok_ev (UpdateACL (update_rule c acl "allowed-ranges" (spec_AllowedRanges c) false 1)) tt ∈ t) \/
    (exists acl, ok_ev (CreateACL (create_rule c frontendID "allowed-ranges" (spec_AllowedRanges c)
      false 1)) acl ∈ t).
Proof.
  pose proof (loadbalancer_Reconcile_result o c) as H.
  destruct (runM o [] LoadBalancer.Reconcile c) as [t [oa c']]. intros -> Hne.
  destruct H as (lb & frontend & ip & b & _ & _ & _ & _ & _ & [Hall _] & _).
  exists (fe_ID frontend). by destruct Hall as [[? _]|[_ ?]].
Qed.
End main.

(** ** The sample cluster *)

#[local] Existing Instance sim_sdk.

Definition demo_lb_scope : ClusterScope :=
  set_cs_ScalewayCluster
    (set_sc_Status {| scst_Ready := false; scst_FailureDomains := ∅;
        scst_Network := Some {| nst_PrivateNetworkID := Some "id-14"%string;
                                nst_PublicGatewayID := None |} |} demo_cluster)
    demo_cluster_scope.

Definition demo_lb_trace : trace := (runM (sim demo_world) [] LoadBalancer.Reconcile demo_lb_scope).1.

Definition demo_deny : CreateACLRequest :=
  {| cacl_Zone := "fr-par-1"; cacl_FrontendID := "id-7"; cacl_Name := "deny-all";
     cacl_Action := ACLActionTypeDeny; cacl_Match := deny_all; cacl_Index := 4 |}.

Lemma demo_lb_denies :
  (runM (sim demo_world) [] LoadBalancer.Reconcile demo_lb_scope).1 =
    removelast demo_lb_trace ++
    CEv (CreateACL demo_deny) (sim demo_world (removelast demo_lb_trace) (CreateACL demo_deny)) :: [].
Proof. by vm_compute. Qed.

Lemma loadbalancer_calls_witness :
  lb_calls demo_lb_scope (removelast demo_lb_trace) (CreateACL demo_deny).
Proof. eapply loadbalancer_calls. exact demo_lb_denies. Defined.
