(* ===== verification/Firewall.v ===== *)
(** * The security groups of a cluster

    The comparison and the conversion of rules, what a pass of
    [SecurityGroup.Reconcile] sends to the API and leaves behind, and why a second pass
    has nothing to do. *)

From S2P Require Import Prelude Go Net Prog Sdk Types Cloud Ledger Scope Client.
From S2P Require Import SecurityGroup ClusterWebhook ClusterValidation Simulation NoDuplicates.
#[local] Open Scope caps_scope.

(** ** Rules *)

(** A rule of the API has the effect of a rule of the spec. *)
Definition same_rule (ra : SecurityGroupRule) (rb : InstanceSecurityGroupRule) : Prop :=
  ToInstance (sgr_Protocol ra) = Ok (isr_Protocol rb) /\
  ToInstanceAction (Some (sgr_Action ra)) = Ok (isr_Action rb) /\
  rule_IPRange ra = IPNet_String (isr_IPRange rb) /\
  ToRange (sgr_Ports ra) = Ok (isr_DestPortFrom rb, isr_DestPortTo rb).

Lemma compareRules_loop_cons ra a rb b :
  compareRules_loop (ra :: a) (rb :: b) = Ok true <->
  same_rule ra rb /\ compareRules_loop a b = Ok true.
Proof.
  cbn [compareRules_loop]. unfold same_rule.
  generalize (ToInstance (sgr_Protocol ra)) (ToInstanceAction (Some (sgr_Action ra)))
    (ToRange (sgr_Ports ra)).
  intros [proto|e|] [action|e'|] [[from to]|e''|]; simpl;
    repeat (case_bool_decide; simpl); try naive_solver.
  all: destruct (rule_IPRange ra =?s _) eqn:E; simpl; to_prop; try naive_solver.
  all: repeat (case_bool_decide; simpl); naive_solver.
Qed.

Lemma compareRules_true a b : compareRules a b = Ok true <-> Forall2 same_rule a b.
Proof.
  unfold compareRules. revert b. induction a as [|ra a IH]; intros [|rb b]; simpl.
  - split; [constructor|done].
  - split; [done|]. by intros H%Forall2_nil_inv_l.
  - split; [done|]. by intros H%Forall2_nil_inv_r.
  - rewrite Forall2_cons, <- IH. cbn [length Nat.eqb].
    destruct (length a =? length b)%nat; cbn [negb]; [apply compareRules_loop_cons|].
    split; [done|]. by intros [_ ?].
Qed.

Lemma compareRules_valid rules listed :
  Forall valid_rule rules -> exists b, compareRules rules listed = Ok b.
Proof.
  intros Hv. unfold compareRules. destruct (negb _); [eauto|]. revert listed.
  induction Hv as [|rule rules (Ha & Hp & Hr & _) _ IH]; intros [|rb listed];
    cbn [compareRules_loop]; eauto.
  apply ToInstanceAction_valid in Ha. apply ToInstance_valid in Hp as [proto ->].
  destruct (ToInstanceAction (Some (sgr_Action rule))) as [action|e|]; [|done..].
  destruct (ToRange (sgr_Ports rule)) as [[from to]|e|]; [|done..].
  destruct (IH listed) as [b Eb]. cbn.
  repeat match goal with |- context [if ?x then _ else _] => destruct x end; eauto.
Qed.

(** For rules the webhook accepts, [compareRules] always returns an answer, and it
    answers that the rules agree exactly when the two lists have the same length and
    agree rule by rule: protocol, action, range of addresses and ports. *)
Theorem compareRules_correct a b :
  Forall valid_rule a ->
  exists answer, compareRules a b = Ok answer /\ (answer = true <-> Forall2 same_rule a b).
Proof.
  intros Hv. destruct (compareRules_valid a b Hv) as [answer E]. exists answer. split; [done|].
  rewrite <- compareRules_true, E. naive_solver.
Qed.

(** What a rule of the spec becomes in a request. *)
Definition request_of (direction : SecurityGroupRuleDirection) (rule : SecurityGroupRule)
    (req : SetSecurityGroupRulesRequestRule) : Prop :=
  ToInstanceAction (Some (sgr_Action rule)) = Ok (srr_Action req) /\
  ToInstance (sgr_Protocol rule) = Ok (srr_Protocol req) /\
  ToRange (sgr_Ports rule) = Ok (srr_DestPortFrom req, srr_DestPortTo req) /\
  ParseCIDR (rule_IPRange rule) = Ok (srr_IPRange req) /\
  srr_Direction req = direction.

Lemma valid_rule_request rule position direction :
  valid_rule rule ->
  exists req, toInstanceRequestRule position rule direction = Ok req /\
    request_of direction rule req /\ srr_Position req = position.
Proof.
  intros (Ha & Hp & Hr & _ & Hip). unfold toInstanceRequestRule, request_of.
  apply ToInstanceAction_valid in Ha. apply ToInstance_valid in Hp as [proto ->].
  destruct (ToInstanceAction (Some (sgr_Action rule))) as [action|e|]; [|done..].
  destruct (ToRange (sgr_Ports rule)) as [[from to]|e|]; [|done..].
  assert (exists n, ParseCIDR (rule_IPRange rule) = Ok n) as [n En].
  { unfold rule_IPRange, ParseCIDR. destruct (sgr_IPRange rule) as [r|].
    - specialize (Hip r eq_refl). destruct (ParseCIDR_opt r); [eauto|done].
    - eexists. by vm_compute. }
  simpl. rewrite En. simpl. eexists. by split_and!.
Qed.

Lemma valid_rules_requests_from i rules direction :
  Forall valid_rule rules ->
  exists reqs, toInstanceRequestRules i rules direction = Ok reqs /\
    Forall2 (request_of direction) rules reqs /\
    srr_Position <$> reqs = (fun j => uint32 (i + 1 + Z.of_nat j)) <$> seq 0 (length rules).
Proof.
  intros Hv. revert i. induction Hv as [|rule rules Hr _ IH]; intros i; cbn [toInstanceRequestRules].
  - by exists [].
  - destruct (valid_rule_request rule (uint32 (i + 1)) direction Hr) as (req & -> & Hreq & Hpos).
    destruct (IH (i + 1)) as (reqs & -> & Hreqs & Hposs). simpl. exists (req :: reqs).
    split_and!; [done|by constructor|]. rewrite fmap_cons, Hpos, Hposs. f_equal; [f_equal; lia|].
    rewrite <- fmap_S_seq, <- list_fmap_compose. apply list_fmap_ext. intros j k _. simpl. f_equal. lia.
Qed.

(** The rules of a policy the webhook accepts always convert, and the request holds
    them all, in order, with their direction and the positions 1, 2, 3, ... *)
Theorem policy_requests policy direction :
  valid_policy policy ->
  exists reqs, toInstanceRequestRules 0 (policy_rules policy) direction = Ok reqs /\
    Forall2 (request_of direction) (policy_rules policy) reqs /\
    (Z.of_nat (length (policy_rules policy)) < 2 ^ 32 ->
      srr_Position <$> reqs = Z.of_nat <$> seq 1 (length (policy_rules policy))).
Proof.
  intros Hv. destruct (valid_rules_requests_from 0 (policy_rules policy) direction)
    as (reqs & E & Hreqs & Hpos).
  - destruct policy as [p|]; [|constructor]. by destruct (Hv p eq_refl).
  - exists reqs. split_and!; [done..|]. intros Hlen. rewrite Hpos.
    rewrite <- fmap_S_seq, <- list_fmap_compose. apply list_fmap_ext.
    intros j k Hk%lookup_seq. simpl. rewrite uint32_id; lia.
Qed.

(** The rule that the API lists once a request was accepted. *)
Definition listed_rule (req : SetSecurityGroupRulesRequestRule) : InstanceSecurityGroupRule :=
  {| isr_Protocol := srr_Protocol req; isr_Direction := srr_Direction req;
     isr_Action := srr_Action req; isr_IPRange := srr_IPRange req;
     isr_DestPortFrom := srr_DestPortFrom req; isr_DestPortTo := srr_DestPortTo req |}.

Lemma same_rule_listed direction rule req :
  request_of direction rule req ->
  same_rule rule (listed_rule req) <-> canonicalCIDR (rule_IPRange rule) = true.
Proof.
  intros (Ha & Hp & Hr & Hip & _). unfold same_rule, canonicalCIDR. simpl.
  unfold ParseCIDR in Hip. destruct (ParseCIDR_opt _) as [n|]; [|done]. simplify_eq.
  rewrite String_eqb_true. naive_solver.
Qed.

(** C32.  Once the rules of an accepted policy are set and listed back, the comparison of
    the next pass finds them equal, and leaves them alone, exactly when every range is
    written the way [IPNet.String] prints it; with a range such as ["10.0.0.1/8"] it
    never does, and every pass sets the rules again. *)
Theorem rules_settle policy direction reqs :
  valid_policy policy ->
  toInstanceRequestRules 0 (policy_rules policy) direction = Ok reqs ->
  compareRules (policy_rules policy) (listed_rule <$> reqs) = Ok true <->
  Forall (fun rule => canonicalCIDR (rule_IPRange rule) = true) (policy_rules policy).
Proof.
  intros Hv E. destruct (valid_rules_requests_from 0 (policy_rules policy) direction)
    as (reqs' & E' & Hreqs & _).
  { destruct policy as [p|]; [|constructor]. by destruct (Hv p eq_refl). }
  rewrite E in E'. simplify_eq. rewrite compareRules_true, Forall2_fmap_r.
  clear E Hv. induction Hreqs as [|rule req rules reqs' Hreq _ IH]; [by split; constructor|].
  rewrite Forall2_cons, Forall_cons. by rewrite (same_rule_listed direction rule req Hreq), IH.
Qed.

(** ** A pass over the security groups *)

(** An error of the API, possibly wrapped. *)
Fixpoint external_error (e : error) : bool :=
  match e with
  | External _ => true
  | Errorf _ e => external_error e
  | _ => false
  end.

Section evidence.
Context `{SDK : ScwSDK}.
Context (c : ClusterScope) (sgs : list SecurityGroup).
Implicit Types (h : trace) (sg : SecurityGroup).

Let zones : list Zone := Zones c Instance_Zones.

(** The listing of the groups of the cluster, made once. *)
Definition existing_groups h (groups : list InstanceSecurityGroup) : Prop :=
  ok_ev (ListSecurityGroups ZoneFrPar1 None (Cluster_Tags c) zones) groups ∈ h.

Definition policies sg (pin pout : InstanceSGPolicy) : Prop :=
  defaultPolicy (sg_Inbound sg) = Ok pin /\ defaultPolicy (sg_Outbound sg) = Ok pout.

Definition create_request sg zone pin pout : CreateSecurityGroupRequest :=
  {| csg_Zone := zone; csg_Name := SecurityGroupName c (sg_Name sg); csg_Tags := Cluster_Tags c;
     csg_InboundDefaultPolicy := pin; csg_OutboundDefaultPolicy := pout;
     csg_EnableDefaultSecurity := Some false; csg_Stateful := true |}.

Definition update_request (group : InstanceSecurityGroup) zone pin pout
  : UpdateSecurityGroupRequest :=
  {| usg_Zone := zone; usg_SecurityGroupID := isg_ID group; usg_InboundDefaultPolicy := pin;
     usg_OutboundDefaultPolicy := pout; usg_EnableDefaultSecurity := Some false |}.

(** [group] is the group of [sg] in [zone]: listed and, if its policies differed,
    updated; or created. *)
Definition group_of h sg zone (group : InstanceSecurityGroup) : Prop :=
  exists pin pout, policies sg pin pout /\
    ((exists groups, existing_groups h groups /\ group ∈ groups /\
        isg_Name group = SecurityGroupName c (sg_Name sg) /\ isg_Zone group = zone /\
        ((isg_InboundDefaultPolicy group = pin /\ isg_OutboundDefaultPolicy group = pout /\
          isg_EnableDefaultSecurity group = false) \/
         ok_ev (UpdateSecurityGroup (update_request group zone pin pout)) tt ∈ h)) \/
     ok_ev (CreateSecurityGroup (create_request sg zone pin pout)) group ∈ h).

Definition of_direction (d : SecurityGroupRuleDirection) (rules : list InstanceSecurityGroupRule) :=
  List.filter (fun rule => bool_decide (isr_Direction rule = d)) rules.

Definition rules_agree sg (rules : list InstanceSecurityGroupRule) : Prop :=
  Forall2 same_rule (policy_rules (sg_Inbound sg))
    (of_direction SecurityGroupRuleDirectionInbound rules) /\
  Forall2 same_rule (policy_rules (sg_Outbound sg))
    (of_direction SecurityGroupRuleDirectionOutbound rules).

(** The request for all the rules of [sg]. *)
Definition requests_of sg (reqs : list SetSecurityGroupRulesRequestRule) : Prop :=
  exists inbound outbound, reqs = inbound ++ outbound /\
    Forall2 (request_of SecurityGroupRuleDirectionInbound) (policy_rules (sg_Inbound sg)) inbound /\
    Forall2 (request_of SecurityGroupRuleDirectionOutbound) (policy_rules (sg_Outbound sg)) outbound.

(** The group of [sg] in [zone] has the rules of [sg]. *)
Definition sg_ensured h sg zone : Prop :=
  exists group rules, group_of h sg zone group /\
    ok_ev (ListSecurityGroupRules (isg_Zone group) (isg_ID group)) rules ∈ h /\
    (rules_agree sg rules \/
     exists reqs, requests_of sg reqs /\
       ok_ev (SetSecurityGroupRules zone (isg_ID group) reqs) tt ∈ h).

(** What a pass may call. *)
Definition sg_calls : guarantee := fun h call =>
  match call with
  | DeleteSecurityGroup zone id => exists groups group, existing_groups h groups /\
      group ∈ groups /\ zone = isg_Zone group /\ id = isg_ID group /\
      forall sg, sg ∈ sgs -> isg_Name group <> SecurityGroupName c (sg_Name sg)
  | CreateSecurityGroup req => exists groups sg zone pin pout, existing_groups h groups /\
      sg ∈ sgs /\ zone ∈ zones /\ policies sg pin pout /\
      req = create_request sg zone pin pout /\
      forall group, group ∈ groups ->
        ~ (isg_Name group = SecurityGroupName c (sg_Name sg) /\ isg_Zone group = zone)
  | UpdateSecurityGroup req => exists groups group sg zone pin pout, existing_groups h groups /\
      group ∈ groups /\ sg ∈ sgs /\ zone ∈ zones /\ policies sg pin pout /\
      isg_Name group = SecurityGroupName c (sg_Name sg) /\ isg_Zone group = zone /\
      req = update_request group zone pin pout
  | SetSecurityGroupRules zone id reqs => exists sg group rules, sg ∈ sgs /\ zone ∈ zones /\
      group_of h sg zone group /\ id = isg_ID group /\
      ok_ev (ListSecurityGroupRules (isg_Zone group) (isg_ID group)) rules ∈ h /\
      ~ rules_agree sg rules /\ requests_of sg reqs
  | call => mutates call = false
  end.

Section monotone.
Context (h h' : trace) (Hpre : h `prefix_of` h').

Let elem (e : event cloud) : e ∈ h -> e ∈ h' := elem_of_prefix e h h' Hpre.

Lemma group_of_mono sg zone group : group_of h sg zone group -> group_of h' sg zone group.
Proof.
  intros (pin & pout & Hp & H). exists pin, pout. split; [done|].
  destruct H as [(groups & ? & ? & ? & ? & H)|?]; [left|right; auto].
  exists groups. unfold existing_groups in *. split_and!; auto. naive_solver.
Qed.

Lemma sg_ensured_mono sg zone : sg_ensured h sg zone -> sg_ensured h' sg zone.
Proof.
  intros (group & rules & Hg & ? & H). exists group, rules.
  split_and!; [by apply group_of_mono|auto|]. naive_solver.
Qed.
End monotone.
End evidence.

(** ** The operations *)

Section operations.
Context `{SDK : ScwSDK}.
Context (c : ClusterScope) (sgs : list SecurityGroup).
Context (Hvalid : Forall valid_security_group sgs).

Abbreviation sg_wp := (wpM any_resp (sg_calls c sgs)).

Definition sg_post {A} (P : A -> trace -> Prop) : outcome A -> ClusterScope -> trace -> Prop :=
  fun oa c' h' => c' = c /\
    match oa with
    | Ok a => P a h'
    | Err e => external_error e = true
    | Panic => False
    end.

Lemma deleteExtra_spec groups h :
  existing_groups c h groups ->
  sg_wp (deleteExtraSecurityGroups c sgs groups) h c (sg_post (fun _ _ => True)).
Proof.
  intros Hg. unfold deleteExtraSecurityGroups.
  eapply (wpM_for_each _ _ _ _ _ _ (fun _ c' h' => c' = c /\ h `prefix_of` h')); [done|by split; destruct_and?|].
  intros group gs c' h' [-> Hp] Hin. repeat exec_step ltac:(idtac); try by split.
  - exists groups, group. split_and!; try done; [by eapply elem_of_prefix|].
    to_prop. rewrite existsb_not_elem_of in Heqb. intros sg Hsg En.
    specialize (Heqb sg Hsg). cbn beta in Heqb. to_prop. congruence.
  - split; [done|]. auto with caps.
Qed.

Lemma defaultPolicy_valid p : valid_policy p -> exists d, defaultPolicy p = Ok d.
Proof.
  unfold defaultPolicy. destruct p as [p|]; [|eauto]. intros H. destruct (H p eq_refl) as [Hd _].
  destruct (sgp_Default p) as [d|]; [|eauto].
  assert (is_Ok (ToInstancePolicy (Some d))) as Hok
    by (apply ToInstancePolicy_valid; intros a [= <-]; auto).
  destruct (ToInstancePolicy (Some d)) as [x|e|]; [by exists x|done..].
Qed.

Lemma ensureInstanceSG_spec groups sg zone h :
  existing_groups c h groups -> sg ∈ sgs -> zone ∈ Zones c Instance_Zones ->
  sg_wp (ensureInstanceSG c groups sg zone) h c
    (sg_post (fun group h' => group_of c h' sg zone group)).
Proof.
  intros Hg Hsg Hz. rewrite Forall_forall in Hvalid. destruct (Hvalid sg Hsg) as [Hin Hout].
  destruct (defaultPolicy_valid _ Hin) as [pin Epin], (defaultPolicy_valid _ Hout) as [pout Epout].
  unfold ensureInstanceSG. rewrite Epin, Epout.
  repeat exec_step ltac:(idtac); kill_units; try by split.
  all: try match goal with H : List.find _ _ = Some ?g |- _ =>
    apply find_Some_iff in H as [Hing Hn]; to_prop end.
  - do 6 eexists. split_and!; [exact Hg|exact Hing|exact Hsg|exact Hz|by split|done..].
  - split; [done|]. exists pin, pout. split; [by split|]. left. exists groups.
    split_and!; try done; [by apply elem_of_snoc_left|]. right. in_trace.
  - split; [done|]. exists pin, pout. split; [by split|]. left. exists groups.
    split_and!; try done. left. by rewrite !bool_decide_eq_true in *.
  - do 5 eexists. split_and!; [exact Hg|exact Hsg|exact Hz|by split|done|].
    intros group Hgroup [En Ez]. rewrite find_None_iff in Heqo. specialize (Heqo group Hgroup).
    rewrite En, Ez, !String_eqb_refl in Heqo. done.
  - split; [done|]. exists pin, pout. split; [by split|]. right. in_trace.
Qed.

Lemma valid_policy_rules p : valid_policy p -> Forall valid_rule (policy_rules p).
Proof. intros H. destruct p as [p|]; [|constructor]. by destruct (H p eq_refl). Qed.

Lemma ensureSGRules_spec sg zone group h :
  sg ∈ sgs -> zone ∈ Zones c Instance_Zones -> group_of c h sg zone group ->
  sg_wp (ensureSGRules sg zone group) h c (sg_post (fun _ h' => sg_ensured c h' sg zone)).
Proof.
  intros Hsg Hz Hg. rewrite Forall_forall in Hvalid. destruct (Hvalid sg Hsg) as [Hin Hout].
  pose proof (valid_policy_rules _ Hin) as Hvin. pose proof (valid_policy_rules _ Hout) as Hvout.
  unfold ensureSGRules. do 3 exec_step ltac:(done); [|by split].
  cbn [outcome_wrap]. do 3 go_step.
  pose proof (compareRules_true (policy_rules (sg_Inbound sg))
    (of_direction SecurityGroupRuleDirectionInbound a)) as Hcin.
  pose proof (compareRules_true (policy_rules (sg_Outbound sg))
    (of_direction SecurityGroupRuleDirectionOutbound a)) as Hcout.
  unfold of_direction in *.
  destruct (compareRules_valid _ (List.filter (fun rule => bool_decide
    (isr_Direction rule = SecurityGroupRuleDirectionInbound)) a) Hvin) as [bin Ein].
  destruct (compareRules_valid _ (List.filter (fun rule => bool_decide
    (isr_Direction rule = SecurityGroupRuleDirectionOutbound)) a) Hvout) as [bout Eout].
  rewrite Ein in Hcin |- *. rewrite Eout in Hcout |- *. cbn [outcome_wrap]. do 3 go_step.
  cbn [outcome_wrap].
  destruct (valid_rules_requests_from 0 _ SecurityGroupRuleDirectionInbound Hvin)
    as (inbound & Ei & Hi & _).
  destruct (valid_rules_requests_from 0 _ SecurityGroupRuleDirectionOutbound Hvout)
    as (outbound & Eo & Ho & _).
  assert (requests_of sg (inbound ++ outbound)) as Hreq by by exists inbound, outbound.
  destruct (negb bin || negb bout) eqn:Eb.
  - rewrite Ei, Eo. repeat exec_step ltac:(idtac); kill_units; try by split.
    + exists sg, group, a. split_and!; try done; [|in_trace|].
      * eapply group_of_mono; [|exact Hg]. auto with caps.
      * unfold rules_agree, of_direction. intros [[= ->]%Hcin [= ->]%Hcout]. done.
    + split; [done|]. exists group, a. split_and!; [|in_trace|].
      * eapply group_of_mono; [|exact Hg]. auto with caps.
      * right. eexists. split; [exact Hreq|]. in_trace.
  - go_step. split; [done|]. exists group, a. split_and!; [|in_trace|].
    + eapply group_of_mono; [|exact Hg]. auto with caps.
    + left. destruct bin, bout; try done. unfold rules_agree, of_direction. naive_solver.
Qed.

Lemma ensureZones_spec groups sg h :
  existing_groups c h groups -> sg ∈ sgs ->
  sg_wp (for_each (Zones c Instance_Zones) (fun zone =>
    instanceSG ← ensureInstanceSG c groups sg zone;
    ensureSGRules sg zone instanceSG)) h c
    (sg_post (fun _ h' => forall zone, zone ∈ Zones c Instance_Zones -> sg_ensured c h' sg zone)).
Proof.
  intros Hg Hsg.
  eapply (wpM_for_each _ _ _ _ _ _ (fun zs c' h' => c' = c /\ h `prefix_of` h' /\
    forall zone, zone ∈ Zones c Instance_Zones -> zone ∈ zs \/ sg_ensured c h' sg zone)).
  - split_and!; [done..|]. by left.
  - intros c' h' (-> & Hp & H). split; [done|]. intros zone Hz.
    by destruct (H zone Hz) as [?%not_elem_of_nil|].
  - intros zone zs c' h' (-> & Hp & H) Hz. go_step.
    eapply wpM_use; [apply (ensureInstanceSG_spec groups); [by eapply elem_of_prefix|done..]|].
    intros [group|e|] ? h1 P1 [-> H1]; [|by split..].
    eapply wpM_use; [by apply ensureSGRules_spec|].
    intros [[]|e|] ? h2 P2 [-> H2]; [|by split..].
    split; [done|]. split; [by transitivity h'; [|transitivity h1]|].
    intros zone' Hz'. destruct (H zone' Hz') as [[->|?]%elem_of_cons|]; [by right|by left|right].
    eapply sg_ensured_mono; [|done]. by transitivity h1.
Qed.

Lemma ensureSecurityGroups_spec h :
  sg_wp (ensureSecurityGroups sgs) h c (sg_post (fun _ h' =>
    forall sg zone, sg ∈ sgs -> zone ∈ Zones c Instance_Zones -> sg_ensured c h' sg zone)).
Proof.
  unfold ensureSecurityGroups. do 5 exec_step ltac:(done); [|by split].
  cbn [outcome_wrap]. set (h0 := h ++ _).
  assert (existing_groups c h0 a) as Hg by (subst h0; unfold existing_groups; in_trace).
  go_step. eapply wpM_use; [by apply deleteExtra_spec|].
  intros [[]|e|] ? h1 P1 [-> H1]; [|by split..].
  eapply (wpM_for_each _ _ _ _ _ _ (fun sgs' c' h' => c' = c /\ h0 `prefix_of` h' /\
    forall sg, sg ∈ sgs -> sg ∈ sgs' \/
      forall zone, zone ∈ Zones c Instance_Zones -> sg_ensured c h' sg zone)).
  - split_and!; [done..|]. by left.
  - intros c' h' (-> & Hp & HI). split; [done|]. intros sg zone Hsg Hz.
    destruct (HI sg Hsg) as [?%not_elem_of_nil|Hs]; [done|auto].
  - intros sg sgs' c' h' (-> & Hp & HI) Hsg.
    eapply wpM_use; [apply (ensureZones_spec a); [by eapply elem_of_prefix|done]|].
    intros [[]|e|] ? h2 P2 [-> H2]; [|by split..].
    split; [done|]. split; [by transitivity h'|].
    intros sg' Hsg'. destruct (HI sg' Hsg') as [[->|?]%elem_of_cons|Hs]; [by right|by left|right].
    intros zone Hz. eapply sg_ensured_mono; [exact P2|auto].
Qed.
End operations.

Section main.
Context `{SDK : ScwSDK}.

(** The security groups of an accepted object are valid. *)
Lemma valid_cluster_security_groups c :
  valid_cluster (cs_ScalewayCluster c) ->
  Forall valid_security_group (spec_SecurityGroups (cs_Spec c)).
Proof.
  intros (region & _ & _ & _ & _ & Hn). unfold spec_SecurityGroups.
  destruct (scs_Network _) as [n|]; [|constructor]. apply (Hn n eq_refl).
Qed.

Lemma sg_Reconcile_spec c h :
  valid_cluster (cs_ScalewayCluster c) ->
  wpM any_resp (sg_calls c (spec_SecurityGroups (cs_Spec c))) SecurityGroup.Reconcile h c
    (sg_post c (fun _ h' => forall sg zone, sg ∈ spec_SecurityGroups (cs_Spec c) ->
      zone ∈ Zones c Instance_Zones -> sg_ensured c h' sg zone)).
Proof.
  intros Hv. unfold SecurityGroup.Reconcile. do 2 go_step.
  by apply ensureSecurityGroups_spec, valid_cluster_security_groups.
Qed.

(** C31.  For a cluster the webhook accepts, and whatever the APIs answer, a pass over
    the security groups deletes only groups listed with the tags of the cluster that
    the spec does not name, creates only groups of the spec that the listing does not
    show, updates only groups it shows, and replaces the rules of a group only when they
    differ from the rules of the spec, by exactly the latter. *)
Theorem securitygroup_calls (o : oracle cloud) (c : ClusterScope) t1 call r t2 :
  valid_cluster (cs_ScalewayCluster c) ->
  (runM o [] SecurityGroup.Reconcile c).1 = t1 ++ CEv call r :: t2 ->
  sg_calls c (spec_SecurityGroups (cs_Spec c)) t1 call.
Proof.
  intros Hv E.
  destruct (wpM_sound _ _ o _ _ _ _ (admissible_any o) (sg_Reconcile_spec c [] Hv))
    as (t & Et & Hob & _). rewrite Et in E. apply (Hob t1 call r t2 E).
Qed.

(** For a cluster the webhook accepts, a pass over the security groups fails only
    with an error of the API, never panics, leaves the object alone, and when it
    succeeds every group of the spec exists in every zone with its policies and rules. *)
Theorem securitygroup_Reconcile_result (o : oracle cloud) (c : ClusterScope) :
  valid_cluster (cs_ScalewayCluster c) ->
  let '(t, (oa, c')) := runM o [] SecurityGroup.Reconcile c in
  c' = c /\
  match oa with
  | Ok _ => forall sg zone, sg ∈ spec_SecurityGroups (cs_Spec c) ->
      zone ∈ Zones c Instance_Zones -> sg_ensured c t sg zone
  | Err e => external_error e = true
  | Panic => False
  end.
Proof.
  intros Hv.
  destruct (wpM_sound _ _ o _ _ _ _ (admissible_any o) (sg_Reconcile_spec c [] Hv))
    as (t & Et & _ & HQ).
  by destruct (runM o [] SecurityGroup.Reconcile c) as [t' [oa c']].
Qed.
End main.

(** ** The sample cluster *)

#[local] Existing Instance sim_sdk.

Definition demo_policy (range : string) : option SecurityGroupPolicy := Some
  {| sgp_Default := None;
     sgp_Rules := [{| sgr_Action := "Accept"; sgr_Protocol := Some "TCP"%string;
                      sgr_Ports := Some "80-443"%string; sgr_IPRange := Some range |}] |}.

Definition demo_request (range : IPNet) : SetSecurityGroupRulesRequestRule :=
  {| srr_Action := SecurityGroupRuleActionAccept; srr_Protocol := SecurityGroupRuleProtocolTCP;
     srr_Direction := SecurityGroupRuleDirectionInbound; srr_IPRange := range;
     srr_DestPortFrom := Some 80; srr_DestPortTo := Some 443; srr_Position := 1 |}.

Lemma demo_policy_valid range : ParseCIDR_opt range <> None -> valid_policy (demo_policy range).
Proof.
  intros Hr p [= <-]. split; [by intros d [=]|]. apply Forall_singleton. split_and!.
  - by left.
  - right; left. done.
  - by vm_compute.
  - by left.
  - by intros r [= <-].
Qed.

Lemma compareRules_correct_witness :
  exists answer, compareRules (policy_rules (demo_policy "10.0.0.0/8")) [] = Ok answer /\
    (answer = true <-> Forall2 same_rule (policy_rules (demo_policy "10.0.0.0/8")) []).
Proof.
  apply compareRules_correct.
  apply (demo_policy_valid "10.0.0.0/8" ltac:(by vm_compute) _ eq_refl).
Defined.

Lemma policy_requests_witness :
  exists reqs, toInstanceRequestRules 0 (policy_rules (demo_policy "10.0.0.0/8"))
      SecurityGroupRuleDirectionInbound = Ok reqs /\ srr_Position <$> reqs = [1].
Proof.
  destruct (policy_requests (demo_policy "10.0.0.0/8") SecurityGroupRuleDirectionInbound)
    as (reqs & E & _ & Hpos); [apply demo_policy_valid; by vm_compute|].
  exists reqs. split; [exact E|]. apply Hpos. vm_compute. reflexivity.
Defined.

(** The canonical range settles; the other one is set again by every pass. *)
Lemma rules_settle_witness :
  compareRules (policy_rules (demo_policy "10.0.0.0/8"))
    (listed_rule <$> [demo_request {| IPNet_IP := [10; 0; 0; 0]; IPNet_Mask := [255; 0; 0; 0] |}])
    = Ok true /\
  compareRules (policy_rules (demo_policy "10.0.0.1/8"))
    (listed_rule <$> [demo_request {| IPNet_IP := [10; 0; 0; 0]; IPNet_Mask := [255; 0; 0; 0] |}])
    <> Ok true.
Proof.
  split.
  - apply (rules_settle (demo_policy "10.0.0.0/8") SecurityGroupRuleDirectionInbound);
      [apply demo_policy_valid; by vm_compute | by vm_compute |].
    apply Forall_singleton. by vm_compute.
  - intros H. apply (rules_settle (demo_policy "10.0.0.1/8") SecurityGroupRuleDirectionInbound) in H;
      [|apply demo_policy_valid; by vm_compute | by vm_compute].
    apply (proj1 (Forall_singleton _ _)) in H.
    assert (canonicalCIDR "10.0.0.1/8" = false) as E by by vm_compute.
    assert (canonicalCIDR "10.0.0.1/8" = true) as E' by exact H.
    rewrite E in E'. discriminate.
Defined.

Definition demo_sg_trace : trace :=
  (runM (sim demo_world) [] SecurityGroup.Reconcile (demo_scope demo_cluster)).1.

Definition demo_set : cloud_call :=
  SetSecurityGroupRules "fr-par-1" "id-1"
    [demo_request {| IPNet_IP := [10; 0; 0; 0]; IPNet_Mask := [255; 0; 0; 0] |}].

Lemma demo_sg_sets :
  (runM (sim demo_world) [] SecurityGroup.Reconcile (demo_scope demo_cluster)).1 =
    take 3 demo_sg_trace ++ CEv demo_set (sim demo_world (take 3 demo_sg_trace) demo_set) ::
    drop 4 demo_sg_trace.
Proof. by vm_compute. Qed.

Lemma securitygroup_calls_witness :
  sg_calls (demo_scope demo_cluster) (spec_SecurityGroups (sc_Spec demo_cluster))
    (take 3 demo_sg_trace) demo_set.
Proof. eapply securitygroup_calls; [exact demo_valid | exact demo_sg_sets]. Defined.

Lemma securitygroup_Reconcile_result_witness :
  let '(t, (oa, c')) := runM (sim demo_world) [] SecurityGroup.Reconcile (demo_scope demo_cluster) in
  c' = demo_scope demo_cluster /\ match oa with Panic => False | _ => True end.
Proof.
  pose proof (securitygroup_Reconcile_result (sim demo_world) (demo_scope demo_cluster) demo_valid) as H.
  destruct (runM _ _ _ _) as [t [[x|e|] c']]; destruct H as [Hc H]; split;
    [exact Hc|exact I|exact Hc|exact I|exact Hc|exact H].
Defined.
