(* ===== verification/ClusterTeardown.v ===== *)
(** * How a cluster is taken down

    [ClusterController.reconcileDelete] removes what the provider created, in an order
    that the APIs accept, spares what the user supplied, and drops the finalizer only
    when nothing is left. *)

From S2P Require Import Prelude Go Net Prog Sdk Types Cloud Ledger Scope Client.
From S2P Require Vpc Vpcgw SecurityGroup LoadBalancer.
From S2P Require Import ClusterController Simulation NoDuplicates.
#[local] Open Scope caps_scope.

(** ** Evidence *)

Section evidence.
Context `{SDK : ScwSDK}.
Context (c : ClusterScope).
Implicit Types h : trace.

(** Each resource: the listing by name or tags showed it missing, or its deletion was
    accepted. *)
Definition lb_gone h : Prop :=
  exists lbs, ok_ev (ListLBs (LoadBalancerZone c) (Some (Cluster_Name c))) lbs ∈ h /\
    ((forall lb, lb ∈ lbs -> lb_Name lb <> Cluster_Name c) \/
     exists lb, lb ∈ lbs /\ lb_Name lb = Cluster_Name c /\
       ok_ev (DeleteLB (lb_Zone lb) (lb_ID lb) (is_none (LoadBalancer.spec_IP c))) tt ∈ h).

Definition gateway_gone h : Prop :=
  exists gws, ok_ev (ListGatewaysByName (PublicGatewayZone c) (Cluster_Name c)
                       (cs_ProjectID c)) gws ∈ h /\
    ((forall gw, gw ∈ gws -> gw_Name gw <> Cluster_Name c) \/
     exists gw, gw ∈ gws /\ gw_Name gw = Cluster_Name c /\
       ok_ev (DeleteGateway (PublicGatewayZone c) (gw_ID gw)) tt ∈ h).

Definition gateway_ip_gone h : Prop :=
  exists ips, ok_ev (GatewayListIPsByTags (PublicGatewayZone c) (Cluster_Tags c)
                       (cs_ProjectID c)) ips ∈ h /\
    (ips = [] \/ exists ip, ips = [ip] /\
       ok_ev (GatewayDeleteIP (PublicGatewayZone c) (gip_ID ip)) tt ∈ h).

Definition pn_gone h : Prop :=
  exists pns, ok_ev (ListPrivateNetworks (Cluster_Region c) (Some (Cluster_Name c))
                       (cs_ProjectID c)) pns ∈ h /\
    ((forall pn, pn ∈ pns -> pn_Name pn <> Cluster_Name c) \/
     exists pn, pn ∈ pns /\ pn_Name pn = Cluster_Name c /\
       ok_ev (DeletePrivateNetwork (Cluster_Region c) (pn_ID pn)) tt ∈ h).

Definition sgs_gone h : Prop :=
  exists groups, ok_ev (ListSecurityGroups ZoneFrPar1 None (Cluster_Tags c)
                          (Zones c Instance_Zones)) groups ∈ h /\
    forall group, group ∈ groups ->
      ok_ev (DeleteSecurityGroup (isg_Zone group) (isg_ID group)) tt ∈ h.

(** The gateway of the spec is the provider's; its address is. *)
Definition owns_gateway : Prop :=
  HasPrivateNetwork c = true /\ HasPublicGateway c = true /\
  exists pg, Vpcgw.PublicGateway c = Ok pg /\ pgs_ID pg = None.

Definition owns_gateway_ip : Prop :=
  HasPrivateNetwork c = true /\ HasPublicGateway c = true /\
  exists pg, Vpcgw.PublicGateway c = Ok pg /\ pgs_ID pg = None /\ pgs_IP pg = None.

Definition owns_pn : Prop := ShouldManagePrivateNetwork c = true.

(** What is gone after each step. *)
Definition gateways_gone h : Prop :=
  (owns_gateway -> gateway_gone h) /\ (owns_gateway_ip -> gateway_ip_gone h).

Definition networks_gone h : Prop := gateways_gone h /\ (owns_pn -> pn_gone h).

(** What [reconcileDelete] may call. *)
Definition delete_calls : guarantee := fun h call =>
  match call with
  | DeleteLB zone id releaseIP =>
      releaseIP = is_none (LoadBalancer.spec_IP c) /\
      exists lbs lb, ok_ev (ListLBs (LoadBalancerZone c) (Some (Cluster_Name c))) lbs ∈ h /\
        lb ∈ lbs /\ lb_Name lb = Cluster_Name c /\ zone = lb_Zone lb /\ id = lb_ID lb
  | DeleteGateway zone id =>
      owns_gateway /\ lb_gone h /\ zone = PublicGatewayZone c /\
      exists gws gw, ok_ev (ListGatewaysByName zone (Cluster_Name c) (cs_ProjectID c)) gws ∈ h /\
        gw ∈ gws /\ gw_Name gw = Cluster_Name c /\ id = gw_ID gw
  | GatewayDeleteIP zone id =>
      owns_gateway_ip /\ gateway_gone h /\ zone = PublicGatewayZone c /\
      exists ip, ok_ev (GatewayListIPsByTags zone (Cluster_Tags c) (cs_ProjectID c)) [ip] ∈ h /\
        id = gip_ID ip
  | DeletePrivateNetwork region id =>
      owns_pn /\ lb_gone h /\ gateways_gone h /\ region = Cluster_Region c /\
      exists pns pn, ok_ev (ListPrivateNetworks region (Some (Cluster_Name c))
                              (cs_ProjectID c)) pns ∈ h /\
        pn ∈ pns /\ pn_Name pn = Cluster_Name c /\ id = pn_ID pn
  | DeleteSecurityGroup zone id =>
      lb_gone h /\ networks_gone h /\
      exists groups group, ok_ev (ListSecurityGroups ZoneFrPar1 None (Cluster_Tags c)
                                    (Zones c Instance_Zones)) groups ∈ h /\
        group ∈ groups /\ zone = isg_Zone group /\ id = isg_ID group
  | call => mutates call = false
  end.

Section monotone.
Context (h h' : trace) (Hpre : h `prefix_of` h').

Let elem (e : event cloud) : e ∈ h -> e ∈ h' := elem_of_prefix e h h' Hpre.

Lemma lb_gone_mono : lb_gone h -> lb_gone h'.
Proof. unfold lb_gone. naive_solver. Qed.
Lemma gateway_gone_mono : gateway_gone h -> gateway_gone h'.
Proof. unfold gateway_gone. naive_solver. Qed.
Lemma gateway_ip_gone_mono : gateway_ip_gone h -> gateway_ip_gone h'.
Proof. unfold gateway_ip_gone. naive_solver. Qed.
Lemma pn_gone_mono : pn_gone h -> pn_gone h'.
Proof. unfold pn_gone. naive_solver. Qed.
Lemma gateways_gone_mono : gateways_gone h -> gateways_gone h'.
Proof. intros [H1 H2]. split; auto using gateway_gone_mono, gateway_ip_gone_mono. Qed.
Lemma networks_gone_mono : networks_gone h -> networks_gone h'.
Proof. intros [H1 H2]. split; auto using gateways_gone_mono, pn_gone_mono. Qed.
End monotone.
End evidence.

(** ** The operations *)

Section operations.
Context `{SDK : ScwSDK} `{K8S : K8sLib}.
Context (c : ClusterScope).

Abbreviation del_wp := (wpM any_resp (delete_calls c)).

Definition del_post (P : trace -> Prop) : outcome unit -> ClusterScope -> trace -> Prop :=
  fun oa c' h' => c' = c /\ match oa with Ok _ => P h' | Err _ => True | Panic => False end.

Lemma lb_Delete_spec h : del_wp LoadBalancer.Delete h c (del_post (lb_gone c)).
Proof.
  unfold LoadBalancer.Delete. repeat exec_step ltac:(try done); kill_units; to_prop; try by split.
  - split; [done|]. do 2 eexists. split_and!; [in_trace|eassumption|done..].
  - split; [done|]. eexists. split; [in_trace|]. right. eexists. split_and!; [eassumption|done|].
    in_trace.
  - split; [done|]. eexists. split; [in_trace|]. left. by apply names_differ.
Qed.

Lemma PublicGateway_Ok : HasPublicGateway c = true -> exists pg, Vpcgw.PublicGateway c = Ok pg.
Proof.
  unfold HasPublicGateway, Vpcgw.PublicGateway.
  destruct (scs_Network _) as [[pn [pg|] sgs]|]; [|done..]. intros _. by exists pg.
Qed.

(** The end of [Vpcgw.Delete]: the address of the gateway. *)
Lemma gw_ip_Delete_spec pg h :
  owns_gateway c -> Vpcgw.PublicGateway c = Ok pg -> gateway_gone c h ->
  del_wp
    (match pgs_IP pg with
     | Some _ => mret tt
     | None =>
         existingIP ← wrapf "failed to find Public Gateway IP"
           (unless_Is ErrNoItemFound
             (FindGatewayIPByTags (cs_ProjectID c) (PublicGatewayZone c) (Cluster_Tags c)));
         match existingIP with
         | Some ip => wrapf "failed to delete Public Gateway IP"
             (remote (GatewayDeleteIP (PublicGatewayZone c) (gip_ID ip)))
         | None => mret tt
         end
     end) h c (del_post (gateways_gone c)).
Proof.
  intros (Hpn & Hgw & pg' & E & Hid) Epg Hgone. rewrite Epg in E. simplify_eq.
  assert (forall h', h `prefix_of` h' -> gateway_gone c h') as Hmono
    by (intros; by eapply gateway_gone_mono).
  destruct (pgs_IP pg') as [ip|] eqn:Eip.
  - go_step. split; [done|]. split; [done|]. intros (_ & _ & pg & E & _ & Hip).
    rewrite Epg in E. by simplify_eq.
  - assert (owns_gateway_ip c) as Hown by (split_and!; [done..|by exists pg']).
    repeat exec_step ltac:(try done); kill_units; to_prop; subst; try by split.
    + split_and!; [done|apply Hmono; auto with caps|done|]. eexists. split; [|done]. in_trace.
    + split; [done|]. split; [intros _; apply Hmono; auto with caps|]. intros _.
      eexists. split; [in_trace|]. right. eexists. split; [done|]. in_trace.
    + split; [done|]. split; [intros _; apply Hmono; auto with caps|]. intros _.
      eexists. split; [in_trace|]. by left.
Qed.

Lemma gw_Delete_spec h :
  lb_gone c h -> del_wp Vpcgw.Delete h c (del_post (gateways_gone c)).
Proof.
  intros Hlb. unfold Vpcgw.Delete. do 2 go_step.
  destruct (negb (HasPrivateNetwork c) || negb (HasPublicGateway c)) eqn:Ehas.
  { go_step. split; [done|]. split; intros (Hpn & Hgw & _); by rewrite Hpn, Hgw in Ehas. }
  to_prop. destruct PublicGateway_Ok as [pg Epg]; [done|]. rewrite Epg. do 2 go_step.
  destruct (pgs_ID pg) as [id|] eqn:Eid.
  { go_step. split; [done|]. split; intros (_ & _ & pg' & E & Hid); rewrite Epg in E;
      simplify_eq; destruct_and?; congruence. }
  assert (owns_gateway c) as Hown by (split_and!; [done..|by exists pg]).
  do 3 exec_step ltac:(try done); cbn [outcome_wrap]; [..|by split].
  - do 3 exec_step ltac:(idtac); kill_units; to_prop; cbn [outcome_wrap]; [..|by split].
    + split_and!; [done|by eapply lb_gone_mono; [|exact Hlb]; auto with caps|done|].
      do 2 eexists. split_and!; [in_trace|eassumption|done..].
    + apply gw_ip_Delete_spec; [done..|]. eexists. split; [in_trace|]. right.
      eexists. split_and!; [eassumption|done|]. in_trace.
  - do 2 exec_step ltac:(idtac). apply gw_ip_Delete_spec; [done..|].
    eexists. split; [in_trace|]. left. by apply names_differ.
Qed.

Lemma vpc_Delete_spec h :
  lb_gone c h -> gateways_gone c h ->
  del_wp Vpc.Delete h c (fun oa c' h' => c' = c /\
    match oa with
    | Ok _ => owns_pn c -> pn_gone c h'
    | Err _ => True
    | Panic => False
    end).
Proof.
  intros Hlb Hgw. unfold Vpc.Delete, owns_pn. do 3 go_step.
  - go_step. split; [done|]. intros H. by rewrite H in Heqb.
  - to_prop. repeat exec_step ltac:(try done); kill_units; to_prop; try by split.
    + split_and!; [done|by eapply lb_gone_mono; [|exact Hlb]; auto with caps
        |by eapply gateways_gone_mono; [|exact Hgw]; auto with caps|done|].
      do 2 eexists. split_and!; [in_trace|eassumption|done..].
    + split; [done|]. intros _. eexists. split; [in_trace|]. right.
      eexists. split_and!; [eassumption|done|]. in_trace.
    + split; [done|]. intros _. eexists. split; [in_trace|]. left. by apply names_differ.
Qed.

Lemma sg_Delete_spec h :
  lb_gone c h -> networks_gone c h ->
  del_wp SecurityGroup.Delete h c (del_post (sgs_gone c)).
Proof.
  intros Hlb Hnet. unfold SecurityGroup.Delete, SecurityGroup.ensureSecurityGroups.
  do 5 exec_step ltac:(try done); cbn [outcome_wrap]; [|by split]. set (h0 := h ++ _).
  go_step. unfold SecurityGroup.deleteExtraSecurityGroups.
  eapply (wpM_for_each _ _ _ _ _ _ (fun gs c' h' => c' = c /\ h0 `prefix_of` h' /\
    forall group, group ∈ a -> group ∈ gs \/
      ok_ev (DeleteSecurityGroup (isg_Zone group) (isg_ID group)) tt ∈ h')).
  - split_and!; [done..|]. by left.
  - intros c' h' (-> & Hp & HI). cbn [for_each]. go_step. split; [done|]. exists a.
    split; [eapply elem_of_prefix; [exact Hp|]; subst h0; in_trace|].
    intros group Hg. by destruct (HI group Hg) as [?%not_elem_of_nil|].
  - intros group gs c' h' (-> & Hp & HI) Hin. cbn [List.existsb negb].
    repeat exec_step ltac:(idtac); kill_units; [..|by split].
    + assert (h `prefix_of` h') by (etransitivity; [|exact Hp]; subst h0; auto with caps).
      split_and!; [by eapply lb_gone_mono|by eapply networks_gone_mono|].
      exists a, group. split_and!; [|done..].
      eapply elem_of_prefix; [exact Hp|]. subst h0. in_trace.
    + split; [done|]. split; [auto with caps|]. intros group' Hg'.
      destruct (HI group' Hg') as [[->|?]%elem_of_cons|]; [right; in_trace|by left|right; in_trace].
Qed.

(** The object once the finalizer is dropped. *)
Definition without_finalizer : ClusterScope :=
  set_cs_ObjectMeta
    (RemoveFinalizer (sc_ObjectMeta (cs_ScalewayCluster c)) ClusterFinalizer).1 c.

Lemma reconcileDelete_spec h :
  del_wp reconcileDelete h c (fun oa c' h' =>
    match oa with
    | Ok r => (r = no_requeue /\ c' = without_finalizer /\
               lb_gone c h' /\ networks_gone c h' /\ sgs_gone c h') \/
              (r = requeue_2s /\ c' = c)
    | Err _ => c' = c
    | Panic => False
    end).
Proof.
  unfold reconcileDelete. go_step. eapply wpM_use; [apply lb_Delete_spec|].
  intros [[]|e|] ? h1 P1 [-> H1]; try done.
  go_step. eapply wpM_use; [by apply gw_Delete_spec|].
  intros [[]|e|] ? h2 P2 [-> H2]; try done.
  go_step. go_step. eapply wpM_use; [by apply vpc_Delete_spec; [by eapply lb_gone_mono|]|].
  intros [[]|e|] ? h3 P3 [-> H3]; [|repeat go_step; [by right|done]|done].
  assert (lb_gone c h3) as Hlb by (eapply lb_gone_mono; [|exact H1]; by transitivity h2).
  assert (networks_gone c h3) as Hnet by (split; [by eapply gateways_gone_mono|done]).
  go_step. eapply wpM_use; [by apply sg_Delete_spec|].
  intros [[]|e|] ? h4 P4 [-> H4]; try done.
  go_step. go_step. go_step. left.
  split_and!; try done; [by eapply lb_gone_mono|by eapply networks_gone_mono].
Qed.
End operations.

Section main.
Context `{SDK : ScwSDK} `{K8S : K8sLib} `{!K8sLaws}.

(** C16.  Whatever the APIs answer, the deletion of a cluster only deletes resources
    listed under the names and tags of the cluster; it never touches a Private Network
    or a Public Gateway given by its ID, nor releases an address given in the spec; and
    it goes in order: a Public Gateway is deleted after the load balancer is gone, its
    address after the gateway, the Private Network after both, and the security groups
    last. *)
Theorem cluster_delete_calls (o : oracle cloud) (c : ClusterScope) t1 call r t2 :
  (runM o [] reconcileDelete c).1 = t1 ++ CEv call r :: t2 -> delete_calls c t1 call.
Proof.
  intros E. destruct (wpM_sound _ _ o _ _ _ _ (admissible_any o) (reconcileDelete_spec c []))
    as (t & Et & Hob & _). rewrite Et in E. apply (Hob t1 call r t2 E).
Qed.

(** A deletion pass drops the finalizer only when the load balancer, the networks
    the provider owns and the security groups are all gone; in every other case,
    errors included, the object is left alone, and the pass never panics. *)
Theorem cluster_delete_result (o : oracle cloud) (c : ClusterScope) :
  let '(t, (oa, c')) := runM o [] reconcileDelete c in
  oa <> Panic /\
  ((oa = Ok no_requeue /\ c' = without_finalizer c /\
    (ClusterFinalizer ∉ om_Finalizers (sc_ObjectMeta (cs_ScalewayCluster c'))) /\
    lb_gone c t /\ networks_gone c t /\ sgs_gone c t) \/
   (oa <> Ok no_requeue /\ c' = c)).
Proof.
  destruct (wpM_sound _ _ o _ _ _ _ (admissible_any o) (reconcileDelete_spec c []))
    as (t & Et & _ & HQ).
  destruct (runM o [] reconcileDelete c) as [t' [[r|e|] c']]; simpl in *; [| |done].
  - split; [done|]. destruct HQ as [(-> & -> & ?)|[-> ->]]; [left|right; done].
    split_and!; try done; try by destruct_and?. apply RemoveFinalizer_out.
  - split; [done|]. right. by split.
Qed.
End main.

(** ** The sample cluster *)

#[local] Existing Instances sim_sdk sim_k8s sim_k8s_laws.

Definition demo_delete : trace := (runM demo_oracle [] reconcileDelete demo_cluster_scope).1.

Definition demo_delete_pn : cloud_call := DeletePrivateNetwork "fr-par" "id-14".

Lemma demo_deletes_pn :
  (runM demo_oracle [] reconcileDelete demo_cluster_scope).1 =
    take 7 demo_delete ++ CEv demo_delete_pn (ROk tt) :: drop 8 demo_delete.
Proof. by vm_compute. Qed.

Lemma cluster_delete_calls_witness :
  delete_calls demo_cluster_scope (take 7 demo_delete) demo_delete_pn.
Proof. eapply cluster_delete_calls. exact demo_deletes_pn. Defined.

(** The deletion of the sample cluster drops the finalizer. *)
Lemma cluster_delete_result_witness :
  (runM demo_oracle [] reconcileDelete demo_cluster_scope).2.1 = Ok no_requeue /\
  lb_gone demo_cluster_scope (runM demo_oracle [] reconcileDelete demo_cluster_scope).1 /\
  networks_gone demo_cluster_scope (runM demo_oracle [] reconcileDelete demo_cluster_scope).1.
Proof.
  pose proof (cluster_delete_result demo_oracle demo_cluster_scope) as H.
  assert ((runM demo_oracle [] reconcileDelete demo_cluster_scope).2.1 = Ok no_requeue) as E
    by (vm_compute; reflexivity).
  split; [exact E|]. revert E H.
  destruct (runM _ _ _ _) as [t [oa c']]; cbn [fst snd]; intros ->.
  intros [_ [(_ & _ & _ & Hlb & Hnet & _)|[Hno _]]]; [by split|by destruct Hno].
Defined.
