(* ===== verification/Controllers.v ===== *)
(** * The passes of the two controllers

    The finalizer is stored before anything is created; the object is written back
    however a pass ends; a cluster is marked ready only with its endpoint. *)

From S2P Require Import Prelude Go Net Prog Sdk Types Cloud Ledger Scope Client Secret.
From S2P Require Vpc Vpcgw SecurityGroup LoadBalancer Instance.
From S2P Require ClusterController MachineController.
From S2P Require Import Bringup ControlPlane Simulation NoDuplicates ClusterValidation.
From S2P Require ClusterWebhook.
#[local] Open Scope caps_scope.

(** ** The finalizer comes first *)

Section finalizers.
Context `{SDK : ScwSDK} `{K8S : K8sLib} `{!K8sLaws}.
Implicit Types h : trace.

(** The object read at the start of the pass is being deleted, or already had the
    finalizer, or was patched with it. *)
Definition cluster_protected h : Prop :=
  (exists key sc, ok_ev (GetScalewayCluster key) sc ∈ h /\
     (Time_IsZero (om_DeletionTimestamp (sc_ObjectMeta sc)) = false \/
      ClusterFinalizer ∈ om_Finalizers (sc_ObjectMeta sc))) \/
  (exists before sc, ok_ev (Patch before (OCluster sc)) tt ∈ h /\
     ClusterFinalizer ∈ om_Finalizers (sc_ObjectMeta sc)).

Definition machine_protected h : Prop :=
  (exists key sm, ok_ev (GetScalewayMachine key) sm ∈ h /\
     (Time_IsZero (om_DeletionTimestamp (sm_ObjectMeta sm)) = false \/
      MachineFinalizer ∈ om_Finalizers (sm_ObjectMeta sm))) \/
  (exists before sm, ok_ev (Patch before (OMachine sm)) tt ∈ h /\
     MachineFinalizer ∈ om_Finalizers (sm_ObjectMeta sm)).

Definition only_if (P : trace -> Prop) : guarantee := fun h call => mutates call = true -> P h.

Lemma only_if_read P h call : mutates call = false -> only_if P h call.
Proof. unfold only_if. congruence. Qed.

Lemma cluster_protected_snoc h e : cluster_protected h -> cluster_protected (h ++ [e]).
Proof.
  intros [(k & sc & ? & ?)|(b & sc & ? & ?)]; [left; exists k, sc|right; exists b, sc];
    split; auto with caps.
Qed.

Lemma machine_protected_snoc h e : machine_protected h -> machine_protected (h ++ [e]).
Proof.
  intros [(k & sm & ? & ?)|(b & sm & ? & ?)]; [left; exists k, sm|right; exists b, sm];
    split; auto with caps.
Qed.

(** Anything may follow once the object is protected. *)
Lemma protected_any {S A} (P : trace -> Prop) (m : GoC S A) h s :
  (forall h e, P h -> P (h ++ [e])) -> P h ->
  wpM any_resp (only_if P) m h s (fun _ _ _ => True).
Proof.
  intros HP Hh. eapply wpM_weaken; [by apply (wpM_always any_resp P)| |done].
  by intros h' c Hc _.
Qed.

Lemma cluster_reconcileNormal_protected key h c :
  ok_ev (GetScalewayCluster key) (cs_ScalewayCluster c) ∈ h \/
    om_Finalizers (sc_ObjectMeta (cs_ScalewayCluster c)) = [] ->
  wpM any_resp (only_if cluster_protected) ClusterController.reconcileNormal h c
    (fun _ _ _ => True).
Proof.
  intros Hc. unfold ClusterController.reconcileNormal. do 2 go_step.
  set (meta := sc_ObjectMeta (cs_ScalewayCluster c)) in *.
  pose proof (AddFinalizer_in meta ClusterFinalizer) as Hin.
  pose proof (AddFinalizer_changed meta ClusterFinalizer) as Hch.
  destruct (AddFinalizer meta ClusterFinalizer) as [meta' added]. simpl in Hin, Hch.
  do 2 go_step. go_step. destruct added.
  - unfold Cluster_PatchObject. do 2 go_step. go_step; [by apply only_if_read| |done].
    kill_units. apply protected_any; [apply cluster_protected_snoc|]. right.
    do 2 eexists. split; [in_trace|exact Hin].
  - go_step. apply protected_any; [apply cluster_protected_snoc|].
    rewrite (Hch eq_refl) in Hin. destruct Hc as [Hc|Hc].
    + left. exists key, (cs_ScalewayCluster c). split; [done|]. by right.
    + rewrite Hc in Hin. by apply not_elem_of_nil in Hin.
Qed.

Lemma machine_reconcileNormal_protected key h m :
  ok_ev (GetScalewayMachine key) (ms_ScalewayMachine m) ∈ h ->
  wpM any_resp (only_if machine_protected) MachineController.reconcileNormal h m
    (fun _ _ _ => True).
Proof.
  intros Hm. unfold MachineController.reconcileNormal. do 2 go_step.
  set (meta := sm_ObjectMeta (ms_ScalewayMachine m)) in *.
  pose proof (AddFinalizer_in meta MachineFinalizer) as Hin.
  pose proof (AddFinalizer_changed meta MachineFinalizer) as Hch.
  destruct (AddFinalizer meta MachineFinalizer) as [meta' added]. simpl in Hin, Hch.
  do 2 go_step. go_step. destruct added.
  - unfold Machine_PatchObject. do 2 go_step. go_step; [by apply only_if_read| |done].
    kill_units. apply protected_any; [apply machine_protected_snoc|]. right.
    do 2 eexists. split; [in_trace|exact Hin].
  - go_step. apply protected_any; [apply machine_protected_snoc|].
    rewrite (Hch eq_refl) in Hin. left. exists key, (ms_ScalewayMachine m). auto.
Qed.

(** Reads and Kubernetes calls are not restricted. *)
Lemma clientFromSecret_read {S} P (sc : ScalewayCluster) h (s : S) Q :
  (forall oa h', h `prefix_of` h' -> Q oa s h') ->
  wpM any_resp (only_if P) (clientFromSecret sc) h s Q.
Proof.
  intros HQ. eapply wpM_use.
  - assert (safe any_resp (only_if P) (eq s) (clientFromSecret sc)) as Hs.
    { unfold clientFromSecret, takeOwnership. safe_auto;
        apply safe_remote; intros; by apply only_if_read. }
    by apply Hs.
  - intros oa s' h' Hp <-. by apply HQ.
Qed.

Lemma with_deferred_true {S A} G (close : GoC S unit) (m : GoC S A) h s :
  wpM any_resp G m h s (fun _ _ _ => True) ->
  (forall h s, wpM any_resp G close h s (fun _ _ _ => True)) ->
  wpM any_resp G (with_deferred close m) h s (fun _ _ _ => True).
Proof.
  intros Hm Hc. apply wpM_with_deferred. eapply wpM_mono; [exact Hm|]. intros oa s' h' _.
  apply Hc.
Qed.

Ltac read_step :=
  lazymatch goal with
  | |- wpM _ _ (remote _) _ _ _ =>
      apply wpM_remote; [by apply only_if_read | intros ? _ | intros ? _]
  | |- wpM _ _ (clientFromSecret _) _ _ _ => apply clientFromSecret_read; intros [?|?|] ? ?
  | |- wpM _ _ (NewCluster _ _ _) _ _ _ => apply wp_NewCluster; [by apply only_if_read| |intros ? ?]
  | |- wpM _ _ (NewMachine _ _ _ _ _) _ _ _ =>
      apply wp_NewMachine; [intros; by apply only_if_read| |intros ? ?|intros ? ?]
  | |- wpM _ _ (in_scope _ _) _ _ _ => apply wpM_in_scope
  | |- wpM _ _ (with_deferred _ _) _ _ _ => fail
  | _ => go_step
  end; cbn beta iota delta [outcome_wrap].

Lemma Cluster_Close_read P h c :
  wpM any_resp (only_if P) Cluster_Close h c (fun _ _ _ => True).
Proof. unfold Cluster_Close, Cluster_PatchObject. repeat read_step; done. Qed.

Lemma Machine_Close_read P h m :
  wpM any_resp (only_if P) Machine_Close h m (fun _ _ _ => True).
Proof. unfold Machine_Close, Machine_PatchObject. repeat read_step; done. Qed.

Lemma reconcileObject_protected sc h :
  (exists key, ok_ev (GetScalewayCluster key) sc ∈ h) \/
    sc = ClusterController.zero_ScalewayCluster ->
  wpM any_resp (only_if cluster_protected) (ClusterController.reconcileObject sc) h tt
    (fun _ _ _ => True).
Proof.
  intros Hsc. unfold ClusterController.reconcileObject. repeat read_step; try done.
  eapply wpM_mono; [apply with_deferred_true; [|intros; apply Cluster_Close_read]|done].
  match goal with |- wpM _ _ _ ?h' _ _ => assert (h `prefix_of` h') as Hp end.
  { apply prefix_snoc. etransitivity; [|eassumption]. apply prefix_snoc. reflexivity. }
  destruct (negb _) eqn:Edel.
  - apply protected_any; [apply cluster_protected_snoc|]. to_prop.
    destruct Hsc as [(key & Hk)| ->]; [|by rewrite Time_IsZero_nil in Edel].
    left. exists key, sc. split; [by eapply elem_of_prefix|by left].
  - destruct Hsc as [(key & Hk)| ->].
    + apply (cluster_reconcileNormal_protected key). left. by eapply elem_of_prefix.
    + apply (cluster_reconcileNormal_protected demo_key). by right.
Qed.

Lemma cluster_pass_protected key :
  wpM any_resp (only_if cluster_protected) (ClusterController.Reconcile key) [] tt
    (fun _ _ _ => True).
Proof.
  unfold ClusterController.Reconcile. repeat read_step; try done.
  - apply reconcileObject_protected. left. exists key. in_trace.
  - apply reconcileObject_protected. by right.
Qed.

Lemma machine_pass_protected key :
  wpM any_resp (only_if machine_protected) (MachineController.Reconcile key) [] tt
    (fun _ _ _ => True).
Proof.
  unfold MachineController.Reconcile. repeat read_step; try done.
  match goal with |- wpM _ _ (with_deferred _ _) _ ?sc _ => set (m := sc) end.
  eapply wpM_mono; [apply with_deferred_true; [|intros; apply Machine_Close_read]|done].
  match goal with |- wpM _ _ _ ?h' _ _ =>
    assert (ok_ev (GetScalewayMachine key) (ms_ScalewayMachine m) ∈ h') as Hin end.
  { do 2 apply elem_of_snoc_left. eapply elem_of_prefix; [eassumption|]. in_trace. }
  destruct (negb _) eqn:Edel.
  - apply protected_any; [apply machine_protected_snoc|]. to_prop.
    left. eexists. eexists. split; [exact Hin|by left].
  - by apply (machine_reconcileNormal_protected key).
Qed.
End finalizers.

Section finalizer_theorem.
Context `{SDK : ScwSDK} `{K8S : K8sLib} `{LAWS : !K8sLaws}.

(** C17.  Whatever the APIs answer, no call that changes the Scaleway project is made in a
    pass unless the object read at its start is being deleted, already carried the
    finalizer, or was successfully patched with the finalizer before; so that what the
    pass creates cannot be forgotten. *)
Theorem finalizer_before_mutation (o : oracle cloud) (req : request) t1 call r t2 :
  (run o [] (pass req)).1 = t1 ++ CEv call r :: t2 ->
  mutates call = true ->
  match req with
  | ClusterRequest _ => cluster_protected t1
  | MachineRequest _ => machine_protected t1
  end.
Proof.
  intros E Hm. destruct req as [key|key].
  - destruct (wpM_sound _ _ o _ _ _ _ (admissible_any o) (cluster_pass_protected key))
      as (t & Et & Hob & _). by apply (Hob t1 call r t2 (eq_trans (eq_sym Et) E)).
  - destruct (wpM_sound _ _ o _ _ _ _ (admissible_any o) (machine_pass_protected key))
      as (t & Et & Hob & _). by apply (Hob t1 call r t2 (eq_trans (eq_sym Et) E)).
Qed.
End finalizer_theorem.

(** ** The object is written back *)

Section helpers.
Context `{SDK : ScwSDK} `{K8S : K8sLib}.

(** The operations keep the patch helper of the scope. *)
Definition keeps_helper (b : k8s_object) (c : ClusterScope) : Prop := cs_patchHelper c = b.
Definition keeps_machine_helper (b : k8s_object) (m : MachineScope) : Prop :=
  cs_patchHelper (ms_Cluster m) = b.

Abbreviation free := (safe any_resp any_call).

Lemma any_call_holds (h : trace) (c : cloud_call) : any_call (Sg := cloud) h c.
Proof. done. Qed.

Lemma sg_Reconcile_keeps b : free (keeps_helper b) SecurityGroup.Reconcile.
Proof.
  unfold SecurityGroup.Reconcile, SecurityGroup.ensureSecurityGroups,
    SecurityGroup.deleteExtraSecurityGroups, SecurityGroup.ensureInstanceSG,
    SecurityGroup.ensureSGRules. free_auto.
Qed.

Lemma vpc_Reconcile_keeps b : free (keeps_helper b) Vpc.Reconcile.
Proof. unfold Vpc.Reconcile, Vpc.getOrCreatePN, SetStatusPrivateNetworkID. free_auto. Qed.

Lemma gw_Reconcile_keeps b : free (keeps_helper b) Vpcgw.Reconcile.
Proof. unfold Vpcgw.Reconcile, Vpcgw.getOrCreateGateway, Vpcgw.getOrCreateIP. free_auto. Qed.

Lemma ensureACL_keeps b frontendID name ips deny index :
  free (keeps_helper b) (LoadBalancer.ensureACL frontendID name ips deny index).
Proof. unfold LoadBalancer.ensureACL. free_auto. Qed.

Hint Resolve ensureACL_keeps : caps_wp.

Lemma lb_Reconcile_keeps b : free (keeps_helper b) LoadBalancer.Reconcile.
Proof.
  unfold LoadBalancer.Reconcile, LoadBalancer.getOrCreateLB, LoadBalancer.ensurePrivateNetwork,
    LoadBalancer.ensureBackend, LoadBalancer.ensureFrontend, LoadBalancer.ensureACLs,
    LoadBalancer.SetControlPlaneEndpoint. free_auto.
Qed.

Lemma Cluster_PatchObject_keeps b : free (keeps_helper b) Cluster_PatchObject.
Proof. unfold Cluster_PatchObject. free_auto. Qed.

Lemma cluster_deletes_keep b :
  free (keeps_helper b) LoadBalancer.Delete /\ free (keeps_helper b) Vpcgw.Delete /\
  free (keeps_helper b) Vpc.Delete /\ free (keeps_helper b) SecurityGroup.Delete.
Proof.
  split_and!.
  - unfold LoadBalancer.Delete. free_auto.
  - unfold Vpcgw.Delete. free_auto.
  - unfold Vpc.Delete. free_auto.
  - unfold SecurityGroup.Delete, SecurityGroup.ensureSecurityGroups,
      SecurityGroup.deleteExtraSecurityGroups, SecurityGroup.ensureInstanceSG,
      SecurityGroup.ensureSGRules. free_auto.
Qed.

Hint Resolve sg_Reconcile_keeps vpc_Reconcile_keeps gw_Reconcile_keeps lb_Reconcile_keeps
  Cluster_PatchObject_keeps : caps_wp.

Lemma cluster_reconcile_keeps b :
  free (keeps_helper b) ClusterController.reconcileNormal /\
  free (keeps_helper b) ClusterController.reconcileDelete.
Proof.
  destruct (cluster_deletes_keep b) as (? & ? & ? & ?). split.
  - unfold ClusterController.reconcileNormal. free_auto.
  - unfold ClusterController.reconcileDelete. free_auto.
Qed.

Lemma ensureLoadBalancerACL_keeps b ip :
  free (keeps_machine_helper b) (Instance.ensureLoadBalancerACL ip).
Proof. unfold Instance.ensureLoadBalancerACL. free_auto. Qed.

Lemma ensureControlPlaneLoadBalancer_keeps b ips del :
  free (keeps_machine_helper b) (Instance.ensureControlPlaneLoadBalancer ips del).
Proof. unfold Instance.ensureControlPlaneLoadBalancer. free_auto. Qed.

Lemma getMachineIPs_keeps b server pnic :
  free (keeps_machine_helper b) (Instance.getMachineIPs server pnic).
Proof. unfold Instance.getMachineIPs. free_auto. Qed.

Hint Resolve ensureLoadBalancerACL_keeps ensureControlPlaneLoadBalancer_keeps
  getMachineIPs_keeps : caps_wp.

Lemma inst_Reconcile_keeps b : free (keeps_machine_helper b) Instance.Reconcile.
Proof.
  unfold Instance.Reconcile, Instance.getOrCreateIP, Instance.getOrCreateServer,
    Instance.getOrCreatePrivateNIC, Instance.ensureCloudInit, GetRawBootstrapData,
    Instance.ensureServerStarted, Instance.setMachine. free_auto.
Qed.

Lemma inst_Delete_keeps b : free (keeps_machine_helper b) Instance.Delete.
Proof. unfold Instance.Delete, Instance.deregisterControlPlane. free_auto. Qed.

Lemma Machine_PatchObject_keeps b : free (keeps_machine_helper b) Machine_PatchObject.
Proof. unfold Machine_PatchObject. free_auto. Qed.

Hint Resolve inst_Reconcile_keeps inst_Delete_keeps Machine_PatchObject_keeps : caps_wp.

Lemma machine_reconcile_keeps b :
  free (keeps_machine_helper b) MachineController.reconcileNormal /\
  free (keeps_machine_helper b) MachineController.reconcileDelete.
Proof.
  split.
  - unfold MachineController.reconcileNormal. free_auto.
  - unfold MachineController.reconcileDelete. free_auto.
Qed.
End helpers.

Section written_back.
Context `{SDK : ScwSDK} `{K8S : K8sLib}.


(** A call that changes the project or writes the object back. *)
Definition writes (c : cloud_call) : bool :=
  mutates c || match c with Patch _ _ => true | _ => false end.

Definition unwritten (t : trace) : Prop := Forall (fun e : event cloud => writes (ev_call e) = false) t.

(** The object that a pass over the cluster works on: the one read, or
    the zero object when the read failed (otherwise than by [NotFound]). *)
Definition cluster_read (key : NamespacedName) (t : trace) (sc : ScalewayCluster) : Prop :=
  ok_ev (GetScalewayCluster key) sc ∈ t \/
  (sc = ClusterController.zero_ScalewayCluster /\ exists e, err_ev (GetScalewayCluster key) e ∈ t).

(** Why a pass over a cluster may succeed without a scope: the object is gone, has no owner
    yet, or is paused. *)
Definition cluster_skipped (key : NamespacedName) (t : trace) (res : ClusterController.Result) : Prop :=
  (exists e, err_ev (GetScalewayCluster key) e ∈ t /\ IsNotFound e = true /\
     res = ClusterController.no_requeue) \/
  (exists sc, cluster_read key t sc /\ ok_ev (GetOwnerCluster (sc_ObjectMeta sc)) None ∈ t /\
     res = ClusterController.requeue_2s) \/
  (exists sc cl, cluster_read key t sc /\ ok_ev (GetOwnerCluster (sc_ObjectMeta sc)) (Some cl) ∈ t /\
     IsPaused cl (sc_ObjectMeta sc) = true /\ res = ClusterController.no_requeue).

(** The same for a machine, which may also be without a cluster. *)
Definition machine_skipped (key : NamespacedName) (t : trace) (res : ClusterController.Result) : Prop :=
  res = ClusterController.no_requeue /\
  ((exists e, err_ev (GetScalewayMachine key) e ∈ t /\ IsNotFound e = true) \/
   (exists sm, ok_ev (GetScalewayMachine key) sm ∈ t /\
      (ok_ev (GetOwnerMachine (sm_ObjectMeta sm)) None ∈ t \/
       exists m, ok_ev (GetOwnerMachine (sm_ObjectMeta sm)) (Some m) ∈ t /\
         ((exists e, err_ev (GetClusterFromMetadata (m_ObjectMeta m)) e ∈ t) \/
          (exists cl, ok_ev (GetClusterFromMetadata (m_ObjectMeta m)) cl ∈ t /\
             IsPaused cl (sm_ObjectMeta sm) = true))))).

(** After [t0], [body] runs on [s] and the last call of the pass patches the object that
    it ends with, whether it succeeds, fails or panics; the pass has the outcome of the
    body, but that it fails where the patch does and the body did not. *)
Definition closed_after {S A} (o : oracle cloud) (object : S -> k8s_object) (before : k8s_object)
    (body : GoM cloud S A) (t0 : trace) (s : S) (oa : outcome A) (t : trace) : Prop :=
  let '(t1, (oa1, s1)) := runM o t0 body s in
  let r := o t1 (Patch before (object s1)) in
  t = t1 ++ [CEv (Patch before (object s1)) r] /\
  (r = ROk tt -> oa = oa1) /\
  (forall e, r = RErr e -> oa = match oa1 with Ok _ => Err (External e) | _ => oa1 end).

Definition is_deleted (meta : ObjectMeta) : bool := negb (Time_IsZero (om_DeletionTimestamp meta)).

Definition cluster_object (c : ClusterScope) : k8s_object := OCluster (cs_ScalewayCluster c).
Definition machine_object (m : MachineScope) : k8s_object := OMachine (ms_ScalewayMachine m).

(** The pass over a cluster wrote nothing and has a reason, or wrote nothing up to the
    creation of the patch helper, and closes the scope that it built then. *)
Definition cluster_written_back (o : oracle cloud) (key : NamespacedName)
    (oa : outcome ClusterController.Result) (t : trace) : Prop :=
  (unwritten t /\ forall res, oa = Ok res -> cluster_skipped key t res) \/
  exists sc cl projectID t0,
    unwritten t0 /\
    cluster_read key t0 sc /\
    closed_after o cluster_object (OCluster sc)
      (if is_deleted (sc_ObjectMeta sc) then ClusterController.reconcileDelete
       else ClusterController.reconcileNormal)
      (t0 ++ [ok_ev (NewPatchHelper (OCluster sc)) tt])
      {| cs_ProjectID := projectID; cs_ScalewayCluster := sc; cs_Cluster := cl;
         cs_patchHelper := OCluster sc |} oa t.

Definition machine_written_back (o : oracle cloud) (key : NamespacedName)
    (oa : outcome ClusterController.Result) (t : trace) : Prop :=
  (unwritten t /\ forall res, oa = Ok res -> machine_skipped key t res) \/
  exists sm m c t0,
    unwritten t0 /\ ok_ev (GetScalewayMachine key) sm ∈ t0 /\
    closed_after o machine_object (OMachine sm)
      (if is_deleted (sm_ObjectMeta sm) then MachineController.reconcileDelete
       else MachineController.reconcileNormal)
      (t0 ++ [ok_ev (NewPatchHelper (OMachine sm)) tt])
      {| ms_Cluster := set_cs_patchHelper (OMachine sm) c; ms_ScalewayMachine := sm;
         ms_Machine := m |} oa t.

Lemma unwritten_nil : unwritten [].
Proof. constructor. Qed.

Lemma unwritten_snoc t c r : unwritten t -> writes c = false -> unwritten (t ++ [CEv c r]).
Proof. intros Ht Hc. apply Forall_app. split; [done|]. by apply Forall_singleton. Qed.

Ltac solve_unwritten := repeat (apply unwritten_snoc; [|reflexivity]); first [apply unwritten_nil | done].

(** The pass ends early: the errors need no reason. *)
Ltac ends_early :=
  left; split; [solve_unwritten|]; intros ? [= <-].

Lemma closed_after_intro {S A} (o : oracle cloud) object before (body : GoM cloud S A)
    (close : GoM cloud S unit) t0 s (Q : outcome A -> S -> trace -> Prop) :
  (forall t1 oa1 s1, runM o t0 body s = (t1, (oa1, s1)) ->
    close s1 = remote (Patch before (object s1)) s1) ->
  (forall oa s' t, closed_after o object before body t0 s oa t -> Q oa s' t) ->
  wpM (replies o) any_call (with_deferred close body) t0 s Q.
Proof.
  intros Hc HQ. apply wpM_with_deferred, wp_run.
  destruct (runM o t0 body s) as [t1 [oa1 s1]] eqn:E. unfold runM in E. rewrite E. simpl.
  assert (forall r, r = o t1 (Patch before (object s1)) ->
    forall oa, (r = ROk tt -> oa = oa1) ->
      (forall e, r = RErr e -> oa = match oa1 with Ok _ => Err (External e) | _ => oa1 end) ->
      Q oa s1 (t1 ++ [CEv (Patch before (object s1)) r])) as H.
  { intros r Er oa Ho He. apply HQ. unfold closed_after, runM. rewrite E. by subst r. }
  unfold wpM. rewrite (Hc _ _ _ eq_refl). 
  apply (wpM_remote (replies o) any_call (Patch before (object s1)) t1 s1
    (fun oc s2 h2 => Q (deferred_outcome oa1 oc) s2 h2)); [done|..].
  - intros [] Er. apply (H (ROk tt)); [done| |done]. by destruct oa1.
  - intros e Er. apply (H (RErr e)); [done|done|]. intros e' [= <-]. by destruct oa1.
Qed.

(** The helper of the scope is the one it was opened with. *)
Lemma keeps_run {S} (I : S -> Prop) {A} (m : GoM cloud S A) o t s t1 oa s1 :
  safe any_resp any_call I m -> I s -> runM o t m s = (t1, (oa, s1)) -> I s1.
Proof.
  intros Hm Hs E. destruct (wpM_sound _ _ o _ t s _ (admissible_any o) (Hm t s Hs)) as (? & _ & _ & HQ).
  by rewrite E in HQ.
Qed.

Lemma cluster_read_mono key t t' sc : t `prefix_of` t' -> cluster_read key t sc -> cluster_read key t' sc.
Proof.
  intros Hp. unfold cluster_read.
  pose proof (fun e => elem_of_prefix e t t' Hp) as H. naive_solver.
Qed.

Lemma cluster_closes o key sc cl projectID t0 a :
  unwritten t0 -> cluster_read key t0 sc ->
  wpM (replies o) any_call
    (with_deferred Cluster_Close
      (if negb (Time_IsZero (om_DeletionTimestamp (sc_ObjectMeta sc)))
       then ClusterController.reconcileDelete else ClusterController.reconcileNormal))
    (t0 ++ [ok_ev (NewPatchHelper (OCluster sc)) a])
    {| cs_ProjectID := projectID; cs_ScalewayCluster := sc; cs_Cluster := cl;
       cs_patchHelper := OCluster sc |}
    (fun oa _ h' => cluster_written_back o key oa h').
Proof.
  intros Hw Hread. destruct a.
  eapply (closed_after_intro o cluster_object (OCluster sc)).
  - intros t1 oa1 s1 E. apply (keeps_run (keeps_helper (OCluster sc))) in E; [|by case_match; apply cluster_reconcile_keeps|done].
    unfold Cluster_Close, Cluster_PatchObject. by rewrite <- E.
  - intros oa s' t Hc. right. exists sc, cl, projectID, t0. by split_and!.
Qed.

Lemma reconcileObject_written_back o key sc h :
  unwritten h -> cluster_read key h sc ->
  wpM (replies o) any_call (ClusterController.reconcileObject sc) h tt
    (fun oa _ h' => cluster_written_back o key oa h').
Proof.
  intros Hh Hread. unfold ClusterController.reconcileObject, clientFromSecret, takeOwnership, NewCluster.
  repeat lazymatch goal with |- wpM _ _ (with_deferred _ _) _ _ _ => fail | _ => go_step end; try done.
  all: first
    [ apply cluster_closes; [solve_unwritten|];
      eapply cluster_read_mono; [|exact Hread]; auto 10 with caps
    | ends_early; try done ].
  - right; right. exists sc. eexists. split_and!; [|in_trace|done..].
    eapply cluster_read_mono; [|exact Hread]. auto with caps.
  - right; left. exists sc. split_and!; [|in_trace|done].
    eapply cluster_read_mono; [|exact Hread]. auto with caps.
Qed.

Lemma cluster_pass_written_back o key :
  wpM (replies o) any_call (ClusterController.Reconcile key) [] tt
    (fun oa _ h' => cluster_written_back o key oa h').
Proof.
  unfold ClusterController.Reconcile. repeat go_step; try done.
  - apply reconcileObject_written_back; [solve_unwritten|]. left. in_trace.
  - ends_early. left. eexists. split; [in_trace|done].
  - apply reconcileObject_written_back; [solve_unwritten|]. right. split; [done|].
    eexists. in_trace.
Qed.

Lemma machine_closes o key sm m c t0 a :
  unwritten t0 -> ok_ev (GetScalewayMachine key) sm ∈ t0 ->
  wpM (replies o) any_call
    (with_deferred Machine_Close
      (if negb (Time_IsZero (om_DeletionTimestamp (sm_ObjectMeta sm)))
       then MachineController.reconcileDelete else MachineController.reconcileNormal))
    (t0 ++ [ok_ev (NewPatchHelper (OMachine sm)) a])
    {| ms_Cluster := set_cs_patchHelper (OMachine sm) c; ms_ScalewayMachine := sm; ms_Machine := m |}
    (fun oa _ h' => machine_written_back o key oa h').
Proof.
  intros Hw Hread. destruct a.
  eapply (closed_after_intro o machine_object (OMachine sm)).
  - intros t1 oa1 s1 E. apply (keeps_run (keeps_machine_helper (OMachine sm))) in E;
      [|by case_match; apply machine_reconcile_keeps|done].
    unfold Machine_Close, Machine_PatchObject. by rewrite <- E.
  - intros oa s' t Hc. right. exists sm, m, c, t0. by split_and!.
Qed.

Lemma machine_pass_written_back o key :
  wpM (replies o) any_call (MachineController.Reconcile key) [] tt
    (fun oa _ h' => machine_written_back o key oa h').
Proof.
  unfold MachineController.Reconcile, clientFromSecret, takeOwnership, NewMachine, NewCluster.
  repeat lazymatch goal with |- wpM _ _ (with_deferred _ _) _ _ _ => fail | _ => go_step end; try done.
  all: first
    [ apply machine_closes; [solve_unwritten|in_trace]
    | ends_early; try done ].
  all: split; [done|].
  - right. exists a. split; [in_trace|]. right. exists c. split; [in_trace|]. right. eexists.
    split; [in_trace|done].
  - right. exists a. split; [in_trace|]. right. exists c. split; [in_trace|]. left. eexists. in_trace.
  - right. exists a. split; [in_trace|]. left. in_trace.
  - left. eexists. split; [in_trace|done].
Qed.

End written_back.

(** ** A cluster becomes ready *)

Section ready.
Context `{SDK : ScwSDK} `{K8S : K8sLib} `{LAWS : !K8sLaws}.

Abbreviation free := (safe any_resp any_call).

Definition sc_Ready (c : ClusterScope) : bool := scst_Ready (sc_Status (cs_ScalewayCluster c)).
Definition sc_Network (c : ClusterScope) : option NetworkStatus :=
  scst_Network (sc_Status (cs_ScalewayCluster c)).

(** The metadata with the finalizer. *)
Definition protected_meta (c : ClusterScope) : ObjectMeta :=
  (AddFinalizer (sc_ObjectMeta (cs_ScalewayCluster c)) ClusterFinalizer).1.

Lemma protected_meta_in c : ClusterFinalizer ∈ om_Finalizers (protected_meta c).
Proof. apply AddFinalizer_in. Qed.

(** What a pass over [c0] keeps until the load balancer is published. *)
Definition in_progress (c0 c : ClusterScope) : Prop :=
  cs_Spec c = cs_Spec c0 /\ sc_Ready c = sc_Ready c0 /\
  scst_FailureDomains (sc_Status (cs_ScalewayCluster c)) = FailureDomains c0 /\
  sc_ObjectMeta (cs_ScalewayCluster c) = protected_meta c0 /\
  (ShouldManagePrivateNetwork c0 = false -> sc_Network c = sc_Network c0).

Lemma sg_Reconcile_in_progress c0 : free (in_progress c0) SecurityGroup.Reconcile.
Proof.
  unfold SecurityGroup.Reconcile, SecurityGroup.ensureSecurityGroups,
    SecurityGroup.deleteExtraSecurityGroups, SecurityGroup.ensureInstanceSG,
    SecurityGroup.ensureSGRules. free_auto.
Qed.

Lemma gw_Reconcile_in_progress c0 : free (in_progress c0) Vpcgw.Reconcile.
Proof. unfold Vpcgw.Reconcile, Vpcgw.getOrCreateGateway, Vpcgw.getOrCreateIP. free_auto. Qed.

Lemma getOrCreatePN_in_progress c0 : free (in_progress c0) Vpc.getOrCreatePN.
Proof. unfold Vpc.getOrCreatePN. free_auto. Qed.

Lemma vpc_Reconcile_in_progress c0 : free (in_progress c0) Vpc.Reconcile.
Proof.
  unfold Vpc.Reconcile. apply safe_bind_get_state. intros c Hc.
  assert (ShouldManagePrivateNetwork c = ShouldManagePrivateNetwork c0) as E.
  { destruct Hc as (Es & _). unfold ShouldManagePrivateNetwork, HasPrivateNetwork. by rewrite Es. }
  rewrite E. destruct (ShouldManagePrivateNetwork c0) eqn:Em; cbn [negb]; [|apply safe_ret].
  apply safe_bind; [apply safe_wrapf, getOrCreatePN_in_progress|]. intros pn.
  apply safe_modify. intros c' (Es & Er & Ef & Hf & _). repeat split; try done. by rewrite Em.
Qed.

(** The endpoint is an IPv4 address. *)
Definition has_endpoint (c : ClusterScope) : Prop :=
  exists b, netip_ParseAddr_opt (ep_Host (scs_ControlPlaneEndpoint (cs_Spec c))) = Some (Addr4 b).

Definition unready (c0 c : ClusterScope) : Prop :=
  cs_Spec c = cs_Spec c0 /\ sc_Ready c = sc_Ready c0 /\
  sc_ObjectMeta (cs_ScalewayCluster c) = protected_meta c0.

(** The spec differs by the endpoint only. *)
Definition but_endpoint (c0 c : ClusterScope) : Prop :=
  exists e, cs_Spec c = sc_Spec (set_sc_ControlPlaneEndpoint e (cs_ScalewayCluster c0)).

Definition becomes_ready (c0 c : ClusterScope) : Prop :=
  sc_Ready c = true /\ has_endpoint c /\ but_endpoint c0 c /\
  scst_FailureDomains (sc_Status (cs_ScalewayCluster c)) = FailureDomains c0 /\
  sc_ObjectMeta (cs_ScalewayCluster c) = protected_meta c0 /\
  ClusterFinalizer ∈ om_Finalizers (sc_ObjectMeta (cs_ScalewayCluster c)) /\
  (HasPrivateNetwork c0 = true -> ShouldManagePrivateNetwork c0 = true \/ sc_Network c0 <> None).

Lemma in_progress_unready c0 c : in_progress c0 c -> unready c0 c.
Proof. intros (? & ? & _ & ? & _). by split_and!. Qed.

(** Runs a part of the pass and leaves with the object unready when it fails. *)
Lemma in_progress_step {A} c0 (m : GoC ClusterScope A) h c (Q : _ -> _ -> _ -> Prop) :
  free (in_progress c0) m -> in_progress c0 c ->
  (forall a c' h', in_progress c0 c' -> Q (Ok a) c' h') ->
  (forall oa c' h', unready c0 c' -> (forall a, oa <> Ok a) -> Q oa c' h') ->
  wpM any_resp any_call m h c Q.
Proof.
  intros Hm Hc Hok Herr. eapply safe_wpM; [exact Hm|exact Hc|].
  intros [a|e|] c' h' Hc'; [by apply Hok|by apply Herr; [apply in_progress_unready|]..].
Qed.

Lemma published_ready h c0 c c' :
  in_progress c0 c -> published h c c' ->
  becomes_ready c0 (ClusterController.set_cs_Status (set_scst_Ready true) c').
Proof.
  intros (Es & Er & Ef & Hf & Hn) (lb & fe & lbIP & b & _ & _ & _ & _ & Eb & [_ Hpn] & _ & ->).
  split_and!; try done; [by exists b| | |].
  { eexists. cbn. by rewrite Es. }
  { cbn. rewrite Hf. apply protected_meta_in. }
  intros Hhas. destruct (ShouldManagePrivateNetwork c0) eqn:Em; [by left|right].
  assert (HasPrivateNetwork c = true) as Hhas' by (unfold HasPrivateNetwork in *; by rewrite Es).
  destruct (Hpn Hhas') as (pnID & _ & E & _). rewrite <- Hn by done. intros En.
  assert (PrivateNetworkID c = Panic) by by apply PrivateNetworkID_Panic. congruence.
Qed.

Lemma reconcileNormal_ready h c0 :
  wpM any_resp any_call ClusterController.reconcileNormal h c0 (fun oa c _ =>
    match oa with
    | Ok r => (r = ClusterController.no_requeue /\ becomes_ready c0 c) \/
              (r = ClusterController.requeue_2s /\ unready c0 c)
    | _ => unready c0 c
    end).
Proof.
  unfold ClusterController.reconcileNormal. do 2 go_step.
  destruct (AddFinalizer (sc_ObjectMeta (cs_ScalewayCluster c0)) ClusterFinalizer)
    as [meta' added] eqn:Eadd.
  assert (meta' = protected_meta c0) as -> by (unfold protected_meta; by rewrite Eadd).
  do 3 go_step.
  eapply safe_wpM with (I := eq (ClusterController.set_cs_ObjectMeta (protected_meta c0) c0)); [|done|].
  { destruct added; [|apply safe_ret]. unfold Cluster_PatchObject. free_auto. }
  intros [a|e|] ? h1 <-; [|by split..]. do 3 go_step.
  match goal with |- wpM _ _ _ _ ?c _ => assert (in_progress c0 c) as Hc by (by repeat split) end.
  eapply in_progress_step; [apply sg_Reconcile_in_progress|exact Hc| |].
  2: { intros [a'|e|] c' h' Hu Hno; [by destruct (Hno a')|done..]. }
  intros ? c1 h2 Hc1. go_step. go_step.
  eapply in_progress_step; [apply vpc_Reconcile_in_progress|exact Hc1| |].
  2: { intros [a'|e|] c' h' Hu Hno; [by destruct (Hno a')|done..]. }
  intros ? c2 h3 Hc2. cbn [outcome_wrap]. go_step. go_step.
  eapply in_progress_step; [apply gw_Reconcile_in_progress|exact Hc2| |].
  2: { intros [a'|e|] c' h' Hu Hno; [by destruct (Hno a')|done..]. }
  intros ? c3 h4 Hc3. cbn [outcome_wrap]. do 2 go_step.
  eapply wpM_weaken; [apply lb_Reconcile_spec|done|].
  intros [[]|e|] c4 h5 Hlb.
  - do 3 go_step. left. split; [done|]. by eapply published_ready.
  - destruct Hlb as [-> _]. repeat go_step; [right; split; [done|]|];
      by apply in_progress_unready.
  - destruct Hlb as [-> _]. by apply in_progress_unready.
Qed.

(** C25.  A pass over a cluster ends without a request for another one only when the
    cluster is ready: its endpoint is an IPv4 address, the failure domains of the region
    are published, the finalizer is there, and nothing else of the spec changed.  In every
    other case, errors and panics included, neither the spec (the endpoint) nor the
    readiness changed, and the metadata only gained the finalizer. *)
Theorem cluster_ready (o : oracle cloud) (c : ClusterScope) :
  let '(_, (oa, c')) := runM o [] ClusterController.reconcileNormal c in
  match oa with
  | Ok r => (r = ClusterController.no_requeue /\ becomes_ready c c') \/
            (r = ClusterController.requeue_2s /\ unready c c')
  | _ => unready c c'
  end.
Proof.
  destruct (wpM_sound _ _ o _ _ _ _ (admissible_any o) (reconcileNormal_ready [] c))
    as (t & _ & _ & HQ).
  by destruct (runM o [] ClusterController.reconcileNormal c) as [t' [oa c']].
Qed.

(** C38.  A cluster that joins an existing Private Network, given by its ID, never becomes
    ready when its status does not name the network yet: no operation records the ID in
    the status, and whatever the APIs answer no pass ends in success. *)
Theorem existing_network_never_ready (o : oracle cloud) (c : ClusterScope) :
  HasPrivateNetwork c = true -> ShouldManagePrivateNetwork c = false -> sc_Network c = None ->
  (runM o [] ClusterController.reconcileNormal c).2.1 <> Ok ClusterController.no_requeue.
Proof.
  intros Hhas Hm Hn. destruct (wpM_sound _ _ o _ _ _ _ (admissible_any o) (reconcileNormal_ready [] c))
    as (t & _ & _ & HQ).
  destruct (runM o [] ClusterController.reconcileNormal c) as [t' [[r|e|] c']]; simpl in *; try done.
  intros [= ->]. destruct HQ as [(_ & _ & _ & _ & _ & _ & _ & H)|[E _]]; [|done].
  destruct (H Hhas); congruence.
Qed.
End ready.

(** ** The sample cluster *)

#[local] Existing Instances sim_sdk sim_k8s sim_k8s_laws.

Definition demo_first_pass : trace :=
  (run (sim demo_world) [] (pass (ClusterRequest demo_key))).1.

Definition demo_first_creation : cloud_call := CreateSecurityGroup
  {| csg_Zone := "fr-par-1"; csg_Name := "caps-demo-web"; csg_Tags := ["caps-cluster=caps-demo"%string];
     csg_InboundDefaultPolicy := SecurityGroupPolicyAccept;
     csg_OutboundDefaultPolicy := SecurityGroupPolicyAccept;
     csg_EnableDefaultSecurity := Some false; csg_Stateful := true |}.

Lemma demo_first_pass_creates :
  (run (sim demo_world) [] (pass (ClusterRequest demo_key))).1 =
    take 7 demo_first_pass ++
    CEv demo_first_creation (sim demo_world (take 7 demo_first_pass) demo_first_creation) ::
    drop 8 demo_first_pass.
Proof. by vm_compute. Qed.

Lemma finalizer_before_mutation_witness : cluster_protected (take 7 demo_first_pass).
Proof.
  exact (finalizer_before_mutation (sim demo_world) (ClusterRequest demo_key) _ _ _ _
    demo_first_pass_creates eq_refl).
Defined.

(** A first pass in the empty project makes the cluster ready. *)
Lemma cluster_ready_witness :
  (runM (sim demo_world) [] ClusterController.reconcileNormal (demo_scope demo_cluster)).2.1
    = Ok ClusterController.no_requeue /\
  becomes_ready (demo_scope demo_cluster)
    (runM (sim demo_world) [] ClusterController.reconcileNormal (demo_scope demo_cluster)).2.2.
Proof.
  pose proof (cluster_ready (sim demo_world) (demo_scope demo_cluster)) as H.
  assert ((runM (sim demo_world) [] ClusterController.reconcileNormal (demo_scope demo_cluster)).2.1
    = Ok ClusterController.no_requeue) as E by (vm_compute; reflexivity).
  split; [exact E|]. revert E H.
  destruct (runM _ _ _ _) as [t [oa c']]; cbn [fst snd]; intros ->. intros [[_ H]|[E _]]; [exact H|].
  discriminate E.
Defined.

(** A cluster that joins the Private Network [id-pn]. *)
Definition demo_joining : ScalewayCluster :=
  {| sc_ObjectMeta := sc_ObjectMeta demo_cluster;
     sc_Spec := {| scs_ControlPlaneEndpoint := scs_ControlPlaneEndpoint (sc_Spec demo_cluster);
                   scs_FailureDomains := scs_FailureDomains (sc_Spec demo_cluster);
                   scs_Region := scs_Region (sc_Spec demo_cluster);
                   scs_Network := Some
                     {| ns_PrivateNetwork := Some {| pns_Enabled := true; pns_ID := Some "id-pn"%string;
                                                     pns_Subnet := None |};
                        ns_PublicGateway := None; ns_SecurityGroups := [] |};
                   scs_ControlPlaneLoadBalancer := scs_ControlPlaneLoadBalancer (sc_Spec demo_cluster);
                   scs_ScalewaySecretName := scs_ScalewaySecretName (sc_Spec demo_cluster) |};
     sc_Status := sc_Status demo_cluster |}.

(** The webhook accepts it, and a pass over it panics. *)
Lemma existing_network_never_ready_witness :
  ClusterWebhook.ValidateCreate demo_joining = Ok tt /\
  (runM (sim demo_world) [] ClusterController.reconcileNormal (demo_scope demo_joining)).2.1 = Panic /\
  (runM (sim demo_world) [] ClusterController.reconcileNormal (demo_scope demo_joining)).2.1
    <> Ok ClusterController.no_requeue.
Proof.
  split; [by vm_compute|]. split; [by vm_compute|].
  exact (existing_network_never_ready (sim demo_world) (demo_scope demo_joining) eq_refl eq_refl eq_refl).
Defined.
