(* ===== verification/NoLeak.v ===== *)
(** * What a deletion leaves behind

    When the listings show the live resources under their identifiers, a deletion pass
    that succeeds leaves nothing of the cluster (resp. no server of the machine) live,
    whatever happened before; and the passes create nothing that does not belong to
    their cluster. *)

From S2P Require Import Prelude Go Net Prog Sdk Types Cloud Ledger Scope Client.
From S2P Require Vpc Vpcgw SecurityGroup LoadBalancer Instance MachineController.
From S2P Require Import ClusterController Simulation NoDuplicates ClusterTeardown.
#[local] Open Scope caps_scope.

(** ** The rely *)

(** The answer [xs] shows [res] under the identifier [id]. *)
Definition identified (c : cloud_call) (xs : cloud_val c) (res : resource) (id : ID) : Prop :=
  match c return cloud_val c -> Prop with
  | ListServers _ _ => fun xs => exists x, x ∈ xs /\ srv_ID x = id /\ match res with
      RServer _ name => srv_Name x = name | _ => False end
  | ListSecurityGroups _ _ _ _ => fun xs => exists x, x ∈ xs /\ isg_ID x = id
  | ListLBs _ _ => fun xs => exists x, x ∈ xs /\ lb_ID x = id /\ match res with
      RLoadBalancer _ name => lb_Name x = name | _ => False end
  | ListPrivateNetworks _ _ _ => fun xs => exists x, x ∈ xs /\ pn_ID x = id /\ match res with
      RPrivateNetwork _ name => pn_Name x = name | _ => False end
  | ListGatewaysByName _ _ _ => fun xs => exists x, x ∈ xs /\ gw_ID x = id /\ match res with
      RGateway _ name => gw_Name x = name | _ => False end
  | GatewayListIPsByTags _ _ _ => fun xs => exists x, x ∈ xs /\ gip_ID x = id
  | _ => fun _ => True
  end xs.

(** The items of a list that have the same name have the same identifier. *)
Definition unique_names {A} (name : A -> string) (ident : A -> ID) (xs : list A) : Prop :=
  forall x y, x ∈ xs -> y ∈ xs -> name x = name y -> ident x = ident y.

Definition unambiguous (c : cloud_call) (xs : cloud_val c) : Prop :=
  match c return cloud_val c -> Prop with
  | ListServers _ _ => unique_names srv_Name srv_ID
  | ListLBs _ _ => unique_names lb_Name lb_ID
  | ListPrivateNetworks _ _ _ => unique_names pn_Name pn_ID
  | ListGatewaysByName _ _ _ => unique_names gw_Name gw_ID
  | _ => fun _ => True
  end xs.

(** Documented behaviour of the API: a successful listing shows the live resources it
    covers under the identifiers they were created with, and nothing else under their
    names. *)
Definition exact_listings : rely := fun h c r =>
  match r with
  | ROk xs => (forall res id, covers c res -> (res, id) ∈ ledger h -> identified c xs res id) /\
              unambiguous c xs
  | RErr _ => True
  end.

(** ** Shrinking ledgers *)

Definition shrinks (h h' : trace) : Prop := forall e, e ∈ ledger h' -> e ∈ ledger h.

#[export] Instance shrinks_preorder : PreOrder shrinks.
Proof. split; unfold shrinks; [by intros h e | intros h1 h2 h3 H1 H2 e H; auto]. Qed.

Lemma shrinks_snoc h h' c r : shrinks h h' -> creates c = None -> shrinks h (h' ++ [CEv c r]).
Proof.
  intros Hs Hc e. rewrite ledger_snoc. simpl. rewrite Hc.
  destruct r; [intros [_ He]%list_elem_of_filter|]; auto.
Qed.

Lemma shrinks_ok h h' c (a : cloud_val c) :
  shrinks h h' -> creates c = None -> shrinks h (h' ++ [ok_ev c a]).
Proof. apply shrinks_snoc. Qed.

Lemma shrinks_err h h' c e : shrinks h h' -> shrinks h (h' ++ [err_ev c e]).
Proof. intros Hs ev. rewrite ledger_snoc. simpl. auto. Qed.

Lemma shrinks_not_live h h' res : shrinks h h' -> ~ live h res -> ~ live h' res.
Proof.
  intros Hs Hn (e & -> & He)%list_elem_of_fmap. apply Hn, list_elem_of_fmap. eauto.
Qed.

(** [res] can only be live under the identifier [id]. *)
Definition pinned (h : trace) (res : resource) (id : ID) : Prop :=
  forall id', (res, id') ∈ ledger h -> id' = id.

Lemma pinned_shrinks h h' res id : shrinks h h' -> pinned h res id -> pinned h' res id.
Proof. unfold shrinks, pinned. auto. Qed.

(** The deletion of its only identifier, once it succeeds, ends the life of a resource. *)
Lemma deleted_not_live h c (a : cloud_val c) res id :
  pinned h res id -> deletes c = Some (kind_of res, id) -> creates c = None ->
  ~ live (h ++ [ok_ev c a]) res.
Proof.
  intros Hp Hd Hc ([res' id'] & E & He)%list_elem_of_fmap. simpl in E. subst res'.
  rewrite ledger_snoc in He. simpl in He. rewrite Hc in He.
  apply list_elem_of_filter in He as [Hs He]. apply Hs. rewrite Hd. simpl.
  by rewrite (Hp id' He).
Qed.

#[export] Hint Resolve shrinks_snoc shrinks_ok shrinks_err : caps.
#[export] Hint Extern 1 (shrinks ?h ?h) => reflexivity : caps.

(** ** Lookups that pin a resource *)

Abbreviation leak_wp := (wpM exact_listings any_call).

(** [m] tells whether [res] is live, and under which identifier. *)
Class Pins {S A} (m : GoC S A) (res : resource) (ident : A -> ID) :=
  pins : forall h (s : S) Q,
    (forall h' x, shrinks h h' -> pinned h' res (ident x) -> Q (Ok (Some x)) s h') ->
    (forall h', shrinks h h' -> ~ live h' res -> Q (Ok None) s h') ->
    (forall h' e, shrinks h h' -> Q (Err e) s h') ->
    leak_wp (unless_Is ErrNoItemFound m) h s Q.

Section pins.
Context {S : Type}.

Lemma pins_found {A} (m : GoC S A) c ans p (f : cloud_val c -> list A) res ident :
  Finder m c ans -> (forall xs oa, ans xs oa -> found p (f xs) oa) ->
  creates c = None -> covers c res ->
  (forall xs id, identified c xs res id -> exists x, x ∈ f xs /\ p x = true /\ ident x = id) ->
  (forall xs x y, unambiguous c xs -> x ∈ f xs -> y ∈ f xs -> p x = true -> p y = true ->
    ident x = ident y) ->
  Pins m res ident.
Proof.
  intros Hm Ha Hc Hcov Hid Hun h s Q Hs Hn He.
  assert (forall r, shrinks h (h ++ [CEv c r])) as Hsh by (intros r; apply shrinks_snoc; [reflexivity|done]).
  eapply (finder_unless_Is m c ans p f); [exact Hm|exact Ha|exact I| | |intros; apply He, Hsh].
  - intros xs x [Hr Hu] Hx Hp. apply Hs; [apply Hsh|]. intros id Hin%Hsh.
    destruct (Hid xs id) as (y & Hy & Hpy & <-); [by apply Hr|]. by apply (Hun xs).
  - intros xs [Hr _] Hno. apply Hn; [apply Hsh|]. apply (shrinks_not_live h); [apply Hsh|].
    intros ([res' id] & E & Hin)%list_elem_of_fmap. simpl in E. subst res'.
    destruct (Hid xs id) as (y & Hy & Hpy & _); [by apply Hr|]. by rewrite (Hno y Hy) in Hpy.
Qed.

Lemma pins_single {A} (m : GoC S A) c ans (f : cloud_val c -> list A) res ident :
  Finder m c ans -> (forall xs oa, ans xs oa -> found_single (f xs) oa) ->
  creates c = None -> covers c res ->
  (forall xs id, identified c xs res id -> exists x, x ∈ f xs /\ ident x = id) ->
  Pins m res ident.
Proof.
  intros Hm Ha Hc Hcov Hid h s Q Hs Hn He.
  assert (forall r, shrinks h (h ++ [CEv c r])) as Hsh by (intros r; apply shrinks_snoc; [reflexivity|done]).
  eapply (finder_unless_Is_single m c ans f); [exact Hm|exact Ha|exact I| | |intros; apply He, Hsh].
  - intros xs x [Hr _] E. apply Hs; [apply Hsh|]. intros id Hin%Hsh.
    destruct (Hid xs id) as (y & Hy & <-); [by apply Hr|]. rewrite E in Hy.
    by apply list_elem_of_singleton in Hy as ->.
  - intros xs [Hr _] E. apply Hn; [apply Hsh|]. apply (shrinks_not_live h); [apply Hsh|].
    intros ([res' id] & E' & Hin)%list_elem_of_fmap. simpl in E'. subst res'.
    destruct (Hid xs id) as (y & Hy & _); [by apply Hr|]. rewrite E in Hy.
    by apply not_elem_of_nil in Hy.
Qed.

Ltac pins_name call :=
  eapply (pins_found _ call _ _ (fun xs => xs)); [apply _ | intros ? ? HH; exact HH | done | done | |];
  [ intros xs id (x & Hx & Hid & Hn); exists x; cbn beta; by rewrite Hn, String_eqb_refl
  | intros xs x y Hu Hx Hy Hpx Hpy; cbn beta in *; to_prop; apply (Hu x y); congruence ].

#[export] Instance FindInstanceByName_pins zone name :
  Pins (S := S) (FindInstanceByName zone name) (RServer zone name) srv_ID.
Proof. pins_name (ListServers zone (Some name)). Qed.

#[export] Instance FindLoadBalancerByName_pins zone name :
  Pins (S := S) (FindLoadBalancerByName zone name) (RLoadBalancer zone name) lb_ID.
Proof. pins_name (ListLBs zone (Some name)). Qed.

#[export] Instance FindPrivateNetworkByName_pins projectID region name :
  Pins (S := S) (FindPrivateNetworkByName projectID region name) (RPrivateNetwork region name) pn_ID.
Proof. pins_name (ListPrivateNetworks region (Some name) projectID). Qed.

#[export] Instance FindGatewayByName_pins projectID zone name :
  Pins (S := S) (FindGatewayByName projectID zone name) (RGateway zone name) gw_ID.
Proof. pins_name (ListGatewaysByName zone name projectID). Qed.

#[export] Instance FindGatewayIPByTags_pins projectID zone tags :
  Pins (S := S) (FindGatewayIPByTags projectID zone tags) (RGatewayIP zone tags) gip_ID.
Proof.
  eapply (pins_single _ (GatewayListIPsByTags zone tags projectID) _ (fun xs => xs)); [apply _ | intros ? ? HH; exact HH | done | done |].
  by intros xs id (x & Hx & Hid); exists x.
Qed.
End pins.

(** ** The deletions *)

Section deletions.
Context `{SDK : ScwSDK} `{K8S : K8sLib}.

(** What the provider owns in the project for the cluster; the resources that are part
    of a load balancer or of a gateway go with it. *)
Definition belongs (c : ClusterScope) (res : resource) : Prop :=
  match res with
  | RLoadBalancer zone name => zone = LoadBalancerZone c /\ name = Cluster_Name c
  | RGateway zone name => owns_gateway c /\ zone = PublicGatewayZone c /\ name = Cluster_Name c
  | RGatewayIP zone tags =>
      owns_gateway_ip c /\ zone = PublicGatewayZone c /\ tags = Cluster_Tags c
  | RPrivateNetwork region name =>
      owns_pn c /\ region = Cluster_Region c /\ name = Cluster_Name c
  | RSecurityGroup zone name tags => tags = Cluster_Tags c /\ zone ∈ Zones c Instance_Zones
  | _ => False
  end.

Definition part_of_another (res : resource) : bool :=
  match res with
  | RLBPrivateNetwork _ _ _ | RBackend _ _ _ | RFrontend _ _ _ | RACL _ _ _
  | RGatewayNetwork _ _ _ => true
  | _ => false
  end.

(** The operation leaves the object alone, creates nothing, and [P] holds when it
    succeeds. *)
Definition gone_post {S} (h : trace) (s : S) (P : trace -> Prop)
  : outcome unit -> S -> trace -> Prop :=
  fun oa s' h' => s' = s /\ shrinks h h' /\ (oa = Ok tt -> P h').

Ltac gone_step :=
  lazymatch goal with
  | |- leak_wp (unless_Is ErrNoItemFound _) _ _ _ =>
      eapply pins; [intros ? ? ? ? | intros ? ? ? | intros ? ? ?]
  | |- leak_wp (remote _) _ _ _ => apply wpM_remote; [exact I | intros ? _ | intros ? _]
  | _ => go_step
  end; cbn beta iota delta [outcome_wrap].

Lemma lb_Delete_gone h c :
  leak_wp LoadBalancer.Delete h c
    (gone_post h c (fun h' => ~ live h' (RLoadBalancer (LoadBalancerZone c) (Cluster_Name c)))).
Proof.
  unfold LoadBalancer.Delete, gone_post. repeat gone_step; kill_units; split_and!; auto with caps; try done.
  intros _. by eapply deleted_not_live.
Qed.

Lemma vpc_Delete_gone h c :
  leak_wp Vpc.Delete h c
    (gone_post h c (fun h' => owns_pn c ->
      ~ live h' (RPrivateNetwork (Cluster_Region c) (Cluster_Name c)))).
Proof.
  unfold Vpc.Delete, gone_post, owns_pn. repeat gone_step; kill_units; to_prop;
    split_and!; auto with caps; try congruence.
  intros _ _. by eapply deleted_not_live.
Qed.

(** The gateway of the cluster and its address. *)
Definition gateways_leave (c : ClusterScope) (h : trace) : Prop :=
  (owns_gateway c -> ~ live h (RGateway (PublicGatewayZone c) (Cluster_Name c))) /\
  (owns_gateway_ip c -> ~ live h (RGatewayIP (PublicGatewayZone c) (Cluster_Tags c))).

Lemma gw_ip_Delete_gone c pg h h0 :
  Vpcgw.PublicGateway c = Ok pg -> shrinks h0 h ->
  ~ live h (RGateway (PublicGatewayZone c) (Cluster_Name c)) ->
  leak_wp
    (match pgs_IP pg with
     | Some _ => mret tt
     | None =>
         existingIP ← wrapf "failed to find Public Gateway IP"
           (unless_Is ErrNoItemFound
             (FindGatewayIPByTags (cs_ProjectID c) (PublicGatewayZone c) (Cluster_Tags c)));
         match existingIP with
         | Some ip => wrapf "failed to delete Public Gateway IP"
             (remote (GatewayDeleteIP (PublicGatewayZone c) (gip_ID ip)))
         | None => mret tt
         end
     end) h c (gone_post h0 c (gateways_leave c)).
Proof.
  intros Epg Hs Hgw. unfold gone_post, gateways_leave. destruct (pgs_IP pg) as [ip|] eqn:Eip.
  - go_step. split_and!; [done|done|]. intros _. split; [done|].
    intros (_ & _ & pg' & E & _ & Hip). rewrite Epg in E. by simplify_eq.
  - assert (forall h', shrinks h h' -> shrinks h0 h') as Hall by (intros h' ?; by transitivity h).
    repeat gone_step; kill_units; (split; [done|]); (split; [apply Hall; auto with caps|]); try done.
    + intros _. split; intros _; [|by eapply deleted_not_live].
      eapply shrinks_not_live; [|exact Hgw]. auto with caps.
    + intros _. split; intros _; [|done]. by eapply shrinks_not_live.
Qed.

Lemma gw_Delete_gone h c : leak_wp Vpcgw.Delete h c (gone_post h c (gateways_leave c)).
Proof.
  unfold Vpcgw.Delete. do 2 gone_step.
  destruct (negb (HasPrivateNetwork c) || negb (HasPublicGateway c)) eqn:Ehas.
  { go_step. split_and!; [done..|]. intros _. split; intros (Hpn & Hgw & _); by rewrite Hpn, Hgw in Ehas. }
  to_prop. destruct (PublicGateway_Ok c) as [pg Epg]; [done|]. rewrite Epg. do 2 go_step.
  destruct (pgs_ID pg) as [id|] eqn:Eid.
  { go_step. split_and!; [done..|]. intros _. split; intros (_ & _ & pg' & E & Hid); rewrite Epg in E;
      simplify_eq; destruct_and?; congruence. }
  do 3 gone_step; [..|by split_and!].
  - do 3 gone_step; kill_units; cbn [outcome_wrap]; [|by split_and!; auto with caps].
    apply gw_ip_Delete_gone; [done|auto with caps|by eapply deleted_not_live].
  - do 2 gone_step. by apply gw_ip_Delete_gone.
Qed.
(** The loop over the listed groups: the live groups with the tags of the cluster are
    among those still to be deleted. *)
Lemma sg_Delete_gone h c :
  leak_wp SecurityGroup.Delete h c (gone_post h c (fun h' =>
    forall zone name, zone ∈ Zones c Instance_Zones ->
      ~ live h' (RSecurityGroup zone name (Cluster_Tags c)))).
Proof.
  unfold SecurityGroup.Delete, SecurityGroup.ensureSecurityGroups. do 4 go_step.
  apply wpM_remote; [exact I | intros groups [Hr _] | intros e _]; cbn [outcome_wrap];
    [|split_and!; [done|apply shrinks_err; reflexivity|done]].
  assert (shrinks h (h ++ [ok_ev (ListSecurityGroups ZoneFrPar1 None (Cluster_Tags c)
    (Zones c Instance_Zones)) groups])) as Hh0 by auto with caps. set (h0 := h ++ _) in *.
  go_step. unfold SecurityGroup.deleteExtraSecurityGroups.
  eapply (wpM_for_each _ _ _ _ _ _ (fun gs c' h' => c' = c /\ shrinks h h' /\
    forall zone name id, zone ∈ Zones c Instance_Zones ->
      (RSecurityGroup zone name (Cluster_Tags c), id) ∈ ledger h' ->
      exists group, group ∈ gs /\ isg_ID group = id)).
  - split_and!; [done..|]. intros zone name id Hz Hin. 
    apply (Hr (RSecurityGroup zone name (Cluster_Tags c)) id); [by split|by apply Hh0].
  - intros c' h' (-> & Hs & HI). cbn [for_each]. go_step. split_and!; [done..|].
    intros _ zone name Hz ([res id] & E & Hin)%list_elem_of_fmap. simpl in E. subst res.
    destruct (HI zone name id Hz Hin) as (group & ?%not_elem_of_nil & _). done.
  - intros group gs c' h' (-> & Hs & HI) _. cbn [List.existsb negb].
    repeat gone_step; kill_units; (split; [done|]); (split; [auto with caps|]); try done.
    intros zone name id Hz Hin. rewrite ledger_snoc in Hin. simpl in Hin.
    apply list_elem_of_filter in Hin as [Hsv Hin].
    destruct (HI zone name id Hz Hin) as (group' & [->|?]%elem_of_cons & <-); [|eauto].
    by destruct Hsv.
Qed.

Lemma reconcileDelete_gone h c :
  leak_wp reconcileDelete h c (fun oa _ h' =>
    oa = Ok no_requeue -> shrinks h h' /\ forall res, belongs c res -> ~ live h' res).
Proof.
  unfold reconcileDelete. go_step. eapply wpM_mono; [apply lb_Delete_gone|].
  intros [[]|e|] ? h1 (-> & S1 & H1); try done.
  go_step. eapply wpM_mono; [apply gw_Delete_gone|].
  intros [[]|e|] ? h2 (-> & S2 & H2); try done.
  go_step. go_step. eapply wpM_mono; [apply vpc_Delete_gone|].
  intros [[]|e|] ? h3 (-> & S3 & H3); [|repeat go_step; done|done].
  go_step. eapply wpM_mono; [apply sg_Delete_gone|].
  intros [[]|e|] ? h4 (-> & S4 & H4); try done.
  repeat go_step. intros _. assert (shrinks h2 h4) as S24 by by transitivity h3.
  split; [transitivity h1; [done|by transitivity h2]|].
  intros res Hres. destruct (H2 eq_refl) as [Hgw Hip].
  destruct res; simpl in Hres; try done; destruct_and?; subst.
  - by apply H4.
  - eapply shrinks_not_live; [|by apply H1]. by transitivity h2.
  - eapply shrinks_not_live; [exact S4|by apply H3].
  - eapply shrinks_not_live; [exact S24|by apply Hgw].
  - eapply shrinks_not_live; [exact S24|by apply Hip].
Qed.

(** Computations that create nothing shrink the ledger. *)
Definition creates_nothing : guarantee := fun _ c => creates c = None.

Lemma wpM_shrinks {S A} (R : rely) (m : GoC S A) (h : trace) s Q :
  wpM R creates_nothing m h s Q ->
  wpM R any_call m h s (fun oa s' h' => shrinks h h' /\ Q oa s' h').
Proof.
  unfold wpM. generalize (m s) as p. intros p. revert h.
  induction p as [[oa s']|c k IH]; intros h; simpl; [done|].
  intros [HG Hk]. split; [done|]. intros r Hr. eapply wp_mono; [by apply IH, Hk|].
  intros h' [oa s'] [Hs HQ]. split; [|done].
  transitivity (h ++ [CEv c r]); [apply shrinks_snoc; [reflexivity|exact HG]|exact Hs].
Qed.

Lemma no_creation_shrinks {S A} (m : GoC S A) h s (Q : outcome A -> S -> trace -> Prop) :
  safe exact_listings creates_nothing (eq s) m ->
  (forall oa h', shrinks h h' -> Q oa s h') -> leak_wp m h s Q.
Proof.
  intros Hm HQ. eapply wpM_mono; [apply wpM_shrinks; by apply Hm|].
  intros oa s' h' [Hs <-]. auto.
Qed.

Lemma gone_step_bind {S A} (m : GoC S A) (k : A -> GoC S unit) h0 h s P :
  safe exact_listings creates_nothing (eq s) m -> shrinks h0 h ->
  (forall a h', shrinks h h' -> leak_wp (k a) h' s (gone_post h0 s P)) ->
  leak_wp (m ≫= k) h s (gone_post h0 s P).
Proof.
  intros Hm Hs Hk. go_step. apply no_creation_shrinks; [done|].
  intros [a|e|] h' Hs'; [by apply Hk|..]; (split_and!; [done|by transitivity h|done]).
Qed.

Ltac quiet_auto := safe_auto;
  try (apply safe_remote; intros ?; reflexivity);
  try (eapply finder_safe; [apply _ | intros ?; reflexivity]).

Lemma ensureLoadBalancerACL_None_quiet m :
  safe exact_listings creates_nothing (eq m) (Instance.ensureLoadBalancerACL None).
Proof. unfold Instance.ensureLoadBalancerACL, FindLoadBalancerFrontendByNames. quiet_auto. Qed.

Lemma deregisterControlPlane_quiet m server :
  safe exact_listings creates_nothing (eq m) (Instance.deregisterControlPlane server).
Proof.
  unfold Instance.deregisterControlPlane, Instance.getMachineIPs,
    Instance.ensureControlPlaneLoadBalancer, FindLoadBalancerBackendByNames. quiet_auto.
Qed.

Lemma inst_Delete_gone h m :
  leak_wp Instance.Delete h m (gone_post h m (fun h' =>
    ~ live h' (RServer (Machine_Zone m) (Machine_Name m)))).
Proof.
  unfold Instance.Delete. do 4 gone_step; [..|by split_and!].
  - apply gone_step_bind; [apply safe_unless_Is, ensureLoadBalancerACL_None_quiet|done|].
    intros _ h1 H1. apply gone_step_bind; [apply deregisterControlPlane_quiet|by transitivity h'|].
    intros _ h2 H2. assert (shrinks h' h2) as S2 by by transitivity h1.
    apply gone_step_bind; [by quiet_auto|by transitivity h'|].
    intros _ h3 H3. assert (shrinks h' h3) as S3 by by transitivity h2.
    apply gone_step_bind; [by quiet_auto|by transitivity h'|].
    intros _ h4 H4. assert (shrinks h' h4) as S4 by by transitivity h3.
    destruct (bool_decide (srv_State x = _)).
    + apply gone_step_bind; [by quiet_auto|by transitivity h'|].
      intros _ h5 H5. assert (shrinks h' h5) as S5 by by transitivity h4.
      assert (shrinks h h5) as S05 by by transitivity h'.
      assert (pinned h5 (RServer (Machine_Zone m) (Machine_Name m)) (srv_ID x)) as Hp
        by by apply (pinned_shrinks h').
      repeat gone_step; kill_units; split_and!; auto with caps; try done.
      intros _. by eapply deleted_not_live.
    + assert (shrinks h h4) as S04 by by transitivity h'.
      assert (pinned h4 (RServer (Machine_Zone m) (Machine_Name m)) (srv_ID x)) as Hp
        by by apply (pinned_shrinks h').
      repeat gone_step; kill_units; split_and!; auto with caps; try done.
      intros _. by eapply deleted_not_live.
  - gone_step. by split_and!.
Qed.
End deletions.

(** ** The creations *)

Section creations.
Context `{SDK : ScwSDK} `{K8S : K8sLib} `{LAWS : !K8sLaws}.

(** Every creation is of a resource of the cluster, or of a part of one. *)
Definition own (c : ClusterScope) : guarantee := fun _ call =>
  forall res, creates call = Some res -> belongs c res \/ part_of_another res = true.

Definition same_owner (c c' : ClusterScope) : Prop := forall res, belongs c' res -> belongs c res.

Abbreviation own_safe c := (safe any_resp (own c)).

Lemma own_None c h call : creates call = None -> own c h call.
Proof. intros E res E'. congruence. Qed.

Lemma own_part c h call res :
  creates call = Some res -> part_of_another res = true -> own c h call.
Proof. intros E Hp res' E'. rewrite E in E'. simplify_eq. by right. Qed.

Lemma own_belongs c c' h call res :
  same_owner c c' -> creates call = Some res -> belongs c' res -> own c h call.
Proof. intros Hs E Hb res' E'. rewrite E in E'. simplify_eq. left. by apply Hs. Qed.

Ltac own_leaf :=
  first
    [ apply safe_remote; intros ?; first [by apply own_None | by eapply own_part]
    | eapply finder_safe; [apply _ | intros ?; by apply own_None]
    | apply safe_modify; done ].
Ltac own_auto := safe_auto; intros; try own_leaf.

Lemma sg_Reconcile_own c : own_safe c (same_owner c) SecurityGroup.Reconcile.
Proof.
  unfold SecurityGroup.Reconcile, SecurityGroup.ensureSecurityGroups,
    SecurityGroup.deleteExtraSecurityGroups, SecurityGroup.ensureInstanceSG,
    SecurityGroup.ensureSGRules. own_auto.
  apply safe_remote. intros h. by eapply own_belongs.
Qed.

(** Operations on an object they leave alone. *)
Lemma getOrCreatePN_own c c1 :
  same_owner c c1 -> owns_pn c1 -> own_safe c (eq c1) Vpc.getOrCreatePN.
Proof.
  intros Hs Hown. unfold Vpc.getOrCreatePN. own_auto. subst.
  apply safe_remote. intros h. by eapply own_belongs.
Qed.

Lemma vpc_Reconcile_own c : own_safe c (same_owner c) Vpc.Reconcile.
Proof.
  intros h c1 H1. unfold Vpc.Reconcile. do 3 go_step; [by go_step|]. to_prop. go_step. go_step.
  eapply safe_wpM; [by apply getOrCreatePN_own|done|].
  intros [pn|e|] ? h' <-; cbn [outcome_wrap]; [|done..].
  unfold SetStatusPrivateNetworkID. by go_step.
Qed.

Lemma gw_getOrCreateIP_own c c1 existingIP :
  same_owner c c1 -> owns_gateway c1 -> (existingIP = None -> owns_gateway_ip c1) ->
  own_safe c (eq c1) (Vpcgw.getOrCreateIP (PublicGatewayZone c1) existingIP).
Proof.
  intros Hs Hown Hip. unfold Vpcgw.getOrCreateIP. own_auto. subst.
  apply safe_remote. intros h. eapply own_belongs; [done..|]. by split_and!; [apply Hip|..].
Qed.

Lemma getOrCreateGateway_own c c1 :
  same_owner c c1 -> owns_gateway c1 ->
  own_safe c (eq c1) (Vpcgw.getOrCreateGateway (PublicGatewayZone c1)).
Proof.
  intros Hs Hown. pose proof Hown as (Hpn & Hgw & pg & Epg & Hid).
  intros h ? <-. unfold Vpcgw.getOrCreateGateway. do 3 go_step.
  eapply safe_wpM with (I := eq c1); [own_auto|done|].
  intros [[gw|]|e|] ? h' <-; cbn beta iota; [by go_step| |done..].
  rewrite Epg. do 3 go_step. eapply safe_wpM with (I := eq c1); [|done|].
  - apply gw_getOrCreateIP_own; [done..|]. intros Hip. split_and!; [done..|by exists pg].
  - intros [ip|e|] ? h2 <-; [|done..]. go_step. apply wpM_remote; [|done..].
    by eapply own_belongs.
Qed.

Lemma gw_Reconcile_own c : own_safe c (same_owner c) Vpcgw.Reconcile.
Proof.
  intros h c1 H1. unfold Vpcgw.Reconcile. do 2 go_step.
  destruct (negb (HasPrivateNetwork c1) || negb (HasPublicGateway c1)) eqn:Ehas; [by go_step|]. to_prop.
  destruct (PublicGateway_Ok c1) as [pg Epg]; [done|]. rewrite Epg. do 3 go_step.
  eapply safe_wpM with (I := eq c1); [|done|].
  { destruct (pgs_ID pg) eqn:Eid; [own_auto|]. apply safe_bind; [|own_auto].
    apply getOrCreateGateway_own; [done|]. split_and!; [done..|by exists pg]. }
  intros [id|e|] ? h2 <-; [|done..]. eapply safe_wpM with (I := eq c1); [own_auto|done|].
  by intros ? ? ? <-.
Qed.

Lemma getOrCreateLB_own c c1 :
  same_owner c c1 -> own_safe c (eq c1) (LoadBalancer.getOrCreateLB (LoadBalancerZone c1)).
Proof.
  intros Hs. unfold LoadBalancer.getOrCreateLB. own_auto; subst;
    apply safe_remote; intros h; by eapply own_belongs.
Qed.

Lemma lb_Reconcile_own c : own_safe c (same_owner c) LoadBalancer.Reconcile.
Proof.
  intros h c1 H1. unfold LoadBalancer.Reconcile. do 3 go_step.
  eapply safe_wpM; [by apply getOrCreateLB_own|done|]. intros [lb|e|] ? h' <-; [|done..].
  eapply safe_wpM with (I := same_owner c); [|done|done].
  unfold LoadBalancer.ensurePrivateNetwork, LoadBalancer.ensureBackend,
    LoadBalancer.ensureFrontend, LoadBalancer.ensureACLs, LoadBalancer.ensureACL,
    LoadBalancer.SetControlPlaneEndpoint. own_auto.
Qed.

#[local] Hint Resolve sg_Reconcile_own vpc_Reconcile_own gw_Reconcile_own lb_Reconcile_own : caps_wp.

Lemma reconcileNormal_own c : own_safe c (same_owner c) reconcileNormal.
Proof.
  intros h c1 H1. unfold reconcileNormal. do 2 go_step.
  pose proof (AddFinalizer_name (sc_ObjectMeta (cs_ScalewayCluster c1)) ClusterFinalizer) as Hn.
  destruct (AddFinalizer _ _) as [meta added]. simpl in Hn. do 2 go_step.
  eapply safe_wpM with (I := same_owner c); [unfold Cluster_PatchObject; own_auto| |done].
  intros res Hres. apply H1. destruct res; simpl in *; try done; unfold Cluster_Tags, Cluster_Name in *;
    simpl in *; by rewrite Hn in Hres.
Qed.
End creations.

(** ** From creation to deletion *)

Section main.
Context `{SDK : ScwSDK} `{K8S : K8sLib} `{LAWS : !K8sLaws}.

(** What the allowed calls put in the ledger. *)
Lemma own_ledger c t e :
  obeys (own c) [] t -> e ∈ ledger t -> belongs c e.1 \/ part_of_another e.1 = true.
Proof.
  revert e. induction t as [|[call r] t IH] using rev_ind; intros e Hob; [by intros ?%not_elem_of_nil|].
  assert (forall e, e ∈ ledger t -> belongs c e.1 \/ part_of_another e.1 = true) as Ht.
  { intros e'. apply IH. intros t1 c' r' t2 ->. apply (Hob t1 c' r' (t2 ++ [CEv call r])).
    by rewrite <- app_assoc. }
  rewrite ledger_snoc. simpl. pose proof (Hob t call r [] eq_refl) as Hown.
  destruct r as [a|err]; [|auto].
  destruct (creates call) as [res|] eqn:E; rewrite ?elem_of_cons; intros H;
    [|apply list_elem_of_filter in H as [_ H]; auto].
  destruct H as [->|H]; [by apply Hown|apply list_elem_of_filter in H as [_ H]; auto].
Qed.

(** The trace of passes over a cluster, from the scopes they started with. *)
Definition cluster_passes (o : oracle cloud) (cs : list ClusterScope) : trace :=
  run_all o [] ((fun c => reconcileNormal c) <$> cs).


(** Whatever happened before, once the deletion of a machine succeeds no server of
    its name is live in its zone, provided that the listings show the live servers. *)
Theorem machine_leaves_no_server (o : oracle cloud) (h : trace) (m : MachineScope) :
  admissible exact_listings o ->
  (runM o h Instance.Delete m).2.1 = Ok tt ->
  ~ live (runM o h Instance.Delete m).1 (RServer (Machine_Zone m) (Machine_Name m)).
Proof.
  intros Ho Hok.
  destruct (wpM_sound _ _ o _ _ _ _ Ho (inst_Delete_gone h m)) as (t & _ & _ & HQ).
  destruct HQ as (_ & _ & HQ). by apply HQ.
Qed.
(** When no server of its name is listed, the deletion of a machine makes no other
    call and succeeds, so that the finalizer is dropped: a flexible IP that an earlier
    pass created for the machine, before the creation of the server failed, stays in the
    project. *)
Theorem machine_ip_leaks (o : oracle cloud) (h : trace) (m : MachineScope) servers :
  o h (ListServers (Machine_Zone m) (Some (Machine_Name m))) = ROk servers ->
  (forall server, server ∈ servers -> srv_Name server <> Machine_Name m) ->
  live h (RInstanceIP (Machine_Zone m) (Machine_Tags m)) ->
  let '(t, (oa, m')) := runM o h MachineController.reconcileDelete m in
  t = h ++ [ok_ev (ListServers (Machine_Zone m) (Some (Machine_Name m))) servers] /\
  oa = Ok no_requeue /\ (MachineFinalizer ∉ om_Finalizers (sm_ObjectMeta (ms_ScalewayMachine m'))) /\
  live t (RInstanceIP (Machine_Zone m) (Machine_Tags m)).
Proof.
  intros Ho Hno Hlive.
  destruct (wpM_sound (fun h c r => r = o h c) any_call o MachineController.reconcileDelete h m
    (fun oa m' h' => h' = h ++ [ok_ev (ListServers (Machine_Zone m) (Some (Machine_Name m))) servers] /\
      oa = Ok no_requeue /\ (MachineFinalizer ∉ om_Finalizers (sm_ObjectMeta (ms_ScalewayMachine m')))))
    as (t & _ & _ & HQ); [by intros h' call| |].
  - unfold MachineController.reconcileDelete, Instance.Delete. do 4 go_step.
    eapply finder_unless_Is; [apply _ | intros ? ? HH; exact HH | exact I | | |];
      rewrite Ho; try done.
    + intros xs x [= ->] Hx Hp. to_prop. by destruct (Hno x Hx).
    + intros xs [= ->] _. repeat go_step. split_and!; [done..|]. apply RemoveFinalizer_out.
  - destruct (runM o h MachineController.reconcileDelete m) as [t' [oa m']]. simpl in HQ.
    destruct HQ as (-> & -> & ?). split_and!; [done..|].
    apply list_elem_of_fmap in Hlive as (e & E & He). apply list_elem_of_fmap. exists e.
    split; [done|]. rewrite ledger_snoc. simpl. by apply list_elem_of_filter.
Qed.
End main.

(** ** The simulated project *)

Lemma NoDup_fst_functional {A B} (l : list (A * B)) a b b' :
  NoDup l.*1 -> (a, b) ∈ l -> (a, b') ∈ l -> b = b'.
Proof.
  induction l as [|[a0 b0] l IH]; [by intros _ ?%not_elem_of_nil|].
  rewrite fmap_cons, NoDup_cons. intros [Hni Hnd].
  assert (forall b, (a0, b) ∉ l) as Hno
    by (intros b1 ?; apply Hni, list_elem_of_fmap; by exists (a0, b1)).
  rewrite !elem_of_cons. intros [E|H] [E'|H']; simplify_eq; auto; by destruct (Hno _ ltac:(eassumption)).
Qed.

(** The simulation, where a project that holds a resource twice answers nothing. *)
Definition sim_strict (w : world) : oracle cloud := fun h c =>
  if bool_decide (NoDup (ledger h).*1) then sim w h c else RErr (OtherError "conflict").

Lemma sim_list_elem {A} h (f : resource -> ID -> option A) res id x :
  (res, id) ∈ ledger h -> f res id = Some x -> x ∈ sim_list h f.
Proof. intros Hin E. apply list_elem_of_omap. by exists (res, id). Qed.

Lemma sim_list_unique {A} h (f : resource -> ID -> option A) (name : A -> string) ident :
  NoDup (ledger h).*1 ->
  (forall res res' id id' x y, f res id = Some x -> f res' id' = Some y -> name x = name y ->
     res = res' /\ ident x = id /\ ident y = id') ->
  unique_names name ident (sim_list h f).
Proof.
  intros Hnd Hf x y ([r i] & Hi & Ex)%list_elem_of_omap ([r' i'] & Hi' & Ey)%list_elem_of_omap E.
  destruct (Hf r r' i i' x y Ex Ey E) as (<- & -> & ->). by eapply NoDup_fst_functional.
Qed.

Ltac by_kind :=
  intros res res' id id' x y Ex Ey E; destruct res, res'; simpl in *; try done;
  unfold guard_some in *; repeat case_match; simplify_eq; to_prop; simpl in *; by subst.

Lemma sim_strict_exact w : admissible exact_listings (sim_strict w).
Proof.
  intros h c. unfold sim_strict. case_bool_decide as Hnd; [|done].
  destruct c; simpl; repeat case_match; try done; (split; [|try done]).
  all: try (by eapply sim_list_unique; [exact Hnd|by_kind]).
  all: try (intros res id Hcov Hin; destruct res; simpl in Hcov; try done; repeat case_match; try done).
  all: destruct_and?; subst; simpl; eexists; (split;
    [eapply sim_list_elem; [exact Hin|];
     cbn; rewrite ?String_eqb_refl, ?bool_decide_eq_true_2 by done; reflexivity|by split_and?]).
Qed.

#[local] Existing Instances sim_sdk sim_k8s sim_k8s_laws.


(** A machine after the passes that created everything. *)
Lemma machine_leaves_no_server_witness :
  ~ live (runM (sim_strict demo_world)
      (passes_trace (sim_strict demo_world) [ClusterRequest demo_key; MachineRequest demo_key])
      Instance.Delete demo_machine_scope).1 (RServer "fr-par-1" "caps-node").
Proof.
  apply (machine_leaves_no_server (sim_strict demo_world) _ demo_machine_scope
    (sim_strict_exact demo_world)). by vm_compute.
Defined.

(** A project whose quota of servers is exhausted: the machine pass creates an address,
    then fails. *)
Definition sim_no_server : oracle cloud := fun h c =>
  match c with CreateServer _ => RErr (OtherError "quota exceeded") | _ => sim demo_world h c end.

Definition demo_leak_history : trace :=
  passes_trace sim_no_server [ClusterRequest demo_key; MachineRequest demo_key].

Lemma machine_ip_leaks_witness :
  let '(t, (oa, m')) := runM sim_no_server demo_leak_history MachineController.reconcileDelete
    demo_machine_scope in
  t = demo_leak_history ++ [ok_ev (ListServers "fr-par-1" (Some "caps-node"%string)) []] /\
  oa = Ok no_requeue /\ (MachineFinalizer ∉ om_Finalizers (sm_ObjectMeta (ms_ScalewayMachine m'))) /\
  live t (RInstanceIP "fr-par-1" ["caps-cluster=demo"; "caps-node=node"]%string).
Proof.
  apply (machine_ip_leaks sim_no_server demo_leak_history demo_machine_scope []);
    [by vm_compute|by intros server ?%not_elem_of_nil|].
  apply (bool_decide_unpack _). by vm_compute.
Defined.
