(* ===== verification/Lifecycle.v ===== *)
(** * The life of a cluster

    The stored [ScalewayCluster] evolves by the updates of the users, which the webhook
    checks, by its deletion, and by the passes of the controller.  [cluster_step] is this
    transition system; the theorems state its invariants, that the controller only writes
    what the webhook accepts, and that it refines the abstract life cycle [phase_step]. *)

From S2P Require Import Prelude Go Net Prog Sdk Types Cloud Ledger Scope Client Secret.
From S2P Require Vpc Vpcgw SecurityGroup LoadBalancer.
From S2P Require Import ClusterController ClusterWebhook.
From S2P Require Import Simulation NoDuplicates ClusterValidation ClusterTeardown Controllers.
#[local] Open Scope caps_scope.

(** ** What a pass writes *)

Section writes.
Context `{SDK : ScwSDK} `{K8S : K8sLib} `{LAWS : !K8sLaws}.
Implicit Types (old sc : ScalewayCluster) (h : trace).

Definition deleting sc : bool := negb (Time_IsZero (om_DeletionTimestamp (sc_ObjectMeta sc))).

Definition has_finalizer sc : Prop := ClusterFinalizer ∈ om_Finalizers (sc_ObjectMeta sc).

Definition endpoint_IPv4 sc : Prop :=
  exists b, netip_ParseAddr_opt (ep_Host (scs_ControlPlaneEndpoint (sc_Spec sc))) = Some (Addr4 b).

(** What the controller may write over [old]: while the object lives, its finalizer, its
    status and its endpoint; once it is being deleted, the removal of the finalizer. *)
Definition controller_write old sc : Prop :=
  om_DeletionTimestamp (sc_ObjectMeta sc) = om_DeletionTimestamp (sc_ObjectMeta old) /\
  (exists e, sc_Spec sc = sc_Spec (set_sc_ControlPlaneEndpoint e old)) /\
  (if deleting old then sc = old \/ ~ has_finalizer sc /\ sc_Status sc = sc_Status old /\
                                    sc_Spec sc = sc_Spec old
   else has_finalizer sc /\
        (scst_Ready (sc_Status sc) = scst_Ready (sc_Status old) /\ sc_Spec sc = sc_Spec old \/
         scst_Ready (sc_Status sc) = true /\ endpoint_IPv4 sc)).

Lemma same_endpoint sc :
  sc_Spec sc = sc_Spec (set_sc_ControlPlaneEndpoint (scs_ControlPlaneEndpoint (sc_Spec sc)) sc).
Proof. by destruct sc as [? [] ?]. Qed.

(** Every write of the object is one of these. *)
Definition writes old : guarantee := fun _ call =>
  match call with Patch _ (OCluster sc) => controller_write old sc | _ => True end.

(** The API server answers with [old] when the object is read. *)
Definition holds old : rely := fun _ c r =>
  match c return resp cloud c -> Prop with
  | GetScalewayCluster _ => fun r => r = ROk old
  | _ => fun _ => True
  end r.

(** The operations of the services write no Kubernetes object. *)
Definition no_patch : guarantee := fun _ call =>
  match call with Patch _ _ => False | _ => True end.

Abbreviation quiet_safe := (safe any_resp no_patch (fun _ : ClusterScope => True)).

Lemma sg_Reconcile_no_patch : quiet_safe SecurityGroup.Reconcile.
Proof.
  unfold SecurityGroup.Reconcile, SecurityGroup.ensureSecurityGroups,
    SecurityGroup.deleteExtraSecurityGroups, SecurityGroup.ensureInstanceSG,
    SecurityGroup.ensureSGRules. free_auto.
Qed.

Lemma vpc_Reconcile_no_patch : quiet_safe Vpc.Reconcile.
Proof. unfold Vpc.Reconcile, Vpc.getOrCreatePN, SetStatusPrivateNetworkID. free_auto. Qed.

Lemma gw_Reconcile_no_patch : quiet_safe Vpcgw.Reconcile.
Proof. unfold Vpcgw.Reconcile, Vpcgw.getOrCreateGateway, Vpcgw.getOrCreateIP. free_auto. Qed.

Lemma ensureACL_no_patch frontendID name ips deny index :
  quiet_safe (LoadBalancer.ensureACL frontendID name ips deny index).
Proof. unfold LoadBalancer.ensureACL. free_auto. Qed.

Hint Resolve ensureACL_no_patch : caps_wp.

Lemma lb_Reconcile_no_patch : quiet_safe LoadBalancer.Reconcile.
Proof.
  unfold LoadBalancer.Reconcile, LoadBalancer.getOrCreateLB, LoadBalancer.ensurePrivateNetwork,
    LoadBalancer.ensureBackend, LoadBalancer.ensureFrontend, LoadBalancer.ensureACLs,
    LoadBalancer.SetControlPlaneEndpoint. free_auto.
Qed.

Hint Resolve sg_Reconcile_no_patch vpc_Reconcile_no_patch gw_Reconcile_no_patch
  lb_Reconcile_no_patch : caps_wp.

Lemma reconcileDelete_no_patch : quiet_safe reconcileDelete.
Proof.
  unfold reconcileDelete, LoadBalancer.Delete, Vpcgw.Delete, Vpc.Delete, SecurityGroup.Delete,
    SecurityGroup.ensureSecurityGroups, SecurityGroup.deleteExtraSecurityGroups,
    SecurityGroup.ensureInstanceSG, SecurityGroup.ensureSGRules. free_auto.
Qed.

Lemma no_patch_writes {S A} old (m : GoC S A) h s :
  safe any_resp no_patch (fun _ => True) m ->
  wpM any_resp (writes old) m h s (fun _ _ _ => True).
Proof.
  intros Hm. eapply wpM_weaken; [by apply Hm| |done]. intros h' c. by destruct c; simpl.
Qed.

Lemma protected_write c :
  deleting (cs_ScalewayCluster c) = false ->
  controller_write (cs_ScalewayCluster c)
    (set_sc_ObjectMeta (protected_meta c) (cs_ScalewayCluster c)).
Proof.
  intros Hd. unfold controller_write. rewrite Hd. split_and!.
  - apply AddFinalizer_deletion.
  - eexists. apply (same_endpoint (cs_ScalewayCluster c)).
  - apply protected_meta_in.
  - by left.
Qed.

Lemma reconcileNormal_writes c h :
  deleting (cs_ScalewayCluster c) = false ->
  wpM any_resp (writes (cs_ScalewayCluster c)) reconcileNormal h c (fun _ _ _ => True).
Proof.
  intros Hd. unfold reconcileNormal. do 2 go_step.
  pose proof (protected_write c Hd) as Hw. unfold protected_meta in Hw.
  destruct (AddFinalizer _ _) as [meta added]. cbn [fst] in Hw. do 3 go_step.
  assert (forall h c', wpM any_resp (writes (cs_ScalewayCluster c))
    (_ ← modify (fun c => set_cs_Status (set_scst_FailureDomains (FailureDomains c)) c);
     _ ← SecurityGroup.Reconcile;
     _ ← wrapf "failed to reconcile vpc" Vpc.Reconcile;
     _ ← wrapf "failed to reconcile vpcgw" Vpcgw.Reconcile;
     r ← attempt LoadBalancer.Reconcile;
     match r with
     | inl err =>
         if errors_Is err ErrLoadBalancerNotReady then mret requeue_2s
         else fail (Errorf "failed to reconcile loadbalancer" err)
     | inr _ => _ ← modify (set_cs_Status (set_scst_Ready true)); mret no_requeue
     end) h c' (fun _ _ _ => True)) as Hrest by (intros; apply no_patch_writes; free_auto).
  destruct added; [|go_step; apply Hrest]. unfold Cluster_PatchObject.
  do 2 go_step. go_step; [exact Hw|apply Hrest|done].
Qed.

Lemma reconcileNormal_final old c h :
  cs_ScalewayCluster c = old -> deleting old = false ->
  wpM any_resp (writes old) reconcileNormal h c
    (fun _ c' _ => controller_write old (cs_ScalewayCluster c')).
Proof.
  intros <- Hd. eapply wpM_mono; [eapply wpM_conj;
    [by apply reconcileNormal_writes|apply reconcileNormal_ready]|].
  assert (forall c', unready c c' ->
    controller_write (cs_ScalewayCluster c) (cs_ScalewayCluster c')) as Hun.
  { intros c' (Es & Er & Em). unfold controller_write. rewrite Hd, Em, Es. split_and!.
    - apply AddFinalizer_deletion.
    - eexists. apply (same_endpoint (cs_ScalewayCluster c)).
    - unfold has_finalizer. rewrite Em. apply protected_meta_in.
    - by left. }
  intros oa c' h' [_ Hq]. destruct oa as [r|e|]; [|by apply Hun..].
  destruct Hq as [(_ & Hr & He & Hbut & _ & Em & Hfin & _)|[_ ?]]; [|by apply Hun].
  unfold controller_write. rewrite Hd. split_and!; [|done|done|by right].
  rewrite Em. apply AddFinalizer_deletion.
Qed.

Lemma reconcileDelete_final old c h :
  cs_ScalewayCluster c = old -> deleting old = true ->
  wpM any_resp (writes old) reconcileDelete h c
    (fun _ c' _ => controller_write old (cs_ScalewayCluster c')).
Proof.
  intros <- Hd. eapply wpM_mono; [eapply wpM_conj;
    [apply no_patch_writes, reconcileDelete_no_patch|apply reconcileDelete_spec]|].
  assert (controller_write (cs_ScalewayCluster c) (cs_ScalewayCluster c)) as Hsame.
  { unfold controller_write. rewrite Hd. split_and!; [done| |by left].
    eexists. apply (same_endpoint (cs_ScalewayCluster c)). }
  intros oa c' h' [_ Hq]. destruct oa as [r|e|]; [|by subst c'|done].
  destruct Hq as [(_ & -> & _)|[_ ->]]; [|done].
  unfold controller_write. rewrite Hd. split_and!.
  - apply RemoveFinalizer_deletion.
  - eexists. apply (same_endpoint (cs_ScalewayCluster c)).
  - right. split; [apply RemoveFinalizer_out|done].
Qed.

(** Every write of a pass that read [old] is a [controller_write]. *)
Lemma cluster_pass_writes old key :
  wpM (holds old) (writes old) (Reconcile key) [] tt (fun _ _ _ => True).
Proof.
  unfold Reconcile. go_step. go_step.
  apply wpM_remote; [done| |intros e He; discriminate He]. intros sc Hsc. injection Hsc as ->.
  cbn beta iota. unfold reconcileObject, clientFromSecret, takeOwnership.
  repeat first [ go_step | apply wp_NewCluster; [done| |intros ? ?] ]; try done;
    cbn [outcome_wrap].
  all: unfold Cluster_Close, Cluster_PatchObject.
  all: match goal with
    | H : negb _ = true |- _ => eapply wpM_mono; [apply wpM_any, reconcileDelete_final; [done|exact H]|]
    | H : negb _ = false |- _ => eapply wpM_mono; [apply wpM_any, reconcileNormal_final; [done|exact H]|]
    end.
  all: intros oa c' h' Hw; repeat go_step; try done; exact Hw.
Qed.
End writes.

(** ** The stored object *)

Section stored.
Context `{SDK : ScwSDK} `{K8S : K8sLib} `{LAWS : !K8sLaws}.
Implicit Types (old sc r : ScalewayCluster) (t : trace).

(** The object after the writes of [t] that the API server accepted. *)
Definition store (sc : ScalewayCluster) (e : event cloud) : ScalewayCluster :=
  match e with
  | Ev (Patch _ (OCluster sc')) (ROk _) => sc'
  | _ => sc
  end.

Definition stored (old : ScalewayCluster) (t : trace) : ScalewayCluster := foldl store old t.

Lemma stored_ind (P : ScalewayCluster -> Prop) old t :
  P old -> (forall b sc x, CEv (Patch b (OCluster sc)) x ∈ t -> P sc) -> P (stored old t).
Proof.
  unfold stored. revert old. induction t as [|[c r] t IH]; intros old Hold Ht; [done|]. simpl.
  apply IH; [|intros b sc r' Hin; eapply Ht; by right].
  destruct c; try done. destruct after; [|done]. destruct r; [|done]. eapply Ht. by left.
Qed.

(** A pass over the stored object, whatever the other answers. *)
Inductive cluster_pass old : ScalewayCluster -> Prop :=
| cluster_pass_run (o : oracle cloud) (key : NamespacedName) :
    admissible (holds old) o ->
    cluster_pass old (stored old (run o [] (pass (ClusterRequest key))).1).

Lemma pass_calls_write old (o : oracle cloud) key b sc x :
  admissible (holds old) o ->
  CEv (Patch b (OCluster sc)) x ∈ (run o [] (pass (ClusterRequest key))).1 ->
  controller_write old sc.
Proof.
  intros Ho (t1 & t2 & E)%list_elem_of_split.
  destruct (wpM_sound _ _ o _ _ _ _ Ho (cluster_pass_writes old key)) as (t & Et & Hob & _).
  exact (Hob t1 _ x t2 (eq_trans (eq_sym Et) E)).
Qed.

Lemma cluster_pass_write old sc : cluster_pass old sc -> sc = old \/ controller_write old sc.
Proof.
  intros [o key Ho]. apply (stored_ind (fun sc => sc = old \/ controller_write old sc)); [by left|].
  intros b sc' x Hin. right. by eapply pass_calls_write.
Qed.

(** What the controller writes passes the webhook. *)
Lemma controller_write_accepted old sc :
  controller_write old sc -> same_immutable old sc /\ (valid_cluster old -> valid_cluster sc).
Proof.
  intros (_ & (e & Es) & _). unfold same_immutable, valid_cluster, ClusterWebhook.network_of, loadbalancer_of.
  by rewrite Es.
Qed.

(** C34.  The webhook never refuses what the controller writes: whatever the APIs answer,
    every object that a pass over an accepted cluster writes back is an update that
    [ValidateUpdate] accepts. *)
Theorem cluster_writes_accepted old (o : oracle cloud) key t1 b sc x t2 :
  admissible (holds old) o -> ValidateCreate old = Ok tt ->
  (run o [] (pass (ClusterRequest key))).1 = t1 ++ CEv (Patch b (OCluster sc)) x :: t2 ->
  ValidateUpdate sc old = Ok tt.
Proof.
  intros Ho Hv E. apply ValidateUpdate_iff.
  assert (controller_write old sc) as Hw.
  { eapply (pass_calls_write old o key b sc x); [done|]. rewrite E. apply elem_of_app. right. left. }
  apply controller_write_accepted in Hw as [Hs Hval]. split; [done|].
  apply Hval. by apply (proj1 (validate_iff old)).
Qed.

(** ** The life cycle *)

(** A new object, as the webhook accepted it. *)
Definition created r : Prop :=
  ValidateCreate r = Ok tt /\ scst_Ready (sc_Status r) = false /\
  om_Finalizers (sc_ObjectMeta r) = [] /\ deleting r = false.

(** The object with a deletion timestamp. *)
Definition set_deletion (time : Z) (r : ScalewayCluster) : ScalewayCluster :=
  let m := sc_ObjectMeta r in
  set_sc_ObjectMeta
    {| om_Name := om_Name m; om_Namespace := om_Namespace m; om_UID := om_UID m;
       om_Labels := om_Labels m; om_Annotations := om_Annotations m;
       om_Finalizers := om_Finalizers m; om_OwnerReferences := om_OwnerReferences m;
       om_DeletionTimestamp := Some time |} r.

(** What happens to a stored object: a user updates the spec, leaving the endpoint to the
    provider; a user deletes it, and the API server keeps it until its finalizers are
    removed; the controller runs. *)
Inductive cluster_step : ScalewayCluster -> ScalewayCluster -> Prop :=
| user_update old r :
    ValidateUpdate r old = Ok tt ->
    sc_ObjectMeta r = sc_ObjectMeta old -> sc_Status r = sc_Status old ->
    scs_ControlPlaneEndpoint (sc_Spec r) = scs_ControlPlaneEndpoint (sc_Spec old) ->
    cluster_step old r
| user_delete old time :
    deleting old = false -> om_Finalizers (sc_ObjectMeta old) <> [] ->
    Time_IsZero (Some time) = false ->
    cluster_step old (set_deletion time old)
| controller_pass old r : cluster_pass old r -> cluster_step old r.

(** *** Invariants *)

Definition cluster_invariant r : Prop :=
  valid_cluster r /\
  (scst_Ready (sc_Status r) = true ->
     endpoint_IPv4 r /\ (deleting r = false -> has_finalizer r)).

Lemma same_deleting old r :
  om_DeletionTimestamp (sc_ObjectMeta r) = om_DeletionTimestamp (sc_ObjectMeta old) ->
  deleting r = deleting old.
Proof. unfold deleting. by intros ->. Qed.

Lemma cluster_step_invariant old r :
  cluster_step old r -> cluster_invariant old -> cluster_invariant r.
Proof.
  intros Hstep [Hv Hr]. destruct Hstep as [old r Hup Em Es Ee|old time Hd Hf _|old r Hpass].
  - apply ValidateUpdate_iff in Hup as [_ Hv']. split; [done|].
    unfold endpoint_IPv4, deleting, has_finalizer in *. by rewrite Es, Ee, Em.
  - split; [exact Hv|]. intros Hready. destruct (Hr Hready) as [He Hfin]. split; [exact He|].
    intros _. exact (Hfin Hd).
  - destruct (cluster_pass_write _ _ Hpass) as [->|Hw]; [by split|].
    split; [by apply controller_write_accepted in Hw as [_ Hw]; apply Hw|].
    destruct Hw as (Ed & _ & Hw). rewrite (same_deleting _ _ Ed).
    destruct (deleting old) eqn:Edel.
    + destruct Hw as [->|(_ & Es & Esp)]; [done|]. rewrite Es. intros Hready.
      destruct (Hr Hready) as [He _]. unfold endpoint_IPv4 in *. by rewrite Esp.
    + destruct Hw as [Hfin [[Er Esp]|[_ He]]]; [|done]. rewrite Er. intros Hready.
      destruct (Hr Hready) as [He _]. unfold endpoint_IPv4 in *. by rewrite Esp.
Qed.

Lemma cluster_step_immutable old r : cluster_step old r -> same_immutable old r.
Proof.
  destruct 1 as [old r Hup _ _ _|old time _ _ _|old r Hpass].
  - by apply ValidateUpdate_iff in Hup as [].
  - by repeat split.
  - destruct (cluster_pass_write _ _ Hpass) as [->|Hw]; [reflexivity|].
    by apply controller_write_accepted in Hw as [].
Qed.

(** C14.  Whatever the users, the API server and the controller do to a cluster after its
    creation was accepted, in any order: the stored object is still one that the webhook
    accepts, with the immutable fields it was created with; and when it is marked ready
    its endpoint is an IPv4 address and, unless it is being deleted, it carries the
    finalizer. *)
Theorem reachable_clusters r0 r :
  created r0 -> rtc cluster_step r0 r ->
  ValidateCreate r = Ok tt /\ same_immutable r0 r /\
  (scst_Ready (sc_Status r) = true ->
     endpoint_IPv4 r /\ (deleting r = false -> has_finalizer r)).
Proof.
  intros (Hv & Hready & _ & _) Hsteps.
  assert (cluster_invariant r0) as Hinv.
  { split; [by apply (proj1 (validate_iff r0))|]. by rewrite Hready. }
  clear Hv Hready. unfold ValidateCreate. rewrite (proj1 (validate_iff r)).
  induction Hsteps as [r|r0 r1 r Hstep _ IH]; [by destruct Hinv|].
  destruct IH as (Hv & Hs & Hr); [by eapply cluster_step_invariant|].
  split; [done|]. split; [|done]. etransitivity; [by apply cluster_step_immutable|done].
Qed.

(** *** The abstract life cycle *)

Inductive phase := Created | Protected | Ready | Deleting | Released.

Inductive phase_step : phase -> phase -> Prop :=
| phase_protect : phase_step Created Protected
| phase_ready_at_once : phase_step Created Ready
| phase_ready : phase_step Protected Ready
| phase_delete p : p = Protected \/ p = Ready -> phase_step p Deleting
| phase_delete_unprotected : phase_step Created Released
| phase_release : phase_step Deleting Released.

Definition phase_of r : phase :=
  let protected := bool_decide (ClusterFinalizer ∈ om_Finalizers (sc_ObjectMeta r)) in
  if deleting r then if protected then Deleting else Released
  else if protected then if scst_Ready (sc_Status r) then Ready else Protected
  else Created.

Lemma phase_of_released r : deleting r = true -> ~ has_finalizer r -> phase_of r = Released.
Proof. intros Hd Hf. unfold phase_of. by rewrite Hd, (bool_decide_eq_false_2 _ Hf). Qed.

Lemma phase_of_protected r : deleting r = false -> has_finalizer r ->
  phase_of r = if scst_Ready (sc_Status r) then Ready else Protected.
Proof. intros Hd Hf. unfold phase_of. by rewrite Hd, (bool_decide_eq_true_2 _ Hf). Qed.

Lemma controller_write_phase old sc :
  controller_write old sc ->
  phase_of sc = phase_of old \/ phase_step (phase_of old) (phase_of sc).
Proof.
  intros (Ed & _ & Hw). pose proof (same_deleting _ _ Ed) as Edel.
  destruct (deleting old) eqn:Eold.
  - destruct Hw as [->|[Hf _]]; [by left|]. rewrite (phase_of_released sc) by done.
    unfold phase_of. rewrite Eold. destruct (bool_decide _); [right; constructor|by left].
  - destruct Hw as [Hf Hr]. rewrite (phase_of_protected sc) by done.
    assert (scst_Ready (sc_Status old) = true -> scst_Ready (sc_Status sc) = true) as Hmono
      by (intros E; destruct Hr as [[-> _]|[-> _]]; done).
    unfold phase_of. rewrite Eold.
    destruct (bool_decide _), (scst_Ready (sc_Status old)), (scst_Ready (sc_Status sc));
      first [by left | right; constructor | by discriminate Hmono].
Qed.

(** C7.  The stored object refines the abstract life cycle of [phase_step]: it starts as
    [Created], and each of its steps is a step of the abstract machine or leaves the phase
    alone.  In particular it is never ready before the finalizer is stored, never
    unready again, and released only once it is being deleted. *)
Theorem cluster_lifecycle_refines :
  (forall r, created r -> phase_of r = Created) /\
  (forall r r', cluster_step r r' ->
     phase_of r' = phase_of r \/ phase_step (phase_of r) (phase_of r')).
Proof.
  split.
  - intros r (_ & _ & Hf & Hd). unfold phase_of. by rewrite Hd, Hf.
  - intros r r' [old r1 Hup Em Es Ee|old time Hd Hf Ht|old r1 Hpass].
    + left. unfold phase_of, deleting. by rewrite Em, Es.
    + right. assert (deleting (set_deletion time old) = true) as Hd'
        by (unfold deleting; cbn; by rewrite Ht).
      unfold phase_of. rewrite Hd, Hd'. cbn [set_deletion sc_ObjectMeta set_sc_ObjectMeta om_Finalizers].
      destruct (bool_decide _); [destruct (scst_Ready _); constructor; auto|constructor].
    + destruct (cluster_pass_write _ _ Hpass) as [->|Hw]; [by left|].
      by apply controller_write_phase.
Qed.
End stored.

(** ** The sample cluster *)

#[local] Existing Instances sim_sdk sim_k8s sim_k8s_laws.

(** [o], but the cluster is always read as [old]. *)
Definition reading (old : ScalewayCluster) (o : oracle cloud) : oracle cloud := fun h c =>
  match c return resp cloud c with
  | GetScalewayCluster _ => ROk old
  | c => o h c
  end.

Lemma reading_holds old o : admissible (holds old) (reading old o).
Proof. intros h c. by destruct c. Qed.

Abbreviation demo_reading := (reading demo_cluster (sim demo_world)).

Definition demo_stored : ScalewayCluster :=
  stored demo_cluster (run demo_reading [] (pass (ClusterRequest demo_key))).1.

Lemma demo_pass : cluster_pass demo_cluster demo_stored.
Proof. constructor. apply reading_holds. Qed.

Definition demo_protected : ScalewayCluster :=
  set_sc_ObjectMeta (sim_set_finalizers (sc_ObjectMeta demo_cluster) [ClusterFinalizer]) demo_cluster.

Lemma demo_writes_finalizer :
  (run demo_reading [] (pass (ClusterRequest demo_key))).1 =
    take 5 (run demo_reading [] (pass (ClusterRequest demo_key))).1 ++
    CEv (Patch (OCluster demo_cluster) (OCluster demo_protected)) (ROk tt) ::
    drop 6 (run demo_reading [] (pass (ClusterRequest demo_key))).1.
Proof. by vm_compute. Qed.

Lemma cluster_writes_accepted_witness : ValidateUpdate demo_protected demo_cluster = Ok tt.
Proof.
  eapply (cluster_writes_accepted demo_cluster demo_reading demo_key);
    [apply reading_holds | by vm_compute | exact demo_writes_finalizer].
Defined.

Lemma demo_created : created demo_cluster.
Proof. by vm_compute. Qed.

Lemma reachable_clusters_witness :
  scst_Ready (sc_Status demo_stored) = true /\ endpoint_IPv4 demo_stored /\ has_finalizer demo_stored.
Proof.
  assert (scst_Ready (sc_Status demo_stored) = true) as Hr by (vm_compute; reflexivity).
  split; [exact Hr|].
  destruct (reachable_clusters demo_cluster demo_stored demo_created
    (rtc_once _ _ (controller_pass _ _ demo_pass))) as (_ & _ & H).
  destruct (H Hr) as [He Hf]. split; [exact He|]. apply Hf. vm_compute. reflexivity.
Defined.

Lemma cluster_lifecycle_refines_witness :
  phase_of demo_cluster = Created /\ phase_of demo_stored = Ready /\
  phase_step (phase_of demo_cluster) (phase_of demo_stored).
Proof.
  destruct cluster_lifecycle_refines as [Hc Hs]. split; [exact (Hc _ demo_created)|].
  assert (phase_of demo_stored = Ready) as Er by (vm_compute; reflexivity). split; [exact Er|].
  destruct (Hs _ _ (controller_pass _ _ demo_pass)) as [E|Hstep]; [|exact Hstep].
  rewrite Er, (Hc _ demo_created) in E. discriminate E.
Defined.
