(* ===== verification/Networks.v ===== *)
(** * The Private Network and the Public Gateway of a cluster

    What a pass of [Vpc.Reconcile] and of [Vpcgw.Reconcile] leaves behind: which network
    is recorded, which gateway is attached to it, and with which address it was created. *)

From S2P Require Import Prelude Go Net Prog Sdk Types Cloud Ledger Scope Client.
From S2P Require Vpc Vpcgw.
From S2P Require Import Simulation NoDuplicates Bringup.
#[local] Open Scope caps_scope.

(** ** The Private Network *)

Section network.
Implicit Types (h : trace) (c : ClusterScope).

(** The subnets requested for the network: the one of the spec if any. *)
Definition requested_subnets c (subnets : list IPNet) : Prop :=
  exists network privateNetwork, scs_Network (cs_Spec c) = Some network /\
    ns_PrivateNetwork network = Some privateNetwork /\
    match pns_Subnet privateNetwork with
    | None => subnets = []
    | Some subnet => exists n, ParseCIDR subnet = Ok n /\ subnets = [n]
    end.

(** The API listed [pn] under the name of the cluster, or answered its creation. *)
Definition network_reported h c (pn : PrivateNetwork) : Prop :=
  (exists pns, pn ∈ pns /\ pn_Name pn = Cluster_Name c /\
     ok_ev (ListPrivateNetworks (Cluster_Region c) (Some (Cluster_Name c)) (cs_ProjectID c)) pns ∈ h) \/
  (exists subnets, requested_subnets c subnets /\
     ok_ev (CreatePrivateNetwork (Cluster_Region c) (Cluster_Name c) subnets) pn ∈ h).

(** Only the recorded network differs. *)
Definition records_network (pnID : ID) c c' : Prop :=
  PrivateNetworkID c' = Ok pnID /\
  cs_Spec c' = cs_Spec c /\ cs_ProjectID c' = cs_ProjectID c /\ cs_Cluster c' = cs_Cluster c /\
  sc_ObjectMeta (cs_ScalewayCluster c') = sc_ObjectMeta (cs_ScalewayCluster c) /\
  scst_Ready (sc_Status (cs_ScalewayCluster c')) = scst_Ready (sc_Status (cs_ScalewayCluster c)).

Lemma SetStatus_spec R G pnID c h Q :
  HasPrivateNetwork c = true ->
  (forall c', records_network pnID c c' -> Q (Ok tt) c' h) ->
  wpM R G (SetStatusPrivateNetworkID pnID) h c Q.
Proof.
  intros Hp HQ. unfold SetStatusPrivateNetworkID. go_step. apply HQ. split; [|done].
  unfold PrivateNetworkID. change (HasPrivateNetwork _) with (HasPrivateNetwork c). rewrite Hp.
  cbn. by destruct (scst_Network _).
Qed.

Lemma should_manage_spec c :
  ShouldManagePrivateNetwork c = true ->
  HasPrivateNetwork c = true /\
  exists network privateNetwork, scs_Network (cs_Spec c) = Some network /\
    ns_PrivateNetwork network = Some privateNetwork.
Proof.
  unfold ShouldManagePrivateNetwork. intros [Hp _]%andb_true_iff. split; [done|].
  unfold HasPrivateNetwork in Hp. destruct (scs_Network _) as [[[pn|] gw sgs]|]; [|done..].
  by do 2 eexists.
Qed.

Lemma ParseCIDR_Panic s : ParseCIDR s <> Panic.
Proof. unfold ParseCIDR. by destruct (ParseCIDR_opt s). Qed.

Lemma getOrCreatePN_spec c h :
  ShouldManagePrivateNetwork c = true ->
  wpM any_resp any_call Vpc.getOrCreatePN h c (fun oa c' h' => c' = c /\
    match oa with
    | Ok pn => network_reported h' c pn /\ pn_DHCPEnabled pn = true
    | Err _ => True
    | Panic => False
    end).
Proof.
  intros (_ & network & privateNetwork & En & Ep)%should_manage_spec.
  destruct network as [pn' gw sgs]. cbn in Ep. subst pn'.
  unfold Vpc.getOrCreatePN. do 2 go_step. rewrite En. cbn [deref].
  repeat exec_step ltac:(exact I); cbn in *; simplify_eq; to_prop; try by split.
  all: try (match goal with H : outcome_wrap _ ?o = _ |- _ =>
    destruct o eqn:?; simplify_eq/=; try by edestruct ParseCIDR_Panic end).
  all: split; [done|]; split; [|done].
  - left. eexists. split_and!; [eassumption|done|in_trace].
  - right. eexists. split; [|in_trace]. do 2 eexists. split_and!; [done..|].
    match goal with H : pns_Subnet _ = _ |- _ => rewrite H end. eauto.
  - right. eexists. split; [|in_trace]. do 2 eexists. split_and!; [done..|].
    by match goal with H : pns_Subnet _ = _ |- _ => rewrite H end.
Qed.

Lemma vpc_Reconcile_spec c h :
  wpM any_resp any_call Vpc.Reconcile h c (fun oa c' h' =>
    match oa with
    | Ok _ =>
        if ShouldManagePrivateNetwork c then
          exists pn, network_reported h' c pn /\ pn_DHCPEnabled pn = true /\
            records_network (pn_ID pn) c c'
        else c' = c /\ h' = h
    | Err _ => c' = c
    | Panic => False
    end).
Proof.
  unfold Vpc.Reconcile. do 2 go_step. destruct (ShouldManagePrivateNetwork c) eqn:Em; cbn [negb].
  - do 2 go_step. eapply wpM_mono; [by apply getOrCreatePN_spec|].
    intros [pn|e|] c' h' [-> H]; cbn [outcome_wrap]; [|done..].
    destruct H as [Hr Hd]. apply should_manage_spec in Em as [Hp _].
    apply SetStatus_spec; [done|]. intros c' Hc'. by exists pn.
  - by go_step.
Qed.

(** A pass over the network service succeeds, when the provider manages the Private
    Network, only by recording in the status the ID of a network that the API lists under
    the name of the cluster or has just created with the subnet of the spec, and that has
    DHCP enabled.  It makes no call when the network is the user's, fails without a
    change of the object, and never panics. *)
Theorem vpc_Reconcile_result (o : oracle cloud) (c : ClusterScope) :
  let '(t, (oa, c')) := runM o [] Vpc.Reconcile c in
  match oa with
  | Ok _ =>
      if ShouldManagePrivateNetwork c then
        exists pn, network_reported t c pn /\ pn_DHCPEnabled pn = true /\
          records_network (pn_ID pn) c c'
      else c' = c /\ t = []
  | Err _ => c' = c
  | Panic => False
  end.
Proof.
  destruct (wpM_sound _ _ o _ _ _ _ (admissible_any o) (vpc_Reconcile_spec c []))
    as (t & _ & _ & HQ).
  by destruct (runM o [] Vpc.Reconcile c) as [t' [oa c']].
Qed.
End network.

(** ** The Public Gateway *)

Section gateway.
Implicit Types (h : trace) (c : ClusterScope).

(** The address a gateway is created with: the free one the spec names, or the one of
    the cluster, found by its tags or created. *)
Definition gateway_address h c (zone : Zone) (spec : PublicGatewaySpec) (ip : GatewayIP) : Prop :=
  match pgs_IP spec with
  | Some addr => exists ips, ip ∈ ips /\ IP_String (gip_Address ip) = addr /\
      ok_ev (GatewayListFreeIPs zone (cs_ProjectID c)) ips ∈ h
  | None =>
      ok_ev (GatewayListIPsByTags zone (Cluster_Tags c) (cs_ProjectID c)) [ip] ∈ h \/
      (ok_ev (GatewayListIPsByTags zone (Cluster_Tags c) (cs_ProjectID c)) [] ∈ h /\
       ok_ev (GatewayCreateIP zone (Cluster_Tags c)) ip ∈ h)
  end.

Definition gateway_type (spec : PublicGatewaySpec) : string :=
  opt_default Vpcgw.defaultVPCGWType (pgs_Type spec).

(** The gateway of the cluster: the one the spec names, one of its name, or a new one. *)
Definition gateway_reported h c (zone : Zone) (spec : PublicGatewaySpec) (gatewayID : ID) : Prop :=
  match pgs_ID spec with
  | Some id => gatewayID = id
  | None => exists gw, gw_ID gw = gatewayID /\
      ((exists gws, gw ∈ gws /\ gw_Name gw = Cluster_Name c /\
          ok_ev (ListGatewaysByName zone (Cluster_Name c) (cs_ProjectID c)) gws ∈ h) \/
       (exists ip, gateway_address h c zone spec ip /\
          ok_ev (CreateGateway zone (Cluster_Name c) (gip_ID ip) (gateway_type spec)) gw ∈ h))
  end.

(** The gateway was attached to the network, or the API lists an attachment. *)
Definition attached h (zone : Zone) (gatewayID pnID : ID) : Prop :=
  (exists n : Z, n <> 0 /\ ok_ev (ListGatewayNetworks zone gatewayID pnID) n ∈ h) \/
  ok_ev (CreateGatewayNetwork zone gatewayID pnID (Some true) true true) tt ∈ h.

Lemma gw_getOrCreateIP_spec c spec zone h :
  Vpcgw.PublicGateway c = Ok spec ->
  wpM any_resp any_call (Vpcgw.getOrCreateIP zone (pgs_IP spec)) h c (fun oa c' h' => c' = c /\
    match oa with Ok ip => gateway_address h' c zone spec ip | Err _ => True | Panic => False end).
Proof.
  intros Es. unfold Vpcgw.getOrCreateIP, gateway_address. do 2 go_step.
  destruct (pgs_IP spec) as [addr|] eqn:Eip; [rewrite Es|].
  - cbn [deref]. do 3 go_step. rewrite Eip. cbn [deref]. do 2 go_step.
    repeat exec_step ltac:(exact I); [|by split..].
    destruct_and?. to_prop. split; [done|]. exists xs. split_and!; [done..|in_trace].
  - repeat exec_step ltac:(exact I); cbn in *; simplify_eq; try by split.
    + split; [done|]. left. in_trace.
    + split; [done|]. right. split; in_trace.
Qed.

Lemma getOrCreateGateway_spec c spec zone h :
  Vpcgw.PublicGateway c = Ok spec -> pgs_ID spec = None ->
  wpM any_resp any_call (Vpcgw.getOrCreateGateway zone) h c (fun oa c' h' => c' = c /\
    match oa with
    | Ok gw => gateway_reported h' c zone spec (gw_ID gw)
    | Err _ => True
    | Panic => False
    end).
Proof.
  intros Es Eid. unfold Vpcgw.getOrCreateGateway, gateway_reported. rewrite Eid.
  do 5 exec_step ltac:(exact I); [| |by split].
  - to_prop. go_step. split; [done|]. exists x. split; [done|]. left.
    eexists. split_and!; [eassumption|done|in_trace].
  - rewrite Es. do 3 go_step. eapply wpM_use; [by apply gw_getOrCreateIP_spec|].
    intros [ip|e|] c' h' P [-> Hip]; [|by split..].
    repeat exec_step ltac:(exact I); [|by split]. split; [done|]. exists a. split; [done|].
    right. exists ip. split; [|in_trace]. unfold gateway_address in *.
    destruct (pgs_IP spec); [|destruct Hip as [?|[? ?]]; [left|right]; auto with caps].
    destruct Hip as (ips & ? & ? & ?). exists ips. auto with caps.
Qed.

Lemma gateway_reported_mono h h' c zone spec gatewayID :
  h `prefix_of` h' -> gateway_reported h c zone spec gatewayID ->
  gateway_reported h' c zone spec gatewayID.
Proof.
  intros Hp. assert (forall e : event cloud, e ∈ h -> e ∈ h') as Hm
    by (intros e; by apply elem_of_prefix).
  unfold gateway_reported, gateway_address. destruct (pgs_ID spec); [done|].
  intros (gw & E & H). exists gw. split; [done|].
  destruct H as [(gws & ? & ? & ?)|(ip & Hip & ?)]; [left|right].
  - exists gws. auto.
  - exists ip. split; [|auto]. destruct (pgs_IP spec); naive_solver.
Qed.

Lemma gw_attach_spec c zone gatewayID pnID h :
  wpM any_resp any_call
    (totalCount ← remote (ListGatewayNetworks zone gatewayID pnID);
     if totalCount =? 0
     then remote (CreateGatewayNetwork zone gatewayID pnID (Some true) true true)
     else mret tt) h c (fun oa c' h' => c' = c /\
    match oa with Ok _ => attached h' zone gatewayID pnID | Err _ => True | Panic => False end).
Proof.
  unfold attached. repeat exec_step ltac:(exact I); kill_units; to_prop; try by split.
  - split; [done|]. right. in_trace.
  - split; [done|]. left. exists a. split; [done|]. in_trace.
Qed.

Lemma HasPublicGateway_spec c :
  HasPublicGateway c = true -> exists spec, Vpcgw.PublicGateway c = Ok spec.
Proof.
  unfold HasPublicGateway, Vpcgw.PublicGateway.
  destruct (scs_Network _) as [[pn [spec|] sgs]|]; [|done..]. by exists spec.
Qed.

(** The network has a gateway, attached to it. *)
Definition gateway_ready h c : Prop :=
  exists spec gatewayID pnID, Vpcgw.PublicGateway c = Ok spec /\ PrivateNetworkID c = Ok pnID /\
    gateway_reported h c (PublicGatewayZone c) spec gatewayID /\
    attached h (PublicGatewayZone c) gatewayID pnID.

Lemma gw_Reconcile_spec c h :
  wpM any_resp any_call Vpcgw.Reconcile h c (fun oa c' h' => c' = c /\
    match oa with
    | Ok _ => if HasPrivateNetwork c && HasPublicGateway c then gateway_ready h' c else h' = h
    | Err _ => True
    | Panic => pn_status_missing c
    end).
Proof.
  unfold Vpcgw.Reconcile. do 2 go_step. rewrite <- negb_andb.
  destruct (HasPrivateNetwork c && HasPublicGateway c) eqn:E; [|by go_step]. cbn [negb].
  apply andb_true_iff in E as [Hp (spec & Es)%HasPublicGateway_spec].
  rewrite Es. do 3 go_step.
  eapply (wpM_mono _ _ _ _ _ (fun oa c' h' => c' = c /\ match oa with
    | Ok gatewayID => gateway_reported h' c (PublicGatewayZone c) spec gatewayID
    | Err _ => True | Panic => False end)).
  { destruct (pgs_ID spec) as [id|] eqn:Eid.
    - go_step. unfold gateway_reported. by rewrite Eid.
    - go_step. eapply wpM_mono; [by apply getOrCreateGateway_spec|].
      intros [gw|e|] c' h' [-> H]; [by go_step|done..]. }
  intros [gatewayID|e|] c' h1 [-> Hgw]; [|done..]. do 2 go_step.
  destruct (PrivateNetworkID c) as [pnID|e|] eqn:Epn; [|done|by split; [|apply PrivateNetworkID_Panic]].
  eapply wpM_use; [apply gw_attach_spec|]. intros [[]|e|] c' h2 P [-> Ha]; [|done..].
  split; [done|]. exists spec, gatewayID, pnID. split_and!; try done.
  by eapply gateway_reported_mono.
Qed.

(** A pass over the gateway service never changes the object.  It succeeds, for a
    cluster with a Private Network and a Public Gateway, only when the gateway (the one
    of the spec; otherwise one of the name of the cluster, listed, or created with the
    type and the address the spec asks for) is attached to the network recorded in the
    status; for the other clusters it makes no call.  It panics only when the network
    was never recorded. *)
Theorem vpcgw_Reconcile_result (o : oracle cloud) (c : ClusterScope) :
  let '(t, (oa, c')) := runM o [] Vpcgw.Reconcile c in
  c' = c /\
  match oa with
  | Ok _ => if HasPrivateNetwork c && HasPublicGateway c then gateway_ready t c else t = []
  | Err _ => True
  | Panic => pn_status_missing c
  end.
Proof.
  destruct (wpM_sound _ _ o _ _ _ _ (admissible_any o) (gw_Reconcile_spec c []))
    as (t & _ & _ & HQ).
  by destruct (runM o [] Vpcgw.Reconcile c) as [t' [oa c']].
Qed.
End gateway.
