(* ===== verification/MachinePass.v ===== *)
(** * What a pass over a machine asks for and ends with

    The server that a pass creates is the one the spec of the machine describes; the pass
    ends with a ready machine, or says what it waits for. *)

From S2P Require Import Prelude Go Net Prog Sdk Types Cloud Ledger Scope Client.
From S2P Require Import LoadBalancer Instance ClusterController.
From S2P Require MachineController.
From S2P Require Import Simulation NoDuplicates Bringup Teardown Controllers.
#[local] Open Scope caps_scope.

(** ** The server of a machine *)

Section server.
Context `{SDK : ScwSDK} `{K8S : K8sLib}.
Implicit Types (h : trace) (m : MachineScope) (req : CreateServerRequest).

(** The image of the spec, or the one the API found under this label. *)
Definition requested_image h m (image : string) : Prop :=
  let spec := sm_Spec (ms_ScalewayMachine m) in
  if uuid_Parse_ok (sms_Image spec) then image = sms_Image spec
  else ok_ev (GetLocalImageByLabel (sms_Type spec) (Machine_Zone m) (sms_Image spec)) image ∈ h.

(** A security group listed under the name the cluster gives to the group of the spec. *)
Definition requested_group h m (group : option ID) : Prop :=
  match sms_SecurityGroupName (sm_Spec (ms_ScalewayMachine m)) with
  | None => group = None
  | Some name =>
      let sgName := SecurityGroupName (ms_Cluster m) name in
      exists groups g, g ∈ groups /\ isg_Name g = sgName /\ group = Some (isg_ID g) /\
        ok_ev (ListSecurityGroups (Machine_Zone m) (Some sgName) [] []) groups ∈ h
  end.

(** The flexible IP of the machine, found by its tags or created, if it needs one. *)
Definition requested_ip h m (ipID : option ID) : Prop :=
  if NeedsPublicIP m then
    exists ip, ipID = Some (iip_ID ip) /\
      (ok_ev (InstanceListIPs (Machine_Zone m) (Machine_Tags m)) [ip] ∈ h \/
       (ok_ev (InstanceListIPs (Machine_Zone m) (Machine_Tags m)) [] ∈ h /\
        ok_ev (InstanceCreateIP (Machine_Zone m) (Machine_Tags m)) ip ∈ h))
  else ipID = None.

(** The request asks for the server of the spec. *)
Definition server_request h m req : Prop :=
  let spec := sm_Spec (ms_ScalewayMachine m) in
  csr_Zone req = Machine_Zone m /\ csr_Name req = Machine_Name m /\
  csr_CommercialType req = sms_Type spec /\
  csr_DynamicIPRequired req = Some false /\ csr_RoutedIPEnabled req = Some true /\
  requested_image h m (csr_Image req) /\
  requested_group h m (csr_SecurityGroup req) /\
  requested_ip h m (csr_PublicIP req) /\
  (exists volType, ScalewayRootVolumeType spec = Ok volType /\
     csr_Volumes req = [("0"%string, {| vst_Size := rootSize spec; vst_VolumeType := volType;
                                        vst_Boot := Some true |})]) /\
  (exists servers, ok_ev (ListServers (Machine_Zone m) (Some (Machine_Name m))) servers ∈ h /\
     forall server, server ∈ servers -> srv_Name server <> Machine_Name m).

Definition server_calls m : guarantee := fun h call =>
  match call with CreateServer req => server_request h m req | _ => True end.

Abbreviation server_wp m := (wpM any_resp (server_calls m)).

Lemma inst_getOrCreateIP_request m h :
  server_wp m Instance.getOrCreateIP h m (fun oa m' h' => m' = m /\
    match oa with Ok ip => requested_ip h' m (iip_ID <$> ip) | _ => True end).
Proof.
  unfold Instance.getOrCreateIP, requested_ip.
  repeat exec_step ltac:(exact I); to_prop; simplify_eq; try by split.
  all: split; [done|]; match goal with H : NeedsPublicIP _ = _ |- _ => rewrite H end; cbn; try done.
  all: eexists; split; [done|]; first [left; in_trace | right; split; in_trace].
Qed.

Lemma requested_ip_mono h h' m ipID :
  h `prefix_of` h' -> requested_ip h m ipID -> requested_ip h' m ipID.
Proof.
  intros Hp. unfold requested_ip. destruct (NeedsPublicIP m); [|done].
  intros (ip & -> & H). exists ip. split; [done|].
  destruct H as [H|[H1 H2]]; [left|right; split]; by eapply elem_of_prefix.
Qed.

Lemma getOrCreateServer_request m ip h :
  requested_ip h m (iip_ID <$> ip) ->
  server_wp m (Instance.getOrCreateServer ip) h m (fun _ m' _ => m' = m).
Proof.
  intros Hip. unfold Instance.getOrCreateServer.
  repeat exec_step ltac:(first [exact I | idtac]); try done.
  all: destruct_and?; to_prop; unfold server_calls, server_request; cbn; split_and!; try done.
  all: first
    [ eapply requested_ip_mono; [|exact Hip]; by auto 6 with caps
    | eexists; split; [in_trace | by apply names_differ]
    | eexists; split; [eassumption | done]
    | unfold requested_image, requested_group ].
  all: match goal with H : _ = _ |- _ => rewrite H end; try done; try in_trace.
  all: do 2 eexists; split_and!; [eassumption|done|done|in_trace].
Qed.

(** The operations that follow the creation create no server. *)
Lemma inst_rest_request m server :
  safe any_resp (server_calls m) (fun _ => True)
    (pnic ← Instance.getOrCreatePrivateNIC server;
     ips ← Instance.getMachineIPs server pnic;
     _ ← Instance.ensureControlPlaneLoadBalancer ips false;
     _ ← Instance.ensureLoadBalancerACL (mip_External ips);
     _ ← Instance.ensureCloudInit server ips;
     _ ← Instance.ensureServerStarted server;
     setMachine server ips).
Proof.
  unfold Instance.getOrCreatePrivateNIC, Instance.getMachineIPs,
    Instance.ensureControlPlaneLoadBalancer, Instance.ensureLoadBalancerACL,
    Instance.ensureCloudInit, GetRawBootstrapData, Instance.ensureServerStarted, setMachine.
  free_auto.
Qed.

Lemma inst_Reconcile_request m h :
  server_wp m Instance.Reconcile h m (fun _ _ _ => True).
Proof.
  unfold Instance.Reconcile. go_step. eapply wpM_mono; [apply inst_getOrCreateIP_request|].
  intros [ip|e|] m' h1 [-> Hip]; [|done..].
  go_step. eapply wpM_mono; [by apply getOrCreateServer_request|].
  intros [server|e|] m' h2 ->; [|done..].
  eapply safe_wpM; [apply inst_rest_request|done..].
Qed.

(** C23.  Whatever the APIs answer, when a pass over a machine creates a server, no server of
    the name of the machine was listed, and the request asks for the server of the spec: its
    zone, name and commercial type, its image (looked up by label unless it is a UUID), a
    root volume of its size and type, its security group, and the flexible IP of the
    machine, found or created for it, exactly when it needs one. *)
Theorem created_server_matches_spec (o : oracle cloud) (m : MachineScope) t1 req r t2 :
  (runM o [] Instance.Reconcile m).1 = t1 ++ CEv (CreateServer req) r :: t2 ->
  server_request t1 m req.
Proof.
  intros E. destruct (wpM_sound _ _ o _ _ _ _ (admissible_any o) (inst_Reconcile_request m []))
    as (t & Et & Hob & _). rewrite Et in E. apply (Hob t1 _ r t2 E).
Qed.
End server.

(** ** Security groups of clusters with similar names *)

Section collision.
Context `{SDK : ScwSDK} `{K8S : K8sLib}.

Lemma SecurityGroupName_collides (c1 c2 : ClusterScope) p n :
  Cluster_Name c2 = Cluster_Name c1 +:+ "-" +:+ p ->
  SecurityGroupName c1 (p +:+ "-" +:+ n) = SecurityGroupName c2 n.
Proof. unfold SecurityGroupName. intros ->. by rewrite !append_assoc. Qed.

(** The security group of a server is looked up by its name only, and the names of two
    clusters are not separated: a machine of the cluster [X-p] that asks for the group [n]
    gets the group [p-n] of the cluster [X] when the API lists that one. *)
Theorem group_of_another_cluster (o : oracle cloud) (m : MachineScope) (c1 : ClusterScope)
    (p n : string) (group : InstanceSecurityGroup) t1 req r t2 :
  Cluster_Name (ms_Cluster m) = Cluster_Name c1 +:+ "-" +:+ p ->
  sms_SecurityGroupName (sm_Spec (ms_ScalewayMachine m)) = Some n ->
  isg_Name group = SecurityGroupName c1 (p +:+ "-" +:+ n) ->
  (forall h, o h (ListSecurityGroups (Machine_Zone m)
     (Some (SecurityGroupName (ms_Cluster m) n)) [] []) = ROk [group]) ->
  (runM o [] Instance.Reconcile m).1 = t1 ++ CEv (CreateServer req) r :: t2 ->
  csr_SecurityGroup req = Some (isg_ID group).
Proof.
  intros Ec En Eg Ho E.
  destruct (wpM_sound _ _ o _ _ _ _ (admissible_any o) (inst_Reconcile_request m []))
    as (t & Et & Hob & _). pose proof E as E'. rewrite Et in E.
  destruct (Hob t1 _ r t2 E) as (_ & _ & _ & _ & _ & _ & Hg & _).
  unfold requested_group in Hg. rewrite En in Hg.
  destruct Hg as (groups & g & Hin & _ & -> & Hl).
  pose proof (run_answered o [] (Instance.Reconcile m) (Forall_nil_2 _)) as Ha.
  change ((runM o [] Instance.Reconcile m).1) with ((run o [] (Instance.Reconcile m)).1) in E'.
  rewrite E' in Ha. apply Forall_app in Ha as [Ha _].
  rewrite Forall_forall in Ha. destruct (Ha _ Hl) as [h Eh]. rewrite Ho in Eh.
  injection Eh as ->. by apply list_elem_of_singleton in Hin as ->.
Qed.
End collision.

(** ** Why a pass over a machine waits *)

Section waits.
Context `{SDK : ScwSDK} `{K8S : K8sLib}.
Implicit Types (h : trace) (m : MachineScope).

(** IPAM has no address for the private NIC of the server yet. *)
Definition no_private_ip h m : Prop :=
  exists nicID, ok_ev (IPAMListIPs (Cluster_Region (ms_Cluster m)) (cs_ProjectID (ms_Cluster m))
    nicID) [] ∈ h.

(** The errors that make the controller wait have the reason they tell. *)
Definition waits h m (e : error) : Prop :=
  (errors_Is e ErrPrivateIPNotFound = true -> no_private_ip h m) /\
  (errors_Is e ErrBootstrapDataNotReady = true -> m_DataSecretName (ms_Machine m) = None).

Definition waiting_post {A} m : outcome A -> MachineScope -> trace -> Prop := fun oa m' h' =>
  m' = m /\ match oa with Err e => waits h' m e | _ => True end.

Abbreviation waiting_wp := (wpM any_resp any_call).

(** Errors that wrap no sentinel, or the one of a lookup, make nobody wait. *)
Definition plain (e : error) : Prop := forall st,
  st = ErrPrivateIPNotFound \/ st = ErrBootstrapDataNotReady -> errors_Is e st = false.

Lemma plain_waits h m e : plain e -> waits h m e.
Proof. intros He. split; rewrite He by auto; done. Qed.

Lemma plain_Errorf ctx e : plain e -> plain (Errorf ctx e).
Proof. done. Qed.

Lemma PrivateNetworkID_plain c e : PrivateNetworkID c = Err e -> plain e.
Proof.
  unfold PrivateNetworkID. destruct (negb _); [by intros [= <-] []|].
  destruct (scst_Network _) as [n|]; simpl; [|done].
  by destruct (nst_PrivateNetworkID n); intros [= <-].
Qed.

Lemma ScalewayRootVolumeType_plain s e : ScalewayRootVolumeType s = Err e -> plain e.
Proof. unfold ScalewayRootVolumeType. repeat break_match; by intros [= <-]. Qed.

Lemma NodeIP_plain ips e : NodeIP ips = Err e -> plain e.
Proof. unfold NodeIP. repeat break_match; [done|]. by destruct (mip_External ips). Qed.

Lemma patchBootstrapData_plain data nodeIP providerID e :
  patchBootstrapData data nodeIP providerID = Err e -> plain e.
Proof. unfold patchBootstrapData. repeat break_match; by intros [= <-]. Qed.

Ltac waits_leaf :=
  try match goal with H : _ = Sentinel _ /\ _ |- _ => destruct H as [-> _] end;
  split; [done|]; first
    [ done
    | apply plain_waits; repeat apply plain_Errorf; first
        [ solve [intros ? [-> | ->]; first [done | match goal with H : _ |- _ => by apply H end]]
        | by eapply PrivateNetworkID_plain
        | by eapply ScalewayRootVolumeType_plain | by eapply NodeIP_plain
        | by eapply patchBootstrapData_plain ] ].

Ltac waits_exec := repeat exec_step ltac:(exact I); try waits_leaf.

Lemma inst_getOrCreateIP_waits m h :
  waiting_wp Instance.getOrCreateIP h m (waiting_post m).
Proof. unfold Instance.getOrCreateIP. waits_exec. Qed.

Lemma getOrCreateServer_waits m ip h :
  waiting_wp (Instance.getOrCreateServer ip) h m (waiting_post m).
Proof. unfold Instance.getOrCreateServer. waits_exec. Qed.

Lemma getOrCreatePrivateNIC_waits m server h :
  waiting_wp (Instance.getOrCreatePrivateNIC server) h m (waiting_post m).
Proof. unfold Instance.getOrCreatePrivateNIC. waits_exec. Qed.

Lemma getMachineIPs_waits m server pnic h :
  waiting_wp (Instance.getMachineIPs server pnic) h m (waiting_post m).
Proof.
  unfold Instance.getMachineIPs, FindIPv4ByInstancePrivateNICID. waits_exec.
  all: split; [done|]; split; [|done]; intros _; eexists; in_trace.
Qed.

Lemma ensureControlPlaneLoadBalancer_waits m ips deletion h :
  waiting_wp (Instance.ensureControlPlaneLoadBalancer ips deletion) h m (waiting_post m).
Proof.
  unfold Instance.ensureControlPlaneLoadBalancer, FindLoadBalancerBackendByNames. waits_exec.
Qed.

Lemma ensureLoadBalancerACL_waits m publicIP h :
  waiting_wp (Instance.ensureLoadBalancerACL publicIP) h m (waiting_post m).
Proof.
  unfold Instance.ensureLoadBalancerACL, FindLoadBalancerFrontendByNames. waits_exec.
Qed.

Lemma ensureCloudInit_waits m server ips h :
  waiting_wp (Instance.ensureCloudInit server ips) h m (waiting_post m).
Proof. unfold Instance.ensureCloudInit, GetRawBootstrapData. waits_exec. Qed.

Lemma ensureServerStarted_waits m server h :
  waiting_wp (Instance.ensureServerStarted server) h m (waiting_post m).
Proof. unfold Instance.ensureServerStarted. waits_exec. Qed.

Lemma waiting_bind {A B} m (x : GoC MachineScope A) (k : A -> GoC MachineScope B) h Q :
  (forall h, waiting_wp x h m (waiting_post m)) ->
  (forall a h', waiting_wp (k a) h' m Q) ->
  (forall e h', waits h' m e -> Q (Err e) m h') -> (forall h', Q Panic m h') ->
  waiting_wp (x ≫= k) h m Q.
Proof.
  intros Hx Hk He Hp. go_step. eapply wpM_mono; [apply Hx|].
  intros [a|e|] m' h' [-> H]; auto.
Qed.

Lemma Instance_Reconcile_waits m h :
  waiting_wp Instance.Reconcile h m (fun oa _ h' =>
    match oa with Err e => waits h' m e | _ => True end).
Proof.
  unfold Instance.Reconcile.
  apply waiting_bind; [apply inst_getOrCreateIP_waits|intros ip h1|done..].
  apply waiting_bind; [apply getOrCreateServer_waits|intros server h2|done..].
  apply waiting_bind; [apply getOrCreatePrivateNIC_waits|intros pnic h3|done..].
  apply waiting_bind; [apply getMachineIPs_waits|intros ips h4|done..].
  apply waiting_bind; [apply ensureControlPlaneLoadBalancer_waits|intros _ h5|done..].
  apply waiting_bind; [apply ensureLoadBalancerACL_waits|intros _ h6|done..].
  apply waiting_bind; [apply ensureCloudInit_waits|intros _ h7|done..].
  apply waiting_bind; [apply ensureServerStarted_waits|intros _ h8|done..].
  unfold setMachine. by go_step.
Qed.
End waits.

(** ** The outcome of a pass *)

Section outcome.
Context `{SDK : ScwSDK} `{K8S : K8sLib}.
Implicit Types (h : trace) (m : MachineScope).

(** The machine with its finalizer. *)
Definition protected_machine m : MachineScope :=
  MachineController.set_ms_ObjectMeta
    (AddFinalizer (sm_ObjectMeta (ms_ScalewayMachine m)) MachineFinalizer).1 m.

(** What the pass waits for. *)
Definition machine_waits h m : Prop :=
  cl_InfrastructureReady (cs_Cluster (ms_Cluster m)) = false \/
  no_private_ip h m \/ m_DataSecretName (ms_Machine m) = None.

(** The server that the API reported was brought up, and the machine is ready. *)
Definition machine_ready_with h m m' : Prop :=
  cl_InfrastructureReady (cs_Cluster (ms_Cluster m)) = true /\
  exists server ips, reported h m server /\ machine_ips h m server ips /\
    m' = MachineController.set_ms_Ready (brought_up m server ips) /\
    (srv_State server = ServerStateStopped ->
      ok_ev (ServerAction (srv_Zone server) (srv_ID server) ServerActionPoweron) tt ∈ h).

Definition machine_result m0 : outcome Result -> MachineScope -> trace -> Prop := fun oa m' h' =>
  let m := protected_machine m0 in
  match oa with
  | Ok r => (r = no_requeue /\ machine_ready_with h' m m') \/
            (r = requeue_2s /\ m' = m /\ machine_waits h' m)
  | Err _ => m' = m
  | Panic => m' = m /\ pn_status_missing (ms_Cluster m)
  end.

Lemma machine_reconcileNormal_spec m h :
  wpM any_resp any_call MachineController.reconcileNormal h m (machine_result m).
Proof.
  unfold MachineController.reconcileNormal, machine_result, protected_machine. do 2 go_step.
  destruct (AddFinalizer _ _) as [meta added]. do 3 go_step. cbn [fst].
  set (m1 := MachineController.set_ms_ObjectMeta meta m).
  eapply (wpM_mono _ _ _ _ _ (fun oa m' _ => m' = m1 /\ oa <> Panic)).
  { destruct added; [|by go_step]. unfold Machine_PatchObject. repeat exec_step ltac:(exact I); done. }
  intros [[]|e|] m' h1 [-> Hno]; [|done..].
  destruct (negb _) eqn:Einf.
  { go_step. right. split_and!; [done..|]. left. by to_prop. }
  to_prop. do 2 go_step.
  eapply wpM_mono.
  { eapply wpM_conj; [apply Instance_Reconcile_waits|].
    apply Reconcile_bringup. }
  intros [[]|e|] m' h2 [Hw H]; [|subst m'|done].
  - do 3 go_step. left. split; [done|]. split; [done|].
    destruct H as (server & ips & ? & ? & -> & ?). by exists server, ips.
  - destruct (errors_Is e ErrPrivateIPNotFound) eqn:Eip.
    { go_step. right. split_and!; [done..|]. right. left. by apply Hw. }
    destruct (errors_Is e ErrBootstrapDataNotReady) eqn:Eboot; [|by go_step].
    go_step. right. split_and!; [done..|]. right. right. by apply Hw.
Qed.

(** C22.  A pass over a machine ends without a request for another one only when the
    infrastructure of the cluster is ready and the server, reported by the API, was
    brought up: the provider ID and the addresses are recorded, the machine is marked
    ready, and the server was powered on if it was stopped.  It asks for another pass
    only while the infrastructure is not ready, IPAM has no address for the server, or
    the bootstrap data was not published; the object is then unchanged, the finalizer
    apart, as it is after an error.  It panics only for a cluster whose Private Network was
    never recorded. *)
Theorem machine_pass_result (o : oracle cloud) (m : MachineScope) :
  let '(t, (oa, m')) := runM o [] MachineController.reconcileNormal m in
  machine_result m oa m' t.
Proof.
  destruct (wpM_sound _ _ o _ _ _ _ (admissible_any o) (machine_reconcileNormal_spec m []))
    as (t & _ & _ & HQ).
  by destruct (runM o [] MachineController.reconcileNormal m) as [t' [oa m']].
Qed.

Lemma Instance_Delete_free m h :
  wpM any_resp any_call Instance.Delete h m (fun oa m' h' => m' = m /\
    match oa with
    | Ok _ => no_server h' m \/ exists server, found_server h' m server /\
        (ok_ev (DeleteServer (srv_Zone server) (srv_ID server)) tt ∈ h' \/
         ok_ev (ServerAction (srv_Zone server) (srv_ID server) ServerActionTerminate) tt ∈ h')
    | Err _ => True
    | Panic => pn_status_missing (ms_Cluster m)
    end).
Proof. eapply wpM_weaken; [apply Delete_teardown|done|done]. Qed.

(** The finalizer of a machine is dropped only when no server of its name was listed or
    the API accepted to delete or terminate the one listed; otherwise the object is
    untouched.  A deletion never asks for another pass. *)
Theorem machine_delete_result (o : oracle cloud) (m : MachineScope) :
  let '(t, (oa, m')) := runM o [] MachineController.reconcileDelete m in
  match oa with
  | Ok r => r = no_requeue /\
      m' = MachineController.set_ms_ObjectMeta
        (RemoveFinalizer (sm_ObjectMeta (ms_ScalewayMachine m)) MachineFinalizer).1 m /\
      (no_server t m \/ exists server, found_server t m server /\
        (ok_ev (DeleteServer (srv_Zone server) (srv_ID server)) tt ∈ t \/
         ok_ev (ServerAction (srv_Zone server) (srv_ID server) ServerActionTerminate) tt ∈ t))
  | Err _ => m' = m
  | Panic => m' = m /\ pn_status_missing (ms_Cluster m)
  end.
Proof.
  assert (wpM any_resp any_call MachineController.reconcileDelete [] m (fun oa m' t =>
    match oa with
    | Ok r => r = no_requeue /\
        m' = MachineController.set_ms_ObjectMeta
          (RemoveFinalizer (sm_ObjectMeta (ms_ScalewayMachine m)) MachineFinalizer).1 m /\
        (no_server t m \/ exists server, found_server t m server /\
          (ok_ev (DeleteServer (srv_Zone server) (srv_ID server)) tt ∈ t \/
           ok_ev (ServerAction (srv_Zone server) (srv_ID server) ServerActionTerminate) tt ∈ t))
    | Err _ => m' = m
    | Panic => m' = m /\ pn_status_missing (ms_Cluster m)
    end)) as Hwp.
  { unfold MachineController.reconcileDelete. go_step. eapply wpM_mono; [apply Instance_Delete_free|].
    intros [[]|e|] m' h' [-> H]; [|done..]. by do 3 go_step. }
  destruct (wpM_sound _ _ o _ _ _ _ (admissible_any o) Hwp) as (t & _ & _ & HQ).
  by destruct (runM o [] MachineController.reconcileDelete m) as [t' [oa m']].
Qed.
End outcome.

(** ** The sample machine *)

#[local] Existing Instances sim_sdk sim_k8s.

Definition demo_server : CreateServerRequest :=
  {| csr_Zone := "fr-par-1"; csr_Name := "caps-node"; csr_CommercialType := "PRO2-S";
     csr_DynamicIPRequired := Some false; csr_RoutedIPEnabled := Some true;
     csr_Image := "id-image-ubuntu"; csr_SecurityGroup := Some "id-7"%string;
     csr_Volumes := [("0"%string, {| vst_Size := 40000000000;
                                     vst_VolumeType := VolumeVolumeTypeBSSD;
                                     vst_Boot := Some true |})];
     csr_PublicIP := Some "id-38"%string |}.

(** The calls of a run before and after the [n]th one. *)
Definition demo_creation (o : oracle cloud) (m : MachineScope) : Prop :=
  let t := (runM o [] Instance.Reconcile m).1 in
  t = take 5 t ++ CEv (CreateServer demo_server) (o (take 5 t) (CreateServer demo_server)) :: drop 6 t.

Lemma demo_creates_server : demo_creation demo_oracle demo_machine_scope.
Proof. by vm_compute. Qed.

Lemma created_server_matches_spec_witness :
  server_request (take 5 (runM demo_oracle [] Instance.Reconcile demo_machine_scope).1)
    demo_machine_scope demo_server.
Proof. eapply created_server_matches_spec. exact demo_creates_server. Defined.

(** A machine of the cluster [demo-web] that asks for the group [ssh], and the group
    [web-ssh] of the cluster [demo]. *)
Definition demo_web_scope : MachineScope :=
  let sc := cs_ScalewayCluster demo_cluster_scope in
  {| ms_Cluster := set_cs_ScalewayCluster
       (set_sc_ObjectMeta (demo_meta "demo-web" "uid-sc2" ∅) sc) demo_cluster_scope;
     ms_ScalewayMachine :=
       {| sm_ObjectMeta := sm_ObjectMeta demo_machine;
          sm_Spec := {| sms_ProviderID := None; sms_Image := "ubuntu"; sms_Type := "PRO2-S";
                        sms_RootVolumeSize := Some 40; sms_RootVolumeType := None;
                        sms_PublicIP := Some true; sms_SecurityGroupName := Some "ssh"%string |};
          sm_Status := sm_Status demo_machine |};
     ms_Machine := w_Machine demo_world |}.

Definition demo_foreign_group : InstanceSecurityGroup :=
  sim_sg "fr-par-1" "caps-demo-web-ssh" "id-7".

Definition demo_foreign_oracle : oracle cloud := fun h c =>
  match c return resp cloud c with
  | ListSecurityGroups _ (Some _) _ _ => ROk [demo_foreign_group]
  | c => demo_oracle h c
  end.

Lemma demo_web_creates_server :
  demo_creation demo_foreign_oracle demo_web_scope.
Proof. by vm_compute. Qed.

Lemma group_of_another_cluster_witness :
  Cluster_Name (ms_Cluster demo_web_scope) <> Cluster_Name demo_cluster_scope /\
  csr_SecurityGroup demo_server = Some (isg_ID demo_foreign_group).
Proof.
  split; [by vm_compute|].
  eapply (group_of_another_cluster demo_foreign_oracle demo_web_scope demo_cluster_scope
    "web" "ssh" demo_foreign_group); [by vm_compute|done|by vm_compute|done|].
  exact demo_web_creates_server.
Defined.
