(* ===== verification/MachineLifecycle.v ===== *)
(** * The life of a machine

    The stored [ScalewayMachine] evolves like the cluster ([Lifecycle]): updates that the
    webhook accepts, deletion, and passes of the controller, whose writes the webhook
    checks too.  The provider ID is the field that makes a difference: a write is refused
    when the server of the machine was replaced. *)

From S2P Require Import Prelude Go Net Prog Sdk Types Cloud Ledger Scope Client Secret.
From S2P Require Import LoadBalancer Instance ClusterController.
From S2P Require MachineController.
From S2P Require Import ClusterWebhook.
From S2P Require MachineWebhook.
From S2P Require Import Simulation NoDuplicates ClusterValidation MachineValidation Bringup Teardown.
From S2P Require Import Controllers Lifecycle MachinePass.
#[local] Open Scope caps_scope.

Section writes.
Context `{SDK : ScwSDK} `{K8S : K8sLib} `{LAWS : !K8sLaws}.
Implicit Types (old sm : ScalewayMachine) (m : MachineScope) (h : trace).

Definition machine_deleting sm : bool :=
  negb (Time_IsZero (om_DeletionTimestamp (sm_ObjectMeta sm))).

Definition machine_has_finalizer sm : Prop := MachineFinalizer ∈ om_Finalizers (sm_ObjectMeta sm).

(** The machine has a server: its provider ID and its addresses are recorded. *)
Definition has_server sm : Prop :=
  sms_ProviderID (sm_Spec sm) <> None /\ smst_Addresses (sm_Status sm) <> [].

(** What the controller may write over [old]. *)
Definition machine_write old sm : Prop :=
  om_DeletionTimestamp (sm_ObjectMeta sm) = om_DeletionTimestamp (sm_ObjectMeta old) /\
  (exists p, sm_Spec sm = sm_Spec (set_sm_ProviderID p old)) /\
  (if machine_deleting old
   then sm = old \/ ~ machine_has_finalizer sm /\ sm_Status sm = sm_Status old /\
                    sm_Spec sm = sm_Spec old
   else machine_has_finalizer sm /\
        (sm_Status sm = sm_Status old /\ sm_Spec sm = sm_Spec old \/
         smst_Ready (sm_Status sm) = true /\ has_server sm)).

Lemma same_ProviderID sm : sm_Spec sm = sm_Spec (set_sm_ProviderID (sms_ProviderID (sm_Spec sm)) sm).
Proof. by destruct sm as [? [] ?]. Qed.

Definition machine_writes old : guarantee := fun _ call =>
  match call with Patch _ (OMachine sm) => machine_write old sm | _ => True end.

(** The stored object after the writes that the API server accepted. *)
Definition store_machine (sm : ScalewayMachine) (e : event cloud) : ScalewayMachine :=
  match e with
  | Ev (Patch _ (OMachine sm')) (ROk _) => sm'
  | _ => sm
  end.

Definition stored_machine (old : ScalewayMachine) (t : trace) : ScalewayMachine :=
  foldl store_machine old t.

(** The API server answers with [old], and accepts a write only if the webhook does. *)
Definition serves old : rely := fun h c r =>
  match c return resp cloud c -> Prop with
  | GetScalewayMachine _ => fun r => r = ROk old
  | Patch _ (OMachine sm) => fun r =>
      r = ROk tt -> MachineWebhook.ValidateUpdate sm (stored_machine old h) = Ok tt
  | _ => fun _ => True
  end r.

Abbreviation machine_quiet := (safe any_resp no_patch (fun _ : MachineScope => True)).

Lemma ensureLoadBalancerACL_no_patch ip : machine_quiet (Instance.ensureLoadBalancerACL ip).
Proof. unfold Instance.ensureLoadBalancerACL. free_auto. Qed.

Lemma ensureControlPlaneLoadBalancer_no_patch ips del :
  machine_quiet (Instance.ensureControlPlaneLoadBalancer ips del).
Proof. unfold Instance.ensureControlPlaneLoadBalancer. free_auto. Qed.

Lemma getMachineIPs_no_patch server pnic : machine_quiet (Instance.getMachineIPs server pnic).
Proof. unfold Instance.getMachineIPs. free_auto. Qed.

Hint Resolve ensureLoadBalancerACL_no_patch ensureControlPlaneLoadBalancer_no_patch
  getMachineIPs_no_patch : caps_wp.

Lemma inst_Reconcile_no_patch : machine_quiet Instance.Reconcile.
Proof.
  unfold Instance.Reconcile, Instance.getOrCreateIP, Instance.getOrCreateServer,
    Instance.getOrCreatePrivateNIC, Instance.ensureCloudInit, GetRawBootstrapData,
    Instance.ensureServerStarted, Instance.setMachine. free_auto.
Qed.

Lemma machine_reconcileDelete_no_patch : machine_quiet MachineController.reconcileDelete.
Proof.
  unfold MachineController.reconcileDelete, Instance.Delete, Instance.deregisterControlPlane.
  free_auto.
Qed.

Hint Resolve inst_Reconcile_no_patch : caps_wp.

Lemma no_patch_machine_writes {S A} old (x : GoC S A) h s :
  safe any_resp no_patch (fun _ => True) x ->
  wpM any_resp (machine_writes old) x h s (fun _ _ _ => True).
Proof.
  intros Hx. eapply wpM_weaken; [by apply Hx| |done]. intros h' c. by destruct c; simpl.
Qed.

Lemma protected_machine_write m :
  machine_deleting (ms_ScalewayMachine m) = false ->
  machine_write (ms_ScalewayMachine m) (ms_ScalewayMachine (protected_machine m)).
Proof.
  intros Hd. unfold machine_write. rewrite Hd. split_and!.
  - apply AddFinalizer_deletion.
  - eexists. apply (same_ProviderID (ms_ScalewayMachine m)).
  - apply AddFinalizer_in.
  - by left.
Qed.

Lemma machine_reconcileNormal_writes m h :
  machine_deleting (ms_ScalewayMachine m) = false ->
  wpM any_resp (machine_writes (ms_ScalewayMachine m)) MachineController.reconcileNormal h m
    (fun _ _ _ => True).
Proof.
  intros Hd. unfold MachineController.reconcileNormal. do 2 go_step.
  pose proof (protected_machine_write m Hd) as Hw. unfold protected_machine in Hw.
  destruct (AddFinalizer _ _) as [meta added]. cbn [fst] in Hw. do 3 go_step.
  assert (forall h m', wpM any_resp (machine_writes (ms_ScalewayMachine m))
    (if negb (cl_InfrastructureReady (cs_Cluster (ms_Cluster m))) then mret requeue_2s
     else
       r ← attempt Instance.Reconcile;
       match r with
       | inl err =>
           if errors_Is err ErrPrivateIPNotFound then mret requeue_2s
           else if errors_Is err ErrBootstrapDataNotReady then mret requeue_2s
           else fail err
       | inr _ => _ ← modify MachineController.set_ms_Ready; mret no_requeue
       end) h m' (fun _ _ _ => True)) as Hrest by (intros; apply no_patch_machine_writes; free_auto).
  destruct added; [|go_step; apply Hrest]. unfold Machine_PatchObject.
  do 2 go_step. go_step; [exact Hw|apply Hrest|done].
Qed.

Lemma machine_ips_addresses h m server ips :
  machine_ips h m server ips -> machineAddresses ips <> [].
Proof.
  intros [_ H]. unfold machineAddresses. destruct (mip_External ips), (mip_Internal ips); try done.
  by destruct H.
Qed.

Lemma machine_reconcileNormal_final old m h :
  ms_ScalewayMachine m = old -> machine_deleting old = false ->
  wpM any_resp (machine_writes old) MachineController.reconcileNormal h m
    (fun _ m' _ => machine_write old (ms_ScalewayMachine m')).
Proof.
  intros <- Hd. eapply wpM_mono; [eapply wpM_conj;
    [by apply machine_reconcileNormal_writes|apply machine_reconcileNormal_spec]|].
  pose proof (protected_machine_write m Hd) as Hp.
  intros oa m' h' [_ Hq]. destruct oa as [r|e|]; cbn in Hq; [|by subst m'|by destruct Hq as [-> _]].
  destruct Hq as [(_ & _ & server & ips & _ & Hips & -> & _)|(_ & -> & _)]; [|done].
  destruct Hp as (Ed & (p & Ep) & Hp). rewrite Hd in Hp.
  unfold machine_write. rewrite Hd. split_and!; [exact Ed| |by destruct Hp|].
  - eexists. reflexivity.
  - right. split; [done|]. split; [done|]. by eapply machine_ips_addresses.
Qed.

Lemma machine_reconcileDelete_final old m h :
  ms_ScalewayMachine m = old -> machine_deleting old = true ->
  wpM any_resp (machine_writes old) MachineController.reconcileDelete h m
    (fun _ m' _ => machine_write old (ms_ScalewayMachine m')).
Proof.
  intros <- Hd. eapply wpM_mono.
  { apply wpM_conj with (G' := any_call)
      (Q2 := fun _ m' _ => m' = m \/ m' = MachineController.set_ms_ObjectMeta
         (RemoveFinalizer (sm_ObjectMeta (ms_ScalewayMachine m)) MachineFinalizer).1 m);
      [apply no_patch_machine_writes, machine_reconcileDelete_no_patch|].
    unfold MachineController.reconcileDelete. go_step.
    eapply wpM_mono; [apply Instance_Delete_free|].
    intros [[]|e|] m' h' [-> _]; [|by left..]. do 3 go_step. by right. }
  intros oa m' h' [_ Hq]. unfold machine_write. rewrite Hd. destruct Hq as [->| ->]; split_and!.
  - done.
  - eexists. apply same_ProviderID.
  - by left.
  - apply RemoveFinalizer_deletion.
  - eexists. apply (same_ProviderID (ms_ScalewayMachine m)).
  - right. split; [apply RemoveFinalizer_out|done].
Qed.

(** Every write of a pass that read [old] is a [machine_write]. *)
Lemma machine_pass_writes old key :
  wpM (serves old) (machine_writes old) (MachineController.Reconcile key) [] tt (fun _ _ _ => True).
Proof.
  unfold MachineController.Reconcile. go_step. go_step.
  apply wpM_remote; [done| |intros e He; discriminate He]. intros sm Hsm. injection Hsm as ->.
  cbn beta iota. unfold clientFromSecret, takeOwnership, NewMachine.
  repeat first [ go_step | apply wp_NewCluster; [done| |intros ? ?] ]; try done;
    cbn [outcome_wrap].
  all: unfold Machine_Close, Machine_PatchObject.
  all: match goal with
    | H : negb _ = true |- _ =>
        eapply wpM_mono; [apply wpM_any, machine_reconcileDelete_final; [done|exact H]|]
    | H : negb _ = false |- _ =>
        eapply wpM_mono; [apply wpM_any, machine_reconcileNormal_final; [done|exact H]|]
    end.
  all: intros oa m' h' Hw; repeat go_step; try done; exact Hw.
Qed.
End writes.

(** ** The stored machine *)

Section stored.
Context `{SDK : ScwSDK} `{K8S : K8sLib} `{LAWS : !K8sLaws}.
Implicit Types (old sm r : ScalewayMachine) (m : MachineScope).

(** The webhook accepts what the controller writes to a machine exactly when this does
    not change a provider ID that was recorded: whatever the APIs answer, of the fields
    the webhook protects a pass changes no other. *)
Theorem machine_writes_accepted old (o : oracle cloud) key t1 b sm x t2 :
  admissible (serves old) o -> MachineWebhook.ValidateCreate old = Ok tt ->
  (run o [] (pass (MachineRequest key))).1 = t1 ++ CEv (Patch b (OMachine sm)) x :: t2 ->
  MachineWebhook.ValidateUpdate sm old = Ok tt <->
    (sms_ProviderID (sm_Spec old) = None \/
     sms_ProviderID (sm_Spec sm) = sms_ProviderID (sm_Spec old)).
Proof.
  intros Ho Hv E. rewrite machine_ValidateUpdate_iff.
  destruct (wpM_sound _ _ o _ _ _ _ Ho (machine_pass_writes old key)) as (t & Et & Hob & _).
  destruct (Hob t1 _ x t2 (eq_trans (eq_sym Et) E)) as (_ & (p & Es) & _).
  apply machine_validate_Ok in Hv. unfold may_update, valid_RootVolumeSize in *. rewrite Es. cbn.
  destruct (sms_ProviderID (sm_Spec old)); naive_solver.
Qed.

(** The servers that the API told about. *)
Definition server_ids (t : trace) : list ID :=
  concat ((fun e : event cloud => match e with
    | Ev (ListServers _ _) (ROk servers) => srv_ID <$> servers
    | Ev (CreateServer _) (ROk server) => [srv_ID server]
    | _ => []
    end) <$> t).

Lemma reported_server_ids t m server : reported t m server -> srv_ID server ∈ server_ids t.
Proof.
  intros H. unfold server_ids. apply list_elem_of_In, in_concat.
  destruct H as [(servers & Hin & Hs & _)|(req & Hin & _)];
    (eexists; split; [apply list_elem_of_In, list_elem_of_fmap; eexists; split; [|exact Hin];
      reflexivity|]); apply list_elem_of_In.
  - by apply list_elem_of_fmap_2.
  - left.
Qed.

(** C35.  A machine whose server was replaced is stuck: when the server whose ID is recorded
    does not exist any more, so that no answer of the API names it, the pass that brings
    up another server ends well, but what it writes is refused by the webhook. *)
Theorem replaced_server_refused (o : oracle cloud) m id :
  sms_ProviderID (sm_Spec (ms_ScalewayMachine m)) = Some (ProviderID m id) ->
  let '(t, (oa, m')) := runM o [] MachineController.reconcileNormal m in
  id ∉ server_ids t -> oa = Ok no_requeue ->
  MachineWebhook.ValidateUpdate (ms_ScalewayMachine m') (ms_ScalewayMachine m) <> Ok tt.
Proof.
  intros Eid.
  destruct (wpM_sound _ _ o _ _ _ _ (admissible_any o) (machine_reconcileNormal_spec m []))
    as (t & _ & _ & HQ).
  destruct (runM o [] MachineController.reconcileNormal m) as [t' [oa m']]. simpl in HQ.
  intros Hnew ->. destruct HQ as [(_ & _ & server & ips & Hrep & _ & -> & _)|(? & _)]; [|done].
  rewrite machine_ValidateUpdate_iff. intros [(_ & _ & _ & _ & _ & Hid & _) _].
  rewrite Eid in Hid. specialize (Hid ltac:(done)). cbn in Hid. injection Hid as Hid.
  apply Hnew. apply reported_server_ids in Hrep. unfold ProviderID in Hid.
  change (Machine_Zone (protected_machine m)) with (Machine_Zone m) in Hid.
  repeat apply append_inj_l in Hid. by subst.
Qed.

(** A pass over the stored machine. *)
Inductive machine_pass old : ScalewayMachine -> Prop :=
| machine_pass_run (o : oracle cloud) (key : NamespacedName) :
    admissible (serves old) o ->
    machine_pass old (stored_machine old (run o [] (pass (MachineRequest key))).1).

(** After each call of a pass, the stored object is [old] or an accepted write over it. *)
Definition pass_keeps old sm : Prop :=
  (sm = old \/ machine_write old sm) /\ may_update (sm_Spec old) (sm_Spec sm) /\
  valid_RootVolumeSize (sm_Spec sm).

Lemma machine_pass_keeps old sm :
  valid_RootVolumeSize (sm_Spec old) -> machine_pass old sm -> pass_keeps old sm.
Proof.
  intros Hv [o key Ho].
  destruct (wpM_sound _ _ o _ _ _ _ Ho (machine_pass_writes old key)) as (t & Et & Hob & _).
  destruct (run_answers o [] (pass (MachineRequest key))) as (t' & Et' & Ha).
  change ((runM o [] (MachineController.Reconcile key) tt).1)
    with ((run o [] (pass (MachineRequest key))).1) in Et.
  rewrite Et in Et'. simpl in Et'. subst t'. rewrite Et. simpl. clear Et.
  enough (forall t1 t2, t = t1 ++ t2 -> pass_keeps old (stored_machine old t1)) as H
    by (apply (H t []); by rewrite app_nil_r).
  induction t1 as [|[c r] t1 IH] using rev_ind; intros t2 E.
  - split_and!; [by left|reflexivity|done].
  - rewrite <- app_assoc in E. specialize (IH _ E). unfold stored_machine in *.
    rewrite foldl_app. simpl. destruct c; try exact IH. destruct after; try exact IH.
    destruct r as [[]|e]; [|exact IH].
    specialize (Hob t1 _ _ t2 E). specialize (Ho t1 (Patch before (OMachine m))).
    pose proof (Ha t1 _ t2 E) as Hans. simpl in Hans. rewrite <- Hans in Ho. specialize (Ho eq_refl).
    apply machine_ValidateUpdate_iff in Ho as [Hup Hv']. destruct IH as (_ & Hup0 & _).
    split_and!; [by right|by etransitivity|done].
Qed.

(** ** The life cycle *)

Definition set_machine_deletion (time : Z) (r : ScalewayMachine) : ScalewayMachine :=
  let m := sm_ObjectMeta r in
  set_sm_ObjectMeta
    {| om_Name := om_Name m; om_Namespace := om_Namespace m; om_UID := om_UID m;
       om_Labels := om_Labels m; om_Annotations := om_Annotations m;
       om_Finalizers := om_Finalizers m; om_OwnerReferences := om_OwnerReferences m;
       om_DeletionTimestamp := Some time |} r.

Definition machine_created r : Prop :=
  MachineWebhook.ValidateCreate r = Ok tt /\ smst_Ready (sm_Status r) = false /\
  om_Finalizers (sm_ObjectMeta r) = [] /\ machine_deleting r = false.

Inductive machine_step : ScalewayMachine -> ScalewayMachine -> Prop :=
| user_updates_machine old r :
    MachineWebhook.ValidateUpdate r old = Ok tt ->
    sm_ObjectMeta r = sm_ObjectMeta old -> sm_Status r = sm_Status old ->
    machine_step old r
| user_deletes_machine old time :
    machine_deleting old = false -> om_Finalizers (sm_ObjectMeta old) <> [] ->
    Time_IsZero (Some time) = false ->
    machine_step old (set_machine_deletion time old)
| machine_controller_pass old r : machine_pass old r -> machine_step old r.

Definition machine_invariant r : Prop :=
  valid_RootVolumeSize (sm_Spec r) /\
  (smst_Ready (sm_Status r) = true ->
     has_server r /\ (machine_deleting r = false -> machine_has_finalizer r)).

Lemma machine_step_invariant old r :
  machine_step old r -> machine_invariant old ->
  machine_invariant r /\ may_update (sm_Spec old) (sm_Spec r).
Proof.
  intros Hstep [Hv Hr]. destruct Hstep as [old r Hup Em Es|old time Hd Hf _|old r Hpass].
  - apply machine_ValidateUpdate_iff in Hup as [Hup Hv']. split; [|done]. split; [done|].
    unfold has_server, machine_deleting, machine_has_finalizer in *. rewrite Es, Em.
    intros Hready. destruct (Hr Hready) as [[Hid Ha] Hfin]. split; [|done]. split; [|done].
    destruct Hup as (_ & _ & _ & _ & _ & Hkeep & _). by rewrite (Hkeep Hid).
  - split; [|reflexivity]. split; [exact Hv|]. intros Hready.
    destruct (Hr Hready) as [Hs Hfin]. split; [exact Hs|]. intros _. exact (Hfin Hd).
  - destruct (machine_pass_keeps _ _ Hv Hpass) as ([->|Hw] & Hup & Hv'); [by split; [split|reflexivity]|].
    split; [|done]. split; [done|]. destruct Hw as (Ed & _ & Hw).
    assert (machine_deleting r = machine_deleting old) as -> by (unfold machine_deleting; by rewrite Ed).
    unfold has_server in *. destruct (machine_deleting old) eqn:Edel.
    + destruct Hw as [->|(_ & Es & Esp)]; [done|]. rewrite Es, Esp. intros Hready.
      by destruct (Hr Hready).
    + destruct Hw as [Hfin [[Es Esp]|[_ ?]]]; [|done]. rewrite Es, Esp. intros Hready.
      by destruct (Hr Hready).
Qed.

(** C21.  Whatever the users, the API server (which refuses the writes the webhook refuses) and
    the controller do to a machine after its creation was accepted, in any order: its
    image, type, volumes, security group and, once set, provider ID are those it had;
    and when it is marked ready it has a provider ID and addresses and, unless it is
    being deleted, it carries the finalizer. *)
Theorem reachable_machines r0 r :
  machine_created r0 -> rtc machine_step r0 r ->
  MachineWebhook.ValidateCreate r = Ok tt /\ may_update (sm_Spec r0) (sm_Spec r) /\
  (smst_Ready (sm_Status r) = true ->
     has_server r /\ (machine_deleting r = false -> machine_has_finalizer r)).
Proof.
  intros (Hv & Hready & _ & _) Hsteps. apply machine_validate_Ok in Hv.
  assert (machine_invariant r0) as Hinv by (split; [done|]; by rewrite Hready).
  clear Hv Hready. unfold MachineWebhook.ValidateCreate. rewrite machine_validate_Ok.
  induction Hsteps as [r|r0 r1 r Hstep _ IH].
  - destruct Hinv as [Hv Hr]. by split_and!.
  - destruct (machine_step_invariant _ _ Hstep Hinv) as [Hinv1 Hup].
    destruct (IH Hinv1) as (? & ? & ?). split_and!; [done| |done]. by etransitivity.
Qed.
End stored.

(** ** The sample machine *)

#[local] Existing Instances sim_sdk sim_k8s sim_k8s_laws.

(** [o], but the machine is read as [old] and its writes are checked by the webhook. *)
Definition serving (old : ScalewayMachine) (o : oracle cloud) : oracle cloud := fun h c =>
  match c return resp cloud c with
  | GetScalewayMachine _ => ROk old
  | Patch _ (OMachine sm) =>
      match MachineWebhook.ValidateUpdate sm (stored_machine old h) with
      | Ok _ => ROk tt
      | _ => RErr (OtherError "denied by the webhook")
      end
  | c => o h c
  end.

Lemma serving_serves old o : admissible (serves old) (serving old o).
Proof.
  intros h c. destruct c; try done. destruct after; [done|]. cbn.
  destruct (MachineWebhook.ValidateUpdate _ _) as [[]|e|]; done.
Qed.

Abbreviation demo_serving := (serving demo_machine demo_oracle).

Definition demo_stored_machine : ScalewayMachine :=
  stored_machine demo_machine (run demo_serving [] (pass (MachineRequest demo_key))).1.

Lemma demo_machine_pass : machine_pass demo_machine demo_stored_machine.
Proof. constructor. apply serving_serves. Qed.

Lemma reachable_machines_witness :
  smst_Ready (sm_Status demo_stored_machine) = true /\ has_server demo_stored_machine /\
  machine_has_finalizer demo_stored_machine.
Proof.
  assert (smst_Ready (sm_Status demo_stored_machine) = true) as Hr by (vm_compute; reflexivity).
  assert (machine_created demo_machine) as Hc by (vm_compute; repeat split).
  split; [exact Hr|].
  destruct (reachable_machines demo_machine demo_stored_machine Hc
    (rtc_once _ _ (machine_controller_pass _ _ demo_machine_pass))) as (_ & _ & H).
  destruct (H Hr) as [Hs Hf]. split; [exact Hs|]. apply Hf. vm_compute. reflexivity.
Defined.

Definition demo_protected_machine : ScalewayMachine :=
  set_sm_ObjectMeta (sim_set_finalizers (sm_ObjectMeta demo_machine) [MachineFinalizer]) demo_machine.

Lemma demo_writes_machine_finalizer :
  (run demo_serving [] (pass (MachineRequest demo_key))).1 =
    take 8 (run demo_serving [] (pass (MachineRequest demo_key))).1 ++
    CEv (Patch (OMachine demo_machine) (OMachine demo_protected_machine)) (ROk tt) ::
    drop 9 (run demo_serving [] (pass (MachineRequest demo_key))).1.
Proof. by vm_compute. Qed.

Lemma machine_writes_accepted_witness :
  MachineWebhook.ValidateUpdate demo_protected_machine demo_machine = Ok tt.
Proof.
  eapply (machine_writes_accepted demo_machine demo_serving demo_key);
    [apply serving_serves|by vm_compute|exact demo_writes_machine_finalizer|by left].
Defined.

(** A machine whose server [id-gone] disappeared. *)
Definition demo_gone_scope : MachineScope :=
  set_ms_ScalewayMachine
    (set_sm_ProviderID (Some (ProviderID demo_machine_scope "id-gone")) demo_machine)
    demo_machine_scope.

Lemma replaced_server_refused_witness :
  (runM demo_oracle [] MachineController.reconcileNormal demo_gone_scope).2.1 = Ok no_requeue /\
  MachineWebhook.ValidateUpdate
    (ms_ScalewayMachine (runM demo_oracle [] MachineController.reconcileNormal demo_gone_scope).2.2)
    (ms_ScalewayMachine demo_gone_scope) <> Ok tt.
Proof.
  pose proof (replaced_server_refused demo_oracle demo_gone_scope "id-gone" eq_refl) as H.
  assert ((runM demo_oracle [] MachineController.reconcileNormal demo_gone_scope).2.1 = Ok no_requeue)
    as E by (vm_compute; reflexivity).
  assert ("id-gone"%string ∉ server_ids
    (runM demo_oracle [] MachineController.reconcileNormal demo_gone_scope).1) as Hid
    by (apply (bool_decide_unpack _); vm_compute; reflexivity).
  split; [exact E|]. revert E Hid H.
  destruct (runM _ _ _ _) as [t [oa m']]; cbn [fst snd]; intros -> Hid H. by apply H.
Defined.
