(* ===== verification/Convergence.v ===== *)
(** * A settled cluster is left alone

    [project] is the part of the Scaleway project that a pass over a cluster reads, and
    [settled] says that it is what the spec of the cluster asks for.  A pass over a
    settled project leaves it as it is, and ends with a ready cluster unless a call fails:
    the only calls of the pass that do not merely read write an access control list again,
    as it already is ([restates]).  The code means to skip those calls too, but it compares
    pointers ([Sdk.match_differs]). *)

From S2P Require Import Prelude Go Net Prog Sdk Types Cloud Ledger Scope Client.
From S2P Require Vpc Vpcgw SecurityGroup LoadBalancer.
From S2P Require Import ClusterController Simulation NoDuplicates ClusterValidation Firewall.
From S2P Require Import Controllers Networks.
#[local] Open Scope caps_scope.

(** ** The state of the project *)

Record project := {
  pr_groups : list InstanceSecurityGroup;
  pr_rules : ID -> list InstanceSecurityGroupRule;
  pr_networks : list PrivateNetwork;
  pr_gateways : list Gateway;
  pr_attachments : ID -> ID -> Z;
  pr_network_gateways : ID -> list Gateway;
  pr_lbs : list LB;
  pr_lb_networks : ID -> list ID;
  pr_backends : ID -> list Backend;
  pr_frontends : ID -> list Frontend;
  pr_acls : ID -> string -> list ACL;
}.

(** The listings that succeed show the project. *)
Definition shows (p : project) : rely := fun _ c r =>
  match r with
  | ROk xs =>
      match c return cloud_val c -> Prop with
      | ListSecurityGroups _ None _ _ => fun xs => xs = pr_groups p
      | ListSecurityGroupRules _ id => fun xs => xs = pr_rules p id
      | ListPrivateNetworks _ (Some _) _ => fun xs => xs = pr_networks p
      | ListGatewaysByName _ _ _ => fun xs => xs = pr_gateways p
      | ListGatewayNetworks _ gwID pnID => fun n => n = pr_attachments p gwID pnID
      | ListGatewaysByPN _ pnID _ => fun xs => xs = pr_network_gateways p pnID
      | ListLBs _ (Some _) => fun xs => xs = pr_lbs p
      | ListLBPrivateNetworks _ lbID => fun xs => xs = pr_lb_networks p lbID
      | ListBackends _ lbID None => fun xs => xs = pr_backends p lbID
      | ListFrontends _ lbID None => fun xs => xs = pr_frontends p lbID
      | ListACLs _ frontendID (Some name) => fun xs => xs = pr_acls p frontendID name
      | _ => fun _ => True
      end xs
  | RErr _ => True
  end.

(** A resource of the given name exists, and those of this name are as [P] says. *)
Definition exists_as {A} (name : A -> string) (n : string) (P : A -> Prop) (xs : list A) : Prop :=
  (exists x, x ∈ xs /\ name x = n) /\ forall x, x ∈ xs -> name x = n -> P x.

(** Same, and every resource has this name. *)
Definition all_named {A} (name : A -> string) (n : string) (P : A -> Prop) (xs : list A) : Prop :=
  xs <> [] /\ forall x, x ∈ xs -> name x = n /\ P x.

Section settled.
Context `{SDK : ScwSDK}.
Implicit Types (p : project) (c : ClusterScope).

(** A group of the spec exists in a zone with its policies and rules. *)
Definition group_settled p c (sg : SecurityGroup) (zone : Zone) : Prop :=
  exists group,
    List.find (fun g => (isg_Name g =?s SecurityGroupName c (sg_Name sg)) && (isg_Zone g =?s zone))
      (pr_groups p) = Some group /\
    policies sg (isg_InboundDefaultPolicy group) (isg_OutboundDefaultPolicy group) /\
    isg_EnableDefaultSecurity group = false /\
    rules_agree sg (pr_rules p (isg_ID group)).

(** The groups of the cluster are those of the spec. *)
Definition groups_settled p c : Prop :=
  (forall group, group ∈ pr_groups p -> exists sg, sg ∈ spec_SecurityGroups (cs_Spec c) /\
     SecurityGroupName c (sg_Name sg) = isg_Name group) /\
  forall sg zone, sg ∈ spec_SecurityGroups (cs_Spec c) -> zone ∈ Zones c Instance_Zones ->
    group_settled p c sg zone.

(** The Private Networks that a pass may use: those of the name of the cluster, or the
    one of the status when the network is the user's. *)
Definition network_of p c (id : ID) : Prop :=
  if ShouldManagePrivateNetwork c then
    exists pn, pn ∈ pr_networks p /\ pn_Name pn = Cluster_Name c /\ pn_ID pn = id
  else PrivateNetworkID c = Ok id.

Definition network_settled p c : Prop :=
  if ShouldManagePrivateNetwork c then
    exists_as pn_Name (Cluster_Name c) (fun pn => pn_DHCPEnabled pn = true) (pr_networks p)
  else HasPrivateNetwork c = true -> exists id, PrivateNetworkID c = Ok id.

(** The Public Gateway exists and is attached to the network. *)
Definition gateway_settled p c : Prop :=
  HasPrivateNetwork c = true -> HasPublicGateway c = true ->
  forall gateway, Vpcgw.PublicGateway c = Ok gateway ->
  let attached gatewayID :=
    forall pnID, network_of p c pnID -> pr_attachments p gatewayID pnID <> 0 in
  match pgs_ID gateway with
  | Some id => attached id
  | None => exists_as gw_Name (Cluster_Name c) (fun gw => attached (gw_ID gw)) (pr_gateways p)
  end.

(** The ACL [name] is absent when there is nothing to match, and otherwise does to [ips] what
    is asked. *)
Definition acl_settled p (frontendID : ID) (name : string) (ips : list string) (deny : bool)
    (index : Z) : Prop :=
  match ips with
  | [] => forall acl, acl ∈ pr_acls p frontendID name -> acl_Name acl <> name
  | _ => exists_as acl_Name name
      (acl_is ips (if deny then ACLActionTypeDeny else ACLActionTypeAllow) index)
      (pr_acls p frontendID name)
  end.

Definition deny_all_of c : list string :=
  match LoadBalancer.spec_AllowedRanges c with [] => [] | _ => ["0.0.0.0/0"; "::/0"]%string end.

Definition acls_settled p c (frontendID : ID) : Prop :=
  acl_settled p frontendID "allowed-ranges" (LoadBalancer.spec_AllowedRanges c) false 1 /\
  (HasPrivateNetwork c = true -> forall pnID, network_of p c pnID ->
     acl_settled p frontendID "public-gateway"
       (LoadBalancer.gateway_ips (pr_network_gateways p pnID)) false 2) /\
  acl_settled p frontendID "deny-all" (deny_all_of c) true 4.

(** A load balancer is ready, attached to the network, and set up. *)
Definition ready_lb p c (lb : LB) : Prop :=
  lb_Status lb = LBStatusReady /\
  (exists ip, LoadBalancer.first_IPv4 (lb_IP lb) = Ok (Some ip)) /\
  (HasPrivateNetwork c = true -> forall pnID, network_of p c pnID ->
     pnID ∈ pr_lb_networks p (lb_ID lb)) /\
  all_named be_Name LoadBalancer.ControlPlaneBackendName (fun _ => True)
    (pr_backends p (lb_ID lb)) /\
  all_named fe_Name LoadBalancer.ControlPlaneFrontendName (fun f => acls_settled p c (fe_ID f))
    (pr_frontends p (lb_ID lb)).

Definition lb_settled p c : Prop := exists_as lb_Name (Cluster_Name c) (ready_lb p c) (pr_lbs p).

(** The project is what the spec of the cluster asks for. *)
Definition settled p c : Prop :=
  groups_settled p c /\ network_settled p c /\ gateway_settled p c /\ lb_settled p c.
End settled.

(** *** What a pass over a cluster sees of the project

    Machines of the cluster may come and go during the pass: their addresses in the pools,
    their access control lists. *)

(** Two lists agree on what has the name. *)
Definition agree_on {A} (name : A -> string) (n : string) (xs ys : list A) : Prop :=
  forall x, name x = n -> x ∈ xs <-> x ∈ ys.

#[export] Instance agree_on_preorder {A} (name : A -> string) n : PreOrder (agree_on name n).
Proof.
  split; [by intros xs x|]. intros xs ys zs H1 H2 x Ex. by rewrite (H1 x Ex), (H2 x Ex).
Qed.

Lemma exists_as_agree {A} (name : A -> string) n (P : A -> Prop) xs ys :
  agree_on name n xs ys -> exists_as name n P xs -> exists_as name n P ys.
Proof.
  intros Hin [(x & Hx & Ex) Hall]. split.
  - exists x. split; [by apply Hin|done].
  - intros y Hy Ey. apply Hall; [by apply Hin|done].
Qed.

Definition cluster_acls : list string := ["allowed-ranges"; "public-gateway"; "deny-all"]%string.

(** The listings of a pass over the cluster whose load balancer has the name [n]. *)
Definition observes (p : project) (n : string) : rely := fun _ c r =>
  match r with
  | ROk xs =>
      match c return cloud_val c -> Prop with
      | ListSecurityGroups _ None _ _ => fun xs => xs = pr_groups p
      | ListSecurityGroupRules _ id => fun xs => xs = pr_rules p id
      | ListPrivateNetworks _ (Some _) _ => fun xs => xs = pr_networks p
      | ListGatewaysByName _ _ _ => fun xs => xs = pr_gateways p
      | ListGatewayNetworks _ gwID pnID => fun n => n = pr_attachments p gwID pnID
      | ListGatewaysByPN _ pnID _ => fun xs => xs = pr_network_gateways p pnID
      | ListLBs _ (Some name) => fun xs => name = n -> xs = pr_lbs p
      | ListLBPrivateNetworks _ lbID => fun xs => xs = pr_lb_networks p lbID
      | ListBackends _ lbID None => fun xs => be_Name <$> xs = be_Name <$> pr_backends p lbID
      | ListFrontends _ lbID None => fun xs => xs = pr_frontends p lbID
      | ListACLs _ frontendID (Some name) => fun xs =>
          name ∈ cluster_acls -> agree_on acl_Name name (pr_acls p frontendID name) xs
      | _ => fun _ => True
      end xs
  | RErr _ => True
  end.

Lemma shows_observes p n h c r : shows p h c r -> observes p n h c r.
Proof.
  destruct r as [xs|e]; [|done].
  destruct c; try done; try destruct name; try done; cbn; by intros ->.
Qed.

(** ** Passes over a settled project *)

Definition call_failed (h : trace) : Prop := exists call e, err_ev call e ∈ h.

Lemma call_failed_here h c e : call_failed (h ++ [err_ev c e]).
Proof. exists c, e. apply elem_of_snoc_here. Qed.
#[export] Hint Resolve call_failed_here : caps.

(** Calls that only read. *)
Definition read_only : guarantee := fun _ call => mutates call = false.

(** The call writes an access control list again, as it is. *)
Definition restates (acl : ACL) (call : cloud_call) : Prop :=
  exists zone ips action, acl_is ips action (acl_Index acl) acl /\
    call = UpdateACL {| uacl_Zone := zone; uacl_ACLID := acl_ID acl; uacl_Name := acl_Name acl;
                        uacl_Action := action; uacl_Match := ips; uacl_Index := acl_Index acl |}.

(** Calls that leave the project as it is: they read, or restate a list of the cluster. *)
Definition leaves_be (p : project) : guarantee := fun _ call =>
  mutates call = false \/
  exists frontendID name acl, name ∈ cluster_acls /\ acl ∈ pr_acls p frontendID name /\
    acl_Name acl = name /\ restates acl call.

(** A computation fails only when a call does, and never because the load balancer is not
    ready. *)
Definition unless_failed {S A} (P : A -> S -> Prop) : outcome A -> S -> trace -> Prop :=
  fun oa s h => match oa with Ok a => P a s | Err e => call_failed h /\ errors_Is e ErrLoadBalancerNotReady = false | Panic => False end.

(** Symbolic execution that remembers what the answers show. *)
Ltac calm_step :=
  lazymatch goal with
  | |- wpM _ _ (unless_Is ErrNoItemFound _) _ _ _ =>
      eapply finder_unless_Is;
        [ apply _ | intros ? ? HH; exact HH | first [reflexivity | left; reflexivity]
        | intros ? ? ? ? ? | intros ? ? ? | intros ? ? _ ? ]
  | |- wpM _ _ (remote _) _ _ _ =>
      apply wpM_remote; [first [reflexivity | left; reflexivity] | intros ? ? | intros ? _]
  | _ => go_step
  end; cbn beta iota delta [outcome_wrap] in *.

Ltac calm :=
  repeat first
    [ done
    | solve [unfold unless_failed; cbn [outcome_wrap errors_Is]; auto with caps]
    | calm_step ].

Section calm.
Context `{SDK : ScwSDK} `{K8S : K8sLib}.
Context (p : project) (n : string).
Implicit Types (h : trace) (c : ClusterScope).

Abbreviation calm_wp := (wpM (observes p n) (leaves_be p)).

(** *** Security groups *)

Lemma deleteExtra_calm c h :
  groups_settled p c ->
  calm_wp (SecurityGroup.deleteExtraSecurityGroups c (spec_SecurityGroups (cs_Spec c)) (pr_groups p))
    h c (unless_failed (fun _ c' => c' = c)).
Proof.
  intros [Hg _]. unfold SecurityGroup.deleteExtraSecurityGroups.
  eapply (wpM_for_each _ _ _ _ _ _ (fun _ c' _ => c' = c)); [done..|].
  intros group gs c' h' -> Hin. go_step; [|by go_step].
  to_prop. rewrite existsb_not_elem_of in Heqb. destruct (Hg group Hin) as (sg & Hsg & E).
  specialize (Heqb sg Hsg). cbn beta in Heqb. by rewrite E, String_eqb_refl in Heqb.
Qed.

Lemma ensureGroup_calm c sg zone h :
  group_settled p c sg zone ->
  calm_wp (instanceSG ← SecurityGroup.ensureInstanceSG c (pr_groups p) sg zone;
    SecurityGroup.ensureSGRules sg zone instanceSG) h c (unless_failed (fun _ c' => c' = c)).
Proof.
  intros (group & Ef & [Epin Epout] & Ed & Hin & Hout).
  unfold SecurityGroup.ensureInstanceSG. rewrite Ef, Epin, Epout, Ed.
  do 5 go_step. rewrite !bool_decide_eq_true_2 by done. cbn [negb orb]. do 3 go_step.
  unfold SecurityGroup.ensureSGRules. do 3 calm_step; [|by calm]. cbn in H. subst a.
  apply compareRules_true in Hin, Hout. unfold of_direction in Hin, Hout.
  do 3 go_step. rewrite Hin. cbn [outcome_wrap]. do 3 go_step. rewrite Hout.
  by cbn [outcome_wrap negb orb].
Qed.

Lemma sg_Reconcile_calm c h :
  groups_settled p c -> calm_wp SecurityGroup.Reconcile h c (unless_failed (fun _ c' => c' = c)).
Proof.
  intros Hg. unfold SecurityGroup.Reconcile, SecurityGroup.ensureSecurityGroups. do 4 go_step.
  change (match scs_Network (cs_Spec c) with Some network => ns_SecurityGroups network | None => [] end)
    with (spec_SecurityGroups (cs_Spec c)).
  do 3 calm_step; [|by calm]. cbn in H. subst a. go_step.
  eapply wpM_mono; [by apply deleteExtra_calm|]. intros [[]|e|] c' h'; cbn; [intros ->|done..].
  eapply (wpM_for_each _ _ _ _ _ _ (fun _ c' _ => c' = c)); [done..|].
  intros sg sgs c' h1 -> Hsg.
  eapply (wpM_for_each _ _ _ _ _ _ (fun _ c' _ => c' = c)); [done..|].
  intros zone zones c' h2 -> Hz. by apply ensureGroup_calm, Hg.
Qed.

(** *** Network *)

(** After the pass over the Private Network its ID is recorded; nothing else changed. *)
Definition network_recorded c c' : Prop :=
  (HasPrivateNetwork c = true -> exists pnID, PrivateNetworkID c' = Ok pnID /\ network_of p c pnID) /\
  cs_ProjectID c' = cs_ProjectID c /\ cs_Spec c' = cs_Spec c /\
  sc_ObjectMeta (cs_ScalewayCluster c') = sc_ObjectMeta (cs_ScalewayCluster c).

Lemma vpc_Reconcile_calm c h :
  network_settled p c ->
  calm_wp Vpc.Reconcile h c (unless_failed (fun _ c' => network_recorded c c')).
Proof.
  unfold network_settled, Vpc.Reconcile. intros Hn. do 2 go_step.
  destruct (ShouldManagePrivateNetwork c) eqn:Em; cbn [negb].
  - destruct Hn as [(pn & Hpn & En) Hdhcp]. unfold Vpc.getOrCreatePN.
    do 5 go_step. calm_step; [| |by calm]; cbn in H; subst xs.
    + to_prop. do 2 go_step. rewrite Hdhcp by done. cbn [negb]. go_step.
      cbn [outcome_wrap]. pose proof (proj1 (should_manage_spec c Em)) as Hp.
      apply SetStatus_spec; [done|]. intros c' (Eid & Es & Epr & _ & Emeta & _).
      split_and!; try done. intros _. exists (pn_ID x). split; [done|].
      unfold network_of. rewrite Em. eauto.
    + specialize (H0 _ Hpn). cbn beta in H0. by rewrite En, String_eqb_refl in H0.
  - go_step. split_and!; try done. intros Hp. destruct (Hn Hp) as [id Eid].
    exists id. split; [done|]. unfold network_of. by rewrite Em.
Qed.

Lemma gw_Reconcile_calm c c' h :
  gateway_settled p c -> network_recorded c c' ->
  calm_wp Vpcgw.Reconcile h c' (unless_failed (fun _ c1 => c1 = c')).
Proof.
  intros Hg (Hn & Epr & Es & Em). unfold Vpcgw.Reconcile. do 2 go_step.
  assert (HasPrivateNetwork c' = HasPrivateNetwork c) as -> by (unfold HasPrivateNetwork; by rewrite Es).
  assert (HasPublicGateway c' = HasPublicGateway c) as -> by (unfold HasPublicGateway; by rewrite Es).
  destruct (HasPrivateNetwork c) eqn:Ep; [|by go_step].
  destruct (HasPublicGateway c) eqn:Egw; [|by go_step]. cbn [negb orb].
  assert (Vpcgw.PublicGateway c' = Vpcgw.PublicGateway c) as -> by (unfold Vpcgw.PublicGateway; by rewrite Es).
  destruct (Hn eq_refl) as (pnID & Epn & Hof).
  assert (exists gateway, Vpcgw.PublicGateway c = Ok gateway) as [gateway Egate].
  { unfold HasPublicGateway, Vpcgw.PublicGateway in *.
    destruct (scs_Network (cs_Spec c)) as [[? [?|] ?]|]; [|done..]. eexists. reflexivity. }
  specialize (Hg Ep Egw gateway Egate). cbn zeta in Hg. rewrite Egate, Epn.
  assert (forall gatewayID h1, pr_attachments p gatewayID pnID <> 0 ->
    calm_wp (pnID ← lift (Ok pnID); totalCount ← remote (ListGatewayNetworks (PublicGatewayZone c') gatewayID pnID);
      if totalCount =? 0 then remote (CreateGatewayNetwork (PublicGatewayZone c') gatewayID pnID (Some true) true true)
      else mret tt) h1 c' (unless_failed (fun _ c1 => c1 = c'))) as Hattach.
  { intros gatewayID h1 Ha. do 3 go_step. calm_step; [|by calm]. cbn in H. subst a.
    rewrite (proj2 (Z.eqb_neq _ _)) by done. by go_step. }
  do 3 go_step. destruct (pgs_ID gateway) as [id|]; [go_step; by apply Hattach, Hg|].
  destruct Hg as [(gw & Hgw & En) Ha]. unfold Vpcgw.getOrCreateGateway. do 5 go_step.
  assert (Cluster_Name c' = Cluster_Name c) as -> by (unfold Cluster_Name; by rewrite Em).
  calm_step; [| |by calm]; cbn in H; subst xs.
  - to_prop. cbn [outcome_wrap]. do 2 go_step. apply Hattach. by apply (Ha x).
  - specialize (H0 _ Hgw). cbn beta in H0. by rewrite En, String_eqb_refl in H0.
Qed.

(** *** Load balancer *)

Lemma ensureACL_calm frontendID name ips deny index c h :
  name ∈ cluster_acls -> acl_settled p frontendID name ips deny index ->
  calm_wp (LoadBalancer.ensureACL frontendID name ips deny index) h c
    (unless_failed (fun _ c' => c' = c)).
Proof.
  intros Hname Ha. unfold LoadBalancer.ensureACL. do 3 go_step.
  calm_step; [| |by calm]; cbn in H; specialize (H Hname); to_prop.
  - apply (H x H1) in H0. destruct ips as [|ip ips]; cbn [acl_settled] in Ha; [by edestruct Ha|].
    destruct Ha as [_ Ha]. destruct (Ha x H0 H1) as (Em & Eact & Ei). rewrite match_differs_true by done.
    apply wpM_remote; [|by intros|by intros; split; [apply call_failed_here|]].
    right. exists frontendID, name, x. split_and!; [done..|]. rewrite <- Ei, <- H1.
    exists (LoadBalancerZone c). do 2 eexists. by split; [split_and!|].
  - destruct ips; cbn [acl_settled] in Ha; [by go_step|].
    destruct Ha as [(acl & Hacl & En) _]. apply (H acl En) in Hacl. specialize (H0 _ Hacl).
    cbn beta in H0. by rewrite En, String_eqb_refl in H0.
Qed.

Lemma ensureACLs_calm frontend pnID c c' h :
  acls_settled p c (fe_ID frontend) -> cs_Spec c' = cs_Spec c ->
  (forall id, pnID = Some id -> HasPrivateNetwork c = true -> network_of p c id) ->
  calm_wp (LoadBalancer.ensureACLs frontend pnID) h c' (unless_failed (fun _ c1 => c1 = c')).
Proof.
  intros (Hallow & Hgw & Hdeny) Es Hpn. unfold LoadBalancer.ensureACLs.
  assert (LoadBalancer.spec_AllowedRanges c' = LoadBalancer.spec_AllowedRanges c) as Er
    by (unfold LoadBalancer.spec_AllowedRanges; by rewrite Es).
  assert (HasPrivateNetwork c' = HasPrivateNetwork c) as Eh by (unfold HasPrivateNetwork; by rewrite Es).
  do 2 go_step. rewrite Er, Eh. fold (deny_all_of c). do 2 go_step.
  eapply wpM_mono; [apply ensureACL_calm; [left|done]|]. intros [[]|e|] c1 h1; cbn; [intros ->|done..].
  go_step. eapply (wpM_mono _ _ _ _ _ (unless_failed (fun _ c1 => c1 = c'))).
  - destruct pnID as [pnID|]; [|by go_step]. destruct (HasPrivateNetwork c) eqn:Ep; [|by go_step].
    unfold FindGatewaysByPrivateNetworkID. do 2 go_step. calm_step; [|by calm]. cbn in H. subst a.
    apply ensureACL_calm; [right; left|by apply Hgw, Hpn].
  - intros [[]|e|] c1 h2; cbn; [intros ->|done..]. apply ensureACL_calm; [do 2 right; left|done].
Qed.

(** The loop over backends or frontends that all have the expected name. *)
Lemma keep_last_calm {A} (name : A -> string) k (P : A -> Prop) (delete : A -> cloud_call) xs c h :
  all_named name k P xs ->
  calm_wp (for_fold xs None (fun acc x =>
      if name x =?s k then mret (Some x) else _ ← remote (delete x); mret acc)) h c
    (unless_failed (fun r c' => c' = c /\ exists x, r = Some x /\ P x)).
Proof.
  intros [Hne Hall].
  eapply (wpM_for_fold _ _ _ _ _ _ _ (fun ys acc c' _ => c' = c /\
    match acc with Some x => P x | None => ys = xs end)); [done| |].
  - intros [x|] c' h' [-> Hx]; cbn; [by eauto|by subst].
  - intros acc x ys c' h' [-> _] Hx. destruct (Hall x Hx) as [-> HP].
    rewrite String_eqb_refl. by go_step.
Qed.

(** Only the names count. *)
Lemma all_named_names {A} (name : A -> string) k xs ys :
  name <$> ys = name <$> xs -> all_named name k (fun _ => True) xs -> all_named name k (fun _ => True) ys.
Proof.
  intros E [Hne Hall]. split.
  - intros ->. by destruct xs.
  - intros y Hy. split; [|done]. assert (name y ∈ name <$> xs) as (x & -> & Hx)%list_elem_of_fmap
      by (rewrite <- E; by apply list_elem_of_fmap_2). by apply Hall.
Qed.

Lemma ensureBackend_calm lb c h :
  all_named be_Name LoadBalancer.ControlPlaneBackendName (fun _ => True) (pr_backends p (lb_ID lb)) ->
  calm_wp (LoadBalancer.ensureBackend lb) h c (unless_failed (fun _ c' => c' = c)).
Proof.
  intros Hb. unfold LoadBalancer.ensureBackend. go_step. calm_step; [|by calm]. cbn in H.
  go_step. eapply wpM_mono; [by eapply keep_last_calm, all_named_names|].
  intros [r|e|] c' h'; cbn; [intros (-> & x & -> & _)|done..]. by go_step.
Qed.

Lemma ensureFrontend_calm P lb backend c h :
  all_named fe_Name LoadBalancer.ControlPlaneFrontendName P (pr_frontends p (lb_ID lb)) ->
  calm_wp (LoadBalancer.ensureFrontend lb backend) h c
    (unless_failed (fun frontend c' => c' = c /\ P frontend)).
Proof.
  intros Hf. unfold LoadBalancer.ensureFrontend. go_step. calm_step; [|by calm]. cbn in H. subst a.
  go_step. eapply wpM_mono; [by eapply keep_last_calm|].
  intros [r|e|] c' h'; cbn; [intros (-> & x & -> & Hx)|done..]. by go_step.
Qed.

Lemma ensurePrivateNetwork_calm lb pnID c h :
  (forall id, pnID = Some id -> id ∈ pr_lb_networks p (lb_ID lb)) ->
  calm_wp (LoadBalancer.ensurePrivateNetwork lb pnID) h c (unless_failed (fun _ c' => c' = c)).
Proof.
  intros Hid. destruct pnID as [pnID|]; unfold LoadBalancer.ensurePrivateNetwork; [|by go_step].
  go_step. calm_step; [|by calm]. cbn in H. subst a.
  assert (List.existsb (fun lbPN => lbPN =?s pnID) (pr_lb_networks p (lb_ID lb)) = true) as ->.
  { apply existsb_elem_of. exists pnID. split; [by apply Hid|apply String_eqb_refl]. }
  by go_step.
Qed.

Lemma lb_Reconcile_calm c c' h :
  Cluster_Name c = n -> lb_settled p c -> network_recorded c c' ->
  calm_wp LoadBalancer.Reconcile h c' (unless_failed (fun _ c1 =>
    sc_Status (cs_ScalewayCluster c1) = sc_Status (cs_ScalewayCluster c'))).
Proof.
  intros Hcn [(lb0 & Hlb0 & En0) Hready] (Hn & _ & Es & Em). unfold LoadBalancer.Reconcile.
  assert (HasPrivateNetwork c' = HasPrivateNetwork c) as Eh by (unfold HasPrivateNetwork; by rewrite Es).
  assert (Cluster_Name c' = Cluster_Name c) as Ename by (unfold Cluster_Name; by rewrite Em).
  do 3 go_step. unfold LoadBalancer.getOrCreateLB. do 3 go_step. rewrite Ename.
  calm_step; [| |by calm]; cbn in H; specialize (H Hcn); subst xs; to_prop.
  2:{ specialize (H0 _ Hlb0). cbn beta in H0. by rewrite En0, String_eqb_refl in H0. }
  destruct (Hready x H0 H1) as (Est & [ip Eip] & Hnet & Hbe & Hfe).
  go_step. rewrite (bool_decide_eq_true_2 _ Est). cbn [negb]. go_step. rewrite Eh.
  eapply (wpM_mono _ _ _ _ _ (unless_failed (fun pnID c1 => c1 = c' /\ forall id, pnID = Some id ->
    HasPrivateNetwork c = true /\ network_of p c id))).
  { destruct (HasPrivateNetwork c); [|by go_step]. destruct (Hn eq_refl) as (id & -> & Hof).
    do 3 go_step. split; [done|]. by intros ? [= <-]. }
  intros [pnID|e|] c1 h1; cbn; [intros [-> Hpn]|done..].
  go_step. eapply wpM_mono;
    [apply ensurePrivateNetwork_calm; intros id [Hp Hof]%Hpn; by apply Hnet|].
  intros [[]|e|] c1 h2; cbn; [intros ->|done..].
  do 2 go_step. eapply wpM_mono; [by apply ensureBackend_calm|].
  intros [backend|e|] c1 h3; cbn; [intros ->|done..].
  do 2 go_step. eapply wpM_mono; [by apply ensureFrontend_calm|].
  intros [frontend|e|] c1 h4; cbn; [intros [-> Hf]|done..].
  do 2 go_step. eapply wpM_mono; [apply (ensureACLs_calm _ _ c); [done..|]; intros id ->; naive_solver|].
  intros [[]|e|] c1 h5; cbn; [intros ->|done..].
  cbn [outcome_wrap]. do 2 go_step. rewrite Eip. unfold LoadBalancer.SetControlPlaneEndpoint. by go_step.
Qed.

(** *** The pass *)

(** Only the spec, the name and the recorded network matter. *)
Lemma settled_meta c meta fds :
  om_Name meta = om_Name (sc_ObjectMeta (cs_ScalewayCluster c)) -> settled p c ->
  settled p (set_cs_Status (set_scst_FailureDomains fds) (set_cs_ObjectMeta meta c)).
Proof.
  destruct c as [projectID [[name ns uid labels annots fins owners del] spec status] cl helper].
  destruct meta. cbn. by intros ->.
Qed.

Lemma reconcileNormal_calm `{!K8sLaws} c h :
  Cluster_Name c = n -> settled p c ->
  calm_wp reconcileNormal h c (unless_failed (fun res c' =>
    res = no_requeue /\ scst_Ready (sc_Status (cs_ScalewayCluster c')) = true)).
Proof.
  intros Hcn Hs. unfold reconcileNormal. do 2 go_step.
  pose proof (AddFinalizer_name (sc_ObjectMeta (cs_ScalewayCluster c)) ClusterFinalizer) as Hname.
  destruct (AddFinalizer _ _) as [meta added]. simpl in Hname. do 3 go_step.
  set (c1 := set_cs_ObjectMeta meta c).
  eapply (wpM_mono _ _ _ _ _ (unless_failed (fun _ c' => c' = c1))).
  { destruct added; [|by go_step]. unfold Cluster_PatchObject. do 2 go_step. by calm. }
  intros [[]|e|] c2 h1; cbn [unless_failed]; [intros ->|done..]. do 3 go_step.
  destruct (settled_meta c meta (FailureDomains c1) Hname Hs) as (Hsg & Hnet & Hgw & Hlb).
  fold c1 in Hsg, Hnet, Hgw, Hlb.
  eapply wpM_mono; [by apply sg_Reconcile_calm|].
  intros [[]|e|] c3 h2; cbn [unless_failed]; [intros ->|done..].
  do 2 go_step. eapply wpM_mono; [by apply vpc_Reconcile_calm|].
  intros [[]|e|] c3 h3; cbn [unless_failed outcome_wrap]; [intros Hrec|done..].
  do 2 go_step. eapply wpM_mono; [by eapply gw_Reconcile_calm|].
  intros [[]|e|] c4 h4; cbn [unless_failed outcome_wrap]; [intros ->|done..].
  assert (Cluster_Name c1 = n) as Hc1 by (rewrite <- Hcn; unfold Cluster_Name; cbn; by rewrite Hname).
  do 2 go_step. eapply wpM_mono; [by eapply lb_Reconcile_calm|].
  intros [[]|e|] c4 h5; cbn [unless_failed outcome_wrap]; [intros _|intros Hfail|done].
  - by do 3 go_step.
  - destruct Hfail as [Hf He]. rewrite He. by go_step.
Qed.
End calm.

(** C9.  A pass over a cluster whose project is already what its spec asks for leaves it
    so: when the listings show a settled project, whatever they show of its machines, each
    call of the pass reads, or updates an access control list of the cluster with the very
    name, action, index and addresses that the list has; the pass ends with the cluster ready and no other pass
    requested, unless a call fails; it does not panic.  (These updates are not meant: see
    [ControlPlane.acls_always_written].) *)
Theorem settled_pass_calm `{SDK : ScwSDK} `{K8S : K8sLib} `{!K8sLaws}
    (p : project) (o : oracle cloud) (c : ClusterScope) :
  admissible (observes p (Cluster_Name c)) o -> settled p c ->
  let '(t, (oa, c')) := runM o [] reconcileNormal c in
  (forall call r, CEv call r ∈ t -> mutates call = false \/
    exists frontendID name acl, name ∈ cluster_acls /\ acl ∈ pr_acls p frontendID name /\
      acl_Name acl = name /\ restates acl call) /\
  match oa with
  | Ok res => res = no_requeue /\ scst_Ready (sc_Status (cs_ScalewayCluster c')) = true
  | Err _ => call_failed t
  | Panic => False
  end.
Proof.
  intros Ho Hs.
  destruct (wpM_sound _ _ o _ _ _ _ Ho (reconcileNormal_calm p _ c [] eq_refl Hs)) as (t & Et & Hob & HQ).
  destruct (runM o [] reconcileNormal c) as [t' [oa c']]. simpl in *. subst t'. split.
  - intros call r (t1 & t2 & E)%list_elem_of_split. by apply (Hob t1 call r t2).
  - destruct oa as [res|e|]; cbn in HQ; [done|by destruct HQ|done].
Qed.

(** ** A settled project for the sample cluster *)

#[local] Existing Instances sim_sdk sim_k8s sim_k8s_laws.

(** The listings show [p]; the other calls fail, but for the write of the object. *)
Definition answers (p : project) : oracle cloud := fun _ c =>
  match c return resp cloud c with
  | ListSecurityGroups _ None _ _ => ROk (pr_groups p)
  | ListSecurityGroupRules _ id => ROk (pr_rules p id)
  | ListPrivateNetworks _ (Some _) _ => ROk (pr_networks p)
  | ListGatewaysByName _ _ _ => ROk (pr_gateways p)
  | ListGatewayNetworks _ gwID pnID => ROk (pr_attachments p gwID pnID)
  | ListGatewaysByPN _ pnID _ => ROk (pr_network_gateways p pnID)
  | ListLBs _ (Some _) => ROk (pr_lbs p)
  | ListLBPrivateNetworks _ lbID => ROk (pr_lb_networks p lbID)
  | ListBackends _ lbID None => ROk (pr_backends p lbID)
  | ListFrontends _ lbID None => ROk (pr_frontends p lbID)
  | ListACLs _ frontendID (Some name) => ROk (pr_acls p frontendID name)
  | Patch _ _ => ROk tt
  | _ => RErr (OtherError "unavailable")
  end.

Lemma answers_shows p : admissible (shows p) (answers p).
Proof.
  intros h c. destruct c; try done;
    repeat match goal with x : option _ |- _ => destruct x end; done.
Qed.

Definition demo_listed_rule : InstanceSecurityGroupRule :=
  {| isr_Protocol := SecurityGroupRuleProtocolTCP;
     isr_Direction := SecurityGroupRuleDirectionInbound;
     isr_Action := SecurityGroupRuleActionAccept;
     isr_IPRange := {| IPNet_IP := [10; 0; 0; 0]; IPNet_Mask := [255; 0; 0; 0] |};
     isr_DestPortFrom := Some 80; isr_DestPortTo := Some 443 |}.

Definition demo_acl_ips (name : string) : list string :=
  if name =?s "allowed-ranges" then ["192.0.2.0/24"%string]
  else if name =?s "public-gateway" then ["51.15.0.9"%string]
  else ["0.0.0.0/0"; "::/0"]%string.

Definition demo_acl_of (name : string) : ACL :=
  {| acl_ID := name; acl_Name := name; acl_Match := Some (demo_acl_ips name);
     acl_Action := Some (if name =?s "deny-all" then ACLActionTypeDeny else ACLActionTypeAllow);
     acl_Index := if name =?s "allowed-ranges" then 1 else if name =?s "public-gateway" then 2 else 4 |}.

Definition demo_project_of (pnID : ID) : project :=
  {| pr_groups := [sim_sg "fr-par-1" "caps-demo-web" "sg-1"; sim_sg "fr-par-2" "caps-demo-web" "sg-2"];
     pr_rules _ := [demo_listed_rule];
     pr_networks := [sim_pn "caps-demo" pnID];
     pr_gateways := [sim_gateway "caps-demo" "gw"];
     pr_attachments _ _ := 1;
     pr_network_gateways _ := [sim_gateway "caps-demo" "gw"];
     pr_lbs := [sim_lb "fr-par-1" "caps-demo" "lb"];
     pr_lb_networks _ := [pnID];
     pr_backends _ := [sim_backend [] "control-plane" "be"];
     pr_frontends _ := [sim_frontend "control-plane" "fe"];
     pr_acls _ name := [demo_acl_of name] |}.

Definition demo_project : project := demo_project_of "pn".

(** A pass over the sample cluster. *)
Definition demo_plain_scope : ClusterScope :=
  {| cs_ProjectID := "id-project"; cs_ScalewayCluster := demo_cluster;
     cs_Cluster := w_Cluster demo_world; cs_patchHelper := OCluster demo_cluster |}.

Lemma demo_group_settled pnID sg zone :
  sg ∈ ns_SecurityGroups demo_network -> zone ∈ ["fr-par-1"; "fr-par-2"]%string ->
  group_settled (demo_project_of pnID) demo_plain_scope sg zone.
Proof.
  intros ->%list_elem_of_singleton [->|[->|?%not_elem_of_nil]%elem_of_cons]%elem_of_cons;
    try done; (eexists; split; [by vm_compute|]).
  all: split_and!; [by split|done|split; [constructor; [|constructor]|constructor]].
  all: by split_and!; vm_compute.
Qed.

Lemma demo_settled_of pnID : settled (demo_project_of pnID) demo_plain_scope.
Proof.
  split_and!.
  - split; [|by apply demo_group_settled].
    intros group [->|[->|?%not_elem_of_nil]%elem_of_cons]%elem_of_cons; try done;
      (eexists; split; [left|by vm_compute]).
  - split; [by eexists; split; [left|]|]. by intros pn ->%list_elem_of_singleton.
  - intros _ _ gateway [= <-]. cbn. split; [by eexists; split; [left|]|]. by intros.
  - split; [by eexists; split; [left|]|]. intros lb ->%list_elem_of_singleton _.
    split_and!; [done|by eexists; vm_compute| | |].
    + intros _ id (pn & ->%list_elem_of_singleton & _ & <-). left.
    + split; [done|]. by intros b ->%list_elem_of_singleton.
    + split; [done|]. intros f ->%list_elem_of_singleton. split; [done|].
      split_and!; [|intros _ id _|]; (split; [by eexists; split; [left|]|]);
      by intros acl ->%list_elem_of_singleton _; vm_compute.
Qed.

Lemma demo_settled : settled demo_project demo_plain_scope.
Proof. apply demo_settled_of. Qed.

Lemma settled_pass_calm_witness :
  let '(t, (oa, c')) := runM (answers demo_project) [] reconcileNormal demo_plain_scope in
  (forall call r, CEv call r ∈ t -> mutates call = false \/
    exists frontendID name acl, name ∈ cluster_acls /\ acl ∈ pr_acls demo_project frontendID name /\
      acl_Name acl = name /\ restates acl call) /\
  match oa with
  | Ok res => res = no_requeue /\ scst_Ready (sc_Status (cs_ScalewayCluster c')) = true
  | Err _ => call_failed t
  | Panic => False
  end.
Proof.
  apply (settled_pass_calm demo_project); [|apply demo_settled].
  intros h c. apply shows_observes, answers_shows.
Defined.
