(* ===== verification/Progress.v ===== *)
(** * Progress

    What the provider does when its environment cooperates: the calls succeed and the
    resources the user named exist.  A pass over an accepted object then never fails: it
    reaches its goal, or waits for the one thing that takes time. *)

From S2P Require Import Prelude Go Net Prog Sdk Types Cloud Ledger Scope Client.
From S2P Require Vpc Vpcgw SecurityGroup LoadBalancer.
From S2P Require Import ClusterController ClusterWebhook.
From S2P Require Import Simulation NoDuplicates ClusterValidation Bringup ControlPlane Firewall.
From S2P Require Import ClusterTeardown Controllers Networks.
#[local] Open Scope caps_scope.

(** ** A cooperating environment *)

(** A load balancer has an IPv4 address, listed before anything unreadable. *)
Definition usable_lb (lb : LB) : Prop :=
  exists ip, LoadBalancer.first_IPv4 (lb_IP lb) = Ok (Some ip).

(** The calls succeed; load balancers have an IPv4 address; the networks of the cluster
    have DHCP; the addresses the spec names exist; at most one gateway address has the
    tags of the cluster. *)
Definition available (c0 : ClusterScope) : rely := fun _ call r =>
  match r with
  | RErr _ => False
  | ROk x =>
      match call return cloud_val call -> Prop with
      | ListPrivateNetworks _ _ _ => fun pns => forall pn, pn ∈ pns ->
          pn_Name pn = Cluster_Name c0 -> pn_DHCPEnabled pn = true
      | CreatePrivateNetwork _ _ _ => fun pn => pn_DHCPEnabled pn = true
      | ListLBs _ _ => fun lbs => forall lb, lb ∈ lbs -> usable_lb lb
      | CreateLB _ _ _ _ => fun lb => usable_lb lb
      | LBListIPs _ ip _ => fun ips => exists x, x ∈ ips /\ lbip_IPAddress x = ip
      | GatewayListFreeIPs _ _ => fun ips => forall spec addr,
          Vpcgw.PublicGateway c0 = Ok spec -> pgs_IP spec = Some addr ->
          exists ip, ip ∈ ips /\ IP_String (gip_Address ip) = addr
      | GatewayListIPsByTags _ _ _ => fun ips => (length ips <= 1)%nat
      | _ => fun _ => True
      end x
  end.

(** The computation ends well. *)
Definition ends_well {S A} (P : A -> S -> trace -> Prop) : outcome A -> S -> trace -> Prop :=
  fun oa s h => match oa with Ok a => P a s h | _ => False end.

(** Calls and lookups under a rely that excludes failures. *)
Ltac well_step :=
  lazymatch goal with
  | |- wpM _ _ (unless_Is ErrNoItemFound _) _ _ _ =>
      first
        [ eapply finder_unless_Is;
          [ apply _ | intros ? ? HH; exact HH | exact I
          | intros ? ? ? ? ? | intros ? ? ? | intros ? ? [] ]
        | go_step ]
  | |- wpM _ _ (remote _) _ _ _ =>
      apply wpM_remote; [exact I | intros ? ? | intros ? []]
  | |- wpM _ _ (first_match _ _) _ _ _ => apply wp_first_match; intros [?|?|] ?
  | _ =>
      first
        [ go_step
        | eapply finder_wp; [exact I | intros ? [?|?|] ? ? | intros ? ? [] ] ]
  end; cbn beta iota delta [outcome_wrap found found_single] in *.

Section cluster.
Context `{SDK : ScwSDK} `{K8S : K8sLib}.
Context (c0 : ClusterScope).
Implicit Types (h : trace) (c : ClusterScope).

Abbreviation well := (wpM (available c0) any_call).

(** *** Security groups *)

Lemma deleteExtra_well sgs groups c h :
  well (SecurityGroup.deleteExtraSecurityGroups c sgs groups) h c (ends_well (fun _ c' _ => c' = c)).
Proof.
  unfold SecurityGroup.deleteExtraSecurityGroups.
  eapply (wpM_for_each _ _ _ _ _ _ (fun _ c' _ => c' = c)); [done..|].
  intros group gs c' h' -> _. by repeat well_step.
Qed.

Lemma ensureGroup_well sg zone groups c h :
  valid_security_group sg ->
  well (instanceSG ← SecurityGroup.ensureInstanceSG c groups sg zone;
    SecurityGroup.ensureSGRules sg zone instanceSG) h c (ends_well (fun _ c' _ => c' = c)).
Proof.
  intros [Hin Hout].
  destruct (defaultPolicy_valid _ Hin) as [pin Epin], (defaultPolicy_valid _ Hout) as [pout Epout].
  pose proof (valid_policy_rules _ Hin) as Hvin. pose proof (valid_policy_rules _ Hout) as Hvout.
  go_step. eapply (wpM_mono _ _ _ _ _ (ends_well (fun _ c' _ => c' = c))).
  { unfold SecurityGroup.ensureInstanceSG. rewrite Epin, Epout. by repeat well_step. }
  intros [group|e|] c' h' Hc; cbn in Hc; [subst c'|done..].
  unfold SecurityGroup.ensureSGRules. do 3 well_step.
  destruct (compareRules_valid _ (List.filter (fun rule => bool_decide
    (isr_Direction rule = SecurityGroupRuleDirectionInbound)) a) Hvin) as [bin Ein].
  destruct (compareRules_valid _ (List.filter (fun rule => bool_decide
    (isr_Direction rule = SecurityGroupRuleDirectionOutbound)) a) Hvout) as [bout Eout].
  destruct (valid_rules_requests_from 0 _ SecurityGroupRuleDirectionInbound Hvin)
    as (inbound & Ei & _).
  destruct (valid_rules_requests_from 0 _ SecurityGroupRuleDirectionOutbound Hvout)
    as (outbound & Eo & _).
  do 3 well_step. rewrite Ein. cbn [outcome_wrap]. do 3 well_step. rewrite Eout. cbn [outcome_wrap].
  rewrite Ei, Eo. by repeat well_step.
Qed.

Lemma sg_Reconcile_well c h :
  Forall valid_security_group (spec_SecurityGroups (cs_Spec c)) ->
  well SecurityGroup.Reconcile h c (ends_well (fun _ c' _ => c' = c)).
Proof.
  intros Hv. unfold SecurityGroup.Reconcile, SecurityGroup.ensureSecurityGroups. do 8 well_step.
  eapply wpM_mono; [apply deleteExtra_well|]. intros [[]|e|] c' h' Hc; cbn in Hc; [subst c'|done..].
  rewrite Forall_forall in Hv.
  eapply (wpM_for_each _ _ _ _ _ _ (fun _ c' _ => c' = c)); [done..|].
  intros sg sgs c' h1 -> Hsg.
  eapply (wpM_for_each _ _ _ _ _ _ (fun _ c' _ => c' = c)); [done..|].
  intros zone zones c' h2 -> Hz. by apply ensureGroup_well, Hv.
Qed.

(** *** Network *)

(** The subnet of the spec is a CIDR range, which the webhook does not check. *)
Definition subnet_parses c : Prop :=
  forall network pn subnet, scs_Network (cs_Spec c) = Some network ->
    ns_PrivateNetwork network = Some pn -> pns_Subnet pn = Some subnet ->
    ParseCIDR_opt subnet <> None.

(** The network is the provider's, or its ID was recorded. *)
Definition network_known c : Prop :=
  HasPrivateNetwork c = true ->
  ShouldManagePrivateNetwork c = true \/ exists id, PrivateNetworkID c = Ok id.

(** The object after the pass over the network. *)
Definition network_passed c c' : Prop :=
  cs_Spec c' = cs_Spec c /\ cs_ProjectID c' = cs_ProjectID c /\
  sc_ObjectMeta (cs_ScalewayCluster c') = sc_ObjectMeta (cs_ScalewayCluster c) /\
  (HasPrivateNetwork c = true -> exists id, PrivateNetworkID c' = Ok id).

Lemma getOrCreatePN_well c h :
  ShouldManagePrivateNetwork c = true -> Cluster_Name c = Cluster_Name c0 -> subnet_parses c ->
  well Vpc.getOrCreatePN h c (ends_well (fun _ c' _ => c' = c)).
Proof.
  intros (_ & network & pn & En & Ep)%should_manage_spec Hname Hsub. unfold Vpc.getOrCreatePN.
  do 3 well_step. well_step.
  - to_prop. well_step. well_step. assert (pn_DHCPEnabled x = true) as -> by (apply (H x); [done|congruence]).
    by go_step.
  - rewrite En. cbn [deref]. do 3 well_step. rewrite Ep. cbn [deref]. do 3 well_step.
    eapply (wpM_mono _ _ _ _ _ (ends_well (fun _ c' _ => c' = c))).
    { destruct (pns_Subnet pn) as [subnet|] eqn:Es; [|by go_step].
      specialize (Hsub _ _ _ En Ep Es). do 3 go_step. unfold ParseCIDR.
      destruct (ParseCIDR_opt subnet) eqn:Ec; [|done]. cbn [outcome_wrap]. by go_step. }
    intros [subnets|e|] c' h' Hc; cbn in Hc; [subst c'|done..].
    well_step. cbn in H1. rewrite H1. by go_step.
Qed.

Lemma vpc_Reconcile_well c h :
  Cluster_Name c = Cluster_Name c0 -> subnet_parses c -> network_known c ->
  well Vpc.Reconcile h c (ends_well (fun _ c' _ => network_passed c c')).
Proof.
  intros Hname Hsub Hk. unfold Vpc.Reconcile. do 2 go_step.
  destruct (ShouldManagePrivateNetwork c) eqn:Em; cbn [negb].
  - do 2 go_step. eapply wpM_mono; [by apply getOrCreatePN_well|].
    intros [pn|e|] c' h' Hc; cbn in Hc; [subst c'|done..]. cbn [outcome_wrap].
    apply SetStatus_spec; [by apply should_manage_spec in Em as []|].
    intros c' (Eid & Es & Epr & _ & Emeta & _). split_and!; try done. by exists (pn_ID pn).
  - go_step. split_and!; [done..|]. intros Hp. destruct (Hk Hp); [congruence|done].
Qed.

Lemma gw_getOrCreateIP_well c spec zone h :
  Vpcgw.PublicGateway c = Ok spec -> Vpcgw.PublicGateway c0 = Ok spec ->
  well (Vpcgw.getOrCreateIP zone (pgs_IP spec)) h c (ends_well (fun _ c' _ => c' = c)).
Proof.
  intros Es Es0. unfold Vpcgw.getOrCreateIP. do 2 go_step.
  destruct (pgs_IP spec) as [addr|] eqn:Eip.
  - rewrite Es. do 3 go_step. rewrite Eip. cbn [deref]. do 2 go_step.
    eapply finder_wp; [exact I| |by intros ? ? []]. intros ips oa Hav Hf. cbn in Hav.
    destruct (Hav _ _ Es0 Eip) as (ip & Hin & Ea).
    destruct oa as [x|e|]; cbn in Hf; [done| |done].
    destruct Hf as [_ Hf]. specialize (Hf _ Hin). cbn in Hf. by rewrite Ea, String_eqb_refl in Hf.
  - go_step. eapply wpM_mono with (Q := ends_well (fun _ c' _ => c' = c)).
    + apply wpM_unless_Is. eapply finder_wp; [exact I| |by intros ? ? []].
      intros ips oa Hav Hf. cbn in Hav. destruct oa as [x|e|]; cbn in Hf; [done| |done].
      destruct Hf as [[-> _]|[_ Hlen]]; [done|lia].
    + intros [existing|e|] c' h' Hc; cbn in Hc; [subst c'|done..]. by repeat well_step.
Qed.

Lemma gw_Reconcile_well c h :
  cs_Spec c = cs_Spec c0 -> (HasPrivateNetwork c = true -> exists id, PrivateNetworkID c = Ok id) ->
  well Vpcgw.Reconcile h c (ends_well (fun _ c' _ => c' = c)).
Proof.
  intros Es Hid. unfold Vpcgw.Reconcile. do 2 go_step.
  destruct (HasPrivateNetwork c) eqn:Ep; [|by go_step].
  destruct (HasPublicGateway c) eqn:Egw; [|by go_step]. cbn [negb orb].
  destruct (HasPublicGateway_spec c Egw) as [spec Espec]. destruct (Hid eq_refl) as [pnID Eid].
  assert (Vpcgw.PublicGateway c0 = Ok spec) as Espec0
    by (unfold Vpcgw.PublicGateway in *; by rewrite <- Es).
  rewrite Espec, Eid. do 3 go_step.
  eapply wpM_mono with (Q := ends_well (fun _ c' _ => c' = c)).
  - destruct (pgs_ID spec); [by go_step|]. unfold Vpcgw.getOrCreateGateway. do 5 go_step.
    well_step; [by repeat go_step|]. rewrite Espec. do 3 go_step.
    eapply wpM_mono; [by apply gw_getOrCreateIP_well|].
    intros [ip|e|] c' h' Hc; cbn in Hc; [subst c'|done..]. by repeat well_step.
  - intros [gatewayID|e|] c' h' Hc; cbn in Hc; [subst c'|done..]. by repeat well_step.
Qed.

(** *** Load balancer *)

Lemma ensureACL_well frontendID name ips deny index c h :
  well (LoadBalancer.ensureACL frontendID name ips deny index) h c
    (ends_well (fun _ c' _ => c' = c)).
Proof. unfold LoadBalancer.ensureACL. by repeat well_step. Qed.

Lemma ensureACLs_well frontend pnID c h :
  well (LoadBalancer.ensureACLs frontend pnID) h c (ends_well (fun _ c' _ => c' = c)).
Proof.
  unfold LoadBalancer.ensureACLs. do 4 go_step.
  eapply wpM_mono; [apply ensureACL_well|]. intros [[]|e|] c' h' Hc; cbn in Hc; [subst c'|done..].
  cbn [outcome_wrap]. go_step. eapply wpM_mono with (Q := ends_well (fun _ c' _ => c' = c)).
  - destruct pnID as [pnID|]; [|by go_step]. destruct (HasPrivateNetwork c); [|by go_step].
    unfold FindGatewaysByPrivateNetworkID. do 3 well_step. apply ensureACL_well.
  - intros [[]|e|] c' h1 Hc; cbn in Hc; [subst c'|done..]. apply ensureACL_well.
Qed.

Lemma keep_last_well {A} (p : A -> bool) (delete : A -> cloud_call) xs c h :
  well (for_fold xs None (fun acc x =>
      if p x then mret (Some x) else _ ← remote (delete x); mret acc)) h c
    (ends_well (fun _ c' _ => c' = c)).
Proof.
  eapply (wpM_for_fold _ _ _ _ _ _ _ (fun _ _ c' _ => c' = c)); [done..|].
  intros acc x ys c' h' -> Hx. by repeat well_step.
Qed.

Lemma ensureBackend_well lb c h :
  well (LoadBalancer.ensureBackend lb) h c (ends_well (fun _ c' _ => c' = c)).
Proof.
  unfold LoadBalancer.ensureBackend. do 3 well_step.
  eapply wpM_mono; [apply keep_last_well|]. intros [r|e|] c' h' Hc; cbn in Hc; [subst c'|done..].
  by repeat well_step.
Qed.

Lemma ensureFrontend_well lb backend c h :
  well (LoadBalancer.ensureFrontend lb backend) h c (ends_well (fun _ c' _ => c' = c)).
Proof.
  unfold LoadBalancer.ensureFrontend. do 3 well_step.
  eapply wpM_mono; [apply keep_last_well|]. intros [r|e|] c' h' Hc; cbn in Hc; [subst c'|done..].
  by repeat well_step.
Qed.

Lemma ensurePrivateNetwork_well lb pnID c h :
  well (LoadBalancer.ensurePrivateNetwork lb pnID) h c (ends_well (fun _ c' _ => c' = c)).
Proof. unfold LoadBalancer.ensurePrivateNetwork. by repeat well_step. Qed.

(** The load balancer that the pass found or created. *)
Definition lb_seen h (lb : LB) : Prop :=
  (exists zone name lbs, ok_ev (ListLBs zone name) lbs ∈ h /\ lb ∈ lbs) \/
  (exists zone name type ipID, ok_ev (CreateLB zone name type ipID) lb ∈ h).

Lemma getOrCreateLB_well zone c h :
  well (LoadBalancer.getOrCreateLB zone) h c
    (ends_well (fun lb c' h' => c' = c /\ usable_lb lb /\ lb_seen h' lb)).
Proof.
  unfold LoadBalancer.getOrCreateLB. do 3 well_step. well_step.
  - go_step. split; [done|]. split; [by apply H|]. left. do 3 eexists. split; [in_trace|done].
  - go_step. eapply wpM_mono with (Q := ends_well (fun _ c' _ => c' = c)).
    + destruct (LoadBalancer.spec_IP c) as [ip|]; [|by go_step]. do 2 go_step.
      eapply finder_wp; [exact I| |by intros ? ? []]. intros ips oa Hav Hf. cbn in Hav.
      destruct Hav as (x & Hin & Ex). destruct oa as [y|e|]; cbn in Hf; [by go_step| |done].
      destruct Hf as [_ Hf]. specialize (Hf _ Hin). cbn in Hf. by rewrite Ex, String_eqb_refl in Hf.
    + intros [ipID|e|] c' h' Hc; cbn in Hc; [subst c'|done..]. well_step.
      split; [done|]. split; [done|]. right. do 4 eexists. in_trace.
Qed.

(** What makes the controller wait. *)
Definition lb_pending h : Prop := exists lb, lb_seen h lb /\ lb_Status lb <> LBStatusReady.

Lemma lb_Reconcile_well c h :
  (HasPrivateNetwork c = true -> exists id, PrivateNetworkID c = Ok id) ->
  well LoadBalancer.Reconcile h c (fun oa c' h' =>
    match oa with
    | Ok _ => True
    | Err e => errors_Is e ErrLoadBalancerNotReady = true /\ lb_pending h'
    | Panic => False
    end).
Proof.
  intros Hid. unfold LoadBalancer.Reconcile. do 3 go_step.
  eapply wpM_mono; [apply getOrCreateLB_well|].
  intros [lb|e|] c' h1 Hc; cbn in Hc; [destruct Hc as (-> & [ip Eip] & Hseen)|done..].
  destruct (bool_decide (lb_Status lb = LBStatusReady)) eqn:Est; cbn [negb].
  2: { go_step. split; [done|]. exists lb. split; [done|]. by apply bool_decide_eq_false in Est. }
  go_step. eapply wpM_mono with (Q := ends_well (fun _ c' _ => c' = c)).
  { destruct (HasPrivateNetwork c); [|by go_step]. destruct (Hid eq_refl) as [id ->].
    by repeat go_step. }
  intros [pnID|e|] c' h2 Hc; cbn in Hc; [subst c'|done..]. go_step.
  eapply wpM_mono; [apply ensurePrivateNetwork_well|].
  intros [[]|e|] c' h3 Hc; cbn in Hc; [subst c'|done..]. do 2 go_step.
  eapply wpM_mono; [apply ensureBackend_well|].
  intros [backend|e|] c' h4 Hc; cbn in Hc; [subst c'|done..]. cbn [outcome_wrap]. do 2 go_step.
  eapply wpM_mono; [apply ensureFrontend_well|].
  intros [frontend|e|] c' h5 Hc; cbn in Hc; [subst c'|done..]. cbn [outcome_wrap]. do 2 go_step.
  eapply wpM_mono; [apply ensureACLs_well|].
  intros [[]|e|] c' h6 Hc; cbn in Hc; [subst c'|done..]. cbn [outcome_wrap]. do 2 go_step.
  rewrite Eip. unfold LoadBalancer.SetControlPlaneEndpoint. by go_step.
Qed.

(** *** The pass *)

Lemma reconcileNormal_well `{!K8sLaws} h :
  valid_cluster (cs_ScalewayCluster c0) -> subnet_parses c0 -> network_known c0 ->
  well reconcileNormal h c0 (fun oa c' h' =>
    (oa = Ok no_requeue /\ sc_Ready c' = true) \/ (oa = Ok requeue_2s /\ lb_pending h')).
Proof.
  intros Hv%valid_cluster_security_groups Hsub Hk. unfold reconcileNormal. do 2 go_step.
  pose proof (AddFinalizer_name (sc_ObjectMeta (cs_ScalewayCluster c0)) ClusterFinalizer) as Hname.
  destruct (AddFinalizer _ _) as [meta added]. simpl in Hname. do 3 go_step.
  set (c1 := set_cs_ObjectMeta meta c0).
  eapply wpM_mono with (Q := ends_well (fun _ c' _ => c' = c1)).
  { destruct added; [|by go_step]. unfold Cluster_PatchObject. by repeat well_step. }
  intros [[]|e|] c' h1 Hc; cbn in Hc; [subst c'|done..]. do 3 go_step.
  set (c2 := set_cs_Status _ c1).
  assert (Cluster_Name c2 = Cluster_Name c0) as Hname2
    by (unfold Cluster_Name; change (om_Name (sc_ObjectMeta (cs_ScalewayCluster c2)))
          with (om_Name meta); by rewrite Hname).
  eapply wpM_mono; [by apply sg_Reconcile_well|].
  intros [[]|e|] c' h2 Hc; cbn in Hc; [subst c'|done..]. do 2 go_step.
  eapply wpM_mono; [by apply vpc_Reconcile_well|].
  intros [[]|e|] c3 h3 Hc; cbn in Hc; [|done..]. cbn [outcome_wrap].
  destruct Hc as (Es & _ & _ & Hid). change (cs_Spec c2) with (cs_Spec c0) in Es.
  change (HasPrivateNetwork c2) with (HasPrivateNetwork c0) in Hid.
  assert (HasPrivateNetwork c3 = HasPrivateNetwork c0) as Ehas
    by (unfold HasPrivateNetwork; by rewrite Es).
  rewrite <- Ehas in Hid. do 2 go_step.
  eapply wpM_mono; [by apply gw_Reconcile_well|].
  intros [[]|e|] c' h4 Hc; cbn in Hc; [subst c'|done..]. cbn [outcome_wrap]. do 2 go_step.
  eapply wpM_mono; [by apply lb_Reconcile_well|].
  intros [[]|e|] c' h5 Hc; cbn in Hc; [| |done].
  - do 3 go_step. by left.
  - destruct Hc as [-> Hp]. go_step. by right.
Qed.
End cluster.

(** C6.  When the environment cooperates, a pass over a cluster that the webhook accepted
    always ends well: the cluster becomes ready, or the load balancer that was found or
    created is not ready yet and another pass is asked for.  So once the load balancer is
    up, the next pass makes the cluster ready.  Two conditions the webhook does not check: the
    subnet of the network has to parse ([subnet_parses]), and a Private Network given by its
    ID has to be recorded in the status ([network_known]), which the provider itself
    never does ([Controllers.existing_network_never_ready]). *)
Theorem cluster_progress `{SDK : ScwSDK} `{K8S : K8sLib} `{!K8sLaws}
    (o : oracle cloud) (c : ClusterScope) :
  admissible (available c) o -> ValidateCreate (cs_ScalewayCluster c) = Ok tt ->
  subnet_parses c -> network_known c ->
  let '(t, (oa, c')) := runM o [] reconcileNormal c in
  (oa = Ok no_requeue /\ becomes_ready c c') \/
  (oa = Ok requeue_2s /\ lb_pending t).
Proof.
  intros Ho Hv Hsub Hk. apply (proj1 (validate_iff _)) in Hv.
  destruct (wpM_sound _ _ o _ _ _ _ Ho (reconcileNormal_well c [] Hv Hsub Hk)) as (t & _ & _ & HQ).
  destruct (wpM_sound _ _ o _ _ _ _ (admissible_any o) (reconcileNormal_ready [] c))
    as (t1 & _ & _ & HR).
  destruct (runM o [] reconcileNormal c) as [t' [oa c']]. simpl in *.
  destruct HQ as [[-> _]|[-> ?]]; [left|by right]. split; [done|]. by destruct HR as [[_ HR]|[? _]].
Qed.

(** ** Deletion *)

(** The calls succeed, but for the deletion of a Private Network that is still in use;
    at most one gateway address has the tags of the cluster. *)
Definition deletable : rely := fun _ call r =>
  match call return resp cloud call -> Prop with
  | DeletePrivateNetwork _ _ => fun r =>
      match r with RErr (PreconditionFailedError _) | ROk _ => True | RErr _ => False end
  | GatewayListIPsByTags _ _ _ => fun r =>
      match r with ROk ips => (length ips <= 1)%nat | RErr _ => False end
  | _ => fun r => match r with ROk _ => True | RErr _ => False end
  end r.

(** The API refused to delete a Private Network in use. *)
Definition network_in_use (h : trace) : Prop :=
  exists region pnID msg, err_ev (DeletePrivateNetwork region pnID) (PreconditionFailedError msg) ∈ h.

Section deletion.
Context `{SDK : ScwSDK} `{K8S : K8sLib}.
Implicit Types (h : trace) (c : ClusterScope).

Abbreviation well := (wpM deletable any_call).

Lemma lb_Delete_well c h : well LoadBalancer.Delete h c (ends_well (fun _ c' _ => c' = c)).
Proof. unfold LoadBalancer.Delete. by repeat well_step. Qed.

Lemma gw_Delete_well c h : well Vpcgw.Delete h c (ends_well (fun _ c' _ => c' = c)).
Proof.
  unfold Vpcgw.Delete. do 2 go_step.
  destruct (HasPrivateNetwork c) eqn:Ep; [|by go_step].
  destruct (HasPublicGateway c) eqn:Egw; [|by go_step]. cbn [negb orb].
  destruct (HasPublicGateway_spec c Egw) as [spec ->]. do 2 go_step.
  destruct (pgs_ID spec); [by go_step|]. do 2 go_step.
  eapply wpM_mono with (Q := ends_well (fun _ c' _ => c' = c)); [by repeat well_step|].
  intros [existing|e|] c' h1 Hc; cbn in Hc; [subst c'|done..]. cbn [outcome_wrap]. go_step.
  eapply wpM_mono with (Q := ends_well (fun _ c' _ => c' = c)); [by repeat well_step|].
  intros [[]|e|] c' h2 Hc; cbn in Hc; [subst c'|done..].
  destruct (pgs_IP spec); [by go_step|]. do 3 go_step.
  eapply finder_wp; [exact I| |by intros ? ? []]. intros ips oa Hav Hf. cbn in Hav.
  destruct oa as [x|e|]; cbn in Hf; [by repeat well_step| |done].
  destruct Hf as [[-> _]|[_ Hlen]]; [by repeat well_step|lia].
Qed.

Lemma vpc_Delete_well c h :
  well Vpc.Delete h c (fun oa c' h' => c' = c /\
    match oa with
    | Ok _ => True
    | Err e => errors_As_PreconditionFailed e = true /\ network_in_use h'
    | Panic => False
    end).
Proof.
  unfold Vpc.Delete. do 2 go_step. destruct (negb _); [by go_step|]. go_step. well_step.
  - apply wpM_remote; [done|done|]. intros [msg|msg|msg] He; cbn in He; [|done..].
    split; [done|]. split; [done|]. do 3 eexists. in_trace.
  - by go_step.
Qed.

Lemma sg_Delete_well c h : well SecurityGroup.Delete h c (ends_well (fun _ c' _ => c' = c)).
Proof.
  unfold SecurityGroup.Delete, SecurityGroup.ensureSecurityGroups,
    SecurityGroup.deleteExtraSecurityGroups. do 6 well_step.
  eapply (wpM_for_each _ _ _ _ _ _ (fun _ c' _ => c' = c)); [done| |].
  - intros c' h' ->. by apply wpM_ret.
  - intros group gs c' h' -> _. by repeat well_step.
Qed.

Lemma reconcileDelete_well c h :
  well reconcileDelete h c (fun oa c' h' =>
    oa = Ok no_requeue \/ (oa = Ok requeue_2s /\ network_in_use h')).
Proof.
  unfold reconcileDelete. go_step. eapply wpM_mono; [apply lb_Delete_well|].
  intros [[]|e|] c' h1 Hc; cbn in Hc; [subst c'|done..]. go_step.
  eapply wpM_mono; [apply gw_Delete_well|].
  intros [[]|e|] c' h2 Hc; cbn in Hc; [subst c'|done..]. do 2 go_step.
  eapply wpM_mono; [apply vpc_Delete_well|].
  intros [[]|e|] c' h3 [-> Hc]; [| |done].
  - go_step. eapply wpM_mono; [apply sg_Delete_well|].
    intros [[]|e|] c' h4 Hc'; cbn in Hc'; [subst c'|done..]. do 3 go_step. by left.
  - destruct Hc as [-> Hu]. go_step. by right.
Qed.
End deletion.

(** C26.  When the environment cooperates, the deletion of a cluster always ends well: the
    finalizer is dropped, everything the provider owns being gone, or the API says that
    the Private Network is still in use and another pass is asked for. *)
Theorem cluster_delete_progress `{SDK : ScwSDK} `{K8S : K8sLib}
    (o : oracle cloud) (c : ClusterScope) :
  admissible deletable o ->
  let '(t, (oa, c')) := runM o [] reconcileDelete c in
  (oa = Ok no_requeue /\ c' = without_finalizer c /\
   lb_gone c t /\ networks_gone c t /\ sgs_gone c t) \/
  (oa = Ok requeue_2s /\ c' = c /\ network_in_use t).
Proof.
  intros Ho. destruct (wpM_sound _ _ o _ _ _ _ Ho (reconcileDelete_well c [])) as (t & _ & _ & HQ).
  destruct (wpM_sound _ _ o _ _ _ _ (admissible_any o) (reconcileDelete_spec c []))
    as (t1 & _ & _ & HR).
  destruct (runM o [] reconcileDelete c) as [t' [oa c']]. simpl in *.
  destruct HQ as [->|[-> ?]]; [left|right].
  - destruct HR as [(_ & -> & ? & ? & ?)|[? _]]; [by split_and!|done].
  - by destruct HR as [(? & _)|[_ ->]].
Qed.

(** ** The sample cluster *)

#[local] Existing Instances sim_sdk sim_k8s sim_k8s_laws.

(** The simulation, in an account that holds nothing but the addresses asked for. *)
Definition demo_available : oracle cloud := fun h call =>
  match call return resp cloud call with
  | ListPrivateNetworks _ _ _ => ROk []
  | ListLBs _ _ => ROk []
  | LBListIPs _ ip _ => ROk [{| lbip_ID := "id-ip"; lbip_IPAddress := ip |}]
  | GatewayListIPsByTags _ _ _ => ROk []
  | call => sim demo_world h call
  end.

Definition demo_plain_scope : ClusterScope := demo_scope demo_cluster.

Lemma demo_is_available : admissible (available demo_plain_scope) demo_available.
Proof.
  intros h call. destruct call; try done; cbn.
  all: repeat match goal with |- context [match ?x with Some _ => _ | None => _ end] =>
         is_var x; destruct x end; try done.
  - by intros ? ?%not_elem_of_nil.
  - eexists. by vm_compute.
  - eexists. split; [apply list_elem_of_here|done].
  - by intros ? ?%not_elem_of_nil.
  - by intros spec addr [= <-].
  - lia.
Qed.

Lemma demo_subnet_parses : subnet_parses demo_plain_scope.
Proof. intros network pn subnet [= <-] [= <-] [= <-]. by vm_compute. Qed.

Lemma cluster_progress_witness :
  (runM demo_available [] reconcileNormal demo_plain_scope).2.1 = Ok no_requeue /\
  becomes_ready demo_plain_scope (runM demo_available [] reconcileNormal demo_plain_scope).2.2.
Proof.
  assert ((runM demo_available [] reconcileNormal demo_plain_scope).2.1 = Ok no_requeue) as E
    by (vm_compute; reflexivity).
  split; [exact E|].
  assert (network_known demo_plain_scope) as Hk by (intros _; left; vm_compute; reflexivity).
  assert (ValidateCreate (cs_ScalewayCluster demo_plain_scope) = Ok tt) as Hv
    by (vm_compute; reflexivity).
  pose proof (cluster_progress demo_available demo_plain_scope demo_is_available Hv
    demo_subnet_parses Hk) as H.
  revert E H. destruct (runM _ _ _ _) as [t [oa c']]; cbn [fst snd].
  intros -> [[_ H]|[E _]]; [exact H|discriminate E].
Defined.

Definition demo_deletable : oracle cloud := fun h call =>
  match call return resp cloud call with
  | GatewayListIPsByTags _ _ _ => ROk [sim_gateway_ip "id-gip"]
  | call => sim demo_world h call
  end.

Lemma demo_is_deletable : admissible deletable demo_deletable.
Proof.
  intros h call. destruct call; try done; cbn.
  all: repeat match goal with |- context [match ?x with Some _ => _ | None => _ end] =>
         is_var x; destruct x end; done || lia.
Qed.

Lemma cluster_delete_progress_witness :
  let '(t, (oa, c')) := runM demo_deletable [] reconcileDelete demo_plain_scope in
  (oa = Ok no_requeue /\ c' = without_finalizer demo_plain_scope /\
   lb_gone demo_plain_scope t /\ networks_gone demo_plain_scope t /\
   sgs_gone demo_plain_scope t) \/
  (oa = Ok requeue_2s /\ c' = demo_plain_scope /\ network_in_use t).
Proof. exact (cluster_delete_progress demo_deletable demo_plain_scope demo_is_deletable). Defined.
