(* ===== verification/MachineProgress.v ===== *)
(** * Progress of a machine

    When its environment cooperates, a pass over a machine brings its server up, or waits
    for the infrastructure, the bootstrap data or the private address; and its deletion
    always removes the finalizer. *)

From S2P Require Import Prelude Go Net Prog Sdk Types Cloud Ledger Scope Client.
From S2P Require Import LoadBalancer Instance ClusterController.
From S2P Require MachineController.
From S2P Require Import Simulation NoDuplicates Bringup Teardown Controllers MachinePass Progress.
#[local] Open Scope caps_scope.

Section machine.
Context `{SDK : ScwSDK} `{K8S : K8sLib}.

(** The bootstrap data is a template that executes, for any address and provider ID. *)
Definition renders (raw : string) : Prop :=
  forall nodeIP providerID, exists s, patchBootstrapData raw nodeIP providerID = Ok s.

(** The calls succeed; at most one flexible IP has the tags of the machine; the security
    group, the load balancer, its backend and its frontend exist; the secret that the machine names
    holds bootstrap data, which renders; and a server has a public address when the cluster
    has no Private Network. *)
Definition machine_available (m0 : MachineScope) : rely := fun _ call r =>
  match r with
  | RErr _ => False
  | ROk x =>
      match call return cloud_val call -> Prop with
      | InstanceListIPs _ _ => fun ips => (length ips <= 1)%nat
      | ListSecurityGroups _ (Some name) _ _ => fun xs => exists x, x ∈ xs /\ isg_Name x = name
      | ListLBs _ (Some name) => fun xs => exists x, x ∈ xs /\ lb_Name x = name
      | ListBackends _ _ (Some name) => fun xs => exists x, x ∈ xs /\ be_Name x = name
      | ListFrontends _ _ (Some name) => fun xs => exists x, x ∈ xs /\ fe_Name x = name
      | GetSecret key => fun s => m_DataSecretName (ms_Machine m0) = Some (nn_Name key) ->
          exists raw, sec_Data s !! "value"%string = Some raw /\ renders raw
      | ListServers _ _ => fun xs => forall x, x ∈ xs ->
          HasPrivateNetwork (ms_Cluster m0) = false -> srv_PublicIP x <> None
      | CreateServer _ => fun x =>
          HasPrivateNetwork (ms_Cluster m0) = false -> srv_PublicIP x <> None
      | _ => fun _ => True
      end x
  end.

Context (m0 : MachineScope).
Implicit Types (h : trace) (m : MachineScope).

Abbreviation well := (wpM (machine_available m0) any_call).

(** What the pass needs of the objects: a root volume type that exists, and a Private
    Network that is recorded. *)
Definition root_volume_known m : Prop :=
  exists v, ScalewayRootVolumeType (sm_Spec (ms_ScalewayMachine m)) = Ok v.

Definition network_recorded m : Prop :=
  HasPrivateNetwork (ms_Cluster m) = true -> exists id, PrivateNetworkID (ms_Cluster m) = Ok id.

(** A lookup by name of what exists finds it. *)
Lemma found_exists {A} (name : A -> string) n (xs : list A) oa :
  (exists x, x ∈ xs /\ name x = n) -> found (fun x => name x =?s n) xs oa ->
  exists x, oa = Ok x.
Proof.
  intros (x & Hin & En) Hf. destruct oa as [y|e|]; [by exists y| |done].
  destruct Hf as [_ Hf]. specialize (Hf _ Hin). cbn in Hf. by rewrite En, String_eqb_refl in Hf.
Qed.

Lemma inst_getOrCreateIP_well m h :
  well Instance.getOrCreateIP h m (ends_well (fun _ m' _ => m' = m)).
Proof.
  unfold Instance.getOrCreateIP. do 2 go_step. destruct (negb _); [by go_step|]. do 2 go_step.
  eapply finder_wp; [exact I| |by intros ? ? []]. intros ips oa Hav Hf. cbn in Hav.
  destruct oa as [x|e|]; cbn in Hf; [by repeat well_step| |done].
  destruct Hf as [[-> _]|[_ Hlen]]; [by repeat well_step|lia].
Qed.

(** The server has an address. *)
Definition addressed (server : Server) : Prop :=
  HasPrivateNetwork (ms_Cluster m0) = false -> srv_PublicIP server <> None.

Lemma getOrCreateServer_well m ip h :
  root_volume_known m ->
  well (Instance.getOrCreateServer ip) h m (ends_well (fun server m' _ => m' = m /\ addressed server)).
Proof.
  intros [v Ev]. unfold Instance.getOrCreateServer. do 3 go_step.
  well_step; [go_step; split; [done|]; intros Hp; by apply (H x)|]. go_step.
  eapply wpM_mono with (Q := ends_well (fun _ m' _ => m' = m)).
  { destruct (negb _); [|by go_step]. by repeat well_step. }
  intros [image|e|] m' h1 Hc; cbn in Hc; [subst m'|done..]. go_step.
  eapply wpM_mono with (Q := ends_well (fun _ m' _ => m' = m)).
  { destruct (sms_SecurityGroupName _) as [name|]; [|by go_step]. do 2 go_step.
    eapply finder_wp; [exact I| |by intros ? ? []]. intros groups oa Hav Hf.
    apply (found_exists isg_Name) in Hf as [group ->]; [|exact Hav]. cbn [outcome_wrap]. by go_step. }
  intros [group|e|] m' h2 Hc; cbn in Hc; [subst m'|done..]. rewrite Ev. do 2 go_step.
  go_step. well_step. by split.
Qed.

Lemma getOrCreatePrivateNIC_well m server h :
  network_recorded m ->
  well (Instance.getOrCreatePrivateNIC server) h m (ends_well (fun pnic m' _ =>
    m' = m /\ is_some pnic = HasPrivateNetwork (ms_Cluster m))).
Proof.
  intros Hn. unfold Instance.getOrCreatePrivateNIC. do 2 go_step.
  destruct (HasPrivateNetwork _) eqn:Ep; cbn [negb]; [|by go_step].
  destruct (Hn Ep) as [id ->]. by repeat well_step.
Qed.

Lemma getMachineIPs_well m server pnic h :
  addressed server -> HasPrivateNetwork (ms_Cluster m) = HasPrivateNetwork (ms_Cluster m0) ->
  is_some pnic = HasPrivateNetwork (ms_Cluster m) ->
  well (Instance.getMachineIPs server pnic) h m (fun oa m' _ => m' = m /\
    match oa with
    | Ok ips => exists ip, NodeIP ips = Ok ip
    | Err e => e = Sentinel ErrPrivateIPNotFound
    | Panic => False
    end).
Proof.
  intros Ha Ep Hp. unfold Instance.getMachineIPs. do 3 go_step. destruct pnic as [pnic|].
  - go_step. go_step. eapply finder_wp; [exact I| |by intros ? ? []].
    intros ips oa _ Hf. destruct oa as [x|e|]; cbn in Hf; [| |done].
    + do 2 go_step; [by rewrite andb_false_r in Heqb|]. go_step. split; [done|]. by eexists.
    + destruct Hf as [-> _]. by go_step.
  - go_step. cbn in Hp. rewrite <- Hp in Ep. specialize (Ha (eq_sym Ep)).
    destruct (srv_PublicIP server); [|done]. cbn. split; [done|]. by eexists.
Qed.

Lemma FindLoadBalancerByName_well m zone name h :
  well (FindLoadBalancerByName zone name) h m (ends_well (fun _ m' _ => m' = m)).
Proof.
  eapply finder_wp; [exact I| |by intros ? ? []]. intros lbs oa Hav Hf.
  by apply (found_exists lb_Name) in Hf as [lb ->]; [|exact Hav].
Qed.

Lemma FindLoadBalancerBackend_well m zone lbName name h :
  well (FindLoadBalancerBackendByNames zone lbName name) h m (ends_well (fun _ m' _ => m' = m)).
Proof.
  unfold FindLoadBalancerBackendByNames. go_step. go_use FindLoadBalancerByName_well.
  intros [lb|e|] m' h' Hc; cbn in Hc; [subst m'|done..]. go_step.
  apply wpM_remote; [exact I| |by intros ? []]. intros xs Hav.
  apply wp_first_match. intros oa Hf. by apply (found_exists be_Name) in Hf as [b ->]; [|exact Hav].
Qed.

Lemma FindLoadBalancerFrontend_well m zone lbName name h :
  well (FindLoadBalancerFrontendByNames zone lbName name) h m (ends_well (fun _ m' _ => m' = m)).
Proof.
  unfold FindLoadBalancerFrontendByNames. go_step. go_use FindLoadBalancerByName_well.
  intros [lb|e|] m' h' Hc; cbn in Hc; [subst m'|done..]. go_step.
  apply wpM_remote; [exact I| |by intros ? []]. intros xs Hav.
  apply wp_first_match. intros oa Hf. by apply (found_exists fe_Name) in Hf as [f ->]; [|exact Hav].
Qed.

Lemma ensureControlPlaneLoadBalancer_well m ips deletion h :
  (exists ip, NodeIP ips = Ok ip) ->
  well (Instance.ensureControlPlaneLoadBalancer ips deletion) h m (ends_well (fun _ m' _ => m' = m)).
Proof.
  intros [ip Eip]. unfold Instance.ensureControlPlaneLoadBalancer. do 2 go_step.
  destruct (negb _); [by go_step|]. do 2 go_step.
  eapply wpM_mono; [apply FindLoadBalancerBackend_well|].
  intros [backend|e|] m' h' Hc; cbn in Hc; [subst m'|done..]. cbn [outcome_wrap].
  rewrite Eip. by repeat well_step.
Qed.

Lemma ensureLoadBalancerACL_well m publicIP h :
  well (Instance.ensureLoadBalancerACL publicIP) h m (ends_well (fun _ m' _ => m' = m)).
Proof.
  unfold Instance.ensureLoadBalancerACL. do 4 go_step.
  eapply wpM_mono; [apply FindLoadBalancerFrontend_well|].
  intros [frontend|e|] m' h' Hc; cbn in Hc; [subst m'|done..]. cbn [outcome_wrap].
  by repeat well_step.
Qed.

(** The two errors that make the controller wait. *)
Definition waiting_error (e : error) : Prop :=
  e = Sentinel ErrPrivateIPNotFound \/ e = Sentinel ErrBootstrapDataNotReady.

Lemma ensureCloudInit_well m server ips h :
  ms_Machine m = ms_Machine m0 -> (exists ip, NodeIP ips = Ok ip) ->
  well (Instance.ensureCloudInit server ips) h m (fun oa m' _ => m' = m /\
    match oa with Ok _ => True | Err e => waiting_error e | Panic => False end).
Proof.
  intros Em [ip Eip]. unfold Instance.ensureCloudInit. do 2 go_step.
  destruct (negb _); [by go_step|]. do 2 well_step.
  destruct (a !! _); [by go_step|]. unfold GetRawBootstrapData. do 3 go_step.
  destruct (m_DataSecretName _) eqn:Ename; [|go_step; split; [done|by right]]. go_step. well_step.
  destruct H0 as (raw & Eraw & Hr); [by rewrite <- Em|]. rewrite Eraw. go_step. rewrite Eip. do 3 go_step.
  destruct (Hr ip (ProviderID m (srv_ID server))) as [s' Es]. rewrite Es.
  by repeat well_step.
Qed.

Lemma ensureServerStarted_well m server h :
  well (Instance.ensureServerStarted server) h m (ends_well (fun _ m' _ => m' = m)).
Proof. unfold Instance.ensureServerStarted. by repeat well_step. Qed.

Lemma Instance_Reconcile_well m h :
  root_volume_known m -> network_recorded m -> ms_Cluster m = ms_Cluster m0 ->
  ms_Machine m = ms_Machine m0 ->
  well Instance.Reconcile h m (fun oa _ _ =>
    match oa with Ok _ => True | Err e => waiting_error e | Panic => False end).
Proof.
  intros Hv Hn Ec Em. unfold Instance.Reconcile. go_step. go_use inst_getOrCreateIP_well.
  intros [ip|e|] m' h1 Hc; cbn in Hc; [subst m'|done..]. go_step.
  eapply wpM_mono; [by apply getOrCreateServer_well|].
  intros [server|e|] m' h2 Hc; cbn in Hc; [destruct Hc as [-> Ha]|done..]. go_step.
  eapply wpM_mono; [by apply getOrCreatePrivateNIC_well|].
  intros [pnic|e|] m' h3 Hc; cbn in Hc; [destruct Hc as [-> Hp]|done..]. go_step.
  eapply wpM_mono; [apply getMachineIPs_well; [done|by rewrite Ec|done]|].
  intros [ips|e|] m' h4 [-> Hips]; [|by left|done]. go_step.
  eapply wpM_mono; [by apply ensureControlPlaneLoadBalancer_well|].
  intros [[]|e|] m' h5 Hc; cbn in Hc; [subst m'|done..]. go_step.
  go_use ensureLoadBalancerACL_well.
  intros [[]|e|] m' h6 Hc; cbn in Hc; [subst m'|done..]. go_step.
  eapply wpM_mono; [by apply ensureCloudInit_well|].
  intros [[]|e|] m' h7 [-> Hc]; [|done..]. go_step. go_use ensureServerStarted_well.
  intros [[]|e|] m' h8 Hc'; cbn in Hc'; [subst m'|done..]. unfold setMachine. by go_step.
Qed.

Lemma machine_reconcileNormal_well h :
  root_volume_known m0 -> network_recorded m0 ->
  well MachineController.reconcileNormal h m0 (ends_well (fun _ _ _ => True)).
Proof.
  intros Hv Hn. unfold MachineController.reconcileNormal. do 2 go_step.
  destruct (AddFinalizer _ _) as [meta added]. do 3 go_step.
  set (m1 := MachineController.set_ms_ObjectMeta meta m0).
  eapply wpM_mono with (Q := ends_well (fun _ m' _ => m' = m1)).
  { destruct added; [|by go_step]. unfold Machine_PatchObject. by repeat well_step. }
  intros [[]|e|] m' h1 Hc; cbn in Hc; [subst m'|done..].
  destruct (negb _); [by go_step|]. do 2 go_step.
  eapply wpM_mono; [by apply Instance_Reconcile_well|].
  intros [[]|e|] m' h2 Hc; [by repeat go_step| |done].
  destruct Hc as [-> | ->]; by go_step.
Qed.
End machine.

(** C12.  When the environment cooperates, a pass over a machine always ends well: the server
    is up and the machine is ready, or another pass is asked for because the
    infrastructure of the cluster, the address in the Private Network or the bootstrap
    data is still missing.  The environment cooperates when its calls succeed, what the
    machine refers to exists, and the bootstrap data of this machine, if there is any, is a
    template that executes.  The object has to have a root volume of a known type, and a
    cluster whose Private Network, if it has one, was recorded with its ID. *)
Theorem machine_progress `{SDK : ScwSDK} `{K8S : K8sLib} (o : oracle cloud) (m : MachineScope) :
  admissible (machine_available m) o ->
  root_volume_known m -> network_recorded m ->
  let '(t, (oa, m')) := runM o [] MachineController.reconcileNormal m in
  (oa = Ok no_requeue /\ machine_ready_with t (protected_machine m) m') \/
  (oa = Ok requeue_2s /\ m' = protected_machine m /\ machine_waits t (protected_machine m)).
Proof.
  intros Ho Hv Hn.
  destruct (wpM_sound _ _ o _ _ _ _ Ho (machine_reconcileNormal_well m [] Hv Hn))
    as (t & _ & _ & HQ).
  destruct (wpM_sound _ _ o _ _ _ _ (admissible_any o) (machine_reconcileNormal_spec m []))
    as (t1 & _ & _ & HR).
  destruct (runM o [] MachineController.reconcileNormal m) as [t' [[r|e|] m']]; [|done..].
  by destruct HR as [[-> ?]|(-> & ?)]; [left|right].
Qed.

(** ** Deletion *)

(** The calls succeed; the server of the machine has a private NIC in the Private Network
    of the cluster, and IPAM an address for it. *)
Definition machine_deletable (m0 : MachineScope) : rely := fun _ call r =>
  match r with
  | RErr _ => False
  | ROk x =>
      match call return cloud_val call -> Prop with
      | ListPrivateNICs _ _ => fun nics => forall pnID, PrivateNetworkID (ms_Cluster m0) = Ok pnID ->
          exists nic, nic ∈ nics /\ nic_PrivateNetworkID nic = pnID
      | IPAMListIPs _ _ _ => fun ips => ips <> []
      | _ => fun _ => True
      end x
  end.

Section deletion.
Context `{SDK : ScwSDK} `{K8S : K8sLib}.
Context (m : MachineScope).
Implicit Types (h : trace).

Abbreviation well := (wpM (machine_deletable m) any_call).

(** The object is untouched and the only errors are those of a lookup that finds nothing. *)
Definition done_or_absent {A} (P : A -> Prop) : outcome A -> MachineScope -> trace -> Prop :=
  fun oa m' _ => m' = m /\
    match oa with
    | Ok a => P a
    | Err e => errors_Is e ErrNoItemFound = true
    | Panic => False
    end.

Ltac absent_leaf :=
  try match goal with H : _ = Sentinel _ /\ _ |- _ => destruct H as [-> _] end; by split.

Lemma dereg_backend_well ips h :
  (exists ip, NodeIP ips = Ok ip) ->
  well (Instance.ensureControlPlaneLoadBalancer ips true) h m (done_or_absent (fun _ => True)).
Proof.
  intros [ip Eip]. unfold Instance.ensureControlPlaneLoadBalancer, FindLoadBalancerBackendByNames.
  repeat first [rewrite Eip | well_step]; absent_leaf.
Qed.

Lemma dereg_acl_well h :
  well (Instance.ensureLoadBalancerACL None) h m (done_or_absent (fun _ => True)).
Proof.
  unfold Instance.ensureLoadBalancerACL, FindLoadBalancerFrontendByNames.
  repeat well_step; absent_leaf.
Qed.

Lemma dereg_ips_well server pnic h :
  well (unless_Is errMachineHasNoIP (Instance.getMachineIPs server pnic)) h m
    (ends_well (fun oips m' _ => m' = m /\
      match oips with Some ips => exists ip, NodeIP ips = Ok ip | None => True end)).
Proof.
  apply wpM_unless_Is. unfold Instance.getMachineIPs. do 3 go_step. destruct pnic as [pnic|].
  - do 2 go_step. eapply finder_wp; [exact I| |by intros ? ? []].
    intros ips oa Hav Hf. cbn in Hav. destruct oa as [x|e|]; cbn in Hf; [| |done].
    + do 2 go_step; [by rewrite andb_false_r in Heqb|]. go_step. split; [done|]. by eexists.
    + destruct Hf as [_ Hf]. destruct ips as [|x ips]; [done|].
      by specialize (Hf x (list_elem_of_here _ _)).
  - go_step. destruct (srv_PublicIP server); cbn; [|done]. split; [done|]. by eexists.
Qed.

Definition deregistered : outcome unit -> MachineScope -> trace -> Prop :=
  ends_well (fun _ m' _ => m' = m).

Lemma absent_unless {A} (x : GoC MachineScope A) h :
  well x h m (done_or_absent (fun _ => True)) ->
  well (unless_Is ErrNoItemFound x) h m (ends_well (fun _ m' _ => m' = m)).
Proof.
  intros Hx. apply wpM_unless_Is. eapply wpM_mono; [exact Hx|].
  by intros [a|e|] m' h' [-> Hc]; [|rewrite Hc|].
Qed.

Lemma deregister_well server h :
  network_recorded m ->
  well (Instance.deregisterControlPlane server) h m deregistered.
Proof.
  intros Hn. unfold Instance.deregisterControlPlane. do 2 go_step.
  destruct (negb _); [by go_step|]. go_step.
  eapply wpM_mono with (Q := ends_well (fun _ m' _ => m' = m)).
  { destruct (HasPrivateNetwork _) eqn:Ep; [|by go_step]. destruct (Hn Ep) as [pnID Eid].
    rewrite Eid. do 4 go_step. eapply finder_wp; [exact I| |by intros ? ? []].
    intros nics oa Hav Hf. cbn in Hav. apply (found_exists nic_PrivateNetworkID) in Hf as [nic ->];
      [by go_step|by apply Hav]. }
  intros [pnic|e|] m' h1 Hc; cbn in Hc; [subst m'|done..]. do 2 go_step.
  go_use dereg_ips_well. intros [[ips|]|e|] m' h2 Hc; cbn in Hc; [destruct Hc as [-> Hip]..|done|done];
    cbn [outcome_wrap].
  - go_step. eapply wpM_mono; [by apply absent_unless, dereg_backend_well|].
    intros [a|e|] m' h3 Hc; cbn in Hc; [subst m'|done..]. by go_step.
  - by go_step.
Qed.

Lemma Instance_Delete_well h :
  network_recorded m -> well Instance.Delete h m deregistered.
Proof.
  intros Hn. unfold Instance.Delete. do 3 go_step. well_step; [|by go_step]. go_step.
  eapply wpM_mono; [apply absent_unless, dereg_acl_well|].
  intros [a|e|] m' h1 Hc; cbn in Hc; [subst m'|done..]. go_step.
  eapply wpM_mono; [by apply deregister_well|].
  intros [[]|e|] m' h2 Hc; cbn in Hc; [subst m'|done..]. go_step.
  eapply wpM_mono with (Q := deregistered).
  { by repeat well_step. }
  intros [[]|e|] m' h3 Hc; cbn in Hc; [subst m'|done..]. go_step.
  eapply wpM_mono with (Q := deregistered).
  { eapply (wpM_for_each _ _ _ _ _ _ (fun _ m' _ => m' = m)); [done..|].
    intros [k vol] vols m' h4 -> _. by repeat well_step. }
  intros [[]|e|] m' h4 Hc; cbn in Hc; [subst m'|done..]. by repeat well_step.
Qed.
End deletion.

(** C27.  When the environment cooperates, the deletion of a machine ends in one pass: the
    finalizer is dropped, and the server, if one of its name was listed, is deleted or
    terminated.  The ID of the Private Network of the cluster has to be recorded. *)
Theorem machine_delete_progress `{SDK : ScwSDK} `{K8S : K8sLib}
    (o : oracle cloud) (m : MachineScope) :
  admissible (machine_deletable m) o -> network_recorded m ->
  let '(t, (oa, m')) := runM o [] MachineController.reconcileDelete m in
  oa = Ok no_requeue /\
  m' = MachineController.set_ms_ObjectMeta
    (RemoveFinalizer (sm_ObjectMeta (ms_ScalewayMachine m)) MachineFinalizer).1 m /\
  (no_server t m \/ exists server, found_server t m server /\
    (ok_ev (DeleteServer (srv_Zone server) (srv_ID server)) tt ∈ t \/
     ok_ev (ServerAction (srv_Zone server) (srv_ID server) ServerActionTerminate) tt ∈ t)).
Proof.
  intros Ho Hn.
  assert (wpM (machine_deletable m) any_call MachineController.reconcileDelete [] m (fun oa m' h' =>
    oa = Ok no_requeue /\
    m' = MachineController.set_ms_ObjectMeta
      (RemoveFinalizer (sm_ObjectMeta (ms_ScalewayMachine m)) MachineFinalizer).1 m /\
    (no_server h' m \/ exists server, found_server h' m server /\
      (ok_ev (DeleteServer (srv_Zone server) (srv_ID server)) tt ∈ h' \/
       ok_ev (ServerAction (srv_Zone server) (srv_ID server) ServerActionTerminate) tt ∈ h'))))
    as Hwp.
  { unfold MachineController.reconcileDelete. go_step.
    eapply wpM_mono.
    { eapply wpM_conj; [by apply Instance_Delete_well|].
      eapply wpM_any, Instance_Delete_free. }
    intros [[]|e|] m' h1 [Hc [-> H]]; [|done..]. by do 3 go_step. }
  destruct (wpM_sound _ _ o _ _ _ _ Ho Hwp) as (t & _ & _ & HQ).
  by destruct (runM o [] MachineController.reconcileDelete m) as [t' [oa m']].
Qed.

(** ** A control-plane machine without an address *)

(** The server of the machine is listed, and IPAM has no address for its private NIC. *)
Definition no_address (m0 : MachineScope) : rely := fun _ call r =>
  match r with
  | RErr _ => True
  | ROk x =>
      match call return cloud_val call -> Prop with
      | ListServers zone name => fun xs => zone = Machine_Zone m0 -> name = Some (Machine_Name m0) ->
          exists server, server ∈ xs /\ srv_Name server = Machine_Name m0
      | IPAMListIPs _ _ _ => fun ips => ips = []
      | _ => fun _ => True
      end x
  end.

(** The calls change nothing, but the deletion of the ACL of the machine. *)
Definition only_own_acl (m : MachineScope) : guarantee := fun h call =>
  mutates call = false \/
  exists acl, listed_acl h m acl /\ call = DeleteACL (LoadBalancerZone (ms_Cluster m)) (acl_ID acl).

Section stuck.
Context `{SDK : ScwSDK} `{K8S : K8sLib}.
Context (m : MachineScope).
Implicit Types (h : trace).

Abbreviation stuck_wp := (wpM (no_address m) (only_own_acl m)).

Lemma deregister_stuck server h :
  IsControlPlaneMachine (ms_Machine m) = true -> HasPrivateNetwork (ms_Cluster m) = true ->
  stuck_wp (Instance.deregisterControlPlane server) h m (fun oa m' _ =>
    m' = m /\ forall u, oa <> Ok u).
Proof.
  intros Ec Ep. unfold Instance.deregisterControlPlane. do 2 go_step. rewrite Ec. cbn [negb].
  rewrite Ep. do 2 go_step.
  destruct (PrivateNetworkID _) as [pnID|e|]; go_step; [|by split..]. do 2 go_step. eapply finder_wp; [by left| |].
  2: { intros e e' _ _. by split. }
  intros nics oa _ Hf. destruct oa as [nic|e|]; [|by split..]. cbn [outcome_wrap].
  do 3 go_step. apply wpM_unless_Is. unfold Instance.getMachineIPs. do 5 go_step.
  eapply finder_wp; [by left| |].
  - intros ips oa Hav Hf'. cbn in Hav. subst ips.
    destruct oa as [ip|e|]; cbn in Hf'; [by destruct Hf' as [?%not_elem_of_nil _]| |done].
    destruct Hf' as [-> _]. cbn. by split.
  - intros e e' _ He. cbn. destruct (errors_Is e' ErrNoItemFound); cbn; [by split|].
    rewrite He. by split.
Qed.

Lemma dereg_acl_stuck h :
  stuck_wp (unless_Is ErrNoItemFound (Instance.ensureLoadBalancerACL None)) h m
    (fun oa m' _ => m' = m).
Proof.
  unfold Instance.ensureLoadBalancerACL, FindLoadBalancerFrontendByNames.
  repeat exec_step ltac:(first [by left|idtac]); try done.
  right. exists x. split; [|done]. kill_units. destruct_and?.
  apply listed_acl_intro; [|done..]. by apply listed_frontend_intro.
Qed.

Lemma Delete_stuck h :
  IsControlPlaneMachine (ms_Machine m) = true -> HasPrivateNetwork (ms_Cluster m) = true ->
  stuck_wp Instance.Delete h m (fun oa m' _ => m' = m /\ forall u, oa <> Ok u).
Proof.
  intros Ec Ep. unfold Instance.Delete. do 3 go_step.
  eapply finder_unless_Is; [apply _|intros ? ? HH; exact HH|by left|..].
  - intros servers server _ _ _. go_step. go_use dereg_acl_stuck.
    intros [a|e|] m' h1 ->; [|by split..]. go_step.
    eapply wpM_mono; [by apply deregister_stuck|].
    intros [[]|e|] m' h2 [-> H]; [by destruct (H tt)|by split..].
  - intros servers Hav Hno. cbn in Hav. destruct (Hav eq_refl eq_refl) as (server & Hin & En).
    specialize (Hno _ Hin). cbn in Hno. by rewrite En, String_eqb_refl in Hno.
  - intros e e' _ _. by split.
Qed.
End stuck.

(** C36.  While the server of a control-plane machine of a cluster with a Private Network has
    no address in IPAM, because its private NIC was not created or got none, no deletion
    pass ends: every one of them fails and keeps the finalizer.  Nor does any of them change
    anything in the project, but for the deletion of the ACL listed under the name of
    the machine on the control-plane frontend: server, volumes, address and entry
    in the backend pool stay. *)
Theorem unaddressed_control_plane_stays `{SDK : ScwSDK} `{K8S : K8sLib}
    (o : oracle cloud) (m : MachineScope) :
  IsControlPlaneMachine (ms_Machine m) = true -> HasPrivateNetwork (ms_Cluster m) = true ->
  admissible (no_address m) o ->
  let '(t, (oa, m')) := runM o [] MachineController.reconcileDelete m in
  (forall r, oa <> Ok r) /\ m' = m /\
  forall t1 call r t2, t = t1 ++ CEv call r :: t2 -> only_own_acl m t1 call.
Proof.
  intros Ec Ep Ho.
  assert (wpM (no_address m) (only_own_acl m) MachineController.reconcileDelete [] m (fun oa m' _ =>
    m' = m /\ forall u, oa <> Ok u)) as Hwp.
  { unfold MachineController.reconcileDelete. go_step.
    eapply wpM_mono; [by apply Delete_stuck|].
    intros [[]|e|] m' h1 [-> H]; [by destruct (H tt)|by split..]. }
  destruct (wpM_sound _ _ o _ _ _ _ Ho Hwp) as (t & Et & Hob & HQ).
  destruct (runM o [] MachineController.reconcileDelete m) as [t' [oa m']].
  destruct HQ as [? ?]. simpl in *. subst t'. split_and!; [done|done|].
  intros t1 call r t2 E. apply (Hob t1 _ r t2 E).
Qed.

(** ** The sample machine *)

#[local] Existing Instances sim_sdk sim_k8s.

(** The simulation, in a project whose cluster is up, and where the server runs on. *)
Definition demo_up : oracle cloud := fun h call =>
  match call return resp cloud call with
  | InstanceListIPs _ _ => ROk []
  | ListSecurityGroups zone (Some name) _ _ => ROk [sim_sg zone name "id-sg"]
  | ListLBs zone (Some name) => ROk [sim_lb zone name "id-lb"]
  | ListBackends _ _ (Some name) => ROk [sim_backend h name "id-backend"]
  | ListFrontends _ _ (Some name) => ROk [sim_frontend name "id-frontend"]
  | ListPrivateNICs _ _ => ROk [{| nic_ID := "id-nic"; nic_PrivateNetworkID := "id-14" |}]
  | call => sim demo_world h call
  end.

(** The machine, in a cluster whose Private Network is recorded. *)
Definition demo_up_scope : MachineScope :=
  {| ms_Cluster := set_cs_ScalewayCluster
       (set_sc_Status {| scst_Ready := true; scst_FailureDomains := ∅;
           scst_Network := Some {| nst_PrivateNetworkID := Some "id-14"%string;
                                   nst_PublicGatewayID := None |} |} demo_cluster)
       demo_plain_scope;
     ms_ScalewayMachine := demo_machine; ms_Machine := w_Machine demo_world |}.

Ltac demo_rely :=
  intros h call; destruct call; try done; cbn;
  repeat match goal with |- context [match ?x with Some _ => _ | None => _ end] =>
    is_var x; destruct x end; try done.

Lemma demo_is_up : admissible (machine_available demo_up_scope) demo_up.
Proof.
  demo_rely; try by eexists; split; [apply list_elem_of_here|].
  all: try lia.
  intros _. eexists. split; [by vm_compute|]. intros ip id. eexists. vm_compute. reflexivity.
Qed.

(** Not every text is a template. *)
Lemma demo_not_all_render : ~ renders "[[[.NodeIP"%string.
Proof. intros H. by destruct (H EmptyString EmptyString). Qed.

Lemma machine_progress_witness :
  (runM demo_up [] MachineController.reconcileNormal demo_up_scope).2.1 = Ok no_requeue /\
  exists server ips,
    (runM demo_up [] MachineController.reconcileNormal demo_up_scope).2.2 =
    MachineController.set_ms_Ready (brought_up (protected_machine demo_up_scope) server ips).
Proof.
  assert ((runM demo_up [] MachineController.reconcileNormal demo_up_scope).2.1 = Ok no_requeue)
    as E by (vm_compute; reflexivity).
  split; [exact E|].
  assert (root_volume_known demo_up_scope) as Hv by (eexists; vm_compute; reflexivity).
  assert (network_recorded demo_up_scope) as Hn by (intros _; eexists; vm_compute; reflexivity).
  pose proof (machine_progress demo_up demo_up_scope demo_is_up Hv Hn) as H.
  revert E H. destruct (runM _ _ _ _) as [t [oa m']]; cbn [fst snd].
  intros -> [[_ (_ & server & ips & _ & _ & H & _)]|[E _]]; [|discriminate E].
  exists server, ips. exact H.
Defined.

(** The server of the machine is listed, and IPAM has [ips] for it. *)
Definition demo_listed (ips : list IPNet) : oracle cloud := fun h call =>
  match call return resp cloud call with
  | ListServers zone _ => ROk [sim_server h zone (Machine_Name demo_up_scope) "id-server"]
  | IPAMListIPs _ _ _ => ROk ips
  | call => demo_up h call
  end.

Definition demo_address : list IPNet :=
  [{| IPNet_IP := [10; 0; 0; 5]; IPNet_Mask := [255; 255; 255; 0] |}].

Lemma demo_listed_deletable : admissible (machine_deletable demo_up_scope) (demo_listed demo_address).
Proof. demo_rely. intros pnID [= <-]. by eexists; split; [apply list_elem_of_here|]. Qed.

Lemma machine_delete_progress_witness :
  (runM (demo_listed demo_address) [] MachineController.reconcileDelete demo_up_scope).2.1 =
  Ok no_requeue.
Proof.
  assert (network_recorded demo_up_scope) as Hn by (intros _; eexists; vm_compute; reflexivity).
  pose proof (machine_delete_progress (demo_listed demo_address) demo_up_scope
    demo_listed_deletable Hn) as H.
  revert H. destruct (runM _ _ _ _) as [t [oa m']]; cbn [fst snd]. intros [H _]. exact H.
Defined.

Lemma demo_listed_no_address : admissible (no_address demo_up_scope) (demo_listed []).
Proof. demo_rely. by eexists; split; [apply list_elem_of_here|]. Qed.

Lemma unaddressed_control_plane_stays_witness :
  (runM (demo_listed []) [] MachineController.reconcileDelete demo_up_scope).2.2 = demo_up_scope.
Proof.
  pose proof (unaddressed_control_plane_stays (demo_listed []) demo_up_scope
    eq_refl eq_refl demo_listed_no_address) as H.
  revert H. destruct (runM _ _ _ _) as [t [oa m']]; cbn [fst snd]. intros (_ & H & _). exact H.
Defined.
