(* ===== verification/Effort.v ===== *)
(** * The calls of a pass

    Every pass ends after a bounded number of calls, whatever the APIs answer: a fixed
    number, plus three for each security group of the spec in each zone, plus one for each
    item that an answer gives the code to loop over. *)

From S2P Require Import Prelude Go Net Prog Sdk Types Cloud Ledger Scope Client Secret.
From S2P Require Vpc Vpcgw SecurityGroup LoadBalancer Instance.
From S2P Require ClusterController MachineController.
From S2P Require Import NoDuplicates.
#[local] Open Scope caps_scope.

Section effort.
Context `{SDK : ScwSDK} `{K8S : K8sLib}.
Implicit Types (h : trace).

(** The calls that the security groups of a spec may take. *)
Definition groups_work (sc : ScalewayCluster) : nat :=
  let c := {| cs_ProjectID := ""; cs_ScalewayCluster := sc;
              cs_Cluster := {| cl_ObjectMeta := sc_ObjectMeta sc; cl_Paused := false;
                               cl_InfrastructureRef := None; cl_InfrastructureReady := false |};
              cs_patchHelper := OCluster sc |} in
  match scs_Network (sc_Spec sc) with
  | Some network => (3 * length (ns_SecurityGroups network) * length (Zones c Instance_Zones))%nat
  | None => 0%nat
  end.

(** The calls that the loops over an answer may make. *)
Definition work (e : event cloud) : nat :=
  let 'Ev call r := e in
  match call return resp cloud call -> nat with
  | ListServers _ _ => fun r =>
      match r with ROk xs => list_sum ((fun x => length (srv_Volumes x)) <$> xs) | RErr _ => 0%nat end
  | ListSecurityGroups _ _ _ _ => fun r => match r with ROk xs => length xs | RErr _ => 0%nat end
  | ListBackends _ _ _ => fun r => match r with ROk xs => length xs | RErr _ => 0%nat end
  | ListFrontends _ _ _ => fun r => match r with ROk xs => length xs | RErr _ => 0%nat end
  | GetScalewayCluster _ => fun r => match r with ROk sc => groups_work sc | RErr _ => 0%nat end
  | _ => fun _ => 0%nat
  end r.

Definition total_work h : nat := list_sum (work <$> h).

Lemma total_work_snoc h e : total_work (h ++ [e]) = (total_work h + work e)%nat.
Proof. unfold total_work. rewrite fmap_app, list_sum_app. simpl. lia. Qed.

(** At most [n] calls, apart from those that the answers give to make. *)
Definition within (n : nat) h h' : Prop :=
  (length h' + total_work h <= length h + n + total_work h')%nat.

Abbreviation any_wp := (wpM any_resp any_call).

Definition effort {S A} (n : nat) (m : GoC S A) : Prop :=
  forall h s, any_wp m h s (fun _ s' h' => within n h h').

Lemma effort_le {S A} n n' (m : GoC S A) : effort n m -> (n <= n')%nat -> effort n' m.
Proof.
  intros Hm Hn h s. eapply wpM_mono; [apply Hm|]. unfold within. intros ? ? ?. lia.
Qed.

Lemma effort_bind {S A B} a n (m : GoC S A) (f : A -> GoC S B) :
  effort a m -> (forall x, effort (n - a) (f x)) -> (a <= n)%nat -> effort n (m ≫= f).
Proof.
  intros Hm Hf Hn h s. go_step. eapply wpM_mono; [apply Hm|].
  intros [x|e|] s' h' Hh; unfold within in *; [|lia..].
  eapply wpM_mono; [apply Hf|]. unfold within. intros ? ? ?. lia.
Qed.

Lemma effort_get_state {S A} n (f : S -> GoC S A) :
  (forall s, effort n (f s)) -> effort n (s ← get_state; f s).
Proof. intros Hf h s. do 2 go_step. apply Hf. Qed.

Lemma effort_wrapf {S A} n ctx (m : GoC S A) : effort n m -> effort n (wrapf ctx m).
Proof. intros Hm h s. go_step. eapply wpM_mono; [apply Hm|]. by intros [?|?|]. Qed.

Lemma effort_attempt {S A} n (m : GoC S A) : effort n m -> effort n (attempt m).
Proof. intros Hm h s. go_step. eapply wpM_mono; [apply Hm|]. by intros [?|?|]. Qed.

Lemma effort_unless_Is {S A} n st (m : GoC S A) : effort n m -> effort n (unless_Is st m).
Proof. intros Hm h s. apply wpM_unless_Is. eapply wpM_mono; [apply Hm|]. by intros [?|?|]. Qed.

Lemma effort_for_each {S X} n (xs : list X) (body : X -> GoC S unit) :
  (forall x, effort n (body x)) -> effort (n * length xs) (for_each xs body).
Proof.
  intros Hbody. induction xs as [|x xs IH]; intros h s; simpl; [go_step; unfold within; lia|].
  apply (effort_bind n); [done| |lia]. intros _.
  eapply effort_le; [exact IH|lia].
Qed.

Lemma effort_for_fold {S X A} n (xs : list X) (acc : A) (body : A -> X -> GoC S A) :
  (forall a x, effort n (body a x)) -> effort (n * length xs) (for_fold xs acc body).
Proof.
  intros Hbody. revert acc. induction xs as [|x xs IH]; intros acc h s; simpl;
    [go_step; unfold within; lia|].
  apply (effort_bind n); [done| |lia]. intros a.
  eapply effort_le; [apply IH|lia].
Qed.

Ltac effort_leaf :=
  unfold within in *; rewrite ?length_app, ?total_work_snoc in *; simpl in *; lia.
Ltac effort_auto :=
  cbv zeta; repeat exec_step ltac:(exact I); effort_leaf.

Lemma inst_getOrCreateIP_effort : effort 2 Instance.getOrCreateIP.
Proof. intros h m. unfold Instance.getOrCreateIP. effort_auto. Qed.

Lemma getOrCreateServer_effort ip : effort 4 (Instance.getOrCreateServer ip).
Proof. intros h m. unfold Instance.getOrCreateServer. effort_auto. Qed.

Lemma getOrCreatePrivateNIC_effort server : effort 2 (Instance.getOrCreatePrivateNIC server).
Proof. intros h m. unfold Instance.getOrCreatePrivateNIC. effort_auto. Qed.

Lemma getMachineIPs_effort server pnic : effort 1 (Instance.getMachineIPs server pnic).
Proof.
  intros h m. unfold Instance.getMachineIPs, FindIPv4ByInstancePrivateNICID. effort_auto.
Qed.

Lemma ensureControlPlaneLoadBalancer_effort ips deletion :
  effort 3 (Instance.ensureControlPlaneLoadBalancer ips deletion).
Proof.
  intros h m. unfold Instance.ensureControlPlaneLoadBalancer, FindLoadBalancerBackendByNames.
  effort_auto.
Qed.

Lemma ensureLoadBalancerACL_effort publicIP : effort 4 (Instance.ensureLoadBalancerACL publicIP).
Proof.
  intros h m. unfold Instance.ensureLoadBalancerACL, FindLoadBalancerFrontendByNames. effort_auto.
Qed.

Lemma ensureCloudInit_effort server ips : effort 3 (Instance.ensureCloudInit server ips).
Proof. intros h m. unfold Instance.ensureCloudInit, GetRawBootstrapData. effort_auto. Qed.

Lemma ensureServerStarted_effort server : effort 1 (Instance.ensureServerStarted server).
Proof. intros h m. unfold Instance.ensureServerStarted. effort_auto. Qed.

Lemma Instance_Reconcile_effort : effort 20 Instance.Reconcile.
Proof.
  unfold Instance.Reconcile.
  eapply effort_bind; [apply inst_getOrCreateIP_effort|intros ip|lia].
  eapply effort_bind; [apply getOrCreateServer_effort|intros server|lia].
  eapply effort_bind; [apply getOrCreatePrivateNIC_effort|intros pnic|lia].
  eapply effort_bind; [apply getMachineIPs_effort|intros ips|lia].
  eapply effort_bind; [apply ensureControlPlaneLoadBalancer_effort|intros _|lia].
  eapply effort_bind; [apply ensureLoadBalancerACL_effort|intros _|lia].
  eapply effort_bind; [apply ensureCloudInit_effort|intros _|lia].
  eapply effort_bind; [apply ensureServerStarted_effort|intros _|lia].
  intros h m. unfold Instance.setMachine. effort_auto.
Qed.

Lemma deregisterControlPlane_effort server : effort 5 (Instance.deregisterControlPlane server).
Proof.
  apply effort_get_state. intros m. destruct (negb _); [intros ? ?; effort_auto|].
  apply (effort_bind 1); [intros ? ?; effort_auto|intros pnic|lia].
  apply (effort_bind 1); [apply effort_wrapf, effort_unless_Is, getMachineIPs_effort|intros ips|lia].
  destruct ips as [ips|]; [|intros ? ?; effort_auto].
  eapply effort_bind;
    [apply effort_unless_Is, ensureControlPlaneLoadBalancer_effort|intros _|lia].
  intros ? ?; effort_auto.
Qed.

(** The volumes of a listed server are part of the work of the listing. *)
Lemma volumes_work xs (server : Server) zone name :
  server ∈ xs ->
  (length (srv_Volumes server) <= work (ok_ev (ListServers zone name) xs))%nat.
Proof.
  intros [pre [post ->]]%list_elem_of_split.
  cbn [work ok_ev]. rewrite fmap_app, list_sum_app. cbn. lia.
Qed.

Lemma detach_volumes_effort (server : Server) :
  effort (length (srv_Volumes server)) (for_each (srv_Volumes server) (fun '(_, vol) =>
    if vol_Boot vol then mret tt
    else wrapf (S := MachineScope) "failed to detach volume"
      (remote (DetachVolume (srv_Zone server) (vol_ID vol))))).
Proof.
  rewrite <- (Nat.mul_1_l (length _)). apply effort_for_each. intros [k vol] h m. effort_auto.
Qed.

Lemma Instance_Delete_effort : effort 14 Instance.Delete.
Proof.
  intros h m. unfold Instance.Delete. do 3 go_step.
  eapply finder_unless_Is; [apply _|intros ? ? HH; exact HH|exact I
    |intros xs server _ Hin _|intros xs _ _; effort_auto|intros; effort_leaf].
  apply (volumes_work _ _ (Machine_Zone m) (Some (Machine_Name m))) in Hin.
  eapply wpM_mono with (Q := fun _ _ => within (13 + length (srv_Volumes server))
    (h ++ [ok_ev (ListServers (Machine_Zone m) (Some (Machine_Name m))) xs])).
  { apply (effort_bind 4); [|intros _|lia].
    { apply effort_unless_Is, ensureLoadBalancerACL_effort. }
    eapply effort_bind; [apply deregisterControlPlane_effort|intros _|lia].
    apply (effort_bind 1); [intros h1 m1; effort_auto|intros _|lia].
    eapply effort_bind; [apply detach_volumes_effort|intros _|lia].
    intros h1 m1. effort_auto. }
  intros oa m' h'. unfold within. rewrite length_app, total_work_snoc. simpl in *. lia.
Qed.

(** *** The services of a cluster *)

Lemma ensureGroup_effort c sg zone groups :
  effort 3 (instanceSG ← SecurityGroup.ensureInstanceSG c groups sg zone;
    SecurityGroup.ensureSGRules sg zone instanceSG).
Proof.
  apply (effort_bind 1);
    [intros h s; unfold SecurityGroup.ensureInstanceSG; effort_auto|intros group|lia].
  intros h s. unfold SecurityGroup.ensureSGRules. effort_auto.
Qed.

Lemma deleteExtra_effort c sgs groups :
  effort (length groups) (SecurityGroup.deleteExtraSecurityGroups c sgs groups).
Proof.
  rewrite <- (Nat.mul_1_l (length _)). apply effort_for_each. intros group h s. effort_auto.
Qed.

Lemma ensureSecurityGroups_effort sgs c h :
  any_wp (SecurityGroup.ensureSecurityGroups sgs) h c (fun _ _ h' =>
    within (1 + 3 * length sgs * length (Zones c Instance_Zones)) h h').
Proof.
  unfold SecurityGroup.ensureSecurityGroups. do 4 go_step.
  apply wpM_remote; [exact I|intros groups _|intros; effort_leaf]. cbn [outcome_wrap].
  eapply wpM_mono.
  { apply (effort_bind (length groups) (length groups + 3 * length (Zones c Instance_Zones) * length sgs));
      [apply deleteExtra_effort|intros _|lia].
    apply (effort_le (3 * length (Zones c Instance_Zones) * length sgs)); [|lia].
    apply effort_for_each. intros sg. apply effort_for_each. intros zone.
    apply ensureGroup_effort. }
  intros oa c' h'. cbn beta. unfold within. rewrite length_app, total_work_snoc. simpl. lia.
Qed.

Lemma getOrCreatePN_effort : effort 2 Vpc.getOrCreatePN.
Proof. intros h c. unfold Vpc.getOrCreatePN. effort_auto. Qed.

Lemma vpc_Reconcile_effort : effort 2 Vpc.Reconcile.
Proof.
  apply effort_get_state. intros c. destruct (negb _); [intros ? ?; effort_auto|].
  apply (effort_bind 2); [apply effort_wrapf, getOrCreatePN_effort|intros pn|lia].
  intros h s. unfold SetStatusPrivateNetworkID. effort_auto.
Qed.

Lemma vpc_Delete_effort : effort 2 Vpc.Delete.
Proof. intros h c. unfold Vpc.Delete. effort_auto. Qed.

Lemma gw_getOrCreateIP_effort zone ip : effort 2 (Vpcgw.getOrCreateIP zone ip).
Proof. intros h c. unfold Vpcgw.getOrCreateIP. effort_auto. Qed.

Lemma getOrCreateGateway_effort zone : effort 4 (Vpcgw.getOrCreateGateway zone).
Proof.
  apply effort_get_state. intros c.
  apply (effort_bind 1); [intros ? ?; effort_auto|intros [gw|]|lia]; [intros ? ?; effort_auto|].
  apply (effort_bind 0); [intros ? ?; effort_auto|intros spec|lia].
  apply (effort_bind 2); [apply gw_getOrCreateIP_effort|intros ip|lia].
  intros ? ?. effort_auto.
Qed.

Lemma gw_Reconcile_effort : effort 6 Vpcgw.Reconcile.
Proof.
  apply effort_get_state. intros c. destruct (_ || _); [intros ? ?; effort_auto|].
  apply (effort_bind 0); [intros ? ?; effort_auto|intros spec|lia].
  apply (effort_bind 4); [|intros gatewayID|lia].
  { destruct (pgs_ID spec); [intros ? ?; effort_auto|].
    apply (effort_bind 4); [apply getOrCreateGateway_effort|intros gw|lia].
    intros ? ?. effort_auto. }
  intros ? ?. effort_auto.
Qed.

Lemma gw_Delete_effort : effort 4 Vpcgw.Delete.
Proof. intros h c. unfold Vpcgw.Delete. effort_auto. Qed.

Lemma getOrCreateLB_effort zone : effort 3 (LoadBalancer.getOrCreateLB zone).
Proof. intros h c. unfold LoadBalancer.getOrCreateLB. effort_auto. Qed.

Lemma ensurePrivateNetwork_effort lb pnID : effort 2 (LoadBalancer.ensurePrivateNetwork lb pnID).
Proof. intros h c. unfold LoadBalancer.ensurePrivateNetwork. effort_auto. Qed.

Lemma keep_last_effort {S A} (p : A -> bool) (delete : A -> cloud_call) xs (acc : option A) :
  effort (S := S) (length xs) (for_fold xs acc (fun acc x =>
    if p x then mret (Some x) else _ ← remote (delete x); mret acc)).
Proof.
  rewrite <- (Nat.mul_1_l (length _)). apply effort_for_fold. intros a x h s. effort_auto.
Qed.

Lemma ensureBackend_effort lb : effort 2 (LoadBalancer.ensureBackend lb).
Proof.
  intros h c. unfold LoadBalancer.ensureBackend. go_step.
  apply wpM_remote; [exact I|intros backends _|intros; effort_leaf].
  eapply wpM_mono.
  { apply (effort_bind (length backends) (length backends + 1)); [apply keep_last_effort|intros found|lia].
    apply (effort_le 1); [|lia]. intros h1 s. effort_auto. }
  intros oa c' h'. cbn beta. unfold within. rewrite length_app, total_work_snoc. simpl. lia.
Qed.

Lemma ensureFrontend_effort lb backend : effort 2 (LoadBalancer.ensureFrontend lb backend).
Proof.
  intros h c. unfold LoadBalancer.ensureFrontend. go_step.
  apply wpM_remote; [exact I|intros frontends _|intros; effort_leaf].
  eapply wpM_mono.
  { apply (effort_bind (length frontends) (length frontends + 1)); [apply keep_last_effort|intros found|lia].
    apply (effort_le 1); [|lia]. intros h1 s. effort_auto. }
  intros oa c' h'. cbn beta. unfold within. rewrite length_app, total_work_snoc. simpl. lia.
Qed.

Lemma ensureACL_effort frontendID name ips deny index :
  effort 2 (LoadBalancer.ensureACL frontendID name ips deny index).
Proof. intros h c. unfold LoadBalancer.ensureACL. effort_auto. Qed.

Lemma ensureACLs_effort frontend pnID : effort 7 (LoadBalancer.ensureACLs frontend pnID).
Proof.
  apply effort_get_state. intros c. cbv zeta.
  apply (effort_bind 2); [apply effort_wrapf, ensureACL_effort|intros _|lia].
  apply (effort_bind 3); [|intros _; apply ensureACL_effort|lia].
  destruct pnID as [pnID|]; [|intros ? ?; effort_auto].
  destruct (HasPrivateNetwork c); [|intros ? ?; effort_auto].
  apply (effort_bind 1); [|intros gws; apply ensureACL_effort|lia].
  intros ? ?. unfold FindGatewaysByPrivateNetworkID. effort_auto.
Qed.

Lemma lb_Reconcile_effort : effort 16 LoadBalancer.Reconcile.
Proof.
  apply effort_get_state. intros c.
  eapply effort_bind; [apply getOrCreateLB_effort|intros lb|lia].
  destruct (negb _); [intros ? ?; effort_auto|].
  apply (effort_bind 0); [intros ? ?; effort_auto|intros pnID|lia].
  eapply effort_bind; [apply ensurePrivateNetwork_effort|intros _|lia].
  eapply effort_bind; [apply effort_wrapf, ensureBackend_effort|intros backend|lia].
  eapply effort_bind; [apply effort_wrapf, ensureFrontend_effort|intros frontend|lia].
  eapply effort_bind; [apply effort_wrapf, ensureACLs_effort|intros _|lia].
  intros ? ?. unfold LoadBalancer.SetControlPlaneEndpoint. effort_auto.
Qed.

Lemma lb_Delete_effort : effort 2 LoadBalancer.Delete.
Proof. intros h c. unfold LoadBalancer.Delete. effort_auto. Qed.

(** *** The passes *)

Lemma sg_Reconcile_effort c h :
  any_wp SecurityGroup.Reconcile h c (fun _ _ => within (1 + groups_work (cs_ScalewayCluster c)) h).
Proof.
  unfold SecurityGroup.Reconcile, groups_work. do 2 go_step.
  eapply wpM_mono; [apply ensureSecurityGroups_effort|]. intros oa c' h'. unfold within.
  change (sc_Spec (cs_ScalewayCluster c)) with (cs_Spec c).
  change (Zones {| cs_ProjectID := _ |} _) with (Zones c Instance_Zones).
  destruct (scs_Network (cs_Spec c)); simpl; lia.
Qed.

(** What a pass over a cluster does once its security groups are in place. *)
Lemma cluster_rest_effort :
  effort 24 (_ ← wrapf "failed to reconcile vpc" Vpc.Reconcile;
    _ ← wrapf "failed to reconcile vpcgw" Vpcgw.Reconcile;
    r ← attempt LoadBalancer.Reconcile;
    match r with
    | inl err =>
        if errors_Is err ErrLoadBalancerNotReady then mret ClusterController.requeue_2s
        else fail (Errorf "failed to reconcile loadbalancer" err)
    | inr _ =>
        _ ← modify (ClusterController.set_cs_Status (set_scst_Ready true));
        mret ClusterController.no_requeue
    end).
Proof.
  eapply effort_bind; [apply effort_wrapf, vpc_Reconcile_effort|intros _|lia].
  eapply effort_bind; [apply effort_wrapf, gw_Reconcile_effort|intros _|lia].
  eapply effort_bind; [apply effort_attempt, lb_Reconcile_effort|intros r|lia].
  intros ? ?. effort_auto.
Qed.

Lemma cluster_normal_effort c h :
  any_wp ClusterController.reconcileNormal h c (fun _ _ =>
    within (26 + groups_work (cs_ScalewayCluster c)) h).
Proof.
  unfold ClusterController.reconcileNormal. do 2 go_step.
  destruct (AddFinalizer _ _) as [meta added]. do 3 go_step.
  set (c1 := ClusterController.set_cs_ObjectMeta meta c).
  eapply wpM_mono with (Q := fun _ c' h' => c' = c1 /\ within 1 h h').
  { destruct added; unfold Cluster_PatchObject; repeat exec_step ltac:(exact I);
      (split; [done|effort_leaf]). }
  intros [[]|e|] c' h1 [-> Hh]; [|unfold within in *; lia..]. do 3 go_step.
  eapply wpM_mono; [apply sg_Reconcile_effort|]. cbn beta.
  set (n := groups_work _). change (groups_work (cs_ScalewayCluster c)) with n.
  intros [[]|e|] c2 h2 Hh2; [|unfold within in *; lia..].
  eapply wpM_mono; [apply cluster_rest_effort|]. unfold within in *. intros ? ? ?. lia.
Qed.

Lemma cluster_delete_effort : effort 9 ClusterController.reconcileDelete.
Proof.
  unfold ClusterController.reconcileDelete.
  eapply effort_bind; [apply lb_Delete_effort|intros _|lia].
  eapply effort_bind; [apply gw_Delete_effort|intros _|lia].
  eapply effort_bind; [apply effort_attempt, vpc_Delete_effort|intros [err|[]]|lia];
    [intros ? ?; effort_auto|].
  apply (effort_bind 1); [|intros _; intros ? ?; effort_auto|lia].
  intros h c. unfold SecurityGroup.Delete.
  eapply wpM_mono; [apply ensureSecurityGroups_effort|]. simpl. unfold within. intros. lia.
Qed.

Lemma machine_normal_effort : effort 21 MachineController.reconcileNormal.
Proof.
  unfold MachineController.reconcileNormal. apply effort_get_state. intros m.
  destruct (AddFinalizer _ _) as [meta added].
  apply (effort_bind 0); [intros ? ?; effort_auto|intros _|lia].
  apply (effort_bind 1);
    [destruct added; intros ? ?; unfold Machine_PatchObject; effort_auto|intros _|lia].
  destruct (negb _); [intros ? ?; effort_auto|].
  eapply effort_bind; [apply effort_attempt, Instance_Reconcile_effort|intros r|lia].
  intros ? ?. effort_auto.
Qed.

Lemma machine_delete_effort : effort 14 MachineController.reconcileDelete.
Proof.
  unfold MachineController.reconcileDelete.
  eapply effort_bind; [apply Instance_Delete_effort|intros _|lia]. intros ? ?. effort_auto.
Qed.

Lemma clientFromSecret_effort {S} sc : effort (S := S) 2 (clientFromSecret sc).
Proof. intros ? ?. unfold clientFromSecret, takeOwnership. effort_auto. Qed.

(** A pass in its scope, closed at its end. *)
Lemma scoped_effort {S S' A} n close (m : GoC S' A) c :
  effort 1 close -> (forall h, any_wp m h c (fun _ _ => within n h)) ->
  effort (S := S) (n + 1) (in_scope c (with_deferred close m)).
Proof.
  intros Hclose Hm h s. do 2 go_step. eapply wpM_mono; [apply Hm|]. intros oa c' h1 Hh.
  eapply wpM_mono; [apply Hclose|]. unfold within in *. intros. lia.
Qed.

Lemma Cluster_Close_effort : effort 1 Cluster_Close.
Proof. intros ? ?. unfold Cluster_Close, Cluster_PatchObject. effort_auto. Qed.

Lemma Machine_Close_effort : effort 1 Machine_Close.
Proof. intros ? ?. unfold Machine_Close, Machine_PatchObject. effort_auto. Qed.

Lemma reconcileObject_effort sc :
  effort (31 + groups_work sc) (ClusterController.reconcileObject sc).
Proof.
  unfold ClusterController.reconcileObject.
  apply (effort_bind 1); [intros ? ?; effort_auto|intros [cl|]|lia]; [|intros ? ?; effort_auto].
  destruct (IsPaused _ _); [intros ? ?; effort_auto|].
  eapply effort_bind; [apply clientFromSecret_effort|intros client|lia].
  apply (effort_bind 0); [intros ? ?; effort_auto|intros projectID|lia].
  intros h s. unfold NewCluster. do 2 go_step. apply wpM_wrapf, wpM_remote; [exact I|..];
    intros ? _; cbn [outcome_wrap];
    [|unfold within; rewrite length_app, total_work_snoc; cbn [length work]; lia]. go_step.
  eapply wpM_mono.
  { apply (scoped_effort (26 + groups_work sc)); [apply Cluster_Close_effort|]. intros h1.
    destruct (negb _); [|apply cluster_normal_effort].
    eapply wpM_mono; [apply cluster_delete_effort|]. unfold within. intros. lia. }
  intros oa s' h'. unfold within. rewrite length_app, total_work_snoc. simpl. lia.
Qed.

Lemma cluster_Reconcile_effort key : effort 32 (ClusterController.Reconcile key).
Proof.
  intros h s. unfold ClusterController.Reconcile. do 2 go_step.
  apply wpM_remote; [exact I|intros sc _|intros e _]; cbn beta iota.
  - eapply wpM_mono; [apply reconcileObject_effort|]. intros oa s' h'. cbn beta.
    unfold within. rewrite length_app, total_work_snoc. simpl. lia.
  - destruct (IsNotFound e); [go_step; effort_leaf|].
    eapply wpM_mono; [apply reconcileObject_effort|]. intros oa s' h'. cbn beta.
    unfold within. rewrite length_app, total_work_snoc.
    change (groups_work ClusterController.zero_ScalewayCluster) with 0%nat. simpl. lia.
Qed.

Lemma machine_Reconcile_effort key : effort 30 (MachineController.Reconcile key).
Proof.
  unfold MachineController.Reconcile.
  apply (effort_bind 1); [intros ? ?; effort_auto|intros [e|sm]|lia]; [intros ? ?; effort_auto|].
  apply (effort_bind 1); [intros ? ?; effort_auto|intros [machine|]|lia];
    [|intros ? ?; effort_auto].
  apply (effort_bind 1); [intros ? ?; effort_auto|intros [e|cl]|lia]; [intros ? ?; effort_auto|].
  destruct (IsPaused _ _); [intros ? ?; effort_auto|].
  apply (effort_bind 0); [intros ? ?; effort_auto|intros ref|lia].
  apply (effort_bind 1); [intros ? ?; effort_auto|intros sc|lia].
  eapply effort_bind; [apply clientFromSecret_effort|intros client|lia].
  apply (effort_bind 0); [intros ? ?; effort_auto|intros projectID|lia].
  apply (effort_bind 2);
    [intros ? ?; unfold NewMachine, NewCluster; effort_auto|intros m|lia].
  apply (effort_le (21 + 1)); [|lia]. apply scoped_effort; [apply Machine_Close_effort|].
  intros h. destruct (negb _); [|apply machine_normal_effort].
  eapply wpM_mono; [apply machine_delete_effort|]. unfold within. intros. lia.
Qed.

(** C20.  Every pass of the two controllers ends after a bounded number of calls, whatever the
    APIs answer: 32, plus three for each security group of the spec that was read in each
    zone of its region, plus one for each security group, backend, frontend or volume of
    a server that was listed. *)
Theorem pass_ends (o : oracle cloud) (req : request) :
  let t := (run o [] (pass req)).1 in (length t <= 32 + total_work t)%nat.
Proof.
  assert (wp any_resp any_call (fun h' _ => within 32 [] h') [] (pass req)) as Hwp.
  { destruct req as [key|key].
    - eapply wp_mono; [apply (cluster_Reconcile_effort key)|]. by intros h [oa s].
    - eapply wp_mono; [apply (effort_le 30 32 _ (machine_Reconcile_effort key)); lia|].
      by intros h [oa s]. }
  destruct (wp_sound _ _ o _ _ _ (admissible_any o) Hwp) as (_ & _ & _ & HQ).
  unfold within in HQ. change (total_work []) with 0%nat in HQ. cbn [length] in HQ. by rewrite Nat.add_0_r in HQ.
Qed.
End effort.
