(* ===== verification/Interleaving.v ===== *)
(** * Passes that run at the same time

    The manager runs both controllers at once, so that the calls of a pass over a cluster
    interleave with those of a pass over a machine.  [run_pool] executes a pool of
    programs along any schedule, against an API that sees the calls of all of them.
    [pool_obeys] is the rule that a program of the pool keeps the guarantee it has alone
    when the answers it gets keep its rely; it gives the absence of duplicates for
    resources that the others spare. *)

From S2P Require Import Prelude Go Net Prog Sdk Types Cloud Ledger Scope Client.
From S2P Require Import Secret.
From S2P Require Vpc Vpcgw SecurityGroup LoadBalancer Instance.
From S2P Require ClusterController MachineController.
From S2P Require Import Simulation NoDuplicates.
#[local] Open Scope caps_scope.

(** ** Pools of programs *)

Section pool.
Context {Sg : sig} {A : Type}.

(** The calls of a pool, each with the number of the program that made it. *)
Abbreviation calls := (list (nat * event Sg)).
Implicit Types (th : calls) (ps : list (prog Sg A)).

(** One turn for each number of the schedule. *)
Fixpoint run_pool (o : oracle Sg) th ps (schedule : list nat) : calls * list (prog Sg A) :=
  match schedule with
  | [] => (th, ps)
  | i :: schedule =>
      match ps !! i with
      | Some (Call c k) =>
          let r := o (snd <$> th) c in
          run_pool o (th ++ [(i, Ev c r)]) (<[i := k r]> ps) schedule
      | _ => run_pool o th ps schedule
      end
  end.

(** The calls of one program. *)
Definition own (i : nat) th : history Sg := snd <$> filter (fun x => x.1 = i) th.

Lemma own_snoc i th e : own i (th ++ [(i, e)]) = own i th ++ [e].
Proof. unfold own. by rewrite filter_app, filter_cons_True, fmap_app. Qed.

Lemma own_snoc_other i j th e : j <> i -> own i (th ++ [(j, e)]) = own i th.
Proof. intros Hj. unfold own. by rewrite filter_app, filter_cons_False, app_nil_r. Qed.

Lemma run_pool_extends o th ps schedule : th `prefix_of` (run_pool o th ps schedule).1.
Proof.
  revert th ps. induction schedule as [|i schedule IH]; intros th ps; simpl; [done|].
  destruct (ps !! i) as [[a|c k]|]; [by apply IH| |by apply IH].
  etransitivity; [|apply IH]. by apply prefix_app_r.
Qed.

(** Of two ways to cut a list, one goes on where the other stops. *)
Lemma split_after {X} (l l1 l2 l' : list X) x y :
  l ++ [x] `prefix_of` l' -> l' = l1 ++ y :: l2 -> l `prefix_of` l1 ->
  (l1 = l /\ y = x) \/ l ++ [x] `prefix_of` l1.
Proof.
  intros [t ->] E [t1 ->]. rewrite <- !app_assoc in E. apply app_inv_head in E.
  destruct t1 as [|z t1]; simpl in E; injection E as -> E.
  - left. by rewrite app_nil_r.
  - right. exists t1. by rewrite <- app_assoc.
Qed.

(** The answers are those of the oracle to the calls of all programs. *)
Lemma run_pool_answers o th ps schedule th1 i e th2 :
  (run_pool o th ps schedule).1 = th1 ++ (i, e) :: th2 -> th `prefix_of` th1 ->
  e = Ev (ev_call e) (o (snd <$> th1) (ev_call e)).
Proof.
  revert th ps. induction schedule as [|j schedule IH]; intros th ps; simpl.
  - intros -> Hp%prefix_length. rewrite length_app in Hp. simpl in Hp. lia.
  - destruct (ps !! j) as [[a|c k]|]; [by apply IH| |by apply IH].
    intros E Hp. pose proof (run_pool_extends o (th ++ [(j, Ev c (o (snd <$> th) c))])
      (<[j := k (o (snd <$> th) c)]> ps) schedule) as Hext.
    destruct (split_after _ _ _ _ _ _ Hext E Hp) as [[-> Ee]|Hp']; [|by eapply IH].
    by injection Ee as -> ->.
Qed.

(** The answer of an event keeps a rely. *)
Definition answer_in (R : history Sg -> forall c, resp Sg c -> Prop) (h : history Sg)
    (e : event Sg) : Prop :=
  match e with Ev c r => R h c r end.

Context (R : history Sg -> forall c, resp Sg c -> Prop) (G : history Sg -> call Sg -> Prop).

(** A program of the pool keeps its guarantee, as if it ran alone, as long as its answers
    so far keep its rely. *)
Lemma pool_obeys_from o th ps schedule i (Q : history Sg -> A -> Prop) th1 e th2 :
  (forall p, ps !! i = Some p -> wp R G Q (own i th) p) ->
  (forall th3 e th4, th1 = th3 ++ (i, e) :: th4 -> th `prefix_of` th3 -> answer_in R (own i th3) e) ->
  (run_pool o th ps schedule).1 = th1 ++ (i, e) :: th2 -> th `prefix_of` th1 ->
  G (own i th1) (ev_call e).
Proof.
  revert th ps. induction schedule as [|j schedule IH]; intros th ps Hw HR; simpl in *.
  - intros -> Hp%prefix_length. rewrite length_app in Hp. simpl in Hp. lia.
  - destruct (ps !! j) as [[a|c k]|] eqn:Ej; [by eapply IH| |by eapply IH].
    set (r := o (snd <$> th) c) in *. intros E Hp.
    pose proof (run_pool_extends o (th ++ [(j, Ev c r)]) (<[j := k r]> ps) schedule) as Hext.
    assert (j = i -> G (own i th) c /\ (answer_in R (own i th) (Ev c r) ->
      wp R G Q (own i th ++ [Ev c r]) (k r))) as Hj.
    { intros ->. destruct (Hw _ Ej) as [HG Hk]. split; [exact HG|]. intros Hr. by apply Hk. }
    destruct (split_after _ _ _ _ _ _ Hext E Hp) as [[-> Ee]|Hp'].
    + injection Ee as -> ->. by apply Hj.
    + eapply IH; [| |exact E|exact Hp'].
      * intros p Ep. destruct (decide (j = i)) as [->|Hne].
        -- rewrite own_snoc. rewrite list_lookup_insert_eq in Ep by by eapply lookup_lt_Some.
           injection Ep as <-. apply Hj; [done|]. destruct Hp' as [th3 E3].
           apply (HR th (Ev c r) th3); [|done]. by rewrite E3, <- app_assoc.
        -- rewrite own_snoc_other by done. rewrite list_lookup_insert_ne in Ep by done. auto.
      * intros th3 e3 th4 E3 Hp3. apply (HR th3 e3 th4 E3).
        etransitivity; [|exact Hp3]. by apply prefix_app_r.
Qed.

Lemma pool_obeys o ps schedule i (Q : history Sg -> A -> Prop) th th1 e th2 :
  th = (run_pool o [] ps schedule).1 ->
  (forall p, ps !! i = Some p -> wp R G Q [] p) ->
  (forall th3 e th4 th5, th1 = th3 ++ (i, e) :: th4 -> th = th3 ++ (i, e) :: th5 ->
     answer_in R (own i th3) e) ->
  th = th1 ++ (i, e) :: th2 -> G (own i th1) (ev_call e).
Proof.
  intros -> Hw HR E. eapply (pool_obeys_from o [] ps schedule i Q); [exact Hw| |exact E|by exists th1].
  intros th3 e3 th4 E3 _. eapply HR; [exact E3|]. by rewrite E, E3, <- app_assoc.
Qed.
End pool.

(** ** Resources that the other programs spare *)

Abbreviation calls := (list (nat * event cloud)).
Implicit Types (th : calls) (res : resource).

(** No other program than the [i]th one creates [res] or deletes it. *)
Definition spared (i : nat) th res : Prop :=
  forall th1 j c r th2, th = th1 ++ (j, CEv c r) :: th2 -> j <> i ->
    creates c <> Some res /\
    forall id, deletes c = Some (kind_of res, id) -> (res, id) ∉ ledger (snd <$> th1).

Lemma spared_prefix i th th1 res : th1 `prefix_of` th -> spared i th res -> spared i th1 res.
Proof.
  intros [th2 ->] Hs th3 j c r th4 E Hj. apply (Hs th3 j c r (th4 ++ th2)); [|done].
  by rewrite E, <- app_assoc.
Qed.

(** What a call does to an entry. *)
Lemma elem_of_ledger_step l c r e :
  e ∈ ledger_step l (CEv c r) <->
  match r with
  | ROk a => (e ∈ l /\ survives (deletes c) e) \/ (creates c = Some e.1 /\ e.2 = created_id c a)
  | RErr _ => e ∈ l
  end.
Proof.
  destruct e as [res id]. simpl. destruct r as [a|er]; [|done].
  assert ((res, id) ∈ filter (survives (deletes c)) l <->
    (res, id) ∈ l /\ survives (deletes c) (res, id)) as Hf
    by (rewrite list_elem_of_filter; tauto).
  destruct (creates c) as [res'|]; rewrite ?elem_of_cons, Hf; naive_solver.
Qed.

Lemma ledger_step_other l c r res id :
  creates c <> Some res -> (forall id', deletes c = Some (kind_of res, id') -> (res, id') ∉ l) ->
  (res, id) ∈ ledger_step l (CEv c r) <-> (res, id) ∈ l.
Proof.
  intros Hc Hd. rewrite elem_of_ledger_step. destruct r as [a|e]; [|done]. split.
  - by intros [[? _]|[? _]].
  - intros Hin. left. split; [done|]. intros E. by apply (Hd id).
Qed.

(** Such a resource has the same entries in the ledger of all the calls and in the ledger
    of the calls of its program. *)
Lemma spared_ledger i th res id :
  spared i th res -> (res, id) ∈ ledger (snd <$> th) <-> (res, id) ∈ ledger (own i th).
Proof.
  induction th as [|[j [c r]] th IH] using rev_ind; [done|]. intros Hs.
  specialize (IH (spared_prefix _ _ _ _ (prefix_app_r _ _ _ (reflexivity _)) Hs)).
  rewrite fmap_app. change (snd <$> [(j, CEv c r)]) with [CEv c r]. rewrite ledger_snoc.
  destruct (decide (j = i)) as [->|Hj].
  - rewrite own_snoc, ledger_snoc, !elem_of_ledger_step. by destruct r; rewrite IH.
  - rewrite own_snoc_other by done. rewrite <- IH.
    destruct (Hs th j c r [] eq_refl Hj) as [Hc Hd]. by apply ledger_step_other.
Qed.

Lemma spared_live i th res : spared i th res -> live (snd <$> th) res <-> live (own i th) res.
Proof.
  intros Hs. unfold live. rewrite !list_elem_of_fmap.
  by split; intros ([res' id] & -> & Hin); exists (res', id);
    (split; [done|]); apply (spared_ledger i th res' id Hs).
Qed.

Section passes.
Context `{SDK : ScwSDK} `{K8S : K8sLib}.

(** A worker takes one request after another from its queue. *)
Fixpoint worker (reqs : list request) : prog cloud unit :=
  match reqs with
  | [] => Ret tt
  | req :: reqs => pbind (fun _ => worker reqs) (pass req)
  end.

Lemma worker_wp (R : rely) (G : guarantee) reqs h :
  (forall req h, req ∈ reqs -> wp R G (fun _ _ => True) h (pass req)) ->
  wp R G (fun _ _ => True) h (worker reqs).
Proof.
  revert h. induction reqs as [|req reqs IH]; intros h Hw; simpl; [done|].
  apply wp_pbind. eapply wp_mono; [apply Hw; left|]. intros h' _ _. apply IH.
  intros req' h'' Hin. apply Hw. by right.
Qed.

Lemma spared_creation (o : oracle cloud) (queues : list (list request)) schedule th i res :
  (forall region, NoDup (Region_GetZones region)) -> admissible environment o ->
  th = (run_pool o [] (worker <$> queues) schedule).1 -> spared i th res ->
  forall th1 c r th2, th = th1 ++ (i, CEv c r) :: th2 -> creates c = Some res ->
    ~ live (snd <$> th1) res.
Proof.
  intros Hz Ho Eth Hs th1 c r th2 E Hc Hlive.
  set (F := (fun res' => res' = res) : Focus).
  assert (no_clash (own i th1) c) as Hn.
  { change c with (ev_call (CEv c r)).
    eapply (pool_obeys environment_in no_clash o (worker <$> queues) schedule i
      (fun _ _ => True) th th1 _ th2 Eth); [| |exact E].
    - intros p Ep. apply list_lookup_fmap_Some in Ep as (reqs & -> & _).
      apply worker_wp. intros req h _. by apply pass_no_clash.
    - intros th3 e _ th4 _ E3. pose proof E3 as Ee. rewrite Eth in Ee.
      apply run_pool_answers in Ee; [|by exists th3]. destruct e as [c3 r3]. simpl in Ee.
      rewrite Ee. destruct (Ho (snd <$> th3) c3) as (HR & ?). split; [|done].
      unfold shown. destruct (o (snd <$> th3) c3) as [xs|e3]; [|done].
      intros res' Hcov [Hl ->]. apply HR; [done|].
      assert (th3 `prefix_of` th) as Hp by (exists ((i, CEv c3 r3) :: th4); done).
      by apply (spared_live i th3 res (spared_prefix _ _ _ _ Hp Hs)). }
  apply (Hn res Hc). split; [|done].
  assert (th1 `prefix_of` th) as Hp by (by exists ((i, CEv c r) :: th2)).
  by apply (spared_live i th1 res (spared_prefix _ _ _ _ Hp Hs)).
Qed.

(** *** The two controllers of the manager *)

(** The servers, addresses and private NICs are those of the machines; the ACLs of a
    frontend are shared. *)
Definition of_machines (k : kind) : bool :=
  match k with KServer | KInstanceIP | KPrivateNIC => true | _ => false end.

(** What the passes over clusters, resp. machines, leave to the other controller. *)
Definition cluster_side : guarantee := fun _ call =>
  match call with
  | InstanceCreateIP _ _ | CreateServer _ | CreatePrivateNIC _ _ _
  | InstanceDeleteIP _ _ | DeleteServer _ _ | ServerAction _ _ _ => False
  | _ => True
  end.

Definition machine_side : guarantee := fun _ call =>
  match call with
  | CreateSecurityGroup _ | CreateLB _ _ _ _ | AttachPrivateNetwork _ _ _
  | CreateBackend _ _ _ _ _ _ | CreateFrontend _ _ _ _ _ | CreatePrivateNetwork _ _ _
  | GatewayCreateIP _ _ | CreateGateway _ _ _ _ | CreateGatewayNetwork _ _ _ _ _ _
  | DeleteSecurityGroup _ _ | DeleteLB _ _ _ | DeleteBackend _ _ | DeleteFrontend _ _
  | DeletePrivateNetwork _ _ | DeleteGateway _ _ | GatewayDeleteIP _ _ => False
  | _ => True
  end.

Abbreviation on_side G := (safe any_resp G (fun _ => True)).

Lemma cluster_normal_side : on_side cluster_side ClusterController.reconcileNormal.
Proof.
  unfold ClusterController.reconcileNormal, Cluster_PatchObject, SecurityGroup.Reconcile,
    SecurityGroup.ensureSecurityGroups, SecurityGroup.deleteExtraSecurityGroups,
    SecurityGroup.ensureInstanceSG, SecurityGroup.ensureSGRules,
    Vpc.Reconcile, Vpc.getOrCreatePN, SetStatusPrivateNetworkID,
    Vpcgw.Reconcile, Vpcgw.getOrCreateGateway, Vpcgw.getOrCreateIP,
    LoadBalancer.Reconcile, LoadBalancer.getOrCreateLB, LoadBalancer.ensurePrivateNetwork,
    LoadBalancer.ensureBackend, LoadBalancer.ensureFrontend, LoadBalancer.ensureACLs,
    LoadBalancer.ensureACL, LoadBalancer.SetControlPlaneEndpoint. free_auto.
Qed.

Lemma cluster_delete_side : on_side cluster_side ClusterController.reconcileDelete.
Proof.
  unfold ClusterController.reconcileDelete, LoadBalancer.Delete, Vpcgw.Delete, Vpc.Delete,
    SecurityGroup.Delete, SecurityGroup.ensureSecurityGroups,
    SecurityGroup.deleteExtraSecurityGroups, SecurityGroup.ensureInstanceSG,
    SecurityGroup.ensureSGRules. free_auto.
Qed.

Lemma machine_normal_side : on_side machine_side MachineController.reconcileNormal.
Proof.
  unfold MachineController.reconcileNormal, Machine_PatchObject, Instance.Reconcile,
    Instance.getOrCreateIP, Instance.getOrCreateServer, Instance.getOrCreatePrivateNIC,
    Instance.getMachineIPs, Instance.ensureControlPlaneLoadBalancer,
    Instance.ensureLoadBalancerACL, Instance.ensureCloudInit, GetRawBootstrapData,
    Instance.ensureServerStarted, Instance.setMachine. free_auto.
Qed.

Lemma machine_delete_side : on_side machine_side MachineController.reconcileDelete.
Proof.
  unfold MachineController.reconcileDelete, Instance.Delete, Instance.deregisterControlPlane,
    Instance.getMachineIPs, Instance.ensureControlPlaneLoadBalancer,
    Instance.ensureLoadBalancerACL. free_auto.
Qed.

Lemma clientFromSecret_side {S} (G : guarantee) sc :
  (forall h key, G h (GetSecret key)) -> (forall h secret, G h (UpdateSecret secret)) ->
  safe (S := S) any_resp G (fun _ => True) (clientFromSecret sc).
Proof.
  intros Hg Hu. unfold clientFromSecret, takeOwnership. safe_auto; apply safe_remote; auto.
Qed.

#[local] Hint Resolve cluster_normal_side cluster_delete_side machine_normal_side
  machine_delete_side : caps_wp.

Lemma cluster_pass_side key h :
  wp any_resp cluster_side (fun _ _ => True) h (pass (ClusterRequest key)).
Proof.
  eapply wp_mono; [apply (safe_wpM _ _ (fun _ => True) (ClusterController.Reconcile key) h tt
    (fun _ _ _ => True)); [|done|done]|done].
  assert (forall sc, on_side cluster_side (ClusterController.reconcileObject sc)) as Hobj.
  { intros sc. unfold ClusterController.reconcileObject.
    apply safe_bind; [free_auto|]. intros [cl|]; [|free_auto].
    destruct (IsPaused _ _); [free_auto|].
    apply safe_bind; [by apply clientFromSecret_side|intros client].
    apply safe_bind; [free_auto|intros projectID].
    apply safe_NewCluster; [done|].
    eapply (safe_in_scope _ _ (fun _ => True)); [|done]. apply safe_with_deferred.
    - unfold Cluster_Close, Cluster_PatchObject. free_auto.
    - destruct (negb _); auto with caps_wp. }
  unfold ClusterController.Reconcile. free_auto; apply Hobj.
Qed.

Lemma machine_pass_side key h :
  wp any_resp machine_side (fun _ _ => True) h (pass (MachineRequest key)).
Proof.
  eapply wp_mono; [apply (safe_wpM _ _ (fun _ => True) (MachineController.Reconcile key) h tt
    (fun _ _ _ => True)); [|done|done]|done].
  unfold MachineController.Reconcile. apply safe_bind; [free_auto|].
  intros [e|sm]; [free_auto|]. apply safe_bind; [free_auto|]. intros [m|]; [|free_auto].
  apply safe_bind; [free_auto|]. intros [e|cl]; [free_auto|].
  destruct (IsPaused _ _); [free_auto|]. do 2 (apply safe_bind; [free_auto|intros ?]).
  apply safe_bind; [by apply clientFromSecret_side|intros client].
  apply safe_bind; [free_auto|intros projectID]. apply safe_NewMachine; [done|].
  eapply (safe_in_scope _ _ (fun _ => True)); [|done]. apply safe_with_deferred.
  - unfold Machine_Close, Machine_PatchObject. free_auto.
  - destruct (negb _); auto with caps_wp.
Qed.

Lemma cluster_side_kind h c res :
  cluster_side h c -> (creates c = Some res -> of_machines (kind_of res) = false) /\
  (forall k id, deletes c = Some (k, id) -> of_machines k = false).
Proof. destruct c; simpl; intros H; split; intros; simplify_eq; done. Qed.

Lemma machine_side_kind h c res :
  machine_side h c ->
  (creates c = Some res -> of_machines (kind_of res) = true \/ kind_of res = KACL) /\
  (forall k id, deletes c = Some (k, id) -> of_machines k = true \/ k = KACL).
Proof.
  destruct c; simpl; intros H; split; intros; simplify_eq; auto.
  destruct action; simplify_eq; auto.
Qed.

(** The guarantee of the workers: the first one takes the clusters, the second one the
    machines, and there is no other. *)
Definition side (i : nat) : guarantee :=
  match i with O => cluster_side | S O => machine_side | _ => fun _ _ => False end.

Definition manager (clusters machines : list NamespacedName) : list (prog cloud unit) :=
  [worker (ClusterRequest <$> clusters); worker (MachineRequest <$> machines)].

Lemma manager_sides (o : oracle cloud) clusters machines schedule th th1 i c r th2 :
  th = (run_pool o [] (manager clusters machines) schedule).1 ->
  th = th1 ++ (i, CEv c r) :: th2 -> side i (own i th1) c.
Proof.
  intros Eth E. change c with (ev_call (CEv c r)).
  eapply (pool_obeys any_resp (side i) o (manager clusters machines) schedule i
    (fun _ _ => True) th th1 _ th2 Eth); [| |exact E].
  - intros p Ep. destruct i as [|[|i]]; simpl in Ep; [injection Ep as <-..|done].
    + apply worker_wp. intros req h (key & -> & _)%list_elem_of_fmap. apply cluster_pass_side.
    + apply worker_wp. intros req h (key & -> & _)%list_elem_of_fmap. apply machine_pass_side.
  - by intros th3 [c3 r3].
Qed.

Lemma sides_apart i j h h' c c' res :
  side i h c -> creates c = Some res -> kind_of res <> KACL -> j <> i -> side j h' c' ->
  creates c' <> Some res /\ forall id, deletes c' <> Some (kind_of res, id).
Proof.
  intros Hi Hc Hk Hj Hs. destruct i as [|[|i]], j as [|[|j]]; try done; simpl in *.
  - apply (cluster_side_kind _ _ res) in Hi as [Hi _]. specialize (Hi Hc).
    apply (machine_side_kind _ _ res) in Hs as [Hc' Hd'].
    split; [intros [?|?]%Hc'|intros id [?|?]%Hd']; congruence.
  - apply (machine_side_kind _ _ res) in Hi as [Hi _]. destruct (Hi Hc) as [Hi'|]; [|done].
    apply (cluster_side_kind _ _ res) in Hs as [Hc' Hd'].
    split; [intros ?%Hc'|intros id ?%Hd']; congruence.
Qed.

(** C3.  The manager runs both controllers at once: along any schedule of the calls of the
    passes over clusters with the calls of the passes over machines, any number of each,
    and whatever the APIs answer as long as their listings show what exists, every
    creation is made for a resource that does not exist at that moment, although the
    other controller worked since the pass looked for it.  The ACLs of the control-plane
    frontend, which both controllers create under their own names, are left out. *)
Theorem manager_never_duplicates (o : oracle cloud) (clusters machines : list NamespacedName)
    (schedule : list nat) th th1 i c r th2 res :
  (forall region, NoDup (Region_GetZones region)) -> admissible environment o ->
  th = (run_pool o [] (manager clusters machines) schedule).1 ->
  th = th1 ++ (i, CEv c r) :: th2 -> creates c = Some res -> kind_of res <> KACL ->
  ~ live (snd <$> th1) res.
Proof.
  intros Hz Ho Eth E Hc Hk.
  eapply (spared_creation o [ClusterRequest <$> clusters; MachineRequest <$> machines] schedule
    th i res Hz Ho Eth); [|exact E|exact Hc].
  intros th3 j c' r' th4 E' Hj.
  destruct (sides_apart i j (own i th1) (own j th3) c c' res) as [Hc' Hd'];
    [by eapply manager_sides|done|done|done|by eapply manager_sides|].
  split; [done|]. intros id Hd. by destruct (Hd' id).
Qed.

End passes.

(** ** The sample project *)

#[local] Existing Instances sim_sdk sim_k8s.

(** The two controllers take turns. *)
Definition demo_turns (n : nat) : list nat := concat (replicate n [0%nat; 1%nat]).

Definition demo_pool_calls : list (nat * event cloud) :=
  (run_pool (sim demo_world) [] (manager [demo_key] [demo_key]) (demo_turns 40)).1.


Definition demo_concurrent_server : cloud_call := CreateServer
  {| csr_Zone := "fr-par-1"; csr_Name := "caps-node"; csr_CommercialType := "PRO2-S";
     csr_DynamicIPRequired := Some false; csr_RoutedIPEnabled := Some true;
     csr_Image := "id-image-ubuntu"; csr_SecurityGroup := Some "id-14"%string;
     csr_Volumes := [("0"%string, {| vst_Size := 40000000000;
                                     vst_VolumeType := VolumeVolumeTypeBSSD;
                                     vst_Boot := Some true |})];
     csr_PublicIP := Some "id-21"%string |}.

(** The controller of machines creates the server while the other one works. *)
Lemma demo_pool_creates_server :
  demo_pool_calls = take 29 demo_pool_calls ++
    (1%nat, CEv demo_concurrent_server
      (sim demo_world (snd <$> take 29 demo_pool_calls) demo_concurrent_server)) ::
    drop 30 demo_pool_calls.
Proof. by vm_compute. Qed.

Lemma demo_pool_run : demo_pool_calls =
  (run_pool (sim demo_world) [] (manager [demo_key] [demo_key]) (demo_turns 40)).1.
Proof. unfold demo_pool_calls. reflexivity. Qed.

Lemma manager_never_duplicates_witness :
  ~ live (snd <$> take 29 demo_pool_calls) (RServer "fr-par-1" "caps-node").
Proof.
  assert (creates demo_concurrent_server = Some (RServer "fr-par-1" "caps-node")) as Hc
    by reflexivity.
  assert (kind_of (RServer "fr-par-1" "caps-node") <> KACL) as Hk by discriminate.
  exact (manager_never_duplicates (sim demo_world) [demo_key] [demo_key]
    (demo_turns 40) demo_pool_calls (take 29 demo_pool_calls) 1%nat demo_concurrent_server _
    (drop 30 demo_pool_calls) (RServer "fr-par-1" "caps-node") sim_zones_NoDup demo_environment
    demo_pool_run demo_pool_creates_server Hc Hk).
Defined.

(** Two replicas of the manager work on the machine, once the first one has set up the
    cluster. *)
Definition demo_queues : list (list request) :=
  [[ClusterRequest demo_key; MachineRequest demo_key]; [MachineRequest demo_key]].

Definition demo_schedule : list nat := replicate 37 0%nat ++ demo_turns 15.

Lemma demo_replicas_servers :
  filter (fun e => kind_of e.1 = KServer)
    (ledger (snd <$> (run_pool (sim demo_world) [] (worker <$> demo_queues) demo_schedule).1)) =
    [(RServer "fr-par-1" "caps-node", "id-66"%string);
     (RServer "fr-par-1" "caps-node", "id-65"%string)].
Proof. by vm_compute. Qed.

(** C37.  One worker for the machines is needed: two passes over one machine at the same time,
    as two replicas of the manager make when leader election is not enabled, can create
    its server twice, although every listing shows what exists. *)
Theorem replicas_duplicate_server :
  exists (o : oracle cloud) (queues : list (list request)) (schedule : list nat) zone name id id',
    admissible environment o /\ id <> id' /\
    (RServer zone name, id) ∈ ledger (snd <$> (run_pool o [] (worker <$> queues) schedule).1) /\
    (RServer zone name, id') ∈ ledger (snd <$> (run_pool o [] (worker <$> queues) schedule).1).
Proof.
  exists (sim demo_world), demo_queues, demo_schedule, "fr-par-1"%string, "caps-node"%string,
    "id-66"%string, "id-65"%string.
  split; [exact demo_environment|]. split; [done|].
  pose proof demo_replicas_servers as Hs. revert Hs.
  generalize (ledger (snd <$> (run_pool (sim demo_world) [] (worker <$> demo_queues) demo_schedule).1)).
  intros l Hs.
  assert (forall e, e ∈ filter (fun e => kind_of e.1 = KServer) l -> e ∈ l) as Hf
    by (intros e [_ He]%list_elem_of_filter; exact He).
  split; apply Hf; rewrite Hs; [left|right; left].
Qed.
