(* ===== verification/Frame.v ===== *)
(** * Framing

    A state that the calls of a history change, in parts: a computation that makes no call
    on a part keeps that part.  [Replay] uses it for the project of a cluster, [MachineReplay]
    for what a machine is made of. *)

From S2P Require Import Prelude Go Prog Cloud.
#[local] Open Scope caps_scope.

Section frame.
Context {St Part : Type} `{EqDecision Part}.
(** What an answered call makes of the state; the part a call changes; what it is to agree
    on a part. *)
Context (step : St -> event cloud -> St) (part_of : cloud_call -> option Part).
Context (same_part : Part -> St -> St -> Prop).

Definition state_after (x : St) (h : trace) : St := foldl step x h.

Lemma state_after_snoc x h e : state_after x (h ++ [e]) = step (state_after x h) e.
Proof. unfold state_after. by rewrite foldl_snoc. Qed.

(** The computation makes calls on the parts [l] only. *)
Definition calls_on (l : list Part) : guarantee := fun _ c =>
  match part_of c with Some s => bool_decide (s ∈ l) = true | None => True end.

Definition agree_off (l : list Part) (x x' : St) : Prop :=
  forall s, bool_decide (s ∈ l) = false -> same_part s x x'.

(** The laws of the parts. *)
Class Framed : Prop := {
  framed_preorder :: forall s, PreOrder (same_part s);
  framed_step : forall s x c r, part_of c <> Some s -> same_part s x (step x (CEv c r));
}.

Context `{!Framed}.

#[export] Instance agree_off_preorder l : PreOrder (agree_off l).
Proof.
  split; [by intros x s _|]. intros x1 x2 x3 H12 H23 s Hs. etransitivity; [by apply H12|by apply H23].
Qed.

Section rules.
Context {S A : Type} (x0 : St) (l : list Part).
Implicit Types (m : GoC S A) (Q : outcome A -> S -> trace -> Prop).

Lemma wpM_calls_on m h x Q :
  wpM any_resp (calls_on l) m h x Q ->
  wpM any_resp any_call m h x (fun oa x' h' =>
    Q oa x' h' /\ agree_off l (state_after x0 h) (state_after x0 h')).
Proof.
  unfold wpM. generalize (m x) as t. intros t. revert h.
  induction t as [[oa x']|c k IH]; intros h; cbn [wp]; [by intros HQ|].
  intros [Hc Hk]. split; [done|]. intros r Hr. eapply wp_mono; [by apply IH, Hk|].
  intros h' [oa x'] [HQ Ho]. split; [done|]. intros s Hs. etransitivity; [|by apply Ho].
  rewrite state_after_snoc. apply framed_step. unfold calls_on in Hc. intros E.
  rewrite E in Hc. congruence.
Qed.

(** What is said of a computation, and what it leaves alone. *)
Lemma wpM_keeping m h x R (G : guarantee) (I : S -> Prop) Q :
  wpM R G m h x Q -> safe any_resp (calls_on l) I m -> I x ->
  wpM R G m h x (fun oa x' h' =>
    Q oa x' h' /\ agree_off l (state_after x0 h) (state_after x0 h')).
Proof.
  intros HQ Hk Hx. eapply wpM_conj; [exact HQ|]. apply wpM_any.
  eapply wpM_mono; [by apply wpM_calls_on, Hk|]. by intros oa x' h' [_ ?].
Qed.

(** A computation that says nothing else than what it keeps. *)
Lemma wpM_invariant m h x R (I : S -> Prop) :
  safe any_resp (calls_on l) I m -> I x ->
  wpM R any_call m h x (fun _ x' h' =>
    I x' /\ agree_off l (state_after x0 h) (state_after x0 h')).
Proof. intros Hm Hx. by apply wpM_any, wpM_calls_on, Hm. Qed.
End rules.
End frame.
