(* ===== verification/Replay.v ===== *)
(** * What a history makes of a project

    [project_after] replays the calls of a history on the project its listings started
    from; [faithful] says that the APIs show the replayed project.  A computation that
    makes no call on a part of the project keeps that part ([keeps_part]). *)

From S2P Require Import Prelude Go Net Prog Sdk Types Cloud Ledger Scope Client.
From S2P Require Import Frame Firewall Convergence.
#[local] Open Scope caps_scope.

(** ** The effect of the calls

    One function for each field of [project]; a call that fails changes nothing. *)

Definition without {A} (id_of : A -> ID) (id : ID) (xs : list A) : list A :=
  List.filter (fun x => negb (id_of x =?s id)) xs.

Definition update_group (req : UpdateSecurityGroupRequest) (g : InstanceSecurityGroup) :=
  if isg_ID g =?s usg_SecurityGroupID req then
    {| isg_ID := isg_ID g; isg_Name := isg_Name g; isg_Zone := isg_Zone g;
       isg_InboundDefaultPolicy := usg_InboundDefaultPolicy req;
       isg_OutboundDefaultPolicy := usg_OutboundDefaultPolicy req;
       isg_EnableDefaultSecurity :=
         opt_default (isg_EnableDefaultSecurity g) (usg_EnableDefaultSecurity req) |}
  else g.

Definition update_acl (req : UpdateACLRequest) (acl : ACL) :=
  if acl_ID acl =?s uacl_ACLID req then
    {| acl_ID := acl_ID acl; acl_Name := uacl_Name req; acl_Match := Some (uacl_Match req);
       acl_Action := Some (uacl_Action req); acl_Index := uacl_Index req |}
  else acl.

(** What an answered call makes of a value; [f] says it call by call. *)
Definition after {A} (f : forall c, cloud_val c -> A -> A) (e : event cloud) (x : A) : A :=
  match e with
  | Ev c (ROk a) => f c a x
  | Ev c (RErr _) => x
  end.

Definition groups_after (c : cloud_call) : cloud_val c -> list InstanceSecurityGroup -> _ :=
  match c return cloud_val c -> list InstanceSecurityGroup -> list InstanceSecurityGroup with
  | CreateSecurityGroup _ => fun g xs => xs ++ [g]
  | UpdateSecurityGroup req => fun _ xs => update_group req <$> xs
  | DeleteSecurityGroup _ id => fun _ xs => without isg_ID id xs
  | _ => fun _ xs => xs
  end.

Definition rules_after (c : cloud_call) : cloud_val c -> (ID -> list InstanceSecurityGroupRule) -> _ :=
  match c return cloud_val c -> (ID -> list InstanceSecurityGroupRule) -> ID -> _ with
  | SetSecurityGroupRules _ id reqs => fun _ rules id' =>
      if id' =?s id then listed_rule <$> reqs else rules id'
  | _ => fun _ rules => rules
  end.

Definition networks_after (c : cloud_call) : cloud_val c -> list PrivateNetwork -> _ :=
  match c return cloud_val c -> list PrivateNetwork -> list PrivateNetwork with
  | CreatePrivateNetwork _ _ _ => fun pn xs => xs ++ [pn]
  | DeletePrivateNetwork _ id => fun _ xs => without pn_ID id xs
  | _ => fun _ xs => xs
  end.

Definition gateways_after (c : cloud_call) : cloud_val c -> list Gateway -> _ :=
  match c return cloud_val c -> list Gateway -> list Gateway with
  | CreateGateway _ _ _ _ => fun gw xs => xs ++ [gw]
  | DeleteGateway _ id => fun _ xs => without gw_ID id xs
  | _ => fun _ xs => xs
  end.

Definition attachments_after (c : cloud_call) : cloud_val c -> (ID -> ID -> Z) -> _ :=
  match c return cloud_val c -> (ID -> ID -> Z) -> ID -> ID -> Z with
  | CreateGatewayNetwork _ gwID pnID _ _ _ => fun _ n gwID' pnID' =>
      n gwID' pnID' + (if (gwID' =?s gwID) && (pnID' =?s pnID) then 1 else 0)
  | _ => fun _ n => n
  end.

Definition lbs_after (c : cloud_call) : cloud_val c -> list LB -> _ :=
  match c return cloud_val c -> list LB -> list LB with
  | CreateLB _ _ _ _ => fun lb xs => xs ++ [lb]
  | DeleteLB _ id _ => fun _ xs => without lb_ID id xs
  | _ => fun _ xs => xs
  end.

Definition lb_networks_after (c : cloud_call) : cloud_val c -> (ID -> list ID) -> _ :=
  match c return cloud_val c -> (ID -> list ID) -> ID -> list ID with
  | AttachPrivateNetwork _ lbID pnID => fun _ f lbID' =>
      if lbID' =?s lbID then f lbID' ++ [pnID] else f lbID'
  | _ => fun _ f => f
  end.

Definition backends_after (c : cloud_call) : cloud_val c -> (ID -> list Backend) -> _ :=
  match c return cloud_val c -> (ID -> list Backend) -> ID -> list Backend with
  | CreateBackend _ lbID _ _ _ _ => fun b f lbID' =>
      if lbID' =?s lbID then f lbID' ++ [b] else f lbID'
  | DeleteBackend _ id => fun _ f lbID' => without be_ID id (f lbID')
  | _ => fun _ f => f
  end.

Definition frontends_after (c : cloud_call) : cloud_val c -> (ID -> list Frontend) -> _ :=
  match c return cloud_val c -> (ID -> list Frontend) -> ID -> list Frontend with
  | CreateFrontend _ lbID _ _ _ => fun x f lbID' =>
      if lbID' =?s lbID then f lbID' ++ [x] else f lbID'
  | DeleteFrontend _ id => fun _ f lbID' => without fe_ID id (f lbID')
  | _ => fun _ f => f
  end.

Definition acls_after (c : cloud_call) : cloud_val c -> (ID -> string -> list ACL) -> _ :=
  match c return cloud_val c -> (ID -> string -> list ACL) -> ID -> string -> list ACL with
  | CreateACL req => fun acl f frontendID name =>
      if (frontendID =?s cacl_FrontendID req) && (name =?s cacl_Name req)
      then f frontendID name ++ [acl] else f frontendID name
  | UpdateACL req => fun _ f frontendID name => update_acl req <$> f frontendID name
  | DeleteACL _ id => fun _ f frontendID name => without acl_ID id (f frontendID name)
  | _ => fun _ f => f
  end.

(** The gateways attached to a network appear in its listing. *)
Definition project_step (p : project) (e : event cloud) : project :=
  {| pr_groups := after groups_after e (pr_groups p);
     pr_rules := after rules_after e (pr_rules p);
     pr_networks := after networks_after e (pr_networks p);
     pr_gateways := after gateways_after e (pr_gateways p);
     pr_attachments := after attachments_after e (pr_attachments p);
     pr_network_gateways :=
       match e with
       | Ev (CreateGatewayNetwork _ gwID pnID _ _ _) (ROk _) => fun pnID' =>
           if pnID' =?s pnID
           then pr_network_gateways p pnID' ++ List.filter (fun gw => gw_ID gw =?s gwID) (pr_gateways p)
           else pr_network_gateways p pnID'
       | _ => pr_network_gateways p
       end;
     pr_lbs := after lbs_after e (pr_lbs p);
     pr_lb_networks := after lb_networks_after e (pr_lb_networks p);
     pr_backends := after backends_after e (pr_backends p);
     pr_frontends := after frontends_after e (pr_frontends p);
     pr_acls := after acls_after e (pr_acls p) |}.

Definition project_after : project -> trace -> project := state_after project_step.

Lemma project_after_snoc p h e : project_after p (h ++ [e]) = project_step (project_after p h) e.
Proof. apply state_after_snoc. Qed.

(** ** The answers *)

(** A created resource is as requested, under an identifier of its own. *)
Definition created_as (p : project) (c : cloud_call) : cloud_val c -> Prop :=
  match c return cloud_val c -> Prop with
  | CreateSecurityGroup req => fun g =>
      isg_Name g = csg_Name req /\ isg_Zone g = csg_Zone req /\
      isg_InboundDefaultPolicy g = csg_InboundDefaultPolicy req /\
      isg_OutboundDefaultPolicy g = csg_OutboundDefaultPolicy req /\
      csg_EnableDefaultSecurity req = Some (isg_EnableDefaultSecurity g) /\
      isg_ID g ∉ isg_ID <$> pr_groups p
  | CreatePrivateNetwork _ name _ => fun pn => pn_Name pn = name
  | CreateGateway _ name _ _ => fun gw => gw_Name gw = name
  | CreateLB _ name _ _ => fun lb => lb_Name lb = name
  | CreateBackend _ _ name _ _ _ => fun b => be_Name b = name
  | CreateFrontend _ _ name _ _ => fun f => fe_Name f = name
  | CreateACL req => fun acl =>
      acl_Name acl = cacl_Name req /\ acl_is (cacl_Match req) (cacl_Action req) (cacl_Index req) acl /\
      forall name acl', acl' ∈ pr_acls p (cacl_FrontendID req) name -> acl_ID acl' <> acl_ID acl
  | _ => fun _ => True
  end.

(** The APIs show the project as the calls of the history made it out of [p]. *)
Definition faithful (p : project) : rely := fun h c r =>
  shows (project_after p h) h c r /\
  match r with ROk x => created_as (project_after p h) c x | RErr _ => True end.

(** The outcomes that count. *)
Definition on_success {S A} (P : A -> S -> trace -> Prop) : outcome A -> S -> trace -> Prop :=
  fun oa s h => match oa with Ok a => P a s h | _ => True end.

(** ** Lists of resources *)

Section lists.
Context {A : Type} (id_of : A -> ID).
Implicit Types (xs : list A).

Lemma without_spec id xs x : x ∈ without id_of id xs <-> x ∈ xs /\ id_of x <> id.
Proof.
  unfold without. rewrite list_elem_of_In, filter_In, <- list_elem_of_In.
  rewrite negb_true_iff, String.eqb_neq. done.
Qed.

Lemma without_NoDup id xs : NoDup (id_of <$> xs) -> NoDup (id_of <$> without id_of id xs).
Proof.
  induction xs as [|x xs IH]; [done|]. rewrite fmap_cons, NoDup_cons. intros [Hx Hnd].
  unfold without. simpl. destruct (negb _); [|by apply IH]. rewrite fmap_cons, NoDup_cons.
  split; [|by apply IH]. intros (y & E & Hy)%list_elem_of_fmap. apply Hx, list_elem_of_fmap.
  exists y. split; [done|]. by apply without_spec in Hy as [].
Qed.

Lemma same_id xs x y :
  NoDup (id_of <$> xs) -> x ∈ xs -> y ∈ xs -> id_of x = id_of y -> x = y.
Proof.
  induction xs as [|z xs IH]; [by intros _ ?%not_elem_of_nil|].
  rewrite fmap_cons, NoDup_cons. intros [Hz Hnd] [->|Hx]%elem_of_cons [->|Hy]%elem_of_cons E; auto.
  - destruct Hz. rewrite E. by apply list_elem_of_fmap_2.
  - destruct Hz. rewrite <- E. by apply list_elem_of_fmap_2.
Qed.

Lemma find_app (k : A -> bool) xs ys :
  List.find k (xs ++ ys) = match List.find k xs with Some x => Some x | None => List.find k ys end.
Proof. induction xs as [|x xs IH]; [done|]. simpl. by destruct (k x). Qed.

Lemma find_without (k : A -> bool) id xs :
  (forall x, x ∈ xs -> id_of x = id -> k x = false) ->
  List.find k (without id_of id xs) = List.find k xs.
Proof.
  induction xs as [|x xs IH]; intros Hk; [done|]. unfold without in *. simpl.
  assert (forall y, y ∈ xs -> id_of y = id -> k y = false) as Hk' by (intros; apply Hk; [by right|done]).
  destruct (id_of x =?s id) eqn:E; to_prop; cbn [negb].
  - rewrite (Hk x); [by apply IH|left|done].
  - simpl. destruct (k x); [done|]. by apply IH.
Qed.

Lemma find_map (k : A -> bool) (f : A -> A) xs :
  (forall x, k (f x) = k x) -> List.find k (f <$> xs) = f <$> List.find k xs.
Proof.
  intros Hk. induction xs as [|x xs IH]; [done|]. rewrite fmap_cons. simpl. rewrite Hk.
  by destruct (k x).
Qed.
End lists.

(** *** Resources of a name *)

(** At most one resource has the name [n]. *)
Definition at_most_one {A} (name : A -> string) (n : string) (xs : list A) : Prop :=
  forall x y, x ∈ xs -> y ∈ xs -> name x = n -> name y = n -> x = y.

Lemma at_most_one_snoc {A} (name : A -> string) n xs y :
  (forall x, x ∈ xs -> (name x =?s n) = false) -> at_most_one name n (xs ++ [y]).
Proof.
  intros Hn x x' [Hx| ->%list_elem_of_singleton]%elem_of_app [Hx'| ->%list_elem_of_singleton]%elem_of_app
    E E'; try done; exfalso; [apply Hn in Hx|apply Hn in Hx|apply Hn in Hx']; by to_prop.
Qed.

(** A new resource, in a listing that had none of its name. *)
Lemma exists_as_snoc {A} (name : A -> string) n (P : A -> Prop) xs y :
  (forall x, x ∈ xs -> (name x =?s n) = false) -> name y = n -> P y ->
  exists_as name n P (xs ++ [y]).
Proof.
  intros Hn E HP. split; [exists y; by rewrite elem_of_app; set_solver|].
  intros x [Hx| ->%list_elem_of_singleton]%elem_of_app E'; [|done].
  apply Hn in Hx. by to_prop.
Qed.

Lemma exists_as_found {A} (name : A -> string) n (P : A -> Prop) xs x :
  at_most_one name n xs -> x ∈ xs -> name x = n -> P x -> exists_as name n P xs.
Proof. intros Hu Hx E HP. split; [by exists x|]. intros y Hy Ey. by rewrite (Hu y x). Qed.

(** ** Parts of the project *)

Inductive part :=
  Firewalls | PrivateNetworks | Gateways | Balancers | Attachments | Backends | Frontends | ACLs.

#[export] Instance part_eq_dec : EqDecision part.
Proof. solve_decision. Defined.

(** The part that a call changes. *)
Definition part_of (c : cloud_call) : option part :=
  match c with
  | CreateSecurityGroup _ | UpdateSecurityGroup _ | DeleteSecurityGroup _ _
  | SetSecurityGroupRules _ _ _ => Some Firewalls
  | CreatePrivateNetwork _ _ _ | DeletePrivateNetwork _ _ => Some PrivateNetworks
  | CreateGateway _ _ _ _ | DeleteGateway _ _ | CreateGatewayNetwork _ _ _ _ _ _ => Some Gateways
  | CreateLB _ _ _ _ | DeleteLB _ _ _ => Some Balancers
  | AttachPrivateNetwork _ _ _ => Some Attachments
  | CreateBackend _ _ _ _ _ _ | DeleteBackend _ _ => Some Backends
  | CreateFrontend _ _ _ _ _ | DeleteFrontend _ _ => Some Frontends
  | CreateACL _ | UpdateACL _ | DeleteACL _ _ => Some ACLs
  | _ => None
  end.

Definition same_part (s : part) (p p' : project) : Prop :=
  match s with
  | Firewalls => pr_groups p' = pr_groups p /\ pr_rules p' = pr_rules p
  | PrivateNetworks => pr_networks p' = pr_networks p
  | Gateways => pr_gateways p' = pr_gateways p /\ pr_attachments p' = pr_attachments p /\
      pr_network_gateways p' = pr_network_gateways p
  | Balancers => pr_lbs p' = pr_lbs p
  | Attachments => pr_lb_networks p' = pr_lb_networks p
  | Backends => pr_backends p' = pr_backends p
  | Frontends => pr_frontends p' = pr_frontends p
  | ACLs => pr_acls p' = pr_acls p
  end.

#[export] Instance same_part_preorder s : PreOrder (same_part s).
Proof. split; [intros p; by destruct s|intros p1 p2 p3; destruct s; cbn; naive_solver congruence]. Qed.

Lemma project_step_part s p c r : part_of c <> Some s -> same_part s p (project_step p (CEv c r)).
Proof. destruct r as [a|e], s, c; cbn; auto; by intros []. Qed.

#[export] Instance project_framed : Framed project_step part_of same_part.
Proof. split; [apply _|apply project_step_part]. Qed.

(** The computation makes calls on the parts [l] only. *)
Definition on_parts (l : list part) : guarantee := calls_on part_of l.

Definition keeps_others {S A} (l : list part) (m : GoC S A) : Prop :=
  safe any_resp (on_parts l) (fun _ => True) m.

Definition same_others (l : list part) (p p' : project) : Prop := agree_off same_part l p p'.

#[export] Instance same_others_preorder l : PreOrder (same_others l).
Proof. apply agree_off_preorder with project_step part_of, _. Qed.

Section frame.
Context {S A : Type} (p0 : project) (l : list part).
Implicit Types (m : GoC S A) (Q : outcome A -> S -> trace -> Prop).

Lemma wpM_parts m h x R (G : guarantee) Q :
  wpM R G m h x Q -> keeps_others l m ->
  wpM R G m h x (fun oa x' h' =>
    Q oa x' h' /\ same_others l (project_after p0 h) (project_after p0 h')).
Proof. intros HQ Hk. by eapply (wpM_keeping project_step part_of same_part p0 l). Qed.

Lemma wpM_frame m h x R (I : S -> Prop) :
  safe any_resp (on_parts l) I m -> I x ->
  wpM R any_call m h x (fun _ x' h' =>
    I x' /\ same_others l (project_after p0 h) (project_after p0 h')).
Proof. apply (wpM_invariant project_step part_of same_part). Qed.
End frame.

(** ** Symbolic execution *)

(** Symbolic execution that remembers the answers. *)
Ltac settle_step :=
  let Hs := fresh "Hs" in let a := fresh "a" in let x := fresh "x" in
  let Ha := fresh "Ha" in let Hx := fresh "Hx" in let Ex := fresh "Ex" in
  let Hnone := fresh "Hnone" in let xs := fresh "xs" in
  lazymatch goal with
  | |- wpM _ _ (unless_Is ErrNoItemFound _) _ _ _ =>
      first
        [ eapply finder_unless_Is;
          [ apply _ | intros ? ? HH; exact HH | exact I
          | intros xs x [Hs _] Hx Ex; cbn in Hs, Hx; subst xs
          | intros xs [Hs _] Hnone; cbn in Hs, Hnone; subst xs | intros ? ? _ ? ]
        | eapply finder_unless_Is_single;
          [ apply _ | intros ? ? HH; exact HH | exact I
          | intros ? ? _ ? | intros ? _ ? | intros ? ? _ ? ] ]
  | |- wpM _ _ (remote _) _ _ _ =>
      apply wpM_remote; [exact I|intros a [Hs Ha]; cbn in Hs, Ha; try subst a|intros ? _]
  | _ => go_step
  end; cbn beta iota delta [outcome_wrap on_success] in *.
