(* ===== verification/SettledGroups.v ===== *)
(** * A pass that succeeds settles the security groups

    The provider deletes the groups that the spec does not name, then goes through the
    groups of the spec zone by zone.  [progress] says which turns are done. *)

From S2P Require Import Prelude Go Net Prog Sdk Types Cloud Ledger Scope Client.
From S2P Require Import SecurityGroup Simulation NoDuplicates ClusterValidation Firewall.
From S2P Require Import Convergence Replay.
#[local] Open Scope caps_scope.

Section settle.
Context `{SDK : ScwSDK} `{K8S : K8sLib}.
Context (p0 : project) (c : ClusterScope).
Implicit Types (h : trace).

Abbreviation P := (project_after p0).
Abbreviation settle_wp := (wpM (faithful p0) any_call).

Definition canonical (sg : SecurityGroup) : Prop :=
  Forall (fun rule => canonicalCIDR (rule_IPRange rule) = true) (policy_rules (sg_Inbound sg)) /\
  Forall (fun rule => canonicalCIDR (rule_IPRange rule) = true) (policy_rules (sg_Outbound sg)).

Lemma requests_listed direction rules reqs :
  Forall (fun rule => canonicalCIDR (rule_IPRange rule) = true) rules ->
  Forall2 (request_of direction) rules reqs ->
  Forall2 same_rule rules (listed_rule <$> reqs).
Proof.
  intros Hc Hr. rewrite Forall2_fmap_r. revert Hc. induction Hr as [|rule req rules reqs H _ IH];
    [by constructor|]. intros [Hc Hcs]%Forall_cons. constructor; [|by apply IH].
  by apply (same_rule_listed direction rule req H).
Qed.

Lemma of_direction_listed d d' rules reqs :
  Forall2 (request_of d') rules reqs ->
  of_direction d (listed_rule <$> reqs) = if decide (d' = d) then listed_rule <$> reqs else [].
Proof.
  induction 1 as [|rule req rules reqs (_ & _ & _ & _ & Hd) _ IH]; [by case_decide|].
  unfold of_direction in *. rewrite fmap_cons. simpl. rewrite Hd, IH.
  repeat case_decide; try case_bool_decide; congruence.
Qed.

(** The rules set by a pass agree with the spec once listed. *)
Lemma set_rules_agree sg inbound outbound :
  canonical sg ->
  Forall2 (request_of SecurityGroupRuleDirectionInbound) (policy_rules (sg_Inbound sg)) inbound ->
  Forall2 (request_of SecurityGroupRuleDirectionOutbound) (policy_rules (sg_Outbound sg)) outbound ->
  rules_agree sg (listed_rule <$> inbound ++ outbound).
Proof.
  intros [Hci Hco] Hi Ho. unfold rules_agree. rewrite fmap_app.
  assert (forall d l l', of_direction d (l ++ l') = of_direction d l ++ of_direction d l') as Happ
    by (intros; apply List.filter_app).
  rewrite !Happ, !(of_direction_listed _ _ _ _ Hi), !(of_direction_listed _ _ _ _ Ho).
  rewrite !decide_True, !decide_False, app_nil_r by done. cbn [app].
  split; by eapply requests_listed.
Qed.

(** The test that finds the group of [sg] in [zone]. *)
Definition key (sg : SecurityGroup) (zone : Zone) (g : InstanceSecurityGroup) : bool :=
  (isg_Name g =?s SecurityGroupName c (sg_Name sg)) && (isg_Zone g =?s zone).

Lemma key_update sg zone req g : key sg zone (update_group req g) = key sg zone g.
Proof. unfold update_group. by destruct (_ =?s _). Qed.

Lemma key_apart sg zone sg' zone' :
  sg_Name sg <> sg_Name sg' \/ zone <> zone' ->
  forall g, key sg zone g = true -> key sg' zone' g = false.
Proof.
  intros Hne g [En Ez]%andb_true_iff. to_prop. unfold key. apply andb_false_iff.
  destruct Hne as [Hn|Hz]; [left|right]; apply String.eqb_neq; [|congruence].
  rewrite En. by intros ?%SecurityGroupName_inj.
Qed.

(** Groups other than those of [sg] in [zone] are the same. *)
Definition only_group sg zone (l l' : list InstanceSecurityGroup) : Prop :=
  NoDup (isg_ID <$> l') /\
  (forall g', g' ∈ l' -> (exists g, g ∈ l /\ isg_Name g = isg_Name g') \/ key sg zone g' = true) /\
  forall sg' zone', (forall g, key sg zone g = true -> key sg' zone' g = false) ->
    List.find (key sg' zone') l' = List.find (key sg' zone') l.

Lemma only_group_refl sg zone l : NoDup (isg_ID <$> l) -> only_group sg zone l l.
Proof. intros Hnd. split; [done|]. split; [|done]. intros g Hg. left. by exists g. Qed.

Lemma only_group_update sg zone l g req :
  NoDup (isg_ID <$> l) -> List.find (key sg zone) l = Some g ->
  usg_SecurityGroupID req = isg_ID g -> only_group sg zone l (update_group req <$> l).
Proof.
  intros Hnd [Hg Hk]%find_Some_iff Eid. split_and!.
  - replace (isg_ID <$> (update_group req <$> l)) with (isg_ID <$> l); [done|].
    rewrite <- list_fmap_compose. apply list_fmap_ext. intros i x _. cbn. unfold update_group.
    by destruct (_ =?s _).
  - intros g' (x & -> & Hx)%list_elem_of_fmap. left. exists x. split; [done|].
    unfold update_group. by destruct (_ =?s _).
  - intros sg' zone' Hap. rewrite find_map by apply key_update.
    destruct (List.find (key sg' zone') l) as [g'|] eqn:E; [|done]. simpl. f_equal.
    apply find_Some_iff in E as [Hg' Hk']. unfold update_group.
    destruct (_ =?s _) eqn:Ei; [|done]. to_prop. rewrite Eid in Ei.
    rewrite (same_id isg_ID l g' g Hnd Hg' Hg Ei) in Hk'. by rewrite (Hap g Hk) in Hk'.
Qed.

Lemma only_group_create sg zone l g :
  NoDup (isg_ID <$> l) -> isg_ID g ∉ isg_ID <$> l -> key sg zone g = true ->
  only_group sg zone l (l ++ [g]).
Proof.
  intros Hnd Hf Hk. split_and!.
  - rewrite fmap_app. apply NoDup_app. split; [done|]. split; [|apply NoDup_singleton].
    by intros id Hid ->%list_elem_of_singleton.
  - intros g' [Hg'| ->%list_elem_of_singleton]%elem_of_app; [left; by exists g'|by right].
  - intros sg' zone' Hap. rewrite find_app. simpl. rewrite (Hap g Hk).
    by destruct (List.find _ l).
Qed.

(** The group of [sg] in [zone], its rules apart. *)
Definition group_ready h sg zone (group : InstanceSecurityGroup) : Prop :=
  exists g, List.find (key sg zone) (pr_groups (P h)) = Some g /\ isg_ID g = isg_ID group /\
    policies sg (isg_InboundDefaultPolicy g) (isg_OutboundDefaultPolicy g) /\
    isg_EnableDefaultSecurity g = false.

Lemma ensureInstanceSG_settles sg zone G0 h :
  NoDup (isg_ID <$> pr_groups (P h)) ->
  List.find (key sg zone) (pr_groups (P h)) = List.find (key sg zone) G0 ->
  settle_wp (SecurityGroup.ensureInstanceSG c G0 sg zone) h c (on_success (fun group c' h' =>
    c' = c /\ group_ready h' sg zone group /\ pr_rules (P h') = pr_rules (P h) /\
    only_group sg zone (pr_groups (P h)) (pr_groups (P h')))).
Proof.
  intros Hnd Efind. unfold SecurityGroup.ensureInstanceSG.
  destruct (defaultPolicy (sg_Inbound sg)) as [pin|e|] eqn:Epin; [|by repeat go_step..].
  destruct (defaultPolicy (sg_Outbound sg)) as [pout|e|] eqn:Epout; [|by repeat go_step..].
  do 4 go_step. fold (key sg zone). rewrite <- Efind.
  destruct (List.find (key sg zone) (pr_groups (P h))) as [g|] eqn:E.
  - pose proof E as [Hg Hk]%find_Some_iff. go_step. destruct (_ || _ || _) eqn:Ediff.
    + go_step. apply wpM_remote; [exact I|intros [] _|done]. cbn [outcome_wrap]. go_step.
      split; [done|]. rewrite project_after_snoc. cbn. split; [|split; [done|]].
      * eexists. rewrite project_after_snoc. cbn. rewrite find_map by apply key_update. rewrite E.
        split; [reflexivity|]. cbn. unfold update_group. cbn. by rewrite String_eqb_refl.
      * by apply (only_group_update sg zone _ g).
    + apply orb_false_iff in Ediff as [[Ein Eout]%orb_false_iff Ed].
      rewrite negb_false_iff, bool_decide_eq_true in Ein, Eout. do 2 go_step. split; [done|].
      split; [|by split; [|apply only_group_refl]]. exists g. rewrite <- E.
      split_and!; [done|done| |done]. split; congruence.
  - go_step. apply wpM_remote; [exact I|intros g [_ Hc]|done]. cbn in Hc. cbn [outcome_wrap].
    destruct Hc as (En & Ez & Ei & Eo & Ed & Hf). split; [done|].
    assert (key sg zone g = true) as Hk by (unfold key; by rewrite En, Ez, !String_eqb_refl).
    rewrite project_after_snoc. cbn. split; [|split; [done|by apply only_group_create]].
    exists g. rewrite project_after_snoc. cbn. rewrite find_app, E. simpl. rewrite Hk.
    split_and!; [done..| |congruence]. split; congruence.
Qed.

Lemma ensureSGRules_settles sg zone group h :
  valid_security_group sg -> canonical sg ->
  settle_wp (SecurityGroup.ensureSGRules sg zone group) h c (on_success (fun _ c' h' =>
    c' = c /\ pr_groups (P h') = pr_groups (P h) /\
    rules_agree sg (pr_rules (P h') (isg_ID group)) /\
    forall id, id <> isg_ID group -> pr_rules (P h') id = pr_rules (P h) id)).
Proof.
  intros [Hin Hout] Hcan. pose proof (valid_policy_rules _ Hin) as Hvin.
  pose proof (valid_policy_rules _ Hout) as Hvout.
  unfold SecurityGroup.ensureSGRules. go_step. go_step.
  apply wpM_remote; [exact I|intros rules [Hs _]|done]. cbn in Hs. subst rules.
  cbn [outcome_wrap]. set (rules := pr_rules (P h) (isg_ID group)).
  fold (of_direction SecurityGroupRuleDirectionInbound rules).
  fold (of_direction SecurityGroupRuleDirectionOutbound rules).
  assert (rules_agree sg rules \/ ~ rules_agree sg rules) as Hcase.
  { unfold rules_agree. rewrite <- !compareRules_true.
    destruct (compareRules_valid _ (of_direction SecurityGroupRuleDirectionInbound rules) Hvin)
      as [[] ->], (compareRules_valid _ (of_direction SecurityGroupRuleDirectionOutbound rules) Hvout)
      as [[] ->]; naive_solver. }
  destruct (compareRules_valid _ (of_direction SecurityGroupRuleDirectionInbound rules) Hvin)
    as [bin Ein].
  destruct (compareRules_valid _ (of_direction SecurityGroupRuleDirectionOutbound rules) Hvout)
    as [bout Eout].
  do 3 go_step. rewrite Ein. cbn [outcome_wrap]. do 3 go_step. rewrite Eout. cbn [outcome_wrap].
  destruct (negb bin || negb bout) eqn:Ediff.
  - destruct (valid_rules_requests_from 0 _ SecurityGroupRuleDirectionInbound Hvin)
      as (inbound & -> & Hi & _).
    destruct (valid_rules_requests_from 0 _ SecurityGroupRuleDirectionOutbound Hvout)
      as (outbound & -> & Ho & _).
    do 5 go_step. apply wpM_remote; [exact I|intros [] _|done]. cbn [outcome_wrap].
    split; [done|]. rewrite !project_after_snoc. cbn.
    rewrite String_eqb_refl. split; [done|]. split; [by apply set_rules_agree|].
    intros id Hid. by rewrite (proj2 (String.eqb_neq _ _) Hid).
  - apply orb_false_iff in Ediff as [->%negb_false_iff ->%negb_false_iff].
    go_step. split; [done|]. rewrite project_after_snoc. cbn. split; [done|]. split; [|done].
    split; by apply compareRules_true.
Qed.

(** *** The loops *)

Context (sgs : list SecurityGroup) (G0 : list InstanceSecurityGroup).
Context (Hvalid : Forall valid_security_group sgs) (Hcanonical : Forall canonical sgs).
Context (Hnames : NoDup (sg_Name <$> sgs)).
Let zones : list Zone := Zones c Instance_Zones.
Context (Hzones : NoDup zones).

(** The groups in [D] are settled, the others are as they were listed. *)
Definition progress (D : SecurityGroup -> Zone -> Prop) h : Prop :=
  NoDup (isg_ID <$> pr_groups (P h)) /\
  (forall g, g ∈ pr_groups (P h) -> exists sg, sg ∈ sgs /\ SecurityGroupName c (sg_Name sg) = isg_Name g) /\
  (forall sg zone, sg ∈ sgs -> zone ∈ zones -> D sg zone -> group_settled (P h) c sg zone) /\
  forall sg zone, sg ∈ sgs -> zone ∈ zones -> ~ D sg zone ->
    List.find (key sg zone) (pr_groups (P h)) = List.find (key sg zone) G0.

Lemma progress_iff D D' h :
  (forall sg zone, sg ∈ sgs -> zone ∈ zones -> D sg zone <-> D' sg zone) ->
  progress D h -> progress D' h.
Proof.
  intros E (? & ? & Hd & Ht). split_and!; [done|done| |]; intros sg zone Hsg Hz Hin.
  - by apply Hd, E.
  - apply Ht; [done..|]. by rewrite E.
Qed.

Lemma names_apart sg sg' : sg ∈ sgs -> sg' ∈ sgs -> sg <> sg' -> sg_Name sg <> sg_Name sg'.
Proof. intros H H' Hne E. by apply Hne, (same_id sg_Name sgs). Qed.

Lemma pair_apart sg zone sg' zone' :
  sg ∈ sgs -> sg' ∈ sgs -> ~ (sg' = sg /\ zone' = zone) ->
  forall g, key sg zone g = true -> key sg' zone' g = false.
Proof.
  intros Hsg Hsg' Hne. apply key_apart. destruct (String.eqb_spec zone zone') as [->|]; [|by right].
  left. apply names_apart; [done..|]. intros ->. by apply Hne.
Qed.

Lemma turn_settles D sg zone h :
  sg ∈ sgs -> zone ∈ zones -> ~ D sg zone -> progress D h ->
  settle_wp (instanceSG ← SecurityGroup.ensureInstanceSG c G0 sg zone;
    SecurityGroup.ensureSGRules sg zone instanceSG) h c
    (on_success (fun _ c' h' => c' = c /\
      progress (fun sg' zone' => D sg' zone' \/ (sg' = sg /\ zone' = zone)) h')).
Proof.
  intros Hsg Hz HD (Hnd & Hwanted & Hdone & Htodo). go_step.
  eapply wpM_mono; [apply ensureInstanceSG_settles; auto|].
  intros [group|e|] c' h1 H1; cbn in H1; [|done..]. destruct H1 as (-> & Hg & Er & Hnd1 & Hin1 & Hf1).
  eapply wpM_mono.
  { rewrite Forall_forall in Hvalid, Hcanonical. apply ensureSGRules_settles; auto. }
  intros [[]|e|] c' h2 H2; cbn in H2; [|done..]. destruct H2 as (-> & Eg & Hagree & Er2).
  split; [done|]. destruct Hg as (g & Efind & Eid & Hpol & Ed). split_and!.
  - by rewrite Eg.
  - rewrite Eg. intros g' Hg'. destruct (Hin1 g' Hg') as [(g1 & Hg1 & En)|Hk].
    + rewrite <- En. by apply Hwanted.
    + apply andb_true_iff in Hk as [En _]. to_prop. by exists sg.
  - intros sg' zone' Hsg' Hz' [Hd|[-> ->]].
    2: { exists g. rewrite Eg, Eid. by split_and!. }
    assert (forall g, key sg zone g = true -> key sg' zone' g = false) as Hap.
    { apply pair_apart; [done..|]. by intros [-> ->]. }
    destruct (Hdone sg' zone' Hsg' Hz' Hd) as (g' & Ef & ? & ? & ?). exists g'.
    change (List.find _ (pr_groups (P h))) with (List.find (key sg' zone') (pr_groups (P h))) in Ef.
    rewrite <- (Hf1 sg' zone' Hap) in Ef. rewrite Eg, Er2, Er; [done|]. intros Ei.
    apply find_Some_iff in Efind as [Hg Hk], Ef as [Hg' Hk'].
    assert (g = g') as <- by (apply (same_id isg_ID _ _ _ Hnd1); congruence).
    by rewrite (Hap g Hk) in Hk'.
  - intros sg' zone' Hsg' Hz' Hd. rewrite Eg, Hf1 by (apply pair_apart; tauto). apply Htodo; tauto.
Qed.

Lemma deleteExtra_settles h :
  pr_groups (P h) = G0 -> NoDup (isg_ID <$> G0) ->
  settle_wp (SecurityGroup.deleteExtraSecurityGroups c sgs G0) h c
    (on_success (fun _ c' h' => c' = c /\ progress (fun _ _ => False) h')).
Proof.
  intros EG Hnd. unfold SecurityGroup.deleteExtraSecurityGroups.
  set (wanted g := exists sg, sg ∈ sgs /\ SecurityGroupName c (sg_Name sg) = isg_Name g).
  eapply (wpM_for_each _ _ _ _ _ _ (fun rest c' h' => c' = c /\
    NoDup (isg_ID <$> pr_groups (P h')) /\
    (forall g, g ∈ pr_groups (P h') -> g ∈ G0 /\ (wanted g \/ g ∈ rest)) /\
    forall sg zone, sg ∈ sgs ->
      List.find (key sg zone) (pr_groups (P h')) = List.find (key sg zone) G0)).
  - rewrite EG. split_and!; [done|done| |done]. intros g Hg. auto.
  - intros c' h' (-> & Hnd' & Hin & Hf). split; [done|]. split_and!; [done| |done|auto].
    intros g Hg. destruct (Hin g Hg) as [_ [?|?%not_elem_of_nil]]; done.
  - intros x rest c' h' (-> & Hnd' & Hin & Hf) Hx. destruct (negb _) eqn:Ew.
    + to_prop. rewrite existsb_not_elem_of in Ew.
      assert (forall g, g ∈ pr_groups (P h') -> isg_ID g = isg_ID x -> g = x) as Hsame.
      { intros g Hg Ei. destruct (Hin g Hg) as [Hg0 _]. by apply (same_id isg_ID G0). }
      go_step. apply wpM_remote; [exact I|intros [] _|done]. cbn [outcome_wrap].
      rewrite project_after_snoc. cbn. split_and!; [done|by apply without_NoDup| |].
      * intros g [Hg Hid]%without_spec. destruct (Hin g Hg) as [? Hor]. split; [done|].
        destruct Hor as [?|[->|?]%elem_of_cons]; [by left|done|by right].
      * intros sg zone Hsg. rewrite <- (Hf sg zone Hsg). apply find_without.
        intros g Hg Hid. rewrite (Hsame g Hg Hid). apply andb_false_iff. left.
        apply String.eqb_neq. intros E. specialize (Ew sg Hsg). cbn in Ew.
        by rewrite E, String_eqb_refl in Ew.
    + go_step. split_and!; [done|done| |done]. intros g Hg. destruct (Hin g Hg) as [? Hor].
      split; [done|]. destruct Hor as [?|[->|?]%elem_of_cons]; [by left| |by right].
      left. apply negb_false_iff, existsb_elem_of in Ew as (sg & Hsg & E). to_prop. by exists sg.
Qed.

Lemma ensureSecurityGroups_settles h :
  pr_groups (P h) = G0 -> NoDup (isg_ID <$> G0) ->
  settle_wp (SecurityGroup.ensureSecurityGroups sgs) h c (on_success (fun _ c' h' =>
    c' = c /\ progress (fun sg zone => sg ∈ sgs /\ zone ∈ zones) h')).
Proof.
  intros EG Hnd. unfold SecurityGroup.ensureSecurityGroups. do 4 go_step.
  apply wpM_remote; [exact I|intros groups [Hs _]|done]. cbn in Hs. subst groups. rewrite EG.
  cbn [outcome_wrap]. go_step.
  eapply wpM_mono; [apply deleteExtra_settles; [by rewrite project_after_snoc|done]|].
  intros [[]|e|] c' h1 H1; cbn in H1; [destruct H1 as [-> Hp]|done..].
  eapply (wpM_for_each _ _ _ _ _ _ (fun rest c' h' => c' = c /\ NoDup rest /\
    progress (fun sg _ => sg ∉ rest) h')).
  - split; [done|]. split; [by eapply NoDup_fmap_1|].
    eapply progress_iff, Hp. intros sg zone Hsg _. by split.
  - intros c' h' (-> & _ & Hp'). split; [done|]. eapply progress_iff, Hp'.
    intros sg zone Hsg Hz. split; [done|]. intros _. apply not_elem_of_nil.
  - intros sg rest c' h' (-> & [Hni Hnd']%NoDup_cons & Hp') Hsg.
    eapply (wpM_for_each _ _ _ _ _ _ (fun zrest c' h' => c' = c /\ NoDup zrest /\
      progress (fun sg' zone' => sg' ∉ sg :: rest \/ (sg' = sg /\ zone' ∉ zrest)) h')).
    + split; [done|]. split; [done|]. eapply progress_iff, Hp'. intros sg' zone' _ Hz. naive_solver.
    + intros c' h'' (-> & _ & Hp''). split; [done|]. split; [done|]. eapply progress_iff, Hp''.
      intros sg' zone' Hsg' _. cbn beta. rewrite not_elem_of_cons. split; [naive_solver|]. intros Hni'.
      destruct (decide (sg_Name sg' = sg_Name sg)) as [E|]; [right|left; naive_solver].
      split; [by apply (same_id sg_Name sgs)|apply not_elem_of_nil].
    + intros zone zrest c' h'' (-> & [Hnz Hndz]%NoDup_cons & Hp'') Hz.
      eapply wpM_mono; [eapply turn_settles; [done|done| |exact Hp'']|].
      { intros [Hn|[_ Hn]]; apply Hn; left. }
      intros [[]|e|] c2 h2 H2; cbn in H2; [|done..]. destruct H2 as [-> Hp2].
      split; [done|]. split; [done|]. eapply progress_iff, Hp2. intros sg' zone' _ _.
      cbn beta. rewrite !not_elem_of_cons. destruct (decide (zone' = zone)) as [->|]; naive_solver.
Qed.
End settle.

(** ** The pass *)

(** The ranges of the rules are written as the API lists them. *)
Definition canonical_ranges (c : ClusterScope) : Prop :=
  Forall canonical (spec_SecurityGroups (cs_Spec c)).

Lemma sg_Reconcile_settles `{SDK : ScwSDK} (p0 : project) (c : ClusterScope) (h : trace) :
  (forall region, NoDup (Region_GetZones region)) ->
  valid_cluster (cs_ScalewayCluster c) -> canonical_ranges c ->
  NoDup (isg_ID <$> pr_groups (project_after p0 h)) ->
  wpM (faithful p0) any_call SecurityGroup.Reconcile h c (on_success (fun _ c' h' =>
    c' = c /\ groups_settled (project_after p0 h') c)).
Proof.
  intros Hz Hv Hcan Hnd. unfold SecurityGroup.Reconcile. do 2 go_step.
  change (match scs_Network (cs_Spec c) with Some network => ns_SecurityGroups network | None => [] end)
    with (spec_SecurityGroups (cs_Spec c)).
  eapply wpM_mono.
  { eapply ensureSecurityGroups_settles; [by apply valid_cluster_security_groups|exact Hcan
      |exact (valid_cluster_distinct_names _ Hv)|by apply Zones_NoDup|reflexivity|exact Hnd]. }
  intros [[]|e|] c' h' H; cbn in H; [|done..].
  destruct H as (-> & _ & Hw & Hd & _). split; [done|]. split; [exact Hw|]. auto.
Qed.
