(* ===== verification/SettledNetwork.v ===== *)
(** * A pass that succeeds settles the network and its gateway

    The Private Network is found or created and recorded, then the Public Gateway is found
    or created and attached to it. *)

From S2P Require Import Prelude Go Net Prog Sdk Types Cloud Ledger Scope Client.
From S2P Require Vpc Vpcgw.
From S2P Require Import Networks Convergence Replay.
#[local] Open Scope caps_scope.

Section settle.
Context `{SDK : ScwSDK} `{K8S : K8sLib}.
Context (p0 : project).
Implicit Types (h : trace) (c : ClusterScope).

Abbreviation P := (project_after p0).
Abbreviation settle_wp := (wpM (faithful p0) any_call).

(** ** The network *)

(** The recorded network is the one a pass may use. *)
Definition network_fixed h c : Prop :=
  (ShouldManagePrivateNetwork c = true -> network_settled (P h) c) /\
  forall id, network_of (P h) c id -> PrivateNetworkID c = Ok id.

Lemma getOrCreatePN_settles c h :
  at_most_one pn_Name (Cluster_Name c) (pr_networks (P h)) ->
  settle_wp Vpc.getOrCreatePN h c (on_success (fun pn c' h' => c' = c /\
    exists_as pn_Name (Cluster_Name c) (fun x => x = pn) (pr_networks (P h')) /\
    pn_DHCPEnabled pn = true)).
Proof.
  intros Hu. unfold Vpc.getOrCreatePN. do 3 go_step. settle_step; [| |by repeat settle_step].
  - to_prop. do 2 settle_step. destruct (pn_DHCPEnabled x) eqn:Ed; cbn [negb]; settle_step; [|done].
    rewrite project_after_snoc. cbn. split_and!; [done| |done]. by apply (exists_as_found _ _ _ _ x).
  - do 4 (settle_step; try done). do 4 (settle_step; try done).
    eapply (wpM_mono _ _ _ _ _ (fun oa c' h' => c' = c /\ h' = _)).
    { repeat settle_step; by split. }
    intros [subnets|e|] c' h' [-> ->]; [|done..].
    apply wpM_remote; [exact I|intros pn [_ Hc]|done]. cbn in Hc.
    destruct (pn_DHCPEnabled pn) eqn:Ed; cbn [negb]; settle_step; [|done]. rewrite !project_after_snoc. cbn.
    split_and!; [done| |done]. by apply exists_as_snoc.
Qed.

Lemma vpc_settles c h :
  at_most_one pn_Name (Cluster_Name c) (pr_networks (P h)) ->
  settle_wp Vpc.Reconcile h c (on_success (fun _ c' h' =>
    (c' = c \/ exists pnID, records_network pnID c c') /\ network_fixed h' c')).
Proof.
  intros Hu. unfold Vpc.Reconcile. do 2 go_step.
  destruct (ShouldManagePrivateNetwork c) eqn:Em; cbn [negb].
  2:{ go_step. split; [by left|]. unfold network_fixed, network_of. by rewrite Em. }
  do 2 go_step. eapply wpM_mono; [by apply getOrCreatePN_settles|].
  intros [pn|e|] c' h' H; cbn in H; [|done..]. destruct H as (-> & [(x & Hx & En) Hall] & Hd).
  cbn [outcome_wrap]. apply SetStatus_spec; [by apply should_manage_spec|].
  intros c' Hrec. split; [by right; eexists|]. destruct Hrec as (Eid & Es & _ & _ & Em' & _).
  assert (Cluster_Name c' = Cluster_Name c) as En' by (unfold Cluster_Name; by rewrite Em').
  assert (ShouldManagePrivateNetwork c' = true) as Em1
    by (unfold ShouldManagePrivateNetwork, HasPrivateNetwork in *; by rewrite Es).
  unfold network_fixed, network_settled, network_of. rewrite Em1, En'. split.
  - intros _. split; [by exists x|]. intros y Hy Ey. by rewrite (Hall y Hy Ey).
  - intros id (y & Hy & Ey & <-). by rewrite (Hall y Hy Ey).
Qed.

(** ** The gateway *)

Lemma getOrCreateIP_keeps zone ip c :
  safe any_resp (on_parts []) (fun c' => c' = c) (Vpcgw.getOrCreateIP zone ip).
Proof. unfold Vpcgw.getOrCreateIP. free_auto. Qed.

Lemma getOrCreateGateway_settles zone c h :
  at_most_one gw_Name (Cluster_Name c) (pr_gateways (P h)) ->
  settle_wp (Vpcgw.getOrCreateGateway zone) h c (on_success (fun gw c' h' => c' = c /\
    exists_as gw_Name (Cluster_Name c) (fun x => x = gw) (pr_gateways (P h')))).
Proof.
  intros Hu. unfold Vpcgw.getOrCreateGateway. do 4 go_step.
  settle_step; [| |by repeat settle_step].
  - to_prop. settle_step. rewrite project_after_snoc. split; [done|]. by apply (exists_as_found _ _ _ _ x).
  - do 3 (settle_step; try done). settle_step.
    eapply wpM_mono; [eapply wpM_frame; [apply (getOrCreateIP_keeps _ _ c)|done]|].
    intros [ip|e|] c' h' [-> Hsame]; [|done..]. destruct (Hsame Gateways eq_refl) as (Eg & _).
    rewrite project_after_snoc in Eg. cbn in Eg.
    settle_step. settle_step; [|done]. rewrite project_after_snoc. cbn. rewrite Eg.
    split; [done|]. by apply exists_as_snoc.
Qed.

Lemma attached_after h zone gatewayID pnID dhcp masquerade route a id :
  pr_attachments (P h) gatewayID pnID = 0 -> id = pnID ->
  pr_attachments (P (h ++ [ok_ev (CreateGatewayNetwork zone gatewayID pnID dhcp masquerade route) a]))
    gatewayID id <> 0.
Proof. intros E ->. rewrite project_after_snoc. cbn. by rewrite E, !String_eqb_refl. Qed.

(** The gateway is attached to the recorded network. *)
Definition attached_to_recorded h c (gatewayID : ID) : Prop :=
  forall pnID, PrivateNetworkID c = Ok pnID -> pr_attachments (P h) gatewayID pnID <> 0.

Lemma attach_settles gatewayID c h :
  settle_wp (pnID ← lift (PrivateNetworkID c);
    totalCount ← remote (ListGatewayNetworks (PublicGatewayZone c) gatewayID pnID);
    if totalCount =? 0
    then remote (CreateGatewayNetwork (PublicGatewayZone c) gatewayID pnID (Some true) true true)
    else mret tt) h c (on_success (fun _ c' h' => c' = c /\
      pr_gateways (P h') = pr_gateways (P h) /\ attached_to_recorded h' c gatewayID)).
Proof.
  unfold attached_to_recorded. do 2 settle_step. destruct (PrivateNetworkID c) as [pnID|e|]; [|done..].
  settle_step. settle_step; [|done]. destruct (pr_attachments (P h) gatewayID pnID =? 0) eqn:E; to_prop.
  - settle_step; [|done]. kill_units. split; [done|].
    split; [by rewrite !project_after_snoc|]. intros id [= <-].
    apply attached_after; [by rewrite project_after_snoc|done].
  - settle_step. rewrite !project_after_snoc. split; [done|]. split; [done|]. by intros id [= <-].
Qed.

Lemma gw_Reconcile_attaches c h :
  at_most_one gw_Name (Cluster_Name c) (pr_gateways (P h)) ->
  settle_wp Vpcgw.Reconcile h c (on_success (fun _ c' h' => c' = c /\
    (HasPrivateNetwork c = true -> HasPublicGateway c = true ->
     forall gateway, Vpcgw.PublicGateway c = Ok gateway ->
     match pgs_ID gateway with
     | Some id => attached_to_recorded h' c id
     | None => exists_as gw_Name (Cluster_Name c) (fun gw => attached_to_recorded h' c (gw_ID gw))
                 (pr_gateways (P h'))
     end))).
Proof.
  intros Hu. unfold Vpcgw.Reconcile. do 2 go_step.
  destruct (HasPrivateNetwork c); [|by go_step]. destruct (HasPublicGateway c); [|by go_step].
  cbn [negb orb]. do 2 go_step. destruct (Vpcgw.PublicGateway c) as [gateway|e|]; [|done..].
  go_step. destruct (pgs_ID gateway) as [id|] eqn:Eid.
  - go_step. eapply wpM_mono; [apply attach_settles|]. intros [[]|e|] c' h' H; cbn in H; [|done..].
    destruct H as (-> & _ & Ha). split; [done|]. intros _ _ ? [= <-]. by rewrite Eid.
  - go_step. eapply wpM_mono; [by apply getOrCreateGateway_settles|].
    intros [gw|e|] c' h1 H1; cbn in H1; [|done..]. destruct H1 as [-> Hgw]. go_step.
    eapply wpM_mono; [apply attach_settles|]. intros [[]|e|] c' h' H; cbn in H; [|done..].
    destruct H as (-> & Eg & Ha). split; [done|]. intros _ _ ? [= <-]. rewrite Eid, Eg.
    destruct Hgw as [Hex Hall]. split; [done|]. intros gw' Hgw' En. by rewrite (Hall gw' Hgw' En).
Qed.

Lemma gw_settles c h :
  at_most_one gw_Name (Cluster_Name c) (pr_gateways (P h)) -> network_fixed h c ->
  settle_wp Vpcgw.Reconcile h c (on_success (fun _ c' h' => c' = c /\ gateway_settled (P h') c)).
Proof.
  intros Hu [_ Hfix]. eapply wpM_mono.
  { eapply (wpM_parts p0 [Gateways]); [by apply gw_Reconcile_attaches|].
    unfold keeps_others, Vpcgw.Reconcile, Vpcgw.getOrCreateGateway, Vpcgw.getOrCreateIP. free_auto. }
  intros [[]|e|] c' h' [H Hsame]; cbn in H; [|done..]. destruct H as [-> H]. split; [done|].
  intros Hp Hg gateway Egw. specialize (H Hp Hg gateway Egw).
  assert (forall id, attached_to_recorded h' c id -> forall pnID, network_of (P h') c pnID ->
    pr_attachments (P h') id pnID <> 0) as Hatt.
  { intros id Hid pnID Hof. apply Hid, Hfix. unfold network_of in *.
    by rewrite (Hsame PrivateNetworks eq_refl) in Hof. }
  destruct (pgs_ID gateway); [exact (Hatt _ H)|]. destruct H as [Hex Hall]. split; [done|]. auto.
Qed.
End settle.
