(* ===== verification/SettledBalancer.v ===== *)
(** * A pass that succeeds settles the load balancer

    The load balancer is found or created, then attached to the network; the backends and
    frontends of another name go, one of the name of the control plane stays, and its
    access control lists are made those of the spec, one by one. *)

From S2P Require Import Prelude Go Net Prog Sdk Types Cloud Ledger Scope Client.
From S2P Require Import LoadBalancer Convergence Replay.
#[local] Open Scope caps_scope.

Section settle.
Context `{SDK : ScwSDK} `{K8S : K8sLib}.
Context (p0 : project).
Implicit Types (h : trace) (c : ClusterScope).

Abbreviation P := (project_after p0).
Abbreviation settle_wp := (wpM (faithful p0) any_call).

(** ** The load balancer and its network *)

Lemma find_ip_keeps zone c :
  safe any_resp (on_parts []) (fun c' => c' = c)
    (match spec_IP c with
     | Some ip =>
         lbip ← wrapf "failed to find IP" (FindLoadBalancerIP (cs_ProjectID c) zone ip);
         mret (Some (lbip_ID lbip))
     | None => mret None
     end).
Proof. free_auto. Qed.

Lemma getOrCreateLB_settles zone c h :
  at_most_one lb_Name (Cluster_Name c) (pr_lbs (P h)) ->
  settle_wp (getOrCreateLB zone) h c (on_success (fun lb c' h' => c' = c /\
    exists_as lb_Name (Cluster_Name c) (fun x => x = lb) (pr_lbs (P h')))).
Proof.
  intros Hu. unfold getOrCreateLB. do 3 go_step. settle_step; [| |by repeat settle_step].
  - to_prop. settle_step. rewrite project_after_snoc. split; [done|]. by apply (exists_as_found _ _ _ _ x).
  - settle_step. eapply wpM_mono; [eapply wpM_frame; [apply find_ip_keeps|done]|].
    intros [ipID|e|] c' h' [-> Hsame]; [|done..]. pose proof (Hsame Balancers eq_refl) as El.
    rewrite project_after_snoc in El. cbn in El.
    settle_step; [|done]. rewrite project_after_snoc. cbn. rewrite El.
    split; [done|]. by apply exists_as_snoc.
Qed.

Lemma ensurePrivateNetwork_settles lb pnID c h :
  settle_wp (ensurePrivateNetwork lb pnID) h c (on_success (fun _ c' h' => c' = c /\
    forall id, pnID = Some id -> id ∈ pr_lb_networks (P h') (lb_ID lb))).
Proof.
  destruct pnID as [pnID|]; unfold ensurePrivateNetwork; [|by go_step].
  go_step. settle_step; [|done]. destruct (List.existsb _ _) eqn:E; cbn [negb].
  - settle_step. split; [done|]. intros id [= <-]. rewrite project_after_snoc. cbn.
    apply existsb_elem_of in E as (x & Hx & E). by to_prop; subst.
  - settle_step; [|done]. split; [done|]. intros id [= <-]. rewrite !project_after_snoc. cbn.
    rewrite String_eqb_refl. apply elem_of_app. right. by apply list_elem_of_singleton.
Qed.

(** ** Backends and frontends *)

Section keep_last.
Context {A : Type} (id_of name : A -> string) (n : string).
Context (listed : project -> list A) (delete : A -> cloud_call).
Context (Hdelete : forall h x a,
  listed (P (h ++ [ok_ev (delete x) a])) = without id_of (id_of x) (listed (P h))).

(** The loop keeps what has the name [n]; it returns one of them if there is one. *)
Lemma keep_last_settles xs c h :
  listed (P h) = xs -> NoDup (id_of <$> xs) ->
  settle_wp (for_fold xs None (fun acc x =>
      if name x =?s n then mret (Some x) else _ ← remote (delete x); mret acc)) h c
    (on_success (fun r c' h' => c' = c /\
      (forall x, x ∈ listed (P h') -> x ∈ xs /\ name x = n) /\
      match r with Some x => x ∈ listed (P h') | None => listed (P h') = [] end)).
Proof.
  intros E Hnd.
  eapply (wpM_for_fold _ _ _ _ _ _ _ (fun ys acc c' h' => c' = c /\ NoDup (id_of <$> ys) /\
    (forall y, y ∈ ys -> y ∈ listed (P h')) /\
    (forall x, x ∈ listed (P h') -> x ∈ xs /\ (x ∈ ys \/ (name x = n /\ acc <> None))) /\
    match acc with Some x => x ∈ listed (P h') /\ name x = n | None => True end)).
  - rewrite E. split_and!; auto.
  - intros acc c' h' (-> & _ & _ & Hin & Hacc). split; [done|]. split.
    + intros x Hx. destruct (Hin x Hx) as [? [?%not_elem_of_nil|[? _]]]; done.
    + destruct acc as [x|]; [by destruct Hacc|]. destruct (listed (P h')) as [|x l]; [done|].
      destruct (Hin x) as [_ [?%not_elem_of_nil|[_ ?]]]; [left|done..].
  - clear E. intros acc x ys c' h' (-> & Hnd' & Hys & Hin & Hacc) Hx.
    rewrite fmap_cons, NoDup_cons in Hnd'. destruct Hnd' as [Hni Hnd'].
    destruct (String.eqb_spec (name x) n) as [En|En].
    + go_step. split_and!; [done|done| | |apply Hys; left|done].
      * intros y Hy. apply Hys. by right.
      * intros y Hy. destruct (Hin y Hy) as [? [[->|?]%elem_of_cons|[? _]]]; naive_solver.
    + settle_step. settle_step; [|done]. settle_step. rewrite Hdelete. split_and!; [done|done| | |].
      * intros y Hy. apply without_spec. split; [apply Hys; by right|]. intros Ei.
        apply Hni. rewrite <- Ei. by apply list_elem_of_fmap_2.
      * intros y [Hy Ei]%without_spec. destruct (Hin y Hy) as [? [[->|?]%elem_of_cons|?]]; auto.
        done.
      * destruct acc as [y|]; [|done]. destruct Hacc as [Hy Ey]. split; [|done].
        apply without_spec. split; [done|]. intros Ei. destruct (Hin y Hy) as [Hy' _].
        rewrite (same_id id_of xs y x Hnd Hy' Hx Ei) in Ey. done.
Qed.
End keep_last.

Lemma ensureBackend_settles lb c h :
  NoDup (be_ID <$> pr_backends (P h) (lb_ID lb)) ->
  settle_wp (ensureBackend lb) h c (on_success (fun _ c' h' => c' = c /\
    all_named be_Name ControlPlaneBackendName (fun _ => True) (pr_backends (P h') (lb_ID lb)))).
Proof.
  intros Hnd. unfold ensureBackend. go_step. settle_step; [|done]. go_step.
  eapply wpM_mono.
  { eapply (keep_last_settles be_ID be_Name _ (fun p => pr_backends p (lb_ID lb))); [|by rewrite project_after_snoc|done].
    intros h' x a. by rewrite project_after_snoc. }
  intros [r|e|] c' h' H; cbn in H; [|done..]. destruct H as (-> & Hin & Hr).
  destruct r as [x|].
  - settle_step. split; [done|]. split; [by intros E; rewrite E in Hr; apply not_elem_of_nil in Hr|].
    intros y Hy. split; [|done]. by apply Hin.
  - settle_step; [|done]. rewrite project_after_snoc. cbn. rewrite String_eqb_refl, Hr.
    split; [done|]. split; [done|]. by intros y ->%list_elem_of_singleton.
Qed.

Lemma ensureFrontend_settles lb backend c h :
  NoDup (fe_ID <$> pr_frontends (P h) (lb_ID lb)) ->
  at_most_one fe_Name ControlPlaneFrontendName (pr_frontends (P h) (lb_ID lb)) ->
  settle_wp (ensureFrontend lb backend) h c (on_success (fun f c' h' => c' = c /\
    all_named fe_Name ControlPlaneFrontendName (fun x => x = f) (pr_frontends (P h') (lb_ID lb)))).
Proof.
  intros Hnd Hu. unfold ensureFrontend. go_step. settle_step; [|done]. go_step.
  eapply wpM_mono.
  { eapply (keep_last_settles fe_ID fe_Name _ (fun p => pr_frontends p (lb_ID lb))); [|by rewrite project_after_snoc|done].
    intros h' x a. by rewrite project_after_snoc. }
  intros [r|e|] c' h' H; cbn in H; [|done..]. destruct H as (-> & Hin & Hr).
  destruct r as [x|].
  - settle_step. split; [done|]. split; [by intros E; rewrite E in Hr; apply not_elem_of_nil in Hr|].
    intros y Hy. split; [by apply Hin|]. apply Hu; by apply Hin.
  - settle_step; [|done]. rewrite project_after_snoc. cbn. rewrite String_eqb_refl, Hr.
    split; [done|]. split; [done|]. by intros y ->%list_elem_of_singleton.
Qed.

(** ** Access control lists *)

(** Each name is that of one list at most, and an identifier that of one list. *)
Definition tidy_acls (p : project) (frontendID : ID) : Prop :=
  (forall name, at_most_one acl_Name name (pr_acls p frontendID name)) /\
  forall name name' acl acl', acl ∈ pr_acls p frontendID name -> acl' ∈ pr_acls p frontendID name' ->
    acl_ID acl = acl_ID acl' -> acl = acl'.

(** Only the list [name] of the frontend was touched. *)
Definition only_acl h h' (frontendID : ID) (name : string) : Prop :=
  tidy_acls (P h') frontendID /\
  forall name' ips deny index, name' <> name -> acl_settled (P h) frontendID name' ips deny index ->
    acl_settled (P h') frontendID name' ips deny index.

Lemma acl_settled_same p p' frontendID name ips deny index :
  (forall acl, acl_Name acl = name -> acl ∈ pr_acls p' frontendID name <-> acl ∈ pr_acls p frontendID name) ->
  acl_settled p frontendID name ips deny index -> acl_settled p' frontendID name ips deny index.
Proof.
  intros E. destruct ips as [|ip ips]; cbn.
  - intros Hno acl Hacl En. apply E in Hacl; [|done]. by apply (Hno acl).
  - intros [(acl & Hacl & En) Hall]. split; [exists acl; by rewrite E|].
    intros acl' Hacl' En'. apply E in Hacl'; auto.
Qed.

(** One list is deleted. *)
Lemma delete_acl frontendID name zone acl deny index h u :
  tidy_acls (P h) frontendID -> acl ∈ pr_acls (P h) frontendID name -> acl_Name acl = name ->
  let h' := h ++ [ok_ev (DeleteACL zone (acl_ID acl)) u] in
  acl_settled (P h') frontendID name [] deny index /\ only_acl h h' frontendID name.
Proof.
  intros [Hu Hid] Hacl En h'. subst h'. unfold only_acl, tidy_acls. rewrite project_after_snoc.
  assert (forall n, pr_acls (project_step (P h) (ok_ev (DeleteACL zone (acl_ID acl)) u)) frontendID n =
    without acl_ID (acl_ID acl) (pr_acls (P h) frontendID n)) as E by done.
  split_and!.
  - intros acl' Hacl' En'. rewrite E in Hacl'. apply without_spec in Hacl' as [Hacl' Hne].
    by rewrite (Hu name acl' acl) in Hne.
  - intros n x y. rewrite E, !without_spec. intros [? _] [? _]. by apply Hu.
  - intros n n' x y. rewrite !E, !without_spec. intros [? _] [? _]. by apply (Hid n n').
  - intros n ips d i Hn. apply acl_settled_same. intros acl' En'. rewrite E, without_spec.
    split; [by intros []|]. intros Hacl'. split; [done|]. intros Ei.
    rewrite (Hid n name acl' acl) in En'; [|done..]. congruence.
Qed.

(** One list gets its content. *)
Lemma update_acl_settled frontendID name req acl (deny : bool) index h u :
  tidy_acls (P h) frontendID -> acl ∈ pr_acls (P h) frontendID name -> acl_Name acl = name ->
  uacl_ACLID req = acl_ID acl -> uacl_Name req = name -> uacl_Match req <> [] ->
  uacl_Action req = (if deny then ACLActionTypeDeny else ACLActionTypeAllow) -> uacl_Index req = index ->
  let h' := h ++ [ok_ev (UpdateACL req) u] in
  acl_settled (P h') frontendID name (uacl_Match req) deny index /\ only_acl h h' frontendID name.
Proof.
  intros [Hu Hid] Hacl En Ei Er Hne Eact Eidx h'. subst h'. unfold only_acl, tidy_acls. rewrite project_after_snoc.
  assert (forall n, pr_acls (project_step (P h) (ok_ev (UpdateACL req) u)) frontendID n =
    update_acl req <$> pr_acls (P h) frontendID n) as E by done.
  assert (update_acl req acl = {| acl_ID := acl_ID acl; acl_Name := name; acl_Match := Some (uacl_Match req);
      acl_Action := Some (uacl_Action req); acl_Index := uacl_Index req |})
    as Eacl
    by (unfold update_acl; by rewrite Ei, String_eqb_refl, Er).
  assert (forall n x, x ∈ pr_acls (P h) frontendID n -> x = acl \/ update_acl req x = x) as Hother.
  { intros n x Hx. unfold update_acl. destruct (_ =?s _) eqn:Ex; [|by right]. to_prop. left.
    apply (Hid n name); congruence. }
  assert (forall x, acl_ID (update_acl req x) = acl_ID x) as Eid
    by (intros x; unfold update_acl; by destruct (_ =?s _)).
  assert (forall n x, x ∈ pr_acls (P h) frontendID n -> acl_Name (update_acl req x) = acl_Name x) as Ename.
  { intros n x Hx. destruct (Hother n x Hx) as [->| ->]; [by rewrite Eacl|done]. }
  split_and!.
  - destruct (uacl_Match req) as [|ip ips] eqn:Em; [done|]. split.
    + exists (update_acl req acl). rewrite E. split; [by apply list_elem_of_fmap_2|]. by rewrite Eacl.
    + rewrite E. intros y (x & -> & Hx)%list_elem_of_fmap Ey. rewrite (Ename name) in Ey by done.
      rewrite (Hu name x acl) by done. rewrite Eacl, <- Eact, <- Eidx. by split_and!.
  - intros n y y'. rewrite E. intros (x & -> & Hx)%list_elem_of_fmap (x' & -> & Hx')%list_elem_of_fmap.
    rewrite !(Ename n) by done. intros. f_equal. by apply (Hu n).
  - intros n n' y y'. rewrite !E.
    intros (x & -> & Hx)%list_elem_of_fmap (x' & -> & Hx')%list_elem_of_fmap. rewrite !Eid.
    intros. f_equal. by apply (Hid n n').
  - intros n ips d i Hn. apply acl_settled_same. intros y Ey. rewrite E, list_elem_of_fmap. split.
    + intros (x & -> & Hx). destruct (Hother n x Hx) as [->| ->]; [|done].
      rewrite Eacl in Ey. by subst.
    + intros Hy. exists y. split; [|done]. destruct (Hother n y Hy) as [->| ->]; [congruence|done].
Qed.

(** A list is created. *)
Lemma create_acl frontendID name req acl (deny : bool) index h :
  tidy_acls (P h) frontendID ->
  (forall x, x ∈ pr_acls (P h) frontendID name -> (acl_Name x =?s name) = false) ->
  cacl_FrontendID req = frontendID -> cacl_Name req = name -> cacl_Match req <> [] ->
  cacl_Action req = (if deny then ACLActionTypeDeny else ACLActionTypeAllow) -> cacl_Index req = index ->
  created_as (P h) (CreateACL req) acl ->
  let h' := h ++ [ok_ev (CreateACL req) acl] in
  acl_settled (P h') frontendID name (cacl_Match req) deny index /\ only_acl h h' frontendID name.
Proof.
  intros [Hu Hid] Hno <- <- Hne Eact Eidx (En & Em & Hf) h'. subst h'. unfold only_acl, tidy_acls.
  rewrite project_after_snoc.
  set (p' := project_step (P h) _).
  assert (forall n, n <> cacl_Name req ->
    pr_acls p' (cacl_FrontendID req) n = pr_acls (P h) (cacl_FrontendID req) n) as E'.
  { intros n Hn. cbn. apply String.eqb_neq in Hn. by rewrite Hn, andb_false_r. }
  assert (pr_acls p' (cacl_FrontendID req) (cacl_Name req) =
    pr_acls (P h) (cacl_FrontendID req) (cacl_Name req) ++ [acl]) as E
    by (cbn; by rewrite !String_eqb_refl).
  assert (forall n x, x ∈ pr_acls p' (cacl_FrontendID req) n ->
    x ∈ pr_acls (P h) (cacl_FrontendID req) n \/ x = acl) as Hin.
  { intros n x. destruct (String.eqb_spec n (cacl_Name req)) as [->|Hn]; [rewrite E|rewrite E' by done; by left].
    intros [?| ->%list_elem_of_singleton]%elem_of_app; auto. }
  clearbody p'. split_and!.
  - destruct (cacl_Match req) as [|ip ips]; [done|]. cbn [acl_settled]. rewrite E.
    rewrite <- Eact, <- Eidx. by apply exists_as_snoc.
  - intros n. destruct (String.eqb_spec n (cacl_Name req)) as [->|Hn]; [|by rewrite E'].
    rewrite E. by apply at_most_one_snoc.
  - intros n n' x y [Hx| ->]%Hin [Hy| ->]%Hin Ei; [by apply (Hid n n')| | |done].
    + by apply Hf in Hx.
    + by apply Hf in Hy.
  - intros n ips d i Hn. unfold acl_settled. by rewrite E'.
Qed.

Lemma ensureACL_settles frontendID name ips deny index c h :
  tidy_acls (P h) frontendID ->
  settle_wp (ensureACL frontendID name ips deny index) h c (on_success (fun _ c' h' => c' = c /\
    acl_settled (P h') frontendID name ips deny index /\ only_acl h h' frontendID name)).
Proof.
  intros Ht. unfold ensureACL. do 3 go_step. settle_step; [| |by repeat settle_step]; to_prop.
  all: set (h1 := h ++ [ok_ev _ _]).
  all: assert (pr_acls (P h1) = pr_acls (P h)) as E1 by (subst h1; by rewrite project_after_snoc).
  all: assert (forall h', only_acl h1 h' frontendID name -> only_acl h h' frontendID name) as H1
    by (unfold only_acl, acl_settled; by rewrite E1).
  all: assert (tidy_acls (P h1) frontendID) as Ht1 by (unfold tidy_acls; by rewrite E1).
  1: rewrite <- E1 in Hx. 2: rewrite <- E1 in Hnone.
  all: clearbody h1; destruct ips as [|ip ips].
  - settle_step; [|done]. split; [done|]. destruct (delete_acl frontendID name (LoadBalancerZone c) x deny index h1 a);
      auto.
  - rewrite match_differs_true by done. settle_step; [|done]. split; [done|].
    match goal with |- context [ok_ev (UpdateACL ?req) ?u] =>
      destruct (update_acl_settled frontendID name req x deny index h1 u) end; auto; done.
  - settle_step. split; [done|]. split; [|by apply H1]. intros acl Hacl En. apply Hnone in Hacl.
    by to_prop.
  - settle_step. settle_step; [|done]. settle_step. split; [done|].
    match goal with |- context [ok_ev (CreateACL ?req) ?u] =>
      destruct (create_acl frontendID name req u deny index h1) end; auto; done.
Qed.

(** The lists of a frontend, one after the other. *)
Definition gateway_acl_settled h c frontendID (nets : ID -> list Gateway) (pnID : option ID) : Prop :=
  HasPrivateNetwork c = true -> forall id, pnID = Some id ->
    acl_settled (P h) frontendID "public-gateway" (gateway_ips (nets id)) false 2.

Lemma gateway_acl_settles frontendID pnID c h :
  tidy_acls (P h) frontendID ->
  settle_wp (match pnID with
      | Some pnID =>
          if HasPrivateNetwork c then
            gws ← FindGatewaysByPrivateNetworkID (Zones c VPCGW_Zones) pnID;
            ensureACL frontendID "public-gateway" (gateway_ips gws) false 2
          else mret tt
      | None => mret tt
      end) h c (on_success (fun _ c' h' => c' = c /\
    gateway_acl_settled h' c frontendID (pr_network_gateways (P h)) pnID /\
    only_acl h h' frontendID "public-gateway")).
Proof.
  intros Ht. unfold gateway_acl_settled. destruct pnID as [pnID|]; [|by go_step].
  destruct (HasPrivateNetwork c); [|by go_step].
  unfold FindGatewaysByPrivateNetworkID. do 2 go_step. settle_step; [|done].
  set (h1 := h ++ [ok_ev _ _]).
  assert (pr_acls (P h1) = pr_acls (P h)) as E1 by (subst h1; by rewrite project_after_snoc).
  clearbody h1. eapply wpM_mono; [apply ensureACL_settles; unfold tidy_acls; by rewrite E1|].
  intros [[]|e|] c' h' H; cbn in H; [|done..]. destruct H as (-> & Hs & Ho). split; [done|].
  split; [by intros _ id [= <-]|]. unfold only_acl, acl_settled in *. by rewrite E1 in Ho.
Qed.

Lemma ensureACLs_settles frontend pnID c h :
  tidy_acls (P h) (fe_ID frontend) ->
  settle_wp (ensureACLs frontend pnID) h c (on_success (fun _ c' h' => c' = c /\
    acl_settled (P h') (fe_ID frontend) "allowed-ranges" (spec_AllowedRanges c) false 1 /\
    gateway_acl_settled h' c (fe_ID frontend) (pr_network_gateways (P h)) pnID /\
    acl_settled (P h') (fe_ID frontend) "deny-all" (deny_all_of c) true 4)).
Proof.
  intros Ht. unfold ensureACLs. do 2 go_step. cbv zeta. fold (deny_all_of c). do 2 go_step.
  eapply wpM_mono.
  { eapply (wpM_parts p0 [ACLs]); [by apply ensureACL_settles|].
    unfold keeps_others, ensureACL. free_auto. }
  intros [[]|e|] c' h1 [H Hsame]; cbn in H; [|done..]. destruct H as (-> & Hallow & Ho1).
  destruct (Hsame Gateways eq_refl) as (_ & _ & Enets). rewrite <- Enets. clear Hsame Enets.
  cbn [outcome_wrap]. go_step. eapply wpM_mono; [apply gateway_acl_settles, Ho1|].
  intros [[]|e|] c' h2 H; cbn in H; [|done..]. destruct H as (-> & Hgw & Ho2).
  eapply wpM_mono; [apply ensureACL_settles, Ho2|].
  intros [[]|e|] c' h3 H; cbn in H; [|done..]. destruct H as (-> & Hdeny & Ho3).
  split; [done|]. split_and!; [| |done].
  - by apply Ho3, Ho2.
  - intros Hp id E. by apply Ho3, Hgw.
Qed.

(** ** The pass *)

(** The resources of the load balancer are not doubled. *)
Definition tidy_balancers (p : project) c : Prop :=
  at_most_one lb_Name (Cluster_Name c) (pr_lbs p) /\
  (forall lbID, NoDup (be_ID <$> pr_backends p lbID)) /\
  (forall lbID, NoDup (fe_ID <$> pr_frontends p lbID)) /\
  (forall lbID, at_most_one fe_Name ControlPlaneFrontendName (pr_frontends p lbID)) /\
  forall frontendID, tidy_acls p frontendID.

(** What [LoadBalancer.Reconcile] does with a load balancer that is ready. *)
Definition set_up (lb : LB) c : GoC ClusterScope unit :=
  pnID ← (if HasPrivateNetwork c
          then id ← lift (PrivateNetworkID c); mret (Some id)
          else mret None);
  _ ← ensurePrivateNetwork lb pnID;
  backend ← wrapf "failed to ensure LoadBalancer backend" (ensureBackend lb);
  frontend ← wrapf "failed to ensure LoadBalancer frontend" (ensureFrontend lb backend);
  _ ← wrapf "failed to ensure LoadBalancer ACLs" (ensureACLs frontend pnID);
  ip ← lift (first_IPv4 (lb_IP lb));
  match ip with
  | Some lbIP => SetControlPlaneEndpoint (lbip_IPAddress lbIP) (fe_InboundPort frontend)
  | None => fail (ErrorsNew "loadbalancer has no IPs")
  end.

Definition balancer_parts : list part := [Attachments; Backends; Frontends; ACLs].

Lemma set_up_keeps lb c : keeps_others balancer_parts (set_up lb c).
Proof.
  unfold keeps_others, set_up, ensurePrivateNetwork, ensureBackend, ensureFrontend, ensureACLs, ensureACL,
    SetControlPlaneEndpoint. free_auto.
Qed.

(** The recorded network, when there is one. *)
Definition recorded_network c (pnID : option ID) : Prop :=
  if HasPrivateNetwork c then exists id, PrivateNetworkID c = Ok id /\ pnID = Some id
  else pnID = None.

Lemma recorded_network_lookup c h Q :
  (forall pnID, recorded_network c pnID -> Q (Ok pnID) c h) -> Q Panic c h -> (forall e, Q (Err e) c h) ->
  settle_wp (if HasPrivateNetwork c then id ← lift (PrivateNetworkID c); mret (Some id) else mret None)
    h c Q.
Proof.
  unfold recorded_network. intros HQ Hp He. destruct (HasPrivateNetwork c); [|go_step; by apply HQ].
  do 2 go_step. destruct (PrivateNetworkID c) as [id|e|]; [|done..]. go_step. apply HQ. by exists id.
Qed.

(** The components of a load balancer that was set up. *)
Lemma ready_lb_intro p c lb frontend pnID ip :
  (forall id, network_of p c id -> PrivateNetworkID c = Ok id) -> recorded_network c pnID ->
  lb_Status lb = LBStatusReady -> first_IPv4 (lb_IP lb) = Ok (Some ip) ->
  (forall id, pnID = Some id -> id ∈ pr_lb_networks p (lb_ID lb)) ->
  all_named be_Name ControlPlaneBackendName (fun _ => True) (pr_backends p (lb_ID lb)) ->
  all_named fe_Name ControlPlaneFrontendName (fun x => x = frontend) (pr_frontends p (lb_ID lb)) ->
  acl_settled p (fe_ID frontend) "allowed-ranges" (spec_AllowedRanges c) false 1 ->
  (HasPrivateNetwork c = true -> forall id, pnID = Some id ->
    acl_settled p (fe_ID frontend) "public-gateway" (gateway_ips (pr_network_gateways p id)) false 2) ->
  acl_settled p (fe_ID frontend) "deny-all" (deny_all_of c) true 4 -> ready_lb p c lb.
Proof.
  unfold recorded_network. intros Hnet Hrec Est Eip Hatt Hbe [Hne Hfe] Ha Hg Hd.
  assert (HasPrivateNetwork c = true -> forall id, network_of p c id -> pnID = Some id) as Hid.
  { intros Hp id Hof%Hnet. rewrite Hp in Hrec. destruct Hrec as (id' & E & ->). congruence. }
  split; [done|]. split; [by eexists|]. split; [|split; [done|split; [done|]]].
  - intros Hp id Hof. by apply Hatt, Hid.
  - intros x Hx. destruct (Hfe x Hx) as [En ->]. split; [done|]. split_and!; [done| |done].
    intros Hp id Hof. by apply Hg, Hid.
Qed.

Lemma set_up_settles lb c h :
  tidy_balancers (P h) c -> (forall id, network_of (P h) c id -> PrivateNetworkID c = Ok id) ->
  lb_Status lb = LBStatusReady ->
  settle_wp (set_up lb c) h c (on_success (fun _ c' h' =>
    ready_lb (P h') c lb /\
    (HasPrivateNetwork c = true -> exists id, PrivateNetworkID c = Ok id) /\
    exists endpoint, c' = set_cs_ScalewayCluster
      (set_sc_ControlPlaneEndpoint endpoint (cs_ScalewayCluster c)) c)).
Proof.
  intros (_ & Hbe & Hfe & Hfu & Hacl) Hnet Est. unfold set_up. go_step.
  apply recorded_network_lookup; [|done..]. intros pnID Hrec. go_step.
  eapply wpM_mono; [eapply (wpM_parts p0 [Attachments]); [apply ensurePrivateNetwork_settles|]|].
  { unfold keeps_others, ensurePrivateNetwork. free_auto. }
  intros [[]|e|] c' h2 [H S2]; cbn in H; [|done..]. destruct H as [-> Hatt]. do 2 go_step.
  eapply wpM_mono; [eapply (wpM_parts p0 [Backends]); [apply ensureBackend_settles|]|].
  { by rewrite (S2 Backends eq_refl). }
  { unfold keeps_others, ensureBackend. free_auto. }
  intros [backend|e|] c' h3 [H S3]; cbn in H; [|done..]. destruct H as [-> Hb3]. cbn [outcome_wrap].
  do 2 go_step.
  eapply wpM_mono; [eapply (wpM_parts p0 [Frontends]); [apply ensureFrontend_settles|]|].
  { by rewrite (S3 Frontends eq_refl), (S2 Frontends eq_refl). }
  { by rewrite (S3 Frontends eq_refl), (S2 Frontends eq_refl). }
  { unfold keeps_others, ensureFrontend. free_auto. }
  intros [frontend|e|] c' h4 [H S4]; cbn in H; [|done..]. destruct H as [-> Hf4]. cbn [outcome_wrap].
  do 2 go_step. eapply wpM_mono; [eapply (wpM_parts p0 [ACLs]); [apply ensureACLs_settles|]|].
  { unfold tidy_acls. rewrite (S4 ACLs eq_refl), (S3 ACLs eq_refl), (S2 ACLs eq_refl). apply Hacl. }
  { unfold keeps_others, ensureACLs, ensureACL. free_auto. }
  intros [[]|e|] c' h5 [H S5]; cbn in H; [|done..]. destruct H as (-> & Ha & Hg & Hd). cbn [outcome_wrap].
  do 2 go_step. destruct (first_IPv4 (lb_IP lb)) as [[ip|]|e|] eqn:Eip; [|by go_step|done..].
  unfold SetControlPlaneEndpoint. go_step. split; [|split; [|by eexists]].
  - destruct (S5 Gateways eq_refl) as (_ & _ & En).
    eapply (ready_lb_intro _ _ _ frontend pnID); [|done..| | | |done| |done].
    + intros id Hof. apply Hnet. unfold network_of in *.
      by rewrite (S5 PrivateNetworks eq_refl), (S4 PrivateNetworks eq_refl),
        (S3 PrivateNetworks eq_refl), (S2 PrivateNetworks eq_refl) in Hof.
    + rewrite (S5 Attachments eq_refl), (S4 Attachments eq_refl), (S3 Attachments eq_refl). exact Hatt.
    + rewrite (S5 Backends eq_refl), (S4 Backends eq_refl). exact Hb3.
    + rewrite (S5 Frontends eq_refl). exact Hf4.
    + rewrite En. exact Hg.
  - intros Hp. unfold recorded_network in Hrec. rewrite Hp in Hrec. destruct Hrec as (id & E & _).
    by exists id.
Qed.

Lemma lb_settles c h :
  tidy_balancers (P h) c -> (forall id, network_of (P h) c id -> PrivateNetworkID c = Ok id) ->
  settle_wp LoadBalancer.Reconcile h c (on_success (fun _ c' h' =>
    lb_settled (P h') c /\
    (HasPrivateNetwork c = true -> exists id, PrivateNetworkID c = Ok id) /\
    exists endpoint, c' = set_cs_ScalewayCluster
      (set_sc_ControlPlaneEndpoint endpoint (cs_ScalewayCluster c)) c)).
Proof.
  intros Ht Hnet. unfold LoadBalancer.Reconcile. do 3 go_step.
  eapply wpM_mono.
  { eapply (wpM_parts p0 [Balancers]); [by apply getOrCreateLB_settles, Ht|].
    unfold keeps_others, getOrCreateLB. free_auto. }
  intros [lb|e|] c' h1 [H S1]; cbn in H; [|done..]. destruct H as [-> [Hex Hall]].
  destruct (bool_decide _) eqn:Est; cbn [negb]; [|by go_step]. apply bool_decide_eq_true in Est.
  change (settle_wp (set_up lb c) h1 c (on_success (fun _ c' h' => lb_settled (P h') c /\
    (HasPrivateNetwork c = true -> exists id, PrivateNetworkID c = Ok id) /\
    exists endpoint, c' = set_cs_ScalewayCluster
      (set_sc_ControlPlaneEndpoint endpoint (cs_ScalewayCluster c)) c))).
  eapply wpM_mono; [eapply (wpM_parts p0 balancer_parts); [apply set_up_settles; [| |done]|apply set_up_keeps]|].
  { destruct Ht as (_ & ? & ? & ? & ?). unfold tidy_balancers, tidy_acls in *.
    rewrite (S1 Backends eq_refl), (S1 Frontends eq_refl), (S1 ACLs eq_refl).
    split; [|done]. intros x y Hx Hy Ex Ey. by rewrite (Hall x), (Hall y). }
  { unfold network_of in *. by rewrite (S1 PrivateNetworks eq_refl). }
  intros [[]|e|] c' h2 [H S2]; cbn in H; [|done..]. destruct H as (Hready & Hn & Hend).
  split; [|done]. unfold lb_settled. rewrite (S2 Balancers eq_refl). split; [done|].
  intros x Hx En. by rewrite (Hall x Hx En).
Qed.
End settle.
