(* ===== verification/Settling.v ===== *)
(** * A pass that succeeds settles the project

    Starting from any project where the resources of the cluster are not doubled, a pass
    that ends without asking for another one leaves a project that is [settled]:
    [Convergence] says that the passes that follow leave it as it is. *)

From stdpp Require Import infinite.
From S2P Require Import Prelude Go Net Prog Sdk Types Cloud Ledger Scope Client.
From S2P Require Vpc Vpcgw SecurityGroup LoadBalancer.
From S2P Require Import ClusterController Simulation ClusterValidation.
From S2P Require Import Networks Convergence Replay SettledGroups SettledNetwork SettledBalancer.
#[local] Open Scope caps_scope.

(** The resources that a pass over the cluster finds by name are not doubled. *)
Definition tidy_services (p : project) (c : ClusterScope) : Prop :=
  at_most_one pn_Name (Cluster_Name c) (pr_networks p) /\
  at_most_one gw_Name (Cluster_Name c) (pr_gateways p) /\
  tidy_balancers p c.

Definition tidy (p : project) (c : ClusterScope) : Prop :=
  NoDup (isg_ID <$> pr_groups p) /\ tidy_services p c.

Section settle.
Context `{SDK : ScwSDK} `{K8S : K8sLib}.
Context (p0 : project).
Implicit Types (h : trace) (c : ClusterScope).

Abbreviation P := (project_after p0).
Abbreviation settle_wp := (wpM (faithful p0) any_call).

(** ** What the services leave alone *)

Lemma sg_Reconcile_parts : keeps_others [Firewalls] SecurityGroup.Reconcile.
Proof.
  unfold keeps_others, SecurityGroup.Reconcile, SecurityGroup.ensureSecurityGroups,
    SecurityGroup.deleteExtraSecurityGroups, SecurityGroup.ensureInstanceSG, SecurityGroup.ensureSGRules.
  free_auto.
Qed.

Lemma vpc_Reconcile_parts : keeps_others [PrivateNetworks] Vpc.Reconcile.
Proof.
  unfold keeps_others, Vpc.Reconcile, Vpc.getOrCreatePN, SetStatusPrivateNetworkID. free_auto.
Qed.

Lemma gw_Reconcile_parts : keeps_others [Gateways] Vpcgw.Reconcile.
Proof.
  unfold keeps_others, Vpcgw.Reconcile, Vpcgw.getOrCreateGateway, Vpcgw.getOrCreateIP. free_auto.
Qed.

Lemma lb_Reconcile_parts : keeps_others (Balancers :: balancer_parts) LoadBalancer.Reconcile.
Proof.
  unfold keeps_others, LoadBalancer.Reconcile, LoadBalancer.getOrCreateLB,
    LoadBalancer.ensurePrivateNetwork, LoadBalancer.ensureBackend, LoadBalancer.ensureFrontend,
    LoadBalancer.ensureACLs, LoadBalancer.ensureACL, LoadBalancer.SetControlPlaneEndpoint.
  free_auto.
Qed.

(** ** Objects and projects that agree *)

(** Scopes of the same cluster; the recorded network may differ. *)
Definition same_cluster c c' : Prop := cs_Spec c' = cs_Spec c /\ Cluster_Name c' = Cluster_Name c.

Lemma records_same_cluster pnID c c' : records_network pnID c c' -> same_cluster c c'.
Proof. intros (_ & Es & _ & _ & Em & _). split; [done|]. unfold Cluster_Name. by rewrite Em. Qed.

Lemma groups_settled_same p p' c c' :
  same_part Firewalls p p' -> same_cluster c c' -> groups_settled p c -> groups_settled p' c'.
Proof.
  intros [Eg Er] [Es En]. unfold groups_settled, group_settled, SecurityGroupName, Zones, DefaultZone,
    Cluster_Region. by rewrite Eg, Er, Es, En.
Qed.

Lemma gateway_settled_same p p' c :
  same_part Gateways p p' -> same_part PrivateNetworks p p' -> gateway_settled p c -> gateway_settled p' c.
Proof.
  intros (Eg & Ea & _) En. cbn in En. unfold gateway_settled, network_of. by rewrite Eg, Ea, En.
Qed.

Lemma tidy_balancers_same p p' c c' :
  (forall s, bool_decide (s ∈ Balancers :: balancer_parts) = true -> same_part s p p') ->
  same_cluster c c' ->
  tidy_balancers p c -> tidy_balancers p' c'.
Proof.
  intros Hs [_ En]. unfold tidy_balancers, tidy_acls. rewrite En.
  by rewrite (Hs Balancers eq_refl), (Hs Backends eq_refl), (Hs Frontends eq_refl), (Hs ACLs eq_refl).
Qed.

(** ** The pass *)

(** The scope at the end differs in the endpoint and the readiness only. *)
Lemma settled_end p c endpoint :
  settled p c ->
  settled p (set_cs_Status (set_scst_Ready true)
    (set_cs_ScalewayCluster (set_sc_ControlPlaneEndpoint endpoint (cs_ScalewayCluster c)) c)).
Proof. by destruct c as [projectID [meta [] []] cl helper]. Qed.

Definition ends_settled (oa : outcome Result) c h : Prop := oa = Ok no_requeue -> settled (P h) c.

(** The network and what follows, once the groups are settled. *)
Definition after_groups : GoC ClusterScope Result :=
  _ ← wrapf "failed to reconcile vpc" Vpc.Reconcile;
  _ ← wrapf "failed to reconcile vpcgw" Vpcgw.Reconcile;
  r ← attempt LoadBalancer.Reconcile;
  match r with
  | inl err =>
      if errors_Is err ErrLoadBalancerNotReady then mret requeue_2s
      else fail (Errorf "failed to reconcile loadbalancer" err)
  | inr _ => _ ← modify (set_cs_Status (set_scst_Ready true)); mret no_requeue
  end.

Lemma after_groups_settles c h :
  tidy_services (P h) c -> groups_settled (P h) c -> settle_wp after_groups h c ends_settled.
Proof.
  intros (Hpn & Hgw & Hlb) Hsg. unfold after_groups. do 2 go_step.
  eapply wpM_mono; [eapply wpM_parts; [by apply vpc_settles|apply vpc_Reconcile_parts]|].
  intros [[]|e|] c2 h2 [H S2]; cbn in H; [|done..]. destruct H as [Hc2 Hnet]. cbn [outcome_wrap].
  assert (same_cluster c c2) as Hsame by (destruct Hc2 as [->|[pnID Hr]]; [done|by eapply records_same_cluster]).
  do 2 go_step. eapply wpM_mono; [eapply wpM_parts; [eapply gw_settles; [|exact Hnet]|apply gw_Reconcile_parts]|].
  { destruct Hsame as [_ ->], (S2 Gateways eq_refl) as [-> _]. exact Hgw. }
  intros [[]|e|] c3 h3 [H S3]; cbn in H; [|done..]. destruct H as [-> Hgate]. cbn [outcome_wrap].
  do 2 go_step. eapply wpM_mono; [eapply wpM_parts; [eapply lb_settles|apply lb_Reconcile_parts]|].
  { eapply tidy_balancers_same; [|exact Hsame|exact Hlb]. intros s Hs.
    transitivity (P h2); [apply S2|apply S3]; by destruct s. }
  { unfold network_of in *. rewrite (S3 PrivateNetworks eq_refl). apply Hnet. }
  intros [[]|e|] c3 h4 [H S4]; cbn in H; [|destruct (errors_Is e _); by go_step|done].
  destruct H as (Hbal & Hid & endpoint & ->). go_step. go_step. intros _. apply settled_end.
  split_and!.
  - eapply groups_settled_same; [|exact Hsame|exact Hsg].
    transitivity (P h2); [by apply S2|]. transitivity (P h3); [by apply S3|by apply S4].
  - unfold network_settled. destruct (ShouldManagePrivateNetwork c2) eqn:Em; [|done].
    destruct Hnet as [Hn _]. specialize (Hn Em). unfold network_settled in Hn. rewrite Em in Hn.
    by rewrite (S4 PrivateNetworks eq_refl), (S3 PrivateNetworks eq_refl).
  - by eapply gateway_settled_same; [apply S4|apply S4|].
  - done.
Qed.

(** Only the spec and the name matter to the hypotheses. *)
Lemma tidy_meta p c meta fds :
  om_Name meta = om_Name (sc_ObjectMeta (cs_ScalewayCluster c)) -> tidy p c ->
  tidy p (set_cs_Status (set_scst_FailureDomains fds) (set_cs_ObjectMeta meta c)).
Proof.
  destruct c as [projectID [[name ns uid labels annots fins owners del] spec status] cl helper].
  destruct meta. cbn. by intros ->.
Qed.

Lemma tidy_services_same p p' c :
  same_others [Firewalls] p p' -> tidy_services p c -> tidy_services p' c.
Proof.
  intros Hs (Hpn & Hgw & Hlb). split; [|split].
  - by rewrite (Hs PrivateNetworks eq_refl).
  - by destruct (Hs Gateways eq_refl) as [-> _].
  - eapply tidy_balancers_same; [|by split|exact Hlb]. intros s Es. apply Hs. by destruct s.
Qed.

Lemma reconcileNormal_settles `{!K8sLaws} c h :
  (forall region, NoDup (Region_GetZones region)) ->
  tidy (P h) c -> valid_cluster (cs_ScalewayCluster c) -> canonical_ranges c ->
  settle_wp reconcileNormal h c ends_settled.
Proof.
  intros Hz Ht Hv Hcan. unfold reconcileNormal. do 2 go_step.
  pose proof (AddFinalizer_name (sc_ObjectMeta (cs_ScalewayCluster c)) ClusterFinalizer) as Hname.
  destruct (AddFinalizer _ _) as [meta added]. simpl in Hname. do 3 go_step.
  set (c1 := set_cs_ObjectMeta meta c).
  eapply wpM_mono.
  { eapply (wpM_frame p0 [] _ _ _ _ (fun c' => c' = c1)); [|done].
    unfold Cluster_PatchObject. free_auto. }
  intros [[]|e|] c2 h1 [-> S1]; [|done..]. do 3 go_step.
  set (c2 := set_cs_Status (set_scst_FailureDomains (FailureDomains c1)) c1).
  assert (tidy (P h1) c2) as [Hnd Ht1].
  { apply tidy_meta; [done|]. destruct Ht as [Hnd Ht]. split.
    - by destruct (S1 Firewalls eq_refl) as [-> _].
    - eapply tidy_services_same, Ht. intros s _. by apply S1. }
  eapply wpM_mono.
  { eapply wpM_parts; [|apply sg_Reconcile_parts].
    apply (sg_Reconcile_settles p0 c2); [done|exact Hv|exact Hcan|exact Hnd]. }
  intros [[]|e|] c3 h2 [Hpost S2]; cbn in Hpost; [|done..]. destruct Hpost as [-> Hsg].
  apply after_groups_settles; [|exact Hsg]. by eapply tidy_services_same.
Qed.
End settle.

(** C5.  A pass succeeds only by reaching its goal: from any project where the resources
    that the provider finds by name are not doubled, a pass over a valid cluster that ends
    without asking for another one leaves the project that its spec asks for, replayed
    from the calls and the answers of the pass: networks, gateway, load balancer, security groups with
    their rules, and access control lists with their addresses, actions and indices.  The
    passes that follow leave it so: they read, and at most write an access control list again as
    it is.  The ranges in the rules of the spec have to be written canonically: the rules
    are rewritten in every pass otherwise ([Firewall.rules_settle]). *)
Theorem pass_settles `{SDK : ScwSDK} `{K8S : K8sLib} `{!K8sLaws}
    (p : project) (o : oracle cloud) (c : ClusterScope) :
  (forall region, NoDup (Region_GetZones region)) ->
  admissible (faithful p) o -> tidy p c ->
  valid_cluster (cs_ScalewayCluster c) -> canonical_ranges c ->
  let '(t, (oa, c')) := runM o [] reconcileNormal c in
  oa = Ok no_requeue ->
  settled (project_after p t) c' /\
  forall o', admissible (observes (project_after p t) (Cluster_Name c')) o' ->
    forall call r, CEv call r ∈ (runM o' [] reconcileNormal c').1 ->
      mutates call = false \/
      exists frontendID name acl, name ∈ cluster_acls /\
        acl ∈ pr_acls (project_after p t) frontendID name /\
        acl_Name acl = name /\ restates acl call.
Proof.
  intros Hz Ho Ht Hv Hcan.
  destruct (wpM_sound _ _ o _ _ _ _ Ho (reconcileNormal_settles p c [] Hz Ht Hv Hcan))
    as (t & Et & _ & HQ).
  destruct (runM o [] reconcileNormal c) as [t' [oa c']]. simpl in *. subst t'. intros ->.
  specialize (HQ eq_refl). split; [done|]. intros o' Ho' call r.
  destruct (wpM_sound _ _ o' _ _ _ _ Ho' (reconcileNormal_calm _ _ c' [] eq_refl HQ)) as (t' & -> & Hob & _).
  intros (t1 & t2 & E)%list_elem_of_split. by apply (Hob t1 call r t2).
Qed.

(** ** From an empty project *)

#[local] Existing Instances sim_sdk sim_k8s sim_k8s_laws.

(** The lists created so far. *)
Definition created_acl (e : event cloud) : option ID :=
  match e with Ev (CreateACL _) (ROk acl) => Some (acl_ID acl) | _ => None end.

Definition empty_project : project :=
  {| pr_groups := []; pr_rules _ := []; pr_networks := []; pr_gateways := [];
     pr_attachments _ _ := 0; pr_network_gateways _ := []; pr_lbs := []; pr_lb_networks _ := [];
     pr_backends _ := []; pr_frontends _ := []; pr_acls _ _ := [] |}.

Lemma created_acls h frontendID name acl :
  acl ∈ pr_acls (project_after empty_project h) frontendID name -> acl_ID acl ∈ omap created_acl h.
Proof.
  revert frontendID name acl. induction h as [|[c r] h IH] using rev_ind; intros frontendID name acl.
  { by intros ?%not_elem_of_nil. }
  rewrite project_after_snoc, omap_app, elem_of_app.
  destruct c, r as [a|e]; try (intros Hacl; left; eapply IH; exact Hacl).
  - cbn [project_step pr_acls after acls_after]. destruct (_ && _); [|intros ?; left; by eapply IH].
    intros [?| ->%list_elem_of_singleton]%elem_of_app; [left; by eapply IH|right; left].
  - cbn [project_step pr_acls after acls_after].
    intros (x & -> & Hx)%list_elem_of_fmap. left. unfold update_acl.
    destruct (_ =?s _); exact (IH _ _ _ Hx).
  - cbn [project_step pr_acls after acls_after]. intros [Hacl _]%without_spec. left. by eapply IH.
Qed.

(** An API that does what it is asked to do, starting from [empty_project]. *)
Definition acting : oracle cloud := fun h c =>
  let p := project_after empty_project h in
  match c return resp cloud c with
  | CreateSecurityGroup req =>
      match csg_EnableDefaultSecurity req with
      | Some b => ROk
          {| isg_ID := fresh (isg_ID <$> pr_groups p); isg_Name := csg_Name req;
             isg_Zone := csg_Zone req;
             isg_InboundDefaultPolicy := csg_InboundDefaultPolicy req;
             isg_OutboundDefaultPolicy := csg_OutboundDefaultPolicy req;
             isg_EnableDefaultSecurity := b |}
      | None => RErr (OtherError "unsupported")
      end
  | UpdateSecurityGroup _ | DeleteSecurityGroup _ _ | SetSecurityGroupRules _ _ _
  | CreateGatewayNetwork _ _ _ _ _ _ | AttachPrivateNetwork _ _ _
  | DeleteBackend _ _ | DeleteFrontend _ _ | UpdateACL _ | DeleteACL _ _ => ROk tt
  | CreatePrivateNetwork _ name _ => ROk (sim_pn name "pn")
  | GatewayListIPsByTags _ _ _ => ROk []
  | GatewayCreateIP _ _ => ROk (sim_gateway_ip "gw-ip")
  | CreateGateway _ name _ _ => ROk (sim_gateway name "gw")
  | CreateLB zone name _ _ => ROk (sim_lb zone name "lb")
  | CreateBackend _ _ name _ _ _ => ROk (sim_backend [] name "be")
  | CreateFrontend _ _ name _ _ => ROk (sim_frontend name "fe")
  | CreateACL req => ROk (acl_of_request (fresh (omap created_acl h)) req)
  | c => answers p h c
  end.

Lemma acting_faithful : admissible (faithful empty_project) acting.
Proof.
  intros h c. split.
  - destruct c; try done; cbn -[project_after fresh];
      repeat (case_match; try done).
  - destruct c; try done; cbn -[project_after fresh].
    all: try (repeat (case_match; try done); done).
    + destruct (csg_EnableDefaultSecurity req) eqn:E; [|done].
      split_and!; try done. apply infinite_is_fresh.
    + split_and!; try done. intros name acl Hacl%created_acls E.
      rewrite E in Hacl. by apply infinite_is_fresh in Hacl.
Qed.

Lemma empty_tidy c : tidy empty_project c.
Proof.
  split; [constructor|]. unfold tidy_services, tidy_balancers, tidy_acls, at_most_one.
  split_and!; intros; try split; intros; cbn in *; first
    [ apply NoDup_nil_2
    | match goal with H : _ ∈ _ |- _ => apply not_elem_of_nil in H; done end ].
Qed.

Lemma demo_canonical : canonical_ranges demo_plain_scope.
Proof. apply Forall_singleton. split; [apply Forall_singleton; by vm_compute|constructor]. Qed.

Lemma demo_pass_succeeds : (runM acting [] reconcileNormal demo_plain_scope).2.1 = Ok no_requeue.
Proof. by vm_compute. Qed.

Lemma pass_settles_witness :
  let '(t, (oa, c')) := runM acting [] reconcileNormal demo_plain_scope in
  oa = Ok no_requeue /\ settled (project_after empty_project t) c'.
Proof.
  pose proof (pass_settles empty_project acting demo_plain_scope sim_zones_NoDup acting_faithful
    (empty_tidy _) demo_valid demo_canonical) as H.
  pose proof demo_pass_succeeds as E.
  destruct (runM acting [] reconcileNormal demo_plain_scope) as [t [oa c']].
  split; [exact E|]. exact (proj1 (H E)).
Defined.
