(* ===== verification/MachineConvergence.v ===== *)
(** * A machine that is up is left alone

    [machine_view] is what a pass over a machine reads of the project, and [machine_up]
    says that the machine is brought up in it.  A pass over such a machine leaves the
    project as it is, and ends with a ready machine unless a call fails: the only call of
    the pass that does not merely read writes the access control list of the machine again,
    as it already is. *)

From S2P Require Import Prelude Go Net Prog Sdk Types Cloud Ledger Scope Client.
From S2P Require Import LoadBalancer Instance ClusterController.
From S2P Require Bringup MachineController MachineProgress.
From S2P Require Import Simulation NoDuplicates Controllers Convergence.
#[local] Open Scope caps_scope.

(** ** The state of the project *)

Record machine_view := {
  mv_ips : list InstanceIP;
  mv_servers : list Server;
  mv_nics : ID -> list PrivateNIC;
  mv_addresses : ID -> list IPNet;
  mv_lbs : list LB;
  mv_backends : ID -> list Backend;
  mv_frontends : ID -> list Frontend;
  mv_acls : ID -> list ACL;
}.

(** The listings that succeed show the view. *)
Definition machine_shows (v : machine_view) : rely := fun _ c r =>
  match r with
  | ROk xs =>
      match c return cloud_val c -> Prop with
      | InstanceListIPs _ _ => fun xs => xs = mv_ips v
      | ListServers _ (Some _) => fun xs => xs = mv_servers v
      | ListPrivateNICs _ serverID => fun xs => xs = mv_nics v serverID
      | IPAMListIPs _ _ nicID => fun xs => xs = mv_addresses v nicID
      | ListLBs _ (Some _) => fun xs => xs = mv_lbs v
      | ListBackends _ lbID (Some _) => fun xs => xs = mv_backends v lbID
      | ListFrontends _ lbID (Some _) => fun xs => xs = mv_frontends v lbID
      | ListACLs _ frontendID (Some _) => fun xs => xs = mv_acls v frontendID
      | _ => fun _ => True
      end xs
  | RErr _ => True
  end.

Section up.
Context `{K8S : K8sLib}.
Implicit Types (v : machine_view) (m : MachineScope).

(** The server has an address: one in the Private Network for each NIC on it, or a public
    one when the cluster has no Private Network. *)
Definition addressed v m (server : Server) : Prop :=
  if HasPrivateNetwork (ms_Cluster m) then
    exists pnID, PrivateNetworkID (ms_Cluster m) = Ok pnID /\
      exists_as nic_PrivateNetworkID pnID (fun nic => mv_addresses v (nic_ID nic) <> [])
        (mv_nics v (srv_ID server))
  else srv_PublicIP server <> None.

Definition public_address (server : Server) : option string :=
  (fun ip => IP_String (sip_Address ip)) <$> srv_PublicIP server.

(** The address of the node: the first private one if the cluster has a Private Network. *)
Definition node_address v m (server : Server) (ip : string) : Prop :=
  if HasPrivateNetwork (ms_Cluster m) then
    exists nic net, nic ∈ mv_nics v (srv_ID server) /\
      PrivateNetworkID (ms_Cluster m) = Ok (nic_PrivateNetworkID nic) /\
      head (mv_addresses v (nic_ID nic)) = Some net /\ IP_String (IPNet_IP net) = ip
  else public_address server = Some ip.

(** The load balancer of the cluster exists, and each one of its name is as [Q] says. *)
Definition balancers_as v m (Q : LB -> Prop) : Prop :=
  exists_as lb_Name (Cluster_Name (ms_Cluster m)) Q (mv_lbs v).

(** The node is in the pool of the backend. *)
Definition in_pool v m (server : Server) : Prop :=
  IsControlPlaneMachine (ms_Machine m) = true ->
  balancers_as v m (fun lb => exists_as be_Name ControlPlaneBackendName
    (fun b => forall ip, node_address v m server ip -> slices_Contains (be_Pool b) ip = true)
    (mv_backends v (lb_ID lb))).

(** The lists of a frontend that allow the address, if there is one. *)
Definition list_allows m (address : option string) (acls : list ACL) : Prop :=
  match address with
  | None => forall acl, acl ∈ acls -> acl_Name acl <> Machine_Name m
  | Some ip => exists_as acl_Name (Machine_Name m) (acl_is [ip] ACLActionTypeAllow 3) acls
  end.

(** The public address of the machine is allowed, if it has one. *)
Definition allowed v m (server : Server) : Prop :=
  balancers_as v m (fun lb => exists_as fe_Name ControlPlaneFrontendName
    (fun f => list_allows m (public_address server) (mv_acls v (fe_ID f)))
    (mv_frontends v (lb_ID lb))).

(** The machine is brought up: its flexible IP and its server exist, and the server is
    started, on the network, registered and allowed. *)
Definition machine_up v m : Prop :=
  cl_InfrastructureReady (cs_Cluster (ms_Cluster m)) = true /\
  (NeedsPublicIP m = true -> exists ip, mv_ips v = [ip]) /\
  exists_as srv_Name (Machine_Name m) (fun server =>
    srv_State server <> ServerStateStopped /\ addressed v m server /\
    in_pool v m server /\ allowed v m server) (mv_servers v).

(** *** What a pass over the machine sees of the project

    Others may work on the project during the pass: a listing shows what concerns the
    machine as it is in the view. *)

Definition own_server v m (server : Server) : Prop :=
  server ∈ mv_servers v /\ srv_Name server = Machine_Name m.

(** The addresses of the machine. *)
Definition own_address v m (ip : string) : Prop :=
  exists server, own_server v m server /\
    (public_address server = Some ip \/
     exists nic net, nic ∈ mv_nics v (srv_ID server) /\ net ∈ mv_addresses v (nic_ID nic) /\
       IP_String (IPNet_IP net) = ip).

(** The addresses of the machine that are in the pools of [bs] are in those of [bs']. *)
Definition keeps_pool v m (n : string) (bs bs' : list Backend) : Prop :=
  forall Q : string -> Prop, (forall ip, Q ip -> own_address v m ip) ->
    exists_as be_Name n (fun b => forall ip, Q ip -> slices_Contains (be_Pool b) ip = true) bs ->
    exists_as be_Name n (fun b => forall ip, Q ip -> slices_Contains (be_Pool b) ip = true) bs'.

Definition sees v m : rely := fun _ c r =>
  match r with
  | ROk xs =>
      match c return cloud_val c -> Prop with
      | InstanceListIPs _ tags => fun xs => tags = Machine_Tags m -> xs = mv_ips v
      | ListServers zone (Some n) => fun xs =>
          zone = Machine_Zone m -> n = Machine_Name m -> agree_on srv_Name n (mv_servers v) xs
      | ListPrivateNICs _ serverID => fun xs =>
          forall server, own_server v m server -> srv_ID server = serverID -> xs = mv_nics v serverID
      | IPAMListIPs _ _ nicID => fun xs => xs = mv_addresses v nicID
      | ListLBs zone (Some n) => fun xs =>
          zone = LoadBalancerZone (ms_Cluster m) -> agree_on lb_Name n (mv_lbs v) xs
      | ListBackends _ lbID (Some n) => fun xs => keeps_pool v m n (mv_backends v lbID) xs
      | ListFrontends _ lbID (Some n) => fun xs => agree_on fe_Name n (mv_frontends v lbID) xs
      | ListACLs _ frontendID (Some n) => fun xs =>
          n = Machine_Name m -> agree_on acl_Name n (mv_acls v frontendID) xs
      | _ => fun _ => True
      end xs
  | RErr _ => True
  end.

Lemma shows_sees v m h c r : machine_shows v h c r -> sees v m h c r.
Proof.
  destruct r as [xs|e]; [|done].
  destruct c; try done; try (destruct name; [|done]); cbn; intros ->; try done.
  by intros Q _.
Qed.
End up.

(** ** The pass *)

(** Calls that leave the machine as it is: they read, or restate its access control list. *)
Definition leaves_machine_be (v : machine_view) (m : MachineScope) : guarantee := fun _ call =>
  mutates call = false \/
  exists frontendID acl, acl ∈ mv_acls v frontendID /\ acl_Name acl = Machine_Name m /\
    restates acl call.

(** A computation fails only when a call does, with an error that no caller waits for. *)
Definition unless_error {S A} (P : A -> S -> Prop) : outcome A -> S -> trace -> Prop :=
  fun oa s h => match oa with
  | Ok a => P a s
  | Err e => call_failed h /\ forall st, errors_Is e st = false
  | Panic => False
  end.

Section calm.
Context `{SDK : ScwSDK} `{K8S : K8sLib}.
Context (v : machine_view).
Implicit Types (h : trace) (m : MachineScope).

Abbreviation calm_wp m := (wpM (sees v m) (leaves_machine_be v m)).

(** A lookup by name of what exists finds one that is as expected. *)
Lemma found_as {A} (name : A -> string) n (P : A -> Prop) xs oa :
  exists_as name n P xs -> found (fun x => name x =?s n) xs oa ->
  exists x, oa = Ok x /\ x ∈ xs /\ name x = n /\ P x.
Proof.
  intros [(x & Hx & En) Hall] Hf. destruct oa as [y|e|]; cbn in Hf; [| |done].
  - destruct Hf as [Hy Ey]. to_prop. exists y. auto.
  - destruct Hf as [_ Hf]. specialize (Hf x Hx). by rewrite En, String_eqb_refl in Hf.
Qed.

Lemma find_calm {A} (l : GoC MachineScope A) call ans name n (P : A -> Prop) (f : cloud_val call -> list A) m h :
  Finder l call ans -> (forall xs oa, ans xs oa -> found (fun x => name x =?s n) (f xs) oa) ->
  mutates call = false ->
  (forall xs, sees v m h call (ROk xs) -> exists_as name n P (f xs)) ->
  calm_wp m l h m (unless_error (fun x m' => m' = m /\ P x)).
Proof.
  intros Hl Ha Hm Hs. apply Hl; [by left| |].
  - intros xs oa Hr Hf. destruct (found_as name n P (f xs) oa) as (x & -> & _ & _ & Hx); auto.
    by split.
  - intros e e' _ He. split; [apply call_failed_here|done].
Qed.

(** Same when nothing may have the name. *)
Lemma find_opt_calm {A} (l : GoC MachineScope A) call ans name n (P : A -> Prop) ys
    (f : cloud_val call -> list A) m h :
  Finder l call ans -> (forall xs oa, ans xs oa -> found (fun x => name x =?s n) (f xs) oa) ->
  mutates call = false ->
  (forall xs, sees v m h call (ROk xs) -> agree_on name n ys (f xs)) ->
  (forall x, x ∈ ys -> name x = n -> P x) ->
  calm_wp m (unless_Is ErrNoItemFound l) h m (unless_error (fun px m' => m' = m /\
    match px with
    | Some x => P x
    | None => forall x, x ∈ ys -> name x <> n
    end)).
Proof.
  intros Hl Ha Hm Hs HP. eapply finder_unless_Is; [exact Hl|exact Ha|by left|..].
  - intros xs x Hr Hx Ex. cbn in Ex. to_prop. split; [done|]. apply HP; [|done]. by apply (Hs xs Hr x).
  - intros xs Hr Hnone. split; [done|]. intros x Hx En. apply (Hs xs Hr x En) in Hx.
    specialize (Hnone x Hx). cbn in Hnone. by rewrite En, String_eqb_refl in Hnone.
  - intros e e' _ He. by split; [apply call_failed_here|].
Qed.

Lemma FindBackend_calm (Q : string -> Prop) n m h :
  (forall ip, Q ip -> own_address v m ip) ->
  balancers_as v m (fun lb => exists_as be_Name n
    (fun b => forall ip, Q ip -> slices_Contains (be_Pool b) ip = true) (mv_backends v (lb_ID lb))) ->
  calm_wp m (FindLoadBalancerBackendByNames (LoadBalancerZone (ms_Cluster m)) (Cluster_Name (ms_Cluster m)) n)
    h m (unless_error (fun b m' => m' = m /\ forall ip, Q ip -> slices_Contains (be_Pool b) ip = true)).
Proof.
  intros HQ Hex. unfold FindLoadBalancerBackendByNames. go_step. eapply wpM_mono.
  { eapply (find_calm _ _ _ lb_Name); [apply _|intros ? ? H; exact H|done|].
    intros xs Hxs. eapply exists_as_agree; [by apply Hxs|exact Hex]. }
  intros [lb|e|] m' h1 H; cbn in H; [|done..]. destruct H as [-> Hb]. go_step.
  apply wpM_remote; [by left| |intros e _; split; [apply call_failed_here|done]].
  intros xs Hxs. cbn in Hxs. apply wp_first_match. intros oa Hf.
  by destruct (found_as _ _ _ _ _ (Hxs Q HQ Hb) Hf) as (x & -> & _ & _ & Hx).
Qed.

Lemma FindFrontend_calm (P : Frontend -> Prop) n m h :
  balancers_as v m (fun lb => exists_as fe_Name n P (mv_frontends v (lb_ID lb))) ->
  calm_wp m (FindLoadBalancerFrontendByNames (LoadBalancerZone (ms_Cluster m)) (Cluster_Name (ms_Cluster m)) n)
    h m (unless_error (fun x m' => m' = m /\ P x)).
Proof.
  intros Hex. unfold FindLoadBalancerFrontendByNames. go_step. eapply wpM_mono.
  { eapply (find_calm _ _ _ lb_Name); [apply _|intros ? ? H; exact H|done|].
    intros xs Hxs. eapply exists_as_agree; [by apply Hxs|exact Hex]. }
  intros [lb|e|] m' h1 H; cbn in H; [|done..]. destruct H as [-> Hb]. go_step.
  apply wpM_remote; [by left| |intros e _; split; [apply call_failed_here|done]].
  intros xs Hxs. cbn in Hxs. apply wp_first_match. intros oa Hf.
  by destruct (found_as _ _ _ _ _ (exists_as_agree _ _ _ _ _ Hxs Hb) Hf) as (x & -> & _ & _ & Hx).
Qed.

Lemma inst_getOrCreateIP_calm m h :
  (NeedsPublicIP m = true -> exists ip, mv_ips v = [ip]) ->
  calm_wp m Instance.getOrCreateIP h m (unless_error (fun _ m' => m' = m)).
Proof.
  intros Hip. unfold Instance.getOrCreateIP. do 2 go_step. destruct (NeedsPublicIP m); cbn [negb]; [|by go_step].
  destruct (Hip eq_refl) as [ip Eip]. do 2 go_step. eapply finder_wp; [by left| |].
  - intros ips oa Hs Hf. cbn in Hs. rewrite Hs, Eip in Hf by done.
    destruct oa as [x|e|]; cbn in Hf; [by go_step|by destruct Hf as [[_ ?]|[_ ?]]; [|cbn in *; lia]|done].
  - intros e e' _ He. rewrite He. split; [apply call_failed_here|done].
Qed.

Lemma getOrCreateServer_calm ip (P : Server -> Prop) m h :
  exists_as srv_Name (Machine_Name m) P (mv_servers v) ->
  calm_wp m (Instance.getOrCreateServer ip) h m
    (unless_error (fun server m' => m' = m /\ own_server v m server /\ P server)).
Proof.
  intros [(s0 & Hs0 & En0) Hall]. unfold Instance.getOrCreateServer. do 3 go_step. eapply wpM_mono.
  { eapply (find_opt_calm _ _ _ srv_Name _ (fun s => own_server v m s /\ P s));
      [apply _|intros ? ? H; exact H|done|intros xs Hxs; by apply Hxs|].
    intros s Hs En. split; [by split|]. by apply Hall. }
  intros [[server|]|e|] m' h1 H; cbn in H; [|by destruct H as [_ H]; destruct (H s0)|done..]. by go_step.
Qed.

(** The NIC a pass finds, on the network of the cluster. *)
Definition nic_of m (server : Server) (pnic : option PrivateNIC) : Prop :=
  match pnic with
  | Some nic => HasPrivateNetwork (ms_Cluster m) = true /\ nic ∈ mv_nics v (srv_ID server) /\
      PrivateNetworkID (ms_Cluster m) = Ok (nic_PrivateNetworkID nic) /\
      mv_addresses v (nic_ID nic) <> []
  | None => HasPrivateNetwork (ms_Cluster m) = false /\ srv_PublicIP server <> None
  end.

Lemma getOrCreatePrivateNIC_calm server m h :
  own_server v m server -> addressed v m server ->
  calm_wp m (Instance.getOrCreatePrivateNIC server) h m
    (unless_error (fun pnic m' => m' = m /\ nic_of m server pnic)).
Proof.
  unfold addressed. intros Hown Ha. unfold Instance.getOrCreatePrivateNIC. do 2 go_step.
  destruct (HasPrivateNetwork (ms_Cluster m)) eqn:Ep; cbn [negb]; [|by go_step].
  destruct Ha as (pnID & Eid & [(n0 & Hn0 & En0) Hall]). rewrite Eid. do 3 go_step.
  calm_step; [| |split; [apply call_failed_here|done]]; cbn in H;
    rewrite (H server Hown eq_refl) in *; to_prop.
  - go_step. split; [done|]. split_and!; [done|done|congruence|]. by apply Hall.
  - specialize (H0 n0 Hn0). cbn beta in H0. by rewrite En0, String_eqb_refl in H0.
Qed.

(** The addresses of a pass. *)
Definition addresses_of m (server : Server) (ips : machineIPs) : Prop :=
  mip_External ips = public_address server /\
  exists ip, NodeIP ips = Ok ip /\ node_address v m server ip.

Lemma getMachineIPs_calm server pnic m h :
  nic_of m server pnic ->
  calm_wp m (Instance.getMachineIPs server pnic) h m
    (unless_error (fun ips m' => m' = m /\ addresses_of m server ips)).
Proof.
  intros Hn. unfold Instance.getMachineIPs, addresses_of, node_address. do 3 go_step. destruct pnic as [pnic|].
  - destruct Hn as (Ep & Hnic & Eid & Hne). rewrite Ep. do 2 go_step.
    unfold FindIPv4ByInstancePrivateNICID. go_step. apply wpM_remote; [by left| |].
    + intros nets Hs. cbn in Hs. subst nets. destruct (mv_addresses v (nic_ID pnic)) as [|net nets] eqn:En; [done|].
      do 3 go_step; [by rewrite andb_false_r in Heqb|]. go_step. split; [done|]. split; [done|].
      eexists. split; [reflexivity|]. exists pnic, net. rewrite En. by split_and!.
    + intros e _. rewrite errors_Is_External. split; [apply call_failed_here|apply errors_Is_External].
  - destruct Hn as [Ep Hne]. rewrite Ep. go_step. unfold public_address.
    destruct (srv_PublicIP server); [|done]. cbn. split; [done|]. split; [done|].
    eexists. by split.
Qed.

(** The address of the node is one of the machine. *)
Lemma node_own_address server m ip :
  own_server v m server -> node_address v m server ip -> own_address v m ip.
Proof.
  intros Hown. unfold node_address. destruct (HasPrivateNetwork _).
  - intros (nic & net & Hnic & _ & Hnet & E). exists server. split; [done|]. right.
    exists nic, net. split; [done|]. split; [by apply head_Some_elem_of|done].
  - intros E. exists server. split; [done|]. by left.
Qed.

Lemma ensureControlPlaneLoadBalancer_calm server ips m h :
  own_server v m server -> in_pool v m server -> addresses_of m server ips ->
  calm_wp m (Instance.ensureControlPlaneLoadBalancer ips false) h m (unless_error (fun _ m' => m' = m)).
Proof.
  intros Hown Hp (_ & ip & Eip & Hip). unfold Instance.ensureControlPlaneLoadBalancer. do 2 go_step.
  destruct (IsControlPlaneMachine _) eqn:Ec; cbn [negb]; [|by go_step]. do 2 go_step.
  eapply wpM_mono; [apply (FindBackend_calm (node_address v m server)); [|by apply Hp]|].
  { intros ip'. by apply node_own_address. }
  intros [b|e|] m' h' H; cbn in H; [|done..]. destruct H as [-> Hb]. cbn [outcome_wrap]. rewrite Eip.
  do 2 go_step. rewrite (Hb ip Hip). by go_step.
Qed.

Lemma ensureLoadBalancerACL_calm server m h :
  allowed v m server ->
  calm_wp m (Instance.ensureLoadBalancerACL (public_address server)) h m (unless_error (fun _ m' => m' = m)).
Proof.
  intros Ha. unfold Instance.ensureLoadBalancerACL. do 4 go_step.
  eapply wpM_mono; [apply FindFrontend_calm, Ha|].
  intros [f|e|] m' h' H; cbn in H; [|done..]. destruct H as [-> Hf]. cbn [outcome_wrap].
  do 2 go_step. eapply wpM_mono.
  { eapply (find_opt_calm _ _ _ acl_Name _ (fun acl => acl ∈ mv_acls v (fe_ID f) /\
      acl_Name acl = Machine_Name m /\ exists ip, public_address server = Some ip /\
      acl_is [ip] ACLActionTypeAllow 3 acl)); [apply _|intros ? ? H; exact H|done|intros xs Hxs; by apply Hxs|].
    intros acl Hacl En. unfold list_allows in Hf.
    destruct (public_address server) as [ip|]; [|by destruct (Hf acl Hacl)].
    do 2 (split; [done|]). exists ip. split; [done|]. by apply Hf. }
  intros [[acl|]|e|] m' h2 H; cbn in H; [..|done|done]; destruct H as [-> H]; cbn [outcome_wrap].
  - destruct H as (Hacl & En & ip & -> & Em & Eact & Ei). rewrite match_differs_true by done.
    apply wpM_remote; [|by intros|by intros e _; split; [apply call_failed_here|]].
    right. exists (fe_ID f), acl. split_and!; [done..|]. rewrite <- Ei, <- En.
    exists (LoadBalancerZone (ms_Cluster m)), [ip], ACLActionTypeAllow. by split; [split_and!|].
  - unfold list_allows in Hf. destruct (public_address server) as [ip|]; [|by repeat go_step].
    destruct Hf as [(acl & Hacl & En) _]. by destruct (H acl).
Qed.

Lemma Instance_Reconcile_calm m h :
  machine_up v m ->
  calm_wp m Instance.Reconcile h m (unless_error (fun _ _ => True)).
Proof.
  intros (_ & Hip & Hs). unfold Instance.Reconcile. go_step.
  eapply wpM_mono; [by apply inst_getOrCreateIP_calm|].
  intros [ip|e|] m' h1 H; cbn in H; [subst m'|done..]. go_step.
  eapply wpM_mono; [by apply getOrCreateServer_calm|].
  intros [server|e|] m' h2 H; cbn in H; [|done..]. destruct H as (-> & Hown & Hst & Ha & Hp & Hl). go_step.
  eapply wpM_mono; [by apply getOrCreatePrivateNIC_calm|].
  intros [pnic|e|] m' h3 H; cbn in H; [|done..]. destruct H as [-> Hn]. go_step.
  eapply wpM_mono; [by apply getMachineIPs_calm|].
  intros [ips|e|] m' h4 H; cbn in H; [|done..]. destruct H as [-> Hips]. go_step.
  eapply wpM_mono; [by eapply ensureControlPlaneLoadBalancer_calm|].
  intros [[]|e|] m' h5 H; cbn in H; [subst m'|done..]. go_step. destruct Hips as [-> _].
  eapply wpM_mono; [by apply ensureLoadBalancerACL_calm|].
  intros [[]|e|] m' h6 H; cbn in H; [subst m'|done..].
  unfold Instance.ensureCloudInit, Instance.ensureServerStarted, setMachine.
  rewrite (bool_decide_eq_false_2 _ Hst). cbn [negb]. by repeat go_step.
Qed.

(** Only the name matters in the metadata. *)
Lemma up_meta m meta :
  om_Name meta = om_Name (sm_ObjectMeta (ms_ScalewayMachine m)) ->
  (machine_up v m -> machine_up v (MachineController.set_ms_ObjectMeta meta m)) /\
  sees v (MachineController.set_ms_ObjectMeta meta m) = sees v m /\
  leaves_machine_be v (MachineController.set_ms_ObjectMeta meta m) = leaves_machine_be v m.
Proof.
  destruct m as [cluster [[name ns uid labels annots fins owners del] spec status] machine].
  destruct meta. cbn. by intros ->.
Qed.

Lemma machine_reconcileNormal_calm `{!K8sLaws} m h :
  machine_up v m ->
  calm_wp m MachineController.reconcileNormal h m (unless_error (fun res m' =>
    res = no_requeue /\ smst_Ready (sm_Status (ms_ScalewayMachine m')) = true)).
Proof.
  intros Hup. unfold MachineController.reconcileNormal. do 2 go_step.
  pose proof (AddFinalizer_name (sm_ObjectMeta (ms_ScalewayMachine m)) MachineFinalizer) as Hname.
  destruct (AddFinalizer _ _) as [meta added]. simpl in Hname. do 3 go_step.
  destruct (up_meta m meta Hname) as (Hmeta & <- & <-). apply Hmeta in Hup. clear Hmeta.
  set (m1 := MachineController.set_ms_ObjectMeta meta m) in *.
  eapply (wpM_mono _ _ _ _ _ (unless_error (fun _ m' => m' = m1))).
  { destruct added; [|by go_step]. unfold Machine_PatchObject. do 2 go_step.
    apply wpM_remote; [by left|by intros [] _|]. intros e _. by split; [apply call_failed_here|]. }
  intros [[]|e|] m2 h1 Hc; cbn in Hc; [subst m2|done..].
  pose proof Hup as (Hinfra & _).
  change (ms_Cluster m1) with (ms_Cluster m) in Hinfra. rewrite Hinfra. cbn [negb]. do 2 go_step.
  eapply wpM_mono; [by apply Instance_Reconcile_calm|].
  intros [[]|e|] m2 h2 Hc; cbn in Hc; [by repeat go_step| |done].
  destruct Hc as [Hf He]. rewrite !He. by go_step.
Qed.
End calm.

(** C11.  A pass over a machine that is up leaves it so: when the listings show, of what
    concerns the machine and whatever else is in the project, its flexible IP, its server
    started and on the network, the node in the backend pool and its public address
    allowed, each call of the pass reads, or updates the access control list of the machine
    with the very name, action, index and address that the list has; the pass
    ends with the machine ready and no other pass requested, unless a call fails; it does
    not panic.  (This update is not meant: see [acl_always_written].) *)
Theorem machine_up_calm `{SDK : ScwSDK} `{K8S : K8sLib} `{!K8sLaws}
    (v : machine_view) (o : oracle cloud) (m : MachineScope) :
  admissible (sees v m) o -> machine_up v m ->
  let '(t, (oa, m')) := runM o [] MachineController.reconcileNormal m in
  (forall call r, CEv call r ∈ t -> mutates call = false \/
    exists frontendID acl, acl ∈ mv_acls v frontendID /\ acl_Name acl = Machine_Name m /\
      restates acl call) /\
  match oa with
  | Ok res => res = no_requeue /\ smst_Ready (sm_Status (ms_ScalewayMachine m')) = true
  | Err _ => call_failed t
  | Panic => False
  end.
Proof.
  intros Ho Hup.
  destruct (wpM_sound _ _ o _ _ _ _ Ho (machine_reconcileNormal_calm v m [] Hup)) as (t & Et & Hob & HQ).
  destruct (runM o [] MachineController.reconcileNormal m) as [t' [oa m']]. simpl in *. subst t'. split.
  - intros call r (t1 & t2 & E)%list_elem_of_split. by apply (Hob t1 call r t2).
  - destruct oa as [res|e|]; cbn in HQ; [done|by destruct HQ|done].
Qed.

(** The access control list of a machine with a public address is written in every pass that
    comes so far, even when it already is as it should be: the comparison that is to avoid
    it compares pointers. *)
Theorem acl_always_written `{SDK : ScwSDK} `{K8S : K8sLib} (o : oracle cloud)
    (m : MachineScope) (address : string) :
  let '(t, (oa, _)) := runM o [] (Instance.ensureLoadBalancerACL (Some address)) m in
  oa = Ok tt ->
  (exists frontend acl, ok_ev (CreateACL (Bringup.create_allow m frontend address)) acl ∈ t) \/
  (exists acl, ok_ev (UpdateACL (Bringup.update_allow m acl address)) tt ∈ t).
Proof.
  assert (wpM any_resp any_call (Instance.ensureLoadBalancerACL (Some address)) [] m (fun oa _ t =>
    oa = Ok tt ->
    (exists frontend acl, ok_ev (CreateACL (Bringup.create_allow m frontend address)) acl ∈ t) \/
    (exists acl, ok_ev (UpdateACL (Bringup.update_allow m acl address)) tt ∈ t))) as Hwp.
  { unfold Instance.ensureLoadBalancerACL, FindLoadBalancerFrontendByNames.
    repeat exec_step ltac:(done); try done; intros _; kill_units; [|by rewrite match_differs_true in *|].
    - right. eexists. in_trace.
    - left. do 2 eexists. in_trace. }
  destruct (wpM_sound _ _ o _ [] m _ (admissible_any o) Hwp) as (t & _ & _ & HQ).
  by destruct (runM o [] _ m) as [t' [oa m']].
Qed.

(** ** The sample machine *)

#[local] Existing Instances sim_sdk sim_k8s sim_k8s_laws.

(** The listings show [v]; the other calls fail, but for the write of the object. *)
Definition view_answers (v : machine_view) : oracle cloud := fun _ c =>
  match c return resp cloud c with
  | InstanceListIPs _ _ => ROk (mv_ips v)
  | ListServers _ (Some _) => ROk (mv_servers v)
  | ListPrivateNICs _ serverID => ROk (mv_nics v serverID)
  | IPAMListIPs _ _ nicID => ROk (mv_addresses v nicID)
  | ListLBs _ (Some _) => ROk (mv_lbs v)
  | ListBackends _ lbID (Some _) => ROk (mv_backends v lbID)
  | ListFrontends _ lbID (Some _) => ROk (mv_frontends v lbID)
  | ListACLs _ frontendID (Some _) => ROk (mv_acls v frontendID)
  | Patch _ _ => ROk tt
  | _ => RErr (OtherError "unavailable")
  end.

Lemma view_answers_shows v : admissible (machine_shows v) (view_answers v).
Proof.
  intros h c. destruct c; try done;
    repeat match goal with x : option _ |- _ => destruct x end; done.
Qed.

(** A control-plane node, its server running. *)
Definition demo_up_view : machine_view :=
  {| mv_ips := [{| iip_ID := "ip"; iip_Tags := [] |}];
     mv_servers := [{| srv_ID := "server"; srv_Name := "caps-node"; srv_Zone := "fr-par-1";
       srv_State := ServerStateOther "running";
       srv_PublicIP := Some {| sip_ID := "ip"; sip_Address := [51; 15; 0; 2]; sip_Dynamic := false |};
       srv_Volumes := [] |}];
     mv_nics _ := [{| nic_ID := "nic"; nic_PrivateNetworkID := "id-14" |}];
     mv_addresses _ := [{| IPNet_IP := [10; 0; 0; 2]; IPNet_Mask := [255; 255; 255; 0] |}];
     mv_lbs := [sim_lb "fr-par-1" "caps-demo" "lb"];
     mv_backends _ := [{| be_ID := "be"; be_Name := "control-plane"; be_Pool := ["10.0.0.2"%string] |}];
     mv_frontends _ := [sim_frontend "control-plane" "fe"];
     mv_acls _ := [{| acl_ID := "acl"; acl_Name := "caps-node"; acl_Match := Some ["51.15.0.2"%string];
                      acl_Action := Some ACLActionTypeAllow; acl_Index := 3 |}] |}.

Abbreviation demo_up_scope := MachineProgress.demo_up_scope.

Lemma exists_as_one {A} (name : A -> string) n (P : A -> Prop) x :
  name x = n -> P x -> exists_as name n P [x].
Proof.
  intros E HP. split; [exists x; split; [left|done]|]. by intros y ->%list_elem_of_singleton _.
Qed.

Lemma demo_machine_is_up : machine_up demo_up_view demo_up_scope.
Proof.
  split; [done|]. split; [by eexists|]. apply exists_as_one; [done|]. split; [done|].
  split; [|split].
  - exists "id-14"%string. split; [done|]. by apply exists_as_one.
  - intros _. do 2 (apply exists_as_one; [done|]).
    intros ip (nic & net & _ & _ & [= <-] & <-). by vm_compute.
  - do 2 (apply exists_as_one; [done|]). apply exists_as_one; by vm_compute.
Qed.

Lemma machine_up_calm_witness :
  let '(t, (oa, m')) := runM (view_answers demo_up_view) [] MachineController.reconcileNormal demo_up_scope in
  (forall call r, CEv call r ∈ t -> mutates call = false \/
    exists frontendID acl, acl ∈ mv_acls demo_up_view frontendID /\ acl_Name acl = Machine_Name demo_up_scope /\
      restates acl call) /\
  match oa with
  | Ok res => res = no_requeue /\ smst_Ready (sm_Status (ms_ScalewayMachine m')) = true
  | Err _ => call_failed t
  | Panic => False
  end.
Proof.
  apply (machine_up_calm demo_up_view); [|apply demo_machine_is_up].
  intros h c. apply shows_sees, view_answers_shows.
Defined.
