(* ===== verification/MachineReplay.v ===== *)
(** * What the passes over a machine make of a project

    [view_after] replays the calls of a history on what a pass over a machine reads
    ([MachineConvergence]); [machine_faithful] says that the APIs show the replayed state. *)

From S2P Require Import Prelude Go Net Prog Sdk Types Cloud Ledger Scope Client.
From S2P Require Import LoadBalancer Instance Convergence Frame Replay MachineConvergence.
#[local] Open Scope caps_scope.

(** ** The effect of the calls *)

(** A server that was powered on is not stopped any more. *)
Definition started (id : ID) (server : Server) : Server :=
  if srv_ID server =?s id then
    {| srv_ID := srv_ID server; srv_Name := srv_Name server; srv_Zone := srv_Zone server;
       srv_State := ServerStateOther "starting"; srv_PublicIP := srv_PublicIP server;
       srv_Volumes := srv_Volumes server |}
  else server.

Definition with_servers (id : ID) (ips : list string) (b : Backend) : Backend :=
  if be_ID b =?s id then {| be_ID := be_ID b; be_Name := be_Name b; be_Pool := be_Pool b ++ ips |}
  else b.

Definition without_servers (id : ID) (ips : list string) (b : Backend) : Backend :=
  if be_ID b =?s id then
    {| be_ID := be_ID b; be_Name := be_Name b;
       be_Pool := List.filter (fun ip => negb (slices_Contains ips ip)) (be_Pool b) |}
  else b.

Definition ips_after (c : cloud_call) : cloud_val c -> list InstanceIP -> _ :=
  match c return cloud_val c -> list InstanceIP -> list InstanceIP with
  | InstanceCreateIP _ _ => fun ip xs => xs ++ [ip]
  | InstanceDeleteIP _ id => fun _ xs => without iip_ID id xs
  | _ => fun _ xs => xs
  end.

Definition servers_after (c : cloud_call) : cloud_val c -> list Server -> _ :=
  match c return cloud_val c -> list Server -> list Server with
  | CreateServer _ => fun server xs => xs ++ [server]
  | DeleteServer _ id => fun _ xs => without srv_ID id xs
  | ServerAction _ id ServerActionPoweron => fun _ xs => started id <$> xs
  | ServerAction _ id ServerActionTerminate => fun _ xs => without srv_ID id xs
  | _ => fun _ xs => xs
  end.

Definition nics_after (c : cloud_call) : cloud_val c -> (ID -> list PrivateNIC) -> _ :=
  match c return cloud_val c -> (ID -> list PrivateNIC) -> ID -> list PrivateNIC with
  | CreatePrivateNIC _ serverID _ => fun nic f serverID' =>
      if serverID' =?s serverID then f serverID' ++ [nic] else f serverID'
  | _ => fun _ f => f
  end.

Definition pools_after (c : cloud_call) : cloud_val c -> (ID -> list Backend) -> _ :=
  match c return cloud_val c -> (ID -> list Backend) -> ID -> list Backend with
  | AddBackendServers _ id ips => fun _ f lbID => with_servers id ips <$> f lbID
  | RemoveBackendServers _ id ips => fun _ f lbID => without_servers id ips <$> f lbID
  | _ => fun _ f => f
  end.

Definition lists_after (c : cloud_call) : cloud_val c -> (ID -> list ACL) -> _ :=
  match c return cloud_val c -> (ID -> list ACL) -> ID -> list ACL with
  | CreateACL req => fun acl f frontendID =>
      if frontendID =?s cacl_FrontendID req then f frontendID ++ [acl] else f frontendID
  | UpdateACL req => fun _ f frontendID => update_acl req <$> f frontendID
  | DeleteACL _ id => fun _ f frontendID => without acl_ID id (f frontendID)
  | _ => fun _ f => f
  end.

Definition view_step (v : machine_view) (e : event cloud) : machine_view :=
  {| mv_ips := after ips_after e (mv_ips v);
     mv_servers := after servers_after e (mv_servers v);
     mv_nics := after nics_after e (mv_nics v);
     mv_addresses := mv_addresses v;
     mv_lbs := mv_lbs v;
     mv_backends := after pools_after e (mv_backends v);
     mv_frontends := mv_frontends v;
     mv_acls := after lists_after e (mv_acls v) |}.

Definition view_after : machine_view -> trace -> machine_view := state_after view_step.

Lemma view_after_snoc v h e : view_after v (h ++ [e]) = view_step (view_after v h) e.
Proof. apply state_after_snoc. Qed.

(** ** The answers *)

(** A created resource is as requested. *)
Definition made_as (c : cloud_call) : cloud_val c -> Prop :=
  match c return cloud_val c -> Prop with
  | CreateServer req => fun server => srv_Name server = csr_Name req
  | CreatePrivateNIC _ _ pnID => fun nic => nic_PrivateNetworkID nic = pnID
  | CreateACL req => fun acl => 
      acl_Name acl = cacl_Name req /\ acl_is (cacl_Match req) (cacl_Action req) (cacl_Index req) acl
  | _ => fun _ => True
  end.

(** The APIs show what the calls of the history made of [v]. *)
Definition machine_faithful (v : machine_view) : rely := fun h c r =>
  machine_shows (view_after v h) h c r /\
  match r with ROk x => made_as c x | RErr _ => True end.

(** ** Parts *)

Inductive machine_part := IPs | Servers | NICs | Pools | Lists | Surroundings.

#[export] Instance machine_part_eq_dec : EqDecision machine_part.
Proof. solve_decision. Defined.

Definition machine_part_of (c : cloud_call) : option machine_part :=
  match c with
  | InstanceCreateIP _ _ | InstanceDeleteIP _ _ => Some IPs
  | CreateServer _ | DeleteServer _ _ | ServerAction _ _ _ => Some Servers
  | CreatePrivateNIC _ _ _ => Some NICs
  | AddBackendServers _ _ _ | RemoveBackendServers _ _ _ => Some Pools
  | CreateACL _ | UpdateACL _ | DeleteACL _ _ => Some Lists
  | _ => None
  end.

Definition same_view (s : machine_part) (v v' : machine_view) : Prop :=
  match s with
  | IPs => mv_ips v' = mv_ips v
  | Servers => mv_servers v' = mv_servers v
  | NICs => mv_nics v' = mv_nics v
  | Pools => mv_backends v' = mv_backends v
  | Lists => mv_acls v' = mv_acls v
  | Surroundings => mv_addresses v' = mv_addresses v /\ mv_lbs v' = mv_lbs v /\
      mv_frontends v' = mv_frontends v
  end.

#[export] Instance view_framed : Framed view_step machine_part_of same_view.
Proof.
  split.
  - intros s. split; [intros v; by destruct s|intros v1 v2 v3; destruct s; cbn; naive_solver congruence].
  - intros s v c [a|e]; destruct s, c; cbn; auto; by intros [].
Qed.

(** The computation changes the parts [l] only. *)
Definition changes_only {A} (l : list machine_part) (x : GoC MachineScope A) : Prop :=
  safe any_resp (calls_on machine_part_of l) (fun _ => True) x.

Definition same_off (l : list machine_part) : machine_view -> machine_view -> Prop :=
  agree_off same_view l.

Lemma wpM_changes {A} v l (x : GoC MachineScope A) h m R (G : guarantee) Q :
  wpM R G x h m Q -> changes_only l x ->
  wpM R G x h m (fun oa m' h' => Q oa m' h' /\ same_off l (view_after v h) (view_after v h')).
Proof. intros HQ Hx. by eapply (wpM_keeping view_step machine_part_of same_view v l). Qed.

(** Views that agree on every part are equal. *)
Lemma same_off_nil v v' : same_off [] v v' -> v' = v.
Proof.
  intros H. pose proof (H IPs eq_refl). pose proof (H Servers eq_refl). pose proof (H NICs eq_refl).
  pose proof (H Pools eq_refl). pose proof (H Lists eq_refl). destruct (H Surroundings eq_refl) as (? & ? & ?).
  destruct v, v'. cbn in *. by subst.
Qed.

(** A call that changes no part. *)
Lemma view_after_read v h c a : machine_part_of c = None -> view_after v (h ++ [ok_ev c a]) = view_after v h.
Proof.
  intros Hc. apply same_off_nil. intros s _. rewrite view_after_snoc.
  apply (framed_step view_step machine_part_of same_view). by rewrite Hc.
Qed.
