(* ===== verification/MachineSettling.v ===== *)
(** * A pass that succeeds leaves the machine up

    Starting from any project where the resources that a machine is found by are not
    doubled, a pass that ends without asking for another one leaves a project where the
    machine is up: [MachineConvergence] says that the passes that follow leave it as it is. *)

From S2P Require Import Prelude Go Net Prog Sdk Types Cloud Ledger Scope Client.
From S2P Require Import LoadBalancer Instance ClusterController.
From S2P Require MachineController MachineProgress.
From S2P Require Import Simulation Convergence Frame Replay MachineConvergence MachineReplay.
#[local] Open Scope caps_scope.

(** What a pass finds by name is not doubled. *)
Definition tidy_entries (v : machine_view) (m : MachineScope) : Prop :=
  at_most_one lb_Name (Cluster_Name (ms_Cluster m)) (mv_lbs v) /\
  (forall lbID, at_most_one be_Name ControlPlaneBackendName (mv_backends v lbID)) /\
  (forall lbID, at_most_one fe_Name ControlPlaneFrontendName (mv_frontends v lbID)) /\
  forall frontendID, at_most_one acl_Name (Machine_Name m) (mv_acls v frontendID).

Definition tidy_machine (v : machine_view) (m : MachineScope) : Prop :=
  at_most_one srv_Name (Machine_Name m) (mv_servers v) /\
  (forall serverID pnID, at_most_one nic_PrivateNetworkID pnID (mv_nics v serverID)) /\
  tidy_entries v m.

Section settle.
Context `{SDK : ScwSDK} `{K8S : K8sLib}.
Context (v0 : machine_view).
Implicit Types (h : trace) (m : MachineScope).

Abbreviation V := (view_after v0).
Abbreviation up_wp := (wpM (machine_faithful v0) any_call).

(** ** Steps of the pass *)

(** A computation that only reads. *)
Lemma reads_up {A} (x : GoC MachineScope A) m h Q :
  safe any_resp (calls_on machine_part_of []) (fun m' => m' = m) x ->
  (forall oa h', V h' = V h -> Q oa m h') -> up_wp x h m Q.
Proof.
  intros Hx HQ. eapply wpM_mono.
  { by apply (wpM_invariant view_step machine_part_of same_view v0 []). }
  intros oa m' h' [-> Hs]. by apply HQ, same_off_nil.
Qed.

Lemma inst_getOrCreateIP_up m h :
  up_wp getOrCreateIP h m (on_success (fun _ m' h' => m' = m /\
    (NeedsPublicIP m = true -> exists ip, mv_ips (V h') = [ip]))).
Proof.
  unfold getOrCreateIP. do 2 go_step. destruct (NeedsPublicIP m); cbn [negb]; [|by go_step].
  do 2 go_step. eapply finder_wp; [done| |].
  - intros ips oa [Hs _] Hf. cbn in Hs. destruct oa as [x|e|]; cbn in Hf; [|destruct Hf as [[-> ->]|[Hf _]]|done].
    + go_step. split; [done|]. intros _. exists x. rewrite view_after_snoc. cbn. congruence.
    + cbn. rewrite bool_decide_eq_true_2 by done. do 3 settle_step; [|done]. settle_step.
      split; [done|]. intros _. rewrite !view_after_snoc. cbn. rewrite <- Hs. by eexists.
    + by rewrite Hf.
  - intros e e' _ He. by rewrite He.
Qed.

Lemma getOrCreateServer_up ip m h :
  at_most_one srv_Name (Machine_Name m) (mv_servers (V h)) ->
  up_wp (getOrCreateServer ip) h m (on_success (fun server m' h' => m' = m /\
    exists_as srv_Name (Machine_Name m) (fun s => s = server) (mv_servers (V h')))).
Proof.
  intros Hu. unfold getOrCreateServer. do 3 go_step. settle_step; [| |by repeat settle_step].
  - to_prop. settle_step. split; [done|]. rewrite view_after_read by done.
    by apply (exists_as_found _ _ _ _ x).
  - go_step. apply reads_up; [free_auto|]. intros [imageID|e|] h2 E2; [|done..].
    go_step. apply reads_up; [free_auto|]. intros [sgID|e|] h3 E3; [|done..].
    rewrite view_after_read in E2 by done. rewrite <- E2, <- E3 in Hnone.
    do 2 go_step. destruct (ScalewayRootVolumeType _) as [volType|e|]; [|done..]. do 2 settle_step; [|done].
    split; [done|]. rewrite view_after_snoc. cbn. by apply exists_as_snoc.
Qed.

(** The NIC of the pass: the only one on the network of the cluster. *)
Definition nic_found v m (server : Server) (pnic : option PrivateNIC) : Prop :=
  match pnic with
  | Some nic => HasPrivateNetwork (ms_Cluster m) = true /\
      PrivateNetworkID (ms_Cluster m) = Ok (nic_PrivateNetworkID nic) /\
      exists_as nic_PrivateNetworkID (nic_PrivateNetworkID nic) (fun x => x = nic)
        (mv_nics v (srv_ID server))
  | None => HasPrivateNetwork (ms_Cluster m) = false
  end.

Lemma getOrCreatePrivateNIC_up server m h :
  (forall pnID, at_most_one nic_PrivateNetworkID pnID (mv_nics (V h) (srv_ID server))) ->
  up_wp (getOrCreatePrivateNIC server) h m (on_success (fun pnic m' h' => m' = m /\
    nic_found (V h') m server pnic)).
Proof.
  intros Hu. unfold getOrCreatePrivateNIC, nic_found. do 2 go_step.
  destruct (HasPrivateNetwork _) eqn:Ep; cbn [negb]; [|by go_step].
  do 2 go_step. destruct (PrivateNetworkID _) as [pnID|e|] eqn:Eid; [|done..]. go_step.
  settle_step; [| |by repeat settle_step]; to_prop.
  - settle_step. rewrite view_after_read by done. split_and!; [done|done|congruence|].
    rewrite Ex. by apply (exists_as_found _ _ _ _ x).
  - do 3 settle_step; [|done]. settle_step. rewrite !view_after_snoc. cbn. rewrite String_eqb_refl.
    split_and!; [done|done|congruence|]. apply exists_as_snoc; [|done..]. by rewrite Ha.
Qed.

(** The addresses of the pass. *)
Definition ips_found v m (server : Server) (pnic : option PrivateNIC) (ips : machineIPs) : Prop :=
  mip_External ips = public_address server /\
  match pnic with
  | Some nic => exists net, head (mv_addresses v (nic_ID nic)) = Some net /\
      mip_Internal ips = Some (IP_String (IPNet_IP net))
  | None => mip_Internal ips = None /\ public_address server <> None
  end.

Lemma getMachineIPs_up server pnic m h :
  up_wp (getMachineIPs server pnic) h m (on_success (fun ips m' h' => m' = m /\
    ips_found (V h') m server pnic ips)).
Proof.
  unfold getMachineIPs, ips_found. do 3 go_step. destruct pnic as [nic|].
  - do 2 go_step. unfold FindIPv4ByInstancePrivateNICID. go_step. settle_step; [|by repeat settle_step].
    set (h1 := h ++ _). assert (V h1 = V h) as <- by by apply view_after_read. clearbody h1.
    destruct (mv_addresses (V h1) (nic_ID nic)) as [|net nets] eqn:En;
      do 3 settle_step; [done|done|by settle_step|].
    settle_step. split; [done|]. split; [done|]. rewrite En. by exists net.
  - do 2 go_step; [by go_step|go_step]. split; [done|]. split; [done|]. split; [done|].
    unfold public_address. by destruct (srv_PublicIP server).
Qed.

(** The address of the node is the one the pass registers. *)
Lemma node_address_found v m server pnic ips :
  nic_found v m server pnic -> ips_found v m server pnic ips ->
  exists nodeIP, NodeIP ips = Ok nodeIP /\ forall ip, node_address v m server ip -> ip = nodeIP.
Proof.
  unfold nic_found, ips_found, node_address, NodeIP. intros Hn [Eext Hi]. destruct pnic as [nic|].
  - destruct Hn as (-> & Eid & [_ Hall]), Hi as (net & Enet & ->). eexists. split; [done|].
    intros ip (nic' & net' & Hnic & Eid' & Enet' & <-). rewrite Eid in Eid'. injection Eid' as E.
    rewrite (Hall nic' Hnic) in Enet' by done. congruence.
  - rewrite Hn. destruct Hi as [-> Hp]. rewrite Eext. destruct (public_address server) as [ip|]; [|done].
    exists ip. split; [done|]. by intros ip' [= ->].
Qed.

Lemma addressed_found v m server pnic ips :
  nic_found v m server pnic -> ips_found v m server pnic ips -> addressed v m server.
Proof.
  unfold nic_found, ips_found, addressed, public_address. intros Hn [_ Hi]. destruct pnic as [nic|].
  - destruct Hn as (-> & Eid & [Hex Hall]), Hi as (net & Enet & _). eexists. split; [done|].
    split; [done|]. intros x Hx E. rewrite (Hall x Hx E). by intros Ea; rewrite Ea in Enet.
  - rewrite Hn. destruct Hi as [_ Hp]. by destruct (srv_PublicIP server).
Qed.

(** *** The load balancer *)

(** The balancer [lb] is the one of the cluster, and [x] is the one of name [n] in it. *)
Definition found_in {A} (name : A -> string) (n : string) (items : ID -> list A) v m (lb : LB) (x : A) : Prop :=
  exists_as lb_Name (Cluster_Name (ms_Cluster m)) (fun y => y = lb) (mv_lbs v) /\
  exists_as name n (fun y => y = x) (items (lb_ID lb)).

Lemma find_up {A} (l : GoC MachineScope A) call ans name n (f : cloud_val call -> list A) xs0 m h Q :
  Finder l call ans -> (forall xs oa, ans xs oa -> found (fun x => name x =?s n) (f xs) oa) ->
  (forall xs, machine_shows (V h) h call (ROk xs) -> f xs = xs0) -> at_most_one name n xs0 ->
  machine_part_of call = None ->
  (forall x h', V h' = V h -> exists_as name n (fun y => y = x) xs0 -> Q (Ok x) m h') ->
  (forall e h', Q (Err e) m h') -> up_wp l h m Q.
Proof.
  intros Hl Ha Hs Hu Hp Hok Herr. apply Hl; [done| |by auto].
  intros xs oa [Hr _] Hf%Ha. rewrite (Hs xs Hr) in Hf. destruct oa as [x|e|]; [|by auto|done].
  destruct Hf as [Hx Ex]. to_prop. apply Hok; [by apply view_after_read|]. by apply (exists_as_found _ _ _ _ x).
Qed.

Lemma FindBackend_up zone n m h :
  at_most_one lb_Name (Cluster_Name (ms_Cluster m)) (mv_lbs (V h)) ->
  (forall lbID, at_most_one be_Name n (mv_backends (V h) lbID)) ->
  up_wp (FindLoadBalancerBackendByNames zone (Cluster_Name (ms_Cluster m)) n) h m
    (on_success (fun b m' h' => m' = m /\ V h' = V h /\
      exists lb, found_in be_Name n (mv_backends (V h)) (V h) m lb b)).
Proof.
  intros Hlb Hbe. unfold FindLoadBalancerBackendByNames. go_step.
  eapply (find_up _ _ _ lb_Name); [apply _|intros ? ? H; exact H|by intros xs|done|done| |done].
  intros lb h1 E1 Hlbs. go_step. apply wpM_remote; [exact I| |done]. intros xs [Hs _]. cbn in Hs.
  rewrite E1 in Hs. subst xs. apply wp_first_match. intros [b|e|] Hf; [|done..].
  destruct Hf as [Hb En]. to_prop. split; [done|]. split; [by rewrite view_after_read|].
  exists lb. split; [done|]. by apply (exists_as_found _ _ _ _ b).
Qed.

Lemma FindFrontend_up zone n m h :
  at_most_one lb_Name (Cluster_Name (ms_Cluster m)) (mv_lbs (V h)) ->
  (forall lbID, at_most_one fe_Name n (mv_frontends (V h) lbID)) ->
  up_wp (FindLoadBalancerFrontendByNames zone (Cluster_Name (ms_Cluster m)) n) h m
    (on_success (fun f m' h' => m' = m /\ V h' = V h /\
      exists lb, found_in fe_Name n (mv_frontends (V h)) (V h) m lb f)).
Proof.
  intros Hlb Hfe. unfold FindLoadBalancerFrontendByNames. go_step.
  eapply (find_up _ _ _ lb_Name); [apply _|intros ? ? H; exact H|by intros xs|done|done| |done].
  intros lb h1 E1 Hlbs. go_step. apply wpM_remote; [exact I| |done]. intros xs [Hs _]. cbn in Hs.
  rewrite E1 in Hs. subst xs. apply wp_first_match. intros [f|e|] Hf; [|done..].
  destruct Hf as [Hx En]. to_prop. split; [done|]. split; [by rewrite view_after_read|].
  exists lb. split; [done|]. by apply (exists_as_found _ _ _ _ f).
Qed.

(** The address is in the pool of the control plane. *)
Definition pooled v m (ip : string) : Prop :=
  IsControlPlaneMachine (ms_Machine m) = true ->
  balancers_as v m (fun lb => exists_as be_Name ControlPlaneBackendName
    (fun b => slices_Contains (be_Pool b) ip = true) (mv_backends v (lb_ID lb))).

(** What is said of the resource found holds of the balancers of the cluster. *)
Lemma found_in_balancers {A} (name : A -> string) n items v m lb (x : A) (P : LB -> Prop) :
  found_in name n items v m lb x -> P lb -> balancers_as v m P.
Proof. intros [[Hex Hall] _] HP. split; [done|]. intros lb' Hlb' E. by rewrite (Hall lb' Hlb' E). Qed.

Lemma exists_as_impl {A} (name : A -> string) n (P P' : A -> Prop) xs :
  (forall x, P x -> P' x) -> exists_as name n P xs -> exists_as name n P' xs.
Proof. intros HP [Hex Hall]. split; [done|]. auto. Qed.

(** A change of the resources of a list that keeps their names. *)
Lemma exists_as_map {A} (name : A -> string) n (f : A -> A) (P : A -> Prop) x xs :
  (forall y, name (f y) = name y) -> exists_as name n (fun y => y = x) xs -> P (f x) ->
  exists_as name n P (f <$> xs).
Proof.
  intros Hf [(y & Hy & Ey) Hall] HP. split.
  - exists (f y). split; [by apply list_elem_of_fmap_2|]. by rewrite Hf.
  - intros z (y' & -> & Hy')%list_elem_of_fmap Ez. rewrite Hf in Ez. by rewrite (Hall y' Hy' Ez).
Qed.

Lemma with_servers_name id ips b : be_Name (with_servers id ips b) = be_Name b.
Proof. unfold with_servers. by destruct (_ =?s _). Qed.

Lemma contains_snoc xs x : slices_Contains (xs ++ [x]) x = true.
Proof. apply existsb_elem_of. exists x. rewrite String_eqb_refl. set_solver. Qed.

Lemma ensureControlPlaneLoadBalancer_up ips nodeIP m h :
  at_most_one lb_Name (Cluster_Name (ms_Cluster m)) (mv_lbs (V h)) ->
  (forall lbID, at_most_one be_Name ControlPlaneBackendName (mv_backends (V h) lbID)) ->
  NodeIP ips = Ok nodeIP ->
  up_wp (ensureControlPlaneLoadBalancer ips false) h m
    (on_success (fun _ m' h' => m' = m /\ pooled (V h') m nodeIP)).
Proof.
  intros Hlb Hbe Eip. unfold ensureControlPlaneLoadBalancer, pooled. do 2 go_step.
  destruct (IsControlPlaneMachine _) eqn:Ec; cbn [negb]; [|by go_step]. do 2 go_step.
  eapply wpM_mono; [by apply FindBackend_up|].
  intros [b|e|] m' h1 H; cbn in H; [|done..]. destruct H as (-> & E1 & lb & Hf). cbn [outcome_wrap]. rewrite Eip.
  rewrite <- E1 in Hf. clear E1. pose proof (proj2 Hf) as Hb. do 2 go_step. cbn [andb negb].
  destruct (slices_Contains _ _) eqn:Ein; cbn [negb].
  - go_step. split; [done|]. intros _. eapply found_in_balancers; [exact Hf|].
    eapply exists_as_impl; [|exact Hb]. by intros x ->.
  - settle_step; [|done]. split; [done|]. intros _. rewrite view_after_snoc.
    eapply (found_in_balancers _ _ _ _ _ lb b); [exact Hf|]. cbn [mv_backends view_step after pools_after ok_ev].
    eapply exists_as_map; [apply with_servers_name|exact Hb|].
    unfold with_servers. rewrite String_eqb_refl. apply contains_snoc.
Qed.
Lemma allowed_intro v m server lb f :
  found_in fe_Name ControlPlaneFrontendName (mv_frontends v) v m lb f ->
  list_allows m (public_address server) (mv_acls v (fe_ID f)) -> allowed v m server.
Proof.
  intros Hf Hl. eapply found_in_balancers; [exact Hf|]. eapply exists_as_impl; [|exact (proj2 Hf)].
  intros x ->. exact Hl.
Qed.

Lemma update_allows m ip req acl acls :
  at_most_one acl_Name (Machine_Name m) acls -> acl ∈ acls -> acl_Name acl = Machine_Name m ->
  uacl_ACLID req = acl_ID acl -> uacl_Name req = Machine_Name m -> uacl_Match req = [ip] ->
  uacl_Action req = ACLActionTypeAllow -> uacl_Index req = 3 ->
  list_allows m (Some ip) (update_acl req <$> acls).
Proof.
  intros Hu Hacl En Ei Er Em Eact Eidx. split.
  - exists (update_acl req acl). split; [by apply list_elem_of_fmap_2|].
    unfold update_acl. by rewrite Ei, String_eqb_refl.
  - intros y (x & -> & Hx)%list_elem_of_fmap. unfold update_acl.
    destruct (_ =?s _) eqn:Ex; cbn; [by rewrite Em, Eact, Eidx|]. intros Enx.
    rewrite (Hu x acl) in Ex by done. by rewrite Ei, String_eqb_refl in Ex.
Qed.

Lemma ensureLoadBalancerACL_up server m h :
  at_most_one lb_Name (Cluster_Name (ms_Cluster m)) (mv_lbs (V h)) ->
  (forall lbID, at_most_one fe_Name ControlPlaneFrontendName (mv_frontends (V h) lbID)) ->
  (forall frontendID, at_most_one acl_Name (Machine_Name m) (mv_acls (V h) frontendID)) ->
  up_wp (ensureLoadBalancerACL (public_address server)) h m
    (on_success (fun _ m' h' => m' = m /\ allowed (V h') m server)).
Proof.
  intros Hlb Hfe Hacl. unfold ensureLoadBalancerACL. do 4 go_step.
  eapply wpM_mono; [by apply FindFrontend_up|].
  intros [f|e|] m' h1 H; cbn in H; [|done..]. destruct H as (-> & E1 & lb & Hf). cbn [outcome_wrap].
  rewrite <- E1 in Hf, Hacl. clear E1. specialize (Hacl (fe_ID f)).
  assert (forall h2, mv_lbs (V h2) = mv_lbs (V h1) -> mv_frontends (V h2) = mv_frontends (V h1) ->
    list_allows m (public_address server) (mv_acls (V h2) (fe_ID f)) -> allowed (V h2) m server) as Hintro.
  { intros h2 E E' Hl. eapply (allowed_intro _ _ _ lb f); [|exact Hl]. unfold found_in. by rewrite E, E'. }
  do 2 go_step. settle_step; [| |by repeat settle_step]; to_prop.
  - destruct (public_address server) as [ip|].
    + rewrite match_differs_true by done. settle_step; [|done]. split; [done|].
      apply Hintro; rewrite view_after_snoc, view_after_read by done; [done..|].
      by apply (update_allows m ip _ x).
    + do 2 settle_step; [|done]. split; [done|]. apply Hintro; rewrite view_after_snoc, view_after_read by done; [done..|].
      cbn. intros acl [Hin Hne]%without_spec En. by rewrite (Hacl acl x) in Hne.
  - destruct (public_address server) as [ip|].
    + settle_step. settle_step; [|done]. settle_step. split; [done|].
      apply Hintro; rewrite view_after_snoc, view_after_read by done; [done..|].
      destruct Ha as [En Em]. cbn. rewrite String_eqb_refl. by apply exists_as_snoc.
    + settle_step. split; [done|]. apply Hintro; rewrite view_after_read by done; [done..|].
      intros acl Hin En. apply Hnone in Hin. by rewrite En, String_eqb_refl in Hin.
Qed.

(** *** The server is started *)

Lemma started_same id server :
  srv_Name (started id server) = srv_Name server /\ srv_ID (started id server) = srv_ID server /\
  srv_PublicIP (started id server) = srv_PublicIP server.
Proof. unfold started. by destruct (_ =?s _). Qed.

Lemma ensureServerStarted_up server m h :
  exists_as srv_Name (Machine_Name m) (fun s => s = server) (mv_servers (V h)) ->
  up_wp (ensureServerStarted server) h m (on_success (fun _ m' h' => m' = m /\
    exists_as srv_Name (Machine_Name m) (fun s => srv_State s <> ServerStateStopped /\
      srv_ID s = srv_ID server /\ srv_PublicIP s = srv_PublicIP server) (mv_servers (V h')))).
Proof.
  intros Hs. unfold ensureServerStarted. destruct (bool_decide _) eqn:Est; cbn [negb].
  - settle_step; [|done]. split; [done|]. rewrite view_after_snoc.
    cbn [mv_servers view_step after servers_after ok_ev].
    eapply exists_as_map; [intros y; apply started_same|exact Hs|].
    destruct (started_same (srv_ID server) server) as (_ & -> & ->). split; [|done].
    unfold started. by rewrite String_eqb_refl.
  - settle_step. split; [done|]. apply bool_decide_eq_false in Est.
    eapply exists_as_impl; [|exact Hs]. by intros s ->.
Qed.
(** ** The pass *)

Lemma pooled_same v v' m ip :
  same_view Surroundings v v' -> same_view Pools v v' -> pooled v m ip -> pooled v' m ip.
Proof. intros (_ & El & _) Ep. cbn in Ep. unfold pooled, balancers_as. by rewrite El, Ep. Qed.

Lemma allowed_same v v' m server :
  same_view Surroundings v v' -> same_view Lists v v' -> allowed v m server -> allowed v' m server.
Proof. intros (_ & El & Ef) Ea. cbn in Ea. unfold allowed, balancers_as. by rewrite El, Ef, Ea. Qed.

Lemma tidy_entries_same v v' m :
  same_view Surroundings v v' -> same_view Pools v v' -> same_view Lists v v' ->
  tidy_entries v m -> tidy_entries v' m.
Proof.
  intros (_ & El & Ef) Ep Ea. cbn in Ep, Ea. unfold tidy_entries. by rewrite El, Ef, Ep, Ea.
Qed.

Lemma nic_found_same v v' m server pnic :
  same_view NICs v v' -> nic_found v m server pnic -> nic_found v' m server pnic.
Proof. intros En. cbn in En. unfold nic_found. by rewrite En. Qed.

Lemma ips_found_same v v' m server pnic ips :
  same_view Surroundings v v' -> ips_found v m server pnic ips -> ips_found v' m server pnic ips.
Proof. intros (Ea & _). unfold ips_found. by rewrite Ea. Qed.

(** What [Reconcile] does with a server that has an address. *)
Definition finish (server : Server) (ips : machineIPs) : GoC MachineScope unit :=
  _ ← ensureControlPlaneLoadBalancer ips false;
  _ ← ensureLoadBalancerACL (mip_External ips);
  _ ← ensureCloudInit server ips;
  _ ← ensureServerStarted server;
  setMachine server ips.

Lemma finish_up server ips nodeIP m h :
  tidy_entries (V h) m -> NodeIP ips = Ok nodeIP -> mip_External ips = public_address server ->
  exists_as srv_Name (Machine_Name m) (fun s => s = server) (mv_servers (V h)) ->
  up_wp (finish server ips) h m (on_success (fun _ m' h' =>
    (forall v, machine_up v m -> machine_up v m') /\ same_off [Servers; Pools; Lists] (V h) (V h') /\
    pooled (V h') m nodeIP /\ allowed (V h') m server /\
    exists_as srv_Name (Machine_Name m) (fun s => srv_State s <> ServerStateStopped /\
      srv_ID s = srv_ID server /\ srv_PublicIP s = srv_PublicIP server) (mv_servers (V h')))).
Proof.
  intros (Hlb & Hbe & Hfe & Hacl) Eip Eext Hs. unfold finish. rewrite Eext. go_step.
  eapply wpM_mono; [eapply (wpM_changes v0 [Pools]); [by eapply ensureControlPlaneLoadBalancer_up|]|].
  { unfold changes_only, ensureControlPlaneLoadBalancer. free_auto. }
  intros [[]|e|] m' h1 [H S1]; cbn in H; [|done..]. destruct H as [-> Hp]. go_step.
  destruct (S1 Surroundings eq_refl) as (_ & El & Ef). pose proof (S1 Lists eq_refl) as Ea. cbn in Ea.
  eapply wpM_mono; [eapply (wpM_changes v0 [Lists]); [apply ensureLoadBalancerACL_up|]|].
  1-3: by rewrite ?El, ?Ef, ?Ea.
  { unfold changes_only, ensureLoadBalancerACL. free_auto. }
  intros [[]|e|] m' h2 [H S2]; cbn in H; [|done..]. destruct H as [-> Ha]. go_step.
  apply reads_up; [unfold ensureCloudInit, GetRawBootstrapData; free_auto|].
  intros [[]|e|] h3 E3; [|done..]. rewrite <- E3 in S2, Ha. go_step.
  eapply wpM_mono; [eapply (wpM_changes v0 [Servers]); [apply ensureServerStarted_up|]|].
  { by rewrite (S2 Servers eq_refl), (S1 Servers eq_refl). }
  { unfold changes_only, ensureServerStarted. free_auto. }
  intros [[]|e|] m' h4 [H S4]; cbn in H; [|done..]. destruct H as [-> Hup]. unfold setMachine. go_step.
  split; [|split; [|split; [|split; [|done]]]].
  - intros v. by destruct m as [cluster [meta [] st] machine].
  - intros s Hs'. transitivity (V h1); [apply S1; by destruct s|].
    transitivity (V h3); [apply S2|apply S4]; by destruct s.
  - eapply pooled_same; [..|eapply pooled_same, Hp]; [apply S4|apply S4|apply S2|apply S2]; done.
  - eapply allowed_same; [..|exact Ha]; by apply S4.
Qed.

(** The parts of [machine_up], put together. *)
Lemma machine_up_intro v m server pnic ips nodeIP :
  cl_InfrastructureReady (cs_Cluster (ms_Cluster m)) = true ->
  (NeedsPublicIP m = true -> exists ip, mv_ips v = [ip]) ->
  nic_found v m server pnic -> ips_found v m server pnic ips -> NodeIP ips = Ok nodeIP ->
  pooled v m nodeIP -> allowed v m server ->
  exists_as srv_Name (Machine_Name m) (fun s => srv_State s <> ServerStateStopped /\
    srv_ID s = srv_ID server /\ srv_PublicIP s = srv_PublicIP server) (mv_servers v) ->
  machine_up v m.
Proof.
  intros Hinfra Hip Hn Hi Eip Hp Ha Hs. split; [done|]. split; [done|].
  destruct (node_address_found v m server pnic ips Hn Hi) as (nodeIP' & Eip' & Hnode).
  rewrite Eip in Eip'. injection Eip' as <-.
  eapply exists_as_impl; [|exact Hs]. intros s (Hst & Eid & Epub). split; [done|].
  unfold addressed, in_pool, allowed, node_address, public_address in *. rewrite Eid, Epub.
  split_and!; [by eapply addressed_found| |done].
  intros Ec. specialize (Hp Ec). destruct Hp as [Hex Hall]. split; [done|]. intros lb Hlb El.
  eapply exists_as_impl; [|by apply (Hall lb)]. intros b Hb ip Hip'. by rewrite (Hnode ip Hip').
Qed.

Lemma Instance_Reconcile_up m h :
  cl_InfrastructureReady (cs_Cluster (ms_Cluster m)) = true -> tidy_machine (V h) m ->
  up_wp Instance.Reconcile h m (on_success (fun _ m' h' => machine_up (V h') m')).
Proof.
  intros Hinfra (Hsrv & Hnic & Hrest). unfold Instance.Reconcile. go_step.
  eapply wpM_mono; [eapply (wpM_changes v0 [IPs]); [apply inst_getOrCreateIP_up|]|].
  { unfold changes_only, getOrCreateIP. free_auto. }
  intros [ip|e|] m' h1 [H S1]; cbn in H; [|done..]. destruct H as [-> Hip]. go_step.
  eapply wpM_mono; [eapply (wpM_changes v0 [Servers]); [apply getOrCreateServer_up|]|].
  { by rewrite (S1 Servers eq_refl). }
  { unfold changes_only, getOrCreateServer. free_auto. }
  intros [server|e|] m' h2 [H S2]; cbn in H; [|done..]. destruct H as [-> Hs]. go_step.
  eapply wpM_mono; [eapply (wpM_changes v0 [NICs]); [apply getOrCreatePrivateNIC_up|]|].
  { intros pnID. rewrite (S2 NICs eq_refl), (S1 NICs eq_refl). apply Hnic. }
  { unfold changes_only, getOrCreatePrivateNIC. free_auto. }
  intros [pnic|e|] m' h3 [H S3]; cbn in H; [|done..]. destruct H as [-> Hn]. go_step.
  eapply wpM_mono; [eapply (wpM_changes v0 []); [apply getMachineIPs_up|]|].
  { unfold changes_only, getMachineIPs. free_auto. }
  intros [ips|e|] m' h4 [H E4%same_off_nil]; cbn in H; [|done..]. destruct H as [-> Hi].
  rewrite <- E4 in Hn, S3. destruct (node_address_found _ _ _ _ _ Hn Hi) as (nodeIP & Eip & _).
  assert (same_off [IPs; Servers; NICs] (V h) (V h4)) as S.
  { intros s Hs'. transitivity (V h1); [apply S1|transitivity (V h2); [apply S2|apply S3]]; by destruct s. }
  eapply wpM_mono; [apply (finish_up server ips nodeIP); [|exact Eip|apply Hi|by rewrite (S3 Servers eq_refl)]|].
  { eapply tidy_entries_same; [..|exact Hrest]; by apply S. }
  intros [[]|e|] m' h5 H; cbn in H; [|done..]. destruct H as (Hset & S5 & Hp & Ha & Hup). cbn.
  apply Hset, (machine_up_intro _ _ server pnic ips nodeIP); try done.
  - intros Hneed. destruct (Hip Hneed) as [ip' Eip']. exists ip'.
    by rewrite (S5 IPs eq_refl), (S3 IPs eq_refl), (S2 IPs eq_refl).
  - eapply nic_found_same, Hn. by apply S5.
  - eapply ips_found_same, Hi. by apply S5.
Qed.

(** Only the name matters in the metadata. *)
Lemma tidy_machine_meta v m meta :
  om_Name meta = om_Name (sm_ObjectMeta (ms_ScalewayMachine m)) -> tidy_machine v m ->
  tidy_machine v (MachineController.set_ms_ObjectMeta meta m).
Proof.
  destruct m as [cluster [[name ns uid labels annots fins owners del] spec status] machine].
  destruct meta. cbn. by intros ->.
Qed.

Lemma machine_reconcileNormal_up `{!K8sLaws} m h :
  tidy_machine (V h) m ->
  up_wp MachineController.reconcileNormal h m (fun oa m' h' => oa = Ok no_requeue -> machine_up (V h') m').
Proof.
  intros Ht. unfold MachineController.reconcileNormal. do 2 go_step.
  pose proof (AddFinalizer_name (sm_ObjectMeta (ms_ScalewayMachine m)) MachineFinalizer) as Hname.
  destruct (AddFinalizer _ _) as [meta added]. simpl in Hname. do 3 go_step.
  set (m1 := MachineController.set_ms_ObjectMeta meta m).
  apply reads_up; [unfold Machine_PatchObject; free_auto|].
  intros [[]|e|] h1 E1; [|done..]. rewrite <- E1 in Ht.
  destruct (cl_InfrastructureReady _) eqn:Ei; cbn [negb]; [|by repeat go_step]. do 2 go_step.
  eapply wpM_mono; [apply (Instance_Reconcile_up m1); [exact Ei|by apply tidy_machine_meta]|].
  intros [[]|e|] m2 h2 Hup; cbn in Hup; [|by repeat go_step|done].
  repeat go_step. intros _. revert Hup. by destruct m2 as [cluster [meta' spec st] machine].
Qed.
End settle.

(** C10.  A pass over a machine succeeds only by bringing the machine up: from any project
    where the server of the machine, its NICs and its entries in the load balancer are not
    doubled, a pass that ends without asking for another one leaves the machine up in the
    project replayed from its calls and their answers: flexible IP, server started, on
    the network, in the backend pool and allowed.  The passes that follow leave it so:
    they read, and at most write the access control list of the machine again as it is. *)
Theorem machine_pass_settles `{SDK : ScwSDK} `{K8S : K8sLib} `{!K8sLaws}
    (v : machine_view) (o : oracle cloud) (m : MachineScope) :
  admissible (machine_faithful v) o -> tidy_machine v m ->
  let '(t, (oa, m')) := runM o [] MachineController.reconcileNormal m in
  oa = Ok no_requeue ->
  machine_up (view_after v t) m' /\
  forall o', admissible (sees (view_after v t) m') o' ->
    forall call r, CEv call r ∈ (runM o' [] MachineController.reconcileNormal m').1 ->
      mutates call = false \/
      exists frontendID acl, acl ∈ mv_acls (view_after v t) frontendID /\
        acl_Name acl = Machine_Name m' /\ restates acl call.
Proof.
  intros Ho Ht.
  destruct (wpM_sound _ _ o _ _ _ _ Ho (machine_reconcileNormal_up v m [] Ht)) as (t & Et & _ & HQ).
  destruct (runM o [] MachineController.reconcileNormal m) as [t' [oa m']]. simpl in *. subst t'. intros ->.
  specialize (HQ eq_refl). split; [done|]. intros o' Ho' call r.
  destruct (wpM_sound _ _ o' _ _ _ _ Ho' (machine_reconcileNormal_calm _ m' [] HQ)) as (t' & -> & Hob & _).
  intros (t1 & t2 & E)%list_elem_of_split. by apply (Hob t1 call r t2).
Qed.

(** ** From a project without the machine *)

#[local] Existing Instances sim_sdk sim_k8s sim_k8s_laws.

(** The cluster is up, and nothing of the machine exists. *)
Definition bare_view : machine_view :=
  {| mv_ips := []; mv_servers := []; mv_nics _ := [];
     mv_addresses := mv_addresses demo_up_view;
     mv_lbs := mv_lbs demo_up_view;
     mv_backends _ := [{| be_ID := "be"; be_Name := "control-plane"; be_Pool := [] |}];
     mv_frontends := mv_frontends demo_up_view; mv_acls _ := [] |}.

(** An API that does what it is asked to do. *)
Definition obeying : oracle cloud := fun h c =>
  let v := view_after bare_view h in
  match c return resp cloud c with
  | InstanceListIPs _ _ => ROk (mv_ips v)
  | ListServers _ (Some _) => ROk (mv_servers v)
  | ListPrivateNICs _ serverID => ROk (mv_nics v serverID)
  | IPAMListIPs _ _ nicID => ROk (mv_addresses v nicID)
  | ListLBs _ (Some _) => ROk (mv_lbs v)
  | ListBackends _ lbID (Some _) => ROk (mv_backends v lbID)
  | ListFrontends _ lbID (Some _) => ROk (mv_frontends v lbID)
  | ListACLs _ frontendID (Some _) => ROk (mv_acls v frontendID)
  | ListSecurityGroups zone (Some name) _ _ => ROk [sim_sg zone name "id-sg"]
  | CreateServer req => ROk
      {| srv_ID := "server"; srv_Name := csr_Name req; srv_Zone := csr_Zone req;
         srv_State := ServerStateStopped;
         srv_PublicIP := Some {| sip_ID := "ip"; sip_Address := [51; 15; 0; 2]; sip_Dynamic := false |};
         srv_Volumes := [] |}
  | CreatePrivateNIC _ _ pnID => ROk {| nic_ID := "nic"; nic_PrivateNetworkID := pnID |}
  | CreateACL req => ROk (acl_of_request "acl" req)
  | c => sim demo_world h c
  end.

Lemma obeying_faithful : admissible (machine_faithful bare_view) obeying.
Proof.
  intros h c. split; destruct c; try done; cbn -[view_after sim];
    repeat match goal with x : option _ |- _ => destruct x end; try done.
  all: by case_match.
Qed.

Lemma bare_tidy m : tidy_machine bare_view m.
Proof.
  unfold tidy_machine, tidy_entries, at_most_one. split_and!; intros; cbn in *;
    repeat match goal with
    | H : _ ∈ [] |- _ => by apply not_elem_of_nil in H
    | H : _ ∈ [_] |- _ => apply list_elem_of_singleton in H as ->
    end; done.
Qed.

Lemma demo_machine_pass_succeeds :
  (runM obeying [] MachineController.reconcileNormal demo_up_scope).2.1 = Ok no_requeue.
Proof. by vm_compute. Qed.

Lemma machine_pass_settles_witness :
  let '(t, (oa, m')) := runM obeying [] MachineController.reconcileNormal demo_up_scope in
  oa = Ok no_requeue /\ machine_up (view_after bare_view t) m'.
Proof.
  pose proof (machine_pass_settles bare_view obeying demo_up_scope obeying_faithful (bare_tidy _)) as H.
  pose proof demo_machine_pass_succeeds as E.
  destruct (runM obeying [] MachineController.reconcileNormal demo_up_scope) as [t [oa m']].
  split; [exact E|]. exact (proj1 (H E)).
Defined.
