(* ===== verification/Neighbours.v ===== *)
(** * What the passes over a machine leave alone

    The servers, addresses and NICs of the machines of a project, and their entries in the
    load balancer, are told apart by names only.  When identifiers name one thing for good
    ([identified]), a pass over a machine works on what has its name ([machine_pass_works]),
    and so each of its calls leaves the machines of other names [unharmed] ([step_leaves]). *)

From S2P Require Import Prelude Go Net Prog Sdk Types Cloud Ledger Scope Client.
From S2P Require Import LoadBalancer Instance Secret.
From S2P Require MachineController MachineProgress.
From S2P Require Import Simulation NoDuplicates Convergence Frame Replay Interleaving.
From S2P Require Import MachineConvergence MachineReplay MachineSettling.
#[local] Open Scope caps_scope.

(** ** Names *)

(** The machine that an identifier or an address is of. *)
Record registry := {
  of_server : ID -> string;
  of_nic : ID -> string;
  of_ip : ID -> string;
  of_acl : ID -> string;
  of_address : string -> string;
}.

Definition has_tags (tags tags' : list string) : bool :=
  forallb (fun t => bool_decide (t ∈ tags')) tags.
#[global] Arguments has_tags : simpl never.

Section registry.
Context (reg : registry).

(** A server: its public address is its own. *)
Definition server_of (server : Server) : Prop :=
  of_server reg (srv_ID server) = srv_Name server /\
  match srv_PublicIP server with
  | Some ip => of_ip reg (sip_ID ip) = srv_Name server /\
      of_address reg (IP_String (sip_Address ip)) = srv_Name server
  | None => True
  end.

Definition nic_of_server (serverID : ID) (nic : PrivateNIC) : Prop :=
  of_nic reg (nic_ID nic) = of_server reg serverID.

Definition address_of_nic (nicID : ID) (net : IPNet) : Prop :=
  of_address reg (IP_String (IPNet_IP net)) = of_nic reg nicID.

Definition acl_of (acl : ACL) : Prop := of_acl reg (acl_ID acl) = acl_Name acl.

(** A flexible IP is of the machine in its tags. *)
Definition ip_of (ip : InstanceIP) : Prop :=
  forall name, "caps-node=" +:+ name ∈ iip_Tags ip -> of_ip reg (iip_ID ip) = "caps-" +:+ name.

(** What the APIs answer; a created resource is as requested. *)
Definition identified : rely := fun _ c r =>
  match r with
  | ROk x =>
      match c return cloud_val c -> Prop with
      | ListServers _ _ => fun xs => forall s, s ∈ xs -> server_of s
      | ListPrivateNICs _ serverID => fun xs => forall nic, nic ∈ xs -> nic_of_server serverID nic
      | IPAMListIPs _ _ nicID => fun xs => forall net, net ∈ xs -> address_of_nic nicID net
      | ListACLs _ _ _ => fun xs => forall acl, acl ∈ xs -> acl_of acl
      | CreateServer req => fun s => server_of s /\ srv_Name s = csr_Name req
      | InstanceCreateIP _ tags => fun ip => ip_of ip /\ iip_Tags ip = tags
      | CreatePrivateNIC _ serverID _ => fun nic => nic_of_server serverID nic
      | CreateACL req => fun acl => acl_of acl /\ acl_Name acl = cacl_Name req
      | GetScalewayMachine key => fun m => om_Name (sm_ObjectMeta m) = nn_Name key
      | _ => fun _ => True
      end x
  | RErr _ => True
  end.

(** The state of a project. *)
Definition registered (v : machine_view) : Prop :=
  (forall s, s ∈ mv_servers v -> server_of s) /\
  (forall serverID nic, nic ∈ mv_nics v serverID -> nic_of_server serverID nic) /\
  (forall nicID net, net ∈ mv_addresses v nicID -> address_of_nic nicID net) /\
  (forall frontendID acl, acl ∈ mv_acls v frontendID -> acl_of acl) /\
  (forall ip, ip ∈ mv_ips v -> ip_of ip).

(** The calls that concern the machine of name [n] only. *)
Definition works_on (n : string) : guarantee := fun _ c =>
  match c with
  | InstanceCreateIP _ tags => forall n', "caps-node=" +:+ n' ∈ tags -> n' = n
  | InstanceDeleteIP _ id => of_ip reg id = "caps-" +:+ n
  | CreateServer req => csr_Name req = "caps-" +:+ n
  | CreatePrivateNIC _ id _ | ServerAction _ id _ | DeleteServer _ id =>
      of_server reg id = "caps-" +:+ n
  | CreateACL req => cacl_Name req = "caps-" +:+ n
  | UpdateACL req => of_acl reg (uacl_ACLID req) = "caps-" +:+ n /\ uacl_Name req = "caps-" +:+ n
  | DeleteACL _ id => of_acl reg id = "caps-" +:+ n
  | RemoveBackendServers _ _ ips => forall ip, ip ∈ ips -> of_address reg ip = "caps-" +:+ n
  | AddBackendServers _ _ _ | SetServerUserData _ _ _ _ | DetachVolume _ _ | DeleteVolume _ _ => True
  | _ => mutates c = false
  end.

(** The calls that leave the machine of name [n] alone. *)
Definition spares (n : string) : guarantee := fun h c =>
  mutates c = false \/ exists n', n' <> n /\ works_on n' h c.
End registry.

(** ** What a pass works on *)

(** Symbolic execution that remembers what the answers say, and what is known of the
    computations that were proved before. *)
Create HintDb caps_work.

Ltac work_step :=
  let a := fresh "a" in let Hr := fresh "Hr" in let x := fresh "x" in let xs := fresh "xs" in
  let Hx := fresh "Hx" in let Ex := fresh "Ex" in
  lazymatch goal with
  | |- wpM _ _ (unless_Is ErrNoItemFound _) _ _ _ =>
      first
        [ eapply finder_unless_Is;
          [ apply _ | intros ? ? HH; exact HH | reflexivity
          | intros xs x Hr Hx Ex; cbn in Hr, Hx, Ex | intros ? _ _ | intros ? ? _ _ ]
        | eapply finder_unless_Is_single;
          [ apply _ | intros ? ? HH; exact HH | reflexivity
          | intros ? ? _ _ | intros ? _ _ | intros ? ? _ _ ]
        | go_step ]
  | |- wpM _ _ (remote _) _ _ _ =>
      apply wpM_remote; [cbn [works_on]; try reflexivity|intros a Hr; cbn in Hr|intros ? _]
  | |- wpM _ _ _ _ _ _ =>
      first
        [ go_step
        | eapply finder_wp; [reflexivity|intros xs [x| |] Hr Hx; cbn in Hr, Hx|intros ? ? _ _]
        | eapply wpM_mono; [solve [eauto with caps_work]|intros [x| |] ? ? [-> Hx]; cbn in Hx] ]
  | |- match _ with _ => _ end => go_step
  end; cbn beta iota delta [outcome_wrap] in *.

(** Computations that only read. *)
Ltac read_auto :=
  safe_auto; try (apply safe_remote; intros ?; reflexivity);
  try (eapply finder_safe; [apply _|intros ?; reflexivity]).

Section working.
Context `{SDK : ScwSDK} `{K8S : K8sLib}.
Context (reg : registry) (n : string).
Implicit Types (h : trace) (m : MachineScope).

Abbreviation work_wp := (wpM (identified reg) (works_on reg n)).

(** What the computation makes of the scope of the machine, and what it returns. *)
Definition working {A} (m : MachineScope) (P : A -> Prop) : outcome A -> MachineScope -> trace -> Prop :=
  fun oa m' _ => m' = m /\ match oa with Ok a => P a | _ => True end.

Definition ours m : Prop := om_Name (sm_ObjectMeta (ms_ScalewayMachine m)) = n.

Lemma ours_name m : ours m -> Machine_Name m = "caps-" +:+ n.
Proof. unfold Machine_Name. by intros ->. Qed.

Lemma ours_tags m n' : ours m -> "caps-node=" +:+ n' ∈ Machine_Tags m -> n' = n.
Proof.
  intros Hm [E|[E|?%not_elem_of_nil]%elem_of_cons]%elem_of_cons; [discriminate E| |done].
  apply append_inj_l in E. by rewrite E.
Qed.

(** Reads, and calls that concern no machine. *)
Lemma working_free {A} (x : GoC MachineScope A) m h :
  safe any_resp (works_on reg n) (fun m' => m' = m) x -> work_wp x h m (working m (fun _ => True)).
Proof.
  intros Hx. apply wpM_any. eapply wpM_mono; [by apply Hx|]. intros [] m' h' ->; by split.
Qed.

Lemma getOrCreateIP_works m h :
  ours m -> work_wp Instance.getOrCreateIP h m (working m (fun _ => True)).
Proof.
  intros Hm. unfold Instance.getOrCreateIP. repeat work_step; try by split. intros n'. by apply ours_tags.
Qed.

(** The server of the machine. *)
Definition server_for m (server : Server) : Prop :=
  server_of reg server /\ srv_Name server = Machine_Name m.

Lemma getOrCreateServer_works ip m h :
  ours m -> work_wp (Instance.getOrCreateServer ip) h m (working m (server_for m)).
Proof.
  intros Hm. unfold Instance.getOrCreateServer. repeat work_step; try by split.
  - to_prop. split; [done|]. split; [by apply Hr|done].
  - by apply ours_name.
  - by apply ours_name.
  - by apply ours_name.
  - by apply ours_name.
Qed.

Lemma server_for_ours m server :
  ours m -> server_for m server -> of_server reg (srv_ID server) = "caps-" +:+ n.
Proof. intros Hm [[-> _] ->]. by apply ours_name. Qed.

Lemma getOrCreatePrivateNIC_works server m h :
  ours m -> server_for m server ->
  work_wp (Instance.getOrCreatePrivateNIC server) h m (working m (fun pnic => forall nic,
    pnic = Some nic -> of_nic reg (nic_ID nic) = Machine_Name m)).
Proof.
  intros Hm Hs. assert (of_server reg (srv_ID server) = Machine_Name m) as Es by (by destruct Hs as [[-> _] ->]).
  unfold Instance.getOrCreatePrivateNIC. repeat work_step; try by split.
  - split; [done|]. intros nic [= <-]. rewrite <- Es. by apply Hr.
  - by apply server_for_ours with m.
  - split; [done|]. intros nic [= <-]. by rewrite <- Es.
Qed.

(** The addresses of the machine. *)
Definition ips_for m (ips : machineIPs) : Prop :=
  forall ip, NodeIP ips = Ok ip -> of_address reg ip = Machine_Name m.

Lemma getMachineIPs_works server pnic m h :
  server_for m server ->
  (forall nic, pnic = Some nic -> of_nic reg (nic_ID nic) = Machine_Name m) ->
  work_wp (Instance.getMachineIPs server pnic) h m (working m (fun ips =>
    ips_for m ips /\ mip_External ips = public_address server)).
Proof.
  intros [[_ Hpub] En] Hnic. unfold Instance.getMachineIPs. repeat work_step; try by split.
  - destruct Hx as [Hx _]. split; [done|]. split; [|done]. intros ip [= <-].
    etrans; [by apply Hr|by apply Hnic].
  - split; [done|]. split; [|done]. intros ip. destruct (srv_PublicIP server) as [pub|]; [|done].
    intros [= <-]. destruct Hpub as [_ ->]. exact En.
Qed.

(** The lookups only read. *)
Lemma working_reads {A} (x : GoC MachineScope A) m h :
  safe any_resp read_only (fun m' => m' = m) x -> work_wp x h m (working m (fun _ => True)).
Proof.
  intros Hx. apply working_free. intros h' m' Hm. eapply wpM_weaken; [by apply Hx| |done].
  intros h2 c Hc. destruct c; done.
Qed.

Lemma FindBackend_works zone lb name m h :
  work_wp (FindLoadBalancerBackendByNames zone lb name) h m (working m (fun _ => True)).
Proof. apply working_reads. unfold FindLoadBalancerBackendByNames. read_auto. Qed.

Lemma FindFrontend_works zone lb name m h :
  work_wp (FindLoadBalancerFrontendByNames zone lb name) h m (working m (fun _ => True)).
Proof. apply working_reads. unfold FindLoadBalancerFrontendByNames. read_auto. Qed.

Lemma GetRawBootstrapData_works m h :
  work_wp GetRawBootstrapData h m (working m (fun _ => True)).
Proof. apply working_reads. unfold GetRawBootstrapData. read_auto. Qed.

#[local] Hint Resolve FindBackend_works FindFrontend_works GetRawBootstrapData_works
  getOrCreateIP_works getOrCreateServer_works getOrCreatePrivateNIC_works : caps_work.

Lemma ensureControlPlaneLoadBalancer_works ips deletion m h :
  ours m -> ips_for m ips ->
  work_wp (Instance.ensureControlPlaneLoadBalancer ips deletion) h m (working m (fun _ => True)).
Proof.
  intros Hm Hips. unfold Instance.ensureControlPlaneLoadBalancer. repeat work_step; try by split.
  intros ip ->%list_elem_of_singleton. rewrite (Hips _ Heqo). by apply ours_name.
Qed.

Lemma ensureLoadBalancerACL_works publicIP m h :
  ours m -> work_wp (Instance.ensureLoadBalancerACL publicIP) h m (working m (fun _ => True)).
Proof.
  intros Hm. unfold Instance.ensureLoadBalancerACL. repeat work_step; try by split.
  all: to_prop; try by apply ours_name.
  - cbn. rewrite (Hr x0 Hx0), Ex. split; by apply ours_name.
  - rewrite (Hr x0 Hx0), Ex. by apply ours_name.
Qed.

Lemma ensureCloudInit_works server ips m h :
  work_wp (Instance.ensureCloudInit server ips) h m (working m (fun _ => True)).
Proof. unfold Instance.ensureCloudInit. repeat work_step; by split. Qed.

Lemma server_action_works server m h action :
  ours m -> server_for m server ->
  work_wp (remote (ServerAction (srv_Zone server) (srv_ID server) action)) h m (working m (fun _ => True)).
Proof. intros Hm Hs. work_step; [by eapply server_for_ours|by split..]. Qed.

Lemma ensureServerStarted_works server m h :
  ours m -> server_for m server ->
  work_wp (Instance.ensureServerStarted server) h m (working m (fun _ => True)).
Proof.
  intros Hm Hs. unfold Instance.ensureServerStarted. go_step; [by split|].
  by apply server_action_works.
Qed.

#[local] Hint Resolve ensureControlPlaneLoadBalancer_works ensureLoadBalancerACL_works
  ensureCloudInit_works ensureServerStarted_works server_action_works getMachineIPs_works : caps_work.

Lemma Instance_Reconcile_works m h :
  ours m -> work_wp Instance.Reconcile h m (fun _ m' _ => Machine_Name m' = Machine_Name m).
Proof.
  intros Hm. unfold Instance.Reconcile. repeat work_step; try done.
  destruct Hx2 as [Hips _]. unfold Instance.setMachine. by repeat work_step.
Qed.

(** The end of [deregisterControlPlane]. *)
Lemma deregister_works server pnic m h :
  ours m -> server_for m server ->
  (forall nic, pnic = Some nic -> of_nic reg (nic_ID nic) = Machine_Name m) ->
  work_wp (ips ← wrapf "failed to get machine IPs for control-plane machine"
      (unless_Is errMachineHasNoIP (Instance.getMachineIPs server pnic));
    match ips with
    | None => mret tt
    | Some ips => _ ← unless_Is ErrNoItemFound (Instance.ensureControlPlaneLoadBalancer ips true); mret tt
    end) h m (working m (fun _ => True)).
Proof.
  intros Hm Hs Hnic. do 3 go_step. eapply wpM_mono; [by apply getMachineIPs_works|].
  intros [ips|e|] m' h' [-> H]; cbn in H; [destruct H as [Hips _]| |by split].
  - repeat work_step; try by split.
  - destruct (errors_Is e _); cbn; repeat work_step; try by split.
Qed.

Lemma deregisterControlPlane_works server m h :
  ours m -> server_for m server ->
  work_wp (Instance.deregisterControlPlane server) h m (working m (fun _ => True)).
Proof.
  intros Hm Hs. assert (of_server reg (srv_ID server) = Machine_Name m) as Es by (by destruct Hs as [[-> _] ->]).
  unfold Instance.deregisterControlPlane. do 2 go_step. destruct (negb _); [by go_step|].
  go_step. eapply (wpM_mono _ _ _ _ _ (working m (fun pnic => forall nic, pnic = Some nic ->
    of_nic reg (nic_ID nic) = Machine_Name m))).
  { repeat work_step; try by split. destruct Hx as [Hx _]. split; [done|]. intros nic [= <-].
    rewrite <- Es. by apply Hr. }
  intros [pnic|e|] m' h' [-> H]; cbn in H; [|by split..]. by apply (deregister_works server).
Qed.

Lemma detach_works server m h :
  work_wp (for_each (srv_Volumes server) (fun '(_, vol) =>
    if vol_Boot vol then mret tt
    else wrapf "failed to detach volume" (remote (DetachVolume (srv_Zone server) (vol_ID vol))))) h m
    (working m (fun _ => True)).
Proof. apply working_free. free_auto. Qed.

#[local] Hint Resolve deregisterControlPlane_works detach_works : caps_work.

Lemma Instance_Delete_works m h :
  ours m -> work_wp Instance.Delete h m (fun _ m' _ => Machine_Name m' = Machine_Name m).
Proof.
  intros Hm. unfold Instance.Delete. do 3 work_step. work_step; [|by repeat work_step..].
  assert (server_for m x) as Hs by (to_prop; split; [by apply Hr|done]). clear Hr Hx Ex.
  pose proof (server_for_ours m x Hm Hs) as Hid.
  assert (forall ip, srv_PublicIP x = Some ip -> of_ip reg (sip_ID ip) = "caps-" +:+ n) as Hip.
  { destruct Hs as [[_ Hpub] En]. intros ip E. rewrite E in Hpub. destruct Hpub as [-> _].
    rewrite En. by apply ours_name. }
  repeat work_step; first [done|by apply Hip].
Qed.

Lemma Machine_PatchObject_works m h : work_wp Machine_PatchObject h m (working m (fun _ => True)).
Proof. apply working_reads. unfold Machine_PatchObject. read_auto. Qed.

#[local] Hint Resolve Machine_PatchObject_works : caps_work.

Lemma reconcileNormal_works `{!K8sLaws} m h :
  ours m -> work_wp MachineController.reconcileNormal h m (fun _ _ _ => True).
Proof.
  intros Hm. unfold MachineController.reconcileNormal. do 2 go_step.
  pose proof (AddFinalizer_name (sm_ObjectMeta (ms_ScalewayMachine m)) MachineFinalizer) as Hname.
  destruct (AddFinalizer _ _) as [meta added]. simpl in Hname. do 3 go_step.
  set (m1 := MachineController.set_ms_ObjectMeta meta m).
  assert (ours m1) as Hm1 by (unfold ours; cbn; by rewrite Hname). clearbody m1.
  eapply (wpM_mono _ _ _ _ _ (working m1 (fun _ => True))).
  { destruct added; [apply Machine_PatchObject_works|by go_step]. }
  intros [[]|e|] m' h' [-> _]; [|done..]. destruct (negb _); [by go_step|]. do 2 go_step.
  eapply wpM_mono; [by apply Instance_Reconcile_works|].
  intros [[]|e|] m' h2 _; by repeat work_step.
Qed.

Lemma reconcileDelete_works m h :
  ours m -> work_wp MachineController.reconcileDelete h m (fun _ _ _ => True).
Proof.
  intros Hm. unfold MachineController.reconcileDelete. go_step.
  eapply wpM_mono; [by apply Instance_Delete_works|]. intros [[]|e|] m' h' _; by repeat work_step.
Qed.

(** A pass over a machine of ours name. *)
Lemma machine_pass_works `{!K8sLaws} key h :
  nn_Name key = n ->
  wp (identified reg) (works_on reg n) (fun _ _ => True) h (pass (MachineRequest key)).
Proof.
  intros Hkey. apply (wp_mono _ _ (fun h' '(oa, s') => True)); [|done].
  change (wpM (identified reg) (works_on reg n) (MachineController.Reconcile key) h tt (fun _ _ _ => True)).
  unfold MachineController.Reconcile.
  go_step. go_step. apply wpM_remote; [reflexivity| |intros e _; by repeat work_step].
  intros sm Hsm. cbn in Hsm.
  repeat work_step; try done.
  apply (safe_wpM _ _ (fun _ => True)); [|done|intros [pid|e|] [] h1 _; [|done..]].
  { intros h1 [] _. apply wpM_any. by apply clientFromSecret_side. }
  repeat work_step; try done. apply wp_NewMachine; [done| |done..]. go_step. go_step.
  set (m := Build_MachineScope _ _ _).
  assert (ours m) as Hm by (unfold ours; cbn; by rewrite Hsm). clearbody m.
  eapply (wpM_mono _ _ _ _ _ (fun _ _ _ => True)).
  { destruct (negb _); [by apply reconcileDelete_works|by apply reconcileNormal_works]. }
  intros oa m' h2 _. eapply wpM_mono; [apply Machine_PatchObject_works|done].
Qed.
End working.

(** ** What concerns a machine *)

(** What the passes over the machine read of the project. *)
Definition view_for (v : machine_view) (m : MachineScope) : machine_view :=
  {| mv_ips := List.filter (fun ip => has_tags (Machine_Tags m) (iip_Tags ip)) (mv_ips v);
     mv_servers := List.filter (fun s => (srv_Zone s =? Machine_Zone m)%string) (mv_servers v);
     mv_nics := mv_nics v; mv_addresses := mv_addresses v; mv_lbs := mv_lbs v;
     mv_backends := mv_backends v; mv_frontends := mv_frontends v; mv_acls := mv_acls v |}.

Section up.
Context `{K8S : K8sLib}.
Context (reg : registry).
Implicit Types (v : machine_view) (m : MachineScope).

Abbreviation name_of m := (om_Name (sm_ObjectMeta (ms_ScalewayMachine m))).
Abbreviation N m := (Machine_Name m).

(** The second project has of the machine what the first one has, and its addresses in the
    pools at least. *)
Definition unharmed m v v' : Prop :=
  List.filter (fun ip => has_tags (Machine_Tags m) (iip_Tags ip)) (mv_ips v') =
    List.filter (fun ip => has_tags (Machine_Tags m) (iip_Tags ip)) (mv_ips v) /\
  agree_on srv_Name (N m) (mv_servers v) (mv_servers v') /\
  (forall s, own_server v m s -> mv_nics v' (srv_ID s) = mv_nics v (srv_ID s)) /\
  mv_addresses v' = mv_addresses v /\ mv_lbs v' = mv_lbs v /\ mv_frontends v' = mv_frontends v /\
  (forall lbID n, keeps_pool v m n (mv_backends v lbID) (mv_backends v' lbID)) /\
  (forall frontendID, agree_on acl_Name (N m) (mv_acls v frontendID) (mv_acls v' frontendID)).

Lemma own_server_agree m v v' s :
  agree_on srv_Name (N m) (mv_servers v) (mv_servers v') -> own_server v m s <-> own_server v' m s.
Proof. intros Hs. unfold own_server. split; intros [Hin En]; (split; [by apply (Hs s En)|done]). Qed.

Lemma own_address_agree m v v' ip :
  agree_on srv_Name (N m) (mv_servers v) (mv_servers v') ->
  (forall s, own_server v m s -> mv_nics v' (srv_ID s) = mv_nics v (srv_ID s)) ->
  mv_addresses v' = mv_addresses v -> own_address v m ip <-> own_address v' m ip.
Proof.
  intros Hs Hn Ea. unfold own_address. split; intros (s & Hown & Hip); exists s.
  - rewrite (Hn s Hown), Ea. split; [by apply (own_server_agree _ _ _ _ Hs)|done].
  - apply (own_server_agree _ _ _ _ Hs) in Hown. rewrite (Hn s Hown), Ea in Hip. done.
Qed.

#[export] Instance unharmed_preorder m : PreOrder (unharmed m).
Proof.
  split; [intros v; split_and!; try done; by intros lbID n Q _|]. intros v1 v2 v3
    (Ei & Hs & Hn & Ea & El & Ef & Hp & Hacl) (Ei' & Hs' & Hn' & Ea' & El' & Ef' & Hp' & Hacl').
  split_and!; try congruence; try (intros; etransitivity; eauto; fail).
  - intros s Hown. rewrite Hn'; [by apply Hn|]. by apply (own_server_agree _ _ _ _ Hs).
  - intros lbID n Q HQ Hex. apply Hp'; [|by apply Hp]. intros ip Hip.
    by apply (own_address_agree _ _ _ _ Hs Hn Ea), HQ.
Qed.

Lemma filter_elem {A} (p : A -> bool) xs x : x ∈ List.filter p xs <-> x ∈ xs /\ p x = true.
Proof. by rewrite !list_elem_of_In, filter_In. Qed.

Lemma view_for_server v m s : own_server (view_for v m) m s -> own_server v m s.
Proof. intros [Hin En]. split; [by apply filter_elem in Hin as []|done]. Qed.

Lemma agree_on_zone m v v' :
  unharmed m v v' -> agree_on srv_Name (N m) (mv_servers (view_for v m)) (mv_servers (view_for v' m)).
Proof. intros (_ & Hs & _) s En. cbn. rewrite !filter_elem. by rewrite (Hs s En). Qed.

Lemma exists_as_keep {A} (name : A -> string) k (P P' : A -> Prop) xs :
  (forall x, x ∈ xs -> name x = k -> P x -> P' x) -> exists_as name k P xs -> exists_as name k P' xs.
Proof. intros HP [Hex Hall]. split; [done|]. auto. Qed.

(** What a pass over the machine sees of the second project is as in the first one. *)
Lemma unharmed_sees m v v' h c r :
  unharmed m v v' -> sees (view_for v' m) m h c r -> sees (view_for v m) m h c r.
Proof.
  intros Hu. pose proof (agree_on_zone _ _ _ Hu) as Hz.
  destruct Hu as (Ei & Hs & Hn & Ea & El & Ef & Hp & Hacl).
  assert (forall s, own_server (view_for v m) m s -> mv_nics v' (srv_ID s) = mv_nics v (srv_ID s)) as Hn'.
  { intros s Hown. by apply Hn, view_for_server. }
  destruct r as [a|e]; [|done]. destruct c; try done; try (destruct name; [|done]); cbn.
  - intros H Ez ->. etransitivity; [exact Hz|by apply H].
  - intros H E. by rewrite (H E), Ei.
  - intros H s Hown <-. rewrite <- (Hn' s Hown). apply (H s); [|done].
    by apply (own_server_agree _ _ _ _ Hz).
  - by rewrite Ea.
  - by rewrite El.
  - intros H Q HQ Hex. apply H.
    + intros ip Hip. by apply (own_address_agree m (view_for v m) _ _ Hz Hn' Ea), HQ.
    + apply Hp; [|done]. intros ip Hip. destruct (HQ ip Hip) as (server & Hown & Hip').
      exists server. split; [by apply view_for_server|done].
  - by rewrite Ef.
  - intros H ->. etransitivity; [apply Hacl|by apply H].
Qed.

(** A server serves the machine. *)
Definition serves v m (server : Server) : Prop :=
  srv_State server <> ServerStateStopped /\ addressed v m server /\ in_pool v m server /\
  allowed v m server.

Lemma unharmed_serves m v v' s :
  unharmed m v v' -> own_server v m s -> serves v m s -> serves v' m s.
Proof.
  intros (_ & Hs & Hn & Ea & El & Ef & Hp & Hacl) Hown. specialize (Hn s Hown).
  unfold serves, addressed, in_pool, allowed, balancers_as. rewrite Hn, Ea, El, Ef.
  intros (Hst & Ha & Hpool & Hall). split_and!; [done..| |].
  - intros Ec. specialize (Hpool Ec). eapply exists_as_keep; [|exact Hpool]. intros lb _ _ Hex.
    assert (forall ip, node_address v' m s ip <-> node_address v m s ip) as Hnode
      by (intros ip; unfold node_address; by rewrite Hn, Ea).
    eapply exists_as_keep; [|apply (Hp _ _ (node_address v m s)); [|exact Hex]].
    + intros b _ _ Hb ip Hip. by apply Hb, Hnode.
    + intros ip. by apply node_own_address.
  - eapply exists_as_keep; [|exact Hall]. intros lb _ _. apply exists_as_keep. intros f _ _.
    destruct (public_address s).
    + by apply exists_as_agree.
    + intros Hno acl Hin En. apply (Hno acl); [by apply (Hacl (fe_ID f) acl En)|done].
Qed.

(** A machine that is up stays up. *)
Lemma unharmed_up m v v' :
  unharmed m v v' -> machine_up (view_for v m) m -> machine_up (view_for v' m) m.
Proof.
  intros Hu (Hinfra & Hip & Hup). split; [done|]. pose proof Hu as (Ei & _).
  split; [cbn; by rewrite Ei|].
  eapply exists_as_agree; [by apply agree_on_zone|]. eapply exists_as_keep; [|exact Hup].
  intros s Hin En. apply (unharmed_serves m v v' s Hu). apply view_for_server. by split.
Qed.

(** ** The calls, one kind at a time *)

Lemma tags_node m tags :
  has_tags (Machine_Tags m) tags = true -> "caps-node=" +:+ name_of m ∈ tags.
Proof.
  unfold has_tags. rewrite forallb_forall. intros H.
  eapply bool_decide_eq_true_1, H. right. by left.
Qed.

Lemma slices_Contains_spec ips ip : slices_Contains ips ip = true <-> ip ∈ ips.
Proof.
  unfold slices_Contains. rewrite existsb_elem_of. split.
  - intros (x & Hx & E). to_prop. by subst.
  - intros Hip. exists ip. split; [done|]. apply String_eqb_refl.
Qed.

(** The parts that a call does not change. *)
Ltac other_parts :=
  unfold unharmed; cbn; split_and!; try done; try (by intros lbID n Q _).

Lemma caps_other n n' : n <> n' -> "caps-" +:+ n <> "caps-" +:+ n'.
Proof. intros Hn E. by apply append_inj_l in E. Qed.

Lemma same_leaves m v v' : v' = v -> unharmed m v v'.
Proof. by intros ->. Qed.

Section step.
Context (v : machine_view) (m : MachineScope).
Context (Hreg : registered reg v).

Abbreviation leaves e := (unharmed m v (view_step v e)).

Lemma create_ip_leaves zone tags ip :
  iip_Tags ip = tags -> "caps-node=" +:+ name_of m ∉ tags ->
  leaves (CEv (InstanceCreateIP zone tags) (ROk ip)).
Proof.
  intros Et Hn. other_parts. rewrite List.filter_app. cbn.
  destruct (has_tags (Machine_Tags m) (iip_Tags ip)) eqn:E; [|by rewrite app_nil_r].
  apply tags_node in E. by rewrite Et in E.
Qed.

Lemma delete_ip_leaves zone id :
  of_ip reg id <> "caps-" +:+ name_of m -> leaves (CEv (InstanceDeleteIP zone id) (ROk tt)).
Proof.
  intros Hid. other_parts.
  destruct Hreg as (_ & _ & _ & _ & Hips). induction (mv_ips v) as [|ip ips IH]; [done|].
  unfold without in *. cbn. destruct (iip_ID ip =?s id) eqn:E; cbn; to_prop.
  - destruct (has_tags _ _) eqn:Et; [|apply IH; intros; apply Hips; by right]. exfalso. apply Hid.
    rewrite <- E. apply Hips; [by left|]. by apply tags_node.
  - destruct (has_tags _ _); [f_equal|]; apply IH; intros; apply Hips; by right.
Qed.

Lemma create_server_leaves req s :
  srv_Name s = csr_Name req -> csr_Name req <> "caps-" +:+ name_of m ->
  leaves (CEv (CreateServer req) (ROk s)).
Proof.
  intros En Hn. other_parts. intros s' E.
  rewrite elem_of_app, list_elem_of_singleton. split; [by left|intros [?| ->]; [done|]].
  by rewrite <- En, E in Hn.
Qed.

(** A server of another machine. *)
Lemma other_server id s :
  of_server reg id <> "caps-" +:+ name_of m -> s ∈ mv_servers v -> srv_Name s = N m -> srv_ID s <> id.
Proof. intros Hid Hs En <-. apply Hid. destruct Hreg as [Hsrv _]. by destruct (Hsrv s Hs) as [-> _]. Qed.

Lemma delete_server_leaves zone id :
  of_server reg id <> "caps-" +:+ name_of m -> leaves (CEv (DeleteServer zone id) (ROk tt)).
Proof.
  intros Hid. other_parts. intros s En. rewrite without_spec.
  split; [|by intros []]. intros Hs. split; [done|]. by apply other_server.
Qed.

Lemma server_action_leaves zone id action :
  of_server reg id <> "caps-" +:+ name_of m -> leaves (CEv (ServerAction zone id action) (ROk tt)).
Proof.
  intros Hid. destruct action; [|by apply (delete_server_leaves zone)].
  other_parts. intros s En. rewrite list_elem_of_fmap.
  assert (forall s', s' ∈ mv_servers v -> srv_Name s' = N m -> started id s' = s') as Hsame.
  { intros s' Hs' En'. unfold started. destruct (_ =?s _) eqn:E; [|done]. to_prop.
    by apply (other_server id s' Hid) in Hs'. }
  split.
  - intros Hs. exists s. split; [|done]. by rewrite Hsame.
  - intros (s' & -> & Hs'). rewrite Hsame; [done..|]. by rewrite <- En; destruct (started_same id s') as (-> & _).
Qed.

Lemma create_nic_leaves zone id pnID nic :
  of_server reg id <> "caps-" +:+ name_of m ->
  leaves (CEv (CreatePrivateNIC zone id pnID) (ROk nic)).
Proof.
  intros Hid. other_parts. intros s [Hs En]. destruct (_ =?s _) eqn:E; [|done]. to_prop.
  by apply (other_server id s Hid) in Hs.
Qed.

(** The addresses of the machine are registered as its own. *)
Lemma own_address_of ip : own_address v m ip -> of_address reg ip = N m.
Proof.
  destruct Hreg as (Hsrv & Hnics & Hnets & _). intros (s & [Hs En] & Hip).
  destruct (Hsrv s Hs) as [Hid Hpub]. destruct Hip as [Hip|(nic & net & Hnic & Hnet & <-)].
  - unfold public_address in Hip. destruct (srv_PublicIP s) as [pub|]; [|done].
    injection Hip as <-. by destruct Hpub as [_ ->].
  - rewrite <- En, <- Hid, <- (Hnics _ nic Hnic). by apply Hnets.
Qed.

(** A change of the pools that keeps the addresses of the machine. *)
Lemma pools_keep (f : Backend -> Backend) n bs :
  (forall b, be_Name (f b) = be_Name b) ->
  (forall b ip, own_address v m ip -> ip ∈ be_Pool b -> ip ∈ be_Pool (f b)) ->
  keeps_pool v m n bs (f <$> bs).
Proof.
  intros Hname Hpool Q HQ [(b & Hb & Eb) Hall]. split.
  - exists (f b). split; [by apply list_elem_of_fmap_2|]. by rewrite Hname.
  - intros b' (b0 & -> & Hb0)%list_elem_of_fmap E ip Hip. rewrite Hname in E.
    rewrite slices_Contains_spec. apply Hpool; [by apply HQ|].
    rewrite <- slices_Contains_spec. by apply (Hall b0).
Qed.

Lemma add_servers_leaves zone id ips : leaves (CEv (AddBackendServers zone id ips) (ROk tt)).
Proof.
  other_parts. intros lbID n. apply pools_keep.
  - intros b. unfold with_servers. by destruct (_ =?s _).
  - intros b ip _. unfold with_servers. destruct (_ =?s _); [|done]. cbn. rewrite elem_of_app. by left.
Qed.

Lemma remove_servers_leaves zone id ips :
  (forall ip, ip ∈ ips -> of_address reg ip <> "caps-" +:+ name_of m) ->
  leaves (CEv (RemoveBackendServers zone id ips) (ROk tt)).
Proof.
  intros Hips. other_parts. intros lbID n. apply pools_keep.
  - intros b. unfold without_servers. by destruct (_ =?s _).
  - intros b ip Hip. unfold without_servers. destruct (_ =?s _); [|done].
    cbn. intros Hin. apply filter_elem. split; [done|]. apply negb_true_iff, not_true_iff_false.
    rewrite slices_Contains_spec. intros Hin'. apply (Hips ip Hin'). by apply own_address_of.
Qed.

(** An access control list of another machine. *)
Lemma other_acl id frontendID acl :
  of_acl reg id <> "caps-" +:+ name_of m -> acl ∈ mv_acls v frontendID -> acl_Name acl = N m ->
  acl_ID acl <> id.
Proof.
  intros Hid Ha En <-. apply Hid. destruct Hreg as (_ & _ & _ & Hacl & _). by rewrite (Hacl frontendID acl Ha).
Qed.

Lemma create_acl_leaves req acl :
  acl_Name acl = cacl_Name req -> cacl_Name req <> "caps-" +:+ name_of m ->
  leaves (CEv (CreateACL req) (ROk acl)).
Proof.
  intros En Hn. other_parts. intros frontendID a Ea. destruct (_ =?s _); [|done].
  rewrite elem_of_app, list_elem_of_singleton. split; [by left|intros [?| ->]; [done|]].
  by rewrite <- En, Ea in Hn.
Qed.

Lemma update_acl_leaves req :
  of_acl reg (uacl_ACLID req) = uacl_Name req -> uacl_Name req <> "caps-" +:+ name_of m ->
  leaves (CEv (UpdateACL req) (ROk tt)).
Proof.
  intros Hid Hn. other_parts. intros frontendID a Ea. rewrite list_elem_of_fmap. split.
  - intros Ha. exists a. split; [|done]. unfold update_acl. destruct (_ =?s _) eqn:E; [|done].
    to_prop. rewrite <- Hid in Hn. by destruct (other_acl _ _ _ Hn Ha Ea).
  - intros (a' & -> & Ha'). revert Ea. unfold update_acl. destruct (_ =?s _); [|done]. cbn.
    intros E. by rewrite E in Hn.
Qed.

Lemma delete_acl_leaves zone id :
  of_acl reg id <> "caps-" +:+ name_of m -> leaves (CEv (DeleteACL zone id) (ROk tt)).
Proof.
  intros Hid. other_parts. intros frontendID a Ea. rewrite without_spec.
  split; [|by intros []]. intros Ha. split; [done|]. by apply (other_acl id frontendID).
Qed.

(** A call that spares the machine leaves it what it has. *)
Lemma step_leaves h c r :
  identified reg h c r -> spares reg (name_of m) h c -> leaves (CEv c r).
Proof.
  destruct r as [a|e]; [|by intros _ _; apply same_leaves; destruct v].
  intros Hi [Hr|(n' & Hn & Hs)].
  { destruct c; try done; apply same_leaves; by destruct v. }
  pose proof (caps_other n' (name_of m) Hn) as Hcaps.
  destruct c; cbn [identified works_on mutates] in *; try done;
    try (apply same_leaves; by destruct v); try destruct a.
  - apply create_ip_leaves; [apply Hi|]. by intros E%Hs.
  - apply create_server_leaves; [apply Hi|by rewrite Hs].
  - apply create_nic_leaves. by rewrite Hs.
  - apply server_action_leaves. by rewrite Hs.
  - apply delete_ip_leaves. by rewrite Hs.
  - apply delete_server_leaves. by rewrite Hs.
  - apply add_servers_leaves.
  - apply remove_servers_leaves. intros ip Hip. by rewrite (Hs ip Hip).
  - apply create_acl_leaves; [apply Hi|by rewrite Hs].
  - destruct Hs as [Hid Hname]. apply update_acl_leaves; [by rewrite Hname|by rewrite Hname].
  - apply delete_acl_leaves. by rewrite Hs.
Qed.
End step.

(** An access control list keeps its name. *)
Definition keeps_name (c : cloud_call) : Prop :=
  match c with UpdateACL req => of_acl reg (uacl_ACLID req) = uacl_Name req | _ => True end.

Lemma spares_keeps_name n h c : spares reg n h c -> keeps_name c.
Proof.
  intros [Hr|(n' & _ & Hs)]; [by destruct c|]. destruct c; try done.
  destruct Hs as [Hid Hname]. cbn. congruence.
Qed.

(** The project stays registered. *)
Lemma step_registered v h c r :
  registered reg v -> identified reg h c r -> keeps_name c -> registered reg (view_step v (CEv c r)).
Proof.
  destruct r as [a|e]; [|by destruct v].
  intros (Hservers & Hnics & Hnets & Hacls & Hips) Hi Hs. split_and!.
  - intros s. destruct c; cbn in *; eauto.
    + rewrite elem_of_app, list_elem_of_singleton. intros [?| ->]; [eauto|by destruct Hi].
    + destruct action; cbn in *.
      * intros (s0 & -> & Hin)%list_elem_of_fmap. specialize (Hservers s0 Hin).
        unfold server_of. by destruct (started_same serverID s0) as (-> & -> & ->).
      * intros [? _]%without_spec. eauto.
    + intros [? _]%without_spec. eauto.
  - intros serverID nic. destruct c; cbn in *; eauto. destruct (_ =?s _) eqn:E; [|eauto]. to_prop.
    rewrite elem_of_app, list_elem_of_singleton. intros [?| ->]; [eauto|by subst].
  - intros nicID net. destruct c; cbn in *; eauto.
  - intros frontendID acl. destruct c; cbn in *; eauto.
    + destruct (_ =?s _); [|eauto].
      rewrite elem_of_app, list_elem_of_singleton. intros [?| ->]; [eauto|by destruct Hi].
    + intros (a0 & -> & Hin)%list_elem_of_fmap. unfold update_acl. destruct (_ =?s _) eqn:E; [|eauto].
      to_prop. unfold acl_of. cbn. congruence.
    + intros [? _]%without_spec. eauto.
  - intros ip. destruct c; cbn in *; eauto.
    + rewrite elem_of_app, list_elem_of_singleton. intros [?| ->]; [eauto|by destruct Hi].
    + intros [? _]%without_spec. eauto.
Qed.
End up.
