(* ===== verification/Steady.v ===== *)
(** * The manager at rest

    A cluster whose project is settled and a machine that is up stay so, whatever the
    workers of the manager do at the same time: over the cluster, over the machine, and
    over machines of other names, that come and go.  By rely and guarantee: each call of a
    worker [spares] the machine, or writes an access control list of the machine or of the
    cluster again as it is ([restating]); this keeps the project of the cluster [undisturbed] and the
    machine [unharmed], so that the passes over these two see what they are to see
    ([observes], [sees]) and leave it. *)

From S2P Require Import Prelude Go Net Prog Sdk Types Cloud Ledger Scope Client.
From S2P Require Import LoadBalancer Instance Secret ClusterController.
From S2P Require MachineController MachineProgress.
From S2P Require Import Simulation NoDuplicates Convergence Frame Replay Interleaving.
From S2P Require Import MachineConvergence MachineReplay MachineSettling Neighbours.
#[local] Open Scope caps_scope.

(** ** The project of the cluster *)

Section cluster.
Context `{SDK : ScwSDK}.
Context (reg : registry).
Implicit Types (p : project) (c : ClusterScope).

(** The same project with other machines. *)
Definition with_machines p (bs : ID -> list Backend) (acls : ID -> string -> list ACL) : project :=
  {| pr_groups := pr_groups p; pr_rules := pr_rules p; pr_networks := pr_networks p;
     pr_gateways := pr_gateways p; pr_attachments := pr_attachments p;
     pr_network_gateways := pr_network_gateways p; pr_lbs := pr_lbs p;
     pr_lb_networks := pr_lb_networks p; pr_backends := bs; pr_frontends := pr_frontends p;
     pr_acls := acls |}.

Definition undisturbed p p' : Prop :=
  p' = with_machines p (pr_backends p') (pr_acls p') /\
  (forall lbID, be_Name <$> pr_backends p' lbID = be_Name <$> pr_backends p lbID) /\
  (forall frontendID name, name ∈ cluster_acls ->
     agree_on acl_Name name (pr_acls p frontendID name) (pr_acls p' frontendID name)).

#[export] Instance undisturbed_preorder : PreOrder undisturbed.
Proof.
  split; [intros p; by destruct p|]. intros p1 p2 p3 (E & Hb & Ha) (E' & Hb' & Ha'). split_and!.
  - rewrite E', E. done.
  - intros lbID. by rewrite Hb', Hb.
  - intros f name Hname. etransitivity; [by apply Ha|by apply Ha'].
Qed.

(** A settled project stays settled. *)
Lemma undisturbed_settled p p' c : undisturbed p p' -> settled p c -> settled p' c.
Proof.
  intros (-> & Hb & Ha) (Hg & Hn & Hgw & Hlb). split; [exact Hg|]. split; [exact Hn|].
  split; [exact Hgw|]. revert Hlb. apply exists_as_keep.
  intros lb _ _ (Hst & Hip & Hnet & Hbe & Hfe). split_and!; [done..| |].
  - eapply all_named_names; [apply Hb|exact Hbe].
  - destruct Hfe as [Hne Hfe]. split; [done|]. intros f Hf. destruct (Hfe f Hf) as (En & Hrange & Hgws & Hdeny).
    assert (forall name ips deny index, name ∈ cluster_acls ->
      acl_settled p (fe_ID f) name ips deny index ->
      acl_settled (with_machines p (pr_backends p') (pr_acls p')) (fe_ID f) name ips deny index) as Hacl.
    { intros name ips deny index Hname. specialize (Ha (fe_ID f) name Hname). destruct ips; cbn.
      - intros Hno acl Hin E. by apply (Hno acl), E; apply (Ha acl E).
      - by apply exists_as_agree. }
    split; [done|]. split_and!.
    + apply Hacl; [left|done].
    + intros Hp pnID Hof. apply Hacl; [right; left|by apply Hgws].
    + apply Hacl; [do 2 right; left|done].
Qed.

Lemma undisturbed_observes p p' n h call r :
  undisturbed p p' -> observes p' n h call r -> observes p n h call r.
Proof.
  intros (E & Hb & Ha). destruct r as [xs|e]; [|done].
  destruct call; try done; try destruct name; try done; rewrite E; try done; cbn.
  - by rewrite Hb.
  - intros H Hname. etransitivity; [by apply Ha|by apply H].
Qed.

Lemma caps_not_cluster n : "caps-" +:+ n ∉ cluster_acls.
Proof. by intros [?|[?|[?|?%not_elem_of_nil]%elem_of_cons]%elem_of_cons]%elem_of_cons. Qed.

(** The access control lists are registered under their names. *)
Definition registered_acls p : Prop :=
  forall frontendID name acl, acl ∈ pr_acls p frontendID name -> acl_of reg acl.

(** *** The calls of a pass over a machine *)

Section step.
Context (p : project).
Context (Hreg : registered_acls p).

Abbreviation keeps e := (undisturbed p (project_step p e)).

(** An access control list of the cluster is not one of a machine. *)
Lemma cluster_acl n frontendID name acl :
  name ∈ cluster_acls -> acl ∈ pr_acls p frontendID name -> acl_Name acl = name ->
  of_acl reg (acl_ID acl) <> "caps-" +:+ n.
Proof.
  intros Hname Hacl En. rewrite (Hreg _ _ _ Hacl), En. intros E. apply (caps_not_cluster n). by rewrite <- E.
Qed.

Lemma create_acl_keeps n req acl : cacl_Name req = "caps-" +:+ n -> keeps (CEv (CreateACL req) (ROk acl)).
Proof.
  intros En. split_and!; [done..|]. intros f name Hname. cbn.
  destruct (name =?s cacl_Name req) eqn:E; [|by rewrite andb_false_r]. to_prop. subst name.
  rewrite En in Hname. by apply caps_not_cluster in Hname.
Qed.

Lemma update_acl_keeps n req :
  of_acl reg (uacl_ACLID req) = "caps-" +:+ n -> uacl_Name req = "caps-" +:+ n ->
  keeps (CEv (UpdateACL req) (ROk tt)).
Proof.
  intros Hid Hn. split_and!; [done..|]. intros f name Hname acl En. cbn. rewrite list_elem_of_fmap.
  assert (forall a, a ∈ pr_acls p f name -> acl_Name a = name -> update_acl req a = a) as Hsame.
  { intros a Ha Ea. unfold update_acl. destruct (_ =?s _) eqn:E; [|done]. to_prop.
    apply (cluster_acl n f name a) in Ha; [|done..]. by rewrite E in Ha. }
  split.
  - intros Hacl. exists acl. split; [|done]. by rewrite Hsame.
  - intros (a & -> & Ha). revert En. unfold update_acl at 1 2. destruct (_ =?s _) eqn:E; [|done].
    cbn. intros <-. rewrite Hn in Hname. by apply caps_not_cluster in Hname.
Qed.

Lemma delete_acl_keeps n zone id : of_acl reg id = "caps-" +:+ n -> keeps (CEv (DeleteACL zone id) (ROk tt)).
Proof.
  intros Hid. split_and!; [done..|]. intros f name Hname acl En. cbn. rewrite without_spec.
  split; [|by intros []]. intros Hacl. split; [done|]. intros <-.
  by apply (cluster_acl n f name acl) in Hacl.
Qed.

Lemma project_step_err call e : project_step p (CEv call (RErr e)) = p.
Proof. clear Hreg. by destruct p, call. Qed.

Lemma step_keeps n h call r : spares reg n h call -> keeps (CEv call r).
Proof.
  destruct r as [a|e]; [|intros _; by rewrite project_step_err].
  intros [Hr|(n' & _ & Hs)]; destruct call; cbn [works_on mutates] in *; try done; try (by destruct p);
    try destruct a.
  - by apply (create_acl_keeps n').
  - destruct Hs. by apply (update_acl_keeps n').
  - by apply (delete_acl_keeps n').
Qed.

Lemma step_registered_acls h call r :
  identified reg h call r -> keeps_name reg call -> registered_acls (project_step p (CEv call r)).
Proof.
  destruct r as [a|e]; [|by rewrite project_step_err]. intros Hi Hs f name acl.
  destruct call; cbn in *; try apply Hreg.
  - destruct (_ && _); [|apply Hreg]. rewrite elem_of_app, list_elem_of_singleton.
    intros [?| ->]; [by eapply Hreg|by destruct Hi].
  - intros (a0 & -> & Hin)%list_elem_of_fmap. unfold update_acl. destruct (_ =?s _) eqn:E; [|by eapply Hreg].
    to_prop. unfold acl_of. cbn. congruence.
  - intros [? _]%without_spec. by eapply Hreg.
Qed.
End step.

End cluster.

(** ** Access control lists that are written again *)

Section restating.
Context (reg : registry).
Implicit Types (v u : machine_view) (m : MachineScope) (p q : project).

Abbreviation name_of m := (om_Name (sm_ObjectMeta (ms_ScalewayMachine m))).

(** An identifier is that of one list. *)
Definition unique_acls (v : machine_view) (p : project) : Prop :=
  (forall f f' acl a, acl ∈ mv_acls v f -> a ∈ mv_acls v f' -> acl_ID a = acl_ID acl -> a = acl) /\
  forall f f' name name' acl a, acl ∈ pr_acls p f name -> a ∈ pr_acls p f' name' ->
    acl_ID a = acl_ID acl -> a = acl.

(** The lists of the machine and of the cluster. *)
Definition at_rest v m p (acl : ACL) : Prop :=
  (exists f, acl ∈ mv_acls v f /\ acl_Name acl = Machine_Name m) \/
  (exists f name, name ∈ cluster_acls /\ acl ∈ pr_acls p f name /\ acl_Name acl = name).

Definition restating v m p : guarantee := fun _ call =>
  exists acl, at_rest v m p acl /\ restates acl call.

(** What the workers do. *)
Definition peaceful v m p : guarantee := fun h call =>
  spares reg (name_of m) h call \/ restating v m p h call.

(** The update changes no list that is as the one restated. *)
Lemma restates_same acl req a :
  restates acl (UpdateACL req) -> (acl_ID a = acl_ID acl -> a = acl) -> update_acl req a = a.
Proof.
  intros (zone & ips & action & (Em & Eact & _) & [= ->]) Ha. unfold update_acl. cbn.
  destruct (_ =?s _) eqn:E; [|done]. to_prop. rewrite (Ha E). destruct acl. cbn in *. by subst.
Qed.

Lemma restates_update acl call : restates acl call ->
  exists req, call = UpdateACL req /\ uacl_ACLID req = acl_ID acl /\ uacl_Name req = acl_Name acl.
Proof. intros (zone & ips & action & _ & ->). by eexists. Qed.

Section step.
Context (v u : machine_view) (m : MachineScope) (p q : project).
Context (Hreg : registered reg v) (Hacls : registered_acls reg p) (Huniq : unique_acls v p).
Context (Hregu : registered reg u) (Hregq : registered_acls reg q).
Context (Hu : unharmed m v u) (Hq : undisturbed p q).

Lemma at_rest_acl_of acl : at_rest v m p acl -> acl_of reg acl.
Proof.
  intros [(f & Hacl & _)|(f & name & _ & Hacl & _)]; [|by eapply Hacls].
  destruct Hreg as (_ & _ & _ & Hr & _). by eapply Hr.
Qed.

Lemma peaceful_keeps_name h call : peaceful v m p h call -> keeps_name reg call.
Proof.
  intros [Hs|(acl & Hacl & Hre)]; [by eapply spares_keeps_name|].
  apply at_rest_acl_of in Hacl. destruct (restates_update _ _ Hre) as (req & -> & Eid & En).
  cbn. by rewrite Eid, En.
Qed.

(** The list of the machine is as it was, wherever it is. *)
Lemma own_acl_same f acl a :
  acl ∈ mv_acls v f -> acl_Name acl = Machine_Name m ->
  forall f', a ∈ mv_acls u f' -> acl_ID a = acl_ID acl -> a = acl.
Proof.
  intros Hacl En f' Ha Eid. destruct Hu as (_ & _ & _ & _ & _ & _ & _ & Hagree).
  destruct Hreg as (_ & _ & _ & Hr & _), Hregu as (_ & _ & _ & Hru & _).
  assert (acl_Name a = Machine_Name m) as Ea.
  { rewrite <- En, <- (Hr f acl Hacl), <- (Hru f' a Ha). by rewrite Eid. }
  destruct Huniq as [Hun _]. apply (Hun f f'); [done|by apply (Hagree f' a Ea)|done].
Qed.

Lemma restating_leaves h call r :
  restating v m p h call -> unharmed m u (view_step u (CEv call r)).
Proof.
  intros (acl & Hacl & Hre). destruct r as [a|e]; [|by apply same_leaves; destruct u].
  destruct (restates_update _ _ Hre) as (req & -> & Eid & En).
  destruct Hacl as [(f & Hacl & Ename)|(f & name & Hname & Hacl & Ename)].
  - unfold unharmed; cbn; split_and!; try done; [by intros lbID n Q _|].
    intros f' b _. rewrite list_elem_of_fmap.
    assert (forall b, b ∈ mv_acls u f' -> update_acl req b = b) as Hsame.
    { intros b' Hb'. apply (restates_same acl); [done|]. by eapply own_acl_same. }
    split; [intros Hb; exists b; by rewrite Hsame|intros (b' & -> & Hb'); by rewrite Hsame].
  - destruct a. apply (update_acl_leaves reg u m Hregu).
    + rewrite Eid, En. by eapply Hacls.
    + rewrite En, Ename. intros ->. by apply caps_not_cluster in Hname.
Qed.

Lemma restating_keeps h call r :
  restating v m p h call -> undisturbed q (project_step q (CEv call r)).
Proof.
  intros (acl & Hacl & Hre). destruct r as [x|e]; [|by rewrite project_step_err].
  pose proof (at_rest_acl_of acl Hacl) as Hof.
  destruct (restates_update _ _ Hre) as (req & -> & Eid & En).
  destruct Hacl as [(f & Hacl & Ename)|(f & name & Hname & Hacl & Ename)].
  - destruct x. apply (update_acl_keeps reg q Hregq (name_of m)); [|by rewrite En, Ename].
    by rewrite Eid, Hof, Ename.
  - split_and!; [done..|]. intros f' name' Hname' b Eb. cbn. rewrite list_elem_of_fmap.
    destruct Hq as (_ & _ & Hagree).
    assert (forall b, b ∈ pr_acls q f' name' -> acl_Name b = name' -> update_acl req b = b) as Hsame.
    { intros b' Hb' Eb'. apply (restates_same acl); [done|]. intros Eid'. destruct Huniq as [_ Hun].
      apply (Hun f f' name name'); [done|by apply (Hagree f' name' Hname' b' Eb')|done]. }
    split.
    + intros Hb. exists b. by rewrite Hsame.
    + intros (b' & -> & Hb'). enough (update_acl req b' = b') as E by (by rewrite E).
      destruct (decide (acl_ID b' = acl_ID acl)) as [E|E].
      * apply Hsame; [done|]. rewrite <- Eb. unfold update_acl. rewrite Eid, E, String_eqb_refl. cbn.
        rewrite En, <- Hof, <- E. symmetry. by eapply Hregq.
      * by apply (restates_same acl).
Qed.
End step.

(** ** Histories *)

(** Peaceful calls, with answers that are as [identified] says. *)
Definition peaceful_history v m p (h : trace) : Prop :=
  forall h1 c r h2, h = h1 ++ CEv c r :: h2 -> identified reg h1 c r /\ peaceful v m p h1 c.

Lemma history_rests v m p h :
  registered reg v -> registered_acls reg p -> unique_acls v p -> peaceful_history v m p h ->
  registered reg (view_after v h) /\ unharmed m v (view_after v h) /\
  registered_acls reg (project_after p h) /\ undisturbed p (project_after p h).
Proof.
  intros Hreg Hacls Huniq. induction h as [|[call r] h IH] using rev_ind.
  { intros _. split_and!; first [done|reflexivity]. }
  intros Hall.
  destruct IH as (Hregu & Hu & Hregq & Hq).
  { intros h1 call' r' h2 E. apply (Hall h1 call' r' (h2 ++ [CEv call r])). by rewrite E, <- app_assoc. }
  destruct (Hall h call r [] eq_refl) as [Hi Hs]. rewrite view_after_snoc, project_after_snoc.
  assert (keeps_name reg call) as Hk by by eapply (peaceful_keeps_name v m p).
  split_and!; [by eapply step_registered| |by eapply step_registered_acls|].
  - etransitivity; [exact Hu|]. destruct Hs as [Hs|Hs]; [by eapply step_leaves|by eapply (restating_leaves v _ m p)].
  - etransitivity; [exact Hq|]. destruct Hs as [Hs|Hs]; [by eapply step_keeps|by eapply (restating_keeps v m p)].
Qed.
End restating.

(** ** The passes *)

(** Symbolic execution of what only reads. *)
Ltac rest_step := first [ apply wpM_remote; [by left|intros ? ?|intros ? _]; cbn beta iota delta [outcome_wrap] in * | work_step ].

Section passes.
Context `{SDK : ScwSDK} `{K8S : K8sLib} `{!K8sLaws}.
Context (reg : registry).
Implicit Types (v : machine_view) (m : MachineScope) (p : project).

Abbreviation name_of m := (om_Name (sm_ObjectMeta (ms_ScalewayMachine m))).

(** *** Over the machine *)

(** The API server shows the objects of the machine; its own one is not being deleted. *)
Definition stored m : rely := fun _ c r =>
  match r with
  | ROk x =>
      match c return cloud_val c -> Prop with
      | GetScalewayMachine key => fun sm => nn_Name key = name_of m ->
          Time_IsZero (om_DeletionTimestamp (sm_ObjectMeta sm)) = true /\
          sms_PublicIP (sm_Spec sm) = sms_PublicIP (sm_Spec (ms_ScalewayMachine m))
      | GetOwnerMachine meta => fun pmachine => om_Name meta = name_of m ->
          pmachine = None \/ pmachine = Some (ms_Machine m)
      | GetClusterFromMetadata meta => fun cluster => meta = m_ObjectMeta (ms_Machine m) ->
          cluster = cs_Cluster (ms_Cluster m)
      | GetScalewayCluster key => fun sc =>
          cl_InfrastructureRef (cs_Cluster (ms_Cluster m)) = Some (nn_Name key) ->
          nn_Namespace key = om_Namespace (cl_ObjectMeta (cs_Cluster (ms_Cluster m))) ->
          sc = cs_ScalewayCluster (ms_Cluster m)
      | _ => fun _ => True
      end x
  | RErr _ => True
  end.

(** What a pass reads of its scope. *)
Lemma same_scope v m m' :
  cs_Cluster (ms_Cluster m') = cs_Cluster (ms_Cluster m) ->
  cs_ScalewayCluster (ms_Cluster m') = cs_ScalewayCluster (ms_Cluster m) ->
  ms_Machine m' = ms_Machine m -> name_of m' = name_of m ->
  sms_PublicIP (sm_Spec (ms_ScalewayMachine m')) = sms_PublicIP (sm_Spec (ms_ScalewayMachine m)) ->
  (machine_up v m -> machine_up v m') /\ sees v m' = sees v m /\
  leaves_machine_be v m' = leaves_machine_be v m.
Proof.
  destruct m as [[] [[] [] ?] ?], m' as [[] [[] [] ?] ?]. cbn. by intros -> -> -> -> ->.
Qed.

Definition own_rely v m : rely := fun h c r =>
  identified reg h c r /\ stored m h c r /\ sees v m h c r.

Lemma own_pass_calm v m key h :
  nn_Name key = name_of m -> machine_up v m ->
  wp (own_rely v m) (leaves_machine_be v m) (fun _ _ => True) h (pass (MachineRequest key)).
Proof.
  intros Hkey Hup. apply (wp_mono _ _ (fun h' '(oa, s') => True)); [|done].
  change (wpM (own_rely v m) (leaves_machine_be v m) (MachineController.Reconcile key) h tt (fun _ _ _ => True)).
  unfold MachineController.Reconcile.
  go_step. go_step. apply wpM_remote; [by left| |intros e _; by repeat rest_step].
  intros sm (Hsm & Hst & _). cbn in Hsm, Hst. destruct (Hst Hkey) as [Hdel Hpub].
  go_step. apply wpM_remote; [by left| |done]. intros pmachine (_ & Hst' & _). cbn in Hst'.
  destruct Hst' as [->| ->]; [congruence|by go_step|].
  go_step. go_step. apply wpM_remote; [by left| |intros e _; by repeat rest_step].
  intros cluster (_ & Hcl & _). cbn in Hcl. rewrite (Hcl eq_refl). clear cluster Hcl.
  cbn beta iota. destruct (IsPaused _ _); [by go_step|]. go_step. go_step.
  destruct (cl_InfrastructureRef (cs_Cluster (ms_Cluster m))) as [ref|] eqn:Eref; [|done]. cbn [deref].
  go_step. apply wpM_remote; [by left| |done].
  intros sc (_ & Hsc & _). cbn in Hsc. rewrite (Hsc Eref eq_refl). clear sc Hsc. go_step.
  apply (safe_wpM _ _ (fun _ => True)); [|done|intros [pid|e|] [] h1 _; [|done..]].
  { intros h1 [] _. apply wpM_any. by apply clientFromSecret_side; first [done|intros; left]. }
  repeat rest_step; try done. apply wp_NewMachine; [by left| |done..]. go_step. go_step.
  rewrite Hdel. cbn [negb].
  set (m' := Build_MachineScope _ _ _).
  destruct (same_scope v m m') as (Hup' & Hsees & Hleaves); [done|done|done|cbn; congruence|done|].
  clearbody m'. eapply (wpM_mono _ _ _ _ _ (fun _ _ _ => True)).
  - rewrite <- Hleaves. eapply wpM_rely; [by eapply wpM_mono; [apply machine_reconcileNormal_calm, Hup'|]|].
    rewrite Hsees. by intros h2 c r (_ & _ & ?).
  - intros oa m2 h2 _. unfold Machine_Close, Machine_PatchObject. by repeat rest_step.
Qed.

(** *** Over the cluster *)

Definition key_of (c : ClusterScope) : NamespacedName :=
  let meta := sc_ObjectMeta (cs_ScalewayCluster c) in
  {| nn_Namespace := om_Namespace meta; nn_Name := om_Name meta |}.

(** The API server shows the objects of the cluster, which is not being deleted; an object
    without owner references has no owner. *)
Definition stored_cluster (c : ClusterScope) : rely := fun _ call r =>
  match r with
  | ROk x =>
      match call return cloud_val call -> Prop with
      | GetScalewayCluster key => fun sc => key = key_of c ->
          Time_IsZero (om_DeletionTimestamp (sc_ObjectMeta sc)) = true /\
          om_Name (sc_ObjectMeta sc) = nn_Name key /\
          sc_Spec sc = sc_Spec (cs_ScalewayCluster c) /\
          sc_Status sc = sc_Status (cs_ScalewayCluster c)
      | GetOwnerCluster meta => fun pcluster => meta = zero_ObjectMeta -> pcluster = None
      | _ => fun _ => True
      end x
  | RErr _ => True
  end.

Lemma same_cluster p (c c' : ClusterScope) :
  Cluster_Name c' = Cluster_Name c ->
  sc_Spec (cs_ScalewayCluster c') = sc_Spec (cs_ScalewayCluster c) ->
  sc_Status (cs_ScalewayCluster c') = sc_Status (cs_ScalewayCluster c) ->
  settled p c -> settled p c'.
Proof.
  destruct c as [? [[] ? ?] ? ?], c' as [? [[] ? ?] ? ?]. unfold Cluster_Name. cbn.
  intros E%append_inj_l -> ->. by rewrite E.
Qed.

Definition cluster_rely p (c : ClusterScope) : rely := fun h call r =>
  stored_cluster c h call r /\ observes p (Cluster_Name c) h call r.

Definition owned_by_request (c : ClusterScope) (sc : ScalewayCluster) : Prop :=
  Time_IsZero (om_DeletionTimestamp (sc_ObjectMeta sc)) = true /\
  om_Name (sc_ObjectMeta sc) = nn_Name (key_of c) /\
  sc_Spec sc = sc_Spec (cs_ScalewayCluster c) /\ sc_Status sc = sc_Status (cs_ScalewayCluster c).

Lemma reconcileObject_calm p (c : ClusterScope) sc h :
  settled p c -> owned_by_request c sc ->
  wpM (cluster_rely p c) (leaves_be p) (reconcileObject sc) h tt (fun _ _ _ => True).
Proof.
  intros Hset (Hdel & Hname & Hspec & Hstatus). unfold reconcileObject. do 2 go_step.
  apply wpM_remote; [by left| |done]. intros pcl _. cbn [outcome_wrap].
  destruct pcl as [cl|]; [|by go_step]. destruct (IsPaused _ _); [by go_step|]. go_step.
  apply (safe_wpM _ _ (fun _ => True)); [|done|intros [pid|e|] [] h1 _; [|done..]].
  { intros h1 [] _. apply wpM_any. by apply clientFromSecret_side; first [done|intros; left]. }
  repeat rest_step; try done. apply wp_NewCluster; [by left| |done]. go_step. go_step.
  rewrite Hdel. cbn [negb]. set (c' := Build_ClusterScope _ _ _ _).
  assert (Cluster_Name c' = Cluster_Name c) as En by (unfold Cluster_Name; cbn; by rewrite Hname).
  assert (settled p c') as Hset' by by apply (same_cluster p c).
  clearbody c'. eapply (wpM_mono _ _ _ _ _ (fun _ _ _ => True)).
  - eapply wpM_rely; [by eapply wpM_mono; [apply (reconcileNormal_calm p _ c' _ En Hset')|]|].
    by intros h2 call r [_ ?].
  - intros oa m2 h2 _. unfold Cluster_Close, Cluster_PatchObject. by repeat rest_step.
Qed.

(** Without the object, the pass asks for another one. *)
Lemma reconcileObject_zero p (c : ClusterScope) h :
  wpM (cluster_rely p c) (leaves_be p) (reconcileObject zero_ScalewayCluster) h tt (fun _ _ _ => True).
Proof.
  unfold reconcileObject. do 2 go_step. apply wpM_remote; [by left| |done].
  intros pcl [Hst _]. cbn in Hst. rewrite (Hst eq_refl). cbn [outcome_wrap]. by go_step.
Qed.

Lemma cluster_pass_calm p (c : ClusterScope) h :
  settled p c ->
  wp (cluster_rely p c) (leaves_be p) (fun _ _ => True) h (pass (ClusterRequest (key_of c))).
Proof.
  intros Hset. apply (wp_mono _ _ (fun h' '(oa, s') => True)); [|done].
  change (wpM (cluster_rely p c) (leaves_be p) (ClusterController.Reconcile (key_of c)) h tt (fun _ _ _ => True)).
  unfold ClusterController.Reconcile. go_step. go_step. apply wpM_remote; [by left|..].
  - intros sc [Hst _]. cbn in Hst. apply reconcileObject_calm; [done|by apply Hst].
  - intros e _. cbn. destruct (IsNotFound e); [by go_step|]. apply reconcileObject_zero.
Qed.

(** *** Over another machine, or any of these *)

Lemma pass_at_rest v0 v m p (c : ClusterScope) req h :
  mv_acls v = mv_acls v0 -> machine_up v m -> settled p c ->
  (forall key, req = ClusterRequest key -> key = key_of c) ->
  let R : rely := fun h call r => own_rely v m h call r /\ cluster_rely p c h call r in
  let G : guarantee := fun h call => mutates call = false \/ restating v0 m p h call in
  wp R (peaceful reg v0 m p) (fun _ _ => True) h (pass req) /\
  ((forall key, req = MachineRequest key -> nn_Name key = name_of m) ->
   wp R G (fun _ _ => True) h (pass req)).
Proof.
  intros Ev Hup Hset Hreq R G.
  assert (forall h call, G h call -> peaceful reg v0 m p h call) as Hpeace.
  { intros h' call [?|?]; [by left; left|by right]. }
  destruct req as [key|key].
  - rewrite (Hreq key eq_refl).
    assert (wp R G (fun _ _ => True) h (pass (ClusterRequest (key_of c)))) as Hw.
    { eapply (wp_weaken (cluster_rely p c) _ (leaves_be p)); [by intros h' call r [_ ?]| |by apply cluster_pass_calm].
      intros h' call [?|(f & name & acl & ? & ? & ? & ?)]; [by left|]. right. exists acl. split; [|done].
      right. by exists f, name. }
    split; [|done]. by eapply (wp_weaken R); [done|exact Hpeace|].
  - assert (nn_Name key = name_of m -> wp R G (fun _ _ => True) h (pass (MachineRequest key))) as Hw.
    { intros Hkey. eapply (wp_weaken (own_rely v m) _ (leaves_machine_be v m));
        [by intros h' call r [? _]| |by apply own_pass_calm].
      intros h' call [?|(f & acl & Hacl & ? & ?)]; [by left|]. right. exists acl. split; [|done].
      left. exists f. by rewrite <- Ev. }
    split; [|intros Hkey; by apply Hw, Hkey].
    destruct (decide (nn_Name key = name_of m)) as [Hkey|Hkey].
    + by eapply (wp_weaken R); [done|exact Hpeace|apply Hw].
    + eapply (wp_weaken (identified reg) _ (works_on reg (nn_Name key)));
        [by intros h' call r [[? _] _]| |by apply machine_pass_works].
      intros h' call Hc. left. right. by exists (nn_Name key).
Qed.

(** ** Workers that run at the same time *)

(** The APIs, at any time: the listings show, of what concerns the cluster and the machine,
    the projects as the calls of all the workers have made them. *)
Definition manager_rely v m p (c : ClusterScope) : rely := fun h call r =>
  identified reg h call r /\ stored m h call r /\ stored_cluster c h call r /\
  sees (view_for (view_after v h) m) m h call r /\
  observes (project_after p h) (Cluster_Name c) h call r.

Section run.
Context (o : oracle cloud) (queues : list (list request)) (schedule : list nat).
Context (v : machine_view) (m : MachineScope) (p : project) (c : ClusterScope).
Context (th : list (nat * event cloud)).
Context (Ho : admissible (manager_rely v m p c) o).
Context (Hreg : registered reg v) (Hacls : registered_acls reg p) (Huniq : unique_acls v p).
Context (Hup : machine_up (view_for v m) m) (Hset : settled p c).
Context (Hkeys : forall reqs key, reqs ∈ queues -> ClusterRequest key ∈ reqs -> key = key_of c).
Context (Eth : th = (run_pool o [] (worker <$> queues) schedule).1).

Lemma turn_answers th1 i call r th2 :
  th = th1 ++ (i, CEv call r) :: th2 -> manager_rely v m p c (snd <$> th1) call r.
Proof.
  intros E. rewrite Eth in E. apply run_pool_answers in E; [|by exists th1].
  change (answer_in (manager_rely v m p c) (snd <$> th1) (CEv call r)). rewrite E. apply Ho.
Qed.

(** What the passes rely on. *)
Definition pass_rely : rely := fun h call r =>
  own_rely (view_for v m) m h call r /\ cluster_rely p c h call r.

(** As long as all calls were peaceful, a worker gets the answers it relies on. *)
Lemma turn_pass_rely th1 i e th2 h :
  th = th1 ++ (i, e) :: th2 -> peaceful_history reg v m p (snd <$> th1) ->
  answer_in pass_rely h e.
Proof.
  intros E Hs. destruct e as [call r]. destruct (turn_answers _ _ _ _ _ E) as (Hid & Hst & Hstc & Hsees & Hobs).
  split; [split; [exact Hid|split; [exact Hst|]]|split; [exact Hstc|]].
  - eapply unharmed_sees, Hsees. by destruct (history_rests reg v m p (snd <$> th1)) as (_ & ? & _ & _).
  - eapply undisturbed_observes, Hobs. by destruct (history_rests reg v m p (snd <$> th1)) as (_ & _ & _ & ?).
Qed.

Lemma peaceful_prefix h1 h2 : peaceful_history reg v m p (h1 ++ h2) -> peaceful_history reg v m p h1.
Proof. intros Hs h3 call r h4 ->. apply (Hs h3 call r (h4 ++ h2)). by rewrite <- app_assoc. Qed.

(** A worker keeps the guarantee of its passes. *)
Lemma turn_obeys (G : guarantee) th1 i e th2 :
  (forall reqs req h, queues !! i = Some reqs -> req ∈ reqs ->
     wp pass_rely G (fun _ _ => True) h (pass req)) ->
  th = th1 ++ (i, e) :: th2 -> peaceful_history reg v m p (snd <$> th1) ->
  G (own i th1) (ev_call e).
Proof.
  intros Hw E Hs.
  eapply (pool_obeys pass_rely G o _ schedule i (fun _ _ => True)); [exact Eth| | |exact E].
  - intros q Eq. apply list_lookup_fmap_Some in Eq as (reqs & -> & Er).
    apply worker_wp. intros req h Hin. by eapply Hw.
  - intros th3 e' th4 th5 E3 E5. eapply turn_pass_rely; [exact E5|].
    apply (peaceful_prefix _ (snd <$> ((i, e') :: th4))). by rewrite <- fmap_app, <- E3.
Qed.

Lemma request_keys i reqs req :
  queues !! i = Some reqs -> req ∈ reqs -> forall key, req = ClusterRequest key -> key = key_of c.
Proof. intros Eq Hin key ->. eapply Hkeys; [by eapply list_elem_of_lookup_2|exact Hin]. Qed.

Lemma run_peaceful th1 th2 : th = th1 ++ th2 -> peaceful_history reg v m p (snd <$> th1).
Proof.
  revert th2. induction th1 as [|[i [call r]] th1 IH] using rev_ind; intros th2 E.
  { intros h1 call r h2 Eh. by destruct h1. }
  rewrite <- app_assoc in E. cbn in E. specialize (IH _ E).
  intros h1 call' r' h2 Eh. rewrite fmap_app in Eh. cbn in Eh.
  destruct h2 as [|e h2 _] using rev_ind.
  - apply app_inj_tail in Eh as [<- Ee]. change (answer_in (identified reg) (snd <$> th1) (CEv call' r') /\
      peaceful reg v m p (snd <$> th1) (ev_call (CEv call' r'))). rewrite <- Ee. split.
    + by apply (turn_answers th1 i call r th2 E).
    + change (peaceful reg v m p (own i th1) (ev_call (CEv call r))).
      eapply turn_obeys; [|exact E|exact IH]. intros reqs req h Eq Hin.
      by apply (pass_at_rest v _ m p c); [..|eapply request_keys].
  - change (CEv call' r' :: h2 ++ [e]) with ((CEv call' r' :: h2) ++ [e]) in Eh. rewrite app_assoc in Eh.
    apply app_inj_tail in Eh as [Eh _]. by eapply IH.
Qed.
End run.
End passes.

(** C4.  The manager keeps what it built: a cluster whose project is settled and a machine
    that is up stay so along any interleaving of the passes of any workers over the
    cluster, over the machine, and over machines of other names, that create, replace or
    delete theirs and fail anywhere; and the calls of a worker that has only the cluster
    and the machine to go over either read or write one of their access control lists
    again as it is.  An identifier or an address has to be of one machine for good, the
    identifier of an access control list of one list, and neither object is changed by its
    user meanwhile. *)
Theorem manager_at_rest `{SDK : ScwSDK} `{K8S : K8sLib} `{!K8sLaws} (reg : registry)
    (o : oracle cloud) (queues : list (list request)) (schedule : list nat)
    (v : machine_view) (m : MachineScope) (p : project) (c : ClusterScope) th :
  admissible (manager_rely reg v m p c) o ->
  registered reg v -> registered_acls reg p -> unique_acls v p ->
  machine_up (view_for v m) m -> settled p c ->
  (forall reqs key, reqs ∈ queues -> ClusterRequest key ∈ reqs -> key = key_of c) ->
  th = (run_pool o [] (worker <$> queues) schedule).1 ->
  machine_up (view_for (view_after v (snd <$> th)) m) m /\
  settled (project_after p (snd <$> th)) c /\
  forall th1 i call r th2 reqs,
    th = th1 ++ (i, CEv call r) :: th2 -> queues !! i = Some reqs ->
    (forall key, MachineRequest key ∈ reqs ->
       nn_Name key = om_Name (sm_ObjectMeta (ms_ScalewayMachine m))) ->
    mutates call = false \/ exists acl, at_rest v m p acl /\ restates acl call.
Proof.
  intros Ho Hreg Hacls Huniq Hup Hset Hkeys Eth.
  pose proof (run_peaceful reg o queues schedule v m p c th Ho Hreg Hacls Huniq Hup Hset Hkeys Eth) as Hs.
  assert (peaceful_history reg v m p (snd <$> th)) as Hall by (apply (Hs th []); by rewrite app_nil_r).
  destruct (history_rests reg v m p (snd <$> th)) as (_ & Hun & _ & Hq); [done..|].
  split; [by eapply unharmed_up|split; [by eapply undisturbed_settled|]].
  intros th1 i call r th2 reqs E Eq Hown.
  apply (turn_obeys reg o queues schedule v m p c th Ho Hreg Hacls Huniq Eth
    (fun h call => mutates call = false \/ restating v m p h call) th1 i (CEv call r) th2);
    [|done|by eapply Hs].
  intros reqs' req h Eq' Hin. assert (reqs' = reqs) as -> by congruence.
  apply (pass_at_rest reg v _ m p c); [done|done|done|by eapply request_keys|].
  intros key ->. by apply Hown.
Qed.

(** ** The sample project, with three machines *)

#[local] Existing Instances sim_sdk sim_k8s sim_k8s_laws.

(** The resources of a machine have its name for an identifier, and one number. *)
Definition demo_number (name : string) : option Z :=
  if name =?s "caps-node" then Some 2 else if name =?s "caps-other" then Some 3
  else if name =?s "caps-third" then Some 4 else None.

Definition demo_public (n : Z) : list Z := [51; 15; 0; n].
Definition demo_private (n : Z) : IPNet :=
  {| IPNet_IP := [10; 0; 0; n]; IPNet_Mask := [255; 255; 255; 0] |}.

Definition demo_registry : registry :=
  {| of_server := id; of_nic := id; of_ip := id; of_acl := id;
     of_address := fun ip =>
       if slices_Contains ["10.0.0.2"; "51.15.0.2"] ip then "caps-node"
       else if slices_Contains ["10.0.0.3"; "51.15.0.3"] ip then "caps-other" else "caps-third" |}.

Definition demo_server (name : string) (n : Z) (st : ServerState) : Server :=
  {| srv_ID := name; srv_Name := name; srv_Zone := "fr-par-1"; srv_State := st;
     srv_PublicIP := Some {| sip_ID := name; sip_Address := demo_public n; sip_Dynamic := false |};
     srv_Volumes := [] |}.

Definition demo_acl (name : string) (ips : list string) : ACL :=
  {| acl_ID := name; acl_Name := name; acl_Match := Some ips;
     acl_Action := Some ACLActionTypeAllow; acl_Index := 3 |}.

Definition demo_ip (name : string) : InstanceIP :=
  {| iip_ID := "caps-" +:+ name; iip_Tags := ["caps-cluster=demo"; "caps-node=" +:+ name] |}.

(** Two of the machines are up. *)
Definition demo_pair : machine_view :=
  {| mv_ips := [demo_ip "node"; demo_ip "other"];
     mv_servers := [demo_server "caps-other" 3 (ServerStateOther "running");
                    demo_server "caps-node" 2 (ServerStateOther "running")];
     mv_nics serverID := [{| nic_ID := serverID; nic_PrivateNetworkID := "id-14" |}];
     mv_addresses nicID := match demo_number nicID with Some n => [demo_private n] | None => [] end;
     mv_lbs := mv_lbs demo_up_view;
     mv_backends _ := [{| be_ID := "be"; be_Name := "control-plane";
                          be_Pool := ["10.0.0.3"; "10.0.0.2"] |}];
     mv_frontends := mv_frontends demo_up_view;
     mv_acls _ := [demo_acl "caps-node" ["51.15.0.2"]; demo_acl "caps-other" ["51.15.0.3"]] |}.

(** One of them is being deleted, and the third one is to be created. *)
Definition demo_object (name : string) : ScalewayMachine :=
  {| sm_ObjectMeta :=
       {| om_Name := name; om_Namespace := "default"; om_UID := "uid-sm"; om_Labels := ∅;
          om_Annotations := ∅; om_Finalizers := []; om_OwnerReferences := [];
          om_DeletionTimestamp := if name =?s "other" then Some 1 else None |};
     sm_Spec := sm_Spec demo_machine; sm_Status := sm_Status demo_machine |}.

(** The listings show what is of one machine by its name; what is not cannot be listed. *)
Definition checked {A} (p : A -> bool) (xs : list A) : reply (list A) :=
  if forallb p xs then ROk xs else RErr (OtherError "unavailable").

Definition server_checked (s : Server) : bool :=
  (srv_ID s =?s srv_Name s) &&
  match srv_PublicIP s with
  | Some ip => (sip_ID ip =?s srv_Name s) &&
      (of_address demo_registry (IP_String (sip_Address ip)) =?s srv_Name s)
  | None => true
  end.

(** The project of their cluster. *)
Definition demo_rest : project := demo_project_of "id-14".

#[local] Instance LBIP_eq_dec : EqDecision LBIP.
Proof. solve_decision. Defined.

#[local] Instance LB_eq_dec : EqDecision LB.
Proof. solve_decision. Defined.

Definition acl_checked (acl : ACL) : bool := acl_ID acl =?s acl_Name acl.

Definition demo_machines : oracle cloud := fun h c =>
  let v := view_after demo_pair h in
  let p := project_after demo_rest h in
  match c return resp cloud c with
  | InstanceListIPs _ tags => ROk (List.filter (fun ip => has_tags tags (iip_Tags ip)) (mv_ips v))
  | ListServers zone _ => checked server_checked
      (List.filter (fun s => (srv_Zone s =? zone)%string) (mv_servers v))
  | ListPrivateNICs _ serverID => checked (fun nic => nic_ID nic =?s serverID) (mv_nics v serverID)
  | IPAMListIPs _ _ nicID =>
      checked (fun net => of_address demo_registry (IP_String (IPNet_IP net)) =?s nicID) (mv_addresses v nicID)
  | ListLBs _ (Some _) =>
      if bool_decide (pr_lbs p = mv_lbs v) then ROk (mv_lbs v) else RErr (OtherError "unavailable")
  | ListBackends _ lbID (Some _) => ROk (mv_backends v lbID)
  | ListFrontends _ lbID (Some _) => ROk (mv_frontends v lbID)
  | ListACLs _ frontendID (Some name) =>
      checked acl_checked
        (if bool_decide (name ∈ cluster_acls) then pr_acls p frontendID name else mv_acls v frontendID)
  | ListSecurityGroups _ None _ _ => ROk (pr_groups p)
  | ListSecurityGroupRules _ id => ROk (pr_rules p id)
  | ListPrivateNetworks _ (Some _) _ => ROk (pr_networks p)
  | ListGatewaysByName _ _ _ => ROk (pr_gateways p)
  | ListGatewayNetworks _ gwID pnID => ROk (pr_attachments p gwID pnID)
  | ListGatewaysByPN _ pnID _ => ROk (pr_network_gateways p pnID)
  | ListLBPrivateNetworks _ lbID => ROk (pr_lb_networks p lbID)
  | ListBackends _ lbID None => ROk (pr_backends p lbID)
  | ListFrontends _ lbID None => ROk (pr_frontends p lbID)
  | ListSecurityGroups zone (Some name) _ _ => ROk [sim_sg zone name "id-sg"]
  | InstanceCreateIP _ tags =>
      if bool_decide (tags = iip_Tags (demo_ip "third")) then ROk (demo_ip "third")
      else RErr (OtherError "unavailable")
  | CreateServer req =>
      match demo_number (csr_Name req) with
      | Some n => ROk (demo_server (csr_Name req) n ServerStateStopped)
      | None => RErr (OtherError "unavailable")
      end
  | CreatePrivateNIC _ serverID pnID =>
      ROk {| nic_ID := serverID; nic_PrivateNetworkID := pnID |}
  | CreateACL req => ROk (acl_of_request (cacl_Name req) req)
  | GetScalewayMachine key => ROk (demo_object (nn_Name key))
  | ListACLs _ _ None => RErr (OtherError "unavailable")
  | GetOwnerCluster meta =>
      ROk (if om_Name meta =?s "" then None else Some (cs_Cluster (ms_Cluster demo_up_scope)))
  | GetScalewayCluster _ => ROk (cs_ScalewayCluster (ms_Cluster demo_up_scope))
  | c => sim demo_world h c
  end.

Lemma checked_spec {A} (p : A -> bool) (P : A -> Prop) xs ys :
  (forall x, p x = true -> P x) -> checked p xs = ROk ys -> forall x, x ∈ ys -> P x.
Proof.
  intros HP. unfold checked. destruct (forallb p xs) eqn:E; [|done]. intros [= <-] x Hx.
  rewrite forallb_forall in E. by apply HP, E, list_elem_of_In.
Qed.

Lemma server_checked_of s : server_checked s = true -> server_of demo_registry s.
Proof.
  unfold server_checked, server_of. intros E. to_prop. destruct (srv_PublicIP s); to_prop; naive_solver.
Qed.

Lemma demo_number_name name n :
  demo_number name = Some n ->
  of_address demo_registry (IP_String (demo_public n)) = name /\
  of_address demo_registry (IP_String (IPNet_IP (demo_private n))) = name.
Proof.
  unfold demo_number. repeat case_match; try done; intros [= <-]; to_prop; subst; by vm_compute.
Qed.

Lemma demo_ip_of name : ip_of demo_registry (demo_ip name).
Proof.
  intros name' [E|[E|?%not_elem_of_nil]%elem_of_cons]%elem_of_cons; [done| |done].
  apply append_inj_l in E. by subst.
Qed.

Lemma demo_machines_identified : admissible (identified demo_registry) demo_machines.
Proof.
  intros h c. unfold identified. destruct (demo_machines h c) as [a|e] eqn:Ea; [|done].
  destruct c; try done; unfold demo_machines in Ea.
  - revert Ea. apply checked_spec, server_checked_of.
  - revert Ea. apply checked_spec. intros nic E. by to_prop.
  - case_bool_decide as E; [|done]. injection Ea as <-. split; [apply demo_ip_of|done].
  - destruct (demo_number _) as [n|] eqn:En; [|done]. injection Ea as <-.
    split; [|done]. split; [done|]. split; [done|]. by apply demo_number_name.
  - by injection Ea as <-.
  - revert Ea. apply checked_spec. intros net E. by to_prop.
  - destruct name; [|done]. revert Ea. apply checked_spec. unfold acl_checked. intros acl E. by to_prop.
  - by injection Ea as <-.
  - by injection Ea as <-.
Qed.

Lemma checked_same {A} (p : A -> bool) xs ys : checked p xs = ROk ys -> ys = xs.
Proof. unfold checked. destruct (forallb p xs); [by intros [= <-]|done]. Qed.

Lemma demo_machines_machine h c r :
  demo_machines h c = r ->
  stored demo_up_scope h c r /\ sees (view_for (view_after demo_pair h) demo_up_scope) demo_up_scope h c r.
Proof.
  unfold stored, sees. intros Ea. destruct r as [a|e]; [|done].
  destruct c; try done; unfold demo_machines in Ea;
    try (destruct name; [|done]); try (injection Ea as <-); split; try done; cbn.
  - intros ->. by apply checked_same in Ea as ->.
  - by intros ->.
  - intros s _ _. by apply checked_same in Ea as ->.
  - by apply checked_same in Ea.
  - by case_bool_decide; [injection Ea as <-|].
  - by intros Q _.
  - intros ->. by apply checked_same in Ea as ->.
  - by intros ->.
  - by right.
Qed.

Abbreviation demo_cluster_scope := (ms_Cluster demo_up_scope).

Lemma demo_machines_cluster h c r :
  demo_machines h c = r ->
  stored_cluster demo_cluster_scope h c r /\
  observes (project_after demo_rest h) (Cluster_Name demo_cluster_scope) h c r.
Proof.
  unfold stored_cluster, observes. intros Ea. destruct r as [a|e]; [|done].
  destruct c; try done; unfold demo_machines in Ea;
    try (destruct name; try done); try (injection Ea as <-); split; try done; cbn.
  - case_bool_decide as E; [|done]. injection Ea as <-. by rewrite E.
  - intros Hname. rewrite bool_decide_eq_true_2 in Ea by done. by apply checked_same in Ea as ->.
  - by intros ->.
  - by intros ->.
Qed.

Lemma demo_machines_rely :
  admissible (manager_rely demo_registry demo_pair demo_up_scope demo_rest demo_cluster_scope) demo_machines.
Proof.
  intros h c. split; [apply demo_machines_identified|].
  destruct (demo_machines_machine h c _ eq_refl). by destruct (demo_machines_cluster h c _ eq_refl).
Qed.

Lemma demo_pair_registered : registered demo_registry demo_pair.
Proof.
  split_and!; cbn.
  - apply Forall_forall. repeat constructor; by vm_compute.
  - by intros serverID nic ->%list_elem_of_singleton.
  - intros nicID net. destruct (demo_number _) as [n|] eqn:En; [|by intros ?%not_elem_of_nil].
    intros ->%list_elem_of_singleton. by apply demo_number_name.
  - intros _. apply Forall_forall. repeat constructor.
  - apply Forall_forall. repeat constructor; apply demo_ip_of.
Qed.

Lemma demo_pair_up : machine_up (view_for demo_pair demo_up_scope) demo_up_scope.
Proof.
  split; [done|]. split; [by eexists|]. split.
  { exists (demo_server "caps-node" 2 (ServerStateOther "running")). split; [right; left|done]. }
  intros s [->|[->|?%not_elem_of_nil]%elem_of_cons]%elem_of_cons En; [done| |done].
  split; [done|]. split; [|split].
  - exists "id-14"%string. split; [done|]. by apply exists_as_one.
  - intros _. do 2 (apply exists_as_one; [done|]).
    intros ip (nic & net & ->%list_elem_of_singleton & _ & [= <-] & <-). by vm_compute.
  - do 2 (apply exists_as_one; [done|]). cbn. split.
    + eexists. split; [left|done].
    + by intros acl [->|[->|?%not_elem_of_nil]%elem_of_cons]%elem_of_cons.
Qed.

(** Four workers: one deletes a machine, one creates one, one goes over the cluster and the
    machine that is up, one over the cluster. *)
Definition demo_named (name : string) : NamespacedName :=
  {| nn_Namespace := "default"; nn_Name := name |}.

Definition demo_requests : list (list request) :=
  [[MachineRequest (demo_named "other")]; [MachineRequest (demo_named "third")];
   [ClusterRequest (demo_named "demo"); MachineRequest (demo_named "node")];
   [ClusterRequest (demo_named "demo")]].

Definition demo_rounds : list nat := concat (replicate 60 [0; 1; 2; 3]%nat).

Definition demo_calls : list (nat * event cloud) :=
  (run_pool demo_machines [] (worker <$> demo_requests) demo_rounds).1.

Definition demo_left : machine_view := view_after demo_pair (snd <$> demo_calls).

Lemma demo_rest_registered : registered_acls demo_registry demo_rest.
Proof. by intros frontendID name acl ->%list_elem_of_singleton. Qed.

Lemma demo_rest_unique : unique_acls demo_pair demo_rest.
Proof.
  split.
  - intros f f' acl a Hacl Ha. cbn in Hacl, Ha. rewrite elem_of_cons, list_elem_of_singleton in Hacl, Ha.
    by destruct Hacl as [->| ->], Ha as [->| ->].
  - intros f f' name name' acl a ->%list_elem_of_singleton ->%list_elem_of_singleton. cbn. by intros ->.
Qed.

Lemma demo_rest_settled : settled demo_rest demo_cluster_scope.
Proof. exact (demo_settled_of "id-14"). Qed.

Lemma demo_requests_keys reqs key :
  reqs ∈ demo_requests -> ClusterRequest key ∈ reqs -> key = key_of demo_cluster_scope.
Proof.
  assert (Forall (Forall (fun req => forall key, req = ClusterRequest key -> key = key_of demo_cluster_scope))
    demo_requests) as Hall by (repeat constructor; by intros ? [= <-]).
  rewrite Forall_forall in Hall. intros Hreqs Hin. specialize (Hall reqs Hreqs).
  rewrite Forall_forall in Hall. by apply (Hall _ Hin).
Qed.

Lemma manager_at_rest_witness :
  (srv_Name <$> mv_servers demo_left) = ["caps-node"; "caps-third"]%string /\
  (be_Pool <$> mv_backends demo_left "lb") = [["10.0.0.2"; "10.0.0.4"]]%string /\
  (acl_Name <$> mv_acls demo_left "fe") = ["caps-node"; "caps-third"]%string /\
  machine_up (view_for demo_left demo_up_scope) demo_up_scope /\
  settled (project_after demo_rest (snd <$> demo_calls)) demo_cluster_scope.
Proof.
  do 3 (split; [vm_compute; reflexivity|]).
  pose proof (manager_at_rest demo_registry demo_machines demo_requests demo_rounds
    demo_pair demo_up_scope demo_rest demo_cluster_scope demo_calls demo_machines_rely
    demo_pair_registered demo_rest_registered demo_rest_unique demo_pair_up demo_rest_settled demo_requests_keys eq_refl) as H.
  exact (conj (proj1 H) (proj1 (proj2 H))).
Defined.

(** Names do not tell namespaces apart: the deletion of a machine of the same name in another
    namespace takes the server of the first one. *)
Definition demo_namesake : oracle cloud := fun h c =>
  match c return resp cloud c with
  | GetScalewayMachine key =>
      ROk {| sm_ObjectMeta :=
               {| om_Name := nn_Name key; om_Namespace := nn_Namespace key; om_UID := "uid-sm2";
                  om_Labels := ∅; om_Annotations := ∅; om_Finalizers := [];
                  om_OwnerReferences := []; om_DeletionTimestamp := Some 1 |};
             sm_Spec := sm_Spec demo_machine; sm_Status := sm_Status demo_machine |}
  | c => demo_machines h c
  end.

Lemma namesake_loses_server :
  let th := (run_pool demo_namesake [] [pass (MachineRequest
    {| nn_Namespace := "elsewhere"; nn_Name := "node" |})] (replicate 40 0%nat)).1 in
  srv_Name <$> mv_servers (view_after demo_pair (snd <$> th)) = ["caps-other"%string].
Proof. by vm_compute. Qed.
