(* ===== verification/Main.v ===== *)
(** * The entry point ([cmd/main.go]) and the registration of the controllers

    The flags, the start-up of the manager and its setup calls.  The manager and the
    flags that libraries add are third-party code: the setup calls are answered by an
    oracle, and the added flags are a parameter. *)

From S2P Require Import Prelude Go Prog.
#[local] Open Scope caps_scope.

(** ** The flags

    [flag.Parse] on [os.Args[1:]], with [flag.ExitOnError]. *)

Record Flags := {
  metricsAddr : string;
  probeAddr : string;
  enableLeaderElection : bool;
  secureMetrics : bool;
  enableHTTP2 : bool;
}.

(** The values given to [flag.StringVar] and [flag.BoolVar]. *)
Definition defaultFlags : Flags :=
  {| metricsAddr := ":8080"; probeAddr := ":8081"; enableLeaderElection := false;
     secureMetrics := false; enableHTTP2 := false |}.

Definition set_metricsAddr v f := {| metricsAddr := v; probeAddr := probeAddr f;
  enableLeaderElection := enableLeaderElection f; secureMetrics := secureMetrics f;
  enableHTTP2 := enableHTTP2 f |}.
Definition set_probeAddr v f := {| metricsAddr := metricsAddr f; probeAddr := v;
  enableLeaderElection := enableLeaderElection f; secureMetrics := secureMetrics f;
  enableHTTP2 := enableHTTP2 f |}.
Definition set_enableLeaderElection v f := {| metricsAddr := metricsAddr f;
  probeAddr := probeAddr f; enableLeaderElection := v; secureMetrics := secureMetrics f;
  enableHTTP2 := enableHTTP2 f |}.
Definition set_secureMetrics v f := {| metricsAddr := metricsAddr f; probeAddr := probeAddr f;
  enableLeaderElection := enableLeaderElection f; secureMetrics := v;
  enableHTTP2 := enableHTTP2 f |}.
Definition set_enableHTTP2 v f := {| metricsAddr := metricsAddr f; probeAddr := probeAddr f;
  enableLeaderElection := enableLeaderElection f; secureMetrics := secureMetrics f;
  enableHTTP2 := v |}.

(** [strconv.ParseBool]. *)
Definition ParseBool (s : string) : option bool :=
  if List.existsb (String.eqb s) ["1"; "t"; "T"; "TRUE"; "true"; "True"]%string then Some true
  else if List.existsb (String.eqb s) ["0"; "f"; "F"; "FALSE"; "false"; "False"]%string
  then Some false else None.

(** A flag of the command line: what [Value.Set] does with its value. *)
Inductive flag_value :=
| StringFlag (set : string -> Flags -> Flags)
| BoolFlag (set : bool -> Flags -> Flags).

(** The flags that the imported packages register: whether one is boolean, and which
    values it accepts. *)
Class FlagLib := {
  other_flag : string -> option bool;
  other_accepts : string -> string -> bool;
}.

(** The variables of [main]. *)
Definition own_flag (name : string) : option flag_value :=
  if name =?s "metrics-bind-address" then Some (StringFlag set_metricsAddr)
  else if name =?s "health-probe-bind-address" then Some (StringFlag set_probeAddr)
  else if name =?s "leader-elect" then Some (BoolFlag set_enableLeaderElection)
  else if name =?s "metrics-secure" then Some (BoolFlag set_secureMetrics)
  else if name =?s "enable-http2" then Some (BoolFlag set_enableHTTP2)
  else None.

(** How the parsing of the command line ends: the process exits with 0 after the help,
    and with 2 after an error. *)
Inductive parsed :=
| Parsed (f : Flags) (rest : list string)
| ParseExit (code : Z).

(** The name of a flag and its value after the first ["="]. *)
Fixpoint cut_equals (s : string) : string * option string :=
  match s with
  | EmptyString => (EmptyString, None)
  | String c s' =>
      if Ascii.eqb c "=" then (EmptyString, Some s')
      else let '(name, value) := cut_equals s' in (String c name, value)
  end.

(** The text of a flag after its one or two minus signs; [None] for ["--"]. *)
Inductive arg_kind := FlagText (s : string) | Terminator | Positional.

Definition classify (s : string) : arg_kind :=
  match s with
  | String "-" EmptyString => Positional
  | String "-" (String "-" EmptyString) => Terminator
  | String "-" (String "-" s') => FlagText s'
  | String "-" s' => FlagText s'
  | _ => Positional
  end.

Section flags.
Context `{FlagLib}.

(** [Value.Set] of the flag [name]; [None] when it returns an error. *)
Definition flag_Set (name value : string) (f : Flags) : option Flags :=
  match own_flag name with
  | Some (StringFlag set) => Some (set value f)
  | Some (BoolFlag set) => (fun b => set b f) <$> ParseBool value
  | None => if other_accepts name value then Some f else None
  end.

(** Whether the flag is boolean, if it is defined. *)
Definition flag_IsBool (name : string) : option bool :=
  match own_flag name with
  | Some (BoolFlag _) => Some true
  | Some (StringFlag _) => Some false
  | None => other_flag name
  end.

Definition set_or_exit (name value : string) (f : Flags) (k : Flags -> parsed) : parsed :=
  match flag_Set name value f with Some f' => k f' | None => ParseExit 2 end.

(** [flag.Parse]: flags come first, until ["--"] or what is not a flag. *)
Fixpoint parse_flags (f : Flags) (args : list string) : parsed :=
  match args with
  | [] => Parsed f []
  | s :: args' =>
      match classify s with
      | Positional => Parsed f args
      | Terminator => Parsed f args'
      | FlagText text =>
          match text with
          | EmptyString | String "-" _ | String "=" _ => ParseExit 2
          | String c text' =>
              let '(name', value) := cut_equals text' in
              let name := String c name' in
              match flag_IsBool name with
              | None => ParseExit (if (name =?s "help") || (name =?s "h") then 0 else 2)
              | Some true =>
                  set_or_exit name (opt_default "true" value)%string f (fun f => parse_flags f args')
              | Some false =>
                  match value, args' with
                  | Some v, _ => set_or_exit name v f (fun f => parse_flags f args')
                  | None, v :: args'' => set_or_exit name v f (fun f => parse_flags f args'')
                  | None, [] => ParseExit 2
                  end
              end
          end
      end
  end.
End flags.

(** ** The start-up *)

(** [tls.Config]: the field that the program sets. *)
Record tls_Config := { NextProtos : list string }.

(** [ctrl.Options], with the options of the webhook server it is given. *)
Record Options := {
  opt_MetricsBindAddress : string;
  opt_MetricsSecureServing : bool;
  opt_MetricsTLSOpts : list (tls_Config -> tls_Config);
  opt_WebhookTLSOpts : list (tls_Config -> tls_Config);
  opt_HealthProbeBindAddress : string;
  opt_LeaderElection : bool;
  opt_LeaderElectionID : string;
}.

(** The API groups added to the scheme. *)
Inductive scheme_group := ClientGoScheme | ClusterAPIScheme | InfrastructureScheme.

Inductive kind := ScalewayClusterKind | ScalewayMachineKind.

(** The calls that set the manager up. *)
Inductive setup_call :=
| AddToScheme (g : scheme_group)
| GetConfigOrDie
| NewManager (opts : Options)
| ControllerComplete (for_ : kind)
| WebhookComplete (for_ : kind)
| AddHealthzCheck (name : string)
| AddReadyzCheck (name : string)
| SetupSignalHandler
| Start.

Definition setup : sig := {| call := setup_call; val := fun _ => unit |}.

(** How the process ends: [main] returns, or it exits or panics. *)
Inductive exit_status := Returned | Exited (code : Z) | Panicked.

Abbreviation boot := (prog setup exit_status).

(** [if err := call; err != nil { os.Exit(1) }]. *)
Definition or_exit (c : setup_call) (k : boot) : boot :=
  Call (Sg := setup) c (fun r => match r with ROk _ => k | RErr _ => Ret (Exited 1) end).

(** [utilruntime.Must(call)]. *)
Definition or_panic (c : setup_call) (k : boot) : boot :=
  Call (Sg := setup) c (fun r => match r with ROk _ => k | RErr _ => Ret Panicked end).

Definition call_then (c : setup_call) (k : boot) : boot := Call (Sg := setup) c (fun _ => k).

(** [init]. *)
Definition init (k : boot) : boot :=
  or_panic (AddToScheme ClientGoScheme)
    (or_panic (AddToScheme ClusterAPIScheme)
      (or_panic (AddToScheme InfrastructureScheme) k)).

(** The methods [SetupWithManager] of the controllers and [SetupWebhookWithManager] of
    the API types. *)
Definition ScalewayClusterReconciler_SetupWithManager : setup_call :=
  ControllerComplete ScalewayClusterKind.
Definition ScalewayMachineReconciler_SetupWithManager : setup_call :=
  ControllerComplete ScalewayMachineKind.
Definition ScalewayCluster_SetupWebhookWithManager : setup_call :=
  WebhookComplete ScalewayClusterKind.
Definition ScalewayMachine_SetupWebhookWithManager : setup_call :=
  WebhookComplete ScalewayMachineKind.

Definition disableHTTP2 (c : tls_Config) : tls_Config := {| NextProtos := ["http/1.1"%string] |}.

(** The options given to [ctrl.NewManager]. *)
Definition manager_options (f : Flags) : Options :=
  let tlsOpts := if negb (enableHTTP2 f) then [disableHTTP2] else [] in
  {| opt_MetricsBindAddress := metricsAddr f;
     opt_MetricsSecureServing := secureMetrics f;
     opt_MetricsTLSOpts := tlsOpts;
     opt_WebhookTLSOpts := tlsOpts;
     opt_HealthProbeBindAddress := probeAddr f;
     opt_LeaderElection := enableLeaderElection f;
     opt_LeaderElectionID := "44a4366c.cluster.x-k8s.io" |}.

(** [main] after [flag.Parse]; [webhooks] is [os.Getenv("ENABLE_WEBHOOKS")]. *)
Definition start_manager (f : Flags) (webhooks : string) : boot :=
  or_exit GetConfigOrDie
    (or_exit (NewManager (manager_options f))
      (or_exit ScalewayClusterReconciler_SetupWithManager
        ((if negb (webhooks =?s "false")
          then or_exit ScalewayCluster_SetupWebhookWithManager else id)
          (or_exit ScalewayMachineReconciler_SetupWithManager
            ((if negb (webhooks =?s "false")
              then or_exit ScalewayMachine_SetupWebhookWithManager else id)
              (or_exit (AddHealthzCheck "healthz")
                (or_exit (AddReadyzCheck "readyz")
                  (call_then SetupSignalHandler
                    (or_exit Start (Ret Returned)))))))))).

(** [main], after the functions [init]. *)
Definition main `{FlagLib} (args : list string) (webhooks : string) : boot :=
  init (match parse_flags defaultFlags args with
        | Parsed f _ => start_manager f webhooks
        | ParseExit code => Ret (Exited code)
        end).

(** ** The start-up is all or nothing *)

(** What a manager is made of. *)
Definition controllers_of (webhooks : string) : list setup_call :=
  if webhooks =?s "false"
  then [ControllerComplete ScalewayClusterKind; ControllerComplete ScalewayMachineKind]
  else [ControllerComplete ScalewayClusterKind; WebhookComplete ScalewayClusterKind;
        ControllerComplete ScalewayMachineKind; WebhookComplete ScalewayMachineKind].

Definition scheme_calls : list setup_call :=
  [AddToScheme ClientGoScheme; AddToScheme ClusterAPIScheme; AddToScheme InfrastructureScheme].

(** The calls of a start-up, in order. *)
Definition startup_plan (f : Flags) (webhooks : string) : list setup_call :=
  scheme_calls ++ [GetConfigOrDie; NewManager (manager_options f)] ++ controllers_of webhooks ++
  [AddHealthzCheck "healthz"; AddReadyzCheck "readyz"; SetupSignalHandler; Start].

(** A failure of [SetupSignalHandler] does not exist: it returns a context. *)
Definition infallible (c : setup_call) : Prop := c = SetupSignalHandler.

(** The calls of [plan] one by one, until one fails. *)
Fixpoint run_plan (plan : list setup_call) : boot :=
  match plan with
  | [] => Ret Returned
  | c :: plan' =>
      match c with
      | SetupSignalHandler => call_then c (run_plan plan')
      | AddToScheme _ => or_panic c (run_plan plan')
      | _ => or_exit c (run_plan plan')
      end
  end.

Lemma main_runs_plan `{FlagLib} args webhooks f rest :
  parse_flags defaultFlags args = Parsed f rest ->
  main args webhooks = run_plan (startup_plan f webhooks).
Proof.
  intros E. unfold main, start_manager, startup_plan, controllers_of. rewrite E.
  by destruct (webhooks =?s "false").
Qed.

(** The call succeeded, or cannot fail. *)
Definition went_well (e : event setup) : Prop :=
  match e with Ev c r => infallible c \/ r = ROk tt end.

(** The calls that were made. *)
Definition calls_of (t : history setup) : list setup_call :=
  List.map (fun e => match e with Ev c _ => c end) t.

(** Where a start-up stopped. *)
Definition stopped_at (c : setup_call) (t : history setup) : Prop :=
  exists t1 err, t = t1 ++ [Ev (Sg := setup) c (RErr err)] /\ Forall went_well t1.

Definition stopped (t : history setup) (e : exit_status) : Prop :=
  match e with
  | Returned => False
  | Exited code => code = 1 /\ exists c, stopped_at c t
  | Panicked => exists g, stopped_at (AddToScheme g) t
  end.

Lemma stopped_cons ev t e : went_well ev -> stopped t e -> stopped (ev :: t) e.
Proof.
  intros Hev. assert (forall c, stopped_at c t -> stopped_at c (ev :: t)) as Hc.
  { intros c (t1 & err & -> & Ht). exists (ev :: t1), err. split; [done|by constructor]. }
  destruct e; cbn; naive_solver.
Qed.

Lemma stopped_at_here c err : stopped_at c [Ev (Sg := setup) c (RErr err)].
Proof. exists [], err. split; [done|constructor]. Qed.

Lemma stopped_here c err : stopped [Ev (Sg := setup) c (RErr err)] (Exited 1).
Proof. split; [done|]. exists c. apply stopped_at_here. Qed.

Lemma run_plan_spec (o : oracle setup) h plan :
  exists t, (run o h (run_plan plan)).1 = h ++ t /\ calls_of t `prefix_of` plan /\
    ((run o h (run_plan plan)).2 = Returned /\ calls_of t = plan /\ Forall went_well t \/
     stopped t (run o h (run_plan plan)).2).
Proof.
  revert h. induction plan as [|c plan IH]; intros h.
  - exists []. cbn. rewrite app_nil_r. split; [done|]. split; [done|]. by left.
  - assert (forall r, went_well (Ev (Sg := setup) c r) ->
      exists t, (run o (h ++ [Ev (Sg := setup) c r]) (run_plan plan)).1 = h ++ t /\
        calls_of t `prefix_of` c :: plan /\
        ((run o (h ++ [Ev (Sg := setup) c r]) (run_plan plan)).2 = Returned /\
           calls_of t = c :: plan /\ Forall went_well t \/
         stopped t (run o (h ++ [Ev (Sg := setup) c r]) (run_plan plan)).2)) as Hnext.
    { intros r Hr. destruct (IH (h ++ [Ev (Sg := setup) c r])) as (t & -> & Hp & Hor).
      exists (Ev (Sg := setup) c r :: t). rewrite <- app_assoc. split; [done|].
      change (calls_of (Ev (Sg := setup) c r :: t)) with (c :: calls_of t).
      split; [by apply prefix_cons|]. destruct Hor as [(-> & -> & Ht)|Hs].
      - left. split; [done|]. split; [done|by constructor].
      - right. by apply stopped_cons. }
    assert (forall err, calls_of [Ev (Sg := setup) c (RErr err)] `prefix_of` c :: plan) as Hone
      by (intros err; apply prefix_cons, prefix_nil).
    destruct c; cbn [run_plan run or_exit or_panic call_then].
    all: try (apply Hnext; by left).
    all: destruct (o h _) as [[]|err]; cbn [run]; [apply Hnext; by right|].
    all: eexists; split; [reflexivity|split; [apply Hone|right]].
    all: try apply stopped_here.
    exists g. apply stopped_at_here.
Qed.

Lemma prefix_with_last {A} (l before : list A) x :
  l `prefix_of` before ++ [x] -> x ∈ l -> x ∉ before -> l = before ++ [x].
Proof.
  intros [k E] Hx Hn. destruct k as [|y k _] using rev_ind; [by rewrite app_nil_r in E|].
  rewrite app_assoc in E. apply app_inj_tail in E as [-> ->]. exfalso. apply Hn, elem_of_app. by left.
Qed.

(** A setup that began to start the manager had made it, with its controllers. *)
Lemma started_with f webhooks t e c :
  calls_of t `prefix_of` startup_plan f webhooks ->
  (Forall went_well t \/ stopped t e) -> Start ∈ calls_of t ->
  c ∈ NewManager (manager_options f) :: controllers_of webhooks -> Ev (Sg := setup) c (ROk tt) ∈ t.
Proof.
  intros Hp Hor Hstart Hc.
  assert (exists before, startup_plan f webhooks = before ++ [Start] /\ (Start ∉ before) /\ (c ∈ before) /\
    c <> SetupSignalHandler) as (before & Eb & Hn & Hin & Hs).
  { unfold startup_plan, controllers_of in *.
    destruct (webhooks =?s "false"); [eexists ([_; _; _; _; _; _; _; _; _; _])|
      eexists ([_; _; _; _; _; _; _; _; _; _; _; _])].
    all: split; [reflexivity|]; split; [set_solver|]; split; [set_solver|].
    all: intros ->; set_solver. }
  rewrite Eb in Hp. apply prefix_with_last in Hp; [|done|done].
  assert (forall t', Forall went_well t' -> c ∈ calls_of t' -> Ev (Sg := setup) c (ROk tt) ∈ t') as Hok.
  { intros t' Ht' Hc'. apply list_elem_of_In, in_map_iff in Hc' as ([c' r] & -> & He).
    apply list_elem_of_In in He. rewrite Forall_forall in Ht'.
    destruct (Ht' _ He) as [?| ->]; [done|exact He]. }
  destruct Hor as [Ht|Hst]; [apply Hok; [done|]; rewrite Hp; by apply elem_of_app; left|].
  assert (exists c', stopped_at c' t) as (c' & t1 & err & -> & Ht1)
    by (destruct e; cbn in Hst; naive_solver).
  unfold calls_of in Hp. rewrite map_app in Hp. apply app_inj_tail in Hp as [Eb1 _].
  apply elem_of_app. left. apply Hok; [done|]. unfold calls_of. by rewrite Eb1.
Qed.

(** C19.  The start-up is all or nothing.  Once the command line is parsed, the process makes
    the setup calls of the plan in order and stops at the first that fails, with status 1
    or a panic of [init]; it returns only when all succeeded.  So the manager is started
    only with both controllers, with both webhooks unless they are disabled, with the
    options of the flags, and with both probes. *)
Theorem startup_all_or_nothing `{FlagLib} (o : oracle setup) (args : list string)
    (webhooks : string) (f : Flags) (rest : list string) :
  parse_flags defaultFlags args = Parsed f rest ->
  let '(t, e) := run o [] (main args webhooks) in
  calls_of t `prefix_of` startup_plan f webhooks /\
  (e = Returned /\ calls_of t = startup_plan f webhooks /\ Forall went_well t \/
   stopped t e) /\
  (Start ∈ calls_of t -> forall c, c ∈ NewManager (manager_options f) :: controllers_of webhooks ->
     Ev (Sg := setup) c (ROk tt) ∈ t).
Proof.
  intros E. rewrite (main_runs_plan args webhooks f rest E).
  destruct (run_plan_spec o [] (startup_plan f webhooks)) as (t & Et & Hp & Hor).
  destruct (run o [] (run_plan (startup_plan f webhooks))) as [t' e]. cbn [fst snd] in *.
  subst t'. cbn [app]. split; [exact Hp|]. split; [exact Hor|]. intros Hstart c.
  eapply started_with; [exact Hp| |exact Hstart].
  destruct Hor as [(_ & _ & Ht)|Hs]; [by left|by right].
Qed.

(** ** The flags *)

(** The command line that gives [f]. *)
Definition print_flags (f : Flags) : list string :=
  ["--metrics-bind-address=" +:+ metricsAddr f; "--health-probe-bind-address"%string; probeAddr f] ++
  (if enableLeaderElection f then ["--leader-elect"%string] else []) ++
  (if secureMetrics f then ["--metrics-secure"%string] else []) ++
  (if enableHTTP2 f then ["--enable-http2=true"%string] else []).

(** Every setting of the flags can be given on the command line: it is what the
    arguments that print it are read as, whatever flags the libraries add; without
    arguments, the flags have their defaults. *)
Theorem parse_print_flags `{FlagLib} (f : Flags) :
  parse_flags defaultFlags (print_flags f) = Parsed f [] /\
  parse_flags defaultFlags [] = Parsed defaultFlags [].
Proof.
  split; [|done]. destruct f as [metrics probe elect secure http2].
  unfold print_flags. cbn [metricsAddr probeAddr enableLeaderElection secureMetrics enableHTTP2].
  by destruct elect, secure, http2.
Qed.

(** Unless HTTP/2 is enabled, the servers of the manager negotiate HTTP/1.1 only. *)
Lemma http2_off f c :
  enableHTTP2 f = false ->
  NextProtos (foldl (fun c opt => opt c) c (opt_MetricsTLSOpts (manager_options f))) = ["http/1.1"%string] /\
  NextProtos (foldl (fun c opt => opt c) c (opt_WebhookTLSOpts (manager_options f))) = ["http/1.1"%string].
Proof. unfold manager_options. intros ->. by split. Qed.

(** ** A start-up whose probe is refused *)

#[local] Instance no_other_flags : FlagLib :=
  {| other_flag _ := None; other_accepts _ _ := false |}.

(** Every call succeeds, but for the readiness probe. *)
Definition demo_setup : oracle setup := fun _ c =>
  match c with AddReadyzCheck _ => RErr (OtherError "taken") | _ => ROk tt end.

Lemma startup_all_or_nothing_witness :
  let '(t, e) := run demo_setup [] (main ["--leader-elect"%string] "false") in
  e = Exited 1 /\ stopped t e /\
  calls_of t `prefix_of` startup_plan (set_enableLeaderElection true defaultFlags) "false".
Proof.
  destruct (startup_all_or_nothing demo_setup ["--leader-elect"%string] "false"
    (set_enableLeaderElection true defaultFlags) [] eq_refl) as (Hp & [(E & _)|Hs] & _); [discriminate E|].
  split; [reflexivity|]. split; [exact Hs|exact Hp].
Defined.
