(* ===== verification/Heap.v ===== *)
(** * Go memory, for the deep copies

    The generated methods [DeepCopyInto] are about pointers, which the other files do
    without: an object is a value there.  Here a Go value holds locations of a heap; the
    types of the API say which.  [copies] relates a value to its deep copy: the same data
    in locations of its own. *)

From S2P Require Import Prelude.
#[local] Open Scope caps_scope.
#[local] Set Warnings "-register-all".

(** ** Values and memory *)

Abbreviation loc := positive.

(** A Go value: a slice is a window of an array. *)
Inductive gval :=
| GString (s : string)
| GBool (b : bool)
| GInt (n : Z)
| GPtr (p : option loc)
| GSlice (s : option (loc * nat * nat))
| GMap (m : option loc)
| GStruct (fields : list (string * gval)).

(** What a location holds: a variable, an array or a map with string keys. *)
Inductive cell :=
| CVal (v : gval)
| CArray (vs : list gval)
| CMap (kvs : gmap string gval).

Abbreviation heap := (gmap loc cell).

(** Code over the memory; [None] is a memory fault. *)
Definition mem (A : Type) : Type := heap -> option (heap * A).

#[export] Instance mem_ret : MRet mem := fun A a h => Some (h, a).
#[export] Instance mem_bind : MBind mem := fun A B f m h =>
  match m h with Some (h', a) => f a h' | None => None end.

Definition fault {A} : mem A := fun _ => None.

Definition load (l : loc) : mem cell := fun h => match h !! l with Some c => Some (h, c) | None => None end.

(** [new] and [make], filled. *)
Definition alloc (c : cell) : mem loc := fun h =>
  let l := fresh (dom h) in Some (<[l := c]> h, l).

Fixpoint map_mem {A B} (f : A -> mem B) (xs : list A) : mem (list B) :=
  match xs with
  | [] => mret []
  | x :: xs' => y ← f x; ys ← map_mem f xs'; mret (y :: ys)
  end.

(** A function from the value that [in] points to, to the value written to [out]. *)
Abbreviation copier := (gval -> mem gval).

(** A field of pointer type: when it is not nil, a new variable that gets the deep copy
    of the old one; with [mret], a copy of it. *)
Definition copy_new (c : copier) : copier := fun v =>
  match v with
  | GPtr None => mret (GPtr None)
  | GPtr (Some l) =>
      x ← load l;
      match x with
      | CVal x => y ← c x; l' ← alloc (CVal y); mret (GPtr (Some l'))
      | _ => fault
      end
  | _ => fault
  end.

(** A field of slice type: when it is not nil, a new slice of the same length that gets
    the copies of the items. *)
Definition copy_make (c : copier) : copier := fun v =>
  match v with
  | GSlice None => mret (GSlice None)
  | GSlice (Some (l, off, len)) =>
      x ← load l;
      match x with
      | CArray vs =>
          ys ← map_mem c (take len (drop off vs));
          l' ← alloc (CArray ys); mret (GSlice (Some (l', 0%nat, length ys)))
      | _ => fault
      end
  | _ => fault
  end.

(** A field of map type: when it is not nil, a new map that gets the copies of the values. *)
Definition copy_map (c : copier) : copier := fun v =>
  match v with
  | GMap None => mret (GMap None)
  | GMap (Some l) =>
      x ← load l;
      match x with
      | CMap kvs =>
          ys ← map_mem (fun '(k, x) => y ← c x; mret (k, y)) (map_to_list kvs);
          l' ← alloc (CMap (list_to_map ys)); mret (GMap (Some l'))
      | _ => fault
      end
  | _ => fault
  end.

(** The assignment of the field [n] of the copy. *)
Fixpoint copy_field (n : string) (c : copier) (fields : list (string * gval))
  : mem (list (string * gval)) :=
  match fields with
  | [] => fault
  | (n', v) :: fields' =>
      if n' =?s n then v' ← c v; mret ((n', v') :: fields')
      else fields'' ← copy_field n c fields'; mret ((n', v) :: fields'')
  end.

(** The copy of the struct itself, followed by the assignments of fields, in order. *)
Fixpoint copy_fields (cs : list (string * copier)) (fields : list (string * gval))
  : mem (list (string * gval)) :=
  match cs with
  | [] => mret fields
  | (n, c) :: cs' => fields' ← copy_field n c fields; copy_fields cs' fields'
  end.

Definition copy_struct (cs : list (string * copier)) : copier := fun v =>
  match v with
  | GStruct fields => fields' ← copy_fields cs fields; mret (GStruct fields')
  | _ => fault
  end.

(** [DeepCopy] on a pointer, given [DeepCopyInto]. *)
Definition deep_copy (into : copier) (p : option loc) : mem (option loc) :=
  match p with
  | None => mret None
  | Some l =>
      x ← load l;
      match x with
      | CVal x => y ← into x; l' ← alloc (CVal y); mret (Some l')
      | _ => fault
      end
  end.

(** [*v.DeepCopy()] for a variable [v] of a loop. *)
Definition copy_value (dc : option loc -> mem (option loc)) : copier := fun v =>
  l ← alloc (CVal v);
  p ← dc (Some l);
  match p with
  | None => fault
  | Some l' => x ← load l'; match x with CVal x => mret x | _ => fault end
  end.

(** A value of interface type: nil, or a pointer with its dynamic type.  An interface
    that holds a nil pointer is not nil. *)
Abbreviation iface := (option (string * option loc)).

(** [DeepCopyObject], given [DeepCopy]. *)
Definition copy_object (kind : string) (dc : option loc -> mem (option loc)) (p : option loc) : mem iface :=
  c ← dc p;
  match c with
  | Some l => mret (Some (kind, Some l))
  | None => mret None
  end.

(** ** Types *)

Inductive ty :=
| TString
| TBool
| TInt
| TPtr (t : ty)
| TSlice (t : ty)
| TMap (t : ty)
| TStruct (fields : list (string * ty)).

(** Values of the type hold no location. *)
Fixpoint flat (t : ty) : bool :=
  match t with
  | TString | TBool | TInt => true
  | TPtr _ | TSlice _ | TMap _ => false
  | TStruct fields => forallb (fun nt => flat nt.2) fields
  end.

(** The value [v] of type [t] in [h] and the value [v'] in [h'] have the same data, the
    locations of [v'] being among [F]. *)
Fixpoint same_data (F : loc -> Prop) (t : ty) (h : heap) (v : gval) (h' : heap) (v' : gval) : Prop :=
  match t with
  | TString => exists s, v = GString s /\ v' = GString s
  | TBool => exists b, v = GBool b /\ v' = GBool b
  | TInt => exists n, v = GInt n /\ v' = GInt n
  | TPtr t =>
      (v = GPtr None /\ v' = GPtr None) \/
      exists l l' x x', v = GPtr (Some l) /\ v' = GPtr (Some l') /\ F l' /\
        h !! l = Some (CVal x) /\ h' !! l' = Some (CVal x') /\ same_data F t h x h' x'
  | TSlice t =>
      (v = GSlice None /\ v' = GSlice None) \/
      exists l off len l' off' xs xs', v = GSlice (Some (l, off, len)) /\
        v' = GSlice (Some (l', off', len)) /\ F l' /\
        h !! l = Some (CArray xs) /\ h' !! l' = Some (CArray xs') /\
        (off + len <= length xs)%nat /\ (off' + len <= length xs')%nat /\
        Forall2 (fun x x' => same_data F t h x h' x') (take len (drop off xs)) (take len (drop off' xs'))
  | TMap t =>
      (v = GMap None /\ v' = GMap None) \/
      exists l l' kvs kvs', v = GMap (Some l) /\ v' = GMap (Some l') /\ F l' /\
        h !! l = Some (CMap kvs) /\ h' !! l' = Some (CMap kvs') /\
        forall k, match kvs !! k, kvs' !! k with
          | Some x, Some x' => same_data F t h x h' x'
          | None, None => True
          | _, _ => False
          end
  | TStruct fields =>
      exists vs vs', v = GStruct vs /\ v' = GStruct vs' /\
        (fix go fields vs vs' := match fields, vs, vs' with
          | [], [], [] => True
          | (n, t) :: fields, (n1, x) :: vs, (n2, x') :: vs' =>
              n1 = n /\ n2 = n /\ same_data F t h x h' x' /\ go fields vs vs'
          | _, _, _ => False
          end) fields vs vs'
  end.

(** The values of a type, and deep copies: the locations of a copy are its own. *)
Definition well_typed (t : ty) (h : heap) (v : gval) : Prop := same_data (fun _ => True) t h v h v.

Definition copies (t : ty) (h : heap) (v : gval) (h' : heap) (v' : gval) : Prop :=
  same_data (fun l => l ∉ dom h) t h v h' v'.

(** ** The relation between a value and its copy *)

Lemma ty_nested_ind (P : ty -> Prop) :
  P TString -> P TBool -> P TInt -> (forall t, P t -> P (TPtr t)) -> (forall t, P t -> P (TSlice t)) ->
  (forall t, P t -> P (TMap t)) ->
  (forall fields, Forall (fun nt => P nt.2) fields -> P (TStruct fields)) -> forall t, P t.
Proof.
  intros Hs Hb Hi Hp Hsl Hm Hst. fix IH 1. intros []; [done|done|done| | | |].
  - apply Hp, IH.
  - apply Hsl, IH.
  - apply Hm, IH.
  - apply Hst. induction fields as [|[n t] fields IHf]; constructor; [apply IH|exact IHf].
Qed.

(** The fields of a struct, one by one. *)
Inductive fields_related (R : string * ty -> gval -> gval -> Prop) :
  list (string * ty) -> list (string * gval) -> list (string * gval) -> Prop :=
| FNil : fields_related R [] [] []
| FCons n t fields x x' vs vs' :
    R (n, t) x x' -> fields_related R fields vs vs' ->
    fields_related R ((n, t) :: fields) ((n, x) :: vs) ((n, x') :: vs').

Lemma same_data_struct F fields h v h' v' :
  same_data F (TStruct fields) h v h' v' <->
  exists vs vs', v = GStruct vs /\ v' = GStruct vs' /\
    fields_related (fun nt x x' => same_data F nt.2 h x h' x') fields vs vs'.
Proof.
  cbn [same_data]. split; intros (vs & vs' & -> & -> & H); exists vs, vs'; (split; [done|]); (split; [done|]).
  - revert vs vs' H. induction fields as [|[n t] fields IH]; intros [|[n1 x] vs] [|[n2 x'] vs'] H;
      try done; [constructor|]. destruct H as (-> & -> & Hx & H). constructor; auto.
  - induction H as [|n t fields x x' vs vs' Hx _ IH]; [done|]. by split_and!.
Qed.

Lemma fields_related_impl (R R' : string * ty -> gval -> gval -> Prop) fields vs vs' :
  Forall (fun nt => forall x x', R nt x x' -> R' nt x x') fields ->
  fields_related R fields vs vs' -> fields_related R' fields vs vs'.
Proof.
  intros HR H. induction H as [|n t fields x x' vs vs' Hx _ IH]; [constructor|].
  apply Forall_cons in HR as [Ht HR]. constructor; [by apply Ht|by apply IH].
Qed.

(** A struct and itself. *)
Lemma fields_related_diag (R R' : string * ty -> gval -> gval -> Prop) fields vs :
  (forall nt x, nt ∈ fields -> R nt x x -> R' nt x x) ->
  fields_related R fields vs vs -> fields_related R' fields vs vs.
Proof.
  revert vs. induction fields as [|nt fields IH]; intros vs HR H; inversion H; subst; constructor.
  - by apply HR; [left|].
  - apply IH; [|done]. intros nt' y Hin. apply HR. by right.
Qed.

(** What the relation depends on: what is at the locations of the left value, and at those
    of [F] on the right. *)
Lemma same_data_mono (F F' : loc -> Prop) t h h1 h' h1' v v' :
  (forall l, F l -> F' l) ->
  (forall l c, h !! l = Some c -> h1 !! l = Some c) ->
  (forall l c, F l -> h' !! l = Some c -> h1' !! l = Some c) ->
  same_data F t h v h' v' -> same_data F' t h1 v h1' v'.
Proof.
  intros HF Hl Hr. revert v v'. induction t as [| | |t IH|t IH|t IH|fields IH] using ty_nested_ind;
    intros v v'; try done.
  - intros [?|(l & l' & x & x' & -> & -> & HFl & Hx & Hx' & H)]; [by left|right].
    exists l, l', x, x'. split_and!; auto.
  - intros [?|(l & off & len & l' & off' & xs & xs' & -> & -> & HFl & Hx & Hx' & ? & ? & H)]; [by left|right].
    exists l, off, len, l', off', xs, xs'. split_and!; auto. eapply Forall2_impl; [exact H|]. auto.
  - intros [?|(l & l' & kvs & kvs' & -> & -> & HFl & Hx & Hx' & H)]; [by left|right].
    exists l, l', kvs, kvs'. split_and!; auto. intros k. specialize (H k).
    destruct (kvs !! k), (kvs' !! k); auto.
  - rewrite !same_data_struct. intros (vs & vs' & -> & -> & H). exists vs, vs'. split_and!; [done|done|].
    eapply fields_related_impl; [|exact H]. eapply Forall_impl; [exact IH|]. cbn. auto.
Qed.

(** A value of a heap is the same in a larger one. *)
Lemma well_typed_mono t h h' v : h ⊆ h' -> well_typed t h v -> well_typed t h' v.
Proof. intros Hsub. apply same_data_mono; [done|..]; eauto using lookup_weaken. Qed.

(** A copy made from a larger heap is a copy in the smaller one. *)
Lemma same_data_restrict F t h h1 h' v v' :
  h ⊆ h1 -> well_typed t h v -> same_data F t h1 v h' v' -> same_data F t h v h' v'.
Proof.
  intros Hsub. assert (forall l c c1, h !! l = Some c -> h1 !! l = Some c1 -> c1 = c) as Hsame.
  { intros l c c1 H H1. apply (lookup_weaken _ _ _ _ H) in Hsub. congruence. }
  unfold well_typed. revert v v'.
  induction t as [| | |t IH|t IH|t IH|fields IH] using ty_nested_ind; intros v v'; try done.
  - intros [[-> _]|(l & ? & x & ? & -> & [= <-] & _ & Hx & Hx1 & Ht)].
    + intros [?|(? & ? & ? & ? & ? & _)]; [by left|done].
    + intros [[? _]|(? & l' & x2 & x' & [= <-] & -> & HF & Hx2 & Hx' & H)]; [done|].
      specialize (Hsame _ _ _ Hx Hx2) as [= ->]. rewrite Hx in Hx1. injection Hx1 as <-.
      right. exists l, l', x, x'. split_and!; auto.
  - intros [[-> _]|(l & off & len & ? & ? & xs & ? & -> & [= <- <-] & _ & Hx & Hx1 & Hb & _ & Ht)].
    + intros [?|(? & ? & ? & ? & ? & ? & ? & ? & _)]; [by left|done].
    + intros [[? _]|(? & ? & ? & l' & off' & xs1 & xs' & [= <- <- <-] & -> & HF & Hx2 & Hx' & Hb1 & Hb' & H)]; [done|].
      specialize (Hsame _ _ _ Hx Hx2) as [= ->]. rewrite Hx in Hx1. injection Hx1 as <-.
      right. exists l, off, len, l', off', xs, xs'. split_and!; auto.
      revert Ht H. generalize (take len (drop off xs)), (take len (drop off' xs')). intros ys ys' Ht H.
      revert Ht. induction H as [|y y' ys ys' Hy _ IHy]; [constructor|]. inversion 1; subst.
      constructor; auto.
  - intros [[-> _]|(l & ? & kvs & ? & -> & [= <-] & _ & Hx & Hx1 & Ht)].
    + intros [?|(? & ? & ? & ? & ? & _)]; [by left|done].
    + intros [[? _]|(? & l' & kvs1 & kvs' & [= <-] & -> & HF & Hx2 & Hx' & H)]; [done|].
      specialize (Hsame _ _ _ Hx Hx2) as [= ->]. rewrite Hx in Hx1. injection Hx1 as <-.
      right. exists l, l', kvs, kvs'. split_and!; auto. intros k. specialize (H k). specialize (Ht k).
      destruct (kvs !! k), (kvs' !! k); auto.
  - rewrite !same_data_struct. intros (vs & vs0 & -> & [= <-] & Ht) (vs1 & vs' & [= <-] & -> & Hvs).
    exists vs, vs'. split_and!; [done|done|]. revert Ht.
    induction Hvs as [|n t fields x x' vs vs' Hx _ IHf]; [constructor|].
    apply Forall_cons in IH as [IHt IH]. inversion 1; subst. constructor; auto.
Qed.

(** ** Copiers *)

(** A copier of a type makes deep copies of the values of the type and writes to new
    locations only. *)
Class Copier (c : copier) (t : ty) : Prop :=
  copier_spec : forall h v, well_typed t h v ->
    exists h' v', c v h = Some (h', v') /\ h ⊆ h' /\ copies t h v h' v'.

(** The same for a function on pointers. *)
Class PtrCopier (f : option loc -> mem (option loc)) (t : ty) : Prop :=
  ptr_copier_spec : forall h p, well_typed (TPtr t) h (GPtr p) ->
    exists h' p', f p h = Some (h', p') /\ h ⊆ h' /\ copies (TPtr t) h (GPtr p) h' (GPtr p').

Lemma copies_grow t h v h' h'' v' : h' ⊆ h'' -> copies t h v h' v' -> copies t h v h'' v'.
Proof. intros Hsub. apply same_data_mono; eauto using lookup_weaken. Qed.

Lemma copies_restrict t h h1 h' v v' :
  h ⊆ h1 -> well_typed t h v -> copies t h1 v h' v' -> copies t h v h' v'.
Proof.
  intros Hsub Ht H. apply (same_data_restrict _ _ _ h1); [done|done|].
  eapply same_data_mono, H; [|done|done]. intros l Hl Hin. apply Hl.
  by apply (subseteq_dom _ _ Hsub).
Qed.

(** A copier run in a later heap. *)
Lemma copier_later `{!Copier c t} h h1 v : h ⊆ h1 -> well_typed t h v ->
  exists h' v', c v h1 = Some (h', v') /\ h1 ⊆ h' /\ copies t h v h' v'.
Proof.
  intros Hsub Ht. destruct (copier_spec h1 v) as (h' & v' & Hc & Hsub' & H).
  { eapply well_typed_mono, Ht. done. }
  exists h', v'. eauto using copies_restrict.
Qed.

Lemma fresh_loc (h : heap) : h !! fresh (dom h) = None.
Proof. apply not_elem_of_dom, is_fresh. Qed.

Lemma alloc_subseteq c (h : heap) : h ⊆ <[fresh (dom h) := c]> h.
Proof. apply insert_subseteq, fresh_loc. Qed.

Lemma fresh_later (h h' : heap) : h ⊆ h' -> fresh (dom h') ∉ dom h.
Proof. intros Hsub Hin. by apply (is_fresh (dom h')), (subseteq_dom _ _ Hsub). Qed.

(** Values without locations. *)
Lemma flat_same_data t : flat t = true -> forall F h h' v, well_typed t h v -> same_data F t h v h' v.
Proof.
  induction t as [| | | | | |fields IH] using ty_nested_ind; intros Hflat F h h' v; try done.
  cbn [flat] in Hflat. rewrite forallb_forall in Hflat. unfold well_typed. rewrite !same_data_struct.
  intros (vs & ws & -> & E & H). injection E as <-. exists vs, vs. split_and!; [done|done|].
  eapply fields_related_diag, H. intros nt x Hin Hx. rewrite Forall_forall in IH.
  apply IH; [done| |done]. by apply Hflat, list_elem_of_In.
Qed.

Lemma flat_copier t : flat t = true -> Copier mret t.
Proof. intros Hf h v Ht. exists h, v. split_and!; [done|done|by apply flat_same_data]. Qed.

#[export] Instance copy_new_copier c t : Copier c t -> Copier (copy_new c) (TPtr t).
Proof.
  intros Hc h v [[-> _]|(l & ? & x & ? & -> & [= <-] & _ & Hx & Hx1 & Ht)].
  { exists h, (GPtr None). split_and!; [done|done|by left]. }
  rewrite Hx in Hx1. injection Hx1 as <-. destruct (copier_spec h x Ht) as (h' & y & Hcx & Hsub & Hy).
  eexists _, _. cbn [copy_new]. unfold mbind, mem_bind, load. rewrite Hx, Hcx. split; [done|].
  split; [etrans; [exact Hsub|apply alloc_subseteq]|]. right. eexists l, _, x, y.
  split_and!; [done|done|by apply fresh_later|done|apply lookup_insert_eq|].
  eapply copies_grow, Hy. apply alloc_subseteq.
Qed.

(** The items of a slice or a map, one after the other: the copies that were made first
    stay copies while the others are made. *)
Lemma map_mem_spec {A B} (f : A -> mem B) (W : A -> Prop) (R : A -> heap -> B -> Prop) h xs :
  (forall x h' h'' y, h' ⊆ h'' -> R x h' y -> R x h'' y) ->
  (forall x h1, W x -> h ⊆ h1 -> exists h' y, f x h1 = Some (h', y) /\ h1 ⊆ h' /\ R x h' y) ->
  Forall W xs -> forall h1, h ⊆ h1 ->
  exists h' ys, map_mem f xs h1 = Some (h', ys) /\ h1 ⊆ h' /\ Forall2 (fun x y => R x h' y) xs ys.
Proof.
  intros Hmono Hf Hxs. induction Hxs as [|x xs Hx _ IH]; intros h1 Hsub.
  { exists h1, []. by split_and!. }
  destruct (Hf x h1 Hx Hsub) as (h2 & y & Hy & Hsub2 & HR).
  destruct (IH h2) as (h' & ys & Hys & Hsub' & HRs); [by etrans|].
  exists h', (y :: ys). cbn [map_mem]. unfold mbind, mem_bind. rewrite Hy, Hys.
  split; [done|]. split; [by etrans|]. constructor; [by eapply Hmono, HR|done].
Qed.

Lemma Forall2_same_inv {A} (R : A -> A -> Prop) xs : Forall2 R xs xs -> Forall (fun x => R x x) xs.
Proof. induction xs; [constructor|]. inversion 1; subst. constructor; auto. Qed.

#[export] Instance copy_make_copier c t : Copier c t -> Copier (copy_make c) (TSlice t).
Proof.
  intros Hc h v [[-> _]|(l & off & len & ? & ? & xs & ? & -> & [= <- <-] & _ & Hx & Hx1 & Hb & _ & Ht)].
  { exists h, (GSlice None). split_and!; [done|done|by left]. }
  rewrite Hx in Hx1. injection Hx1 as <-.
  destruct (map_mem_spec c (well_typed t h) (fun x h' y => copies t h x h' y) h (take len (drop off xs)))
    with (h1 := h) as (h' & ys & Hys & Hsub & HR); [by eauto using copies_grow| |exact (Forall2_same_inv _ _ Ht)|done|].
  { intros x h1 Hw Hsub. by apply copier_later. }
  eexists _, _. cbn [copy_make]. unfold mbind, mem_bind, load. rewrite Hx, Hys. split; [done|].
  split; [etrans; [exact Hsub|apply alloc_subseteq]|]. right.
  assert (length ys = len) as Hlen.
  { apply Forall2_length in HR. rewrite <-HR, length_take, length_drop. lia. }
  rewrite Hlen. eexists l, off, len, _, 0%nat, xs, ys.
  split_and!; [done|done|by apply fresh_later|done|apply lookup_insert_eq|done|lia|].
  rewrite drop_0, (take_ge ys) by lia. eapply Forall2_impl; [exact HR|].
  intros. eapply copies_grow; [apply alloc_subseteq|done].
Qed.

(** Maps built from lists with the same keys. *)
Lemma list_to_map_related (R : gval -> gval -> Prop) (kvs kvs' : list (string * gval)) k :
  Forall2 (fun kv kv' => kv.1 = kv'.1 /\ R kv.2 kv'.2) kvs kvs' ->
  match (list_to_map kvs : gmap string gval) !! k, (list_to_map kvs' : gmap string gval) !! k with
  | Some x, Some x' => R x x'
  | None, None => True
  | _, _ => False
  end.
Proof.
  induction 1 as [|[k1 x] [k2 x'] kvs kvs' [E Hx] _ IH]; cbn in *; [by rewrite !lookup_empty|].
  subst k2. destruct (decide (k1 = k)) as [->|Hne]; [by rewrite !lookup_insert_eq|].
  by rewrite !lookup_insert_ne.
Qed.

#[export] Instance copy_map_copier c t : Copier c t -> Copier (copy_map c) (TMap t).
Proof.
  intros Hc h v [[-> _]|(l & ? & kvs & ? & -> & [= <-] & _ & Hx & Hx1 & Ht)].
  { exists h, (GMap None). split_and!; [done|done|by left]. }
  rewrite Hx in Hx1. injection Hx1 as <-.
  destruct (map_mem_spec (fun '(k, x) => y ← c x; mret (k, y)) (fun kv => well_typed t h kv.2)
    (fun kv h' kv' => kv.1 = kv'.1 /\ copies t h kv.2 h' kv'.2) h (map_to_list kvs))
    with (h1 := h) as (h' & ys & Hys & Hsub & HR); [| | |done|].
  { intros x h' h'' y Hsub [? ?]. eauto using copies_grow. }
  { intros [k x] h1 Hw Hsub. destruct (copier_later (t := t) h h1 x Hsub Hw) as (h' & y & Hy & Hsub' & H).
    exists h', (k, y). unfold mbind, mem_bind. by rewrite Hy. }
  { apply Forall_forall. intros [k x] Hkx. apply elem_of_map_to_list in Hkx. specialize (Ht k).
    by rewrite Hkx in Ht. }
  eexists _, _. cbn [copy_map]. unfold mbind, mem_bind, load in *. rewrite Hx, Hys. split; [done|].
  split; [etrans; [exact Hsub|apply alloc_subseteq]|]. right. eexists l, _, kvs, (list_to_map ys).
  split_and!; [done|done|by apply fresh_later|done|apply lookup_insert_eq|]. intros k.
  pose proof (list_to_map_related (fun x y => copies t h x h' y) _ _ k HR) as Hk.
  rewrite list_to_map_to_list in Hk. destruct (kvs !! k), ((list_to_map ys : gmap string gval) !! k); try done.
  eapply copies_grow, Hk. apply alloc_subseteq.
Qed.

(** ** Structs *)

(** The assignment of one field: the others are as they were. *)
Lemma copy_field_spec (R : string * ty -> gval -> gval -> Prop)
    (R' : heap -> string * ty -> gval -> gval -> Prop) n c h fields vs vs' :
  fields_related R fields vs vs' -> NoDup fields.*1 -> n ∈ fields.*1 ->
  (forall t x x', (n, t) ∈ fields -> R (n, t) x x' ->
    exists h2 y, c x' h = Some (h2, y) /\ h ⊆ h2 /\ R' h2 (n, t) x y) ->
  (forall h2 m t x x', h ⊆ h2 -> m ≠ n -> R (m, t) x x' -> R' h2 (m, t) x x') ->
  exists h2 vs2, copy_field n c vs' h = Some (h2, vs2) /\ h ⊆ h2 /\ fields_related (R' h2) fields vs vs2.
Proof.
  intros H Hnd Hin Hstep Hframe. induction H as [|m t fields x x' vs vs' Hx Hvs IH]; [by apply elem_of_nil in Hin|].
  cbn in Hnd, Hin. apply NoDup_cons in Hnd as [Hm Hnd]. cbn [copy_field].
  destruct (String.eqb_spec m n) as [->|Hne].
  - destruct (Hstep t x x') as (h2 & y & Hy & Hsub & HR); [by left|done|].
    exists h2, ((n, y) :: vs'). unfold mbind, mem_bind. rewrite Hy. split; [done|]. split; [done|].
    constructor; [done|]. clear IH Hstep Hin Hnd Hx. induction Hvs as [|m t' fields z z' vs vs' Hz _ IHv]; [constructor|].
    cbn in Hm. constructor.
    + apply Hframe; [done| |done]. intros ->. apply Hm. by left.
    + apply IHv. intros Hi. apply Hm. by right.
  - apply elem_of_cons in Hin as [Hin|Hin]; [congruence|].
    destruct IH as (h2 & vs2 & Hc & Hsub & HR); [done|done| |].
    { intros t' z z' Hz. apply Hstep. by right. }
    exists h2, ((m, x') :: vs2). unfold mbind, mem_bind. rewrite Hc. split; [done|]. split; [done|].
    constructor; auto.
Qed.

(** A struct under assignment: the fields of [todo] still hold what [*out = *in] left. *)
Definition assigning (h : heap) (todo : list string) (h1 : heap) (nt : string * ty) (x x' : gval) : Prop :=
  well_typed nt.2 h x /\ if decide (nt.1 ∈ todo) then x' = x else copies nt.2 h x h1 x'.

Lemma copy_fields_spec h cs fields vs :
  NoDup fields.*1 -> NoDup cs.*1 ->
  Forall (fun nc => exists t, (nc.1, t) ∈ fields /\ Copier nc.2 t) cs ->
  forall h1 vs1, h ⊆ h1 -> fields_related (assigning h cs.*1 h1) fields vs vs1 ->
  exists h' vs', copy_fields cs vs1 h1 = Some (h', vs') /\ h1 ⊆ h' /\
    fields_related (fun nt x x' => copies nt.2 h x h' x') fields vs vs'.
Proof.
  intros Hnd. induction cs as [|[n c] cs IH]; intros Hcs Hc h1 vs1 Hsub H.
  { exists h1, vs1. split_and!; [done|done|]. eapply fields_related_impl, H.
    apply Forall_forall. intros nt _ x x' [_ Hx]. by rewrite decide_False in Hx by apply not_elem_of_nil. }
  cbn in Hcs. apply NoDup_cons in Hcs as [Hn Hcs]. apply Forall_cons in Hc as [(t & Hin & Ht) Hc].
  cbn in Hin, Ht.
  destruct (copy_field_spec _ (assigning h cs.*1) n c h1 fields vs vs1 H) as (h2 & vs2 & Hf & Hsub2 & H2).
  - done.
  - apply list_elem_of_fmap. by exists (n, t).
  - intros t' x x' Hin' [Hw E]. rewrite decide_True in E by (by left). cbn in *. subst x'.
    assert (t' = t) as ->.
    { apply (elem_of_list_to_map_1 (M := gmap string)) in Hin, Hin'; [|done..]. congruence. }
    destruct (copier_later (t := t) h h1 x Hsub Hw) as (h2 & y & Hy & Hsub2 & Hcp).
    exists h2, y. split_and!; [done|done|]. split; [done|]. by rewrite decide_False.
  - intros h2 m t' x x' Hsub2 Hne [Hw E]. split; [done|]. cbn in *.
    destruct (decide (m ∈ cs.*1)) as [Hm|Hm]; [by rewrite decide_True in E by (by right)|].
    rewrite decide_False in E; [by eapply copies_grow, E|]. by intros [|]%elem_of_cons.
  - destruct (IH Hcs Hc h2 vs2) as (h' & vs' & Hfs & Hsub' & H'); [by etrans|done|].
    exists h', vs'. cbn [copy_fields]. unfold mbind, mem_bind. rewrite Hf, Hfs.
    split_and!; [done|by etrans|done].
Qed.

(** What a struct's copier must assign: the fields that hold locations. *)
Definition struct_ok (cs : list (string * copier)) (fields : list (string * ty)) : bool :=
  bool_decide (NoDup fields.*1) && bool_decide (NoDup cs.*1) &&
  forallb (fun nt => bool_decide (nt.1 ∈ cs.*1) || flat nt.2) fields.

Lemma copy_struct_copier cs fields :
  struct_ok cs fields = true ->
  Forall (fun nc => exists t, (nc.1, t) ∈ fields /\ Copier nc.2 t) cs ->
  Copier (copy_struct cs) (TStruct fields).
Proof.
  unfold struct_ok. rewrite !andb_true_iff, !bool_decide_eq_true, forallb_forall.
  intros [[Hnd Hcs] Hflat] Hc h v H. apply same_data_struct in H as (vs & ws & -> & E & H).
  injection E as E. destruct (copy_fields_spec h cs fields vs Hnd Hcs Hc h vs) as (h' & vs' & Hf & Hsub & H'); [done| |].
  - rewrite <-E in H. eapply fields_related_diag; [|exact H]. intros nt x Hin Hx. split; [done|].
    destruct (decide _) as [|Hni]; [done|]. apply flat_same_data; [|done].
    apply list_elem_of_In, Hflat, orb_true_iff in Hin as [Hn|Hn]; [by apply bool_decide_eq_true in Hn|done].
  - exists h', (GStruct vs'). cbn [copy_struct]. unfold mbind, mem_bind. rewrite Hf.
    split_and!; [done|done|]. apply same_data_struct. eauto 6.
Qed.

(** ** Pointers *)

#[export] Instance deep_copy_copier c t : Copier c t -> PtrCopier (deep_copy c) t.
Proof.
  intros Hc h p H. destruct (copy_new_copier c t Hc h _ H) as (h' & v' & Hn & Hsub & Hcp).
  destruct Hcp as [[E ->]|(l & l' & x & x' & E & -> & Hcp)]; injection E as ->.
  - injection Hn as <-. exists h, None. split_and!; [done|done|by left].
  - exists h', (Some l'). split_and!; [|done|right; eauto 10].
    cbn [copy_new deep_copy] in *. unfold mbind, mem_bind, load in *.
    destruct (h !! l) as [[y| |]|]; [|done..]. destruct (c y h) as [[h1 z]|]; [|done].
    by injection Hn as <- <-.
Qed.

#[export] Instance copy_value_copier dc t : PtrCopier dc t -> Copier (copy_value dc) t.
Proof.
  intros Hdc h v Hv. set (l := fresh (dom h)). set (h1 := <[l := CVal v]> h).
  pose proof (alloc_subseteq (CVal v) h : h ⊆ h1) as Hsub. pose proof (well_typed_mono _ _ _ _ Hsub Hv) as Hv1.
  destruct (ptr_copier_spec (t := t) h1 (Some l)) as (h' & p' & Hp & Hsub' & Hcp).
  { right. exists l, l, v, v. split_and!; auto; apply lookup_insert_eq. }
  destruct Hcp as [[? _]|(l0 & l' & x & x' & [= <-] & [= ->] & _ & Hx & Hx' & Hcp)]; [done|].
  unfold h1 in Hx. rewrite lookup_insert_eq in Hx. injection Hx as <-.
  exists h', x'. cbn [copy_value]. unfold copy_value, mbind, mem_bind, alloc, load. fold l h1.
  rewrite Hp, Hx'. split_and!; [done|by etrans|]. by apply (copies_restrict _ _ h1).
Qed.

Lemma copy_object_spec kind dc t `{!PtrCopier dc t} h l : well_typed (TPtr t) h (GPtr (Some l)) ->
  exists h' l', copy_object kind dc (Some l) h = Some (h', Some (kind, Some l')) /\ h ⊆ h' /\
    copies (TPtr t) h (GPtr (Some l)) h' (GPtr (Some l')).
Proof.
  intros Hl. destruct (ptr_copier_spec (t := t) h _ Hl) as (h' & p' & Hp & Hsub & Hcp).
  destruct Hcp as [[? _]|(l0 & l' & x & x' & E & [= ->] & Hcp)]; [done|]. exists h', l'.
  unfold copy_object, mbind, mem_bind. rewrite Hp. split_and!; [done|done|]. right; eauto 10.
Qed.

(** What becomes of the original afterwards does not reach the copy. *)
Lemma copies_survive t h v h' h2 v' :
  (forall l, l ∉ dom h -> h2 !! l = h' !! l) -> copies t h v h' v' -> copies t h v h2 v'.
Proof. intros H2. apply same_data_mono; [done|done|]. intros l c Hl Hc. by rewrite H2. Qed.

(** ** Deciding that a value is of a type *)

Fixpoint typed (h : heap) (t : ty) (v : gval) : bool :=
  match t, v with
  | TString, GString _ | TBool, GBool _ | TInt, GInt _ => true
  | TPtr _, GPtr None | TSlice _, GSlice None | TMap _, GMap None => true
  | TPtr t, GPtr (Some l) => match h !! l with Some (CVal x) => typed h t x | _ => false end
  | TSlice t, GSlice (Some (l, off, len)) =>
      match h !! l with
      | Some (CArray xs) => (off + len <=? length xs)%nat && forallb (typed h t) (take len (drop off xs))
      | _ => false
      end
  | TMap t, GMap (Some l) =>
      match h !! l with
      | Some (CMap kvs) => forallb (fun kv => typed h t kv.2) (map_to_list kvs)
      | _ => false
      end
  | TStruct fields, GStruct vs =>
      (fix go fields vs := match fields, vs with
        | [], [] => true
        | (n, t) :: fields, (n1, x) :: vs => (n1 =? n)%string && typed h t x && go fields vs
        | _, _ => false
        end) fields vs
  | _, _ => false
  end.

Lemma typed_sound h t v : typed h t v = true -> well_typed t h v.
Proof.
  unfold well_typed. revert v. induction t as [| | |t IH|t IH|t IH|fields IH] using ty_nested_ind;
    intros [s|b|n|[l|]|[[[l off] len]|]|[l|]|vs] H; cbn [typed] in H; try done; cbn [same_data]; eauto.
  - destruct (h !! l) as [[x| |]|] eqn:Hx; try done. right. eexists l, l, x, x. split_and!; auto.
  - destruct (h !! l) as [[|xs|]|] eqn:Hx; try done. right.
    apply andb_prop in H as [Hb%Nat.leb_le H]. exists l, off, len, l, off, xs, xs. split_and!; auto.
    rewrite forallb_forall in H. apply Forall_Forall2_diag, Forall_forall. intros y Hy.
    by apply IH, H, list_elem_of_In.
  - destruct (h !! l) as [[| |kvs]|] eqn:Hx; try done. right. exists l, l, kvs, kvs. split_and!; auto.
    intros k. destruct (kvs !! k) as [x|] eqn:Hk; [|done]. rewrite forallb_forall in H.
    apply IH, (H (k, x)), list_elem_of_In. by apply elem_of_map_to_list.
  - apply same_data_struct. exists vs, vs. split_and!; [done|done|]. revert vs H.
    induction IH as [|[n t] fields Ht _ IHf]; intros [|[n1 x] vs] H; try done; [constructor|].
    apply andb_prop in H as [[->%String.eqb_eq H]%andb_prop Hvs]. constructor; [by apply Ht|by apply IHf].
Qed.
