(* ===== verification/DeepCopy.v ===== *)
(** * The deep copies ([api/v1beta1/zz_generated.deepcopy.go], [*_types.go])

    Every type of the API as a type of Go data, its generated methods, and the proof
    that they copy deep. *)

From S2P Require Import Prelude Heap.
#[local] Open Scope caps_scope.
#[local] Set Warnings "-register-all".

(** ** The metadata and the failure domains of the API machinery *)

(** Types of other packages, with their own [DeepCopyInto] and [DeepCopy]. *)
Class MetaLib := {
  ObjectMeta_ty : ty;
  ObjectMeta_DeepCopyInto : copier;
  ListMeta_ty : ty;
  ListMeta_DeepCopyInto : copier;
  FailureDomainSpec_ty : ty;
  FailureDomainSpec_DeepCopy : option loc -> mem (option loc);
}.

Class MetaLaws `{MetaLib} : Prop := {
  ObjectMeta_copier :: Copier ObjectMeta_DeepCopyInto ObjectMeta_ty;
  ListMeta_copier :: Copier ListMeta_DeepCopyInto ListMeta_ty;
  FailureDomainSpec_copier :: PtrCopier FailureDomainSpec_DeepCopy FailureDomainSpec_ty;
}.

(** Their plain data. *)
Definition TypeMeta_ty : ty := TStruct [("Kind", TString); ("APIVersion", TString)].
Definition APIEndpoint_ty : ty := TStruct [("Host", TString); ("Port", TInt)].
Definition MachineAddress_ty : ty := TStruct [("Type", TString); ("Address", TString)].

Section api.
Context `{MetaLib}.

(** ** The types *)

Definition PrivateNetworkSpec_ty : ty :=
  TStruct [("Enabled", TBool); ("ID", TPtr TString); ("Subnet", TPtr TString)].

Definition PublicGatewaySpec_ty : ty :=
  TStruct [("Enabled", TBool); ("ID", TPtr TString); ("Type", TPtr TString);
    ("IP", TPtr TString); ("Zone", TPtr TString)].

Definition SecurityGroupRule_ty : ty :=
  TStruct [("Action", TString); ("Protocol", TPtr TString); ("Ports", TPtr TString);
    ("IPRange", TPtr TString)].

Definition SecurityGroupPolicy_ty : ty :=
  TStruct [("Default", TPtr TString); ("Rules", TSlice SecurityGroupRule_ty)].

Definition SecurityGroup_ty : ty :=
  TStruct [("Name", TString); ("Inbound", TPtr SecurityGroupPolicy_ty);
    ("Outbound", TPtr SecurityGroupPolicy_ty)].

Definition NetworkSpec_ty : ty :=
  TStruct [("PrivateNetwork", TPtr PrivateNetworkSpec_ty);
    ("PublicGateway", TPtr PublicGatewaySpec_ty); ("SecurityGroups", TSlice SecurityGroup_ty)].

Definition LoadBalancerSpec_ty : ty :=
  TStruct [("Zone", TPtr TString); ("Type", TPtr TString); ("IP", TPtr TString);
    ("AllowedRanges", TSlice TString)].

Definition ScalewayClusterSpec_ty : ty :=
  TStruct [("ControlPlaneEndpoint", APIEndpoint_ty); ("FailureDomains", TSlice TString);
    ("Region", TString); ("Network", TPtr NetworkSpec_ty);
    ("ControlPlaneLoadBalancer", TPtr LoadBalancerSpec_ty); ("ScalewaySecretName", TString)].

Definition NetworkStatus_ty : ty :=
  TStruct [("PrivateNetworkID", TPtr TString); ("PublicGatewayID", TPtr TString)].

Definition ScalewayClusterStatus_ty : ty :=
  TStruct [("Ready", TBool); ("FailureDomains", TMap FailureDomainSpec_ty);
    ("Network", TPtr NetworkStatus_ty)].

Definition ScalewayCluster_ty : ty :=
  TStruct [("TypeMeta", TypeMeta_ty); ("ObjectMeta", ObjectMeta_ty);
    ("Spec", ScalewayClusterSpec_ty); ("Status", ScalewayClusterStatus_ty)].

Definition ScalewayClusterList_ty : ty :=
  TStruct [("TypeMeta", TypeMeta_ty); ("ListMeta", ListMeta_ty);
    ("Items", TSlice ScalewayCluster_ty)].

Definition ScalewayClusterTemplateResource_ty : ty :=
  TStruct [("ObjectMeta", ObjectMeta_ty); ("Spec", ScalewayClusterSpec_ty)].

Definition ScalewayClusterTemplateSpec_ty : ty :=
  TStruct [("Template", ScalewayClusterTemplateResource_ty)].

Definition ScalewayClusterTemplate_ty : ty :=
  TStruct [("TypeMeta", TypeMeta_ty); ("ObjectMeta", ObjectMeta_ty);
    ("Spec", ScalewayClusterTemplateSpec_ty)].

Definition ScalewayClusterTemplateList_ty : ty :=
  TStruct [("TypeMeta", TypeMeta_ty); ("ListMeta", ListMeta_ty);
    ("Items", TSlice ScalewayClusterTemplate_ty)].

Definition ScalewayMachineSpec_ty : ty :=
  TStruct [("ProviderID", TPtr TString); ("Image", TString); ("Type", TString);
    ("RootVolumeSize", TPtr TInt); ("RootVolumeType", TPtr TString); ("PublicIP", TPtr TBool);
    ("SecurityGroupName", TPtr TString)].

Definition ScalewayMachineStatus_ty : ty :=
  TStruct [("Ready", TBool); ("Addresses", TSlice MachineAddress_ty)].

Definition ScalewayMachine_ty : ty :=
  TStruct [("TypeMeta", TypeMeta_ty); ("ObjectMeta", ObjectMeta_ty);
    ("Spec", ScalewayMachineSpec_ty); ("Status", ScalewayMachineStatus_ty)].

Definition ScalewayMachineList_ty : ty :=
  TStruct [("TypeMeta", TypeMeta_ty); ("ListMeta", ListMeta_ty);
    ("Items", TSlice ScalewayMachine_ty)].

Definition ScalewayMachineTemplateResource_ty : ty :=
  TStruct [("ObjectMeta", ObjectMeta_ty); ("Spec", ScalewayMachineSpec_ty)].

Definition ScalewayMachineTemplateSpec_ty : ty :=
  TStruct [("Template", ScalewayMachineTemplateResource_ty)].

Definition ScalewayMachineTemplate_ty : ty :=
  TStruct [("TypeMeta", TypeMeta_ty); ("ObjectMeta", ObjectMeta_ty);
    ("Spec", ScalewayMachineTemplateSpec_ty)].

Definition ScalewayMachineTemplateList_ty : ty :=
  TStruct [("TypeMeta", TypeMeta_ty); ("ListMeta", ListMeta_ty);
    ("Items", TSlice ScalewayMachineTemplate_ty)].

(** ** [DeepCopyInto] and [DeepCopy] *)

Definition PrivateNetworkSpec_DeepCopyInto : copier :=
  copy_struct [("ID", copy_new mret); ("Subnet", copy_new mret)].

Definition PrivateNetworkSpec_DeepCopy : option loc -> mem (option loc) :=
  deep_copy PrivateNetworkSpec_DeepCopyInto.

Definition PublicGatewaySpec_DeepCopyInto : copier :=
  copy_struct [("ID", copy_new mret); ("Type", copy_new mret); ("IP", copy_new mret);
    ("Zone", copy_new mret)].

Definition PublicGatewaySpec_DeepCopy : option loc -> mem (option loc) :=
  deep_copy PublicGatewaySpec_DeepCopyInto.

Definition SecurityGroupRule_DeepCopyInto : copier :=
  copy_struct [("Protocol", copy_new mret); ("Ports", copy_new mret); ("IPRange", copy_new mret)].

Definition SecurityGroupRule_DeepCopy : option loc -> mem (option loc) :=
  deep_copy SecurityGroupRule_DeepCopyInto.

Definition SecurityGroupPolicy_DeepCopyInto : copier :=
  copy_struct [("Default", copy_new mret); ("Rules", copy_make SecurityGroupRule_DeepCopyInto)].

Definition SecurityGroupPolicy_DeepCopy : option loc -> mem (option loc) :=
  deep_copy SecurityGroupPolicy_DeepCopyInto.

Definition SecurityGroup_DeepCopyInto : copier :=
  copy_struct [("Inbound", copy_new SecurityGroupPolicy_DeepCopyInto);
    ("Outbound", copy_new SecurityGroupPolicy_DeepCopyInto)].

Definition SecurityGroup_DeepCopy : option loc -> mem (option loc) :=
  deep_copy SecurityGroup_DeepCopyInto.

Definition NetworkSpec_DeepCopyInto : copier :=
  copy_struct [("PrivateNetwork", copy_new PrivateNetworkSpec_DeepCopyInto);
    ("PublicGateway", copy_new PublicGatewaySpec_DeepCopyInto);
    ("SecurityGroups", copy_make SecurityGroup_DeepCopyInto)].

Definition NetworkSpec_DeepCopy : option loc -> mem (option loc) :=
  deep_copy NetworkSpec_DeepCopyInto.

Definition LoadBalancerSpec_DeepCopyInto : copier :=
  copy_struct [("Zone", copy_new mret); ("Type", copy_new mret); ("IP", copy_new mret);
    ("AllowedRanges", copy_make mret)].

Definition LoadBalancerSpec_DeepCopy : option loc -> mem (option loc) :=
  deep_copy LoadBalancerSpec_DeepCopyInto.

Definition ScalewayClusterSpec_DeepCopyInto : copier :=
  copy_struct [("ControlPlaneEndpoint", mret); ("FailureDomains", copy_make mret);
    ("Network", copy_new NetworkSpec_DeepCopyInto);
    ("ControlPlaneLoadBalancer", copy_new LoadBalancerSpec_DeepCopyInto)].

Definition ScalewayClusterSpec_DeepCopy : option loc -> mem (option loc) :=
  deep_copy ScalewayClusterSpec_DeepCopyInto.

Definition NetworkStatus_DeepCopyInto : copier :=
  copy_struct [("PrivateNetworkID", copy_new mret); ("PublicGatewayID", copy_new mret)].

Definition NetworkStatus_DeepCopy : option loc -> mem (option loc) :=
  deep_copy NetworkStatus_DeepCopyInto.

Definition ScalewayClusterStatus_DeepCopyInto : copier :=
  copy_struct [("FailureDomains", copy_map (copy_value FailureDomainSpec_DeepCopy));
    ("Network", copy_new NetworkStatus_DeepCopyInto)].

Definition ScalewayClusterStatus_DeepCopy : option loc -> mem (option loc) :=
  deep_copy ScalewayClusterStatus_DeepCopyInto.

Definition ScalewayCluster_DeepCopyInto : copier :=
  copy_struct [("TypeMeta", mret); ("ObjectMeta", ObjectMeta_DeepCopyInto);
    ("Spec", ScalewayClusterSpec_DeepCopyInto); ("Status", ScalewayClusterStatus_DeepCopyInto)].

Definition ScalewayCluster_DeepCopy : option loc -> mem (option loc) :=
  deep_copy ScalewayCluster_DeepCopyInto.

Definition ScalewayCluster_DeepCopyObject : option loc -> mem iface :=
  copy_object "ScalewayCluster" ScalewayCluster_DeepCopy.

Definition ScalewayClusterList_DeepCopyInto : copier :=
  copy_struct [("TypeMeta", mret); ("ListMeta", ListMeta_DeepCopyInto);
    ("Items", copy_make ScalewayCluster_DeepCopyInto)].

Definition ScalewayClusterList_DeepCopy : option loc -> mem (option loc) :=
  deep_copy ScalewayClusterList_DeepCopyInto.

Definition ScalewayClusterList_DeepCopyObject : option loc -> mem iface :=
  copy_object "ScalewayClusterList" ScalewayClusterList_DeepCopy.

Definition ScalewayClusterTemplateResource_DeepCopyInto : copier :=
  copy_struct [("ObjectMeta", ObjectMeta_DeepCopyInto);
    ("Spec", ScalewayClusterSpec_DeepCopyInto)].

Definition ScalewayClusterTemplateResource_DeepCopy : option loc -> mem (option loc) :=
  deep_copy ScalewayClusterTemplateResource_DeepCopyInto.

Definition ScalewayClusterTemplateSpec_DeepCopyInto : copier :=
  copy_struct [("Template", ScalewayClusterTemplateResource_DeepCopyInto)].

Definition ScalewayClusterTemplateSpec_DeepCopy : option loc -> mem (option loc) :=
  deep_copy ScalewayClusterTemplateSpec_DeepCopyInto.

Definition ScalewayClusterTemplate_DeepCopyInto : copier :=
  copy_struct [("TypeMeta", mret); ("ObjectMeta", ObjectMeta_DeepCopyInto);
    ("Spec", ScalewayClusterTemplateSpec_DeepCopyInto)].

Definition ScalewayClusterTemplate_DeepCopy : option loc -> mem (option loc) :=
  deep_copy ScalewayClusterTemplate_DeepCopyInto.

Definition ScalewayClusterTemplate_DeepCopyObject : option loc -> mem iface :=
  copy_object "ScalewayClusterTemplate" ScalewayClusterTemplate_DeepCopy.

Definition ScalewayClusterTemplateList_DeepCopyInto : copier :=
  copy_struct [("TypeMeta", mret); ("ListMeta", ListMeta_DeepCopyInto);
    ("Items", copy_make ScalewayClusterTemplate_DeepCopyInto)].

Definition ScalewayClusterTemplateList_DeepCopy : option loc -> mem (option loc) :=
  deep_copy ScalewayClusterTemplateList_DeepCopyInto.

Definition ScalewayClusterTemplateList_DeepCopyObject : option loc -> mem iface :=
  copy_object "ScalewayClusterTemplateList" ScalewayClusterTemplateList_DeepCopy.

Definition ScalewayMachineSpec_DeepCopyInto : copier :=
  copy_struct [("ProviderID", copy_new mret); ("RootVolumeSize", copy_new mret);
    ("RootVolumeType", copy_new mret); ("PublicIP", copy_new mret);
    ("SecurityGroupName", copy_new mret)].

Definition ScalewayMachineSpec_DeepCopy : option loc -> mem (option loc) :=
  deep_copy ScalewayMachineSpec_DeepCopyInto.

Definition ScalewayMachineStatus_DeepCopyInto : copier :=
  copy_struct [("Addresses", copy_make mret)].

Definition ScalewayMachineStatus_DeepCopy : option loc -> mem (option loc) :=
  deep_copy ScalewayMachineStatus_DeepCopyInto.

Definition ScalewayMachine_DeepCopyInto : copier :=
  copy_struct [("TypeMeta", mret); ("ObjectMeta", ObjectMeta_DeepCopyInto);
    ("Spec", ScalewayMachineSpec_DeepCopyInto); ("Status", ScalewayMachineStatus_DeepCopyInto)].

Definition ScalewayMachine_DeepCopy : option loc -> mem (option loc) :=
  deep_copy ScalewayMachine_DeepCopyInto.

Definition ScalewayMachine_DeepCopyObject : option loc -> mem iface :=
  copy_object "ScalewayMachine" ScalewayMachine_DeepCopy.

Definition ScalewayMachineList_DeepCopyInto : copier :=
  copy_struct [("TypeMeta", mret); ("ListMeta", ListMeta_DeepCopyInto);
    ("Items", copy_make ScalewayMachine_DeepCopyInto)].

Definition ScalewayMachineList_DeepCopy : option loc -> mem (option loc) :=
  deep_copy ScalewayMachineList_DeepCopyInto.

Definition ScalewayMachineList_DeepCopyObject : option loc -> mem iface :=
  copy_object "ScalewayMachineList" ScalewayMachineList_DeepCopy.

Definition ScalewayMachineTemplateResource_DeepCopyInto : copier :=
  copy_struct [("ObjectMeta", ObjectMeta_DeepCopyInto);
    ("Spec", ScalewayMachineSpec_DeepCopyInto)].

Definition ScalewayMachineTemplateResource_DeepCopy : option loc -> mem (option loc) :=
  deep_copy ScalewayMachineTemplateResource_DeepCopyInto.

Definition ScalewayMachineTemplateSpec_DeepCopyInto : copier :=
  copy_struct [("Template", ScalewayMachineTemplateResource_DeepCopyInto)].

Definition ScalewayMachineTemplateSpec_DeepCopy : option loc -> mem (option loc) :=
  deep_copy ScalewayMachineTemplateSpec_DeepCopyInto.

Definition ScalewayMachineTemplate_DeepCopyInto : copier :=
  copy_struct [("TypeMeta", mret); ("ObjectMeta", ObjectMeta_DeepCopyInto);
    ("Spec", ScalewayMachineTemplateSpec_DeepCopyInto)].

Definition ScalewayMachineTemplate_DeepCopy : option loc -> mem (option loc) :=
  deep_copy ScalewayMachineTemplate_DeepCopyInto.

Definition ScalewayMachineTemplate_DeepCopyObject : option loc -> mem iface :=
  copy_object "ScalewayMachineTemplate" ScalewayMachineTemplate_DeepCopy.

Definition ScalewayMachineTemplateList_DeepCopyInto : copier :=
  copy_struct [("TypeMeta", mret); ("ListMeta", ListMeta_DeepCopyInto);
    ("Items", copy_make ScalewayMachineTemplate_DeepCopyInto)].

Definition ScalewayMachineTemplateList_DeepCopy : option loc -> mem (option loc) :=
  deep_copy ScalewayMachineTemplateList_DeepCopyInto.

Definition ScalewayMachineTemplateList_DeepCopyObject : option loc -> mem iface :=
  copy_object "ScalewayMachineTemplateList" ScalewayMachineTemplateList_DeepCopy.

(** ** Registration with the scheme *)

(** A type that implements [runtime.Object]. *)
Record Object := {
  ob_Kind : string;
  ob_type : ty;
  ob_DeepCopyObject : option loc -> mem iface;
}.

(** The argument lists of the calls of [SchemeBuilder.Register] in the [init] functions. *)
Definition scalewaycluster_init : list Object :=
  [{| ob_Kind := "ScalewayCluster"; ob_type := ScalewayCluster_ty;
      ob_DeepCopyObject := ScalewayCluster_DeepCopyObject |};
   {| ob_Kind := "ScalewayClusterList"; ob_type := ScalewayClusterList_ty;
      ob_DeepCopyObject := ScalewayClusterList_DeepCopyObject |}].

Definition scalewayclustertemplate_init : list Object :=
  [{| ob_Kind := "ScalewayClusterTemplate"; ob_type := ScalewayClusterTemplate_ty;
      ob_DeepCopyObject := ScalewayClusterTemplate_DeepCopyObject |};
   {| ob_Kind := "ScalewayClusterTemplateList"; ob_type := ScalewayClusterTemplateList_ty;
      ob_DeepCopyObject := ScalewayClusterTemplateList_DeepCopyObject |}].

Definition scalewaymachine_init : list Object :=
  [{| ob_Kind := "ScalewayMachine"; ob_type := ScalewayMachine_ty;
      ob_DeepCopyObject := ScalewayMachine_DeepCopyObject |};
   {| ob_Kind := "ScalewayMachineList"; ob_type := ScalewayMachineList_ty;
      ob_DeepCopyObject := ScalewayMachineList_DeepCopyObject |}].

Definition scalewaymachinetemplate_init : list Object :=
  [{| ob_Kind := "ScalewayMachineTemplate"; ob_type := ScalewayMachineTemplate_ty;
      ob_DeepCopyObject := ScalewayMachineTemplate_DeepCopyObject |};
   {| ob_Kind := "ScalewayMachineTemplateList"; ob_type := ScalewayMachineTemplateList_ty;
      ob_DeepCopyObject := ScalewayMachineTemplateList_DeepCopyObject |}].

(** What [AddToScheme] gives to the scheme under [GroupVersion]: Go runs the [init]
    functions of a package in the order of its files. *)
Definition SchemeBuilder : list Object :=
  scalewaycluster_init ++ scalewayclustertemplate_init ++ scalewaymachine_init ++
  scalewaymachinetemplate_init.

End api.

(** ** The generated methods copy deep *)

(** A field's copier is of the field's type. *)
Ltac field_copier :=
  eexists; split; [repeat first [apply list_elem_of_here | apply list_elem_of_further] | cbn; apply _].

Ltac struct_copier :=
  apply copy_struct_copier; [vm_compute; reflexivity|];
  repeat (apply Forall_cons; split; [field_copier|]); constructor.

#[export] Hint Extern 1 (Copier mret _) => apply flat_copier; reflexivity : typeclass_instances.

Section laws.
Context `{MetaLaws}.

#[export] Instance PrivateNetworkSpec_copier : Copier PrivateNetworkSpec_DeepCopyInto PrivateNetworkSpec_ty.
Proof. struct_copier. Qed.

#[export] Instance PublicGatewaySpec_copier : Copier PublicGatewaySpec_DeepCopyInto PublicGatewaySpec_ty.
Proof. struct_copier. Qed.

#[export] Instance SecurityGroupRule_copier : Copier SecurityGroupRule_DeepCopyInto SecurityGroupRule_ty.
Proof. struct_copier. Qed.

#[export] Instance SecurityGroupPolicy_copier : Copier SecurityGroupPolicy_DeepCopyInto SecurityGroupPolicy_ty.
Proof. struct_copier. Qed.

#[export] Instance SecurityGroup_copier : Copier SecurityGroup_DeepCopyInto SecurityGroup_ty.
Proof. struct_copier. Qed.

#[export] Instance NetworkSpec_copier : Copier NetworkSpec_DeepCopyInto NetworkSpec_ty.
Proof. struct_copier. Qed.

#[export] Instance LoadBalancerSpec_copier : Copier LoadBalancerSpec_DeepCopyInto LoadBalancerSpec_ty.
Proof. struct_copier. Qed.

#[export] Instance ScalewayClusterSpec_copier : Copier ScalewayClusterSpec_DeepCopyInto ScalewayClusterSpec_ty.
Proof. struct_copier. Qed.

#[export] Instance NetworkStatus_copier : Copier NetworkStatus_DeepCopyInto NetworkStatus_ty.
Proof. struct_copier. Qed.

#[export] Instance ScalewayClusterStatus_copier : Copier ScalewayClusterStatus_DeepCopyInto ScalewayClusterStatus_ty.
Proof. struct_copier. Qed.

#[export] Instance ScalewayCluster_copier : Copier ScalewayCluster_DeepCopyInto ScalewayCluster_ty.
Proof. struct_copier. Qed.

#[export] Instance ScalewayClusterList_copier : Copier ScalewayClusterList_DeepCopyInto ScalewayClusterList_ty.
Proof. struct_copier. Qed.

#[export] Instance ScalewayClusterTemplateResource_copier : Copier ScalewayClusterTemplateResource_DeepCopyInto ScalewayClusterTemplateResource_ty.
Proof. struct_copier. Qed.

#[export] Instance ScalewayClusterTemplateSpec_copier : Copier ScalewayClusterTemplateSpec_DeepCopyInto ScalewayClusterTemplateSpec_ty.
Proof. struct_copier. Qed.

#[export] Instance ScalewayClusterTemplate_copier : Copier ScalewayClusterTemplate_DeepCopyInto ScalewayClusterTemplate_ty.
Proof. struct_copier. Qed.

#[export] Instance ScalewayClusterTemplateList_copier : Copier ScalewayClusterTemplateList_DeepCopyInto ScalewayClusterTemplateList_ty.
Proof. struct_copier. Qed.

#[export] Instance ScalewayMachineSpec_copier : Copier ScalewayMachineSpec_DeepCopyInto ScalewayMachineSpec_ty.
Proof. struct_copier. Qed.

#[export] Instance ScalewayMachineStatus_copier : Copier ScalewayMachineStatus_DeepCopyInto ScalewayMachineStatus_ty.
Proof. struct_copier. Qed.

#[export] Instance ScalewayMachine_copier : Copier ScalewayMachine_DeepCopyInto ScalewayMachine_ty.
Proof. struct_copier. Qed.

#[export] Instance ScalewayMachineList_copier : Copier ScalewayMachineList_DeepCopyInto ScalewayMachineList_ty.
Proof. struct_copier. Qed.

#[export] Instance ScalewayMachineTemplateResource_copier : Copier ScalewayMachineTemplateResource_DeepCopyInto ScalewayMachineTemplateResource_ty.
Proof. struct_copier. Qed.

#[export] Instance ScalewayMachineTemplateSpec_copier : Copier ScalewayMachineTemplateSpec_DeepCopyInto ScalewayMachineTemplateSpec_ty.
Proof. struct_copier. Qed.

#[export] Instance ScalewayMachineTemplate_copier : Copier ScalewayMachineTemplate_DeepCopyInto ScalewayMachineTemplate_ty.
Proof. struct_copier. Qed.

#[export] Instance ScalewayMachineTemplateList_copier : Copier ScalewayMachineTemplateList_DeepCopyInto ScalewayMachineTemplateList_ty.
Proof. struct_copier. Qed.

(** A type whose [DeepCopyObject] copies deep. *)
Definition copies_deep (ob : Object) : Prop := forall h l,
  well_typed (TPtr (ob_type ob)) h (GPtr (Some l)) ->
  exists h' l', ob_DeepCopyObject ob (Some l) h = Some (h', Some (ob_Kind ob, Some l')) /\ h ⊆ h' /\
    copies (TPtr (ob_type ob)) h (GPtr (Some l)) h' (GPtr (Some l')).

Lemma object_copies_deep kind into t : Copier into t ->
  copies_deep {| ob_Kind := kind; ob_type := t; ob_DeepCopyObject := copy_object kind (deep_copy into) |}.
Proof. intros Hc h l. cbn [ob_type ob_DeepCopyObject ob_Kind]. apply copy_object_spec, deep_copy_copier, Hc. Qed.

Lemma registered_copy_deep : Forall copies_deep SchemeBuilder.
Proof.
  unfold SchemeBuilder, scalewaycluster_init, scalewayclustertemplate_init, scalewaymachine_init,
    scalewaymachinetemplate_init. cbn [app].
  repeat (apply Forall_cons; split; [eapply object_copies_deep|]); [| | | | | | | |constructor].
  - exact ScalewayCluster_copier.
  - exact ScalewayClusterList_copier.
  - exact ScalewayClusterTemplate_copier.
  - exact ScalewayClusterTemplateList_copier.
  - exact ScalewayMachine_copier.
  - exact ScalewayMachineList_copier.
  - exact ScalewayMachineTemplate_copier.
  - exact ScalewayMachineTemplateList_copier.
Qed.
End laws.

(** C18.  Deep copies are independent.  Take any type registered with the scheme and a
    pointer to one of its values in memory.  [DeepCopyObject] terminates without a fault
    and returns a pointer of that type; it writes to new memory only; what it returns has
    the same data, in new memory throughout: pointers, arrays and maps at every depth.
    So it has the original's data whatever is written to the original later, and writes to
    it do not change the original. *)
Theorem deep_copy_independent `{MetaLaws} (ob : Object) (h : heap) (l : loc) :
  ob ∈ SchemeBuilder -> well_typed (TPtr (ob_type ob)) h (GPtr (Some l)) ->
  exists h' l', ob_DeepCopyObject ob (Some l) h = Some (h', Some (ob_Kind ob, Some l')) /\
    (forall k c, h !! k = Some c -> h' !! k = Some c) /\
    (forall h2, (forall k, k ∉ dom h -> h2 !! k = h' !! k) ->
       copies (TPtr (ob_type ob)) h (GPtr (Some l)) h2 (GPtr (Some l'))).
Proof.
  intros Hob Hl. pose proof registered_copy_deep as Hall. rewrite Forall_forall in Hall.
  destruct (Hall ob Hob h l Hl) as (h' & l' & Hd & Hsub & Hcp).
  exists h', l'. split; [done|]. split; [intros k c Hk; exact (lookup_weaken _ _ _ _ Hk Hsub)|].
  intros h2 H2. eapply copies_survive, Hcp. exact H2.
Qed.

(** Metadata with labels and finalizers. *)
#[local] Instance sample_meta : MetaLib := {
  ObjectMeta_ty := TStruct [("Name", TString); ("Labels", TMap TString); ("Finalizers", TSlice TString)];
  ObjectMeta_DeepCopyInto := copy_struct [("Labels", copy_map mret); ("Finalizers", copy_make mret)];
  ListMeta_ty := TStruct [("ResourceVersion", TString); ("RemainingItemCount", TPtr TInt)];
  ListMeta_DeepCopyInto := copy_struct [("RemainingItemCount", copy_new mret)];
  FailureDomainSpec_ty := TStruct [("ControlPlane", TBool); ("Attributes", TMap TString)];
  FailureDomainSpec_DeepCopy := deep_copy (copy_struct [("Attributes", copy_map mret)]);
}.

#[local] Instance sample_meta_laws : MetaLaws.
Proof. split; [| |apply deep_copy_copier]; cbn; struct_copier. Qed.

Definition sample_policy : gval :=
  GStruct [("Default", GPtr (Some 6%positive)); ("Rules", GSlice (Some (7%positive, 1%nat, 1%nat)))].

Definition sample_rule : gval :=
  GStruct [("Action", GString "Drop"); ("Protocol", GPtr None); ("Ports", GPtr (Some 8%positive));
    ("IPRange", GPtr None)].

(** A cluster whose network has a security group with two pointers to one policy, and a
    failure domain. *)
Definition sample_heap : heap := list_to_map [
  (1%positive, CVal (GStruct [
    ("TypeMeta", GStruct [("Kind", GString "ScalewayCluster"); ("APIVersion", GString "v1beta1")]);
    ("ObjectMeta", GStruct [("Name", GString "c"); ("Labels", GMap None);
       ("Finalizers", GSlice (Some (2%positive, 0%nat, 1%nat)))]);
    ("Spec", GStruct [
       ("ControlPlaneEndpoint", GStruct [("Host", GString ""); ("Port", GInt 0)]);
       ("FailureDomains", GSlice None); ("Region", GString "fr-par");
       ("Network", GPtr (Some 3%positive)); ("ControlPlaneLoadBalancer", GPtr None);
       ("ScalewaySecretName", GString "s")]);
    ("Status", GStruct [("Ready", GBool false); ("FailureDomains", GMap (Some 9%positive));
       ("Network", GPtr None)])]));
  (2%positive, CArray [GString "f"]);
  (3%positive, CVal (GStruct [("PrivateNetwork", GPtr None); ("PublicGateway", GPtr None);
    ("SecurityGroups", GSlice (Some (4%positive, 0%nat, 1%nat)))]));
  (4%positive, CArray [GStruct [("Name", GString "g"); ("Inbound", GPtr (Some 5%positive));
    ("Outbound", GPtr (Some 5%positive))]]);
  (5%positive, CVal sample_policy);
  (6%positive, CVal (GString "Accept"));
  (7%positive, CArray [sample_rule; sample_rule]);
  (8%positive, CVal (GString "22"));
  (9%positive, CMap {["fr-par-1" := GStruct [("ControlPlane", GBool true); ("Attributes", GMap None)]]})].

Definition sample_object : Object :=
  {| ob_Kind := "ScalewayCluster"; ob_type := ScalewayCluster_ty;
     ob_DeepCopyObject := ScalewayCluster_DeepCopyObject |}.

Lemma deep_copy_independent_witness :
  exists h' l', ob_DeepCopyObject sample_object (Some 1%positive) sample_heap =
      Some (h', Some (ob_Kind sample_object, Some l')) /\
    (forall k c, sample_heap !! k = Some c -> h' !! k = Some c) /\
    (forall h2, (forall k, k ∉ dom sample_heap -> h2 !! k = h' !! k) ->
       copies (TPtr (ob_type sample_object)) sample_heap (GPtr (Some 1%positive)) h2 (GPtr (Some l'))).
Proof.
  apply (deep_copy_independent sample_object sample_heap 1%positive).
  - apply list_elem_of_here.
  - apply typed_sound. vm_compute. reflexivity.
Defined.
